(* ===== verification/_CoqProject ===== *)
-Q . S2P
Prelude.v
Serial.v
Errors.v
Bhs.v
PduTactics.v
PduInitiator.v
PduTarget.v
Pdu.v
Ahs.v
Digest.v
GoIO.v
Framer.v
Conn.v
Pool.v
Chan.v
Router.v
Pump.v
Text.v
Negotiation.v
Crypto.v
Fmt.v
Stringer.v
Messages.v
Chap.v
Login.v
Config.v
Options.v
Types.v
Task.v
Reassembly.v
DataOut.v
CmdWindow.v
Session.v
Unsolicited.v
Lifecycle.v
TaskLoop.v
Tables.v
Write.v
Hazards.v
Recovery.v
Reconnect.v
Loops.v
States.v
Capture.v
Parse.v
Sense.v
Cdb.v
Responses.v
Discovery.v
ApiTypes.v
Api.v
Dial.v
Invariant.v
Target.v
Serving.v
Fair.v
System.v
Exchange.v
Served.v
ServedRead.v
ServedLogin.v
ServedStatus.v
