(* ===== verification/Prelude.v ===== *)
(** * Verification of the uiscsi initiator

    uiscsi is an iSCSI initiator (RFC 7143) in user space, in Go.  A program dials
    a target, which logs in and gives a session; it then issues SCSI commands, which
    many goroutines may do at once; the session multiplexes them on one TCP
    connection, keeps to the target's command window, moves the data, answers what
    the target sends on its own account, and reconnects when the connection is
    lost.  This library models the whole of it, from the bytes of a PDU to the
    methods of the public interface, and proves what makes each part correct.

    ** How the program is put together

    - Encoding: [internal/pdu] is the 48-byte header of every PDU type,
      [internal/digest] the CRC32C digests, [internal/transport/framer.go] a PDU on
      a byte stream.
    - Connection: two pump goroutines own it ([transport/pump.go]).  The write pump
      drains a channel; the read pump hands every PDU to the goroutine registered
      for its initiator task tag (ITT) in the router ([transport/router.go]), or to
      the channel of unsolicited PDUs.
    - Login: [internal/login] exchanges key=value texts on the raw connection,
      authenticates by CHAP, and negotiates the parameters the session uses.
    - Session: [internal/session] allocates CmdSNs from the command window and ITTs
      from the router, runs one task loop for each command, and has goroutines for
      unsolicited PDUs and keepalive pings.  Recovery replaces the connection and
      submits the commands in flight again.
    - Commands: [internal/scsi] builds command descriptor blocks and parses what
      devices answer.  The root package wraps all this in the public interface.
    - The target of the repository ([src/test/target.go]) serves a connection with
      one handler for each opcode.  It is the other side in the theorems on the
      whole system.

    ** The files, in dependency order

    - This file: machine integers with their wrap-around, byte strings, big-endian
      fields, the result type [res] of fallible functions and its monad, list
      lemmas, automation.
    - [Serial]: serial number arithmetic ([serial/serial.go]).
    - [Errors]: the error values of all packages, wrapping, [errors.As].
    - [Bhs], [PduTactics], [PduInitiator], [PduTarget], [Pdu], [Ahs]: the PDU codec.
      [WirePDU] is the interface [PDU] of the source: a class of the operations of
      one PDU type with the law that decoding inverts encoding; the eighteen
      instances discharge it, and [Pdu] is written against the class.
    - [Digest], [GoIO], [Framer]: digests, Go readers and writers, framing.
    - [Conn]: the transport connection ([transport/conn.go]).
    - [Pool]: the tiered buffer pool ([transport/pool.go]).
    - [Chan]: Go channels, and the monad [SM] of operations that can block or panic.
    - [Router], [Pump]: routing and the pumps.
    - [Text], [Negotiation], [Crypto], [Chap], [Login]: the login phase.
    - [Fmt], [Stringer], [Messages]: the verbs of [fmt] and a scanner for what they
      print; the strings of PDUs; the messages of errors.
    - [Config], [Options]: the configuration of a session and the options of Dial.
    - [Types], [Task], [Reassembly], [DataOut]: commands and results, the methods of
      a task, Data-In reassembly, Data-Out bursts.
    - [CmdWindow]: the command window ([session/cmdwindow.go]).
    - [Session], [Unsolicited], [Lifecycle], [TaskLoop], [Tables], [Write],
      [Invariant]: the session: Submit and the task loop; pings and unsolicited
      PDUs; task management, logout, renegotiation, drain and close; reads and
      writes end to end; what every interleaving preserves, recoveries included.
    - [Hazards]: what the session does at the edges of the protocol.
    - [Recovery], [Reconnect]: reconnect (ERL 0) and connection replacement (ERL 2),
      and what becomes of the commands in flight.
    - [Loops]: the ends of the pumps, the dispatch loop, logout at the target's
      request, metrics.
    - [States], [Capture]: what the state-change hook hears; recording the PDUs that the
      PDU hook is called with.
    - [Parse], [Sense], [Cdb], [Responses]: SCSI command blocks, response parsers and
      sense data.
    - [Discovery]: SendTargets.
    - [ApiTypes], [Api], [Dial]: the public types, methods, Dial and Discover.
    - [Target], [Serving]: the target with its handlers, and what it answers.
    - [Fair]: turns of several actors, rounds in which each has one, and progress by
      a bound that every round lowers.
    - [System]: a session with its goroutines, the two byte streams and the target as
      one state, and a turn of each.
    - [Exchange]: a command and its answer through the system.  [Conversation] is the
      interface between the target's side of an exchange and the task's: a class of
      what is answered and how it is consumed, for whose instances
      [exchange_completes] is proved once.
    - [Served]: [Serves], what a target promises the callers of a session, and from it
      that any number of commands are carried out, one after the other.
    - [ServedRead], [ServedStatus], [ServedLogin]: the instances for reads and for
      commands answered by a status (through [Responds], the class of the handlers
      that send one SCSI Response), and the login against the target.

    ** How state and operations correspond to the code

    Definitions keep the names of the source.  A method is the function of the same
    name ([X_Method] where several types have it), a struct a record whose fields
    carry a prefix, a constant block a list of constants.

    - An unsigned integer of [w] bits is a [Z]; every conversion and every
      operation of the source that can wrap is written with [uint8], [uint16],
      [uint32] or [uint64].  A [[]byte] is a list of [Z], a Go string a [string].
    - A map is a [gmap].  Where the source ranges over one, the order is an argument
      or that of [map_to_list], and the theorem says what depends on it.
    - A function that returns an error returns [res].  One that can index out of
      range, dereference nil or send on a closed channel returns an option ([PR] of
      [Parse]) or the outcome [Panics] of [SM].
    - Shared objects (channels, tasks) live in stores addressed by position, because
      the source shares them by reference: a task is reached from the session's
      table, from its task loop and by the caller of Submit.
    - The operations of a session are transformers of its state [Session].  An
      operation that waits is split where it waits ([X_send]/[X_wait],
      [X_start]/[X_finish]), and between the parts any other operation can run.
      What the scheduler decides (the ready case a select takes, the expiry of a
      context) is an argument: [Sched], [CtxSched], [WaitSched], [TurnSched].  What
      others do while a recovery waits is an argument too: [Attempt], [Exchange],
      [Replacement].
      [CmdWindow.step], [Invariant.session_step] and [System.turn] are the
      interleavings as transition systems, the first and the last executable; the
      second interleaves at every lock and channel operation, of which every operation
      is shown to be made ([Invariant.piece], [Invariant.step_pieces]).
    - A goroutine that is started is recorded ([ss_loops], [ss_spawned]); its steps
      are the operations of its loop.  [System] schedules them.

    ** What the theorems show

    - End to end: a read ([TaskLoop.read_end_to_end]) and a write
      ([Write.write_end_to_end]), from Submit through the PDUs on the wire to the one
      Result; [Api.ReadBlocks_end_to_end] for the public method; the answer of
      discovery ([Discovery.discovery_end_to_end]); [Dial.dial_outcome] from the bytes
      of the login responses to the session; [Reconnect.read_survives_reconnect]
      across the loss of a connection.
    - Liveness of the whole system: against the target of the repository, every
      fair schedule of the goroutines of both sides completes a read with exactly
      the bytes asked for ([ServedRead.served_read_completes]) and any command with
      the status and sense data it is answered with
      ([ServedStatus.served_status_completes]), in a
      stated number of rounds and with the connection at rest afterwards; the
      target's login handler and the initiator's login agree
      ([ServedLogin.login_served]); and from the dial on, a
      list of reads of any length is carried out, each with its own result
      ([ServedLogin.dial_then_commands]; [ServedLogin.dial_serves] for every target
      that serves commands).
    - Invariants over interleavings: the tables of a session
      ([Invariant.session_invariant]); CmdSNs are distinct, without gaps, inside the
      window, and no waiter sleeps while one is to be had
      ([CmdWindow.acquire_distinct], [CmdWindow.acquire_in_window]); a one-shot
      registration never blocks the read pump ([Router.one_shot_send_never_blocks]).
    - Refinement and equivalence: reassembly in any arrival order is concatenation
      ([Reassembly.reassembly_any_order]); a burst is the list of pieces it should be
      ([DataOut.sendDataOutBurst_spec], [DataOut.handle_r2ts_delivers]); what the write
      pump of one side sends, the read pump of the other puts, PDU by PDU and in order,
      on the channel of each tag or of unsolicited PDUs, as far as there is a taker and
      room ([Pump.WritePump_ReadPump]); the interpretations of a SCSI status
      agree ([Api.status_errors_agree]).
    - Round trips: PDUs, frames, AHS, key=value texts, CHAP binary values, command
      blocks against a device's reading of them ([Cdb.decode_cdb]), sense data,
      LUN lists, portals; the strings of PDUs show the fields at the positions the
      protocol gives them ([Stringer.String_identifies]).
    - Functional specifications of login, negotiation and options
      ([Login.Login_None_spec], [Login.negotiation_outcome], [Options.dial_settings]),
      and safety of mutual CHAP ([Login.mutual_chap_authenticated]): what is agreed and
      what is accepted are stated without the functions that decide it.
    - Errors and bounds: damaged frames are refused ([Framer.ReadRawPDU_damaged]); the
      parsers of SCSI responses return on every input but one kind
      ([Responses.parsers_return]); serial comparison is exact up to half the circle
      ([Serial.InWindow_spec]).
    - Where the program does not do what it means to, the theorem states what it
      does: the files [Hazards], [Loops] and [Reconnect], and
      [CmdWindow.cancelled_acquire], [Api.large_LUN_panics], [Api.ReadCapacity_spec].

    ** Bounds and fuel

    Loops of the source that are not structural run on fuel computed from their
    input.  [UnmarshalAHS_loop], [parseDescriptors_loop] and [designators_loop]
    advance by at least one byte in an iteration and get the length of the data;
    [entries_loop] advances by eight and gets an eighth of it, and one;
    [format_digits] and [format_hex] get at least the digits of 64 bits; [drain_loop]
    one more than the pending PDUs, each iteration removing one; [burst_loop] two more
    than the bytes left in the reader, each iteration that goes on taking one; the
    target's [readMulti_loop], [r2t_loop] and [readDataOut_loop] one more than the
    bytes they send or have received.
    That this is enough is part of the theorems: [Sense.ParseSense_total] and the
    round trips for the parsers, [DataOut.sendDataOutBurst_spec] and
    [Reassembly.reassembly_any_order] for the loops of a task,
    [ServedRead.served_read_completes] for [readMulti_loop].  The loops that wait
    for the target (pumps, task loops, dispatch, keepalive, SendTargets) have no
    fuel: they are iterated by turns, over the list of what arrives, and the
    theorems say how many turns they take.

    The theorems on transfers bound their length by 2^32 bytes, which is the
    counters' range, and ask for room in the write channel: with a full channel the
    operation blocks, which the model says, until the write pump has made room.

    ** What is not modelled, and why

    - The texts of errors that only people read, beyond those of [Messages] and
      [ApiTypes]; an error is its format string and operands.
    - Logging; latencies in metrics; the duration of timeouts and backoffs, whose
      expiry is a nondeterministic event.
    - The operating system's network: a connection is what it delivers and accepts;
      [net.Dialer] is a parameter of [Dial].  [crypto/rand] is a parameter of the
      login.  MD5, CRC32C, base64 and hexadecimal are defined, and checked
      on published test vectors.
    - The pool of 48-byte headers, and the WaitGroups: that all goroutines of a
      connection have ended when it is replaced is the point from which [reconnect]
      goes on.
    - [System] has no cancelled contexts, hooks, keepalive ticks or recoveries; these
      are in [TaskLoop], [Loops] and [Reconnect], and among the steps of [Invariant].
    - Between two of its waits a recovery is not interrupted ([Invariant.session_step]).
      A send that would wait for room in the write channel while its operation runs
      uninterrupted blocks the operation, or, with a timeout, takes it ([Task.sendSNACK]).
    - Of [src/test/target.go]: listening, accepting and closing.  [src/test/lio] is file
      and process I/O on a kernel's target, [src/examples] are demonstrations that call
      the public interface and print. *)
From stdpp Require Export prelude list gmap strings.
From Stdlib Require Export ZArith Lia.
#[export] Set Default Proof Using "Type".
#[local] Open Scope Z_scope.

(** * Machine integers

    An unsigned [w]-bit Go integer is a [Z] in [0, 2^w); the conversions and
    the arithmetic of the source wrap around and are written out. *)

Definition in_width (w z : Z) : Prop := 0 <= z < 2 ^ w.
Abbreviation u8 := (in_width 8).
Abbreviation u16 := (in_width 16).
Abbreviation u24 := (in_width 24).
Abbreviation u32 := (in_width 32).
Abbreviation u64 := (in_width 64).

#[export] Instance in_width_dec w z : Decision (in_width w z).
Proof. unfold in_width. apply _. Defined.

Definition wrap (w z : Z) : Z := z mod 2 ^ w.
Abbreviation uint8 := (wrap 8).
Abbreviation uint16 := (wrap 16).
Abbreviation uint32 := (wrap 32).
Abbreviation uint64 := (wrap 64).

(** [intN x] of an unsigned [w]-bit [x]: the two's complement reading. *)
Definition to_signed (w z : Z) : Z := if z <? 2 ^ (w - 1) then z else z - 2 ^ w.

(** Bytes are 8-bit integers; [bytes_ok] is the type invariant of [byte lists]. *)
Abbreviation bytes := (list Z).
Abbreviation bytes_ok := (Forall u8).

(** [b & m != 0] *)
Definition has_bit (b m : Z) : bool := negb (Z.land b m =? 0).

(** [if f { b |= m }], as the value or-ed in *)
Definition flag (f : bool) (m : Z) : Z := if f then m else 0.

Create HintDb width.
Create HintDb len.

Lemma wrap_range w z : 0 <= w -> in_width w (wrap w z).
Proof. intros Hw. unfold in_width, wrap. apply Z.mod_pos_bound. lia. Qed.

Lemma wrap_id w z : in_width w z -> wrap w z = z.
Proof. intros Hz. apply Z.mod_small, Hz. Qed.

Lemma in_width_mono w w' z : w <= w' -> in_width w z -> in_width w' z.
Proof.
  unfold in_width. intros Hw [H0 H1]. split; [done|].
  eapply Z.lt_le_trans; [done|]. apply Z.pow_le_mono_r; lia.
Qed.

Lemma in_width_0 w : 0 <= w -> in_width w 0.
Proof. intros. unfold in_width. lia. Qed.

#[export] Hint Resolve wrap_range in_width_0 : width.
#[export] Hint Extern 3 (Z.le _ _) => lia : width.

Ltac width :=
  repeat match goal with H : in_width _ _ |- _ => unfold in_width in H end;
  unfold in_width, wrap in *; lia.

(** ** Bit fields *)

Lemma land_ones_id k z : 0 <= k -> in_width k z -> Z.land z (Z.ones k) = z.
Proof. intros Hk Hz. rewrite Z.land_ones by done. by apply Z.mod_small. Qed.

Lemma land_ones_width k z : 0 <= k -> in_width k (Z.land z (Z.ones k)).
Proof.
  intros Hk. rewrite Z.land_ones by done.
  unfold in_width. apply Z.mod_pos_bound. lia.
Qed.

Lemma has_bit_lor a b m : has_bit (Z.lor a b) m = has_bit a m || has_bit b m.
Proof.
  unfold has_bit. rewrite Z.land_lor_distr_l.
  destruct (Z.eqb_spec (Z.land a m) 0) as [->|Ha];
    destruct (Z.eqb_spec (Z.land b m) 0) as [->|Hb]; try done; simpl.
  all: rewrite negb_true_iff, Z.eqb_neq, Z.lor_eq_0_iff; tauto.
Qed.

Lemma has_bit_flag f k m : has_bit (flag f k) m = f && has_bit k m.
Proof. by destruct f. Qed.

Lemma has_bit_land a k m : Z.land k m = 0 -> has_bit (Z.land a k) m = false.
Proof. intros H. unfold has_bit. by rewrite <- Z.land_assoc, H, Z.land_0_r. Qed.

Lemma land_flag_0 f k m : Z.land k m = 0 -> Z.land (flag f k) m = 0.
Proof. by destruct f. Qed.

Lemma land_land_0 a k m : Z.land k m = 0 -> Z.land (Z.land a k) m = 0.
Proof. intros H. by rewrite <- Z.land_assoc, H, Z.land_0_r. Qed.

Lemma land_shiftl_low a b n : 0 <= n -> in_width n b ->
  Z.land (Z.shiftl a n) b = 0.
Proof.
  intros Hn Hb. apply Z.bits_inj'. intros i Hi.
  rewrite Z.land_spec, Z.bits_0, Z.shiftl_spec by done.
  destruct (decide (i < n)).
  - by rewrite Z.testbit_neg_r by lia.
  - apply andb_false_iff. right. rewrite <- (Z.mod_small b (2 ^ n)) by done.
    apply Z.mod_pow2_bits_high. lia.
Qed.

(** A shifted field above a narrower one is their sum. *)
Lemma lor_shiftl_add a b n : 0 <= n -> in_width n b ->
  Z.lor (Z.shiftl a n) b = a * 2 ^ n + b.
Proof.
  intros Hn Hb. pose proof (Z.add_lor_land (Z.shiftl a n) b) as H.
  rewrite land_shiftl_low in H by done. rewrite Z.shiftl_mul_pow2 in * by done. lia.
Qed.

Lemma lor_width k a b : 0 <= k -> in_width k a -> in_width k b -> in_width k (Z.lor a b).
Proof.
  intros Hk Ha Hb. rewrite <- (land_ones_id k a), <- (land_ones_id k b) by done.
  rewrite <- Z.land_lor_distr_l. by apply land_ones_width.
Qed.

Lemma land_width k a b : 0 <= k -> in_width k a -> in_width k (Z.land a b).
Proof.
  intros Hk Ha. rewrite <- (land_ones_id k a), <- Z.land_assoc, (Z.land_comm _ b),
    Z.land_assoc by done. by apply land_ones_width.
Qed.

Lemma flag_width k f m : 0 <= k -> in_width k m -> in_width k (flag f m).
Proof. destruct f; simpl; auto with width. Qed.

(** * Lists of bytes *)

(** [l[a:a+n]] *)
Definition sub {A} (a n : nat) (l : list A) : list A := take n (drop a l).

(** [copy(l[a:], bs)] where [bs] fits *)
Definition upd {A} (a : nat) (bs l : list A) : list A :=
  take a l ++ bs ++ drop (a + length bs) l.

(** [l[a]] *)
Definition byte_at (a : nat) (l : bytes) : Z := default 0 (head (sub a 1 l)).

(** [l[a] |= v] *)
Definition or_byte (a : nat) (v : Z) (l : bytes) : bytes :=
  upd a [Z.lor (byte_at a l) v] l.

Definition zeros (n : nat) : bytes := replicate n 0.

Section sub_upd.
Context {A : Type}.
Implicit Types (l bs : list A) (a b n : nat).

Lemma length_upd n a bs l :
  length l = n -> (a + length bs <= n)%nat -> length (upd a bs l) = n.
Proof. intros. unfold upd. rewrite !length_app, length_take, length_drop. lia. Qed.

Lemma length_sub a n l : (a + n <= length l)%nat -> length (sub a n l) = n.
Proof. intros. unfold sub. rewrite length_take, length_drop. lia. Qed.

Lemma sub_upd_same a n bs l :
  length bs = n -> (a <= length l)%nat -> sub a n (upd a bs l) = bs.
Proof.
  intros Hn Ha. unfold sub, upd.
  rewrite drop_app_le by (rewrite length_take; lia).
  rewrite (drop_ge (take _ _)) by (rewrite length_take; lia). simpl.
  rewrite take_app_le by lia. rewrite take_ge by lia. done.
Qed.

Lemma sub_upd_other a n b bs l :
  (a + n <= b)%nat \/ (b + length bs <= a)%nat ->
  (b + length bs <= length l)%nat ->
  sub a n (upd b bs l) = sub a n l.
Proof.
  intros Hd Hb. apply list_eq. intros i. unfold sub, upd.
  destruct (decide (i < n)%nat) as [Hi|Hi].
  2: { rewrite !lookup_take_ge by lia. done. }
  rewrite !lookup_take_lt, !lookup_drop by lia.
  destruct Hd.
  - rewrite lookup_app_l by (rewrite length_take; lia).
    by rewrite lookup_take_lt by lia.
  - rewrite lookup_app_r by (rewrite length_take; lia).
    rewrite lookup_app_r by (rewrite length_take; lia).
    rewrite lookup_drop. f_equal. rewrite length_take. lia.
Qed.

(** Adjacent slices: [l[a:a+n+m]] is [l[a:a+n]] followed by [l[a+n:a+n+m]]. *)
Lemma sub_split a n m l : sub a (n + m) l = sub a n l ++ sub (a + n) m l.
Proof.
  unfold sub. rewrite <- (take_drop n (drop a l)) at 1.
  rewrite drop_drop.
  destruct (decide (n <= length (drop a l))%nat) as [H|H].
  - rewrite take_app_ge by (rewrite length_take; lia).
    rewrite length_take. do 2 f_equal. lia.
  - rewrite (drop_ge l (a + n)) by (rewrite length_drop in H; lia).
    rewrite !app_nil_r, take_nil, app_nil_r. rewrite take_take. f_equal. lia.
Qed.

Lemma sub_all l n : length l = n -> sub 0 n l = l.
Proof. intros. unfold sub. rewrite drop_0. by apply take_ge; lia. Qed.

Lemma sub_app_l a n l l' : (a + n <= length l)%nat -> sub a n (l ++ l') = sub a n l.
Proof.
  intros. unfold sub. rewrite drop_app_le by lia.
  rewrite take_app_le; [done|]. rewrite length_drop. lia.
Qed.

Lemma sub_app_r a n l l' : (length l <= a)%nat -> sub a n (l ++ l') = sub (a - length l) n l'.
Proof. intros. unfold sub. by rewrite drop_app_ge by lia. Qed.

Lemma Forall_sub (P : A -> Prop) a n l : Forall P l -> Forall P (sub a n l).
Proof. intros. unfold sub. by apply Forall_take, Forall_drop. Qed.

Lemma Forall_upd (P : A -> Prop) a bs l : Forall P bs -> Forall P l -> Forall P (upd a bs l).
Proof. intros. unfold upd. auto using Forall_app_2, Forall_take, Forall_drop. Qed.
End sub_upd.

Lemma byte_at_upd_same a v l : (a < length l)%nat -> byte_at a (upd a [v] l) = v.
Proof. intros. unfold byte_at. by rewrite sub_upd_same by (simpl; lia). Qed.

Lemma byte_at_upd_other a b bs l :
  (a + 1 <= b)%nat \/ (b + length bs <= a)%nat ->
  (b + length bs <= length l)%nat ->
  byte_at a (upd b bs l) = byte_at a l.
Proof. intros. unfold byte_at. by rewrite sub_upd_other. Qed.

Lemma byte_at_lookup a l : byte_at a l = default 0 (l !! a).
Proof.
  unfold byte_at, sub. destruct (drop a l) eqn:E; simpl.
  - assert (length (drop a l) = 0%nat) as H by by rewrite E. rewrite length_drop in H.
    by rewrite lookup_ge_None_2 by lia.
  - rewrite <- (Nat.add_0_r a), <- lookup_drop, E. done.
Qed.

Lemma sub_1_byte a l : (a < length l)%nat -> sub a 1 l = [byte_at a l].
Proof.
  intros. pose proof (length_sub a 1 l ltac:(lia)) as Hl. unfold byte_at.
  by destruct (sub a 1 l) as [|x [|]]; simpl in *; try lia.
Qed.

Lemma byte_at_width a l : bytes_ok l -> u8 (byte_at a l).
Proof.
  intros Hl. rewrite byte_at_lookup. destruct (l !! a) eqn:E; simpl.
  - eapply Forall_lookup_1; eauto.
  - auto with width.
Qed.

(** * Byte order *)

Fixpoint le_bytes (n : nat) (z : Z) : bytes :=
  match n with
  | O => []
  | S n' => z mod 256 :: le_bytes n' (z / 256)
  end.

Fixpoint le_val (l : bytes) : Z :=
  match l with
  | [] => 0
  | b :: l' => b + 256 * le_val l'
  end.

Definition be_bytes (n : nat) (z : Z) : bytes := reverse (le_bytes n z).
Definition be_val (l : bytes) : Z := le_val (reverse l).

(** [binary.BigEndian.PutUint32(l[a:a+4], v)] and [binary.BigEndian.Uint32(l[a:a+4])],
    and their 16 and 64 bit versions *)
Definition put_be (n a : nat) (v : Z) (l : bytes) : bytes := upd a (be_bytes n v) l.
Definition get_be (n a : nat) (l : bytes) : Z := be_val (sub a n l).

Lemma length_le_bytes n z : length (le_bytes n z) = n.
Proof. revert z; induction n; intros; simpl; auto. Qed.

Lemma length_be_bytes n z : length (be_bytes n z) = n.
Proof. unfold be_bytes. by rewrite length_reverse, length_le_bytes. Qed.

Lemma le_val_bytes n z : le_val (le_bytes n z) = z mod 2 ^ (8 * Z.of_nat n).
Proof.
  revert z; induction n as [|n IH]; intros z; simpl le_bytes; simpl le_val.
  - by rewrite Z.mod_1_r.
  - rewrite IH. replace (8 * Z.of_nat (S n)) with (8 + 8 * Z.of_nat n) by lia.
    rewrite Z.pow_add_r by lia. change (2 ^ 8) with 256.
    rewrite (Z.rem_mul_r z 256) by lia. lia.
Qed.

Lemma be_val_bytes n z : be_val (be_bytes n z) = z mod 2 ^ (8 * Z.of_nat n).
Proof. unfold be_val, be_bytes. by rewrite reverse_involutive, le_val_bytes. Qed.

Lemma be_val_bytes_id n z : in_width (8 * Z.of_nat n) z -> be_val (be_bytes n z) = z.
Proof. intros. rewrite be_val_bytes. by apply Z.mod_small. Qed.

Lemma le_bytes_val l : bytes_ok l -> le_bytes (length l) (le_val l) = l.
Proof.
  induction 1 as [|b l Hb Hl IH]; [done|]. simpl.
  rewrite (Z.mul_comm 256), Z.mod_add, Z.div_add by lia.
  rewrite Z.mod_small, Z.div_small, Z.add_0_l, IH by (unfold in_width in Hb; lia). done.
Qed.

Lemma be_bytes_val l : bytes_ok l -> be_bytes (length l) (be_val l) = l.
Proof.
  intros. unfold be_bytes, be_val. rewrite <- (length_reverse l), le_bytes_val.
  - apply reverse_involutive.
  - by apply Forall_reverse.
Qed.

Lemma le_bytes_ok n z : bytes_ok (le_bytes n z).
Proof.
  revert z; induction n; intros; simpl; constructor; auto.
  unfold in_width. apply Z.mod_pos_bound. lia.
Qed.

Lemma be_bytes_ok n z : bytes_ok (be_bytes n z).
Proof. apply Forall_reverse, le_bytes_ok. Qed.

Lemma le_val_width l : bytes_ok l -> in_width (8 * Z.of_nat (length l)) (le_val l).
Proof.
  induction 1 as [|b l Hb Hl IH]; [unfold in_width; simpl; lia|].
  cbn [le_val length]. replace (8 * Z.of_nat (S (length l))) with (8 + 8 * Z.of_nat (length l)) by lia.
  unfold in_width in *. rewrite Z.pow_add_r by lia. change (2 ^ 8) with 256 in *. nia.
Qed.

Lemma be_val_width l : bytes_ok l -> in_width (8 * Z.of_nat (length l)) (be_val l).
Proof.
  intros. unfold be_val. rewrite <- (length_reverse l). by apply le_val_width, Forall_reverse.
Qed.

Lemma get_be_width n a l : bytes_ok l -> (a + n <= length l)%nat ->
  in_width (8 * Z.of_nat n) (get_be n a l).
Proof.
  intros. unfold get_be. rewrite <- (length_sub a n l) at 1 by done.
  by apply be_val_width, Forall_sub.
Qed.

Lemma length_zeros n : length (zeros n) = n.
Proof. apply length_replicate. Qed.

Lemma zeros_ok n : bytes_ok (zeros n).
Proof. apply Forall_replicate. auto with width. Qed.

#[export] Hint Resolve be_bytes_ok le_bytes_ok zeros_ok Forall_upd byte_at_width : width.

(** [length l = n] and its arithmetic consequences, through [upd] and [put_be] *)
Ltac len :=
  unfold or_byte, put_be in *;
  repeat first
    [ apply length_upd
    | rewrite length_be_bytes | rewrite length_zeros | rewrite length_upd with (n := 48%nat) ];
  simpl length in *;
  repeat (rewrite ?length_be_bytes, ?length_zeros);
  try lia.

(** * Results

    A fallible Go function returns [(value, error)]; here it is [Ok value] or
    [Err error].  The error values of every package are collected in
    [Errors.v]; the type is generic so that the prelude stays free of them. *)

Inductive result (E A : Type) : Type :=
  | Ok (a : A)
  | Err (e : E).
#[global] Arguments Ok {E A} a.
#[global] Arguments Err {E A} e.

#[export] Instance result_bind E : MBind (result E) := fun A B f m =>
  match m with Ok a => f a | Err e => Err e end.
#[export] Instance result_ret E : MRet (result E) := fun A a => Ok a.
#[export] Instance result_fmap E : FMap (result E) := fun A B f m =>
  match m with Ok a => Ok (f a) | Err e => Err e end.

Lemma result_bind_Ok {E A B} (m : result E A) (f : A -> result E B) b :
  m ≫= f = Ok b <-> exists a, m = Ok a /\ f a = Ok b.
Proof. destruct m; simpl; split; [by eauto|by intros (? & [= ->] & ?)|done|by intros (? & ? & ?)]. Qed.

Definition is_Ok {E A} (r : result E A) : bool := match r with Ok _ => true | Err _ => false end.

(** Closes a goal from contradictory equations inside existentials and conjunctions. *)
Ltac contra :=
  unfold not; intros;
  repeat match goal with
  | H : ex _ |- _ => destruct H
  | H : _ /\ _ |- _ => destruct H
  end; congruence.
