(* ===== verification/Serial.v ===== *)
(** RFC 1982 serial number arithmetic ([src/internal/serial/serial.go]).

    CmdSN, StatSN, DataSN and R2TSN are 32-bit counters that wrap around; the
    comparisons are by the sign of the 32-bit difference.  The specification
    used by the other files is the forward distance [dist lo sn]: how often
    [lo] is incremented to reach [sn]. *)
From S2P Require Import Prelude.
From Stdlib Require Import ZifyBool.
#[local] Open Scope Z_scope.

(** ** The comparisons *)

(** [int32(s1 - s2)] *)
Definition sdiff (s1 s2 : Z) : Z := to_signed 32 (uint32 (s1 - s2)).

Definition LessThan (s1 s2 : Z) : bool := negb (s1 =? s2) && (sdiff s1 s2 <? 0).

Definition GreaterThan (s1 s2 : Z) : bool := negb (s1 =? s2) && (sdiff s1 s2 >? 0).

Definition InWindow (sn lo hi : Z) : bool :=
  (sn =? lo) || (sn =? hi) || (GreaterThan sn lo && LessThan sn hi).

Definition Incr (s : Z) : Z := uint32 (s + 1).

(** ** Specification: forward distance on the circle *)

Definition dist (a b : Z) : Z := uint32 (b - a).

(** Unfold everything to linear arithmetic with remainders. *)
Ltac serial :=
  unfold LessThan, GreaterThan, InWindow, Incr, dist, sdiff, to_signed, wrap, in_width in *;
  change (2 ^ (32 - 1)) with 2147483648 in *; change (2 ^ 32) with 4294967296 in *;
  change (2 ^ 31) with 2147483648 in *;
  repeat match goal with |- context [if ?b then _ else _] => destruct b eqn:? end;
  Z.to_euclidean_division_equations; lia.

Lemma dist_width a b : u32 (dist a b).
Proof. apply wrap_range. lia. Qed.

Lemma dist_refl a : dist a a = 0.
Proof. unfold dist. by rewrite Z.sub_diag. Qed.

Lemma Incr_width s : u32 (Incr s).
Proof. apply wrap_range. lia. Qed.
#[export] Hint Resolve Incr_width dist_width : width.

Lemma dist_0 a b : u32 a -> u32 b -> dist a b = 0 <-> a = b.
Proof. serial. Qed.

Lemma dist_Incr a b : u32 a -> u32 b -> dist a b < 2 ^ 32 - 1 -> dist a (Incr b) = dist a b + 1.
Proof. serial. Qed.

Lemma LessThan_dist s1 s2 : u32 s1 -> u32 s2 ->
  LessThan s1 s2 = true <-> 0 < dist s1 s2 <= 2 ^ 31.
Proof. serial. Qed.

Lemma GreaterThan_dist s1 s2 : u32 s1 -> u32 s2 ->
  GreaterThan s1 s2 = true <-> 0 < dist s2 s1 < 2 ^ 31.
Proof. serial. Qed.

Lemma dist_chain a b c : u32 a -> u32 b -> u32 c ->
  dist a b + dist b c < 2 ^ 32 -> dist a c = dist a b + dist b c.
Proof. serial. Qed.

(** Distances seen from a common origin *)
Lemma dist_rebase o a b : u32 o -> u32 a -> u32 b ->
  dist a b = if dist o a <=? dist o b then dist o b - dist o a
             else dist o b - dist o a + 2 ^ 32.
Proof. serial. Qed.

Lemma dist_eq o a b : u32 o -> u32 a -> u32 b -> a = b <-> dist o a = dist o b.
Proof. serial. Qed.

Lemma dist_offset o k : 0 <= k < 2 ^ 32 -> dist o (uint32 (o + k)) = k.
Proof.
  intros Hk. unfold dist, wrap. rewrite Zminus_mod_idemp_l.
  replace (o + k - o) with k by lia. by apply Z.mod_small.
Qed.

(** Inside a window is not further than its end. *)
Lemma InWindow_dist sn lo hi : u32 sn -> u32 lo -> u32 hi -> dist lo hi < 2 ^ 31 ->
  InWindow sn lo hi = true <-> dist lo sn <= dist lo hi.
Proof.
  intros Hs Hl Hh Hw. unfold InWindow.
  rewrite !orb_true_iff, andb_true_iff, GreaterThan_dist, LessThan_dist, !Z.eqb_eq by done.
  rewrite (dist_rebase lo sn hi), (dist_eq lo sn hi) by done.
  rewrite (Z.eq_sym_iff sn lo), <- (dist_0 lo sn) by done.
  pose proof (dist_width lo sn). pose proof (dist_width lo hi). unfold in_width in *.
  destruct (Z.leb_spec (dist lo sn) (dist lo hi)); lia.
Qed.

(** ** Properties *)

(** C25.  [InWindow sn lo hi] is membership of the run [lo, lo+1, ..., hi] on the
    32-bit circle, wherever the run wraps around, for every window shorter
    than half the circle. *)
Theorem InWindow_spec (sn lo hi : Z) :
  u32 sn -> u32 lo -> u32 hi -> dist lo hi < 2 ^ 31 ->
  InWindow sn lo hi = true <-> dist lo sn <= dist lo hi.
Proof. apply InWindow_dist. Qed.

Lemma InWindow_spec_witness :
  InWindow 1 (2 ^ 32 - 2) 3 = true <-> dist (2 ^ 32 - 2) 1 <= dist (2 ^ 32 - 2) 3.
Proof. apply (InWindow_spec 1 (2 ^ 32 - 2) 3); by vm_compute. Defined.

(** Counting from any origin, the serial comparison agrees with the
    comparison of the counts for any two numbers less than half the circle
    apart, across the wrap-around at 2^32. *)
Theorem LessThan_offset (o i j : Z) :
  u32 o -> 0 <= i < 2 ^ 31 -> 0 <= j < 2 ^ 31 ->
  LessThan (uint32 (o + i)) (uint32 (o + j)) = (i <? j) /\
  GreaterThan (uint32 (o + i)) (uint32 (o + j)) = (j <? i).
Proof.
  intros Ho Hi Hj.
  pose proof (dist_offset o) as Hd.
  split; apply eq_bool_prop_intro; rewrite Is_true_true.
  - rewrite LessThan_dist, (dist_rebase o), !Hd by (done || lia || auto with width).
    rewrite Is_true_true, Z.ltb_lt. destruct (Z.leb_spec i j); lia.
  - rewrite GreaterThan_dist, (dist_rebase o), !Hd by (done || lia || auto with width).
    rewrite Is_true_true, Z.ltb_lt. destruct (Z.leb_spec j i); lia.
Qed.

Lemma LessThan_offset_witness :
  LessThan (uint32 (2 ^ 32 - 1 + 0)) (uint32 (2 ^ 32 - 1 + 5)) = (0 <? 5) /\
  GreaterThan (uint32 (2 ^ 32 - 1 + 0)) (uint32 (2 ^ 32 - 1 + 5)) = (5 <? 0).
Proof. apply (LessThan_offset (2 ^ 32 - 1) 0 5); [split; done | lia | lia]. Defined.
