(* ===== verification/Errors.v ===== *)
(** Error values of the packages, and [errors.As] on them.

    A Go error is a value of a concrete type, possibly wrapped with
    [fmt.Errorf("...%w", err)].  [error] has a constructor per error type the
    packages declare, one for plain messages and one for wrapping; a message
    is its format string and the numeric arguments it is formatted with, so
    that different errors stay different without modelling [fmt]. *)
From S2P Require Import Prelude.
#[local] Open Scope Z_scope.
#[local] Open Scope string_scope.

(** [pdu.ViolationKind] ([src/internal/pdu/errors.go]) *)
Inductive ViolationKind := BadOpcode | OversizedSegment | MalformedBHS | MRDSLExceeded.

Record ProtocolError := mkProtocolError {
  pe_Kind : ViolationKind;
  pe_Op : string;
  pe_Opcode : Z;
  pe_Got : Z;
  pe_Limit : Z;
}.

(** [digest.DigestType], [digest.DigestError] ([src/internal/digest/errors.go]) *)
Inductive DigestType := DigestHeader | DigestData.

Record DigestError := mkDigestError {
  de_Type : DigestType;
  de_Expected : Z;
  de_Actual : Z;
}.

(** [login.AuthReason], [login.LoginError] ([src/internal/login/errors.go]) *)
Inductive AuthReason :=
  ReasonNone | ReasonShortChallenge | ReasonLowEntropy | ReasonBadResponse
| ReasonUnsupportedAlgorithm.

Record LoginError := mkLoginError {
  le_StatusClass : Z;
  le_StatusDetail : Z;
  le_Message : string;
  le_Reason : AuthReason;
}.

(** [scsi.SenseData] ([src/internal/scsi/sense.go]); the key is its number *)
Record SenseData := mkSenseData {
  sd_ResponseCode : Z;
  sd_Key : Z;
  sd_ASC : Z;
  sd_ASCQ : Z;
  sd_Information : Z;
  sd_Valid : bool;
  sd_Filemark : bool;
  sd_EOM : bool;
  sd_ILI : bool;
  sd_Raw : bytes;
}.

(** [scsi.CommandError] ([src/internal/scsi/opcode.go]) *)
Record CommandError := mkCommandError {
  ce_Status : Z;
  ce_Sense : option SenseData;
}.

(** [uiscsi.SCSIError], [uiscsi.AuthError] ([src/errors.go]) *)
Record SCSIError := mkSCSIError {
  se_Status : Z;
  se_SenseKey : Z;
  se_ASC : Z;
  se_ASCQ : Z;
  se_Message : string;
}.

Record AuthError := mkAuthError {
  ae_StatusClass : Z;
  ae_StatusDetail : Z;
  ae_Message : string;
}.

Inductive error :=
  | Errorf (fmt : string) (args : list Z)         (* errors.New, fmt.Errorf without %w *)
  | Wrapf (fmt : string) (args : list Z) (e : error) (* fmt.Errorf with %w *)
  | EOF                                            (* io.EOF *)
  | ErrUnexpectedEOF                               (* io.ErrUnexpectedEOF *)
  | ErrCtx                                         (* ctx.Err() of a done context *)
  | EProtocol (e : ProtocolError)
  | EDigest (e : DigestError)
  | ELogin (e : LoginError)
  | ECommand (e : CommandError)
  | ESCSI (e : SCSIError)
  | EAuth (e : AuthError)
  | ETransport (op : string) (e : error).          (* uiscsi.TransportError *)

Abbreviation res := (result error).

#[export] Instance ViolationKind_eq_dec : EqDecision ViolationKind.
Proof. solve_decision. Defined.
#[export] Instance ProtocolError_eq_dec : EqDecision ProtocolError.
Proof. solve_decision. Defined.
#[export] Instance DigestType_eq_dec : EqDecision DigestType.
Proof. solve_decision. Defined.
#[export] Instance DigestError_eq_dec : EqDecision DigestError.
Proof. solve_decision. Defined.
#[export] Instance AuthReason_eq_dec : EqDecision AuthReason.
Proof. solve_decision. Defined.
#[export] Instance LoginError_eq_dec : EqDecision LoginError.
Proof. solve_decision. Defined.
#[export] Instance SenseData_eq_dec : EqDecision SenseData.
Proof. solve_decision. Defined.
#[export] Instance CommandError_eq_dec : EqDecision CommandError.
Proof. solve_decision. Defined.
#[export] Instance SCSIError_eq_dec : EqDecision SCSIError.
Proof. solve_decision. Defined.
#[export] Instance AuthError_eq_dec : EqDecision AuthError.
Proof. solve_decision. Defined.
#[export] Instance error_eq_dec : EqDecision error.
Proof. solve_decision. Defined.

(** [errors.As(err, &le)] for each of the target types: the first error of that
    type on the chain of [Unwrap]s.  [TransportError] unwraps to its [Err]. *)
Fixpoint errors_chain (e : error) : list error :=
  e :: match e with
       | Wrapf _ _ e' | ETransport _ e' => errors_chain e'
       | _ => []
       end.

Definition errors_As {T} (f : error -> option T) (e : error) : option T :=
  head (omap f (errors_chain e)).

Definition as_LoginError (e : error) : option LoginError :=
  match e with ELogin le => Some le | _ => None end.
Definition as_CommandError (e : error) : option CommandError :=
  match e with ECommand ce => Some ce | _ => None end.
Definition as_DigestError (e : error) : option DigestError :=
  match e with EDigest de => Some de | _ => None end.

(** [errors.Is(err, target)] for a sentinel [target] *)
Definition errors_Is (target e : error) : bool :=
  existsb (fun e' => bool_decide (e' = target)) (errors_chain e).

Lemma errors_As_Wrapf {T} (f : error -> option T) fmt args e :
  f (Wrapf fmt args e) = None -> errors_As f (Wrapf fmt args e) = errors_As f e.
Proof. intros H. unfold errors_As. cbn [errors_chain]. cbn [omap list_omap]. by rewrite H. Qed.
