(* ===== verification/Bhs.v ===== *)
(** The 48-byte Basic Header Segment ([src/internal/pdu/bhs.go], [opcode.go],
    [padding.go], [header.go]): opcode byte, 24-bit segment length, the header
    fields shared by all PDUs, and SAM LUNs.  A BHS is a [bytes] of length 48;
    a slice assignment is [upd], a masked or is [or_byte], where
    [or_byte i (flag f m)] is [if f { bhs[i] |= m }]. *)
From S2P Require Import Prelude Errors.
#[local] Open Scope Z_scope.

(** ** Opcodes *)

Definition OpNOPOut := 0x00.
Definition OpSCSICommand := 0x01.
Definition OpTaskMgmtReq := 0x02.
Definition OpLoginReq := 0x03.
Definition OpTextReq := 0x04.
Definition OpDataOut := 0x05.
Definition OpLogoutReq := 0x06.
Definition OpSNACKReq := 0x10.
Definition OpNOPIn := 0x20.
Definition OpSCSIResponse := 0x21.
Definition OpTaskMgmtResp := 0x22.
Definition OpLoginResp := 0x23.
Definition OpTextResp := 0x24.
Definition OpDataIn := 0x25.
Definition OpLogoutResp := 0x26.
Definition OpR2T := 0x31.
Definition OpAsyncMsg := 0x32.
Definition OpReject := 0x3f.

(** [opcodeNames] *)
Definition opcodeNames : list (Z * string) :=
  [ (OpNOPOut, "NOP-Out"); (OpSCSICommand, "SCSI Command");
    (OpTaskMgmtReq, "Task Management Request"); (OpLoginReq, "Login Request");
    (OpTextReq, "Text Request"); (OpDataOut, "Data-Out");
    (OpLogoutReq, "Logout Request"); (OpSNACKReq, "SNACK Request");
    (OpNOPIn, "NOP-In"); (OpSCSIResponse, "SCSI Response");
    (OpTaskMgmtResp, "Task Management Response"); (OpLoginResp, "Login Response");
    (OpTextResp, "Text Response"); (OpDataIn, "Data-In");
    (OpLogoutResp, "Logout Response"); (OpR2T, "Ready To Transfer");
    (OpAsyncMsg, "Async Message"); (OpReject, "Reject") ]%string.

Definition known_opcode (op : Z) : bool := existsb (fun p => p.1 =? op) opcodeNames.

Definition IsInitiator (o : Z) : bool := Z.land o 0x20 =? 0.
Definition IsTarget (o : Z) : bool := negb (Z.land o 0x20 =? 0).

(** ** Padding and the packed header bytes *)

Definition PadLen (n : Z) : Z := wrap 32 (4 - n mod 4) mod 4.

Definition BHSLength : nat := 48.

Definition encodeDataSegmentLength (bhs : bytes) (dsLen : Z) : res bytes :=
  if dsLen >? 0xFFFFFF then
    Err (EProtocol (mkProtocolError OversizedSegment "encode" 0 dsLen 0xFFFFFF))
  else
    let bhs := upd 5 [uint8 (Z.shiftr dsLen 16)] bhs in
    let bhs := upd 6 [uint8 (Z.shiftr dsLen 8)] bhs in
    let bhs := upd 7 [uint8 dsLen] bhs in
    Ok bhs.

Definition decodeDataSegmentLength (bhs : bytes) : Z :=
  Z.lor (Z.lor (Z.shiftl (byte_at 5 bhs) 16) (Z.shiftl (byte_at 6 bhs) 8)) (byte_at 7 bhs).

Definition encodeOpcodeByte (opcode : Z) (immediate : bool) : Z :=
  Z.lor (Z.land opcode 0x3f) (flag immediate 0x40).

Definition decodeOpcodeByte (b : Z) : Z * bool := (Z.land b 0x3f, has_bit b 0x40).

(** ** SAM LUNs: [None] is the panic of a LUN beyond 16 bits *)

Definition EncodeSAMLUN (lun : Z) : option bytes :=
  if lun >? 0xFFFF then None
  else Some (put_be 2 0 (uint16 lun) (zeros 8)).

Definition DecodeSAMLUN (b : bytes) : Z :=
  if Nat.ltb (length b) 2 then 0 else get_be 2 0 b.

(** ** The common header *)

Record Header := mkHeader {
  Immediate : bool;
  OpCode_ : Z;
  Final : bool;
  TotalAHSLength : Z;
  DataSegmentLen : Z;
  LUN : bytes;
  InitiatorTaskTag : Z;
}.

Definition Header0 : Header := mkHeader false 0 false 0 0 (zeros 8) 0.

(** [p.OpCode_ = op], the assignment at the start of every MarshalBHS *)
Definition with_OpCode (op : Z) (h : Header) : Header :=
  mkHeader (Immediate h) op (Final h) (TotalAHSLength h) (DataSegmentLen h) (LUN h)
    (InitiatorTaskTag h).

Definition marshalHeader (h : Header) (bhs : bytes) : res bytes :=
  let bhs := upd 0 [encodeOpcodeByte (OpCode_ h) (Immediate h)] bhs in
  let bhs := or_byte 1 (flag (Final h) 0x80) bhs in
  let bhs := upd 4 [TotalAHSLength h] bhs in
  bhs ← encodeDataSegmentLength bhs (DataSegmentLen h);
  let bhs := upd 8 (LUN h) bhs in
  Ok (put_be 4 16 (InitiatorTaskTag h) bhs).

Definition unmarshalHeader (bhs : bytes) : Header :=
  let '(op, imm) := decodeOpcodeByte (byte_at 0 bhs) in
  {| OpCode_ := op; Immediate := imm;
     Final := has_bit (byte_at 1 bhs) 0x80;
     TotalAHSLength := byte_at 4 bhs;
     DataSegmentLen := decodeDataSegmentLength bhs;
     LUN := sub 8 8 bhs;
     InitiatorTaskTag := get_be 4 16 bhs |}.

(** The type invariant of [Header]: the widths of its fields. *)
Definition Header_ok (h : Header) : Prop :=
  u8 (TotalAHSLength h) /\ u32 (DataSegmentLen h) /\
  length (LUN h) = 8%nat /\ bytes_ok (LUN h) /\ u32 (InitiatorTaskTag h).

(** ** Lemmas *)

Lemma length8 {A} (l : list A) : length l = 8%nat ->
  exists a b c d e f g h, l = [a; b; c; d; e; f; g; h].
Proof.
  intros H. do 9 (destruct l as [|? l]; simpl in H; try discriminate).
  repeat eexists.
Qed.

Lemma length6 {A} (l : list A) : length l = 6%nat -> exists a b c d e f, l = [a; b; c; d; e; f].
Proof.
  intros H. do 7 (destruct l as [|? l]; simpl in H; try discriminate).
  repeat eexists.
Qed.

Lemma length16 {A} (l : list A) : length l = 16%nat ->
  exists a b c d e f g h i j k m n o p q, l = [a; b; c; d; e; f; g; h; i; j; k; m; n; o; p; q].
Proof.
  intros H. do 17 (destruct l as [|? l]; simpl in H; try discriminate).
  repeat eexists.
Qed.

Lemma get_be_eq n a l v : sub a n l = be_bytes n v -> in_width (8 * Z.of_nat n) v ->
  get_be n a l = v.
Proof. intros H Hv. unfold get_be. rewrite H. by apply be_val_bytes_id. Qed.

(** The 24-bit length read back from its three bytes *)
Lemma dsl_roundtrip d : u32 d -> (d >? 0xFFFFFF) = false ->
  Z.lor (Z.lor (Z.shiftl (uint8 (Z.shiftr d 16)) 16) (Z.shiftl (uint8 (Z.shiftr d 8)) 8))
    (uint8 d) = d.
Proof.
  intros Hd Hle. rewrite Z.gtb_ltb, Z.ltb_ge in Hle.
  rewrite <- Z.lor_assoc.
  rewrite (lor_shiftl_add (uint8 (Z.shiftr d 8))) by auto with width.
  rewrite lor_shiftl_add.
  - unfold wrap. rewrite !Z.shiftr_div_pow2 by lia.
    change (2 ^ 16) with 65536. change (2 ^ 8) with 256. unfold in_width in Hd.
    Z.to_euclidean_division_equations; lia.
  - lia.
  - assert (u8 (uint8 (Z.shiftr d 8)) /\ u8 (uint8 d)) as [] by auto with width. width.
Qed.

Lemma opcode_roundtrip op f : in_width 6 op ->
  decodeOpcodeByte (encodeOpcodeByte op f) = (op, f).
Proof.
  intros Hop. unfold decodeOpcodeByte, encodeOpcodeByte. f_equal.
  - rewrite Z.land_lor_distr_l, land_flag_0, Z.lor_0_r by done.
    rewrite <- Z.land_assoc. by apply (land_ones_id 6).
  - rewrite has_bit_lor, has_bit_land, has_bit_flag by done. by rewrite andb_true_r.
Qed.

Lemma PadLen_range n : 0 <= PadLen n < 4.
Proof. unfold PadLen. apply Z.mod_pos_bound. lia. Qed.

Lemma PadLen_spec n : (n + PadLen n) mod 4 = 0.
Proof.
  unfold PadLen, wrap. rewrite (Z.mod_small (4 - n mod 4)).
  - Z.to_euclidean_division_equations; lia.
  - pose proof (Z.mod_pos_bound n 4). lia.
Qed.
