(* ===== verification/PduTactics.v ===== *)
(** Proof automation for the PDU codec: a marshalled BHS is computed to an
    explicit list of 48 byte expressions, from which every field is read back. *)
From S2P Require Import Prelude Errors Bhs.
#[local] Open Scope Z_scope.

(** LoginReq and LoginResp reuse the header's fields: T for F, ISID and TSIH for
    the LUN. *)
Definition login_header (transit : bool) (isid : bytes) (tsih : Z) (h : Header) : Header :=
  mkHeader (Immediate h) (OpCode_ h) transit (TotalAHSLength h) (DataSegmentLen h)
    (isid ++ be_bytes 2 tsih) (InitiatorTaskTag h).

(** Destruct a well-formed header and the fixed-size arrays of a PDU. *)
Ltac pdu_fields :=
  repeat match goal with
  | H : _ /\ _ |- _ => destruct H
  | H : Header_ok ?h |- _ => destruct h; unfold Header_ok in H; simpl in H
  | H : length ?l = 8%nat |- _ =>
      destruct (length8 l H) as (?&?&?&?&?&?&?&?&->); clear H
  | H : length ?l = 6%nat |- _ =>
      destruct (length6 l H) as (?&?&?&?&?&?&->); clear H
  | H : length ?l = 16%nat |- _ =>
      destruct (length16 l H) as (?&?&?&?&?&?&?&?&?&?&?&?&?&?&?&?&->); clear H
  end.

(** The value of [byte_at i l] of an explicit list [l] *)
Ltac compute_byte t :=
  let t' := eval cbv -[Z.lor Z.land Z.shiftl Z.shiftr flag wrap encodeOpcodeByte
                       be_bytes Z.modulo Z.div] in t in t'.

Ltac change_bytes :=
  repeat match goal with
  | |- context [byte_at ?i ?l] =>
      let v := compute_byte (byte_at i l) in change (byte_at i l) with v
  end.

(** Take [Hm : MarshalBHS p = Ok bhs] apart: the length fits, and [bhs] is the
    nest of updates. *)
Ltac marshalled Hm :=
  unfold marshalHeader, encodeDataSegmentLength in Hm; simpl in Hm;
  match type of Hm with context [?d >? ?m] => destruct (d >? m) eqn:?; [discriminate|] end;
  simpl in Hm; injection Hm as <-.

Lemma Header_eq i i' o o' f f' t t' d d' l l' k k' :
  i = i' -> o = o' -> f = f' -> t = t' -> d = d' -> l = l' -> k = k' ->
  mkHeader i o f t d l k = mkHeader i' o' f' t' d' l' k'.
Proof. congruence. Qed.

(** The stage fields of the login PDUs sit in bits 3-2 *)
Lemma stage_land a : Z.shiftl (Z.land a 3) 2 = Z.land (Z.shiftl a 2) 12.
Proof. by rewrite Z.shiftl_land. Qed.

Lemma shiftr_flag f m n : Z.shiftr (flag f m) n = flag f (Z.shiftr m n).
Proof. destruct f; [done|]. apply Z.shiftr_0_l. Qed.

Lemma stage_read a : Z.shiftr (Z.land (Z.shiftl a 2) 12) 2 = Z.land a 3.
Proof. rewrite Z.shiftr_land, Z.shiftr_shiftl_l by lia. by rewrite Z.shiftl_0_r. Qed.

Lemma mask_read k a m : m = Z.ones k -> 0 <= k -> in_width k a -> Z.land a m = a.
Proof. intros ->. apply land_ones_id. Qed.

Ltac closed_land :=
  repeat match goal with |- context [Z.land ?k ?m] =>
    let v := eval vm_compute in (Z.land k m) in
    lazymatch v with
    | Z0 => change (Z.land k m) with v | Zpos _ => change (Z.land k m) with v
    end end.

(** Flag bits of an or of flags and masked fields *)
Ltac flag_bits :=
  rewrite ?stage_land, ?has_bit_lor, ?has_bit_flag, ?has_bit_land by reflexivity;
  repeat match goal with |- context [has_bit ?k ?m] =>
    let v := eval vm_compute in (has_bit k m) in
    lazymatch v with true => change (has_bit k m) with v | false => change (has_bit k m) with v end
  end;
  rewrite ?andb_false_r, ?andb_true_r, ?orb_false_r, ?orb_false_l; reflexivity.

(** A field masked out of an or of flags and masked fields *)
Ltac mask_field :=
  rewrite ?stage_land, ?Z.shiftr_lor, ?shiftr_flag, ?stage_read;
  repeat rewrite (Z.shiftr_land _ 3 2);
  rewrite ?Z.land_lor_distr_l;
  rewrite ?land_flag_0, <- ?Z.land_assoc by reflexivity;
  closed_land; rewrite ?Z.land_0_r, ?Z.land_0_l, ?Z.lor_0_r, ?Z.lor_0_l;
  let w k := apply (mask_read k); [reflexivity | done | assumption] in
  first [ w 2 | w 3 | w 4 | w 7 ].

Ltac pdu_field :=
  lazymatch goal with
  | |- get_be _ _ _ = _ => apply get_be_eq; [reflexivity | assumption]
  | |- Z.lor (Z.lor (Z.shiftl _ 16) _) _ = _ => apply dsl_roundtrip; assumption
  | |- has_bit _ _ = _ => flag_bits
  | |- Z.land _ _ = _ => mask_field
  | |- _ => reflexivity
  end.

Ltac pdu_roundtrip :=
  cbn [Immediate OpCode_ Final TotalAHSLength DataSegmentLen LUN InitiatorTaskTag] in *;
  unfold unmarshalHeader, decodeDataSegmentLength;
  change_bytes; rewrite opcode_roundtrip by (vm_compute; by split);
  f_equal; [apply Header_eq | ..]; unfold with_OpCode;
  cbn [Immediate OpCode_ Final TotalAHSLength DataSegmentLen LUN InitiatorTaskTag];
  pdu_field.

(** The marshalled BHS is 48 bytes *)
Lemma opcode_byte_u8 op f : in_width 6 op -> u8 (encodeOpcodeByte op f).
Proof.
  intros. unfold encodeOpcodeByte. apply lor_width; [lia| |destruct f; by vm_compute].
  apply land_width; [lia|]. by apply (in_width_mono 6 8).
Qed.

Lemma u8_land a m : 0 <= m < 256 -> u8 (Z.land a m).
Proof. intros. rewrite Z.land_comm. apply land_width; [lia|done]. Qed.

Lemma u8_lor a b : u8 a -> u8 b -> u8 (Z.lor a b).
Proof. apply lor_width. lia. Qed.

Lemma u8_flag f m : 0 <= m < 256 -> u8 (flag f m).
Proof. intros. apply flag_width; [lia|done]. Qed.

#[export] Hint Resolve u8_lor opcode_byte_u8 : width.
#[export] Hint Extern 2 (in_width 8 (Z.land _ _)) => (apply u8_land; lia) : width.
#[export] Hint Extern 2 (in_width 8 (flag _ _)) => (apply u8_flag; lia) : width.
#[export] Hint Extern 2 (in_width _ (Zpos _)) => (vm_compute; split; done) : width.
#[export] Hint Extern 2 (in_width 6 _) => (vm_compute; split; done) : width.

Ltac pdu_bhs_ok :=
  cbn [Immediate OpCode_ Final TotalAHSLength DataSegmentLen LUN InitiatorTaskTag with_OpCode] in *;
  split; [reflexivity|];
  repeat first [ apply Forall_upd | apply be_bytes_ok | apply zeros_ok | assumption
               | apply Forall_cons_2 | apply Forall_nil_2 ];
  change_bytes; rewrite ?stage_land; auto 12 with width.

(** ** The PDU interface

    [pdu.PDU] of header.go (Opcode, MarshalBHS, DataSegment), with the decoder
    of the type and the laws every PDU type obeys: what it marshals is a BHS
    carrying its opcode, reading the BHS gives the PDU back without its data
    segment, and marshalling fails exactly for an oversized segment. *)
Class WirePDU (T : Type) := {
  pdu_op : Z;
  pdu_Hdr : T -> Header;
  pdu_MarshalBHS : T -> res bytes;
  pdu_UnmarshalBHS : bytes -> T;
  pdu_DataSegment : T -> bytes;
  pdu_ok : T -> Prop;
  pdu_wire : T -> T;
  pdu_op_width : in_width 6 pdu_op;
  pdu_law_roundtrip p bhs : pdu_ok p -> pdu_MarshalBHS p = Ok bhs ->
    pdu_UnmarshalBHS bhs = pdu_wire p;
  pdu_law_bhs p bhs : pdu_ok p -> pdu_MarshalBHS p = Ok bhs ->
    length bhs = BHSLength /\ bytes_ok bhs;
  pdu_law_opcode p bhs : pdu_MarshalBHS p = Ok bhs ->
    byte_at 0 bhs = encodeOpcodeByte pdu_op (Immediate (pdu_Hdr p));
  pdu_law_total p : is_Ok (pdu_MarshalBHS p) = negb (DataSegmentLen (pdu_Hdr p) >? 0xFFFFFF);
}.

Ltac marshal_total :=
  unfold marshalHeader, encodeDataSegmentLength; simpl;
  match goal with |- context [?d >? ?m] => destruct (d >? m) end; reflexivity.
