(* ===== verification/PduInitiator.v ===== *)
(** Initiator PDUs ([src/internal/pdu/initiator.go]).  For each PDU type [X]:
    the struct, [X_MarshalBHS] and [X_UnmarshalBHS] statement by statement, the
    type invariant [X_ok], and [X_roundtrip].  MarshalBHS also stores the
    opcode in the PDU's header ([p.OpCode_ = ...]); nothing reads that field
    afterwards, so the model passes the updated header on and keeps [p]. *)
From S2P Require Import Prelude Errors Bhs PduTactics.
#[local] Open Scope Z_scope.

Record NOPOut := mkNOPOut {
  NOPOut_Hdr : Header;
  NOPOut_TargetTransferTag : Z;
  NOPOut_CmdSN : Z;
  NOPOut_ExpStatSN : Z;
  NOPOut_Data : bytes;
}.

Definition NOPOut_MarshalBHS (p : NOPOut) : res bytes :=
  bhs ← marshalHeader (with_OpCode OpNOPOut (NOPOut_Hdr p)) (zeros BHSLength);
  let bhs := put_be 4 20 (NOPOut_TargetTransferTag p) bhs in
  let bhs := put_be 4 24 (NOPOut_CmdSN p) bhs in
  let bhs := put_be 4 28 (NOPOut_ExpStatSN p) bhs in
  Ok bhs.

Definition NOPOut_UnmarshalBHS (bhs : bytes) : NOPOut :=
  {| NOPOut_Hdr := unmarshalHeader bhs;
     NOPOut_TargetTransferTag := get_be 4 20 bhs;
     NOPOut_CmdSN := get_be 4 24 bhs;
     NOPOut_ExpStatSN := get_be 4 28 bhs;
     NOPOut_Data := [] |}.

Definition NOPOut_ok (p : NOPOut) : Prop :=
  Header_ok (NOPOut_Hdr p) /\
  u32 (NOPOut_TargetTransferTag p) /\
  u32 (NOPOut_CmdSN p) /\
  u32 (NOPOut_ExpStatSN p).

(** What the BHS carries of [p]: everything but the data segment. *)
Definition NOPOut_wire (p : NOPOut) : NOPOut :=
  {| NOPOut_Hdr := with_OpCode OpNOPOut (NOPOut_Hdr p);
     NOPOut_TargetTransferTag := NOPOut_TargetTransferTag p;
     NOPOut_CmdSN := NOPOut_CmdSN p;
     NOPOut_ExpStatSN := NOPOut_ExpStatSN p;
     NOPOut_Data := [] |}.

Lemma NOPOut_roundtrip p bhs : NOPOut_ok p ->
  NOPOut_MarshalBHS p = Ok bhs -> NOPOut_UnmarshalBHS bhs = NOPOut_wire p.
Proof.
  unfold NOPOut_ok, NOPOut_MarshalBHS. destruct p; simpl; intros Hok Hm.
  marshalled Hm. pdu_fields. unfold NOPOut_UnmarshalBHS, NOPOut_wire.
  pdu_roundtrip.
Qed.

Lemma NOPOut_bhs_ok p bhs : NOPOut_ok p ->
  NOPOut_MarshalBHS p = Ok bhs -> length bhs = BHSLength /\ bytes_ok bhs.
Proof.
  unfold NOPOut_ok, NOPOut_MarshalBHS. destruct p; simpl; intros Hok Hm.
  marshalled Hm. pdu_fields. pdu_bhs_ok.
Qed.

Lemma NOPOut_bhs_opcode p bhs :
  NOPOut_MarshalBHS p = Ok bhs -> byte_at 0 bhs = encodeOpcodeByte OpNOPOut (Immediate (NOPOut_Hdr p)).
Proof. unfold NOPOut_MarshalBHS. destruct p; simpl; intros Hm. marshalled Hm. reflexivity. Qed.

Lemma NOPOut_marshal_total p :
  is_Ok (NOPOut_MarshalBHS p) = negb (DataSegmentLen (NOPOut_Hdr p) >? 0xFFFFFF).
Proof. unfold NOPOut_MarshalBHS. marshal_total. Qed.

#[export] Instance NOPOut_WirePDU : WirePDU NOPOut := {|
  pdu_op := OpNOPOut;
  pdu_Hdr := NOPOut_Hdr;
  pdu_MarshalBHS := NOPOut_MarshalBHS;
  pdu_UnmarshalBHS := NOPOut_UnmarshalBHS;
  pdu_DataSegment := NOPOut_Data;
  pdu_ok := NOPOut_ok;
  pdu_wire := NOPOut_wire;
  pdu_op_width := ltac:(vm_compute; by split);
  pdu_law_roundtrip := NOPOut_roundtrip;
  pdu_law_bhs := NOPOut_bhs_ok;
  pdu_law_opcode := NOPOut_bhs_opcode;
  pdu_law_total := NOPOut_marshal_total;
|}.

Record SCSICommand := mkSCSICommand {
  SCSICommand_Hdr : Header;
  SCSICommand_Read : bool;
  SCSICommand_Write : bool;
  SCSICommand_Attr : Z;
  SCSICommand_ExpectedDataTransferLength : Z;
  SCSICommand_CmdSN : Z;
  SCSICommand_ExpStatSN : Z;
  SCSICommand_CDB : bytes;
  SCSICommand_ImmediateData : bytes;
}.

Definition SCSICommand_MarshalBHS (p : SCSICommand) : res bytes :=
  bhs ← marshalHeader (with_OpCode OpSCSICommand (SCSICommand_Hdr p)) (zeros BHSLength);
  let bhs := or_byte 1 (flag (SCSICommand_Read p) 0x40) bhs in
  let bhs := or_byte 1 (flag (SCSICommand_Write p) 0x20) bhs in
  let bhs := or_byte 1 (Z.land (SCSICommand_Attr p) 0x07) bhs in
  let bhs := put_be 4 20 (SCSICommand_ExpectedDataTransferLength p) bhs in
  let bhs := put_be 4 24 (SCSICommand_CmdSN p) bhs in
  let bhs := put_be 4 28 (SCSICommand_ExpStatSN p) bhs in
  let bhs := upd 32 (SCSICommand_CDB p) bhs in
  Ok bhs.

Definition SCSICommand_UnmarshalBHS (bhs : bytes) : SCSICommand :=
  {| SCSICommand_Hdr := unmarshalHeader bhs;
     SCSICommand_Read := has_bit (byte_at 1 bhs) 0x40;
     SCSICommand_Write := has_bit (byte_at 1 bhs) 0x20;
     SCSICommand_Attr := Z.land (byte_at 1 bhs) 0x07;
     SCSICommand_ExpectedDataTransferLength := get_be 4 20 bhs;
     SCSICommand_CmdSN := get_be 4 24 bhs;
     SCSICommand_ExpStatSN := get_be 4 28 bhs;
     SCSICommand_CDB := sub 32 16 bhs;
     SCSICommand_ImmediateData := [] |}.

Definition SCSICommand_ok (p : SCSICommand) : Prop :=
  Header_ok (SCSICommand_Hdr p) /\
  in_width 3 (SCSICommand_Attr p) /\
  u32 (SCSICommand_ExpectedDataTransferLength p) /\
  u32 (SCSICommand_CmdSN p) /\
  u32 (SCSICommand_ExpStatSN p) /\
  length (SCSICommand_CDB p) = 16%nat /\ bytes_ok (SCSICommand_CDB p).

(** What the BHS carries of [p]: everything but the data segment. *)
Definition SCSICommand_wire (p : SCSICommand) : SCSICommand :=
  {| SCSICommand_Hdr := with_OpCode OpSCSICommand (SCSICommand_Hdr p);
     SCSICommand_Read := SCSICommand_Read p;
     SCSICommand_Write := SCSICommand_Write p;
     SCSICommand_Attr := SCSICommand_Attr p;
     SCSICommand_ExpectedDataTransferLength := SCSICommand_ExpectedDataTransferLength p;
     SCSICommand_CmdSN := SCSICommand_CmdSN p;
     SCSICommand_ExpStatSN := SCSICommand_ExpStatSN p;
     SCSICommand_CDB := SCSICommand_CDB p;
     SCSICommand_ImmediateData := [] |}.

Lemma SCSICommand_roundtrip p bhs : SCSICommand_ok p ->
  SCSICommand_MarshalBHS p = Ok bhs -> SCSICommand_UnmarshalBHS bhs = SCSICommand_wire p.
Proof.
  unfold SCSICommand_ok, SCSICommand_MarshalBHS. destruct p; simpl; intros Hok Hm.
  marshalled Hm. pdu_fields. unfold SCSICommand_UnmarshalBHS, SCSICommand_wire.
  pdu_roundtrip.
Qed.

Lemma SCSICommand_bhs_ok p bhs : SCSICommand_ok p ->
  SCSICommand_MarshalBHS p = Ok bhs -> length bhs = BHSLength /\ bytes_ok bhs.
Proof.
  unfold SCSICommand_ok, SCSICommand_MarshalBHS. destruct p; simpl; intros Hok Hm.
  marshalled Hm. pdu_fields. pdu_bhs_ok.
Qed.

Lemma SCSICommand_bhs_opcode p bhs :
  SCSICommand_MarshalBHS p = Ok bhs -> byte_at 0 bhs = encodeOpcodeByte OpSCSICommand (Immediate (SCSICommand_Hdr p)).
Proof. unfold SCSICommand_MarshalBHS. destruct p; simpl; intros Hm. marshalled Hm. reflexivity. Qed.

Lemma SCSICommand_marshal_total p :
  is_Ok (SCSICommand_MarshalBHS p) = negb (DataSegmentLen (SCSICommand_Hdr p) >? 0xFFFFFF).
Proof. unfold SCSICommand_MarshalBHS. marshal_total. Qed.

#[export] Instance SCSICommand_WirePDU : WirePDU SCSICommand := {|
  pdu_op := OpSCSICommand;
  pdu_Hdr := SCSICommand_Hdr;
  pdu_MarshalBHS := SCSICommand_MarshalBHS;
  pdu_UnmarshalBHS := SCSICommand_UnmarshalBHS;
  pdu_DataSegment := SCSICommand_ImmediateData;
  pdu_ok := SCSICommand_ok;
  pdu_wire := SCSICommand_wire;
  pdu_op_width := ltac:(vm_compute; by split);
  pdu_law_roundtrip := SCSICommand_roundtrip;
  pdu_law_bhs := SCSICommand_bhs_ok;
  pdu_law_opcode := SCSICommand_bhs_opcode;
  pdu_law_total := SCSICommand_marshal_total;
|}.

Record TaskMgmtReq := mkTaskMgmtReq {
  TaskMgmtReq_Hdr : Header;
  TaskMgmtReq_Function : Z;
  TaskMgmtReq_ReferencedTaskTag : Z;
  TaskMgmtReq_CmdSN : Z;
  TaskMgmtReq_ExpStatSN : Z;
  TaskMgmtReq_RefCmdSN : Z;
}.

Definition TaskMgmtReq_MarshalBHS (p : TaskMgmtReq) : res bytes :=
  bhs ← marshalHeader (with_OpCode OpTaskMgmtReq (TaskMgmtReq_Hdr p)) (zeros BHSLength);
  let bhs := or_byte 1 (Z.land (TaskMgmtReq_Function p) 0x7f) bhs in
  let bhs := put_be 4 20 (TaskMgmtReq_ReferencedTaskTag p) bhs in
  let bhs := put_be 4 24 (TaskMgmtReq_CmdSN p) bhs in
  let bhs := put_be 4 28 (TaskMgmtReq_ExpStatSN p) bhs in
  let bhs := put_be 4 32 (TaskMgmtReq_RefCmdSN p) bhs in
  Ok bhs.

Definition TaskMgmtReq_UnmarshalBHS (bhs : bytes) : TaskMgmtReq :=
  {| TaskMgmtReq_Hdr := unmarshalHeader bhs;
     TaskMgmtReq_Function := Z.land (byte_at 1 bhs) 0x7f;
     TaskMgmtReq_ReferencedTaskTag := get_be 4 20 bhs;
     TaskMgmtReq_CmdSN := get_be 4 24 bhs;
     TaskMgmtReq_ExpStatSN := get_be 4 28 bhs;
     TaskMgmtReq_RefCmdSN := get_be 4 32 bhs |}.

Definition TaskMgmtReq_ok (p : TaskMgmtReq) : Prop :=
  Header_ok (TaskMgmtReq_Hdr p) /\
  in_width 7 (TaskMgmtReq_Function p) /\
  u32 (TaskMgmtReq_ReferencedTaskTag p) /\
  u32 (TaskMgmtReq_CmdSN p) /\
  u32 (TaskMgmtReq_ExpStatSN p) /\
  u32 (TaskMgmtReq_RefCmdSN p).

(** What the BHS carries of [p]: everything but the data segment. *)
Definition TaskMgmtReq_wire (p : TaskMgmtReq) : TaskMgmtReq :=
  {| TaskMgmtReq_Hdr := with_OpCode OpTaskMgmtReq (TaskMgmtReq_Hdr p);
     TaskMgmtReq_Function := TaskMgmtReq_Function p;
     TaskMgmtReq_ReferencedTaskTag := TaskMgmtReq_ReferencedTaskTag p;
     TaskMgmtReq_CmdSN := TaskMgmtReq_CmdSN p;
     TaskMgmtReq_ExpStatSN := TaskMgmtReq_ExpStatSN p;
     TaskMgmtReq_RefCmdSN := TaskMgmtReq_RefCmdSN p |}.

Lemma TaskMgmtReq_roundtrip p bhs : TaskMgmtReq_ok p ->
  TaskMgmtReq_MarshalBHS p = Ok bhs -> TaskMgmtReq_UnmarshalBHS bhs = TaskMgmtReq_wire p.
Proof.
  unfold TaskMgmtReq_ok, TaskMgmtReq_MarshalBHS. destruct p; simpl; intros Hok Hm.
  marshalled Hm. pdu_fields. unfold TaskMgmtReq_UnmarshalBHS, TaskMgmtReq_wire.
  pdu_roundtrip.
Qed.

Lemma TaskMgmtReq_bhs_ok p bhs : TaskMgmtReq_ok p ->
  TaskMgmtReq_MarshalBHS p = Ok bhs -> length bhs = BHSLength /\ bytes_ok bhs.
Proof.
  unfold TaskMgmtReq_ok, TaskMgmtReq_MarshalBHS. destruct p; simpl; intros Hok Hm.
  marshalled Hm. pdu_fields. pdu_bhs_ok.
Qed.

Lemma TaskMgmtReq_bhs_opcode p bhs :
  TaskMgmtReq_MarshalBHS p = Ok bhs -> byte_at 0 bhs = encodeOpcodeByte OpTaskMgmtReq (Immediate (TaskMgmtReq_Hdr p)).
Proof. unfold TaskMgmtReq_MarshalBHS. destruct p; simpl; intros Hm. marshalled Hm. reflexivity. Qed.

Lemma TaskMgmtReq_marshal_total p :
  is_Ok (TaskMgmtReq_MarshalBHS p) = negb (DataSegmentLen (TaskMgmtReq_Hdr p) >? 0xFFFFFF).
Proof. unfold TaskMgmtReq_MarshalBHS. marshal_total. Qed.

#[export] Instance TaskMgmtReq_WirePDU : WirePDU TaskMgmtReq := {|
  pdu_op := OpTaskMgmtReq;
  pdu_Hdr := TaskMgmtReq_Hdr;
  pdu_MarshalBHS := TaskMgmtReq_MarshalBHS;
  pdu_UnmarshalBHS := TaskMgmtReq_UnmarshalBHS;
  pdu_DataSegment := fun _ => [];
  pdu_ok := TaskMgmtReq_ok;
  pdu_wire := TaskMgmtReq_wire;
  pdu_op_width := ltac:(vm_compute; by split);
  pdu_law_roundtrip := TaskMgmtReq_roundtrip;
  pdu_law_bhs := TaskMgmtReq_bhs_ok;
  pdu_law_opcode := TaskMgmtReq_bhs_opcode;
  pdu_law_total := TaskMgmtReq_marshal_total;
|}.

Record LoginReq := mkLoginReq {
  LoginReq_Hdr : Header;
  LoginReq_Transit : bool;
  LoginReq_Continue : bool;
  LoginReq_CSG : Z;
  LoginReq_NSG : Z;
  LoginReq_VersionMax : Z;
  LoginReq_VersionMin : Z;
  LoginReq_ISID : bytes;
  LoginReq_TSIH : Z;
  LoginReq_CID : Z;
  LoginReq_CmdSN : Z;
  LoginReq_ExpStatSN : Z;
  LoginReq_Data : bytes;
}.

Definition LoginReq_MarshalBHS (p : LoginReq) : res bytes :=
  bhs ← marshalHeader (with_OpCode OpLoginReq (LoginReq_Hdr p)) (zeros BHSLength);
  let bhs := upd 1 [0] bhs in
  let bhs := or_byte 1 (flag (LoginReq_Transit p) 0x80) bhs in
  let bhs := or_byte 1 (flag (LoginReq_Continue p) 0x40) bhs in
  let bhs := or_byte 1 (Z.shiftl (Z.land (LoginReq_CSG p) 0x03) 2) bhs in
  let bhs := or_byte 1 (Z.land (LoginReq_NSG p) 0x03) bhs in
  let bhs := upd 2 [LoginReq_VersionMax p] bhs in
  let bhs := upd 3 [LoginReq_VersionMin p] bhs in
  let bhs := upd 8 (LoginReq_ISID p) bhs in
  let bhs := put_be 2 14 (LoginReq_TSIH p) bhs in
  let bhs := put_be 2 20 (LoginReq_CID p) bhs in
  let bhs := put_be 4 24 (LoginReq_CmdSN p) bhs in
  let bhs := put_be 4 28 (LoginReq_ExpStatSN p) bhs in
  Ok bhs.

Definition LoginReq_UnmarshalBHS (bhs : bytes) : LoginReq :=
  {| LoginReq_Hdr := unmarshalHeader bhs;
     LoginReq_Transit := has_bit (byte_at 1 bhs) 0x80;
     LoginReq_Continue := has_bit (byte_at 1 bhs) 0x40;
     LoginReq_CSG := Z.land (Z.shiftr (byte_at 1 bhs) 2) 0x03;
     LoginReq_NSG := Z.land (byte_at 1 bhs) 0x03;
     LoginReq_VersionMax := byte_at 2 bhs;
     LoginReq_VersionMin := byte_at 3 bhs;
     LoginReq_ISID := sub 8 6 bhs;
     LoginReq_TSIH := get_be 2 14 bhs;
     LoginReq_CID := get_be 2 20 bhs;
     LoginReq_CmdSN := get_be 4 24 bhs;
     LoginReq_ExpStatSN := get_be 4 28 bhs;
     LoginReq_Data := [] |}.

Definition LoginReq_ok (p : LoginReq) : Prop :=
  Header_ok (LoginReq_Hdr p) /\
  in_width 2 (LoginReq_CSG p) /\
  in_width 2 (LoginReq_NSG p) /\
  u8 (LoginReq_VersionMax p) /\
  u8 (LoginReq_VersionMin p) /\
  length (LoginReq_ISID p) = 6%nat /\ bytes_ok (LoginReq_ISID p) /\
  u16 (LoginReq_TSIH p) /\
  u16 (LoginReq_CID p) /\
  u32 (LoginReq_CmdSN p) /\
  u32 (LoginReq_ExpStatSN p).

(** What the BHS carries of [p]: everything but the data segment. *)
Definition LoginReq_wire (p : LoginReq) : LoginReq :=
  {| LoginReq_Hdr := login_header (LoginReq_Transit p) (LoginReq_ISID p) (LoginReq_TSIH p) (with_OpCode OpLoginReq (LoginReq_Hdr p));
     LoginReq_Transit := LoginReq_Transit p;
     LoginReq_Continue := LoginReq_Continue p;
     LoginReq_CSG := LoginReq_CSG p;
     LoginReq_NSG := LoginReq_NSG p;
     LoginReq_VersionMax := LoginReq_VersionMax p;
     LoginReq_VersionMin := LoginReq_VersionMin p;
     LoginReq_ISID := LoginReq_ISID p;
     LoginReq_TSIH := LoginReq_TSIH p;
     LoginReq_CID := LoginReq_CID p;
     LoginReq_CmdSN := LoginReq_CmdSN p;
     LoginReq_ExpStatSN := LoginReq_ExpStatSN p;
     LoginReq_Data := [] |}.

Lemma LoginReq_roundtrip p bhs : LoginReq_ok p ->
  LoginReq_MarshalBHS p = Ok bhs -> LoginReq_UnmarshalBHS bhs = LoginReq_wire p.
Proof.
  unfold LoginReq_ok, LoginReq_MarshalBHS. destruct p; simpl; intros Hok Hm.
  marshalled Hm. pdu_fields. unfold LoginReq_UnmarshalBHS, LoginReq_wire, login_header.
  pdu_roundtrip.
Qed.

Lemma LoginReq_bhs_ok p bhs : LoginReq_ok p ->
  LoginReq_MarshalBHS p = Ok bhs -> length bhs = BHSLength /\ bytes_ok bhs.
Proof.
  unfold LoginReq_ok, LoginReq_MarshalBHS. destruct p; simpl; intros Hok Hm.
  marshalled Hm. pdu_fields. pdu_bhs_ok.
Qed.

Lemma LoginReq_bhs_opcode p bhs :
  LoginReq_MarshalBHS p = Ok bhs -> byte_at 0 bhs = encodeOpcodeByte OpLoginReq (Immediate (LoginReq_Hdr p)).
Proof. unfold LoginReq_MarshalBHS. destruct p; simpl; intros Hm. marshalled Hm. reflexivity. Qed.

Lemma LoginReq_marshal_total p :
  is_Ok (LoginReq_MarshalBHS p) = negb (DataSegmentLen (LoginReq_Hdr p) >? 0xFFFFFF).
Proof. unfold LoginReq_MarshalBHS. marshal_total. Qed.

#[export] Instance LoginReq_WirePDU : WirePDU LoginReq := {|
  pdu_op := OpLoginReq;
  pdu_Hdr := LoginReq_Hdr;
  pdu_MarshalBHS := LoginReq_MarshalBHS;
  pdu_UnmarshalBHS := LoginReq_UnmarshalBHS;
  pdu_DataSegment := LoginReq_Data;
  pdu_ok := LoginReq_ok;
  pdu_wire := LoginReq_wire;
  pdu_op_width := ltac:(vm_compute; by split);
  pdu_law_roundtrip := LoginReq_roundtrip;
  pdu_law_bhs := LoginReq_bhs_ok;
  pdu_law_opcode := LoginReq_bhs_opcode;
  pdu_law_total := LoginReq_marshal_total;
|}.

Record TextReq := mkTextReq {
  TextReq_Hdr : Header;
  TextReq_Continue : bool;
  TextReq_TargetTransferTag : Z;
  TextReq_CmdSN : Z;
  TextReq_ExpStatSN : Z;
  TextReq_Data : bytes;
}.

Definition TextReq_MarshalBHS (p : TextReq) : res bytes :=
  bhs ← marshalHeader (with_OpCode OpTextReq (TextReq_Hdr p)) (zeros BHSLength);
  let bhs := or_byte 1 (flag (TextReq_Continue p) 0x40) bhs in
  let bhs := put_be 4 20 (TextReq_TargetTransferTag p) bhs in
  let bhs := put_be 4 24 (TextReq_CmdSN p) bhs in
  let bhs := put_be 4 28 (TextReq_ExpStatSN p) bhs in
  Ok bhs.

Definition TextReq_UnmarshalBHS (bhs : bytes) : TextReq :=
  {| TextReq_Hdr := unmarshalHeader bhs;
     TextReq_Continue := has_bit (byte_at 1 bhs) 0x40;
     TextReq_TargetTransferTag := get_be 4 20 bhs;
     TextReq_CmdSN := get_be 4 24 bhs;
     TextReq_ExpStatSN := get_be 4 28 bhs;
     TextReq_Data := [] |}.

Definition TextReq_ok (p : TextReq) : Prop :=
  Header_ok (TextReq_Hdr p) /\
  u32 (TextReq_TargetTransferTag p) /\
  u32 (TextReq_CmdSN p) /\
  u32 (TextReq_ExpStatSN p).

(** What the BHS carries of [p]: everything but the data segment. *)
Definition TextReq_wire (p : TextReq) : TextReq :=
  {| TextReq_Hdr := with_OpCode OpTextReq (TextReq_Hdr p);
     TextReq_Continue := TextReq_Continue p;
     TextReq_TargetTransferTag := TextReq_TargetTransferTag p;
     TextReq_CmdSN := TextReq_CmdSN p;
     TextReq_ExpStatSN := TextReq_ExpStatSN p;
     TextReq_Data := [] |}.

Lemma TextReq_roundtrip p bhs : TextReq_ok p ->
  TextReq_MarshalBHS p = Ok bhs -> TextReq_UnmarshalBHS bhs = TextReq_wire p.
Proof.
  unfold TextReq_ok, TextReq_MarshalBHS. destruct p; simpl; intros Hok Hm.
  marshalled Hm. pdu_fields. unfold TextReq_UnmarshalBHS, TextReq_wire.
  pdu_roundtrip.
Qed.

Lemma TextReq_bhs_ok p bhs : TextReq_ok p ->
  TextReq_MarshalBHS p = Ok bhs -> length bhs = BHSLength /\ bytes_ok bhs.
Proof.
  unfold TextReq_ok, TextReq_MarshalBHS. destruct p; simpl; intros Hok Hm.
  marshalled Hm. pdu_fields. pdu_bhs_ok.
Qed.

Lemma TextReq_bhs_opcode p bhs :
  TextReq_MarshalBHS p = Ok bhs -> byte_at 0 bhs = encodeOpcodeByte OpTextReq (Immediate (TextReq_Hdr p)).
Proof. unfold TextReq_MarshalBHS. destruct p; simpl; intros Hm. marshalled Hm. reflexivity. Qed.

Lemma TextReq_marshal_total p :
  is_Ok (TextReq_MarshalBHS p) = negb (DataSegmentLen (TextReq_Hdr p) >? 0xFFFFFF).
Proof. unfold TextReq_MarshalBHS. marshal_total. Qed.

#[export] Instance TextReq_WirePDU : WirePDU TextReq := {|
  pdu_op := OpTextReq;
  pdu_Hdr := TextReq_Hdr;
  pdu_MarshalBHS := TextReq_MarshalBHS;
  pdu_UnmarshalBHS := TextReq_UnmarshalBHS;
  pdu_DataSegment := TextReq_Data;
  pdu_ok := TextReq_ok;
  pdu_wire := TextReq_wire;
  pdu_op_width := ltac:(vm_compute; by split);
  pdu_law_roundtrip := TextReq_roundtrip;
  pdu_law_bhs := TextReq_bhs_ok;
  pdu_law_opcode := TextReq_bhs_opcode;
  pdu_law_total := TextReq_marshal_total;
|}.

Record DataOut := mkDataOut {
  DataOut_Hdr : Header;
  DataOut_TargetTransferTag : Z;
  DataOut_ExpStatSN : Z;
  DataOut_DataSN : Z;
  DataOut_BufferOffset : Z;
  DataOut_Data : bytes;
}.

Definition DataOut_MarshalBHS (p : DataOut) : res bytes :=
  bhs ← marshalHeader (with_OpCode OpDataOut (DataOut_Hdr p)) (zeros BHSLength);
  let bhs := put_be 4 20 (DataOut_TargetTransferTag p) bhs in
  let bhs := put_be 4 28 (DataOut_ExpStatSN p) bhs in
  let bhs := put_be 4 36 (DataOut_DataSN p) bhs in
  let bhs := put_be 4 40 (DataOut_BufferOffset p) bhs in
  Ok bhs.

Definition DataOut_UnmarshalBHS (bhs : bytes) : DataOut :=
  {| DataOut_Hdr := unmarshalHeader bhs;
     DataOut_TargetTransferTag := get_be 4 20 bhs;
     DataOut_ExpStatSN := get_be 4 28 bhs;
     DataOut_DataSN := get_be 4 36 bhs;
     DataOut_BufferOffset := get_be 4 40 bhs;
     DataOut_Data := [] |}.

Definition DataOut_ok (p : DataOut) : Prop :=
  Header_ok (DataOut_Hdr p) /\
  u32 (DataOut_TargetTransferTag p) /\
  u32 (DataOut_ExpStatSN p) /\
  u32 (DataOut_DataSN p) /\
  u32 (DataOut_BufferOffset p).

(** What the BHS carries of [p]: everything but the data segment. *)
Definition DataOut_wire (p : DataOut) : DataOut :=
  {| DataOut_Hdr := with_OpCode OpDataOut (DataOut_Hdr p);
     DataOut_TargetTransferTag := DataOut_TargetTransferTag p;
     DataOut_ExpStatSN := DataOut_ExpStatSN p;
     DataOut_DataSN := DataOut_DataSN p;
     DataOut_BufferOffset := DataOut_BufferOffset p;
     DataOut_Data := [] |}.

Lemma DataOut_roundtrip p bhs : DataOut_ok p ->
  DataOut_MarshalBHS p = Ok bhs -> DataOut_UnmarshalBHS bhs = DataOut_wire p.
Proof.
  unfold DataOut_ok, DataOut_MarshalBHS. destruct p; simpl; intros Hok Hm.
  marshalled Hm. pdu_fields. unfold DataOut_UnmarshalBHS, DataOut_wire.
  pdu_roundtrip.
Qed.

Lemma DataOut_bhs_ok p bhs : DataOut_ok p ->
  DataOut_MarshalBHS p = Ok bhs -> length bhs = BHSLength /\ bytes_ok bhs.
Proof.
  unfold DataOut_ok, DataOut_MarshalBHS. destruct p; simpl; intros Hok Hm.
  marshalled Hm. pdu_fields. pdu_bhs_ok.
Qed.

Lemma DataOut_bhs_opcode p bhs :
  DataOut_MarshalBHS p = Ok bhs -> byte_at 0 bhs = encodeOpcodeByte OpDataOut (Immediate (DataOut_Hdr p)).
Proof. unfold DataOut_MarshalBHS. destruct p; simpl; intros Hm. marshalled Hm. reflexivity. Qed.

Lemma DataOut_marshal_total p :
  is_Ok (DataOut_MarshalBHS p) = negb (DataSegmentLen (DataOut_Hdr p) >? 0xFFFFFF).
Proof. unfold DataOut_MarshalBHS. marshal_total. Qed.

#[export] Instance DataOut_WirePDU : WirePDU DataOut := {|
  pdu_op := OpDataOut;
  pdu_Hdr := DataOut_Hdr;
  pdu_MarshalBHS := DataOut_MarshalBHS;
  pdu_UnmarshalBHS := DataOut_UnmarshalBHS;
  pdu_DataSegment := DataOut_Data;
  pdu_ok := DataOut_ok;
  pdu_wire := DataOut_wire;
  pdu_op_width := ltac:(vm_compute; by split);
  pdu_law_roundtrip := DataOut_roundtrip;
  pdu_law_bhs := DataOut_bhs_ok;
  pdu_law_opcode := DataOut_bhs_opcode;
  pdu_law_total := DataOut_marshal_total;
|}.

Record LogoutReq := mkLogoutReq {
  LogoutReq_Hdr : Header;
  LogoutReq_ReasonCode : Z;
  LogoutReq_CID : Z;
  LogoutReq_CmdSN : Z;
  LogoutReq_ExpStatSN : Z;
}.

Definition LogoutReq_MarshalBHS (p : LogoutReq) : res bytes :=
  bhs ← marshalHeader (with_OpCode OpLogoutReq (LogoutReq_Hdr p)) (zeros BHSLength);
  let bhs := or_byte 1 (Z.land (LogoutReq_ReasonCode p) 0x7f) bhs in
  let bhs := put_be 2 20 (LogoutReq_CID p) bhs in
  let bhs := put_be 4 24 (LogoutReq_CmdSN p) bhs in
  let bhs := put_be 4 28 (LogoutReq_ExpStatSN p) bhs in
  Ok bhs.

Definition LogoutReq_UnmarshalBHS (bhs : bytes) : LogoutReq :=
  {| LogoutReq_Hdr := unmarshalHeader bhs;
     LogoutReq_ReasonCode := Z.land (byte_at 1 bhs) 0x7f;
     LogoutReq_CID := get_be 2 20 bhs;
     LogoutReq_CmdSN := get_be 4 24 bhs;
     LogoutReq_ExpStatSN := get_be 4 28 bhs |}.

Definition LogoutReq_ok (p : LogoutReq) : Prop :=
  Header_ok (LogoutReq_Hdr p) /\
  in_width 7 (LogoutReq_ReasonCode p) /\
  u16 (LogoutReq_CID p) /\
  u32 (LogoutReq_CmdSN p) /\
  u32 (LogoutReq_ExpStatSN p).

(** What the BHS carries of [p]: everything but the data segment. *)
Definition LogoutReq_wire (p : LogoutReq) : LogoutReq :=
  {| LogoutReq_Hdr := with_OpCode OpLogoutReq (LogoutReq_Hdr p);
     LogoutReq_ReasonCode := LogoutReq_ReasonCode p;
     LogoutReq_CID := LogoutReq_CID p;
     LogoutReq_CmdSN := LogoutReq_CmdSN p;
     LogoutReq_ExpStatSN := LogoutReq_ExpStatSN p |}.

Lemma LogoutReq_roundtrip p bhs : LogoutReq_ok p ->
  LogoutReq_MarshalBHS p = Ok bhs -> LogoutReq_UnmarshalBHS bhs = LogoutReq_wire p.
Proof.
  unfold LogoutReq_ok, LogoutReq_MarshalBHS. destruct p; simpl; intros Hok Hm.
  marshalled Hm. pdu_fields. unfold LogoutReq_UnmarshalBHS, LogoutReq_wire.
  pdu_roundtrip.
Qed.

Lemma LogoutReq_bhs_ok p bhs : LogoutReq_ok p ->
  LogoutReq_MarshalBHS p = Ok bhs -> length bhs = BHSLength /\ bytes_ok bhs.
Proof.
  unfold LogoutReq_ok, LogoutReq_MarshalBHS. destruct p; simpl; intros Hok Hm.
  marshalled Hm. pdu_fields. pdu_bhs_ok.
Qed.

Lemma LogoutReq_bhs_opcode p bhs :
  LogoutReq_MarshalBHS p = Ok bhs -> byte_at 0 bhs = encodeOpcodeByte OpLogoutReq (Immediate (LogoutReq_Hdr p)).
Proof. unfold LogoutReq_MarshalBHS. destruct p; simpl; intros Hm. marshalled Hm. reflexivity. Qed.

Lemma LogoutReq_marshal_total p :
  is_Ok (LogoutReq_MarshalBHS p) = negb (DataSegmentLen (LogoutReq_Hdr p) >? 0xFFFFFF).
Proof. unfold LogoutReq_MarshalBHS. marshal_total. Qed.

#[export] Instance LogoutReq_WirePDU : WirePDU LogoutReq := {|
  pdu_op := OpLogoutReq;
  pdu_Hdr := LogoutReq_Hdr;
  pdu_MarshalBHS := LogoutReq_MarshalBHS;
  pdu_UnmarshalBHS := LogoutReq_UnmarshalBHS;
  pdu_DataSegment := fun _ => [];
  pdu_ok := LogoutReq_ok;
  pdu_wire := LogoutReq_wire;
  pdu_op_width := ltac:(vm_compute; by split);
  pdu_law_roundtrip := LogoutReq_roundtrip;
  pdu_law_bhs := LogoutReq_bhs_ok;
  pdu_law_opcode := LogoutReq_bhs_opcode;
  pdu_law_total := LogoutReq_marshal_total;
|}.

Record SNACKReq := mkSNACKReq {
  SNACKReq_Hdr : Header;
  SNACKReq_Type_ : Z;
  SNACKReq_TargetTransferTag : Z;
  SNACKReq_ExpStatSN : Z;
  SNACKReq_BegRun : Z;
  SNACKReq_RunLength : Z;
}.

Definition SNACKReq_MarshalBHS (p : SNACKReq) : res bytes :=
  bhs ← marshalHeader (with_OpCode OpSNACKReq (SNACKReq_Hdr p)) (zeros BHSLength);
  let bhs := or_byte 1 (Z.land (SNACKReq_Type_ p) 0x0f) bhs in
  let bhs := put_be 4 20 (SNACKReq_TargetTransferTag p) bhs in
  let bhs := put_be 4 28 (SNACKReq_ExpStatSN p) bhs in
  let bhs := put_be 4 40 (SNACKReq_BegRun p) bhs in
  let bhs := put_be 4 44 (SNACKReq_RunLength p) bhs in
  Ok bhs.

Definition SNACKReq_UnmarshalBHS (bhs : bytes) : SNACKReq :=
  {| SNACKReq_Hdr := unmarshalHeader bhs;
     SNACKReq_Type_ := Z.land (byte_at 1 bhs) 0x0f;
     SNACKReq_TargetTransferTag := get_be 4 20 bhs;
     SNACKReq_ExpStatSN := get_be 4 28 bhs;
     SNACKReq_BegRun := get_be 4 40 bhs;
     SNACKReq_RunLength := get_be 4 44 bhs |}.

Definition SNACKReq_ok (p : SNACKReq) : Prop :=
  Header_ok (SNACKReq_Hdr p) /\
  in_width 4 (SNACKReq_Type_ p) /\
  u32 (SNACKReq_TargetTransferTag p) /\
  u32 (SNACKReq_ExpStatSN p) /\
  u32 (SNACKReq_BegRun p) /\
  u32 (SNACKReq_RunLength p).

(** What the BHS carries of [p]: everything but the data segment. *)
Definition SNACKReq_wire (p : SNACKReq) : SNACKReq :=
  {| SNACKReq_Hdr := with_OpCode OpSNACKReq (SNACKReq_Hdr p);
     SNACKReq_Type_ := SNACKReq_Type_ p;
     SNACKReq_TargetTransferTag := SNACKReq_TargetTransferTag p;
     SNACKReq_ExpStatSN := SNACKReq_ExpStatSN p;
     SNACKReq_BegRun := SNACKReq_BegRun p;
     SNACKReq_RunLength := SNACKReq_RunLength p |}.

Lemma SNACKReq_roundtrip p bhs : SNACKReq_ok p ->
  SNACKReq_MarshalBHS p = Ok bhs -> SNACKReq_UnmarshalBHS bhs = SNACKReq_wire p.
Proof.
  unfold SNACKReq_ok, SNACKReq_MarshalBHS. destruct p; simpl; intros Hok Hm.
  marshalled Hm. pdu_fields. unfold SNACKReq_UnmarshalBHS, SNACKReq_wire.
  pdu_roundtrip.
Qed.

Lemma SNACKReq_bhs_ok p bhs : SNACKReq_ok p ->
  SNACKReq_MarshalBHS p = Ok bhs -> length bhs = BHSLength /\ bytes_ok bhs.
Proof.
  unfold SNACKReq_ok, SNACKReq_MarshalBHS. destruct p; simpl; intros Hok Hm.
  marshalled Hm. pdu_fields. pdu_bhs_ok.
Qed.

Lemma SNACKReq_bhs_opcode p bhs :
  SNACKReq_MarshalBHS p = Ok bhs -> byte_at 0 bhs = encodeOpcodeByte OpSNACKReq (Immediate (SNACKReq_Hdr p)).
Proof. unfold SNACKReq_MarshalBHS. destruct p; simpl; intros Hm. marshalled Hm. reflexivity. Qed.

Lemma SNACKReq_marshal_total p :
  is_Ok (SNACKReq_MarshalBHS p) = negb (DataSegmentLen (SNACKReq_Hdr p) >? 0xFFFFFF).
Proof. unfold SNACKReq_MarshalBHS. marshal_total. Qed.

#[export] Instance SNACKReq_WirePDU : WirePDU SNACKReq := {|
  pdu_op := OpSNACKReq;
  pdu_Hdr := SNACKReq_Hdr;
  pdu_MarshalBHS := SNACKReq_MarshalBHS;
  pdu_UnmarshalBHS := SNACKReq_UnmarshalBHS;
  pdu_DataSegment := fun _ => [];
  pdu_ok := SNACKReq_ok;
  pdu_wire := SNACKReq_wire;
  pdu_op_width := ltac:(vm_compute; by split);
  pdu_law_roundtrip := SNACKReq_roundtrip;
  pdu_law_bhs := SNACKReq_bhs_ok;
  pdu_law_opcode := SNACKReq_bhs_opcode;
  pdu_law_total := SNACKReq_marshal_total;
|}.
