(* ===== verification/PduTarget.v ===== *)
(** Target PDUs ([src/internal/pdu/target.go]), in the form of
    [PduInitiator.v]. *)
From S2P Require Import Prelude Errors Bhs PduTactics.
#[local] Open Scope Z_scope.

Record NOPIn := mkNOPIn {
  NOPIn_Hdr : Header;
  NOPIn_TargetTransferTag : Z;
  NOPIn_StatSN : Z;
  NOPIn_ExpCmdSN : Z;
  NOPIn_MaxCmdSN : Z;
  NOPIn_Data : bytes;
}.

Definition NOPIn_MarshalBHS (p : NOPIn) : res bytes :=
  bhs ← marshalHeader (with_OpCode OpNOPIn (NOPIn_Hdr p)) (zeros BHSLength);
  let bhs := put_be 4 20 (NOPIn_TargetTransferTag p) bhs in
  let bhs := put_be 4 24 (NOPIn_StatSN p) bhs in
  let bhs := put_be 4 28 (NOPIn_ExpCmdSN p) bhs in
  let bhs := put_be 4 32 (NOPIn_MaxCmdSN p) bhs in
  Ok bhs.

Definition NOPIn_UnmarshalBHS (bhs : bytes) : NOPIn :=
  {| NOPIn_Hdr := unmarshalHeader bhs;
     NOPIn_TargetTransferTag := get_be 4 20 bhs;
     NOPIn_StatSN := get_be 4 24 bhs;
     NOPIn_ExpCmdSN := get_be 4 28 bhs;
     NOPIn_MaxCmdSN := get_be 4 32 bhs;
     NOPIn_Data := [] |}.

Definition NOPIn_ok (p : NOPIn) : Prop :=
  Header_ok (NOPIn_Hdr p) /\
  u32 (NOPIn_TargetTransferTag p) /\
  u32 (NOPIn_StatSN p) /\
  u32 (NOPIn_ExpCmdSN p) /\
  u32 (NOPIn_MaxCmdSN p).

(** What the BHS carries of [p]: everything but the data segment. *)
Definition NOPIn_wire (p : NOPIn) : NOPIn :=
  {| NOPIn_Hdr := with_OpCode OpNOPIn (NOPIn_Hdr p);
     NOPIn_TargetTransferTag := NOPIn_TargetTransferTag p;
     NOPIn_StatSN := NOPIn_StatSN p;
     NOPIn_ExpCmdSN := NOPIn_ExpCmdSN p;
     NOPIn_MaxCmdSN := NOPIn_MaxCmdSN p;
     NOPIn_Data := [] |}.

Lemma NOPIn_roundtrip p bhs : NOPIn_ok p ->
  NOPIn_MarshalBHS p = Ok bhs -> NOPIn_UnmarshalBHS bhs = NOPIn_wire p.
Proof.
  unfold NOPIn_ok, NOPIn_MarshalBHS. destruct p; simpl; intros Hok Hm.
  marshalled Hm. pdu_fields. unfold NOPIn_UnmarshalBHS, NOPIn_wire.
  pdu_roundtrip.
Qed.

Lemma NOPIn_bhs_ok p bhs : NOPIn_ok p ->
  NOPIn_MarshalBHS p = Ok bhs -> length bhs = BHSLength /\ bytes_ok bhs.
Proof.
  unfold NOPIn_ok, NOPIn_MarshalBHS. destruct p; simpl; intros Hok Hm.
  marshalled Hm. pdu_fields. pdu_bhs_ok.
Qed.

Lemma NOPIn_bhs_opcode p bhs :
  NOPIn_MarshalBHS p = Ok bhs -> byte_at 0 bhs = encodeOpcodeByte OpNOPIn (Immediate (NOPIn_Hdr p)).
Proof. unfold NOPIn_MarshalBHS. destruct p; simpl; intros Hm. marshalled Hm. reflexivity. Qed.

Lemma NOPIn_marshal_total p :
  is_Ok (NOPIn_MarshalBHS p) = negb (DataSegmentLen (NOPIn_Hdr p) >? 0xFFFFFF).
Proof. unfold NOPIn_MarshalBHS. marshal_total. Qed.

#[export] Instance NOPIn_WirePDU : WirePDU NOPIn := {|
  pdu_op := OpNOPIn;
  pdu_Hdr := NOPIn_Hdr;
  pdu_MarshalBHS := NOPIn_MarshalBHS;
  pdu_UnmarshalBHS := NOPIn_UnmarshalBHS;
  pdu_DataSegment := NOPIn_Data;
  pdu_ok := NOPIn_ok;
  pdu_wire := NOPIn_wire;
  pdu_op_width := ltac:(vm_compute; by split);
  pdu_law_roundtrip := NOPIn_roundtrip;
  pdu_law_bhs := NOPIn_bhs_ok;
  pdu_law_opcode := NOPIn_bhs_opcode;
  pdu_law_total := NOPIn_marshal_total;
|}.

Record SCSIResponse := mkSCSIResponse {
  SCSIResponse_Hdr : Header;
  SCSIResponse_BidiOverflow : bool;
  SCSIResponse_BidiUnderflow : bool;
  SCSIResponse_Overflow : bool;
  SCSIResponse_Underflow : bool;
  SCSIResponse_Response : Z;
  SCSIResponse_Status : Z;
  SCSIResponse_SNACKTag : Z;
  SCSIResponse_StatSN : Z;
  SCSIResponse_ExpCmdSN : Z;
  SCSIResponse_MaxCmdSN : Z;
  SCSIResponse_ExpDataSN : Z;
  SCSIResponse_BidiResidualCount : Z;
  SCSIResponse_ResidualCount : Z;
  SCSIResponse_Data : bytes;
}.

Definition SCSIResponse_MarshalBHS (p : SCSIResponse) : res bytes :=
  bhs ← marshalHeader (with_OpCode OpSCSIResponse (SCSIResponse_Hdr p)) (zeros BHSLength);
  let bhs := or_byte 1 (flag (SCSIResponse_BidiOverflow p) 0x10) bhs in
  let bhs := or_byte 1 (flag (SCSIResponse_BidiUnderflow p) 0x08) bhs in
  let bhs := or_byte 1 (flag (SCSIResponse_Overflow p) 0x04) bhs in
  let bhs := or_byte 1 (flag (SCSIResponse_Underflow p) 0x02) bhs in
  let bhs := upd 2 [SCSIResponse_Response p] bhs in
  let bhs := upd 3 [SCSIResponse_Status p] bhs in
  let bhs := put_be 4 20 (SCSIResponse_SNACKTag p) bhs in
  let bhs := put_be 4 24 (SCSIResponse_StatSN p) bhs in
  let bhs := put_be 4 28 (SCSIResponse_ExpCmdSN p) bhs in
  let bhs := put_be 4 32 (SCSIResponse_MaxCmdSN p) bhs in
  let bhs := put_be 4 36 (SCSIResponse_ExpDataSN p) bhs in
  let bhs := put_be 4 40 (SCSIResponse_BidiResidualCount p) bhs in
  let bhs := put_be 4 44 (SCSIResponse_ResidualCount p) bhs in
  Ok bhs.

Definition SCSIResponse_UnmarshalBHS (bhs : bytes) : SCSIResponse :=
  {| SCSIResponse_Hdr := unmarshalHeader bhs;
     SCSIResponse_BidiOverflow := has_bit (byte_at 1 bhs) 0x10;
     SCSIResponse_BidiUnderflow := has_bit (byte_at 1 bhs) 0x08;
     SCSIResponse_Overflow := has_bit (byte_at 1 bhs) 0x04;
     SCSIResponse_Underflow := has_bit (byte_at 1 bhs) 0x02;
     SCSIResponse_Response := byte_at 2 bhs;
     SCSIResponse_Status := byte_at 3 bhs;
     SCSIResponse_SNACKTag := get_be 4 20 bhs;
     SCSIResponse_StatSN := get_be 4 24 bhs;
     SCSIResponse_ExpCmdSN := get_be 4 28 bhs;
     SCSIResponse_MaxCmdSN := get_be 4 32 bhs;
     SCSIResponse_ExpDataSN := get_be 4 36 bhs;
     SCSIResponse_BidiResidualCount := get_be 4 40 bhs;
     SCSIResponse_ResidualCount := get_be 4 44 bhs;
     SCSIResponse_Data := [] |}.

Definition SCSIResponse_ok (p : SCSIResponse) : Prop :=
  Header_ok (SCSIResponse_Hdr p) /\
  u8 (SCSIResponse_Response p) /\
  u8 (SCSIResponse_Status p) /\
  u32 (SCSIResponse_SNACKTag p) /\
  u32 (SCSIResponse_StatSN p) /\
  u32 (SCSIResponse_ExpCmdSN p) /\
  u32 (SCSIResponse_MaxCmdSN p) /\
  u32 (SCSIResponse_ExpDataSN p) /\
  u32 (SCSIResponse_BidiResidualCount p) /\
  u32 (SCSIResponse_ResidualCount p).

(** What the BHS carries of [p]: everything but the data segment. *)
Definition SCSIResponse_wire (p : SCSIResponse) : SCSIResponse :=
  {| SCSIResponse_Hdr := with_OpCode OpSCSIResponse (SCSIResponse_Hdr p);
     SCSIResponse_BidiOverflow := SCSIResponse_BidiOverflow p;
     SCSIResponse_BidiUnderflow := SCSIResponse_BidiUnderflow p;
     SCSIResponse_Overflow := SCSIResponse_Overflow p;
     SCSIResponse_Underflow := SCSIResponse_Underflow p;
     SCSIResponse_Response := SCSIResponse_Response p;
     SCSIResponse_Status := SCSIResponse_Status p;
     SCSIResponse_SNACKTag := SCSIResponse_SNACKTag p;
     SCSIResponse_StatSN := SCSIResponse_StatSN p;
     SCSIResponse_ExpCmdSN := SCSIResponse_ExpCmdSN p;
     SCSIResponse_MaxCmdSN := SCSIResponse_MaxCmdSN p;
     SCSIResponse_ExpDataSN := SCSIResponse_ExpDataSN p;
     SCSIResponse_BidiResidualCount := SCSIResponse_BidiResidualCount p;
     SCSIResponse_ResidualCount := SCSIResponse_ResidualCount p;
     SCSIResponse_Data := [] |}.

Lemma SCSIResponse_roundtrip p bhs : SCSIResponse_ok p ->
  SCSIResponse_MarshalBHS p = Ok bhs -> SCSIResponse_UnmarshalBHS bhs = SCSIResponse_wire p.
Proof.
  unfold SCSIResponse_ok, SCSIResponse_MarshalBHS. destruct p; simpl; intros Hok Hm.
  marshalled Hm. pdu_fields. unfold SCSIResponse_UnmarshalBHS, SCSIResponse_wire.
  pdu_roundtrip.
Qed.

Lemma SCSIResponse_bhs_ok p bhs : SCSIResponse_ok p ->
  SCSIResponse_MarshalBHS p = Ok bhs -> length bhs = BHSLength /\ bytes_ok bhs.
Proof.
  unfold SCSIResponse_ok, SCSIResponse_MarshalBHS. destruct p; simpl; intros Hok Hm.
  marshalled Hm. pdu_fields. pdu_bhs_ok.
Qed.

Lemma SCSIResponse_bhs_opcode p bhs :
  SCSIResponse_MarshalBHS p = Ok bhs -> byte_at 0 bhs = encodeOpcodeByte OpSCSIResponse (Immediate (SCSIResponse_Hdr p)).
Proof. unfold SCSIResponse_MarshalBHS. destruct p; simpl; intros Hm. marshalled Hm. reflexivity. Qed.

Lemma SCSIResponse_marshal_total p :
  is_Ok (SCSIResponse_MarshalBHS p) = negb (DataSegmentLen (SCSIResponse_Hdr p) >? 0xFFFFFF).
Proof. unfold SCSIResponse_MarshalBHS. marshal_total. Qed.

#[export] Instance SCSIResponse_WirePDU : WirePDU SCSIResponse := {|
  pdu_op := OpSCSIResponse;
  pdu_Hdr := SCSIResponse_Hdr;
  pdu_MarshalBHS := SCSIResponse_MarshalBHS;
  pdu_UnmarshalBHS := SCSIResponse_UnmarshalBHS;
  pdu_DataSegment := SCSIResponse_Data;
  pdu_ok := SCSIResponse_ok;
  pdu_wire := SCSIResponse_wire;
  pdu_op_width := ltac:(vm_compute; by split);
  pdu_law_roundtrip := SCSIResponse_roundtrip;
  pdu_law_bhs := SCSIResponse_bhs_ok;
  pdu_law_opcode := SCSIResponse_bhs_opcode;
  pdu_law_total := SCSIResponse_marshal_total;
|}.

Record TaskMgmtResp := mkTaskMgmtResp {
  TaskMgmtResp_Hdr : Header;
  TaskMgmtResp_Response : Z;
  TaskMgmtResp_StatSN : Z;
  TaskMgmtResp_ExpCmdSN : Z;
  TaskMgmtResp_MaxCmdSN : Z;
}.

Definition TaskMgmtResp_MarshalBHS (p : TaskMgmtResp) : res bytes :=
  bhs ← marshalHeader (with_OpCode OpTaskMgmtResp (TaskMgmtResp_Hdr p)) (zeros BHSLength);
  let bhs := upd 2 [TaskMgmtResp_Response p] bhs in
  let bhs := put_be 4 24 (TaskMgmtResp_StatSN p) bhs in
  let bhs := put_be 4 28 (TaskMgmtResp_ExpCmdSN p) bhs in
  let bhs := put_be 4 32 (TaskMgmtResp_MaxCmdSN p) bhs in
  Ok bhs.

Definition TaskMgmtResp_UnmarshalBHS (bhs : bytes) : TaskMgmtResp :=
  {| TaskMgmtResp_Hdr := unmarshalHeader bhs;
     TaskMgmtResp_Response := byte_at 2 bhs;
     TaskMgmtResp_StatSN := get_be 4 24 bhs;
     TaskMgmtResp_ExpCmdSN := get_be 4 28 bhs;
     TaskMgmtResp_MaxCmdSN := get_be 4 32 bhs |}.

Definition TaskMgmtResp_ok (p : TaskMgmtResp) : Prop :=
  Header_ok (TaskMgmtResp_Hdr p) /\
  u8 (TaskMgmtResp_Response p) /\
  u32 (TaskMgmtResp_StatSN p) /\
  u32 (TaskMgmtResp_ExpCmdSN p) /\
  u32 (TaskMgmtResp_MaxCmdSN p).

(** What the BHS carries of [p]: everything but the data segment. *)
Definition TaskMgmtResp_wire (p : TaskMgmtResp) : TaskMgmtResp :=
  {| TaskMgmtResp_Hdr := with_OpCode OpTaskMgmtResp (TaskMgmtResp_Hdr p);
     TaskMgmtResp_Response := TaskMgmtResp_Response p;
     TaskMgmtResp_StatSN := TaskMgmtResp_StatSN p;
     TaskMgmtResp_ExpCmdSN := TaskMgmtResp_ExpCmdSN p;
     TaskMgmtResp_MaxCmdSN := TaskMgmtResp_MaxCmdSN p |}.

Lemma TaskMgmtResp_roundtrip p bhs : TaskMgmtResp_ok p ->
  TaskMgmtResp_MarshalBHS p = Ok bhs -> TaskMgmtResp_UnmarshalBHS bhs = TaskMgmtResp_wire p.
Proof.
  unfold TaskMgmtResp_ok, TaskMgmtResp_MarshalBHS. destruct p; simpl; intros Hok Hm.
  marshalled Hm. pdu_fields. unfold TaskMgmtResp_UnmarshalBHS, TaskMgmtResp_wire.
  pdu_roundtrip.
Qed.

Lemma TaskMgmtResp_bhs_ok p bhs : TaskMgmtResp_ok p ->
  TaskMgmtResp_MarshalBHS p = Ok bhs -> length bhs = BHSLength /\ bytes_ok bhs.
Proof.
  unfold TaskMgmtResp_ok, TaskMgmtResp_MarshalBHS. destruct p; simpl; intros Hok Hm.
  marshalled Hm. pdu_fields. pdu_bhs_ok.
Qed.

Lemma TaskMgmtResp_bhs_opcode p bhs :
  TaskMgmtResp_MarshalBHS p = Ok bhs -> byte_at 0 bhs = encodeOpcodeByte OpTaskMgmtResp (Immediate (TaskMgmtResp_Hdr p)).
Proof. unfold TaskMgmtResp_MarshalBHS. destruct p; simpl; intros Hm. marshalled Hm. reflexivity. Qed.

Lemma TaskMgmtResp_marshal_total p :
  is_Ok (TaskMgmtResp_MarshalBHS p) = negb (DataSegmentLen (TaskMgmtResp_Hdr p) >? 0xFFFFFF).
Proof. unfold TaskMgmtResp_MarshalBHS. marshal_total. Qed.

#[export] Instance TaskMgmtResp_WirePDU : WirePDU TaskMgmtResp := {|
  pdu_op := OpTaskMgmtResp;
  pdu_Hdr := TaskMgmtResp_Hdr;
  pdu_MarshalBHS := TaskMgmtResp_MarshalBHS;
  pdu_UnmarshalBHS := TaskMgmtResp_UnmarshalBHS;
  pdu_DataSegment := fun _ => [];
  pdu_ok := TaskMgmtResp_ok;
  pdu_wire := TaskMgmtResp_wire;
  pdu_op_width := ltac:(vm_compute; by split);
  pdu_law_roundtrip := TaskMgmtResp_roundtrip;
  pdu_law_bhs := TaskMgmtResp_bhs_ok;
  pdu_law_opcode := TaskMgmtResp_bhs_opcode;
  pdu_law_total := TaskMgmtResp_marshal_total;
|}.

Record LoginResp := mkLoginResp {
  LoginResp_Hdr : Header;
  LoginResp_Transit : bool;
  LoginResp_Continue : bool;
  LoginResp_CSG : Z;
  LoginResp_NSG : Z;
  LoginResp_VersionMax : Z;
  LoginResp_VersionActive : Z;
  LoginResp_ISID : bytes;
  LoginResp_TSIH : Z;
  LoginResp_StatSN : Z;
  LoginResp_ExpCmdSN : Z;
  LoginResp_MaxCmdSN : Z;
  LoginResp_StatusClass : Z;
  LoginResp_StatusDetail : Z;
  LoginResp_Data : bytes;
}.

Definition LoginResp_MarshalBHS (p : LoginResp) : res bytes :=
  bhs ← marshalHeader (with_OpCode OpLoginResp (LoginResp_Hdr p)) (zeros BHSLength);
  let bhs := upd 1 [0] bhs in
  let bhs := or_byte 1 (flag (LoginResp_Transit p) 0x80) bhs in
  let bhs := or_byte 1 (flag (LoginResp_Continue p) 0x40) bhs in
  let bhs := or_byte 1 (Z.shiftl (Z.land (LoginResp_CSG p) 0x03) 2) bhs in
  let bhs := or_byte 1 (Z.land (LoginResp_NSG p) 0x03) bhs in
  let bhs := upd 2 [LoginResp_VersionMax p] bhs in
  let bhs := upd 3 [LoginResp_VersionActive p] bhs in
  let bhs := upd 8 (LoginResp_ISID p) bhs in
  let bhs := put_be 2 14 (LoginResp_TSIH p) bhs in
  let bhs := put_be 4 24 (LoginResp_StatSN p) bhs in
  let bhs := put_be 4 28 (LoginResp_ExpCmdSN p) bhs in
  let bhs := put_be 4 32 (LoginResp_MaxCmdSN p) bhs in
  let bhs := upd 36 [LoginResp_StatusClass p] bhs in
  let bhs := upd 37 [LoginResp_StatusDetail p] bhs in
  Ok bhs.

Definition LoginResp_UnmarshalBHS (bhs : bytes) : LoginResp :=
  {| LoginResp_Hdr := unmarshalHeader bhs;
     LoginResp_Transit := has_bit (byte_at 1 bhs) 0x80;
     LoginResp_Continue := has_bit (byte_at 1 bhs) 0x40;
     LoginResp_CSG := Z.land (Z.shiftr (byte_at 1 bhs) 2) 0x03;
     LoginResp_NSG := Z.land (byte_at 1 bhs) 0x03;
     LoginResp_VersionMax := byte_at 2 bhs;
     LoginResp_VersionActive := byte_at 3 bhs;
     LoginResp_ISID := sub 8 6 bhs;
     LoginResp_TSIH := get_be 2 14 bhs;
     LoginResp_StatSN := get_be 4 24 bhs;
     LoginResp_ExpCmdSN := get_be 4 28 bhs;
     LoginResp_MaxCmdSN := get_be 4 32 bhs;
     LoginResp_StatusClass := byte_at 36 bhs;
     LoginResp_StatusDetail := byte_at 37 bhs;
     LoginResp_Data := [] |}.

Definition LoginResp_ok (p : LoginResp) : Prop :=
  Header_ok (LoginResp_Hdr p) /\
  in_width 2 (LoginResp_CSG p) /\
  in_width 2 (LoginResp_NSG p) /\
  u8 (LoginResp_VersionMax p) /\
  u8 (LoginResp_VersionActive p) /\
  length (LoginResp_ISID p) = 6%nat /\ bytes_ok (LoginResp_ISID p) /\
  u16 (LoginResp_TSIH p) /\
  u32 (LoginResp_StatSN p) /\
  u32 (LoginResp_ExpCmdSN p) /\
  u32 (LoginResp_MaxCmdSN p) /\
  u8 (LoginResp_StatusClass p) /\
  u8 (LoginResp_StatusDetail p).

(** What the BHS carries of [p]: everything but the data segment. *)
Definition LoginResp_wire (p : LoginResp) : LoginResp :=
  {| LoginResp_Hdr := login_header (LoginResp_Transit p) (LoginResp_ISID p) (LoginResp_TSIH p) (with_OpCode OpLoginResp (LoginResp_Hdr p));
     LoginResp_Transit := LoginResp_Transit p;
     LoginResp_Continue := LoginResp_Continue p;
     LoginResp_CSG := LoginResp_CSG p;
     LoginResp_NSG := LoginResp_NSG p;
     LoginResp_VersionMax := LoginResp_VersionMax p;
     LoginResp_VersionActive := LoginResp_VersionActive p;
     LoginResp_ISID := LoginResp_ISID p;
     LoginResp_TSIH := LoginResp_TSIH p;
     LoginResp_StatSN := LoginResp_StatSN p;
     LoginResp_ExpCmdSN := LoginResp_ExpCmdSN p;
     LoginResp_MaxCmdSN := LoginResp_MaxCmdSN p;
     LoginResp_StatusClass := LoginResp_StatusClass p;
     LoginResp_StatusDetail := LoginResp_StatusDetail p;
     LoginResp_Data := [] |}.

Lemma LoginResp_roundtrip p bhs : LoginResp_ok p ->
  LoginResp_MarshalBHS p = Ok bhs -> LoginResp_UnmarshalBHS bhs = LoginResp_wire p.
Proof.
  unfold LoginResp_ok, LoginResp_MarshalBHS. destruct p; simpl; intros Hok Hm.
  marshalled Hm. pdu_fields. unfold LoginResp_UnmarshalBHS, LoginResp_wire, login_header.
  pdu_roundtrip.
Qed.

Lemma LoginResp_bhs_ok p bhs : LoginResp_ok p ->
  LoginResp_MarshalBHS p = Ok bhs -> length bhs = BHSLength /\ bytes_ok bhs.
Proof.
  unfold LoginResp_ok, LoginResp_MarshalBHS. destruct p; simpl; intros Hok Hm.
  marshalled Hm. pdu_fields. pdu_bhs_ok.
Qed.

Lemma LoginResp_bhs_opcode p bhs :
  LoginResp_MarshalBHS p = Ok bhs -> byte_at 0 bhs = encodeOpcodeByte OpLoginResp (Immediate (LoginResp_Hdr p)).
Proof. unfold LoginResp_MarshalBHS. destruct p; simpl; intros Hm. marshalled Hm. reflexivity. Qed.

Lemma LoginResp_marshal_total p :
  is_Ok (LoginResp_MarshalBHS p) = negb (DataSegmentLen (LoginResp_Hdr p) >? 0xFFFFFF).
Proof. unfold LoginResp_MarshalBHS. marshal_total. Qed.

#[export] Instance LoginResp_WirePDU : WirePDU LoginResp := {|
  pdu_op := OpLoginResp;
  pdu_Hdr := LoginResp_Hdr;
  pdu_MarshalBHS := LoginResp_MarshalBHS;
  pdu_UnmarshalBHS := LoginResp_UnmarshalBHS;
  pdu_DataSegment := LoginResp_Data;
  pdu_ok := LoginResp_ok;
  pdu_wire := LoginResp_wire;
  pdu_op_width := ltac:(vm_compute; by split);
  pdu_law_roundtrip := LoginResp_roundtrip;
  pdu_law_bhs := LoginResp_bhs_ok;
  pdu_law_opcode := LoginResp_bhs_opcode;
  pdu_law_total := LoginResp_marshal_total;
|}.

Record TextResp := mkTextResp {
  TextResp_Hdr : Header;
  TextResp_Continue : bool;
  TextResp_TargetTransferTag : Z;
  TextResp_StatSN : Z;
  TextResp_ExpCmdSN : Z;
  TextResp_MaxCmdSN : Z;
  TextResp_Data : bytes;
}.

Definition TextResp_MarshalBHS (p : TextResp) : res bytes :=
  bhs ← marshalHeader (with_OpCode OpTextResp (TextResp_Hdr p)) (zeros BHSLength);
  let bhs := or_byte 1 (flag (TextResp_Continue p) 0x40) bhs in
  let bhs := put_be 4 20 (TextResp_TargetTransferTag p) bhs in
  let bhs := put_be 4 24 (TextResp_StatSN p) bhs in
  let bhs := put_be 4 28 (TextResp_ExpCmdSN p) bhs in
  let bhs := put_be 4 32 (TextResp_MaxCmdSN p) bhs in
  Ok bhs.

Definition TextResp_UnmarshalBHS (bhs : bytes) : TextResp :=
  {| TextResp_Hdr := unmarshalHeader bhs;
     TextResp_Continue := has_bit (byte_at 1 bhs) 0x40;
     TextResp_TargetTransferTag := get_be 4 20 bhs;
     TextResp_StatSN := get_be 4 24 bhs;
     TextResp_ExpCmdSN := get_be 4 28 bhs;
     TextResp_MaxCmdSN := get_be 4 32 bhs;
     TextResp_Data := [] |}.

Definition TextResp_ok (p : TextResp) : Prop :=
  Header_ok (TextResp_Hdr p) /\
  u32 (TextResp_TargetTransferTag p) /\
  u32 (TextResp_StatSN p) /\
  u32 (TextResp_ExpCmdSN p) /\
  u32 (TextResp_MaxCmdSN p).

(** What the BHS carries of [p]: everything but the data segment. *)
Definition TextResp_wire (p : TextResp) : TextResp :=
  {| TextResp_Hdr := with_OpCode OpTextResp (TextResp_Hdr p);
     TextResp_Continue := TextResp_Continue p;
     TextResp_TargetTransferTag := TextResp_TargetTransferTag p;
     TextResp_StatSN := TextResp_StatSN p;
     TextResp_ExpCmdSN := TextResp_ExpCmdSN p;
     TextResp_MaxCmdSN := TextResp_MaxCmdSN p;
     TextResp_Data := [] |}.

Lemma TextResp_roundtrip p bhs : TextResp_ok p ->
  TextResp_MarshalBHS p = Ok bhs -> TextResp_UnmarshalBHS bhs = TextResp_wire p.
Proof.
  unfold TextResp_ok, TextResp_MarshalBHS. destruct p; simpl; intros Hok Hm.
  marshalled Hm. pdu_fields. unfold TextResp_UnmarshalBHS, TextResp_wire.
  pdu_roundtrip.
Qed.

Lemma TextResp_bhs_ok p bhs : TextResp_ok p ->
  TextResp_MarshalBHS p = Ok bhs -> length bhs = BHSLength /\ bytes_ok bhs.
Proof.
  unfold TextResp_ok, TextResp_MarshalBHS. destruct p; simpl; intros Hok Hm.
  marshalled Hm. pdu_fields. pdu_bhs_ok.
Qed.

Lemma TextResp_bhs_opcode p bhs :
  TextResp_MarshalBHS p = Ok bhs -> byte_at 0 bhs = encodeOpcodeByte OpTextResp (Immediate (TextResp_Hdr p)).
Proof. unfold TextResp_MarshalBHS. destruct p; simpl; intros Hm. marshalled Hm. reflexivity. Qed.

Lemma TextResp_marshal_total p :
  is_Ok (TextResp_MarshalBHS p) = negb (DataSegmentLen (TextResp_Hdr p) >? 0xFFFFFF).
Proof. unfold TextResp_MarshalBHS. marshal_total. Qed.

#[export] Instance TextResp_WirePDU : WirePDU TextResp := {|
  pdu_op := OpTextResp;
  pdu_Hdr := TextResp_Hdr;
  pdu_MarshalBHS := TextResp_MarshalBHS;
  pdu_UnmarshalBHS := TextResp_UnmarshalBHS;
  pdu_DataSegment := TextResp_Data;
  pdu_ok := TextResp_ok;
  pdu_wire := TextResp_wire;
  pdu_op_width := ltac:(vm_compute; by split);
  pdu_law_roundtrip := TextResp_roundtrip;
  pdu_law_bhs := TextResp_bhs_ok;
  pdu_law_opcode := TextResp_bhs_opcode;
  pdu_law_total := TextResp_marshal_total;
|}.

Record DataIn := mkDataIn {
  DataIn_Hdr : Header;
  DataIn_Acknowledge : bool;
  DataIn_ResidualOverflow : bool;
  DataIn_ResidualUnderflow : bool;
  DataIn_HasStatus : bool;
  DataIn_Status : Z;
  DataIn_TargetTransferTag : Z;
  DataIn_StatSN : Z;
  DataIn_ExpCmdSN : Z;
  DataIn_MaxCmdSN : Z;
  DataIn_DataSN : Z;
  DataIn_BufferOffset : Z;
  DataIn_ResidualCount : Z;
  DataIn_Data : bytes;
}.

Definition DataIn_MarshalBHS (p : DataIn) : res bytes :=
  bhs ← marshalHeader (with_OpCode OpDataIn (DataIn_Hdr p)) (zeros BHSLength);
  let bhs := or_byte 1 (flag (DataIn_Acknowledge p) 0x40) bhs in
  let bhs := or_byte 1 (flag (DataIn_ResidualOverflow p) 0x04) bhs in
  let bhs := or_byte 1 (flag (DataIn_ResidualUnderflow p) 0x08) bhs in
  let bhs := or_byte 1 (flag (DataIn_HasStatus p) 0x01) bhs in
  let bhs := upd 3 [DataIn_Status p] bhs in
  let bhs := put_be 4 20 (DataIn_TargetTransferTag p) bhs in
  let bhs := put_be 4 24 (DataIn_StatSN p) bhs in
  let bhs := put_be 4 28 (DataIn_ExpCmdSN p) bhs in
  let bhs := put_be 4 32 (DataIn_MaxCmdSN p) bhs in
  let bhs := put_be 4 36 (DataIn_DataSN p) bhs in
  let bhs := put_be 4 40 (DataIn_BufferOffset p) bhs in
  let bhs := put_be 4 44 (DataIn_ResidualCount p) bhs in
  Ok bhs.

Definition DataIn_UnmarshalBHS (bhs : bytes) : DataIn :=
  {| DataIn_Hdr := unmarshalHeader bhs;
     DataIn_Acknowledge := has_bit (byte_at 1 bhs) 0x40;
     DataIn_ResidualOverflow := has_bit (byte_at 1 bhs) 0x04;
     DataIn_ResidualUnderflow := has_bit (byte_at 1 bhs) 0x08;
     DataIn_HasStatus := has_bit (byte_at 1 bhs) 0x01;
     DataIn_Status := byte_at 3 bhs;
     DataIn_TargetTransferTag := get_be 4 20 bhs;
     DataIn_StatSN := get_be 4 24 bhs;
     DataIn_ExpCmdSN := get_be 4 28 bhs;
     DataIn_MaxCmdSN := get_be 4 32 bhs;
     DataIn_DataSN := get_be 4 36 bhs;
     DataIn_BufferOffset := get_be 4 40 bhs;
     DataIn_ResidualCount := get_be 4 44 bhs;
     DataIn_Data := [] |}.

Definition DataIn_ok (p : DataIn) : Prop :=
  Header_ok (DataIn_Hdr p) /\
  u8 (DataIn_Status p) /\
  u32 (DataIn_TargetTransferTag p) /\
  u32 (DataIn_StatSN p) /\
  u32 (DataIn_ExpCmdSN p) /\
  u32 (DataIn_MaxCmdSN p) /\
  u32 (DataIn_DataSN p) /\
  u32 (DataIn_BufferOffset p) /\
  u32 (DataIn_ResidualCount p).

(** What the BHS carries of [p]: everything but the data segment. *)
Definition DataIn_wire (p : DataIn) : DataIn :=
  {| DataIn_Hdr := with_OpCode OpDataIn (DataIn_Hdr p);
     DataIn_Acknowledge := DataIn_Acknowledge p;
     DataIn_ResidualOverflow := DataIn_ResidualOverflow p;
     DataIn_ResidualUnderflow := DataIn_ResidualUnderflow p;
     DataIn_HasStatus := DataIn_HasStatus p;
     DataIn_Status := DataIn_Status p;
     DataIn_TargetTransferTag := DataIn_TargetTransferTag p;
     DataIn_StatSN := DataIn_StatSN p;
     DataIn_ExpCmdSN := DataIn_ExpCmdSN p;
     DataIn_MaxCmdSN := DataIn_MaxCmdSN p;
     DataIn_DataSN := DataIn_DataSN p;
     DataIn_BufferOffset := DataIn_BufferOffset p;
     DataIn_ResidualCount := DataIn_ResidualCount p;
     DataIn_Data := [] |}.

Lemma DataIn_roundtrip p bhs : DataIn_ok p ->
  DataIn_MarshalBHS p = Ok bhs -> DataIn_UnmarshalBHS bhs = DataIn_wire p.
Proof.
  unfold DataIn_ok, DataIn_MarshalBHS. destruct p; simpl; intros Hok Hm.
  marshalled Hm. pdu_fields. unfold DataIn_UnmarshalBHS, DataIn_wire.
  pdu_roundtrip.
Qed.

Lemma DataIn_bhs_ok p bhs : DataIn_ok p ->
  DataIn_MarshalBHS p = Ok bhs -> length bhs = BHSLength /\ bytes_ok bhs.
Proof.
  unfold DataIn_ok, DataIn_MarshalBHS. destruct p; simpl; intros Hok Hm.
  marshalled Hm. pdu_fields. pdu_bhs_ok.
Qed.

Lemma DataIn_bhs_opcode p bhs :
  DataIn_MarshalBHS p = Ok bhs -> byte_at 0 bhs = encodeOpcodeByte OpDataIn (Immediate (DataIn_Hdr p)).
Proof. unfold DataIn_MarshalBHS. destruct p; simpl; intros Hm. marshalled Hm. reflexivity. Qed.

Lemma DataIn_marshal_total p :
  is_Ok (DataIn_MarshalBHS p) = negb (DataSegmentLen (DataIn_Hdr p) >? 0xFFFFFF).
Proof. unfold DataIn_MarshalBHS. marshal_total. Qed.

#[export] Instance DataIn_WirePDU : WirePDU DataIn := {|
  pdu_op := OpDataIn;
  pdu_Hdr := DataIn_Hdr;
  pdu_MarshalBHS := DataIn_MarshalBHS;
  pdu_UnmarshalBHS := DataIn_UnmarshalBHS;
  pdu_DataSegment := DataIn_Data;
  pdu_ok := DataIn_ok;
  pdu_wire := DataIn_wire;
  pdu_op_width := ltac:(vm_compute; by split);
  pdu_law_roundtrip := DataIn_roundtrip;
  pdu_law_bhs := DataIn_bhs_ok;
  pdu_law_opcode := DataIn_bhs_opcode;
  pdu_law_total := DataIn_marshal_total;
|}.

Record LogoutResp := mkLogoutResp {
  LogoutResp_Hdr : Header;
  LogoutResp_Response : Z;
  LogoutResp_StatSN : Z;
  LogoutResp_ExpCmdSN : Z;
  LogoutResp_MaxCmdSN : Z;
  LogoutResp_Time2Wait : Z;
  LogoutResp_Time2Retain : Z;
}.

Definition LogoutResp_MarshalBHS (p : LogoutResp) : res bytes :=
  bhs ← marshalHeader (with_OpCode OpLogoutResp (LogoutResp_Hdr p)) (zeros BHSLength);
  let bhs := upd 2 [LogoutResp_Response p] bhs in
  let bhs := put_be 4 24 (LogoutResp_StatSN p) bhs in
  let bhs := put_be 4 28 (LogoutResp_ExpCmdSN p) bhs in
  let bhs := put_be 4 32 (LogoutResp_MaxCmdSN p) bhs in
  let bhs := put_be 2 40 (LogoutResp_Time2Wait p) bhs in
  let bhs := put_be 2 42 (LogoutResp_Time2Retain p) bhs in
  Ok bhs.

Definition LogoutResp_UnmarshalBHS (bhs : bytes) : LogoutResp :=
  {| LogoutResp_Hdr := unmarshalHeader bhs;
     LogoutResp_Response := byte_at 2 bhs;
     LogoutResp_StatSN := get_be 4 24 bhs;
     LogoutResp_ExpCmdSN := get_be 4 28 bhs;
     LogoutResp_MaxCmdSN := get_be 4 32 bhs;
     LogoutResp_Time2Wait := get_be 2 40 bhs;
     LogoutResp_Time2Retain := get_be 2 42 bhs |}.

Definition LogoutResp_ok (p : LogoutResp) : Prop :=
  Header_ok (LogoutResp_Hdr p) /\
  u8 (LogoutResp_Response p) /\
  u32 (LogoutResp_StatSN p) /\
  u32 (LogoutResp_ExpCmdSN p) /\
  u32 (LogoutResp_MaxCmdSN p) /\
  u16 (LogoutResp_Time2Wait p) /\
  u16 (LogoutResp_Time2Retain p).

(** What the BHS carries of [p]: everything but the data segment. *)
Definition LogoutResp_wire (p : LogoutResp) : LogoutResp :=
  {| LogoutResp_Hdr := with_OpCode OpLogoutResp (LogoutResp_Hdr p);
     LogoutResp_Response := LogoutResp_Response p;
     LogoutResp_StatSN := LogoutResp_StatSN p;
     LogoutResp_ExpCmdSN := LogoutResp_ExpCmdSN p;
     LogoutResp_MaxCmdSN := LogoutResp_MaxCmdSN p;
     LogoutResp_Time2Wait := LogoutResp_Time2Wait p;
     LogoutResp_Time2Retain := LogoutResp_Time2Retain p |}.

Lemma LogoutResp_roundtrip p bhs : LogoutResp_ok p ->
  LogoutResp_MarshalBHS p = Ok bhs -> LogoutResp_UnmarshalBHS bhs = LogoutResp_wire p.
Proof.
  unfold LogoutResp_ok, LogoutResp_MarshalBHS. destruct p; simpl; intros Hok Hm.
  marshalled Hm. pdu_fields. unfold LogoutResp_UnmarshalBHS, LogoutResp_wire.
  pdu_roundtrip.
Qed.

Lemma LogoutResp_bhs_ok p bhs : LogoutResp_ok p ->
  LogoutResp_MarshalBHS p = Ok bhs -> length bhs = BHSLength /\ bytes_ok bhs.
Proof.
  unfold LogoutResp_ok, LogoutResp_MarshalBHS. destruct p; simpl; intros Hok Hm.
  marshalled Hm. pdu_fields. pdu_bhs_ok.
Qed.

Lemma LogoutResp_bhs_opcode p bhs :
  LogoutResp_MarshalBHS p = Ok bhs -> byte_at 0 bhs = encodeOpcodeByte OpLogoutResp (Immediate (LogoutResp_Hdr p)).
Proof. unfold LogoutResp_MarshalBHS. destruct p; simpl; intros Hm. marshalled Hm. reflexivity. Qed.

Lemma LogoutResp_marshal_total p :
  is_Ok (LogoutResp_MarshalBHS p) = negb (DataSegmentLen (LogoutResp_Hdr p) >? 0xFFFFFF).
Proof. unfold LogoutResp_MarshalBHS. marshal_total. Qed.

#[export] Instance LogoutResp_WirePDU : WirePDU LogoutResp := {|
  pdu_op := OpLogoutResp;
  pdu_Hdr := LogoutResp_Hdr;
  pdu_MarshalBHS := LogoutResp_MarshalBHS;
  pdu_UnmarshalBHS := LogoutResp_UnmarshalBHS;
  pdu_DataSegment := fun _ => [];
  pdu_ok := LogoutResp_ok;
  pdu_wire := LogoutResp_wire;
  pdu_op_width := ltac:(vm_compute; by split);
  pdu_law_roundtrip := LogoutResp_roundtrip;
  pdu_law_bhs := LogoutResp_bhs_ok;
  pdu_law_opcode := LogoutResp_bhs_opcode;
  pdu_law_total := LogoutResp_marshal_total;
|}.

Record R2T := mkR2T {
  R2T_Hdr : Header;
  R2T_TargetTransferTag : Z;
  R2T_StatSN : Z;
  R2T_ExpCmdSN : Z;
  R2T_MaxCmdSN : Z;
  R2T_R2TSN : Z;
  R2T_BufferOffset : Z;
  R2T_DesiredDataTransferLength : Z;
}.

Definition R2T_MarshalBHS (p : R2T) : res bytes :=
  bhs ← marshalHeader (with_OpCode OpR2T (R2T_Hdr p)) (zeros BHSLength);
  let bhs := put_be 4 20 (R2T_TargetTransferTag p) bhs in
  let bhs := put_be 4 24 (R2T_StatSN p) bhs in
  let bhs := put_be 4 28 (R2T_ExpCmdSN p) bhs in
  let bhs := put_be 4 32 (R2T_MaxCmdSN p) bhs in
  let bhs := put_be 4 36 (R2T_R2TSN p) bhs in
  let bhs := put_be 4 40 (R2T_BufferOffset p) bhs in
  let bhs := put_be 4 44 (R2T_DesiredDataTransferLength p) bhs in
  Ok bhs.

Definition R2T_UnmarshalBHS (bhs : bytes) : R2T :=
  {| R2T_Hdr := unmarshalHeader bhs;
     R2T_TargetTransferTag := get_be 4 20 bhs;
     R2T_StatSN := get_be 4 24 bhs;
     R2T_ExpCmdSN := get_be 4 28 bhs;
     R2T_MaxCmdSN := get_be 4 32 bhs;
     R2T_R2TSN := get_be 4 36 bhs;
     R2T_BufferOffset := get_be 4 40 bhs;
     R2T_DesiredDataTransferLength := get_be 4 44 bhs |}.

Definition R2T_ok (p : R2T) : Prop :=
  Header_ok (R2T_Hdr p) /\
  u32 (R2T_TargetTransferTag p) /\
  u32 (R2T_StatSN p) /\
  u32 (R2T_ExpCmdSN p) /\
  u32 (R2T_MaxCmdSN p) /\
  u32 (R2T_R2TSN p) /\
  u32 (R2T_BufferOffset p) /\
  u32 (R2T_DesiredDataTransferLength p).

(** What the BHS carries of [p]: everything but the data segment. *)
Definition R2T_wire (p : R2T) : R2T :=
  {| R2T_Hdr := with_OpCode OpR2T (R2T_Hdr p);
     R2T_TargetTransferTag := R2T_TargetTransferTag p;
     R2T_StatSN := R2T_StatSN p;
     R2T_ExpCmdSN := R2T_ExpCmdSN p;
     R2T_MaxCmdSN := R2T_MaxCmdSN p;
     R2T_R2TSN := R2T_R2TSN p;
     R2T_BufferOffset := R2T_BufferOffset p;
     R2T_DesiredDataTransferLength := R2T_DesiredDataTransferLength p |}.

Lemma R2T_roundtrip p bhs : R2T_ok p ->
  R2T_MarshalBHS p = Ok bhs -> R2T_UnmarshalBHS bhs = R2T_wire p.
Proof.
  unfold R2T_ok, R2T_MarshalBHS. destruct p; simpl; intros Hok Hm.
  marshalled Hm. pdu_fields. unfold R2T_UnmarshalBHS, R2T_wire.
  pdu_roundtrip.
Qed.

Lemma R2T_bhs_ok p bhs : R2T_ok p ->
  R2T_MarshalBHS p = Ok bhs -> length bhs = BHSLength /\ bytes_ok bhs.
Proof.
  unfold R2T_ok, R2T_MarshalBHS. destruct p; simpl; intros Hok Hm.
  marshalled Hm. pdu_fields. pdu_bhs_ok.
Qed.

Lemma R2T_bhs_opcode p bhs :
  R2T_MarshalBHS p = Ok bhs -> byte_at 0 bhs = encodeOpcodeByte OpR2T (Immediate (R2T_Hdr p)).
Proof. unfold R2T_MarshalBHS. destruct p; simpl; intros Hm. marshalled Hm. reflexivity. Qed.

Lemma R2T_marshal_total p :
  is_Ok (R2T_MarshalBHS p) = negb (DataSegmentLen (R2T_Hdr p) >? 0xFFFFFF).
Proof. unfold R2T_MarshalBHS. marshal_total. Qed.

#[export] Instance R2T_WirePDU : WirePDU R2T := {|
  pdu_op := OpR2T;
  pdu_Hdr := R2T_Hdr;
  pdu_MarshalBHS := R2T_MarshalBHS;
  pdu_UnmarshalBHS := R2T_UnmarshalBHS;
  pdu_DataSegment := fun _ => [];
  pdu_ok := R2T_ok;
  pdu_wire := R2T_wire;
  pdu_op_width := ltac:(vm_compute; by split);
  pdu_law_roundtrip := R2T_roundtrip;
  pdu_law_bhs := R2T_bhs_ok;
  pdu_law_opcode := R2T_bhs_opcode;
  pdu_law_total := R2T_marshal_total;
|}.

Record AsyncMsg := mkAsyncMsg {
  AsyncMsg_Hdr : Header;
  AsyncMsg_StatSN : Z;
  AsyncMsg_ExpCmdSN : Z;
  AsyncMsg_MaxCmdSN : Z;
  AsyncMsg_AsyncEvent : Z;
  AsyncMsg_AsyncVCode : Z;
  AsyncMsg_Parameter1 : Z;
  AsyncMsg_Parameter2 : Z;
  AsyncMsg_Parameter3 : Z;
  AsyncMsg_Data : bytes;
}.

Definition AsyncMsg_MarshalBHS (p : AsyncMsg) : res bytes :=
  bhs ← marshalHeader (with_OpCode OpAsyncMsg (AsyncMsg_Hdr p)) (zeros BHSLength);
  let bhs := put_be 4 24 (AsyncMsg_StatSN p) bhs in
  let bhs := put_be 4 28 (AsyncMsg_ExpCmdSN p) bhs in
  let bhs := put_be 4 32 (AsyncMsg_MaxCmdSN p) bhs in
  let bhs := upd 36 [AsyncMsg_AsyncEvent p] bhs in
  let bhs := upd 37 [AsyncMsg_AsyncVCode p] bhs in
  let bhs := put_be 2 38 (AsyncMsg_Parameter1 p) bhs in
  let bhs := put_be 2 40 (AsyncMsg_Parameter2 p) bhs in
  let bhs := put_be 2 42 (AsyncMsg_Parameter3 p) bhs in
  Ok bhs.

Definition AsyncMsg_UnmarshalBHS (bhs : bytes) : AsyncMsg :=
  {| AsyncMsg_Hdr := unmarshalHeader bhs;
     AsyncMsg_StatSN := get_be 4 24 bhs;
     AsyncMsg_ExpCmdSN := get_be 4 28 bhs;
     AsyncMsg_MaxCmdSN := get_be 4 32 bhs;
     AsyncMsg_AsyncEvent := byte_at 36 bhs;
     AsyncMsg_AsyncVCode := byte_at 37 bhs;
     AsyncMsg_Parameter1 := get_be 2 38 bhs;
     AsyncMsg_Parameter2 := get_be 2 40 bhs;
     AsyncMsg_Parameter3 := get_be 2 42 bhs;
     AsyncMsg_Data := [] |}.

Definition AsyncMsg_ok (p : AsyncMsg) : Prop :=
  Header_ok (AsyncMsg_Hdr p) /\
  u32 (AsyncMsg_StatSN p) /\
  u32 (AsyncMsg_ExpCmdSN p) /\
  u32 (AsyncMsg_MaxCmdSN p) /\
  u8 (AsyncMsg_AsyncEvent p) /\
  u8 (AsyncMsg_AsyncVCode p) /\
  u16 (AsyncMsg_Parameter1 p) /\
  u16 (AsyncMsg_Parameter2 p) /\
  u16 (AsyncMsg_Parameter3 p).

(** What the BHS carries of [p]: everything but the data segment. *)
Definition AsyncMsg_wire (p : AsyncMsg) : AsyncMsg :=
  {| AsyncMsg_Hdr := with_OpCode OpAsyncMsg (AsyncMsg_Hdr p);
     AsyncMsg_StatSN := AsyncMsg_StatSN p;
     AsyncMsg_ExpCmdSN := AsyncMsg_ExpCmdSN p;
     AsyncMsg_MaxCmdSN := AsyncMsg_MaxCmdSN p;
     AsyncMsg_AsyncEvent := AsyncMsg_AsyncEvent p;
     AsyncMsg_AsyncVCode := AsyncMsg_AsyncVCode p;
     AsyncMsg_Parameter1 := AsyncMsg_Parameter1 p;
     AsyncMsg_Parameter2 := AsyncMsg_Parameter2 p;
     AsyncMsg_Parameter3 := AsyncMsg_Parameter3 p;
     AsyncMsg_Data := [] |}.

Lemma AsyncMsg_roundtrip p bhs : AsyncMsg_ok p ->
  AsyncMsg_MarshalBHS p = Ok bhs -> AsyncMsg_UnmarshalBHS bhs = AsyncMsg_wire p.
Proof.
  unfold AsyncMsg_ok, AsyncMsg_MarshalBHS. destruct p; simpl; intros Hok Hm.
  marshalled Hm. pdu_fields. unfold AsyncMsg_UnmarshalBHS, AsyncMsg_wire.
  pdu_roundtrip.
Qed.

Lemma AsyncMsg_bhs_ok p bhs : AsyncMsg_ok p ->
  AsyncMsg_MarshalBHS p = Ok bhs -> length bhs = BHSLength /\ bytes_ok bhs.
Proof.
  unfold AsyncMsg_ok, AsyncMsg_MarshalBHS. destruct p; simpl; intros Hok Hm.
  marshalled Hm. pdu_fields. pdu_bhs_ok.
Qed.

Lemma AsyncMsg_bhs_opcode p bhs :
  AsyncMsg_MarshalBHS p = Ok bhs -> byte_at 0 bhs = encodeOpcodeByte OpAsyncMsg (Immediate (AsyncMsg_Hdr p)).
Proof. unfold AsyncMsg_MarshalBHS. destruct p; simpl; intros Hm. marshalled Hm. reflexivity. Qed.

Lemma AsyncMsg_marshal_total p :
  is_Ok (AsyncMsg_MarshalBHS p) = negb (DataSegmentLen (AsyncMsg_Hdr p) >? 0xFFFFFF).
Proof. unfold AsyncMsg_MarshalBHS. marshal_total. Qed.

#[export] Instance AsyncMsg_WirePDU : WirePDU AsyncMsg := {|
  pdu_op := OpAsyncMsg;
  pdu_Hdr := AsyncMsg_Hdr;
  pdu_MarshalBHS := AsyncMsg_MarshalBHS;
  pdu_UnmarshalBHS := AsyncMsg_UnmarshalBHS;
  pdu_DataSegment := AsyncMsg_Data;
  pdu_ok := AsyncMsg_ok;
  pdu_wire := AsyncMsg_wire;
  pdu_op_width := ltac:(vm_compute; by split);
  pdu_law_roundtrip := AsyncMsg_roundtrip;
  pdu_law_bhs := AsyncMsg_bhs_ok;
  pdu_law_opcode := AsyncMsg_bhs_opcode;
  pdu_law_total := AsyncMsg_marshal_total;
|}.

Record Reject := mkReject {
  Reject_Hdr : Header;
  Reject_Reason : Z;
  Reject_StatSN : Z;
  Reject_ExpCmdSN : Z;
  Reject_MaxCmdSN : Z;
  Reject_DataSN : Z;
  Reject_Data : bytes;
}.

Definition Reject_MarshalBHS (p : Reject) : res bytes :=
  bhs ← marshalHeader (with_OpCode OpReject (Reject_Hdr p)) (zeros BHSLength);
  let bhs := upd 2 [Reject_Reason p] bhs in
  let bhs := put_be 4 24 (Reject_StatSN p) bhs in
  let bhs := put_be 4 28 (Reject_ExpCmdSN p) bhs in
  let bhs := put_be 4 32 (Reject_MaxCmdSN p) bhs in
  let bhs := put_be 4 36 (Reject_DataSN p) bhs in
  Ok bhs.

Definition Reject_UnmarshalBHS (bhs : bytes) : Reject :=
  {| Reject_Hdr := unmarshalHeader bhs;
     Reject_Reason := byte_at 2 bhs;
     Reject_StatSN := get_be 4 24 bhs;
     Reject_ExpCmdSN := get_be 4 28 bhs;
     Reject_MaxCmdSN := get_be 4 32 bhs;
     Reject_DataSN := get_be 4 36 bhs;
     Reject_Data := [] |}.

Definition Reject_ok (p : Reject) : Prop :=
  Header_ok (Reject_Hdr p) /\
  u8 (Reject_Reason p) /\
  u32 (Reject_StatSN p) /\
  u32 (Reject_ExpCmdSN p) /\
  u32 (Reject_MaxCmdSN p) /\
  u32 (Reject_DataSN p).

(** What the BHS carries of [p]: everything but the data segment. *)
Definition Reject_wire (p : Reject) : Reject :=
  {| Reject_Hdr := with_OpCode OpReject (Reject_Hdr p);
     Reject_Reason := Reject_Reason p;
     Reject_StatSN := Reject_StatSN p;
     Reject_ExpCmdSN := Reject_ExpCmdSN p;
     Reject_MaxCmdSN := Reject_MaxCmdSN p;
     Reject_DataSN := Reject_DataSN p;
     Reject_Data := [] |}.

Lemma Reject_roundtrip p bhs : Reject_ok p ->
  Reject_MarshalBHS p = Ok bhs -> Reject_UnmarshalBHS bhs = Reject_wire p.
Proof.
  unfold Reject_ok, Reject_MarshalBHS. destruct p; simpl; intros Hok Hm.
  marshalled Hm. pdu_fields. unfold Reject_UnmarshalBHS, Reject_wire.
  pdu_roundtrip.
Qed.

Lemma Reject_bhs_ok p bhs : Reject_ok p ->
  Reject_MarshalBHS p = Ok bhs -> length bhs = BHSLength /\ bytes_ok bhs.
Proof.
  unfold Reject_ok, Reject_MarshalBHS. destruct p; simpl; intros Hok Hm.
  marshalled Hm. pdu_fields. pdu_bhs_ok.
Qed.

Lemma Reject_bhs_opcode p bhs :
  Reject_MarshalBHS p = Ok bhs -> byte_at 0 bhs = encodeOpcodeByte OpReject (Immediate (Reject_Hdr p)).
Proof. unfold Reject_MarshalBHS. destruct p; simpl; intros Hm. marshalled Hm. reflexivity. Qed.

Lemma Reject_marshal_total p :
  is_Ok (Reject_MarshalBHS p) = negb (DataSegmentLen (Reject_Hdr p) >? 0xFFFFFF).
Proof. unfold Reject_MarshalBHS. marshal_total. Qed.

#[export] Instance Reject_WirePDU : WirePDU Reject := {|
  pdu_op := OpReject;
  pdu_Hdr := Reject_Hdr;
  pdu_MarshalBHS := Reject_MarshalBHS;
  pdu_UnmarshalBHS := Reject_UnmarshalBHS;
  pdu_DataSegment := Reject_Data;
  pdu_ok := Reject_ok;
  pdu_wire := Reject_wire;
  pdu_op_width := ltac:(vm_compute; by split);
  pdu_law_roundtrip := Reject_roundtrip;
  pdu_law_bhs := Reject_bhs_ok;
  pdu_law_opcode := Reject_bhs_opcode;
  pdu_law_total := Reject_marshal_total;
|}.
