(* ===== verification/Pdu.v ===== *)
(** The PDU interface value ([src/internal/pdu/header.go], [pdu.go]): the sum of
    the eighteen PDU types, [DecodeBHS] by opcode and [EncodePDU].  A method
    call on the interface is [pdu_elim], which picks the [WirePDU] instance of
    the dynamic type. *)
From S2P Require Import Prelude Errors Bhs PduTactics PduInitiator PduTarget.
#[local] Open Scope Z_scope.

Inductive PDU :=
  | PNOPOut (p : NOPOut)
  | PSCSICommand (p : SCSICommand)
  | PTaskMgmtReq (p : TaskMgmtReq)
  | PLoginReq (p : LoginReq)
  | PTextReq (p : TextReq)
  | PDataOut (p : DataOut)
  | PLogoutReq (p : LogoutReq)
  | PSNACKReq (p : SNACKReq)
  | PNOPIn (p : NOPIn)
  | PSCSIResponse (p : SCSIResponse)
  | PTaskMgmtResp (p : TaskMgmtResp)
  | PLoginResp (p : LoginResp)
  | PTextResp (p : TextResp)
  | PDataIn (p : DataIn)
  | PLogoutResp (p : LogoutResp)
  | PR2T (p : R2T)
  | PAsyncMsg (p : AsyncMsg)
  | PReject (p : Reject).

Definition pdu_elim {R : Type} (f : forall T : Type, WirePDU T -> T -> R) (p : PDU) : R :=
  match p with
  | PNOPOut p => f NOPOut _ p
  | PSCSICommand p => f SCSICommand _ p
  | PTaskMgmtReq p => f TaskMgmtReq _ p
  | PLoginReq p => f LoginReq _ p
  | PTextReq p => f TextReq _ p
  | PDataOut p => f DataOut _ p
  | PLogoutReq p => f LogoutReq _ p
  | PSNACKReq p => f SNACKReq _ p
  | PNOPIn p => f NOPIn _ p
  | PSCSIResponse p => f SCSIResponse _ p
  | PTaskMgmtResp p => f TaskMgmtResp _ p
  | PLoginResp p => f LoginResp _ p
  | PTextResp p => f TextResp _ p
  | PDataIn p => f DataIn _ p
  | PLogoutResp p => f LogoutResp _ p
  | PR2T p => f R2T _ p
  | PAsyncMsg p => f AsyncMsg _ p
  | PReject p => f Reject _ p
  end.

Definition Opcode : PDU -> Z := pdu_elim (fun _ _ _ => pdu_op).
Definition MarshalBHS : PDU -> res bytes := pdu_elim (fun _ _ p => pdu_MarshalBHS p).
Definition DataSegment : PDU -> bytes := pdu_elim (fun _ _ p => pdu_DataSegment p).
Definition PDU_Hdr : PDU -> Header := pdu_elim (fun _ _ p => pdu_Hdr p).
Definition PDU_ok : PDU -> Prop := pdu_elim (fun _ _ p => pdu_ok p).

(** The PDU as its BHS alone determines it *)
Definition PDU_wire (p : PDU) : PDU :=
  match p with
  | PNOPOut p => PNOPOut (pdu_wire p)
  | PSCSICommand p => PSCSICommand (pdu_wire p)
  | PTaskMgmtReq p => PTaskMgmtReq (pdu_wire p)
  | PLoginReq p => PLoginReq (pdu_wire p)
  | PTextReq p => PTextReq (pdu_wire p)
  | PDataOut p => PDataOut (pdu_wire p)
  | PLogoutReq p => PLogoutReq (pdu_wire p)
  | PSNACKReq p => PSNACKReq (pdu_wire p)
  | PNOPIn p => PNOPIn (pdu_wire p)
  | PSCSIResponse p => PSCSIResponse (pdu_wire p)
  | PTaskMgmtResp p => PTaskMgmtResp (pdu_wire p)
  | PLoginResp p => PLoginResp (pdu_wire p)
  | PTextResp p => PTextResp (pdu_wire p)
  | PDataIn p => PDataIn (pdu_wire p)
  | PLogoutResp p => PLogoutResp (pdu_wire p)
  | PR2T p => PR2T (pdu_wire p)
  | PAsyncMsg p => PAsyncMsg (pdu_wire p)
  | PReject p => PReject (pdu_wire p)
  end.

Definition DecodeBHS (bhs : bytes) : res PDU :=
  let '(opcode, _) := decodeOpcodeByte (byte_at 0 bhs) in
  if opcode =? OpNOPOut then Ok (PNOPOut (NOPOut_UnmarshalBHS bhs)) else
  if opcode =? OpSCSICommand then Ok (PSCSICommand (SCSICommand_UnmarshalBHS bhs)) else
  if opcode =? OpTaskMgmtReq then Ok (PTaskMgmtReq (TaskMgmtReq_UnmarshalBHS bhs)) else
  if opcode =? OpLoginReq then Ok (PLoginReq (LoginReq_UnmarshalBHS bhs)) else
  if opcode =? OpTextReq then Ok (PTextReq (TextReq_UnmarshalBHS bhs)) else
  if opcode =? OpDataOut then Ok (PDataOut (DataOut_UnmarshalBHS bhs)) else
  if opcode =? OpLogoutReq then Ok (PLogoutReq (LogoutReq_UnmarshalBHS bhs)) else
  if opcode =? OpSNACKReq then Ok (PSNACKReq (SNACKReq_UnmarshalBHS bhs)) else
  if opcode =? OpNOPIn then Ok (PNOPIn (NOPIn_UnmarshalBHS bhs)) else
  if opcode =? OpSCSIResponse then Ok (PSCSIResponse (SCSIResponse_UnmarshalBHS bhs)) else
  if opcode =? OpTaskMgmtResp then Ok (PTaskMgmtResp (TaskMgmtResp_UnmarshalBHS bhs)) else
  if opcode =? OpLoginResp then Ok (PLoginResp (LoginResp_UnmarshalBHS bhs)) else
  if opcode =? OpTextResp then Ok (PTextResp (TextResp_UnmarshalBHS bhs)) else
  if opcode =? OpDataIn then Ok (PDataIn (DataIn_UnmarshalBHS bhs)) else
  if opcode =? OpLogoutResp then Ok (PLogoutResp (LogoutResp_UnmarshalBHS bhs)) else
  if opcode =? OpR2T then Ok (PR2T (R2T_UnmarshalBHS bhs)) else
  if opcode =? OpAsyncMsg then Ok (PAsyncMsg (AsyncMsg_UnmarshalBHS bhs)) else
  if opcode =? OpReject then Ok (PReject (Reject_UnmarshalBHS bhs)) else
  Err (EProtocol (mkProtocolError BadOpcode "decode" opcode (uint32 opcode) 0)).

Definition EncodePDU (p : PDU) : res bytes :=
  bhs ← MarshalBHS p;
  let data := DataSegment p in
  let dataLen := length data in
  let padLen := Z.to_nat (PadLen (uint32 (Z.of_nat dataLen))) in
  let out := zeros (BHSLength + dataLen + padLen) in
  let out := upd 0 bhs out in
  let out := if Nat.ltb 0 dataLen then upd BHSLength data out else out in
  Ok out.

(** ** Lemmas *)

Lemma pdu_elim_law (P : forall T : Type, WirePDU T -> T -> Prop) :
  (forall T (I : WirePDU T) (p : T), P T I p) -> forall p, pdu_elim P p.
Proof. intros H. destruct p; apply H. Qed.

Lemma MarshalBHS_bhs_ok p bhs : PDU_ok p -> MarshalBHS p = Ok bhs ->
  length bhs = BHSLength /\ bytes_ok bhs.
Proof. destruct p; intros Hok Hm; exact (pdu_law_bhs _ _ Hok Hm). Qed.

Lemma MarshalBHS_length p bhs : PDU_ok p -> MarshalBHS p = Ok bhs -> length bhs = BHSLength.
Proof. destruct p; intros Hok Hm; exact (proj1 (pdu_law_bhs _ _ Hok Hm)). Qed.

Lemma decode_opcode {T} (I : WirePDU T) (p : T) bhs : pdu_MarshalBHS p = Ok bhs ->
  decodeOpcodeByte (byte_at 0 bhs) = (pdu_op, Immediate (pdu_Hdr p)).
Proof. intros H. rewrite (pdu_law_opcode p bhs H). apply opcode_roundtrip, pdu_op_width. Qed.

Ltac opcode_cases :=
  repeat match goal with |- context [if ?a =? ?b then _ else _] =>
    destruct (Z.eqb_spec a b) end.

Lemma encode_layout (bhs d : bytes) k : length bhs = BHSLength ->
  (let out := upd 0 bhs (zeros (BHSLength + length d + k)) in
   if Nat.ltb 0 (length d) then upd BHSLength d out else out) = bhs ++ d ++ zeros k.
Proof.
  intros Hb. unfold zeros. rewrite <- Nat.add_assoc, replicate_add.
  unfold upd at 2 3. cbn zeta. rewrite take_0, app_nil_l, Nat.add_0_l, Hb.
  rewrite drop_app_length' by by rewrite length_replicate.
  rewrite replicate_add. destruct (Nat.ltb_spec 0 (length d)) as [Hd|Hd].
  - unfold upd. rewrite take_app_length' by done. do 2 f_equal.
    rewrite app_assoc, drop_app_length'; [done|].
    rewrite length_app, length_replicate. lia.
  - by destruct d; simpl in Hd; [|lia].
Qed.

Lemma pdu_elim_total p :
  is_Ok (MarshalBHS p) = negb (DataSegmentLen (PDU_Hdr p) >? 0xFFFFFF).
Proof. destruct p; exact (pdu_law_total _). Qed.

(** The lengths in the BHS are those of the PDU's header. *)
Lemma MarshalBHS_lengths p bhs : PDU_ok p -> MarshalBHS p = Ok bhs ->
  byte_at 4 bhs = TotalAHSLength (PDU_Hdr p) /\
  decodeDataSegmentLength bhs = DataSegmentLen (PDU_Hdr p).
Proof.
  destruct p; intros Hok Hm; pose proof (pdu_law_roundtrip _ _ Hok Hm) as H;
    (split; [ exact (f_equal (fun q => TotalAHSLength (pdu_Hdr q)) H)
            | exact (f_equal (fun q => DataSegmentLen (pdu_Hdr q)) H) ]).
Qed.

Lemma EncodePDU_Ok p bhs : PDU_ok p -> MarshalBHS p = Ok bhs ->
  EncodePDU p = Ok (bhs ++ DataSegment p ++
    zeros (Z.to_nat (PadLen (uint32 (Z.of_nat (length (DataSegment p))))))).
Proof.
  intros Hok Hm. unfold EncodePDU. rewrite Hm. simpl. f_equal. apply encode_layout.
  by apply (MarshalBHS_length p).
Qed.

Lemma decode_encoded (p : PDU) (bhs : bytes) :
  PDU_ok p -> MarshalBHS p = Ok bhs -> DecodeBHS bhs = Ok (PDU_wire p).
Proof.
  intros Hok Hm. unfold DecodeBHS.
  destruct p; cbv beta iota delta [MarshalBHS PDU_ok pdu_elim] in *;
    rewrite (decode_opcode _ _ _ Hm); simpl;
    do 2 f_equal; exact (pdu_law_roundtrip _ _ Hok Hm).
Qed.

(** ** Properties *)

(** C16.  Decoding inverts encoding for every PDU type: the BHS that MarshalBHS
    produces decodes, by its opcode, to the same PDU type with the same header
    and fields (all but the data segment, which the BHS does not hold). *)
Theorem DecodeBHS_MarshalBHS (p : PDU) (bhs : bytes) :
  PDU_ok p -> MarshalBHS p = Ok bhs -> DecodeBHS bhs = Ok (PDU_wire p).
Proof. intros Hok Hm. by apply decode_encoded. Qed.

Lemma DecodeBHS_MarshalBHS_witness :
  let p := PR2T (mkR2T (mkHeader false 0 true 0 0 [0;5;0;0;0;0;0;0] 7) 9 1 2 3 0 4096 65536) in
  exists bhs, MarshalBHS p = Ok bhs /\ DecodeBHS bhs = Ok (PDU_wire p).
Proof.
  eexists. split; [reflexivity|].
  apply (DecodeBHS_MarshalBHS
    (PR2T (mkR2T (mkHeader false 0 true 0 0 [0;5;0;0;0;0;0;0] 7) 9 1 2 3 0 4096 65536))); [|reflexivity].
  vm_compute. repeat split; try done; repeat constructor; done.
Defined.

(** DecodeBHS is total, and dispatches exactly on the opcodes of the
    opcode table: for a known opcode it returns a PDU of that opcode, for any
    other it returns the BadOpcode protocol error naming the opcode. *)
Theorem DecodeBHS_total (bhs : bytes) :
  let op := (decodeOpcodeByte (byte_at 0 bhs)).1 in
  if known_opcode op
  then exists p, DecodeBHS bhs = Ok p /\ Opcode p = op
  else DecodeBHS bhs =
       Err (EProtocol (mkProtocolError BadOpcode "decode" op (uint32 op) 0)).
Proof.
  unfold DecodeBHS. destruct (decodeOpcodeByte (byte_at 0 bhs)) as [op imm]. cbn [fst].
  unfold known_opcode, opcodeNames. cbn [existsb fst].
  rewrite orb_false_r, !(Z.eqb_sym _ op).
  repeat (match goal with |- context [op =? ?k] => destruct (Z.eqb_spec op k) end;
          cbn [orb]; [by eauto|]).
  done.
Qed.

(** Encoding fails only for a data segment length beyond 24 bits; otherwise
    the wire image is the BHS, the data segment, and the zero padding that
    aligns it to four bytes. *)
Theorem EncodePDU_spec (p : PDU) :
  PDU_ok p ->
  EncodePDU p =
    (bhs ← MarshalBHS p;
     Ok (bhs ++ DataSegment p ++
         zeros (Z.to_nat (PadLen (uint32 (Z.of_nat (length (DataSegment p)))))))) /\
  is_Ok (MarshalBHS p) = negb (DataSegmentLen (PDU_Hdr p) >? 0xFFFFFF).
Proof.
  intros Hok. split.
  2: apply pdu_elim_total.
  destruct (MarshalBHS p) as [bhs|e] eqn:Hm.
  - by rewrite (EncodePDU_Ok p bhs).
  - unfold EncodePDU. by rewrite Hm.
Qed.

Lemma EncodePDU_spec_witness :
  let p := PNOPOut (mkNOPOut (mkHeader true 0 true 0 5 (zeros 8) 1) 2 3 4 [104;101;108;108;111]) in
  EncodePDU p =
    (bhs ← MarshalBHS p;
     Ok (bhs ++ DataSegment p ++
         zeros (Z.to_nat (PadLen (uint32 (Z.of_nat (length (DataSegment p)))))))) /\
  is_Ok (MarshalBHS p) = negb (DataSegmentLen (PDU_Hdr p) >? 0xFFFFFF).
Proof.
  apply (EncodePDU_spec
    (PNOPOut (mkNOPOut (mkHeader true 0 true 0 5 (zeros 8) 1) 2 3 4 [104;101;108;108;111]))).
  vm_compute. repeat split; try done; repeat constructor; done.
Defined.
