(* ===== verification/Ahs.v ===== *)
(** Additional Header Segments ([src/internal/pdu/ahs.go]): MarshalAHS,
    UnmarshalAHS and their round trip.  The decoding loop runs on fuel; the
    fuel given, one more than the input length, is enough for every input
    because each iteration advances by at least four bytes. *)
From S2P Require Import Prelude Errors Bhs.
#[local] Open Scope Z_scope.

Record AHS := mkAHS { ahs_Type : Z; ahs_Data : bytes }.

Definition ahsHeaderLen : nat := 4.

(** One iteration of the encoding loop *)
Definition marshalSegment (seg : AHS) : bytes :=
  let ahsLen := uint16 (2 + Z.of_nat (length (ahs_Data seg))) in
  let hdr := put_be 2 0 ahsLen (zeros ahsHeaderLen) in
  let hdr := upd 2 [ahs_Type seg] hdr in
  let hdr := upd 3 [0] hdr in
  let totalLen := uint32 (Z.of_nat (ahsHeaderLen + length (ahs_Data seg))) in
  hdr ++ ahs_Data seg ++ zeros (Z.to_nat (PadLen totalLen)).

Definition MarshalAHS (segments : list AHS) : bytes := concat (map marshalSegment segments).

Fixpoint UnmarshalAHS_loop (fuel offset : nat) (data : bytes) (segments : list AHS)
    : option (res (list AHS)) :=
  match fuel with
  | O => None
  | S fuel =>
    if negb (Nat.ltb offset (length data)) then Some (Ok segments) else
    if Nat.ltb (length data) (offset + ahsHeaderLen) then
      Some (Err (Errorf "pdu: truncated AHS header" []))
    else
      let ahsLen := get_be 2 offset data in
      let ahsType := byte_at (offset + 2) data in
      if ahsLen <? 2 then Some (Err (Errorf "pdu: invalid AHS length" [])) else
      let dataLen := ahsLen - 2 in
      if dataLen >? 16384 then
        Some (Err (Errorf "pdu: AHS data length %d exceeds reasonable maximum" [dataLen]))
      else
        let dataLen := Z.to_nat dataLen in
        let dataStart := (offset + ahsHeaderLen)%nat in
        let dataEnd := (dataStart + dataLen)%nat in
        if Nat.ltb (length data) dataEnd then
          Some (Err (Errorf "pdu: AHS data exceeds available bytes" []))
        else
          let segData := sub dataStart dataLen data in
          let totalLen := uint32 (Z.of_nat (ahsHeaderLen + dataLen)) in
          UnmarshalAHS_loop fuel (offset + Z.to_nat (totalLen + PadLen totalLen)) data
            (segments ++ [mkAHS ahsType segData])
  end.

Definition UnmarshalAHS (data : bytes) : option (res (list AHS)) :=
  if Nat.eqb (length data) 0 then Some (Ok [])
  else UnmarshalAHS_loop (S (length data)) 0 data [].

Definition AHS_ok (seg : AHS) : Prop :=
  u8 (ahs_Type seg) /\ bytes_ok (ahs_Data seg) /\ Z.of_nat (length (ahs_Data seg)) <= 16384.

(** ** Lemmas *)

Lemma u32_small n : Z.of_nat n <= 65536 -> uint32 (Z.of_nat n) = Z.of_nat n.
Proof. intros. apply wrap_id. unfold in_width. lia. Qed.

Lemma marshalSegment_eq seg : marshalSegment seg =
  be_bytes 2 (uint16 (2 + Z.of_nat (length (ahs_Data seg)))) ++ [ahs_Type seg; 0] ++
  ahs_Data seg ++
  zeros (Z.to_nat (PadLen (uint32 (Z.of_nat (ahsHeaderLen + length (ahs_Data seg)))))).
Proof. reflexivity. Qed.

Lemma length_marshalSegment seg : AHS_ok seg ->
  length (marshalSegment seg) =
    (let t := uint32 (Z.of_nat (ahsHeaderLen + length (ahs_Data seg))) in
     Z.to_nat (t + PadLen t)).
Proof.
  intros (_ & _ & Hl). rewrite marshalSegment_eq. cbn zeta.
  rewrite !length_app, length_be_bytes, length_zeros. simpl length.
  rewrite u32_small by (unfold ahsHeaderLen; lia).
  pose proof (PadLen_range (Z.of_nat (ahsHeaderLen + length (ahs_Data seg)))).
  unfold ahsHeaderLen in *. lia.
Qed.

(** The decoder's loop reads one encoded segment and continues behind it. *)
Lemma UnmarshalAHS_step fuel pre seg rest segs : AHS_ok seg ->
  UnmarshalAHS_loop (S fuel) (length pre) (pre ++ marshalSegment seg ++ rest) segs =
  UnmarshalAHS_loop fuel (length (pre ++ marshalSegment seg))
    (pre ++ marshalSegment seg ++ rest) (segs ++ [seg]).
Proof.
  intros Hok. pose proof (length_marshalSegment seg Hok) as Hlen. cbn zeta in Hlen.
  destruct Hok as (Ht & Hb & Hl). set (n := length (ahs_Data seg)) in *.
  set (data := pre ++ marshalSegment seg ++ rest).
  pose proof (PadLen_range (uint32 (Z.of_nat (ahsHeaderLen + n)))) as Hp.
  rewrite u32_small in Hlen, Hp by (unfold ahsHeaderLen; lia).
  assert (Hd : length data = (length pre + length (marshalSegment seg) + length rest)%nat).
  { unfold data. rewrite !length_app. lia. }
  assert (Hsub : forall k m, (k + m <= 4 + n)%nat ->
    sub (length pre + k) m data =
    sub k m (be_bytes 2 (uint16 (2 + Z.of_nat n)) ++ [ahs_Type seg; 0] ++ ahs_Data seg)).
  { intros k m Hk. unfold data. rewrite sub_app_r by lia.
    replace (length pre + k - length pre)%nat with k by lia.
    rewrite sub_app_l by (unfold ahsHeaderLen in *; lia).
    rewrite marshalSegment_eq, !app_assoc, sub_app_l; [done|].
    rewrite !length_app, length_be_bytes. fold n. simpl. lia. }
  assert (H0 : get_be 2 (length pre) data = 2 + Z.of_nat n).
  { rewrite <- (Nat.add_0_r (length pre)). unfold get_be. rewrite Hsub by lia.
    rewrite sub_app_l by (by rewrite length_be_bytes).
    rewrite sub_all by apply length_be_bytes. rewrite be_val_bytes_id by (apply wrap_range; lia).
    apply wrap_id. unfold in_width. lia. }
  assert (H2 : byte_at (length pre + 2) data = ahs_Type seg).
  { unfold byte_at. rewrite Hsub by lia. by rewrite sub_app_r by done. }
  assert (H4 : sub (length pre + ahsHeaderLen) n data = ahs_Data seg).
  { rewrite Hsub by (unfold ahsHeaderLen; lia). unfold ahsHeaderLen.
    rewrite sub_app_r by (rewrite length_be_bytes; lia).
    rewrite sub_app_r by (simpl; lia). by apply sub_all. }
  cbn [UnmarshalAHS_loop]. rewrite H0, H2.
  replace (2 + Z.of_nat n - 2) with (Z.of_nat n) by lia. rewrite Nat2Z.id, H4.
  unfold ahsHeaderLen in *.
  destruct (Nat.ltb_spec (length pre) (length data)); [|lia]. simpl negb. cbv iota.
  destruct (Nat.ltb_spec (length data) (length pre + 4)); [lia|].
  destruct (Z.ltb_spec (2 + Z.of_nat n) 2); [lia|].
  destruct (Z.gtb_spec (Z.of_nat n) 16384); [lia|].
  destruct (Nat.ltb_spec (length data) (length pre + 4 + n)); [lia|].
  f_equal.
  - rewrite length_app, Hlen, u32_small by lia. done.
  - by destruct seg.
Qed.

Lemma UnmarshalAHS_loop_marshal segs : Forall AHS_ok segs -> forall fuel pre done,
  (length segs < fuel)%nat ->
  UnmarshalAHS_loop fuel (length pre) (pre ++ MarshalAHS segs) done = Some (Ok (done ++ segs)).
Proof.
  induction 1 as [|seg segs Hs Hss IH]; intros fuel pre done Hf;
    (destruct fuel as [|fuel]; [simpl in Hf; lia|]).
  - unfold MarshalAHS. simpl. rewrite !app_nil_r, Nat.ltb_irrefl. done.
  - unfold MarshalAHS. cbn [map concat]. fold (MarshalAHS segs).
    rewrite UnmarshalAHS_step by done. rewrite app_assoc.
    rewrite IH by (simpl in Hf; lia). by rewrite <- app_assoc.
Qed.

Lemma length_MarshalAHS segs : Forall AHS_ok segs -> (length segs <= length (MarshalAHS segs))%nat.
Proof.
  induction 1 as [|seg segs Hs Hss IH]; [done|].
  unfold MarshalAHS in *. cbn [map concat]. rewrite length_app, marshalSegment_eq, !length_app. simpl. lia.
Qed.

Lemma UnmarshalAHS_loop_total fuel offset data segs :
  (length data - offset < fuel)%nat -> is_Some (UnmarshalAHS_loop fuel offset data segs).
Proof.
  revert offset segs. induction fuel as [|fuel IH]; intros offset segs Hf; [lia|].
  cbn [UnmarshalAHS_loop].
  destruct (Nat.ltb_spec offset (length data)); simpl negb; cbv iota; [|by eauto].
  - repeat case_match; eauto. apply IH.
    pose proof (PadLen_range (uint32 (Z.of_nat (ahsHeaderLen + Z.to_nat (get_be 2 offset data - 2))))).
    rewrite Z.gtb_ltb, Z.ltb_ge in *.
    rewrite u32_small in * by (unfold ahsHeaderLen; lia). unfold ahsHeaderLen in *. lia.
Qed.

(** ** Properties *)

(** UnmarshalAHS inverts MarshalAHS on every list of segments of at most
    16384 data bytes each. *)
Theorem UnmarshalAHS_MarshalAHS (segs : list AHS) :
  Forall AHS_ok segs -> UnmarshalAHS (MarshalAHS segs) = Some (Ok segs).
Proof.
  intros Hs. unfold UnmarshalAHS. pose proof (length_MarshalAHS segs Hs).
  destruct (Nat.eqb_spec (length (MarshalAHS segs)) 0).
  - destruct segs; [done|simpl in *; lia].
  - apply (UnmarshalAHS_loop_marshal segs Hs _ [] []). lia.
Qed.

Lemma UnmarshalAHS_MarshalAHS_witness :
  UnmarshalAHS (MarshalAHS [mkAHS 1 [10; 20; 30]; mkAHS 2 [0; 0; 2; 0]]) =
  Some (Ok [mkAHS 1 [10; 20; 30]; mkAHS 2 [0; 0; 2; 0]]).
Proof.
  apply (UnmarshalAHS_MarshalAHS [mkAHS 1 [10; 20; 30]; mkAHS 2 [0; 0; 2; 0]]).
  repeat constructor; simpl; try done; lia.
Defined.

(** UnmarshalAHS returns, with segments or with an error, on every input. *)
Theorem UnmarshalAHS_total (data : bytes) : is_Some (UnmarshalAHS data).
Proof.
  unfold UnmarshalAHS. destruct (Nat.eqb _ _); [by eauto|].
  apply UnmarshalAHS_loop_total. lia.
Qed.
