(* ===== verification/Digest.v ===== *)
(** CRC32C digests ([src/internal/digest/crc32c.go]).

    [hash/crc32] of the Go standard library is modelled as far as the source
    uses it: the Castagnoli table, [Update], [Checksum] and a running [Hash32].
    Besides the definitions: the padded data digest is the checksum of the
    padded segment, and a digest detects every corruption confined to one byte. *)
From S2P Require Import Prelude Bhs.
#[local] Open Scope Z_scope.

(** ** hash/crc32 *)

Definition Castagnoli : Z := 0x82f63b78.

Definition table_step (crc : Z) : Z :=
  if Z.odd crc then Z.lxor (Z.shiftr crc 1) Castagnoli else Z.shiftr crc 1.

(** [MakeTable(Castagnoli)[i]] *)
Definition crc32cTable (i : Z) : Z := Nat.iter 8 table_step i.

Definition crc_byte (crc v : Z) : Z :=
  Z.lxor (crc32cTable (Z.land (Z.lxor crc v) 0xff)) (Z.shiftr crc 8).

Definition crc_run (crc : Z) (p : bytes) : Z := fold_left crc_byte p crc.

Definition crc_mask : Z := 0xffffffff.

(** [crc32.Update(crc, crc32cTable, p)], which is also [h.Write(p)] *)
Definition crc_Update (crc : Z) (p : bytes) : Z :=
  Z.lxor (crc_run (Z.lxor crc crc_mask) p) crc_mask.

Definition Checksum (p : bytes) : Z := crc_Update 0 p.

(** ** The digests *)

Definition HeaderDigest (bhsAndAHS : bytes) : Z := Checksum bhsAndAHS.

Definition DataDigest (data : bytes) : Z :=
  let padLen := (4 - Z.of_nat (length data) mod 4) mod 4 in
  if padLen =? 0 then Checksum data
  else
    let h := 0 in
    let h := crc_Update h data in
    let h := crc_Update h (zeros (Z.to_nat padLen)) in
    h.

(** The check value of CRC-32C *)
Example Checksum_check : Checksum [49;50;51;52;53;54;55;56;57] = 0xe3069283.
Proof. vm_compute. reflexivity. Qed.

(** ** Lemmas *)

Lemma lxor_width k a b : 0 <= k -> in_width k a -> in_width k b -> in_width k (Z.lxor a b).
Proof.
  intros Hk Ha Hb. rewrite <- (land_ones_id k a), <- (land_ones_id k b) by done.
  replace (Z.lxor _ _) with (Z.land (Z.lxor a b) (Z.ones k)); [by apply land_ones_width|].
  apply Z.bits_inj'. intros i Hi. rewrite ?Z.land_spec, ?Z.lxor_spec, ?Z.land_spec.
  by destruct (Z.testbit a i), (Z.testbit b i), (Z.testbit (Z.ones k) i).
Qed.

Lemma shiftr_width k n a : 0 <= n -> 0 <= k -> in_width (k + n) a -> in_width k (Z.shiftr a n).
Proof.
  intros Hn Hk [H0 H1]. rewrite Z.shiftr_div_pow2 by done. rewrite Z.pow_add_r in H1 by done.
  split; [by apply Z.div_pos; lia|]. apply Z.div_lt_upper_bound; lia.
Qed.

Lemma table_step_width c : u32 c -> u32 (table_step c).
Proof.
  intros Hc. assert (u32 (Z.shiftr c 1)).
  { apply shiftr_width; try lia. by eapply (in_width_mono 32). }
  unfold table_step. case_match; [|done]. by apply lxor_width; [lia| |vm_compute].
Qed.

Lemma table_width i : u32 i -> u32 (crc32cTable i).
Proof.
  intros Hi. unfold crc32cTable. generalize 8%nat. intros n.
  induction n; simpl; [done|]. by apply table_step_width.
Qed.

Lemma land_ff_width a : u8 (Z.land a 0xff).
Proof. apply (land_ones_width 8). lia. Qed.

Lemma crc_byte_width c v : u32 c -> u32 (crc_byte c v).
Proof.
  intros Hc. unfold crc_byte. apply lxor_width; [lia| |].
  - apply table_width. eapply (in_width_mono 8); [lia|apply land_ff_width].
  - apply shiftr_width; try lia. by eapply (in_width_mono 32).
Qed.

Lemma crc_run_width p c : u32 c -> u32 (crc_run c p).
Proof. revert c. induction p; simpl; intros; [done|]. apply IHp. by apply crc_byte_width. Qed.

Lemma Checksum_width p : u32 (Checksum p).
Proof.
  unfold Checksum, crc_Update. apply lxor_width; [lia| |by vm_compute].
  apply crc_run_width. by vm_compute.
Qed.

Lemma DataDigest_width p : u32 (DataDigest p).
Proof.
  unfold DataDigest. case_match; [apply Checksum_width|]. cbn zeta.
  unfold crc_Update. apply lxor_width; [lia| |by vm_compute]. apply crc_run_width.
  apply lxor_width; [lia| |by vm_compute]. fold (crc_Update 0 p). apply (Checksum_width p).
Qed.
#[export] Hint Resolve Checksum_width DataDigest_width : width.

Lemma crc_Update_app c p q : crc_Update (crc_Update c p) q = crc_Update c (p ++ q).
Proof.
  unfold crc_Update, crc_run. rewrite fold_left_app.
  by rewrite Z.lxor_assoc, Z.lxor_nilpotent, Z.lxor_0_r.
Qed.

(** The top bytes of the 256 table entries are pairwise different. *)
Definition table_top (i : Z) : Z := Z.shiftr (crc32cTable i) 24.

Definition all_bytes : list Z := map Z.of_nat (seq 0 256).

Lemma all_bytes_spec i : u8 i -> i ∈ all_bytes.
Proof.
  intros Hi. apply list_elem_of_In, in_map_iff. exists (Z.to_nat i). unfold in_width in Hi.
  split; [lia|]. apply in_seq. lia.
Qed.

Lemma table_top_inj i j : u8 i -> u8 j -> table_top i = table_top j -> i = j.
Proof.
  intros Hi Hj Heq.
  assert (Hc : forallb (fun i => forallb (fun j => negb (table_top i =? table_top j) || (i =? j))
                 all_bytes) all_bytes = true) by (vm_compute; reflexivity).
  rewrite forallb_forall in Hc. specialize (Hc i). rewrite forallb_forall in Hc.
  specialize (Hc ltac:(by apply list_elem_of_In, all_bytes_spec) j
                 ltac:(by apply list_elem_of_In, all_bytes_spec)).
  rewrite Heq, Z.eqb_refl in Hc. simpl in Hc. by apply Z.eqb_eq.
Qed.

Lemma lxor_cancel_r a b c : Z.lxor a c = Z.lxor b c -> a = b.
Proof.
  intros H. apply (f_equal (fun x => Z.lxor x c)) in H.
  by rewrite !Z.lxor_assoc, Z.lxor_nilpotent, !Z.lxor_0_r in H.
Qed.

Lemma lxor_cancel_l a b c : Z.lxor c a = Z.lxor c b -> a = b.
Proof. rewrite !(Z.lxor_comm c). apply lxor_cancel_r. Qed.

(** The step determines its table index: the shifted state has no top byte. *)
Lemma crc_byte_index c c' v v' : u32 c -> u32 c' ->
  crc_byte c v = crc_byte c' v' ->
  Z.land (Z.lxor c v) 0xff = Z.land (Z.lxor c' v') 0xff /\ Z.shiftr c 8 = Z.shiftr c' 8.
Proof.
  intros Hc Hc' H. unfold crc_byte in H.
  assert (Htop : Z.land (Z.lxor c v) 0xff = Z.land (Z.lxor c' v') 0xff).
  { apply table_top_inj; try apply land_ff_width.
    apply (f_equal (fun x => Z.shiftr x 24)) in H. rewrite !Z.shiftr_lxor in H.
    assert (H0 : forall c, u32 c -> Z.shiftr (Z.shiftr c 8) 24 = 0).
    { intros x Hx. rewrite Z.shiftr_shiftr, Z.shiftr_div_pow2 by lia.
      apply Z.div_small. exact Hx. }
    by rewrite !H0, !Z.lxor_0_r in H by done. }
  split; [done|]. rewrite Htop in H. by apply lxor_cancel_l in H.
Qed.

Lemma low_high_eq a b : Z.land a 0xff = Z.land b 0xff -> Z.shiftr a 8 = Z.shiftr b 8 -> a = b.
Proof.
  intros Hl Hh. change 0xff with (Z.ones 8) in Hl. rewrite !Z.land_ones in Hl by lia.
  rewrite !Z.shiftr_div_pow2 in Hh by lia.
  rewrite (Z.div_mod a (2 ^ 8)), (Z.div_mod b (2 ^ 8)) by lia. by rewrite Hl, Hh.
Qed.

Lemma land_lxor_cancel a b v : Z.land (Z.lxor a v) 0xff = Z.land (Z.lxor b v) 0xff ->
  Z.land a 0xff = Z.land b 0xff.
Proof.
  intros H. apply Z.bits_inj'. intros i Hi. apply (f_equal (fun x => Z.testbit x i)) in H.
  rewrite !Z.land_spec, !Z.lxor_spec in H. rewrite !Z.land_spec.
  by destruct (Z.testbit a i), (Z.testbit b i), (Z.testbit v i), (Z.testbit 0xff i).
Qed.

Lemma crc_byte_inj_state c c' v : u32 c -> u32 c' -> crc_byte c v = crc_byte c' v -> c = c'.
Proof.
  intros Hc Hc' H. apply crc_byte_index in H as [Hl Hh]; [|done..].
  apply low_high_eq; [|done]. by eapply land_lxor_cancel.
Qed.

Lemma crc_byte_inj_byte c v v' : u32 c -> u8 v -> u8 v' -> crc_byte c v = crc_byte c v' -> v = v'.
Proof.
  intros Hc Hv Hv' H. apply crc_byte_index in H as [Hl _]; [|done..].
  rewrite !(Z.lxor_comm c) in Hl. apply land_lxor_cancel in Hl.
  change 0xff with (Z.ones 8) in Hl. by rewrite !(land_ones_id 8) in Hl by (done || lia).
Qed.

Lemma crc_run_inj p c c' : u32 c -> u32 c' -> crc_run c p = crc_run c' p -> c = c'.
Proof.
  revert c c'. induction p as [|v p IH]; simpl; intros c c' Hc Hc' H; [done|].
  apply IH in H; try by apply crc_byte_width. by eapply crc_byte_inj_state.
Qed.

Lemma Checksum_one_byte pre v v' suf : u8 v -> u8 v' -> v <> v' ->
  Checksum (pre ++ v :: suf) <> Checksum (pre ++ v' :: suf).
Proof.
  intros Hv Hv' Hne H. unfold Checksum, crc_Update, crc_run in H.
  apply lxor_cancel_r in H. rewrite !fold_left_app in H. simpl in H.
  fold (crc_run (Z.lxor 0 crc_mask) pre) in H. set (c := crc_run _ pre) in H.
  assert (Hc : u32 c) by (apply crc_run_width; by vm_compute).
  apply crc_run_inj in H; try by apply crc_byte_width. by apply crc_byte_inj_byte in H.
Qed.

Lemma DataDigest_padded data :
  DataDigest data = Checksum (data ++ zeros (Z.to_nat (PadLen (Z.of_nat (length data))))).
Proof.
  unfold DataDigest, PadLen.
  assert (Hw : wrap 32 (4 - Z.of_nat (length data) mod 4) = 4 - Z.of_nat (length data) mod 4).
  { apply wrap_id. pose proof (Z.mod_pos_bound (Z.of_nat (length data)) 4). unfold in_width. lia. }
  rewrite Hw. destruct (Z.eqb_spec ((4 - Z.of_nat (length data) mod 4) mod 4) 0) as [->|]; cbn zeta.
  - by rewrite app_nil_r.
  - unfold Checksum. by rewrite crc_Update_app.
Qed.

Lemma DataDigest_one_byte pre v v' suf : u8 v -> u8 v' -> v <> v' ->
  DataDigest (pre ++ v :: suf) <> DataDigest (pre ++ v' :: suf).
Proof.
  intros Hv Hv' Hne. rewrite !DataDigest_padded, !length_app. simpl length.
  rewrite <- !app_assoc. by apply Checksum_one_byte.
Qed.

(** ** Properties *)

(** The data digest of a segment is the CRC32C of the segment followed by
    its zero padding to four bytes, and any change of a single byte of the
    segment changes the digest. *)
Theorem DataDigest_spec (pre suf : bytes) (v v' : Z) :
  DataDigest (pre ++ v :: suf) =
    Checksum ((pre ++ v :: suf) ++
              zeros (Z.to_nat (PadLen (Z.of_nat (length (pre ++ v :: suf)))))) /\
  (u8 v -> u8 v' -> v <> v' -> DataDigest (pre ++ v :: suf) <> DataDigest (pre ++ v' :: suf)).
Proof.
  split; [apply DataDigest_padded | apply DataDigest_one_byte].
Qed.

Lemma DataDigest_spec_witness : DataDigest [1; 2; 3; 4; 5] <> DataDigest [1; 2; 7; 4; 5].
Proof. apply (DataDigest_spec [1; 2] [4; 5] 3 7); [by vm_compute | by vm_compute | done]. Defined.
