(* ===== verification/GoIO.v ===== *)
(** [io.Reader] values of the Go standard library, as the source uses them:
    [io.ReadFull], [io.ReadAll], [bytes.NewReader] and [io.Seeker]; and the
    [io.Writer]s it writes to.

    A reader is the list of chunks its [Read] calls will deliver, the error
    after the last chunk, and for a seekable reader the content a
    [Seek(0, io.SeekStart)] returns to.  A [Read] into [n] bytes returns at
    most one chunk and at most [n] bytes; how a stream is cut into chunks (TCP
    segments, partial reads) is therefore part of the state, and
    [ReadFull_enough] shows that it does not matter. *)
From S2P Require Import Prelude Errors.
#[local] Open Scope Z_scope.

Record Reader := mkReader {
  rd_chunks : list bytes;
  rd_err : error;
  rd_start : option (list bytes);   (* Some content: the reader is an io.Seeker *)
}.

(** All the bytes still to come *)
Definition rd_bytes (r : Reader) : bytes := concat (rd_chunks r).

Definition rd_with (r : Reader) (cs : list bytes) : Reader := mkReader cs (rd_err r) (rd_start r).

(** [bytes.NewReader(data)] *)
Definition NewReader (data : bytes) : Reader := mkReader [data] EOF (Some [data]).

(** [r.Read(p)] with [len(p) = n > 0]: the bytes, and the rest of the reader *)
Definition Read (n : nat) (r : Reader) : bytes * option error * Reader :=
  match rd_chunks r with
  | [] => ([], Some (rd_err r), r)
  | c :: cs =>
      if Nat.leb (length c) n then (c, None, rd_with r cs)
      else (take n c, None, rd_with r (drop n c :: cs))
  end.

(** The loop of [io.ReadFull] by chunks: [acc] is what has been read, [n] what is
    missing. *)
Fixpoint readFull_chunks (n : nat) (acc : bytes) (cs : list bytes) (err : error)
    : bytes * option error * list bytes :=
  match n with
  | O => (acc, None, cs)
  | S _ =>
    match cs with
    | [] =>
        let e := if bool_decide (err = EOF) && negb (bool_decide (acc = [])) then ErrUnexpectedEOF
                 else err in
        (acc, Some e, [])
    | c :: cs' =>
        if Nat.leb (length c) n then readFull_chunks (n - length c) (acc ++ c) cs' err
        else (acc ++ take n c, None, drop n c :: cs')
    end
  end.

(** [io.ReadFull(r, buf)] with [len(buf) = n]: the bytes read ([n] of the source
    is their length), the error, and the reader afterwards *)
Definition ReadFull (n : nat) (r : Reader) : bytes * option error * Reader :=
  let '(bs, e, cs) := readFull_chunks n [] (rd_chunks r) (rd_err r) in (bs, e, rd_with r cs).

(** [io.ReadAll(r)] *)
Definition ReadAll (r : Reader) : bytes * option error :=
  (rd_bytes r, if bool_decide (rd_err r = EOF) then None else Some (rd_err r)).

(** [seeker.Seek(0, io.SeekStart)]; [None] when the reader is not a seeker *)
Definition SeekStart (r : Reader) : option Reader :=
  (fun cs => mkReader cs (rd_err r) (rd_start r)) <$> rd_start r.

(** An [io.Writer]: what it has written, and the failures to come: [Some (n, e)]
    writes [n] bytes of the next [Write] and fails with [e]. *)
Record Writer := mkWriter { w_out : bytes; w_fails : list (option (nat * error)) }.

Definition w_Write (buf : bytes) (w : Writer) : option error * Writer :=
  match w_fails w with
  | Some (n, e) :: fs => (Some e, mkWriter (w_out w ++ take n buf) fs)
  | None :: fs => (None, mkWriter (w_out w ++ buf) fs)
  | [] => (None, mkWriter (w_out w ++ buf) [])
  end.

(** ** Lemmas *)

Lemma readFull_chunks_spec cs n acc err :
  readFull_chunks n acc cs err =
  (if Nat.leb n (length (concat cs)) then
     (acc ++ take n (concat cs), None, (readFull_chunks n acc cs err).2)
   else (acc ++ concat cs,
         Some (if bool_decide (err = EOF) && negb (bool_decide (acc ++ concat cs = []))
               then ErrUnexpectedEOF else err), [])) /\
  ((n <= length (concat cs))%nat ->
   concat (readFull_chunks n acc cs err).2 = drop n (concat cs)).
Proof.
  revert n acc. induction cs as [|c cs IH]; intros n acc; (destruct n as [|n]; [by rewrite app_nil_r|]).
  - cbn [readFull_chunks concat]. rewrite !app_nil_r. split; [done|]. simpl; lia.
  - cbn [readFull_chunks concat]. rewrite length_app.
    destruct (Nat.leb_spec (length c) (S n)) as [Hc|Hc].
    + destruct (IH (S n - length c)%nat (acc ++ c)) as [IH1 IH2].
      rewrite <- !app_assoc in IH1. split.
      * rewrite IH1 at 1.
        destruct (Nat.leb_spec (S n - length c) (length (concat cs)));
          destruct (Nat.leb_spec (S n) (length c + length (concat cs))); try lia; [|done].
        by rewrite take_app_ge by lia.
      * intros Hn. rewrite IH2 by lia. by rewrite drop_app_ge by lia.
    + cbn [snd concat]. destruct (Nat.leb_spec (S n) (length c + length (concat cs))); [|lia].
      split; [by rewrite take_app_le by lia|]. intros _. by rewrite drop_app_le by lia.
Qed.

(** [ReadFull] sees the byte stream only: enough bytes give exactly the first
    [n], wherever the chunks end, and too few give what there is with
    [io.EOF], [io.ErrUnexpectedEOF] or the reader's error. *)
Lemma ReadFull_enough n r : (n <= length (rd_bytes r))%nat ->
  exists r', ReadFull n r = (take n (rd_bytes r), None, r') /\
             rd_bytes r' = drop n (rd_bytes r) /\ rd_err r' = rd_err r /\ rd_start r' = rd_start r.
Proof.
  intros Hn. unfold ReadFull, rd_bytes in *.
  destruct (readFull_chunks_spec (rd_chunks r) n [] (rd_err r)) as [H1 H2].
  destruct (Nat.leb_spec n (length (concat (rd_chunks r)))); [|lia].
  rewrite H1. eexists. split; [reflexivity|]. simpl. auto.
Qed.

Lemma ReadFull_short n r : (length (rd_bytes r) < n)%nat ->
  ReadFull n r =
  (rd_bytes r,
   Some (if bool_decide (rd_err r = EOF) && negb (bool_decide (rd_bytes r = []))
         then ErrUnexpectedEOF else rd_err r), rd_with r []).
Proof.
  intros Hn. unfold ReadFull, rd_bytes in *.
  destruct (readFull_chunks_spec (rd_chunks r) n [] (rd_err r)) as [H1 _].
  destruct (Nat.leb_spec n (length (concat (rd_chunks r)))); [lia|].
  rewrite H1. done.
Qed.

Lemma ReadFull_0 r : ReadFull 0 r = ([], None, r).
Proof. by destruct r as [[|] ? ?]. Qed.
