(* ===== verification/Framer.v ===== *)
(** PDU framing over a TCP byte stream ([src/internal/transport/framer.go]) and
    digest stamping ([src/internal/session/session.go], [stampDigests]).

    The connection a PDU is read from is a [Reader]; what [WriteRawPDU] hands to
    [w.Write] is its result.  The scratch buffer [WriteRawPDU] takes from the
    pool is not zeroed, so its stale content is an argument.  [maxRecvDSL] of
    [ReadRawPDU] only decides whether a warning is logged, and is left out. *)
From S2P Require Import Prelude Errors Bhs Pdu GoIO Digest.
#[local] Open Scope Z_scope.

(** [binary.ByteOrder]; the optional argument of the source defaults to
    [LittleEndian] *)
Inductive ByteOrder := LittleEndian | BigEndian.

Definition default_order (o : option ByteOrder) : ByteOrder := default LittleEndian o.

Definition order_Uint32 (o : ByteOrder) (b : bytes) : Z :=
  match o with LittleEndian => le_val b | BigEndian => be_val b end.
Definition order_bytes32 (o : ByteOrder) (v : Z) : bytes :=
  match o with LittleEndian => le_bytes 4 v | BigEndian => be_bytes 4 v end.

Record RawPDU := mkRawPDU {
  raw_BHS : bytes;
  raw_AHS : bytes;
  raw_DataSegment : bytes;
  raw_HeaderDigest : Z;
  raw_DataDigest : Z;
  raw_HasHDigest : bool;
  raw_HasDDigest : bool;
}.

(** [&RawPDU{BHS: bhs}] with a data segment *)
Definition newRawPDU (bhs data : bytes) : RawPDU := mkRawPDU bhs [] data 0 0 false false.

(** [uint32(raw.BHS[5])<<16 | uint32(raw.BHS[6])<<8 | uint32(raw.BHS[7])] *)
Definition bhs_dsLen (bhs : bytes) : Z :=
  Z.lor (Z.lor (Z.shiftl (byte_at 5 bhs) 16) (Z.shiftl (byte_at 6 bhs) 8)) (byte_at 7 bhs).

(** Stages 5 and 6: the payload cut into its parts, then the digests checked *)
Definition parsePayload (order : ByteOrder) (digestHeader digestData : bool)
    (bhs payload : bytes) (ahsLen dsLen padLen : nat) : res RawPDU :=
  let off := 0%nat in
  let ahs := sub off ahsLen payload in
  let off := (off + ahsLen)%nat in
  let hd := if digestHeader then order_Uint32 order (sub off 4 payload) else 0 in
  let off := if digestHeader then (off + 4)%nat else off in
  let data := sub off dsLen payload in
  let off := (off + dsLen + padLen)%nat in
  let hasD := digestData && Nat.ltb 0 dsLen in
  let dd := if hasD then order_Uint32 order (sub off 4 payload) else 0 in
  let raw := mkRawPDU bhs ahs data hd dd digestHeader hasD in
  if digestHeader && negb (HeaderDigest (bhs ++ ahs) =? hd) then
    Err (EDigest (mkDigestError DigestHeader (HeaderDigest (bhs ++ ahs)) hd))
  else if hasD && negb (DataDigest data =? dd) then
    Err (EDigest (mkDigestError DigestData (DataDigest data) dd))
  else Ok raw.

Definition ReadRawPDU (order : option ByteOrder) (digestHeader digestData : bool) (r : Reader)
    : res RawPDU * Reader :=
  let byteOrder := default_order order in
  let '(bhs, err, r) := ReadFull BHSLength r in
  match err with
  | Some e => (Err e, r)
  | None =>
    let ahsLen := Z.to_nat (byte_at 4 bhs * 4) in
    let dsLenW := bhs_dsLen bhs in
    if dsLenW >? 0xFFFFFF then
      (Err (EProtocol (mkProtocolError OversizedSegment "decode" 0 dsLenW 0xFFFFFF)), r)
    else
      let dsLen := Z.to_nat dsLenW in
      let padLen := Z.to_nat (PadLen dsLenW) in
      let remaining :=
        (ahsLen + (if digestHeader then 4 else 0) + (dsLen + padLen) +
         (if digestData && Nat.ltb 0 dsLen then 4 else 0))%nat in
      if Nat.eqb remaining 0 then (Ok (newRawPDU bhs []), r)
      else
        let '(payload, err, r) := ReadFull remaining r in
        match err with
        | Some e => (Err e, r)
        | None =>
            (parsePayload byteOrder digestHeader digestData bhs payload ahsLen dsLen padLen, r)
        end
  end.

(** The bytes handed to [w.Write].  [stale] is the content of the pooled buffer. *)
Definition WriteRawPDU (order : option ByteOrder) (p : RawPDU) (stale : bytes) : bytes :=
  let byteOrder := default_order order in
  let dsLen := length (raw_DataSegment p) in
  let padLen := Z.to_nat (PadLen (uint32 (Z.of_nat dsLen))) in
  let total :=
    (BHSLength + length (raw_AHS p) + (if raw_HasHDigest p then 4 else 0) + (dsLen + padLen) +
     (if raw_HasDDigest p && Nat.ltb 0 dsLen then 4 else 0))%nat in
  let buf := take total stale in
  let off := 0%nat in
  let buf := upd off (raw_BHS p) buf in
  let off := (off + BHSLength)%nat in
  let buf := upd off (raw_AHS p) buf in
  let off := (off + length (raw_AHS p))%nat in
  let '(buf, off) :=
    if raw_HasHDigest p then (upd off (order_bytes32 byteOrder (raw_HeaderDigest p)) buf, off + 4)%nat
    else (buf, off) in
  let '(buf, off) :=
    if Nat.ltb 0 dsLen then
      let buf := upd off (raw_DataSegment p) buf in
      let off := (off + dsLen)%nat in
      let buf := upd off (zeros padLen) buf in
      let off := (off + padLen)%nat in
      if raw_HasDDigest p
      then (upd off (order_bytes32 byteOrder (raw_DataDigest p)) buf, off + 4)%nat
      else (buf, off)
    else (buf, off) in
  take off buf.

Definition ValidateOutgoingSegmentLength (dsLen targetMRDSL : Z) : option error :=
  if (targetMRDSL >? 0) && (dsLen >? targetMRDSL) then
    Some (EProtocol (mkProtocolError MRDSLExceeded "validate" 0 dsLen targetMRDSL))
  else None.

(** [s.conn]'s digest flags are the arguments *)
Definition stampDigests (digestHeader digestData : bool) (raw : RawPDU) : RawPDU :=
  let '(hd, hasH) :=
    if digestHeader then (HeaderDigest (raw_BHS raw ++ raw_AHS raw), true)
    else (raw_HeaderDigest raw, raw_HasHDigest raw) in
  let '(dd, hasD) :=
    if digestData && Nat.ltb 0 (length (raw_DataSegment raw))
    then (DataDigest (raw_DataSegment raw), true)
    else (raw_DataDigest raw, raw_HasDDigest raw) in
  mkRawPDU (raw_BHS raw) (raw_AHS raw) (raw_DataSegment raw) hd dd hasH hasD.

(** ** Lemmas *)

(** Writing at the end of the written prefix extends it, whatever follows. *)
Lemma upd_append {A} (pre bs rest : list A) :
  upd (length pre) bs (pre ++ rest) = (pre ++ bs) ++ drop (length bs) rest.
Proof.
  unfold upd. rewrite take_app_length, drop_app_ge, <- app_assoc by lia. do 3 f_equal. lia.
Qed.

Lemma upd_append' {A} off (pre bs rest : list A) : off = length pre ->
  upd off bs (pre ++ rest) = (pre ++ bs) ++ drop (length bs) rest.
Proof. intros ->. apply upd_append. Qed.

Lemma length_order_bytes32 o v : length (order_bytes32 o v) = 4%nat.
Proof. destruct o; [apply length_le_bytes | apply length_be_bytes]. Qed.

Lemma order_Uint32_bytes o v : u32 v -> order_Uint32 o (order_bytes32 o v) = v.
Proof.
  intros Hv. destruct o; unfold order_Uint32, order_bytes32.
  - rewrite le_val_bytes. by apply Z.mod_small.
  - by apply be_val_bytes_id.
Qed.

(** What a RawPDU looks like on the wire *)
Definition wire_layout (order : ByteOrder) (p : RawPDU) : bytes :=
  raw_BHS p ++ raw_AHS p ++
  (if raw_HasHDigest p then order_bytes32 order (raw_HeaderDigest p) else []) ++
  raw_DataSegment p ++
  zeros (Z.to_nat (PadLen (uint32 (Z.of_nat (length (raw_DataSegment p)))))) ++
  (if raw_HasDDigest p && Nat.ltb 0 (length (raw_DataSegment p))
   then order_bytes32 order (raw_DataDigest p) else []).

(** Rewrites the chain of copies into the buffer into an append of the pieces. *)
Ltac append_writes :=
  repeat (rewrite upd_append' by (rewrite ?length_app, ?length_order_bytes32, ?length_zeros;
                                  simpl length; lia)).

Lemma WriteRawPDU_layout order p stale : length (raw_BHS p) = BHSLength ->
  WriteRawPDU order p stale = wire_layout (default_order order) p.
Proof.
  intros Hb. unfold WriteRawPDU, wire_layout. destruct p as [bhs ahs data hd dd hasH hasD].
  cbn [raw_BHS raw_AHS raw_DataSegment raw_HeaderDigest raw_DataDigest raw_HasHDigest raw_HasDDigest] in *.
  set (o := default_order order). set (pad := Z.to_nat _).
  set (buf := take _ stale). clearbody buf. change buf with ([] ++ buf).
  destruct (Nat.ltb_spec 0 (length data)) as [Hd|Hd].
  - destruct hasH, hasD; cbn [andb]; cbv beta iota zeta; append_writes;
      rewrite take_app_length' by (rewrite ?length_app, ?length_order_bytes32, ?length_zeros; simpl length; lia);
      by rewrite ?app_nil_l, ?app_nil_r, <- ?app_assoc.
  - destruct data; [|simpl in Hd; lia]. subst pad. rewrite andb_false_r. change (Z.to_nat _) with 0%nat.
    destruct hasH; cbv beta iota zeta; append_writes;
      rewrite take_app_length' by (rewrite ?length_app, ?length_order_bytes32; simpl length; lia);
      by rewrite ?app_nil_l, ?app_nil_r, <- ?app_assoc.
Qed.

Lemma sub_skip {A} (a n : nat) (l l' : list A) : length l = a -> sub a n (l ++ l') = sub 0 n l'.
Proof. intros <-. rewrite sub_app_r by lia. by rewrite Nat.sub_diag. Qed.

Lemma sub_0_app {A} n (l l' : list A) : length l = n -> sub 0 n (l ++ l') = l.
Proof. intros. rewrite sub_app_l by lia. by apply sub_all. Qed.

(** The checks of stage 6 on the parts of the payload *)
Definition verifyDigests (bhs ahs data : bytes) (hd dd : Z) (hasH hasD : bool) : res RawPDU :=
  if hasH && negb (HeaderDigest (bhs ++ ahs) =? hd) then
    Err (EDigest (mkDigestError DigestHeader (HeaderDigest (bhs ++ ahs)) hd))
  else if hasD && negb (DataDigest data =? dd) then
    Err (EDigest (mkDigestError DigestData (DataDigest data) dd))
  else Ok (mkRawPDU bhs ahs data (if hasH then hd else 0) (if hasD then dd else 0) hasH hasD).

Lemma parsePayload_pieces o (h d : bool) bhs ahs data pad hd dd : u32 hd -> u32 dd ->
  parsePayload o h d bhs
    (ahs ++ (if h then order_bytes32 o hd else []) ++ data ++ zeros pad ++
     (if d && Nat.ltb 0 (length data) then order_bytes32 o dd else []))
    (length ahs) (length data) pad
  = verifyDigests bhs ahs data hd dd h (d && Nat.ltb 0 (length data)).
Proof.
  intros Hh Hd. unfold parsePayload, verifyDigests. set (hasD := d && _). cbv zeta.
  rewrite sub_0_app, Nat.add_0_l by done.
  assert (Hr : forall off l, length l = off ->
    order_Uint32 o (sub off 4 (l ++ order_bytes32 o dd)) = dd).
  { intros off l Hl. rewrite sub_skip by done.
    rewrite sub_all by apply length_order_bytes32. by apply order_Uint32_bytes. }
  destruct h; cbn [andb].
  - rewrite (sub_skip (length ahs)), (sub_0_app 4) by (done || apply length_order_bytes32).
    rewrite order_Uint32_bytes by done.
    rewrite (app_assoc ahs), (sub_skip (length ahs + 4)), sub_0_app
      by (rewrite ?length_app, ?length_order_bytes32; done).
    destruct hasD; [|done]. rewrite (app_assoc data), app_assoc, Hr; [done|].
    rewrite !length_app, length_order_bytes32, length_zeros. lia.
  - rewrite app_nil_l, sub_skip, sub_0_app by done.
    destruct hasD; [|done]. rewrite (app_assoc data), app_assoc, Hr; [done|].
    rewrite !length_app, length_zeros. lia.
Qed.

(** The lengths its BHS announces are those of the PDU. *)
Definition RawPDU_ok (p : RawPDU) : Prop :=
  length (raw_BHS p) = BHSLength /\ bytes_ok (raw_BHS p) /\
  Z.of_nat (length (raw_AHS p)) = byte_at 4 (raw_BHS p) * 4 /\
  Z.of_nat (length (raw_DataSegment p)) = bhs_dsLen (raw_BHS p).

Lemma bhs_dsLen_width bhs : bytes_ok bhs -> u24 (bhs_dsLen bhs).
Proof.
  intros Hb. unfold bhs_dsLen.
  assert (u8 (byte_at 5 bhs) /\ u8 (byte_at 6 bhs) /\ u8 (byte_at 7 bhs)) as (H5 & H6 & H7)
    by auto using byte_at_width.
  apply lor_width; [lia| |by eapply in_width_mono; [|exact H7]].
  apply lor_width; [lia| |]; rewrite Z.shiftl_mul_pow2 by lia; width.
Qed.

(** Reading a stream that starts with a BHS and the payload it announces *)
Lemma ReadRawPDU_stream order (h d : bool) r bhs payload rest :
  length bhs = BHSLength -> bytes_ok bhs ->
  let ahsLen := Z.to_nat (byte_at 4 bhs * 4) in
  let dsLen := Z.to_nat (bhs_dsLen bhs) in
  let padLen := Z.to_nat (PadLen (bhs_dsLen bhs)) in
  length payload = (ahsLen + (if h then 4 else 0) + (dsLen + padLen) +
                    (if d && Nat.ltb 0 dsLen then 4 else 0))%nat ->
  rd_bytes r = bhs ++ payload ++ rest ->
  exists r', ReadRawPDU order h d r =
               (parsePayload (default_order order) h d bhs payload ahsLen dsLen padLen, r') /\
             rd_bytes r' = rest /\ rd_err r' = rd_err r.
Proof.
  intros Hb Hok ahsLen dsLen padLen Hp Hr. unfold ReadRawPDU.
  destruct (ReadFull_enough BHSLength r) as (r1 & -> & Hr1 & He1 & _).
  { rewrite Hr, !length_app. lia. }
  rewrite Hr, take_app_length' in * by done. rewrite drop_app_length' in Hr1 by done.
  pose proof (bhs_dsLen_width bhs Hok) as Hd.
  replace (bhs_dsLen bhs >? 0xFFFFFF) with false by (unfold in_width in Hd; lia).
  fold ahsLen dsLen padLen. cbv zeta. rewrite <- Hp.
  destruct (Nat.eqb_spec (length payload) 0) as [H0|H0].
  - destruct payload; [|done]. exists r1. split; [|done]. f_equal.
    destruct h; [simpl in Hp; lia|]. unfold parsePayload, sub.
    assert (dsLen = 0%nat) as -> by lia. cbv zeta. by rewrite !drop_nil, !take_nil, !andb_false_r.
  - destruct (ReadFull_enough (length payload) r1) as (r2 & -> & Hr2 & He2 & _).
    { rewrite Hr1, length_app. lia. }
    rewrite Hr1, take_app_length, drop_app_length in *. exists r2. by rewrite He2.
Qed.

Lemma HeaderDigest_width l : u32 (HeaderDigest l).
Proof. apply Checksum_width. Qed.

#[export] Hint Resolve HeaderDigest_width DataDigest_width : width.

(** A PDU as [WriteRawPDU] frames it on a connection with these digest flags *)
Definition framed (h d : bool) (p : RawPDU) : Prop :=
  RawPDU_ok p /\ raw_HasHDigest p = h /\
  raw_HasDDigest p && Nat.ltb 0 (length (raw_DataSegment p)) =
    d && Nat.ltb 0 (length (raw_DataSegment p)) /\
  u32 (raw_HeaderDigest p) /\ u32 (raw_DataDigest p).

Lemma ReadRawPDU_framed order h d p stale r rest : framed h d p ->
  rd_bytes r = WriteRawPDU order p stale ++ rest ->
  exists r', ReadRawPDU order h d r =
    (verifyDigests (raw_BHS p) (raw_AHS p) (raw_DataSegment p) (raw_HeaderDigest p)
       (raw_DataDigest p) h (d && Nat.ltb 0 (length (raw_DataSegment p))), r') /\
    rd_bytes r' = rest /\ rd_err r' = rd_err r.
Proof.
  intros ((Hb & Hok & Ha & Hl) & Hh & Hd & Hhd & Hdd) Hr.
  rewrite WriteRawPDU_layout in Hr by done. unfold wire_layout in Hr.
  rewrite Hh, Hd in Hr.
  pose proof (bhs_dsLen_width _ Hok) as Hw.
  rewrite wrap_id in Hr by (rewrite Hl; eapply in_width_mono; [|exact Hw]; lia).
  rewrite Hl in Hr. rewrite <- (app_assoc (raw_BHS p)) in Hr.
  assert (HaN : Z.to_nat (byte_at 4 (raw_BHS p) * 4) = length (raw_AHS p)) by lia.
  assert (HdN : Z.to_nat (bhs_dsLen (raw_BHS p)) = length (raw_DataSegment p)) by lia.
  edestruct (ReadRawPDU_stream order h d r) as (r' & Hres & Hrest & Herr);
    [exact Hb | exact Hok | | exact Hr |].
  { rewrite HaN, HdN, !length_app, length_zeros. destruct h, (d && _);
      rewrite ?length_order_bytes32; simpl length; lia. }
  exists r'. split; [|done]. rewrite Hres, HaN, HdN. f_equal. by apply parsePayload_pieces.
Qed.

(** A fresh RawPDU, as every sender builds it before [stampDigests] *)
Definition unstamped (p : RawPDU) : Prop :=
  RawPDU_ok p /\ raw_HeaderDigest p = 0 /\ raw_DataDigest p = 0 /\
  raw_HasHDigest p = false /\ raw_HasDDigest p = false.

Lemma stampDigests_framed h d p : unstamped p -> framed h d (stampDigests h d p).
Proof.
  destruct p as [bhs ahs data hd dd hasH hasD]. unfold unstamped. simpl.
  intros (Hok & -> & -> & -> & ->). unfold framed, stampDigests. simpl.
  destruct h; simpl.
  all: destruct (d && Nat.ltb 0 (length data)) eqn:E; simpl.
  all: split; [exact Hok|]; rewrite ?E; repeat (split; auto with width).
  all: apply andb_prop in E as [_ H]; rewrite ?H; done.
Qed.

Lemma verifyDigests_stamped h d p : unstamped p ->
  let q := stampDigests h d p in
  verifyDigests (raw_BHS q) (raw_AHS q) (raw_DataSegment q) (raw_HeaderDigest q)
    (raw_DataDigest q) h (d && Nat.ltb 0 (length (raw_DataSegment q))) = Ok q.
Proof.
  destruct p as [bhs ahs data hd dd hasH hasD]. unfold unstamped. simpl.
  intros (_ & -> & -> & -> & ->). unfold stampDigests, verifyDigests. simpl.
  destruct h; simpl; rewrite ?Z.eqb_refl; simpl.
  all: destruct (d && Nat.ltb 0 (length data)) eqn:E; simpl; by rewrite ?E, ?Z.eqb_refl.
Qed.

(** The raw form of a PDU whose header announces its data segment *)
Lemma unstamped_PDU p bhs : PDU_ok p -> MarshalBHS p = Ok bhs ->
  TotalAHSLength (PDU_Hdr p) = 0 ->
  DataSegmentLen (PDU_Hdr p) = Z.of_nat (length (DataSegment p)) ->
  unstamped (newRawPDU bhs (DataSegment p)).
Proof.
  intros Hok Hm Ha Hd. destruct (MarshalBHS_lengths p bhs Hok Hm) as [H4 Hl].
  destruct (MarshalBHS_bhs_ok p bhs Hok Hm) as [H1 H2].
  split; [|done]. split; [done|]. split; [done|].
  unfold decodeDataSegmentLength in Hl. unfold bhs_dsLen. simpl. rewrite H4, Ha, Hl. by split.
Qed.

Lemma stampDigests_off p : stampDigests false false p = p.
Proof. by destruct p. Qed.

(** ** Properties *)

(** C15.  What one side writes the other side reads: a PDU stamped for the
    connection's digest flags and written by WriteRawPDU comes back from
    ReadRawPDU unchanged, digests verified, however TCP cuts the stream into
    reads and whatever the pooled write buffer held before; the reader is left
    at the byte after the PDU. *)
Theorem ReadRawPDU_WriteRawPDU order h d p stale r rest :
  unstamped p ->
  rd_bytes r = WriteRawPDU order (stampDigests h d p) stale ++ rest ->
  exists r', ReadRawPDU order h d r = (Ok (stampDigests h d p), r') /\
             rd_bytes r' = rest /\ rd_err r' = rd_err r.
Proof.
  intros Hp Hr.
  destruct (ReadRawPDU_framed order h d _ stale r rest (stampDigests_framed h d p Hp) Hr)
    as (r' & -> & Hrest). exists r'. split; [|done]. f_equal. by apply verifyDigests_stamped.
Qed.

Lemma ReadRawPDU_WriteRawPDU_witness :
  let bhs := upd 7 [3] (zeros 48) in
  let p := stampDigests true true (newRawPDU bhs [7; 8; 9]) in
  let wire := WriteRawPDU None p (replicate 64 0xEE) in
  let r := mkReader [take 5 wire; []; drop 5 wire; [1; 2]] EOF None in
  exists r', ReadRawPDU None true true r = (Ok p, r') /\ rd_bytes r' = [1; 2] /\
             rd_err r' = EOF.
Proof.
  apply (ReadRawPDU_WriteRawPDU None true true (newRawPDU (upd 7 [3] (zeros 48)) [7; 8; 9])
           (replicate 64 0xEE)).
  - repeat split; try done. by apply (bool_decide_unpack _); vm_compute.
  - by vm_compute.
Defined.

(** [l'] is [l] with one byte changed. *)
Definition one_byte_off (l l' : bytes) : Prop :=
  exists pre v v' suf, l = pre ++ v :: suf /\ l' = pre ++ v' :: suf /\ u8 v /\ u8 v' /\ v <> v'.

(** The PDU [p] after transport damage turned it into [q]: its digests stay. *)
Definition damaged (p q : RawPDU) : RawPDU :=
  mkRawPDU (raw_BHS q) (raw_AHS q) (raw_DataSegment q) (raw_HeaderDigest p) (raw_DataDigest p)
    (raw_HasHDigest p) (raw_HasDDigest p).

Lemma damaged_framed p q : unstamped p -> unstamped q ->
  length (raw_DataSegment q) = length (raw_DataSegment p) ->
  framed true true (damaged (stampDigests true true p) q).
Proof.
  intros Hp Hq Hl. destruct (stampDigests_framed true true p Hp) as (_ & Hh & Hd & Hhd & Hdd).
  assert (raw_DataSegment (stampDigests true true p) = raw_DataSegment p) as Hs
    by (unfold stampDigests; by repeat case_match).
  rewrite Hs, <- Hl in Hd. destruct Hq as (Hq & _).
  split; [exact Hq|]. split; [exact Hh|]. split; [exact Hd|]. by split.
Qed.

(** C38.  Damage to one byte that leaves the frame as it is never gets past the
    digests: with both digests negotiated, a PDU whose header (BHS and AHS), outside
    the bytes of TotalAHSLength and DataSegmentLength, or whose data segment
    differs in one byte from the one that was stamped is rejected with the digest
    error of the damaged part, carrying the digest computed and the digest received.
    (A damaged length makes the reader cut the stream elsewhere, and is not
    covered.) *)
Theorem ReadRawPDU_damaged order p q stale r rest :
  unstamped p -> unstamped q ->
  length (raw_DataSegment q) = length (raw_DataSegment p) ->
  rd_bytes r = WriteRawPDU order (damaged (stampDigests true true p) q) stale ++ rest ->
  (one_byte_off (raw_BHS p ++ raw_AHS p) (raw_BHS q ++ raw_AHS q) ->
   (ReadRawPDU order true true r).1 =
     Err (EDigest (mkDigestError DigestHeader (HeaderDigest (raw_BHS q ++ raw_AHS q))
                     (HeaderDigest (raw_BHS p ++ raw_AHS p))))) /\
  (raw_BHS p ++ raw_AHS p = raw_BHS q ++ raw_AHS q ->
   one_byte_off (raw_DataSegment p) (raw_DataSegment q) ->
   (ReadRawPDU order true true r).1 =
     Err (EDigest (mkDigestError DigestData (DataDigest (raw_DataSegment q))
                     (DataDigest (raw_DataSegment p))))).
Proof.
  intros Hp Hq Hl Hr.
  destruct (ReadRawPDU_framed order true true _ stale r rest (damaged_framed p q Hp Hq Hl) Hr)
    as (r' & -> & _). unfold damaged, verifyDigests, stampDigests. simpl. rewrite Hl.
  split.
  - intros (pre & v & v' & suf & E1 & E2 & Hv & Hv' & Hne).
    assert (HeaderDigest (raw_BHS q ++ raw_AHS q) <> HeaderDigest (raw_BHS p ++ raw_AHS p)) as Hd.
    { unfold HeaderDigest. rewrite E1, E2. apply Checksum_one_byte; auto. }
    destruct (Nat.ltb _ _); simpl; by rewrite (proj2 (Z.eqb_neq _ _) Hd).
  - intros -> (pre & v & v' & suf & E1 & E2 & Hv & Hv' & Hne).
    assert (DataDigest (raw_DataSegment q) <> DataDigest (raw_DataSegment p)) as Hd.
    { rewrite E1, E2. apply DataDigest_one_byte; auto. }
    assert (Nat.ltb 0 (length (raw_DataSegment p)) = true) as Hlt.
    { apply Nat.ltb_lt. rewrite E1, length_app. simpl. lia. }
    rewrite Hlt. simpl. by rewrite Z.eqb_refl, (proj2 (Z.eqb_neq _ _) Hd).
Qed.

Lemma ReadRawPDU_damaged_witness :
  let bhs := upd 7 [3] (zeros 48) in
  let p := newRawPDU bhs [7; 8; 9] in
  let q := newRawPDU bhs [7; 0; 9] in
  let r := NewReader (WriteRawPDU None (damaged (stampDigests true true p) q) (zeros 60)) in
  (ReadRawPDU None true true r).1 =
    Err (EDigest (mkDigestError DigestData (DataDigest [7; 0; 9]) (DataDigest [7; 8; 9]))).
Proof.
  refine (proj2 (ReadRawPDU_damaged None (newRawPDU (upd 7 [3] (zeros 48)) [7; 8; 9])
    (newRawPDU (upd 7 [3] (zeros 48)) [7; 0; 9]) (zeros 60) _ [] _ _ _ _) _ _).
  - repeat split; try done. by apply (bool_decide_unpack _); vm_compute.
  - repeat split; try done. by apply (bool_decide_unpack _); vm_compute.
  - reflexivity.
  - by vm_compute.
  - reflexivity.
  - by exists [7], 8, 0, [9].
Defined.

(** After the BHS, the wire holds the payload the reader computes. *)
Lemma wire_payload h d order p : framed h d p ->
  exists payload, wire_layout order p = raw_BHS p ++ payload /\
    length payload =
      (Z.to_nat (byte_at 4 (raw_BHS p) * 4) + (if h then 4 else 0) +
       (Z.to_nat (bhs_dsLen (raw_BHS p)) + Z.to_nat (PadLen (bhs_dsLen (raw_BHS p)))) +
       (if d && Nat.ltb 0 (Z.to_nat (bhs_dsLen (raw_BHS p))) then 4 else 0))%nat.
Proof.
  intros ((Hb & Hok & Ha & Hl) & Hh & Hd & _). eexists. split; [reflexivity|].
  pose proof (bhs_dsLen_width _ Hok) as Hw.
  rewrite <- Hl in Hw |- *. rewrite wrap_id by (eapply in_width_mono; [|exact Hw]; lia).
  rewrite Nat2Z.id, Hh, Hd, !length_app, length_zeros.
  destruct h, (d && _); rewrite ?length_order_bytes32; simpl length; lia.
Qed.

Lemma EOF_unless_started n (l : bytes) : (n <= length l)%nat ->
  (if bool_decide (EOF = EOF) && negb (bool_decide (take n l = [])) then ErrUnexpectedEOF else EOF)
  = if Nat.eqb n 0 then EOF else ErrUnexpectedEOF.
Proof. by destruct n, l; simpl; try lia. Qed.

(** Reading a stream that ends inside the payload *)
Lemma ReadRawPDU_cut order (h d : bool) r bhs part : length bhs = BHSLength -> bytes_ok bhs ->
  (length part <
    Z.to_nat (byte_at 4 bhs * 4) + (if h then 4 else 0) +
    (Z.to_nat (bhs_dsLen bhs) + Z.to_nat (PadLen (bhs_dsLen bhs))) +
    (if d && Nat.ltb 0 (Z.to_nat (bhs_dsLen bhs)) then 4 else 0))%nat ->
  rd_bytes r = bhs ++ part ->
  (ReadRawPDU order h d r).1 =
    Err (if bool_decide (rd_err r = EOF) && negb (bool_decide (part = []))
         then ErrUnexpectedEOF else rd_err r).
Proof.
  intros Hb Hok Hlt Hr. unfold ReadRawPDU.
  destruct (ReadFull_enough BHSLength r) as (r1 & -> & Hr1 & He1 & _).
  { rewrite Hr, !length_app. lia. }
  rewrite Hr, take_app_length' in * by done. rewrite drop_app_length' in Hr1 by done.
  pose proof (bhs_dsLen_width bhs Hok) as Hd.
  replace (bhs_dsLen bhs >? 0xFFFFFF) with false by (unfold in_width in Hd; lia).
  cbv zeta. set (remaining := (_ + _)%nat) in *.
  destruct (Nat.eqb_spec remaining 0); [lia|].
  rewrite ReadFull_short by by rewrite Hr1. by rewrite Hr1, He1.
Qed.

(** A connection that ends inside a PDU never yields one: if the stream
    holds a strict prefix of a framed PDU, ReadRawPDU returns an error, and it
    is plain io.EOF only if the stream ended before the PDU began. *)
Theorem ReadRawPDU_truncated order h d p stale r n :
  unstamped p -> rd_err r = EOF ->
  let wire := WriteRawPDU order (stampDigests h d p) stale in
  (n < length wire)%nat -> rd_bytes r = take n wire ->
  (ReadRawPDU order h d r).1 = Err (if Nat.eqb n 0 then EOF else
     if Nat.ltb n BHSLength then ErrUnexpectedEOF else
     if Nat.eqb n BHSLength then EOF else ErrUnexpectedEOF).
Proof.
  intros Hp He wire Hn Hr.
  pose proof (stampDigests_framed h d p Hp) as Hf. set (q := stampDigests h d p) in *.
  destruct (proj1 Hf) as (Hb & Hok & _).
  destruct (wire_payload h d (default_order order) q Hf) as (payload & Hw & Hpl).
  subst wire. rewrite WriteRawPDU_layout, Hw in * by done. clear Hw.
  destruct (Nat.ltb_spec n BHSLength) as [Hlt|Hge].
  - unfold ReadRawPDU. rewrite ReadFull_short by (rewrite Hr, length_take; lia).
    cbn [fst]. rewrite He, Hr, EOF_unless_started by lia. by destruct (Nat.eqb_spec n 0) as [->|].
  - destruct (Nat.eqb_spec n 0) as [->|_]; [unfold BHSLength in Hge; lia|].
    rewrite (ReadRawPDU_cut order h d r (raw_BHS q) (take (n - BHSLength) payload)); try done.
    + rewrite He, EOF_unless_started by (rewrite length_app in Hn; lia).
      destruct (Nat.eqb_spec n BHSLength), (Nat.eqb_spec (n - BHSLength) 0); done || lia.
    + rewrite length_take, <- Hpl, length_app in *. lia.
    + by rewrite Hr, take_app_ge, Hb by lia.
Qed.

Lemma ReadRawPDU_truncated_witness :
  let wire := WriteRawPDU None (stampDigests true false (newRawPDU (zeros 48) [])) (zeros 52) in
  (ReadRawPDU None true false (NewReader (take 50 wire))).1 = Err ErrUnexpectedEOF.
Proof.
  apply (ReadRawPDU_truncated None true false (newRawPDU (zeros 48) []) (zeros 52) _ 50).
  - repeat split; try done. by apply (bool_decide_unpack _); vm_compute.
  - done.
  - apply Nat.ltb_lt. by vm_compute.
  - by vm_compute.
Defined.
