(* ===== verification/Conn.v ===== *)
(** The transport connection ([src/internal/transport/conn.go]): the [net.Conn], of
    which only what is called is known, and the settings of the login. *)
From S2P Require Import Prelude Errors Framer.
#[local] Open Scope Z_scope.

Section conn.
(** A [net.Conn] with its [Close] and [SetDeadline], and [net.Dialer.DialContext] for
    a timeout and an address; each gives its error. *)
Context {NetConn Time : Type}.
Context (net_Close : NetConn -> option error) (net_SetDeadline : Time -> NetConn -> option error).
Context (DialContext : Z -> bytes -> res NetConn).

Record Conn := mkConn {
  cn_conn : NetConn;
  cn_digestHeader : bool;
  cn_digestData : bool;
  cn_maxRecvDSL : Z;
  cn_digestByteOrder : option ByteOrder;
}.

Definition NewConnFromNetConn (nc : NetConn) : Conn := mkConn nc false false 0 None.

Definition conn_DigestHeader (c : Conn) : bool := cn_digestHeader c.
Definition conn_DigestData (c : Conn) : bool := cn_digestData c.

(** [Dial]: a timeout that is not positive leaves the dialer's zero value. *)
Definition conn_Dial (addr : bytes) (timeout : Z) : res Conn :=
  let d_Timeout := if timeout >? 0 then timeout else 0 in
  nc ← DialContext d_Timeout addr; Ok (mkConn nc false false 0 None).

Definition conn_Close (c : Conn) : option error := net_Close (cn_conn c).
Definition SetDeadline (t : Time) (c : Conn) : option error := net_SetDeadline t (cn_conn c).
Definition conn_NetConn (c : Conn) : NetConn := cn_conn c.

Definition SetDigests (header data : bool) (c : Conn) : Conn :=
  mkConn (cn_conn c) header data (cn_maxRecvDSL c) (cn_digestByteOrder c).
Definition SetMaxRecvDSL (maxDSL : Z) (c : Conn) : Conn :=
  mkConn (cn_conn c) (cn_digestHeader c) (cn_digestData c) maxDSL (cn_digestByteOrder c).
Definition MaxRecvDSL (c : Conn) : Z := cn_maxRecvDSL c.
Definition SetDigestByteOrder (bo : option ByteOrder) (c : Conn) : Conn :=
  mkConn (cn_conn c) (cn_digestHeader c) (cn_digestData c) (cn_maxRecvDSL c) bo.
Definition DigestByteOrder (c : Conn) : ByteOrder :=
  match cn_digestByteOrder c with None => LittleEndian | Some bo => bo end.

(** The byte order is the one the framer falls back to by itself. *)
Lemma DigestByteOrder_default c : DigestByteOrder c = default_order (cn_digestByteOrder c).
Proof. done. Qed.

(** The settings do not disturb each other. *)
Lemma settings_independent h d m bo c :
  SetDigestByteOrder bo (SetMaxRecvDSL m (SetDigests h d c)) = mkConn (cn_conn c) h d m bo.
Proof. done. Qed.

(** A dialled connection is as one made from the [net.Conn]. *)
Lemma conn_Dial_spec addr timeout c : conn_Dial addr timeout = Ok c ->
  exists nc, DialContext (Z.max timeout 0) addr = Ok nc /\ c = NewConnFromNetConn nc.
Proof.
  unfold conn_Dial. assert ((if timeout >? 0 then timeout else 0) = Z.max timeout 0) as ->.
  { rewrite Z.gtb_ltb. destruct (Z.ltb_spec 0 timeout); lia. }
  destruct (DialContext _ addr) as [nc|]; [|done]. intros [= <-]. by exists nc.
Qed.

End conn.
