(* ===== verification/Pool.v ===== *)
(** The tiered buffer pool ([src/internal/transport/pool.go]).

    A buffer is its capacity and its length.  [sync.Pool] may return any buffer
    it holds or none of them, so [GetBuffer] takes the choice as an argument:
    [Some i] for the [i]-th buffer held, anything else for [New].  The
    properties: a buffer is always large enough, and how many buffers a tier
    can hold. *)
From S2P Require Import Prelude.
#[local] Open Scope Z_scope.

Definition smallBufSize : Z := 4096.
Definition mediumBufSize : Z := 65536.
Definition largeBufSize : Z := Z.shiftl 1 24.
Definition poolTierMax : Z := 256.

Record Buffer := mkBuffer { b_cap : Z; b_len : Z }.

(** A [sync.Pool] and its atomic counter *)
Record Tier := mkTier { t_pool : list Buffer; t_count : Z }.

Record Pools := mkPools { p_small : Tier; p_medium : Tier; p_large : Tier }.

Definition Tier0 : Tier := mkTier [] 0.
Definition Pools0 : Pools := mkPools Tier0 Tier0 Tier0.

(** [pool.Get()]; [New] allocates [size] bytes *)
Definition pool_Get (size : Z) (choice : option nat) (l : list Buffer) : Buffer * list Buffer :=
  match choice ≫= (fun i => (fun b => (b, delete i l)) <$> l !! i) with
  | Some bl => bl
  | None => (mkBuffer size size, l)
  end.

(** [( *bp)[:size]]; [None] is the slice bounds panic *)
Definition reslice (size : Z) (b : Buffer) : option Buffer :=
  if (0 <=? size) && (size <=? b_cap b) then Some (mkBuffer (b_cap b) size) else None.

(** The body of a case of [GetBuffer] *)
Definition tier_Get (tierSize size : Z) (choice : option nat) (t : Tier) : option Buffer * Tier :=
  let count := t_count t + -1 in
  let '(bp, l) := pool_Get tierSize choice (t_pool t) in
  (reslice size bp, mkTier l count).

Definition GetBuffer (size : Z) (choice : option nat) (ps : Pools) : option Buffer * Pools :=
  if size <=? smallBufSize then
    let '(b, t) := tier_Get smallBufSize size choice (p_small ps) in
    (b, mkPools t (p_medium ps) (p_large ps))
  else if size <=? mediumBufSize then
    let '(b, t) := tier_Get mediumBufSize size choice (p_medium ps) in
    (b, mkPools (p_small ps) t (p_large ps))
  else if size <=? largeBufSize then
    let '(b, t) := tier_Get largeBufSize size choice (p_large ps) in
    (b, mkPools (p_small ps) (p_medium ps) t)
  else (Some (mkBuffer size size), ps).

(** The body of a case of [PutBuffer] *)
Definition tier_Put (b : Buffer) (t : Tier) : Tier :=
  let count := t_count t + 1 in
  if count <=? poolTierMax then mkTier (b :: t_pool t) count
  else mkTier (t_pool t) (count + -1).

Definition PutBuffer (bp : option Buffer) (ps : Pools) : Pools :=
  match bp with
  | None => ps
  | Some b =>
    let c := b_cap b in
    let b := mkBuffer c c in
    if c >=? largeBufSize then mkPools (p_small ps) (p_medium ps) (tier_Put b (p_large ps))
    else if c >=? mediumBufSize then mkPools (p_small ps) (tier_Put b (p_medium ps)) (p_large ps)
    else if c >=? smallBufSize then mkPools (tier_Put b (p_small ps)) (p_medium ps) (p_large ps)
    else ps
  end.

(** ** Invariant *)

(** Every buffer a tier holds has at least the capacity of the tier. *)
Definition tier_ok (size : Z) (t : Tier) : Prop := Forall (fun b => size <= b_cap b) (t_pool t).

Definition pools_ok (ps : Pools) : Prop :=
  tier_ok smallBufSize (p_small ps) /\ tier_ok mediumBufSize (p_medium ps) /\
  tier_ok largeBufSize (p_large ps).

Lemma pools_ok_0 : pools_ok Pools0.
Proof. repeat split; constructor. Qed.

Lemma tier_Get_spec tierSize size choice t : tier_ok tierSize t -> 0 <= size <= tierSize ->
  exists cap, tierSize <= cap /\
    (tier_Get tierSize size choice t).1 = Some (mkBuffer cap size) /\
    tier_ok tierSize (tier_Get tierSize size choice t).2.
Proof.
  intros Ht Hs. unfold tier_Get, pool_Get, reslice.
  destruct choice as [i|]; simpl; [destruct (t_pool t !! i) as [b|] eqn:E|]; simpl.
  - pose proof (Forall_lookup_1 _ _ _ _ Ht E) as Hb. simpl in Hb. exists (b_cap b).
    rewrite (proj2 (andb_true_iff _ _)) by lia. repeat split; [done|].
    by apply Forall_delete.
  - exists tierSize. rewrite (proj2 (andb_true_iff _ _)) by lia. repeat split; [lia|done].
  - exists tierSize. rewrite (proj2 (andb_true_iff _ _)) by lia. repeat split; [lia|done].
Qed.

Lemma tier_Put_ok size b t : tier_ok size t -> size <= b_cap b -> tier_ok size (tier_Put b t).
Proof. intros Ht Hb. unfold tier_Put. case_match; [by constructor|done]. Qed.

Lemma PutBuffer_ok bp ps : pools_ok ps -> pools_ok (PutBuffer bp ps).
Proof.
  intros (Hs & Hm & Hl). destruct bp as [b|]; [|done]. unfold PutBuffer, pools_ok. simpl.
  destruct (Z.geb_spec (b_cap b) largeBufSize); simpl.
  { split; [|split]; [done..|]. apply tier_Put_ok; simpl; [done|lia]. }
  destruct (Z.geb_spec (b_cap b) mediumBufSize); simpl.
  { split; [|split]; [done| |done]. apply tier_Put_ok; simpl; [done|lia]. }
  destruct (Z.geb_spec (b_cap b) smallBufSize); simpl; [|done].
  split; [|split]; [|done..]. apply tier_Put_ok; simpl; [done|lia].
Qed.

(** ** Retention *)

(** [n] buffers taken from a pool that holds none, then [n] returned *)
Definition burst (n : nat) (size : Z) (ps : Pools) : Pools :=
  let got := Nat.iter n (fun '(bs, ps) =>
    let '(b, ps) := GetBuffer size None ps in (b :: bs, ps)) ([], ps) in
  foldr PutBuffer got.2 got.1.

Lemma burst_gets n ps :
  Nat.iter n (fun '(bs, ps) =>
    let '(b, ps) := GetBuffer smallBufSize None ps in (b :: bs, ps)) ([], ps) =
  (replicate n (Some (mkBuffer smallBufSize smallBufSize)),
   mkPools (mkTier (t_pool (p_small ps)) (t_count (p_small ps) - Z.of_nat n)) (p_medium ps) (p_large ps)).
Proof.
  induction n as [|n IH].
  - destruct ps as [[l c] m g]. simpl. by rewrite Z.sub_0_r.
  - rewrite Nat.iter_succ, IH. unfold GetBuffer. simpl. do 3 f_equal. lia.
Qed.

Lemma burst_puts n k l m g : Z.of_nat n + k <= poolTierMax ->
  foldr PutBuffer (mkPools (mkTier l k) m g) (replicate n (Some (mkBuffer smallBufSize smallBufSize)))
  = mkPools (mkTier (replicate n (mkBuffer smallBufSize smallBufSize) ++ l) (k + Z.of_nat n)) m g.
Proof.
  revert k. induction n as [|n IH]; intros k Hk; simpl foldr.
  - by rewrite Z.add_0_r.
  - rewrite IH by lia. unfold PutBuffer. simpl b_cap.
    change (smallBufSize >=? largeBufSize) with false.
    change (smallBufSize >=? mediumBufSize) with false.
    change (smallBufSize >=? smallBufSize) with true. cbv iota.
    unfold tier_Put. simpl. destruct (Z.leb_spec (k + Z.of_nat n + 1) poolTierMax); [|lia].
    do 2 f_equal. lia.
Qed.

(** ** Properties *)

(** GetBuffer never fails and never returns a short buffer, whichever
    buffer sync.Pool picks: from pools that satisfy the invariant it returns a
    buffer of the length asked for, and Get and Put keep the invariant. *)
Theorem GetBuffer_spec (size : Z) (choice : option nat) (ps : Pools) (bp : option Buffer) :
  pools_ok ps -> 0 <= size ->
  (exists cap, size <= cap /\ (GetBuffer size choice ps).1 = Some (mkBuffer cap size)) /\
  pools_ok (GetBuffer size choice ps).2 /\ pools_ok (PutBuffer bp ps).
Proof.
  intros (Hs & Hm & Hl) Hsz.
  enough ((exists cap, size <= cap /\ (GetBuffer size choice ps).1 = Some (mkBuffer cap size)) /\
          pools_ok (GetBuffer size choice ps).2) as [H1 H2].
  { split; [done|]. split; [done|]. by apply PutBuffer_ok. }
  unfold GetBuffer, pools_ok.
  destruct (Z.leb_spec size smallBufSize); [|destruct (Z.leb_spec size mediumBufSize);
    [|destruct (Z.leb_spec size largeBufSize)]].
  - destruct (tier_Get_spec smallBufSize size choice _ Hs) as (cap & Hc & Hb & Hk); [lia|].
    destruct (tier_Get _ _ _ _). simpl in *. split; [exists cap; split; [lia|done]|by repeat split].
  - destruct (tier_Get_spec mediumBufSize size choice _ Hm) as (cap & Hc & Hb & Hk); [lia|].
    destruct (tier_Get _ _ _ _). simpl in *. split; [exists cap; split; [lia|done]|by repeat split].
  - destruct (tier_Get_spec largeBufSize size choice _ Hl) as (cap & Hc & Hb & Hk); [lia|].
    destruct (tier_Get _ _ _ _). simpl in *. split; [exists cap; split; [lia|done]|by repeat split].
  - simpl. split; [|done]. exists size. by split.
Qed.

Lemma GetBuffer_spec_witness :
  (exists cap, 5000 <= cap /\ (GetBuffer 5000 (Some 3%nat) Pools0).1 = Some (mkBuffer cap 5000)) /\
  pools_ok (GetBuffer 5000 (Some 3%nat) Pools0).2 /\ pools_ok (PutBuffer None Pools0).
Proof. apply (GetBuffer_spec 5000 (Some 3%nat) Pools0 None); [apply pools_ok_0 | lia]. Defined.

(** poolTierMax does not bound what a tier retains after a burst: the
    counter is decremented by every Get, also by one that [New] serves, so [n]
    buffers taken from an empty tier and returned are all kept, for every [n]
    however far above poolTierMax. *)
Theorem burst_retained (n : nat) :
  length (t_pool (p_small (burst n smallBufSize Pools0))) = n /\
  t_count (p_small (burst n smallBufSize Pools0)) = 0.
Proof.
  unfold burst. rewrite burst_gets. cbn [fst snd Pools0 p_small p_medium p_large Tier0 t_pool t_count].
  rewrite burst_puts by (unfold poolTierMax; lia). simpl.
  rewrite app_nil_r, length_replicate. split; [done|lia].
Qed.

(** PutBuffer pools an oversized buffer, which the comments call a no-op. *)
Lemma PutBuffer_oversized (b : Buffer) : largeBufSize < b_cap b ->
  t_pool (p_large (PutBuffer (Some b) Pools0)) = [mkBuffer (b_cap b) (b_cap b)].
Proof. intros Hb. unfold PutBuffer. by destruct (Z.geb_spec (b_cap b) largeBufSize); [|lia]. Qed.
