(* ===== verification/Chan.v ===== *)
(** Go channels and the operations that can block or panic.

    A buffered channel is its queue, its capacity and whether it is closed.  An
    operation of a goroutine is a state transformer into [outcome]: done, blocked
    until another goroutine acts, or a run-time panic; [SM] is the monad of such
    operations. *)
From S2P Require Import Prelude Errors.

(** The result of an operation that can block or panic *)
Inductive outcome (A : Type) := Done (a : A) | Blocks | Panics.
#[global] Arguments Done {A} a.
#[global] Arguments Blocks {A}.
#[global] Arguments Panics {A}.

(** ** Buffered channels *)

Record Chan (A : Type) := mkChan { ch_buf : list A; ch_cap : nat; ch_closed : bool }.
#[global] Arguments mkChan {A} _ _ _.
#[global] Arguments ch_buf {A} _.
#[global] Arguments ch_cap {A} _.
#[global] Arguments ch_closed {A} _.

Definition make_chan {A} (n : nat) : Chan A := mkChan [] n false.

Definition send {A} (a : A) (c : Chan A) : outcome (Chan A) :=
  if ch_closed c then Panics
  else if Nat.ltb (length (ch_buf c)) (ch_cap c)
       then Done (mkChan (ch_buf c ++ [a]) (ch_cap c) false)
       else Blocks.

(** [v, ok := <-c]; [None] when the receive blocks *)
Definition recv {A} (c : Chan A) : option (option A * Chan A) :=
  match ch_buf c with
  | a :: l => Some (Some a, mkChan l (ch_cap c) (ch_closed c))
  | [] => if ch_closed c then Some (None, c) else None
  end.

Definition close_chan {A} (c : Chan A) : Chan A := mkChan (ch_buf c) (ch_cap c) true.

(** ** The monad of a goroutine's operations *)

Definition SM (S A : Type) : Type := S -> outcome (A * S).

#[export] Instance SM_ret S : MRet (SM S) := fun A a s => Done (a, s).
#[export] Instance SM_bind S : MBind (SM S) := fun A B f m s =>
  match m s with
  | Done (a, s) => f a s
  | Blocks => Blocks
  | Panics => Panics
  end.

Definition SM_get {S A} (f : S -> A) : SM S A := fun s => Done (f s, s).
Definition SM_put {S} (f : S -> S) : SM S () := fun s => Done ((), f s).
Definition SM_panic {S A} : SM S A := fun _ => Panics.
Definition SM_block {S A} : SM S A := fun _ => Blocks.

(** [if b { m }] *)
Definition SM_when {S} (b : bool) (m : SM S ()) : SM S () := if b then m else mret ().

(** Operating on a component of the state *)
Definition SM_zoom {S T A} (get : S -> T) (set : T -> S -> S) (m : SM T A) : SM S A := fun s =>
  match m (get s) with
  | Done (a, t) => Done (a, set t s)
  | Blocks => Blocks
  | Panics => Panics
  end.

(** A channel operation on a channel of the state *)
Definition SM_chan {S A} (get : S -> Chan A) (set : Chan A -> S -> S) (a : A) : SM S () := fun s =>
  match send a (get s) with
  | Done c => Done ((), set c s)
  | Blocks => Blocks
  | Panics => Panics
  end.

(** ** Operations that can fail

    [a, err := m; if err != nil { return nil, err }] *)
Definition try_ {S A B} (m : SM S (res A)) (f : A -> SM S (res B)) : SM S (res B) :=
  r ← m;
  match r with
  | Err e => mret (Err e)
  | Ok a => f a
  end.
Notation "x ⇐ m ; k" := (try_ m (fun x => k)) (at level 20, m at level 100, k at level 200, only parsing).

(** [return nil, err] for an error of a pure function *)
Definition SM_of {S A} (r : res A) : SM S (res A) := mret r.

(** ** Lemmas *)

Lemma SM_bind_Done {S A B} (m : SM S A) (f : A -> SM S B) s a s1 :
  m s = Done (a, s1) -> (m ≫= f) s = f a s1.
Proof. unfold mbind, SM_bind. by intros ->. Qed.

Lemma SM_bind_inv {S A B} (m : SM S A) (f : A -> SM S B) s b s' :
  (m ≫= f) s = Done (b, s') <-> exists a s1, m s = Done (a, s1) /\ f a s1 = Done (b, s').
Proof.
  unfold mbind, SM_bind. destruct (m s) as [[a s1]| |]; split; [eauto| |contra..].
  intros (a' & s2 & [= <- <-] & H). done.
Qed.

Lemma try_Done {S A B} (m : SM S (res A)) (f : A -> SM S (res B)) s a s1 :
  m s = Done (Ok a, s1) -> try_ m f s = f a s1.
Proof. intros H. unfold try_. by rewrite (SM_bind_Done _ _ _ _ _ H). Qed.

Lemma send_Done {A} (a : A) c c' : send a c = Done c' -> ch_buf c' = ch_buf c ++ [a].
Proof.
  unfold send. destruct (ch_closed c); [done|].
  destruct (Nat.ltb (length (ch_buf c)) (ch_cap c)); [|done]. by intros [= <-].
Qed.

Lemma send_room {A} (a : A) c : ch_closed c = false -> (length (ch_buf c) < ch_cap c)%nat ->
  send a c = Done (mkChan (ch_buf c ++ [a]) (ch_cap c) false).
Proof. intros Hc Hl. unfold send. by rewrite Hc, (proj2 (Nat.ltb_lt _ _) Hl). Qed.

(** An open channel with room for [k] more sends *)
Definition room {A} (k : nat) (c : Chan A) : Prop :=
  ch_closed c = false /\ (length (ch_buf c) + k <= ch_cap c)%nat.

(** [c] after sending [l] *)
Definition sent_on {A} (l : list A) (c : Chan A) : Chan A := mkChan (ch_buf c ++ l) (ch_cap c) (ch_closed c).

Lemma sent_on_nil {A} (c : Chan A) : sent_on [] c = c.
Proof. destruct c. unfold sent_on. simpl. by rewrite app_nil_r. Qed.

Lemma sent_on_app {A} (l l' : list A) c : sent_on l' (sent_on l c) = sent_on (l ++ l') c.
Proof. unfold sent_on. simpl. by rewrite app_assoc. Qed.

Lemma send_sent_on {A} (a : A) k c : room (S k) c -> send a c = Done (sent_on [a] c) /\ room k (sent_on [a] c).
Proof.
  intros [Hc Hl]. unfold sent_on, room. simpl. rewrite length_app, send_room by (done || lia).
  rewrite Hc. simpl. split; [done|]. split; [done|lia].
Qed.

Lemma room_send {A} k c (p : A) : room (S k) c -> exists c', send p c = Done c' /\ room k c'.
Proof. intros H. destruct (send_sent_on p k c H) as [H1 H2]. eauto. Qed.

Lemma room_weaken {A} k k' (c : Chan A) : (k' <= k)%nat -> room k c -> room k' c.
Proof. intros ? []. split; [done|lia]. Qed.

(** [c'] is [c], or [c] with one more element *)
Definition spared {A} (c c' : Chan A) : Prop := c' = c \/ exists a, c' = sent_on [a] c.

(** The write channel of a task that acknowledges only when it is asked to *)
Definition acked {A} (ack : bool) (c c' : Chan A) : Prop := if ack then spared c c' else c' = c.

Lemma acked_spared {A} ack (c c' : Chan A) : acked ack c c' -> spared c c'.
Proof. destruct ack; [done|]. intros ->. by left. Qed.

Lemma spared_closed {A} (c c' : Chan A) : spared c c' -> ch_closed c' = ch_closed c.
Proof. by intros [->|[a ->]]. Qed.

Lemma spared_room {A} r (c c' : Chan A) : spared c c' -> room (S r) c -> room r c'.
Proof.
  intros [->|[a ->]] Hr; [by eapply room_weaken; [|exact Hr]; lia|].
  by destruct (send_sent_on a r c Hr).
Qed.
