(* ===== verification/Router.v ===== *)
(** ITT-based response routing ([src/internal/transport/router.go]).

    Channels live in a store, [rt_chans], addressed by position: a Go [chan] is
    a reference shared by the router entry and the goroutine that waits on it.
    The mutex makes every operation atomic, except that [Dispatch] sends after
    it has unlocked; [Dispatch] is therefore the composition of [dispatchLookup]
    and [chan_send], between which other operations can run. *)
From S2P Require Import Prelude Errors Framer Chan.
#[local] Open Scope Z_scope.

Definition reservedITT : Z := 0xFFFFFFFF.
Definition DefaultRouterBufDepth : nat := 64.

(** ** The router *)

Record routerEntry := mkEntry { re_ch : nat; re_persistent : bool }.

Record Router := mkRouter {
  rt_pending : gmap Z routerEntry;
  rt_nextITT : Z;
  rt_persistentDepth : nat;
  rt_chans : list (Chan RawPDU);
}.

Definition NewRouter (persistentDepth : Z) : Router :=
  let depth := if persistentDepth <=? 0 then DefaultRouterBufDepth else Z.to_nat persistentDepth in
  mkRouter ∅ 0 depth [].

(** The allocation shared by [Register] and [AllocateITT]: the tag, and the new
    [nextITT] *)
Definition allocITT (next : Z) : Z * Z :=
  let itt := next in
  let itt := if itt =? reservedITT then 0 else itt in
  let next := uint32 (itt + 1) in
  let next := if next =? reservedITT then 0 else next in
  (itt, next).

Definition Register (r : Router) : Z * nat * Router :=
  let '(itt, next) := allocITT (rt_nextITT r) in
  let ch := length (rt_chans r) in
  (itt, ch,
   mkRouter (<[itt := mkEntry ch false]> (rt_pending r)) next (rt_persistentDepth r)
     (rt_chans r ++ [make_chan 1])).

Definition RegisterPersistent (itt : Z) (r : Router) : nat * Router :=
  let ch := length (rt_chans r) in
  (ch,
   mkRouter (<[itt := mkEntry ch true]> (rt_pending r)) (rt_nextITT r) (rt_persistentDepth r)
     (rt_chans r ++ [make_chan (rt_persistentDepth r)])).

Definition AllocateITT (r : Router) : Z * Router :=
  let '(itt, next) := allocITT (rt_nextITT r) in
  (itt, mkRouter (rt_pending r) next (rt_persistentDepth r) (rt_chans r)).

(** The part of [Dispatch] under the lock *)
Definition dispatchLookup (itt : Z) (r : Router) : option routerEntry * Router :=
  match rt_pending r !! itt with
  | None => (None, r)
  | Some e =>
      (Some e, if re_persistent e then r
               else mkRouter (delete itt (rt_pending r)) (rt_nextITT r) (rt_persistentDepth r)
                      (rt_chans r))
  end.

(** [entry.ch <- pdu] *)
Definition chan_send (ch : nat) (pdu : RawPDU) (r : Router) : outcome Router :=
  match rt_chans r !! ch with
  | None => Panics
  | Some c =>
    match send pdu c with
    | Done c => Done (mkRouter (rt_pending r) (rt_nextITT r) (rt_persistentDepth r)
                        (<[ch := c]> (rt_chans r)))
    | Blocks => Blocks
    | Panics => Panics
    end
  end.

(** [Dispatch] without interleaving.  A blocked send has already deleted a
    one-shot entry. *)
Definition Dispatch (itt : Z) (pdu : RawPDU) (r : Router) : outcome (bool * Router) :=
  match dispatchLookup itt r with
  | (None, r) => Done (false, r)
  | (Some e, r) =>
    match chan_send (re_ch e) pdu r with
    | Done r => Done (true, r)
    | Blocks => Blocks
    | Panics => Panics
    end
  end.

Definition Unregister (itt : Z) (r : Router) : Router :=
  mkRouter (delete itt (rt_pending r)) (rt_nextITT r) (rt_persistentDepth r) (rt_chans r).

Definition UnregisterAndClose (itt : Z) (r : Router) : Router :=
  let entry := rt_pending r !! itt in
  let r := Unregister itt r in
  match entry with
  | Some e =>
      if re_persistent e then
        mkRouter (rt_pending r) (rt_nextITT r) (rt_persistentDepth r)
          (alter close_chan (re_ch e) (rt_chans r))
      else r
  | None => r
  end.

Definition PendingCount (r : Router) : nat := size (rt_pending r).

(** A waiter's receive on channel [ch] *)
Definition chan_recv (ch : nat) (r : Router) : option (option RawPDU * Router) :=
  c ← rt_chans r !! ch;
  '(v, c) ← recv c;
  Some (v, mkRouter (rt_pending r) (rt_nextITT r) (rt_persistentDepth r) (<[ch := c]> (rt_chans r))).

(** ** Interleaving

    [rs_sends] holds, per goroutine, the [entry.ch <- pdu] it has yet to perform
    after the locked part of [Dispatch]. *)
Record RouterSys := mkSys {
  rs_router : Router;
  rs_sends : gmap nat (routerEntry * RawPDU);
}.

Inductive router_step : RouterSys -> RouterSys -> Prop :=
  | step_Register r fl :
      router_step (mkSys r fl) (mkSys (Register r).2 fl)
  | step_RegisterPersistent itt r fl :
      router_step (mkSys r fl) (mkSys (RegisterPersistent itt r).2 fl)
  | step_AllocateITT r fl :
      router_step (mkSys r fl) (mkSys (AllocateITT r).2 fl)
  | step_dispatchMiss itt r r' fl :
      dispatchLookup itt r = (None, r') -> router_step (mkSys r fl) (mkSys r' fl)
  | step_dispatchLookup g itt pdu e r r' fl :
      fl !! g = None -> dispatchLookup itt r = (Some e, r') ->
      router_step (mkSys r fl) (mkSys r' (<[g := (e, pdu)]> fl))
  | step_chan_send g e pdu r r' fl :
      fl !! g = Some (e, pdu) -> chan_send (re_ch e) pdu r = Done r' ->
      router_step (mkSys r fl) (mkSys r' (delete g fl))
  | step_Unregister itt r fl :
      router_step (mkSys r fl) (mkSys (Unregister itt r) fl)
  | step_UnregisterAndClose itt r fl :
      router_step (mkSys r fl) (mkSys (UnregisterAndClose itt r) fl)
  | step_chan_recv ch v r r' fl :
      chan_recv ch r = Some (v, r') -> router_step (mkSys r fl) (mkSys r' fl).

Definition reachable (depth : Z) (s : RouterSys) : Prop :=
  rtc router_step (mkSys (NewRouter depth) ∅) s.

(** Who refers to a channel: the entry of an ITT, or a pending send. *)
Definition holds (s : RouterSys) (k : Z + nat) (e : routerEntry) : Prop :=
  match k with
  | inl itt => rt_pending (rs_router s) !! itt = Some e
  | inr g => exists pdu, rs_sends s !! g = Some (e, pdu)
  end.

Definition chan_ok (k : Z + nat) (e : routerEntry) (c : Chan RawPDU) : Prop :=
  (0 < ch_cap c)%nat /\
  (re_persistent e = false -> ch_closed c = false /\ ch_buf c = []) /\
  (match k with inl _ => ch_closed c = false | inr _ => True end).

(** Two references share a channel only if both are persistent, and at most one
    of them is a table entry. *)
Definition may_share (k k' : Z + nat) (e e' : routerEntry) : Prop :=
  k = k' \/
  (re_persistent e = true /\ re_persistent e' = true /\
   match k, k' with inl _, inl _ => False | _, _ => True end).

Record sys_ok (s : RouterSys) : Prop := {
  ok_next : 0 <= rt_nextITT (rs_router s) < reservedITT;
  ok_depth : (0 < rt_persistentDepth (rs_router s))%nat;
  ok_chan : forall k e, holds s k e ->
    exists c, rt_chans (rs_router s) !! re_ch e = Some c /\ chan_ok k e c;
  ok_share : forall k k' e e', holds s k e -> holds s k' e' -> re_ch e = re_ch e' ->
    may_share k k' e e';
}.

(** ** Lemmas *)

Lemma allocITT_range n : 0 <= n <= reservedITT ->
  (0 <= (allocITT n).1 < reservedITT) /\ (0 <= (allocITT n).2 < reservedITT).
Proof.
  intros Hn. unfold allocITT. destruct (Z.eqb_spec n reservedITT); cbn [fst snd].
  - split; [done|]. by vm_compute.
  - unfold wrap. rewrite Z.mod_small by (unfold reservedITT in *; lia).
    destruct (Z.eqb_spec (n + 1) reservedITT); unfold reservedITT in *; lia.
Qed.

(** Tags are counted modulo 2^32 - 1. *)
Lemma allocITT_mod n : 0 <= n < reservedITT ->
  allocITT n = (n, (n + 1) mod reservedITT).
Proof.
  intros Hn. unfold allocITT. destruct (Z.eqb_spec n reservedITT); [lia|].
  unfold wrap. rewrite (Z.mod_small (n + 1) (2 ^ 32)) by (unfold reservedITT in *; lia).
  destruct (Z.eqb_spec (n + 1) reservedITT) as [->|]; [done|].
  by rewrite (Z.mod_small (n + 1) reservedITT) by lia.
Qed.

Lemma sys_ok_New depth : sys_ok (mkSys (NewRouter depth) ∅).
Proof.
  split; simpl.
  - by vm_compute.
  - unfold NewRouter, DefaultRouterBufDepth. destruct (Z.leb_spec depth 0); simpl; lia.
  - intros [itt|g] e; simpl; [by rewrite lookup_empty|]. intros [pdu H]. by rewrite lookup_empty in H.
  - intros [itt|g] k' e e'; simpl; [by rewrite lookup_empty|]. intros [pdu H]. by rewrite lookup_empty in H.
Qed.

(** References to removed entries or sends only make the invariant weaker. *)
Lemma sys_ok_fewer s s' : sys_ok s ->
  (0 <= rt_nextITT (rs_router s') < reservedITT) ->
  rt_persistentDepth (rs_router s') = rt_persistentDepth (rs_router s) ->
  (forall k e, holds s' k e -> holds s k e) ->
  (forall k e c, holds s' k e -> rt_chans (rs_router s) !! re_ch e = Some c -> chan_ok k e c ->
     exists c', rt_chans (rs_router s') !! re_ch e = Some c' /\ chan_ok k e c') ->
  sys_ok s'.
Proof.
  intros [Hn Hd Hc Hs] Hn' Hd' Hh Hch. split; [done|by rewrite Hd'| |].
  - intros k e Hk. destruct (Hc k e (Hh _ _ Hk)) as (c & Hl & Hok). eauto.
  - eauto.
Qed.

(** A new entry on a new channel *)
Lemma sys_ok_add s itt pers c next : sys_ok s -> 0 <= next < reservedITT ->
  (0 < ch_cap c)%nat -> ch_closed c = false -> ch_buf c = [] ->
  let r := rs_router s in
  sys_ok (mkSys (mkRouter (<[itt := mkEntry (length (rt_chans r)) pers]> (rt_pending r)) next
                   (rt_persistentDepth r) (rt_chans r ++ [c])) (rs_sends s)).
Proof.
  intros [Hn Hd Hc Hs] Hnext Hcap Hclosed Hbuf r.
  set (s' := mkSys _ _).
  assert (Hold : forall k e, holds s' k e ->
    (k = inl itt /\ e = mkEntry (length (rt_chans r)) pers) \/ (k <> inl itt /\ holds s k e)).
  { intros [i|g] e; simpl; [|by right].
    destruct (decide (itt = i)) as [->|Hne].
    - rewrite lookup_insert_eq. intros [= <-]. by left.
    - rewrite lookup_insert_ne by done. intros. right. split; [congruence|done]. }
  assert (Hlt : forall k e, holds s k e -> (re_ch e < length (rt_chans r))%nat).
  { intros k e Hk. destruct (Hc k e Hk) as (c' & Hl & _). by eapply lookup_lt_Some. }
  split; [done|done| |].
  - intros k e Hk. destruct (Hold k e Hk) as [[-> ->]|[_ Hk']]; simpl.
    + exists c. rewrite list_lookup_middle by done. by repeat split.
    + destruct (Hc k e Hk') as (c' & Hl & Hok). exists c'. split; [|done].
      rewrite lookup_app_l; [done|]. eauto.
  - intros k k' e e' Hk Hk' He.
    destruct (Hold k e Hk) as [[-> ->]|[_ H1]], (Hold k' e' Hk') as [[-> ->]|[_ H2]].
    + by left.
    + apply Hlt in H2. simpl in He. lia.
    + apply Hlt in H1. simpl in He. lia.
    + eauto.
Qed.

Lemma holds_delete s itt k e :
  holds (mkSys (Unregister itt (rs_router s)) (rs_sends s)) k e ->
  holds s k e /\ k <> inl itt.
Proof.
  destruct k as [i|g]; simpl; [|by split].
  intros [Hne Hl]%lookup_delete_Some. split; [done|congruence].
Qed.

Lemma sys_ok_Unregister s itt : sys_ok s ->
  sys_ok (mkSys (Unregister itt (rs_router s)) (rs_sends s)).
Proof.
  intros Hs. apply (sys_ok_fewer s); [done|apply Hs|done| |].
  - intros k e Hk. by apply holds_delete in Hk as [? _].
  - intros k e c _ Hl Hc. eauto.
Qed.

Lemma sys_ok_UnregisterAndClose s itt : sys_ok s ->
  sys_ok (mkSys (UnregisterAndClose itt (rs_router s)) (rs_sends s)).
Proof.
  intros Hs. unfold UnregisterAndClose.
  destruct (rt_pending (rs_router s) !! itt) as [e0|] eqn:E; [|by apply sys_ok_Unregister].
  destruct (re_persistent e0) eqn:Ep; [|by apply sys_ok_Unregister].
  apply (sys_ok_fewer s); [done|apply Hs|done| |].
  - intros k e Hk. by apply (holds_delete s itt) in Hk as [? _].
  - intros k e c Hk Hl Hc. simpl. apply (holds_delete s itt) in Hk as [Hk Hne].
    destruct (decide (re_ch e0 = re_ch e)) as [Heq|]; [|exists c; by rewrite list_lookup_alter_ne].
    rewrite Heq, list_lookup_alter_eq, Hl. exists (close_chan c). split; [done|].
    destruct (ok_share s Hs (inl itt) k e0 e E Hk Heq) as [<-|(_ & Hp & Hn)]; [done|].
    destruct k; [done|]. destruct Hc as (Hcap & _ & _). split; [done|]. by rewrite Hp.
Qed.

Lemma sys_ok_lookup s g itt pdu e r' : sys_ok s -> rs_sends s !! g = None ->
  dispatchLookup itt (rs_router s) = (Some e, r') ->
  sys_ok (mkSys r' (<[g := (e, pdu)]> (rs_sends s))).
Proof.
  intros [Hn Hd Hc Hs] Hg Hl. unfold dispatchLookup in Hl.
  destruct (rt_pending (rs_router s) !! itt) as [e0|] eqn:E; [|done]. injection Hl as <- Hr.
  set (s' := mkSys _ _).
  assert (Hold : forall k e', holds s' k e' ->
    (k = inr g /\ e' = e0) \/
    (k <> inr g /\ holds s k e' /\ (re_persistent e0 = false -> k <> inl itt))).
  { intros [i|h] e' Hk; simpl in Hk; [right|].
    - split; [done|]. subst r'. destruct (re_persistent e0); [done|].
      simpl in Hk; apply lookup_delete_Some in Hk as [Hne Hk]. split; [done|]. congruence.
    - destruct Hk as [p Hk]. destruct (decide (g = h)) as [->|Hne].
      + rewrite lookup_insert_eq in Hk. left. by injection Hk as <- _.
      + rewrite lookup_insert_ne in Hk by done. right. split; [congruence|]. split; [by exists p|done]. }
  assert (Hch : rt_chans r' = rt_chans (rs_router s) /\ rt_nextITT r' = rt_nextITT (rs_router s) /\
                rt_persistentDepth r' = rt_persistentDepth (rs_router s))
    by (subst r'; by destruct (re_persistent e0)).
  destruct Hch as (Hch & Hnext & Hdep).
  split; simpl; rewrite ?Hnext, ?Hdep, ?Hch; [done|done| |].
  - intros k e' Hk. destruct (Hold k e' Hk) as [[-> ->]|(_ & Hk' & _)]; [|by apply Hc].
    destruct (Hc (inl itt) e0 E) as (c & Hcl & Hcap & Hone & _). exists c. by repeat split; try apply Hone.
  - intros k k' e1 e2 Hk Hk' He.
    destruct (Hold k e1 Hk) as [[-> ->]|(Hne & H1 & Hi)],
             (Hold k' e2 Hk') as [[-> ->]|(Hne' & H2 & Hi')]; [by left| | |eauto].
    + destruct (Hs (inl itt) k' e0 e2 E H2 He) as [<-|(Hp & Hp' & _)]; right.
      * destruct (re_persistent e0) eqn:Ep; [|by destruct Hi'].
        simpl in H2. rewrite E in H2. injection H2 as <-. by rewrite Ep.
      * by destruct k'.
    + destruct (Hs k (inl itt) e1 e0 H1 E He) as [->|(Hp & Hp' & _)]; right.
      * destruct (re_persistent e0) eqn:Ep; [|by destruct Hi].
        simpl in H1. rewrite E in H1. injection H1 as <-. by rewrite Ep.
      * by destruct k.
Qed.

Lemma sys_ok_send s g e pdu r' : sys_ok s -> rs_sends s !! g = Some (e, pdu) ->
  chan_send (re_ch e) pdu (rs_router s) = Done r' ->
  sys_ok (mkSys r' (delete g (rs_sends s))).
Proof.
  intros Hs Hg Hsend. unfold chan_send in Hsend.
  destruct (rt_chans (rs_router s) !! re_ch e) as [c|] eqn:Ec; [|done].
  unfold send in Hsend. destruct (ch_closed c) eqn:Ecl; [done|].
  destruct (Nat.ltb _ _); [|done]. injection Hsend as <-.
  assert (Hh : forall k e', holds (mkSys (mkRouter (rt_pending (rs_router s)) (rt_nextITT (rs_router s))
    (rt_persistentDepth (rs_router s)) (<[re_ch e := mkChan (ch_buf c ++ [pdu]) (ch_cap c) false]>
    (rt_chans (rs_router s)))) (delete g (rs_sends s))) k e' -> holds s k e' /\ k <> inr g).
  { intros [i|h] e'; simpl; [by split|]. intros [p [Hne Hp]%lookup_delete_Some].
    split; [by exists p|congruence]. }
  apply (sys_ok_fewer s); [done|apply Hs|done| |].
  - intros k e' Hk. by apply Hh in Hk as [? _].
  - intros k e' c' Hk Hl Hc. simpl. apply Hh in Hk as [Hk Hne].
    destruct (decide (re_ch e = re_ch e')) as [Heq|Hneq]; [|exists c'; by rewrite list_lookup_insert_ne].
    rewrite <- Heq, list_lookup_insert_eq by (by eapply lookup_lt_Some). eexists. split; [done|].
    destruct (ok_share s Hs (inr g) k e e') as [<-|(_ & Hp & _)]; [by exists pdu|done|done|done|].
    rewrite <- Heq, Ec in Hl. injection Hl as <-. destruct Hc as (Hcap & _ & Hk').
    split; [done|]. simpl. rewrite Hp. split; [done|]. by destruct k.
Qed.

Lemma sys_ok_recv s ch v r' : sys_ok s -> chan_recv ch (rs_router s) = Some (v, r') ->
  sys_ok (mkSys r' (rs_sends s)).
Proof.
  intros Hs H. unfold chan_recv in H.
  destruct (rt_chans (rs_router s) !! ch) as [c|] eqn:Ec; [|done]. simpl in H.
  destruct (recv c) as [[v' c']|] eqn:Er; [|done]. simpl in H. injection H as -> <-.
  apply (sys_ok_fewer s); [done|apply Hs|done| |].
  - by intros [].
  - intros k e c0 Hk Hl Hc. simpl.
    destruct (decide (ch = re_ch e)) as [->|]; [|exists c0; by rewrite list_lookup_insert_ne].
    rewrite list_lookup_insert_eq by (by eapply lookup_lt_Some). eexists. split; [done|].
    rewrite Ec in Hl. injection Hl as <-. unfold recv in Er.
    destruct (ch_buf c) as [|a l] eqn:Eb.
    + destruct (ch_closed c) eqn:Ecl; [|done]. by injection Er as _ <-.
    + injection Er as _ <-. destruct Hc as (Hcap & Hone & Hin). split; [done|].
      split; [|by destruct k]. intros Hp. destruct (Hone Hp) as [_ Hb]. congruence.
Qed.

Lemma sys_ok_step s s' : sys_ok s -> router_step s s' -> sys_ok s'.
Proof.
  intros Hs Hstep. pose proof (ok_next s Hs) as Hn. destruct Hstep; cbn [rs_router rs_sends] in *.
  - unfold Register. destruct (allocITT_range (rt_nextITT r)) as [H1 H2]; [lia|].
    destruct (allocITT _) as [itt next]. simpl in H1, H2. apply (sys_ok_add (mkSys r fl)); simpl; auto; try lia.
  - apply (sys_ok_add (mkSys r fl)); simpl; auto; try lia. apply (ok_depth _ Hs).
  - unfold AllocateITT. destruct (allocITT_range (rt_nextITT r)) as [H1 H2]; [lia|].
    destruct (allocITT _) as [itt next]. simpl in H1, H2. apply (sys_ok_fewer (mkSys r fl)); simpl; eauto.
  - unfold dispatchLookup in H. case_match; [done|]. by injection H as <-.
  - by eapply (sys_ok_lookup (mkSys r fl)).
  - by eapply (sys_ok_send (mkSys r fl)).
  - by apply (sys_ok_Unregister (mkSys r fl)).
  - by apply (sys_ok_UnregisterAndClose (mkSys r fl)).
  - by eapply (sys_ok_recv (mkSys r fl)).
Qed.

Lemma sys_ok_reachable depth s : reachable depth s -> sys_ok s.
Proof.
  intros H. unfold reachable in H.
  remember (mkSys (NewRouter depth) ∅) as s0 eqn:E.
  assert (sys_ok s0) as H0 by (subst; apply sys_ok_New). clear E.
  induction H; [done|]. eauto using sys_ok_step.
Qed.

(** [Dispatch] without interleaving is two steps. *)
Lemma Dispatch_ok itt pdu r b r' : sys_ok (mkSys r ∅) -> Dispatch itt pdu r = Done (b, r') ->
  sys_ok (mkSys r' ∅).
Proof.
  intros Hs H. unfold Dispatch in H. destruct (dispatchLookup itt r) as [[e|] r1] eqn:El.
  - destruct (chan_send (re_ch e) pdu r1) as [r2| |] eqn:Es; [|done..]. injection H as _ <-.
    pose proof (sys_ok_lookup _ 0%nat itt pdu e r1 Hs (lookup_empty _) El) as H1.
    pose proof (sys_ok_send _ 0%nat e pdu r2 H1 (lookup_insert_eq _ _ _) Es) as H2.
    simpl in H2. by rewrite delete_insert_id in H2.
  - injection H as _ <-. eapply sys_ok_step; [exact Hs|]. by eapply step_dispatchMiss.
Qed.

Definition chan_contents (ch : nat) (r : Router) : option (list RawPDU) := ch_buf <$> rt_chans r !! ch.

(** What one [Dispatch] does to the table and to each channel *)
Lemma Dispatch_effect itt pdu r b r' : Dispatch itt pdu r = Done (b, r') ->
  match rt_pending r !! itt with
  | None => b = false /\ r' = r
  | Some e =>
      b = true /\
      rt_pending r' = (if re_persistent e then rt_pending r else delete itt (rt_pending r)) /\
      (forall l, chan_contents (re_ch e) r = Some l ->
         chan_contents (re_ch e) r' = Some (l ++ [pdu])) /\
      (forall ch, ch <> re_ch e -> chan_contents ch r' = chan_contents ch r)
  end.
Proof.
  unfold Dispatch, dispatchLookup, chan_contents.
  destruct (rt_pending r !! itt) as [e|]; [|by intros [= <- <-]].
  set (r1 := if re_persistent e then r else _). unfold chan_send.
  assert (rt_chans r1 = rt_chans r) as -> by (subst r1; by destruct (re_persistent e)).
  destruct (rt_chans r !! re_ch e) as [c|] eqn:Ec; [|done].
  unfold send. destruct (ch_closed c); [done|]. destruct (Nat.ltb _ _); [|done].
  intros [= <- <-]. simpl. split; [done|]. split; [subst r1; by destruct (re_persistent e)|]. split.
  - intros l [= <-]. rewrite list_lookup_insert_eq by (by eapply lookup_lt_Some). done.
  - intros ch Hne. by rewrite list_lookup_insert_ne by congruence.
Qed.

(** The read pump's sequence of dispatches; it stops at one that blocks. *)
Fixpoint dispatch_all (ps : list (Z * RawPDU)) (r : Router) : outcome Router :=
  match ps with
  | [] => Done r
  | (itt, pdu) :: ps =>
    match Dispatch itt pdu r with
    | Done (_, r) => dispatch_all ps r
    | Blocks => Blocks
    | Panics => Panics
    end
  end.

(** The PDUs of [ps] tagged [itt], in order *)
Definition tagged (itt : Z) (ps : list (Z * RawPDU)) : list RawPDU :=
  (filter (fun p => p.1 = itt) ps).*2.

Lemma dispatch_all_unreferenced ps ch r r' : sys_ok (mkSys r ∅) ->
  (forall i e, rt_pending r !! i = Some e -> re_ch e <> ch) ->
  dispatch_all ps r = Done r' -> chan_contents ch r' = chan_contents ch r.
Proof.
  revert r. induction ps as [|[i p] ps IH]; intros r Hs Hch Hd; simpl in Hd; [by injection Hd as <-|].
  destruct (Dispatch i p r) as [[b r1]| |] eqn:E; [|done..].
  pose proof (Dispatch_ok _ _ _ _ _ Hs E) as Hs1.
  apply Dispatch_effect in E. destruct (rt_pending r !! i) as [e|] eqn:Ei.
  - destruct E as (_ & Hp & _ & Hother). rewrite (IH r1 Hs1); [|clear Hd|done].
    + apply Hother. intros ->. by eapply Hch.
    + intros j e' Hj. rewrite Hp in Hj. destruct (re_persistent e); [eauto|].
      apply lookup_delete_Some in Hj as [_ Hj]. eauto.
  - destruct E as [_ ->]. eauto.
Qed.

Definition delivered (persistent : bool) (l : list RawPDU) : list RawPDU :=
  if persistent then l else take 1 l.

Lemma dispatch_all_contents ps itt e l r r' : sys_ok (mkSys r ∅) ->
  rt_pending r !! itt = Some e -> chan_contents (re_ch e) r = Some l ->
  dispatch_all ps r = Done r' ->
  chan_contents (re_ch e) r' = Some (l ++ delivered (re_persistent e) (tagged itt ps)).
Proof.
  revert r l. induction ps as [|[i p] ps IH]; intros r l Hs He Hl Hd; simpl in Hd.
  { injection Hd as <-. unfold tagged, delivered. simpl.
    by destruct (re_persistent e); rewrite ?take_nil, app_nil_r. }
  destruct (Dispatch i p r) as [[b r1]| |] eqn:E; [|done..].
  pose proof (Dispatch_ok _ _ _ _ _ Hs E) as Hs1.
  apply Dispatch_effect in E. unfold tagged. rewrite filter_cons. simpl.
  destruct (decide (i = itt)) as [->|Hne].
  - rewrite He in E. destruct E as (_ & Hp & Hsame & _). specialize (Hsame l Hl).
    destruct (re_persistent e) eqn:Ep.
    + rewrite (IH r1 (l ++ [p])); [|done|by rewrite Hp|done|done]. by rewrite <- app_assoc.
    + rewrite (dispatch_all_unreferenced ps (re_ch e) r1 r' Hs1); [done| |done].
      intros j e' Hj. rewrite Hp in Hj. apply lookup_delete_Some in Hj as [Hj1 Hj].
      intros Heq. destruct (ok_share _ Hs (inl itt) (inl j) e e') as [[=]|(_ & _ & [])]; auto.
  - destruct (rt_pending r !! i) as [e'|] eqn:Ei.
    + assert (re_ch e <> re_ch e') as Hch.
      { intros Heq. destruct (ok_share _ Hs (inl itt) (inl i) e e') as [[=]|(_ & _ & [])]; auto. }
      destruct E as (_ & Hp & _ & Hother). apply (IH r1); [done| |by rewrite Hother|done].
      * rewrite Hp. destruct (re_persistent e'); [done|]. by rewrite lookup_delete_ne.
    + destruct E as [_ ->]. by apply (IH r).
Qed.

(** Room for the PDUs of [ps] in the channel of every tag *)
Definition has_room (ps : list (Z * RawPDU)) (r : Router) : Prop :=
  forall itt e, rt_pending r !! itt = Some e -> exists c, rt_chans r !! re_ch e = Some c /\
    room (length (delivered (re_persistent e) (tagged itt ps))) c.

Lemma Dispatch_room itt pdu ps r : sys_ok (mkSys r ∅) -> has_room ((itt, pdu) :: ps) r ->
  exists b r', Dispatch itt pdu r = Done (b, r') /\ has_room ps r'.
Proof.
  intros Hs Hr. unfold Dispatch, dispatchLookup. destruct (rt_pending r !! itt) as [e|] eqn:E.
  2: { exists false, r. split; [done|]. intros i e' Hi. destruct (Hr i e' Hi) as (c & Hc & Hroom).
       exists c. split; [done|]. unfold tagged in Hroom. rewrite filter_cons, decide_False in Hroom; [done|].
       cbn. intros ->. by rewrite E in Hi. }
  destruct (Hr itt e E) as (c & Hc & Hroom). unfold tagged in Hroom. rewrite filter_cons, decide_True in Hroom by done.
  assert (Hk : exists k, room (S k) c /\ (re_persistent e = true -> k = length (delivered true (tagged itt ps)))).
  { unfold delivered in *. destruct (re_persistent e); [by exists (length (tagged itt ps))|by exists 0%nat]. }
  destruct Hk as (k & Hk & Hpers). destruct (send_sent_on pdu k c Hk) as [Hsend Hafter].
  set (r1 := if re_persistent e then r else _). unfold chan_send.
  assert (rt_chans r1 = rt_chans r) as -> by (subst r1; by destruct (re_persistent e)).
  rewrite Hc, Hsend. eexists true, _. split; [reflexivity|]. intros i e' Hi. cbn [rt_pending rt_chans] in *.
  assert (Hi' : rt_pending r !! i = Some e' /\ (i = itt -> re_persistent e = true)).
  { subst r1. destruct (re_persistent e); [done|]. cbn in Hi. apply lookup_delete_Some in Hi as [? ?]. split; [done|]. by intros ->. }
  destruct Hi' as [Hi' Hsame]. destruct (decide (i = itt)) as [->|Hne].
  - rewrite E in Hi'. injection Hi' as <-. rewrite list_lookup_insert_eq by by eapply lookup_lt_Some.
    eexists. split; [reflexivity|]. by rewrite Hsame, <- Hpers by auto.
  - destruct (Hr i e' Hi') as (c' & Hc' & Hroom'). exists c'. unfold tagged in Hroom'.
    rewrite filter_cons, decide_False in Hroom' by (cbn; congruence). split; [|done].
    rewrite list_lookup_insert_ne; [done|]. intros Heq.
    destruct (ok_share _ Hs (inl itt) (inl i) e e') as [[=]|(_ & _ & [])]; auto.
Qed.

Lemma dispatch_all_room ps : forall r, sys_ok (mkSys r ∅) -> has_room ps r -> exists r', dispatch_all ps r = Done r'.
Proof.
  induction ps as [|[itt pdu] ps IH]; intros r Hs Hr; [by exists r|].
  destruct (Dispatch_room itt pdu ps r Hs Hr) as (b & r1 & Hd & Hr1).
  destruct (IH r1 (Dispatch_ok _ _ _ _ _ Hs Hd) Hr1) as [r' H]. exists r'. cbn [dispatch_all]. by rewrite Hd.
Qed.

(** Tags allocated by a sequence of [Register] ([true]) and [AllocateITT] calls *)
Fixpoint alloc_seq (ops : list bool) (r : Router) : list Z :=
  match ops with
  | [] => []
  | true :: ops => let '(itt, _, r) := Register r in itt :: alloc_seq ops r
  | false :: ops => let '(itt, r) := AllocateITT r in itt :: alloc_seq ops r
  end.

Lemma alloc_seq_mod ops r : 0 <= rt_nextITT r < reservedITT ->
  alloc_seq ops r = map (fun i => (rt_nextITT r + Z.of_nat i) mod reservedITT) (seq 0 (length ops)).
Proof.
  revert r. induction ops as [|o ops IH]; intros r Hn; [done|].
  assert (Hnext : 0 <= (rt_nextITT r + 1) mod reservedITT < reservedITT)
    by (apply Z.mod_pos_bound; done).
  simpl length. rewrite <- cons_seq, <- seq_shift, map_cons, map_map, Z.add_0_r, Z.mod_small by done.
  destruct o; cbn [alloc_seq]; unfold Register, AllocateITT; rewrite allocITT_mod by done;
    rewrite IH by exact Hnext; f_equal; apply map_ext; intros i; simpl rt_nextITT;
    rewrite Z.add_mod_idemp_l by done; f_equal; lia.
Qed.

(** ** Properties *)

(** Initiator task tags: any run of fewer than 2^32 allocations, by Register
    and AllocateITT in any mixture, hands out distinct tags, counting from
    nextITT modulo 2^32 - 1, and never the reserved 0xFFFFFFFF. *)
Theorem alloc_seq_distinct (ops : list bool) (r : Router) :
  0 <= rt_nextITT r < reservedITT ->
  alloc_seq ops r =
    map (fun i => (rt_nextITT r + Z.of_nat i) mod reservedITT) (seq 0 (length ops)) /\
  Forall (fun itt => u32 itt /\ itt <> reservedITT) (alloc_seq ops r) /\
  (Z.of_nat (length ops) <= reservedITT -> NoDup (alloc_seq ops r)).
Proof.
  intros Hn. rewrite alloc_seq_mod by done. split; [done|]. split.
  - apply Forall_forall. intros x (i & -> & _)%list_elem_of_fmap.
    pose proof (Z.mod_pos_bound (rt_nextITT r + Z.of_nat i) reservedITT) as H.
    unfold in_width. change (2 ^ 32) with (reservedITT + 1). lia.
  - intros Hlen. apply NoDup_fmap_2_strong; [|apply NoDup_ListNoDup, seq_NoDup].
    intros i j Hi%list_elem_of_In%in_seq Hj%list_elem_of_In%in_seq Heq.
    apply Nat2Z.inj. unfold reservedITT in *.
    Z.to_euclidean_division_equations. lia.
Qed.

Lemma alloc_seq_distinct_witness :
  let r := mkRouter ∅ 0xFFFFFFFD 4 [] in
  alloc_seq [true; false; true; false] r = [0xFFFFFFFD; 0xFFFFFFFE; 0; 1] /\
  NoDup (alloc_seq [true; false; true; false] r).
Proof.
  split; [by vm_compute|].
  refine (proj2 (proj2 (alloc_seq_distinct [true; false; true; false]
            (mkRouter ∅ 0xFFFFFFFD 4 []) _)) _); by vm_compute.
Defined.

(** C23.  The read pump is never stuck on a one-shot waiter: in every reachable
    interleaving of registrations, dispatches, receives and removals, the send
    of a dispatcher that found a one-shot entry succeeds at once, on an open
    channel that then holds this PDU alone. *)
Theorem one_shot_send_never_blocks (depth : Z) (s : RouterSys) g e pdu :
  reachable depth s -> rs_sends s !! g = Some (e, pdu) -> re_persistent e = false ->
  exists r', chan_send (re_ch e) pdu (rs_router s) = Done r' /\
             chan_contents (re_ch e) r' = Some [pdu].
Proof.
  intros Hr Hg Hp. pose proof (sys_ok_reachable depth s Hr) as Hs.
  destruct (ok_chan s Hs (inr g) e) as (c & Hl & Hcap & Hone & _); [by exists pdu|].
  destruct (Hone Hp) as [Hcl Hb]. unfold chan_send, chan_contents. rewrite Hl. unfold send.
  rewrite Hcl, Hb. simpl length. rewrite (proj2 (Nat.ltb_lt _ _) Hcap).
  eexists. split; [done|]. simpl. by rewrite list_lookup_insert_eq by (by eapply lookup_lt_Some).
Qed.

Lemma one_shot_send_never_blocks_witness :
  let pdu := newRawPDU (zeros 48) [] in
  let r := (Register (NewRouter 0)).2 in
  let s := mkSys (dispatchLookup 0 r).2 (<[3%nat := (mkEntry 0 false, pdu)]> ∅) in
  exists r', chan_send 0 pdu (rs_router s) = Done r' /\ chan_contents 0 r' = Some [pdu].
Proof.
  apply (one_shot_send_never_blocks 0 _ 3 (mkEntry 0 false)); [|done|done].
  eapply rtc_l; [apply step_Register|].
  eapply rtc_l; [|apply rtc_refl]. by eapply (step_dispatchLookup 3 0).
Defined.

(** C24.  Nothing is lost, duplicated, reordered or crossed between tasks: after
    any sequence of dispatches that all went through, the channel of a
    registered tag holds what it held before followed by exactly the PDUs of
    that tag, in order, for a persistent entry, and by the first of them for a
    one-shot entry. *)
Theorem dispatch_all_delivers (depth : Z) ps itt e l r r' :
  reachable depth (mkSys r ∅) ->
  rt_pending r !! itt = Some e -> chan_contents (re_ch e) r = Some l ->
  dispatch_all ps r = Done r' ->
  chan_contents (re_ch e) r' =
    Some (l ++ (if re_persistent e then tagged itt ps else take 1 (tagged itt ps))).
Proof.
  intros Hr He Hl Hd. pose proof (sys_ok_reachable depth _ Hr) as Hs.
  exact (dispatch_all_contents ps itt e l r r' Hs He Hl Hd).
Qed.

Lemma dispatch_all_delivers_witness :
  let p i := newRawPDU [i] [] in
  let r := (RegisterPersistent 7 (Register (NewRouter 8)).2).2 in
  let ps := [(7, p 1); (0, p 2); (7, p 3); (0, p 4); (9, p 5)] in
  match dispatch_all ps r with
  | Done r' => chan_contents 1 r' = Some [p 1; p 3] /\ chan_contents 0 r' = Some [p 2]
  | _ => False
  end.
Proof.
  intros p r ps.
  assert (reachable 8 (mkSys r ∅)) as Hr.
  { eapply rtc_l; [apply step_Register|]. eapply rtc_l; [|apply rtc_refl].
    apply step_RegisterPersistent. }
  destruct (dispatch_all ps r) as [r'| |] eqn:E; [|by vm_compute in E..].
  split.
  - exact (dispatch_all_delivers 8 ps 7 (mkEntry 1 true) [] r r' Hr eq_refl eq_refl E).
  - exact (dispatch_all_delivers 8 ps 0 (mkEntry 0 false) [] r r' Hr eq_refl eq_refl E).
Defined.
