(* ===== verification/Pump.v ===== *)
(** The read and write pumps ([src/internal/transport/pump.go]): the two
    goroutines that own the connection.

    What the Go scheduler and the context decide in one turn of a pump's loop
    is a [Sched]: whether [ctx.Done()] is ready at each point the source looks,
    which ready case a [select] takes, and what a pooled buffer held.  A pump
    run is a list of turns.  The optional [pduHook] is a log of its calls;
    the logger is left out. *)
From S2P Require Import Prelude Errors Bhs GoIO Digest Framer Chan Router.
#[local] Open Scope Z_scope.

Definition HookSend : Z := 0.
Definition HookReceive : Z := 1.

Record Sched := mkSched {
  ctx_top : bool;     (* ctx.Done() ready at the top of the loop *)
  ctx_err : bool;     (* ctx.Done() ready after a failed read *)
  ctx_send : bool;    (* ctx.Done() ready in the blocking send *)
  pick_ctx : bool;    (* a select with two ready cases takes ctx.Done() *)
  stale_buf : bytes;  (* content of the pooled write buffer *)
}.

(** A turn in which the context is not done *)
Definition quiet (stale : bytes) : Sched := mkSched false false false false stale.

Inductive turn (S : Type) :=
  | Continue (s : S)                    (* the next turn follows *)
  | Return (e : option error) (s : S)   (* the pump returns *)
  | Stuck (s : S)                       (* blocked until another goroutine acts *)
  | Panic.
#[global] Arguments Continue {S} s.
#[global] Arguments Return {S} e s.
#[global] Arguments Stuck {S} s.
#[global] Arguments Panic {S}.

(** ** WritePump *)

Record WriteState := mkWS {
  wp_w : Writer;
  wp_ch : Chan RawPDU;
  wp_hooks : list (Z * RawPDU);
}.

Definition writePump_turn (hook : bool) (order : option ByteOrder) (sch : Sched) (st : WriteState)
    : turn WriteState :=
  let ready := match recv (wp_ch st) with Some _ => true | None => false end in
  if ctx_top sch && (negb ready || pick_ctx sch) then Return (Some ErrCtx) st
  else
    match recv (wp_ch st) with
    | None => Stuck st
    | Some (None, _) => Return None st
    | Some (Some p, ch) =>
        let hooks := if hook then wp_hooks st ++ [(HookSend, p)] else wp_hooks st in
        let '(err, w) := w_Write (WriteRawPDU order p (stale_buf sch)) (wp_w st) in
        let st := mkWS w ch hooks in
        match err with Some e => Return (Some e) st | None => Continue st end
    end.

(** ** ReadPump *)

Record ReadState := mkRS {
  rp_r : Reader;
  rp_router : Router;
  rp_unsolicited : Chan RawPDU;
  rp_drops : Z;                      (* dropCounter, an atomic.Uint64 *)
  rp_hooks : list (Z * RawPDU);
}.

Definition raw_itt (raw : RawPDU) : Z := get_be 4 16 (raw_BHS raw).
Definition raw_opcode (raw : RawPDU) : Z := Z.land (byte_at 0 (raw_BHS raw)) 0x3f.

(** The part of the loop after the hook: one PDU classified and handed on *)
Definition dispatchRaw (sch : Sched) (raw : RawPDU) (st : ReadState) : turn ReadState :=
  let with_unsol ch drops := mkRS (rp_r st) (rp_router st) ch drops (rp_hooks st) in
  let itt := raw_itt raw in
  if itt =? reservedITT then
    if raw_opcode raw =? OpNOPIn then
      match send raw (rp_unsolicited st) with
      | Done ch =>
          if ctx_send sch && pick_ctx sch then Return (Some ErrCtx) st
          else Continue (with_unsol ch (rp_drops st))
      | Blocks => if ctx_send sch then Return (Some ErrCtx) st else Stuck st
      | Panics => Panic
      end
    else
      match send raw (rp_unsolicited st) with
      | Done ch => Continue (with_unsol ch (rp_drops st))
      | Blocks => Continue (with_unsol (rp_unsolicited st) (uint64 (rp_drops st + 1)))
      | Panics => Panic
      end
  else
    match Dispatch itt raw (rp_router st) with
    | Done (_, router) =>
        Continue (mkRS (rp_r st) router (rp_unsolicited st) (rp_drops st) (rp_hooks st))
    | Blocks => Stuck st
    | Panics => Panic
    end.

Definition readPump_turn (hook digestHeader digestData : bool) (order : option ByteOrder)
    (sch : Sched) (st : ReadState) : turn ReadState :=
  if ctx_top sch then Return (Some ErrCtx) st
  else
    let '(res, r) := ReadRawPDU order digestHeader digestData (rp_r st) in
    let st := mkRS r (rp_router st) (rp_unsolicited st) (rp_drops st) (rp_hooks st) in
    match res with
    | Err e => Return (Some (if ctx_err sch then ErrCtx else e)) st
    | Ok raw =>
        let hooks := if hook then rp_hooks st ++ [(HookReceive, raw)] else rp_hooks st in
        let st := mkRS (rp_r st) (rp_router st) (rp_unsolicited st) (rp_drops st) hooks in
        dispatchRaw sch raw st
    end.

(** A pump runs its turns until one does not continue. *)
Fixpoint run_pump {S} (step : Sched -> S -> turn S) (schs : list Sched) (st : S) : turn S :=
  match schs with
  | [] => Continue st
  | sch :: schs =>
    match step sch st with
    | Continue st => run_pump step schs st
    | t => t
    end
  end.

Definition WritePump hook order := run_pump (writePump_turn hook order).
Definition ReadPump hook h d order := run_pump (readPump_turn hook h d order).

(** ** A run of the read pump *)

(** The turns on a list of PDUs, without their reads *)
Fixpoint hand_on (hook : bool) (ps : list RawPDU) (st : ReadState) : turn ReadState :=
  match ps with
  | [] => Continue st
  | p :: ps =>
    let hooks := if hook then rp_hooks st ++ [(HookReceive, p)] else rp_hooks st in
    let st := mkRS (rp_r st) (rp_router st) (rp_unsolicited st) (rp_drops st) hooks in
    match dispatchRaw (quiet []) p st with
    | Continue st => hand_on hook ps st
    | t => t
    end
  end.

Definition set_reader (r : Reader) (st : ReadState) : ReadState :=
  mkRS r (rp_router st) (rp_unsolicited st) (rp_drops st) (rp_hooks st).

Definition turn_map {S} (f : S -> S) (t : turn S) : turn S :=
  match t with
  | Continue st => Continue (f st)
  | Return err st => Return err (f st)
  | Stuck st => Stuck (f st)
  | Panic => Panic
  end.

(** The same turn with the reader left out *)
Definition sans_reader : turn ReadState -> turn ReadState :=
  turn_map (set_reader (NewReader [])).

(** [err] returned when the work is done *)
Definition then_return {S} (err : option error) (t : turn S) : turn S :=
  match t with Continue st => Return err st | t => t end.

(** ** Lemmas *)

Lemma run_pump_cons {S} (step : Sched -> S -> turn S) sch schs st st' :
  step sch st = Continue st' -> run_pump step (sch :: schs) st = run_pump step schs st'.
Proof. intros H. simpl. by rewrite H. Qed.

Lemma dispatchRaw_reader s raw st r :
  dispatchRaw (quiet s) raw (set_reader r st) =
  turn_map (set_reader r) (dispatchRaw (quiet []) raw st).
Proof.
  unfold dispatchRaw, quiet. simpl. destruct (raw_itt raw =? reservedITT).
  - destruct (raw_opcode raw =? OpNOPIn); by destruct (send _ _).
  - destruct (Dispatch _ _ _) as [[b router]| |]; done.
Qed.

Lemma hand_on_reader hook ps r st :
  hand_on hook ps (set_reader r st) = turn_map (set_reader r) (hand_on hook ps st).
Proof.
  revert st. induction ps as [|p ps IH]; intros st; [done|]. simpl.
  set (st1 := mkRS (rp_r st) _ _ _ _).
  change (mkRS r _ _ _ _) with (set_reader r st1). rewrite dispatchRaw_reader.
  destruct (dispatchRaw (quiet []) p st1); try done. simpl. apply IH.
Qed.

Lemma sans_reader_then r e t :
  sans_reader (then_return e (turn_map (set_reader r) t)) = sans_reader (then_return e t).
Proof. by destruct t. Qed.

Lemma dispatchRaw_quiet_returns raw st e st' : dispatchRaw (quiet []) raw st <> Return e st'.
Proof.
  unfold dispatchRaw, quiet. simpl. destruct (raw_itt raw =? reservedITT).
  - destruct (raw_opcode raw =? OpNOPIn); by destruct (send _ _).
  - by destruct (Dispatch _ _ _) as [[b router]| |].
Qed.

(** The bytes of a sequence of PDUs on the wire *)
Definition wires (order : option ByteOrder) (ps : list RawPDU) : bytes :=
  concat (map (fun p => WriteRawPDU order p []) ps).

Lemma stampDigests_BHS h d p : raw_BHS (stampDigests h d p) = raw_BHS p.
Proof. unfold stampDigests. by repeat case_match. Qed.

Lemma unstamped_BHS p : unstamped p -> length (raw_BHS p) = BHSLength.
Proof. intros [H _]. apply H. Qed.

Lemma WriteRawPDU_stale order p s s' : length (raw_BHS p) = BHSLength ->
  WriteRawPDU order p s = WriteRawPDU order p s'.
Proof. intros Hp. by rewrite !WriteRawPDU_layout. Qed.

Lemma writePump_drains hook order ps stales w hooks cap :
  Forall (fun p => length (raw_BHS p) = BHSLength) ps -> w_fails w = [] ->
  length stales = S (length ps) ->
  WritePump hook order (map quiet stales) (mkWS w (mkChan ps cap true) hooks) =
  Return None (mkWS (mkWriter (w_out w ++ wires order ps) []) (mkChan [] cap true)
                 (if hook then hooks ++ map (pair HookSend) ps else hooks)).
Proof.
  intros Hps. revert stales w hooks. induction Hps as [|p ps Hp Hps IH]; intros stales w hooks Hw Hl.
  - destruct stales as [|s [|]]; [done| |done]. destruct w as [out f]. simpl in Hw. subst f.
    unfold WritePump, wires. simpl. by rewrite app_nil_r; destruct hook; rewrite ?app_nil_r.
  - destruct stales as [|s stales]; [done|]. simpl map. unfold WritePump.
    assert (Hstep : forall hs, hs = (if hook then hooks ++ [(HookSend, p)] else hooks) ->
      writePump_turn hook order (quiet s) (mkWS w (mkChan (p :: ps) cap true) hooks) =
      Continue (mkWS (mkWriter (w_out w ++ WriteRawPDU order p []) []) (mkChan ps cap true) hs)).
    { intros hs ->. unfold writePump_turn, w_Write. simpl. rewrite Hw.
      by rewrite (WriteRawPDU_stale order p s []). }
    erewrite run_pump_cons by by apply Hstep. fold (WritePump hook order).
    rewrite IH by (done || by injection Hl). unfold wires. simpl. rewrite <- !app_assoc.
    by destruct hook; rewrite <- ?app_assoc.
Qed.

Lemma readPump_turn_eof hook h d order sch st : rd_bytes (rp_r st) = [] ->
  readPump_turn hook h d order (quiet sch) st =
  Return (Some (rd_err (rp_r st))) (set_reader (rd_with (rp_r st) []) st).
Proof.
  intros Hr. unfold readPump_turn, ReadRawPDU. simpl.
  rewrite ReadFull_short by (rewrite Hr; unfold BHSLength; simpl; lia). rewrite Hr. simpl.
  by destruct (bool_decide (rd_err (rp_r st) = EOF)).
Qed.

Lemma readPump_reads hook h d order ps st e :
  Forall unstamped ps -> rd_err (rp_r st) = e ->
  rd_bytes (rp_r st) = wires order (map (stampDigests h d) ps) ->
  sans_reader (ReadPump hook h d order (replicate (S (length ps)) (quiet [])) st) =
  sans_reader (then_return (Some e) (hand_on hook (map (stampDigests h d) ps) st)).
Proof.
  intros Hps. revert st. induction Hps as [|p ps Hp Hps IH]; intros st He Hr.
  - simpl. unfold ReadPump. simpl. rewrite readPump_turn_eof by done. simpl. by rewrite He.
  - destruct (ReadRawPDU_framed order h d _ [] (rp_r st) (wires order (map (stampDigests h d) ps))
                (stampDigests_framed h d p Hp)) as (r' & Hres & Hrest & Herr); [exact Hr|].
    rewrite verifyDigests_stamped in Hres by done.
    change (replicate (S (length (p :: ps))) (quiet [])) with
      (quiet [] :: replicate (S (length ps)) (quiet [])).
    simpl map. unfold ReadPump. simpl hand_on.
    set (q := stampDigests h d p) in *.
    set (st1 := mkRS (rp_r st) _ _ _ (if hook then _ else _)).
    assert (Hstep : readPump_turn hook h d order (quiet []) st =
                    dispatchRaw (quiet []) q (set_reader r' st1)).
    { unfold readPump_turn. simpl. rewrite Hres. done. }
    rewrite dispatchRaw_reader in Hstep.
    destruct (dispatchRaw (quiet []) q st1) as [st2|e2 st2|st2|] eqn:E; simpl turn_map in Hstep;
      [|by cbn [run_pump]; rewrite Hstep..].
    erewrite run_pump_cons by exact Hstep. fold (ReadPump hook h d order).
    rewrite IH; [by rewrite hand_on_reader, sans_reader_then|by rewrite <- He|exact Hrest].
Qed.

(** The unsolicited PDUs, and the NOP-Ins among them *)
Definition unsolicited (ps : list RawPDU) : list RawPDU :=
  filter (fun p => raw_itt p = reservedITT) ps.
Definition nopins (ps : list RawPDU) : list RawPDU := filter (fun p => raw_opcode p = OpNOPIn) ps.

Lemma dispatchRaw_accounts raw st st' : 0 <= rp_drops st < 2 ^ 64 - 1 ->
  dispatchRaw (quiet []) raw st = Continue st' ->
  let q := ch_buf (rp_unsolicited st) in
  let q' := ch_buf (rp_unsolicited st') in
  let dropped := Z.of_nat (length (unsolicited [raw])) - (Z.of_nat (length q') - Z.of_nat (length q)) in
  rp_drops st' = rp_drops st + dropped /\ 0 <= dropped <= 1 /\
  nopins q' = nopins q ++ nopins (unsolicited [raw]).
Proof.
  intros Hd H. unfold dispatchRaw, quiet, unsolicited in *. rewrite filter_cons, filter_nil in *.
  simpl in H. destruct (Z.eqb_spec (raw_itt raw) reservedITT) as [Hu|Hu].
  - rewrite decide_True by done. unfold nopins. rewrite filter_cons, filter_nil.
    destruct (Z.eqb_spec (raw_opcode raw) OpNOPIn) as [Ho|Ho].
    + rewrite decide_True by done. destruct (send _ _) as [c| |] eqn:E; try done. injection H as <-. simpl.
      apply send_Done in E. rewrite E, filter_app, length_app, filter_cons, decide_True by done.
      simpl. split; [lia|]. split; [lia|done].
    + rewrite decide_False by done. destruct (send _ _) as [c| |] eqn:E; try done; injection H as <-; simpl.
      * apply send_Done in E. rewrite E, filter_app, length_app, filter_cons, decide_False by done.
        simpl. split; [lia|]. split; [lia|done].
      * rewrite app_nil_r. unfold wrap. rewrite Z.mod_small by lia. split; [lia|]. split; [lia|done].
  - rewrite decide_False by done. destruct (Dispatch _ _ _) as [[b router]| |]; try done.
    injection H as <-. simpl. unfold nopins. rewrite filter_nil, app_nil_r.
    split; [lia|]. split; [lia|done].
Qed.

(** ** What arrives where *)

(** The PDUs that answer a tag *)
Definition addressed (itt : Z) (ps : list RawPDU) : list RawPDU := filter (fun p => raw_itt p = itt) ps.

(** The PDUs given to the router, with their tags *)
Definition solicited (ps : list RawPDU) : list (Z * RawPDU) :=
  map (fun p => (raw_itt p, p)) (filter (fun p => raw_itt p <> reservedITT) ps).

Lemma tagged_solicited itt ps : itt <> reservedITT -> tagged itt (solicited ps) = addressed itt ps.
Proof.
  intros Hne. unfold tagged, solicited, addressed. induction ps as [|p ps IH]; [done|]. rewrite !filter_cons.
  destruct (decide (raw_itt p = itt)) as [E|E].
  - rewrite decide_True by congruence. cbn [map]. rewrite filter_cons, decide_True by done. cbn. by rewrite IH.
  - destruct (decide (raw_itt p <> reservedITT)); [|done]. cbn [map]. by rewrite filter_cons, decide_False.
Qed.

Lemma hand_on_splits hook ps : forall st r', dispatch_all (solicited ps) (rp_router st) = Done r' ->
  room (length (unsolicited ps)) (rp_unsolicited st) ->
  hand_on hook ps st = Continue (mkRS (rp_r st) r' (sent_on (unsolicited ps) (rp_unsolicited st)) (rp_drops st)
    (if hook then rp_hooks st ++ map (pair HookReceive) ps else rp_hooks st)).
Proof.
  induction ps as [|p ps IH]; intros st r' Hd Hr.
  { injection Hd as <-. cbn. rewrite sent_on_nil, app_nil_r. by destruct st, hook. }
  unfold solicited, unsolicited in Hd, Hr. rewrite filter_cons in Hd, Hr. cbn [hand_on map].
  set (st1 := mkRS (rp_r st) _ _ _ _).
  assert (Hstep : exists r1, dispatch_all (solicited ps) r1 = Done r' /\
    room (length (unsolicited ps)) (sent_on (unsolicited [p]) (rp_unsolicited st)) /\
    dispatchRaw (quiet []) p st1
    = Continue (mkRS (rp_r st) r1 (sent_on (unsolicited [p]) (rp_unsolicited st)) (rp_drops st) (rp_hooks st1))).
  { unfold dispatchRaw, unsolicited in *. rewrite filter_cons, filter_nil.
    destruct (Z.eqb_spec (raw_itt p) reservedITT) as [E|E].
    - rewrite decide_False in Hd by tauto. rewrite decide_True in Hr by done. rewrite decide_True by done. cbn [length] in Hr.
      destruct (send_sent_on p _ _ Hr) as [Hs Hr']. exists (rp_router st). split; [done|]. split; [done|].
      cbn [rp_unsolicited st1]. rewrite Hs. by destruct (_ =? _).
    - rewrite decide_True in Hd by done. rewrite decide_False in Hr by done. rewrite decide_False, sent_on_nil by done.
      cbn [map dispatch_all] in Hd. cbn [rp_router st1].
      destruct (Dispatch (raw_itt p) p (rp_router st)) as [[b r1]| |]; [|done..]. by exists r1. }
  destruct Hstep as (r1 & Hd1 & Hr1 & ->). rewrite (IH (mkRS _ r1 (sent_on _ _) _ _) r' Hd1 Hr1).
  cbn [rp_r rp_unsolicited rp_drops rp_hooks st1].
  assert (Hu : unsolicited (p :: ps) = unsolicited [p] ++ unsolicited ps) by (unfold unsolicited; by rewrite <- filter_app).
  rewrite sent_on_app, Hu. destruct hook; [|done]. by rewrite <- app_assoc.
Qed.

(** Room for a list of PDUs in the channels of their tags and in the unsolicited one *)
Definition accommodates (ps : list RawPDU) (st : ReadState) : Prop :=
  has_room (solicited ps) (rp_router st) /\ room (length (unsolicited ps)) (rp_unsolicited st).

(** What a channel gets of the PDUs for its tag: all of them, or the first if it is
    registered for one *)
Definition gets (e : routerEntry) (ps : list RawPDU) : list RawPDU := if re_persistent e then ps else take 1 ps.

Lemma hand_on_arrives hook ps st : sys_ok (mkSys (rp_router st) ∅) -> accommodates ps st ->
  exists st', hand_on hook ps st = Continue st' /\
    (forall itt e l, itt <> reservedITT -> rt_pending (rp_router st) !! itt = Some e ->
       chan_contents (re_ch e) (rp_router st) = Some l ->
       chan_contents (re_ch e) (rp_router st') = Some (l ++ gets e (addressed itt ps))) /\
    ch_buf (rp_unsolicited st') = ch_buf (rp_unsolicited st) ++ unsolicited ps /\ rp_drops st' = rp_drops st /\
    rp_hooks st' = if hook then rp_hooks st ++ map (pair HookReceive) ps else rp_hooks st.
Proof.
  intros Hs [Hr Hu]. destruct (dispatch_all_room _ _ Hs Hr) as [r' Hd].
  eexists. split; [by apply hand_on_splits|]. split; [|done]. intros itt e l Hne He Hl. cbn [rp_router].
  rewrite (dispatch_all_contents _ itt e l _ r' Hs He Hl Hd). by rewrite tagged_solicited.
Qed.

(** ** Properties *)

(** C14.  End to end, the connection is an ordered, lossless queue.  Whatever PDUs
    are stamped and queued on writeCh, a WritePump that drains the closed channel
    returns nil having written them all.  A ReadPump at the other end of that
    stream, not cancelled and with room in the channels, returns the reader's
    io.EOF after it has delivered them: the channel registered for a tag has
    received exactly the PDUs with that tag, in the order they were sent (the first
    of them if the registration is for one), the unsolicited channel exactly those
    with the reserved tag, each in the order they were sent, with nothing counted
    as dropped and one hook call for each PDU; a PDU whose tag nobody has
    registered is given to nobody. *)
Theorem WritePump_ReadPump hookW hookR order h d ps stales cap depth rst :
  Forall unstamped ps -> length stales = S (length ps) ->
  let qs := map (stampDigests h d) ps in
  WritePump hookW order (map quiet stales) (mkWS (mkWriter [] []) (mkChan qs cap true) []) =
    Return None (mkWS (mkWriter (wires order qs) []) (mkChan [] cap true)
                   (if hookW then map (pair HookSend) qs else [])) /\
  (rd_bytes (rp_r rst) = wires order qs -> rd_err (rp_r rst) = EOF ->
   reachable depth (mkSys (rp_router rst) ∅) -> accommodates qs rst ->
   exists rst', ReadPump hookR h d order (replicate (S (length ps)) (quiet [])) rst = Return (Some EOF) rst' /\
     (forall itt e l, itt <> reservedITT -> rt_pending (rp_router rst) !! itt = Some e ->
        chan_contents (re_ch e) (rp_router rst) = Some l ->
        chan_contents (re_ch e) (rp_router rst') = Some (l ++ gets e (addressed itt qs))) /\
     ch_buf (rp_unsolicited rst') = ch_buf (rp_unsolicited rst) ++ unsolicited qs /\ rp_drops rst' = rp_drops rst /\
     rp_hooks rst' = if hookR then rp_hooks rst ++ map (pair HookReceive) qs else rp_hooks rst).
Proof.
  intros Hps Hl qs. split.
  - rewrite writePump_drains; [done| |done|by subst qs; rewrite length_map].
    apply Forall_fmap. eapply Forall_impl; [exact Hps|]. intros p Hp. simpl.
    rewrite stampDigests_BHS. by apply unstamped_BHS.
  - intros Hb He Hreach Hroom. destruct (hand_on_arrives hookR qs rst (sys_ok_reachable _ _ Hreach) Hroom) as (st' & Hh & H).
    pose proof (readPump_reads hookR h d order ps rst EOF Hps He Hb) as Hrun. fold qs in Hrun. rewrite Hh in Hrun.
    destruct (ReadPump _ _ _ _ _ _) as [st|e st|st|]; [done| |done..]. injection Hrun as -> E1 E2 E3 E4.
    exists st. split; [done|]. by rewrite E1, E2, E3, E4.
Qed.

Lemma WritePump_ReadPump_witness :
  let ps := [newRawPDU (upd 7 [3] (zeros 48)) [7; 8; 9]; newRawPDU (upd 16 [255; 255; 255; 255] (zeros 48)) [];
             newRawPDU (zeros 48) []] in
  let qs := map (stampDigests true true) ps in
  let rst := mkRS (NewReader (wires None qs)) (RegisterPersistent 0 (NewRouter 4)).2 (make_chan 1) 0 [] in
  WritePump true None (map quiet [[]; [1]; []; []]) (mkWS (mkWriter [] []) (mkChan qs 8 true) []) =
    Return None (mkWS (mkWriter (wires None qs) []) (mkChan [] 8 true) (map (pair HookSend) qs)) /\
  exists rst', ReadPump true true true None (replicate 4 (quiet [])) rst = Return (Some EOF) rst' /\
    chan_contents 0 (rp_router rst') = Some [stampDigests true true (newRawPDU (upd 7 [3] (zeros 48)) [7; 8; 9]);
      stampDigests true true (newRawPDU (zeros 48) [])] /\
    ch_buf (rp_unsolicited rst') = [stampDigests true true (newRawPDU (upd 16 [255; 255; 255; 255] (zeros 48)) [])].
Proof.
  intros ps qs rst.
  assert (Forall unstamped ps) as Hps.
  { repeat constructor; try done; by apply (bool_decide_unpack _); vm_compute. }
  destruct (WritePump_ReadPump true true None true true ps [[]; [1]; []; []] 8 4 rst Hps eq_refl) as [Hw Hr].
  split; [exact Hw|]. destruct Hr as (rst' & Hrun & Harr & Hu & _).
  - apply app_nil_r.
  - done.
  - apply rtc_once, step_RegisterPersistent.
  - split; [|split; [done|apply Nat.leb_le; by vm_compute]]. intros itt e He.
    change ((<[0 := mkEntry 0 true]> ∅ : gmap Z routerEntry) !! itt = Some e) in He. apply lookup_insert_Some in He as [[<- <-]|[_ He]]; [|by rewrite lookup_empty in He].
    exists (make_chan 4). split; [done|]. split; [done|]. apply Nat.leb_le. by vm_compute.
  - exists rst'. split; [exact Hrun|]. split.
    + pose proof (Harr 0 (mkEntry 0 true) [] ltac:(by vm_compute) eq_refl eq_refl) as H.
      cbn [re_ch app] in H. rewrite H. by vm_compute.
    + rewrite Hu. by vm_compute.
Defined.

(** Every unsolicited PDU is accounted for: after any sequence of PDUs the
    pump handed on, the unsolicited ones are either in the channel or counted
    in dropCounter, and the NOP-In pings are all in the channel, in order: a
    full channel drops other PDUs but never a ping. *)
Theorem unsolicited_accounted hook ps st st' :
  0 <= rp_drops st -> rp_drops st + Z.of_nat (length ps) < 2 ^ 64 ->
  hand_on hook ps st = Continue st' ->
  Z.of_nat (length (ch_buf (rp_unsolicited st'))) + rp_drops st' =
    Z.of_nat (length (ch_buf (rp_unsolicited st))) + rp_drops st +
    Z.of_nat (length (unsolicited ps)) /\
  nopins (ch_buf (rp_unsolicited st')) =
    nopins (ch_buf (rp_unsolicited st)) ++ nopins (unsolicited ps).
Proof.
  revert st. induction ps as [|p ps IH]; intros st Hd Hb H.
  { injection H as <-. unfold unsolicited, nopins. rewrite filter_nil, app_nil_r. simpl. split; [lia|done]. }
  simpl in H. set (st1 := mkRS (rp_r st) _ _ _ _) in H.
  destruct (dispatchRaw (quiet []) p st1) as [st2| | |] eqn:E; try done.
  rewrite length_cons, Nat2Z.inj_succ in Hb.
  apply dispatchRaw_accounts in E; [|subst st1; cbn [rp_drops]; lia].
  subst st1. cbn [rp_drops rp_unsolicited] in E. cbv zeta in E. destruct E as (E1 & E2 & E3).
  destruct (IH st2) as [IH1 IH2]; [lia|lia|done|].
  change (p :: ps) with ([p] ++ ps). unfold unsolicited in *. rewrite filter_app.
  split.
  - rewrite IH1, E1, length_app. lia.
  - rewrite IH2, E3. unfold nopins. by rewrite filter_app, app_assoc.
Qed.

Lemma unsolicited_accounted_witness :
  let ping := newRawPDU (upd 16 [255; 255; 255; 255] (upd 0 [0x20] (zeros 48))) [] in
  let async := newRawPDU (upd 16 [255; 255; 255; 255] (upd 0 [0x32] (zeros 48))) [] in
  let st := mkRS (NewReader []) (NewRouter 0) (make_chan 2) 0 [] in
  match hand_on false [async; ping; async] st with
  | Continue st' => Z.of_nat (length (ch_buf (rp_unsolicited st'))) + rp_drops st' = 3 /\
                    nopins (ch_buf (rp_unsolicited st')) = [ping]
  | _ => False
  end.
Proof.
  intros ping async st.
  destruct (hand_on false [async; ping; async] st) as [st'| | |] eqn:E; [|by vm_compute in E..].
  refine (unsolicited_accounted false [async; ping; async] st st' _ _ E); by vm_compute.
Defined.
