(* ===== verification/Text.v ===== *)
(** Strings, numbers in text and the login text format
    ([src/internal/login/textcodec.go]).

    A Go string is a byte sequence: [string] here, with [to_bytes]/[of_bytes] as
    the conversions [[]byte(s)] and [string(b)].  The functions of [strings],
    [bytes] and [strconv] are defined as far as the source uses them; the error
    values of [strconv] are not told apart. *)
From S2P Require Import Prelude Errors.
From Stdlib Require Import Ascii.
From Stdlib Require String.
#[local] Open Scope Z_scope.

(** ** Strings and bytes *)

Definition byte_of_ascii (a : ascii) : Z := Z.of_N (N_of_ascii a).
Definition ascii_of_byte (z : Z) : ascii := ascii_of_N (Z.to_N z).
Definition to_bytes (s : string) : bytes := map byte_of_ascii (String.list_ascii_of_string s).
Definition of_bytes (l : bytes) : string := String.string_of_list_ascii (map ascii_of_byte l).

(** [bytes.Split(l, sep)] and [strings.Split(s, sep)] for a one-byte separator *)
Fixpoint split_on (sep : Z) (l : bytes) : list bytes :=
  match l with
  | [] => [[]]
  | b :: l =>
    if b =? sep then [] :: split_on sep l
    else match split_on sep l with
         | [] => [[b]]
         | s :: ss => (b :: s) :: ss
         end
  end.

(** [strings.Cut(s, sep)] for a one-byte separator: before, after, found *)
Fixpoint cut (sep : Z) (l : bytes) : bytes * bytes * bool :=
  match l with
  | [] => ([], [], false)
  | b :: l =>
    if b =? sep then ([], l, true)
    else let '(before, after, found) := cut sep l in (b :: before, after, found)
  end.

(** [strings.TrimSpace] on ASCII text *)
Definition is_space (b : Z) : bool := (b =? 32) || ((9 <=? b) && (b <=? 13)).
Fixpoint trim_left (l : bytes) : bytes :=
  match l with
  | [] => []
  | b :: l' => if is_space b then trim_left l' else l
  end.
Definition TrimSpace (s : string) : string :=
  of_bytes (reverse (trim_left (reverse (trim_left (to_bytes s))))).

(** [strings.Split(s, ",")], [strings.Join(ss, ",")] *)
Definition Split (sep : Z) (s : string) : list string := map of_bytes (split_on sep (to_bytes s)).
Definition Join (ss : list string) (sep : string) : string := String.concat sep ss.

(** ** Numbers in text *)

Fixpoint parse_digits (l : bytes) (acc : Z) : option Z :=
  match l with
  | [] => Some acc
  | c :: l => if (48 <=? c) && (c <=? 57) then parse_digits l (acc * 10 + (c - 48)) else None
  end.

(** [strconv.ParseUint(s, 10, bits)] *)
Definition ParseUint (s : string) (bits : Z) : res Z :=
  match to_bytes s with
  | [] => Err (Errorf "strconv.ParseUint" [])
  | l => match parse_digits l 0 with
         | Some v => if v <? 2 ^ bits then Ok v else Err (Errorf "strconv.ParseUint" [])
         | None => Err (Errorf "strconv.ParseUint" [])
         end
  end.

Fixpoint format_digits (fuel : nat) (n : Z) : bytes :=
  match fuel with
  | O => []
  | S fuel => (if n <? 10 then [] else format_digits fuel (n / 10)) ++ [48 + n mod 10]
  end.

(** [strconv.FormatUint(n, 10)] and [strconv.Itoa(n)] for an unsigned 64-bit [n];
    2^64 has 20 digits. *)
Definition FormatUint (n : Z) : string := of_bytes (format_digits 20 n).

(** ** The text format *)

Record KeyValue := KV { kv_Key : string; kv_Value : string }.

Definition EncodeTextKV (pairs : list KeyValue) : bytes :=
  concat (map (fun p => to_bytes (kv_Key p) ++ [61] ++ to_bytes (kv_Value p) ++ [0]) pairs).

Definition decodeSegment (seg : bytes) : option KeyValue :=
  match seg with
  | [] => None
  | _ => let '(key, value, _) := cut 61 seg in Some (KV (of_bytes key) (of_bytes value))
  end.

Definition DecodeTextKV (data : bytes) : list KeyValue := omap decodeSegment (split_on 0 data).

#[export] Instance KeyValue_eq_dec : EqDecision KeyValue.
Proof. solve_decision. Defined.

(** [kvToMap] of login.go: the last pair with a key wins. *)
Definition kvToMap (pairs : list KeyValue) : gmap string string :=
  fold_left (fun m p => <[kv_Key p := kv_Value p]> m) pairs ∅.

(** What the format can carry *)
Definition text_safe (p : KeyValue) : Prop :=
  (0 ∉ to_bytes (kv_Key p)) /\ (61 ∉ to_bytes (kv_Key p)) /\ (0 ∉ to_bytes (kv_Value p)).

(** ** Lemmas *)

Lemma byte_of_ascii_of_byte z : u8 z -> byte_of_ascii (ascii_of_byte z) = z.
Proof.
  intros Hz. unfold byte_of_ascii, ascii_of_byte. rewrite N_ascii_embedding.
  - unfold in_width in Hz. lia.
  - unfold in_width in Hz. change (2 ^ 8) with 256 in Hz. lia.
Qed.

Lemma ascii_of_byte_of_ascii a : ascii_of_byte (byte_of_ascii a) = a.
Proof. unfold byte_of_ascii, ascii_of_byte. rewrite N2Z.id. apply ascii_N_embedding. Qed.

Lemma byte_of_ascii_width a : u8 (byte_of_ascii a).
Proof.
  unfold byte_of_ascii, in_width. pose proof (N_ascii_bounded a). change (2 ^ 8) with 256. lia.
Qed.

Lemma to_bytes_ok s : bytes_ok (to_bytes s).
Proof. apply Forall_fmap, Forall_true. intros a. apply byte_of_ascii_width. Qed.

Lemma of_to_bytes s : of_bytes (to_bytes s) = s.
Proof.
  unfold of_bytes, to_bytes. rewrite map_map, (map_ext _ id) by apply ascii_of_byte_of_ascii.
  by rewrite map_id, String.string_of_list_ascii_of_string.
Qed.

Lemma to_of_bytes l : bytes_ok l -> to_bytes (of_bytes l) = l.
Proof.
  intros Hl. unfold of_bytes, to_bytes. rewrite String.list_ascii_of_string_of_list_ascii, map_map.
  induction Hl as [|b l Hb Hl IH]; [done|]. simpl. by rewrite byte_of_ascii_of_byte, IH.
Qed.

Lemma split_on_nonempty sep l : split_on sep l <> [].
Proof. destruct l as [|b l]; [done|]. simpl. case_match; [done|]. by case_match. Qed.

Lemma split_on_app sep l l' : sep ∉ l -> split_on sep (l ++ sep :: l') = l :: split_on sep l'.
Proof.
  induction l as [|b l IH]; intros H; simpl; [by rewrite Z.eqb_refl|].
  apply not_elem_of_cons in H as [Hb H]. rewrite (proj2 (Z.eqb_neq b sep)) by congruence.
  by rewrite IH.
Qed.

Lemma cut_app sep l l' : sep ∉ l -> cut sep (l ++ sep :: l') = (l, l', true).
Proof.
  induction l as [|b l IH]; intros H; simpl; [by rewrite Z.eqb_refl|].
  apply not_elem_of_cons in H as [Hb H]. rewrite (proj2 (Z.eqb_neq b sep)) by congruence.
  by rewrite IH.
Qed.

Lemma decodeSegment_pair p : text_safe p ->
  decodeSegment (to_bytes (kv_Key p) ++ 61 :: to_bytes (kv_Value p)) = Some p.
Proof.
  intros (_ & He & _). unfold decodeSegment. rewrite cut_app, !of_to_bytes by done.
  destruct p as [k v]. simpl. by destruct (to_bytes k).
Qed.

Lemma split_on_pair p l : text_safe p ->
  split_on 0 (to_bytes (kv_Key p) ++ [61] ++ to_bytes (kv_Value p) ++ [0] ++ l) =
  (to_bytes (kv_Key p) ++ 61 :: to_bytes (kv_Value p)) :: split_on 0 l.
Proof.
  intros (Hk & _ & Hv). simpl.
  rewrite app_comm_cons, app_assoc, split_on_app; [done|].
  rewrite not_elem_of_app, not_elem_of_cons. done.
Qed.

(** Text that follows an encoding, for instance the zero padding of a PDU *)
Lemma DecodeTextKV_app pairs l : Forall text_safe pairs ->
  DecodeTextKV (EncodeTextKV pairs ++ l) = pairs ++ DecodeTextKV l.
Proof.
  induction 1 as [|p pairs Hp Hpairs IH]; [done|].
  unfold DecodeTextKV, EncodeTextKV in *. cbn [map concat].
  rewrite <- !app_assoc, split_on_pair by done.
  cbn [app]. rewrite <- IH. unfold omap. cbn [list_omap]. by rewrite decodeSegment_pair.
Qed.

Lemma DecodeTextKV_zeros n : DecodeTextKV (zeros n) = [].
Proof. unfold DecodeTextKV, zeros. induction n as [|n IH]; [done|exact IH]. Qed.

Lemma EncodeTextKV_ok pairs : bytes_ok (EncodeTextKV pairs).
Proof.
  unfold EncodeTextKV. induction pairs as [|p pairs IH]; [constructor|]. simpl.
  apply Forall_app_2; [|done]. apply Forall_app_2; [apply to_bytes_ok|].
  constructor; [by vm_compute|]. apply Forall_app_2; [apply to_bytes_ok|].
  constructor; [by vm_compute|constructor].
Qed.

(** ** Numbers *)

Lemma parse_digits_app l l' acc :
  parse_digits (l ++ l') acc = (a ← parse_digits l acc; parse_digits l' a).
Proof. revert acc. induction l as [|c l IH]; intros acc; simpl; [done|]. case_match; [apply IH|done]. Qed.

Lemma parse_format_digits fuel n : 0 <= n < 10 ^ Z.of_nat fuel ->
  parse_digits (format_digits fuel n) 0 = Some n.
Proof.
  revert n. induction fuel as [|fuel IH]; intros n Hn; [simpl in *; f_equal; lia|].
  cbn [format_digits]. rewrite parse_digits_app.
  pose proof (Z.mod_pos_bound n 10 ltac:(lia)) as Hm.
  assert (Hlast : forall a, parse_digits [48 + n mod 10] a = Some (a * 10 + n mod 10)).
  { intros a. cbn [parse_digits]. rewrite (proj2 (andb_true_iff _ _)) by lia. f_equal. lia. }
  destruct (Z.ltb_spec n 10).
  - change (parse_digits [48 + n mod 10] 0 = Some n). rewrite Hlast. f_equal. rewrite Z.mod_small; lia.
  - rewrite Nat2Z.inj_succ, Z.pow_succ_r in Hn by lia.
    rewrite IH by (Z.to_euclidean_division_equations; lia).
    change (parse_digits [48 + n mod 10] (n / 10) = Some n). rewrite Hlast. f_equal.
    pose proof (Z.div_mod n 10). lia.
Qed.

Lemma format_digits_ok fuel n : bytes_ok (format_digits fuel n).
Proof.
  revert n. induction fuel as [|fuel IH]; intros n; cbn [format_digits]; [constructor|].
  apply Forall_app_2; [case_match; [constructor|apply IH]|]. constructor; [|constructor].
  pose proof (Z.mod_pos_bound n 10). unfold in_width. lia.
Qed.

Lemma format_digits_nonempty fuel n : format_digits (S fuel) n <> [].
Proof. cbn [format_digits]. by destruct (if n <? 10 then _ else _). Qed.

Lemma ParseUint_FormatUint n bits : 0 <= n < 2 ^ 64 -> n < 2 ^ bits ->
  ParseUint (FormatUint n) bits = Ok n.
Proof.
  intros Hn Hb. unfold ParseUint, FormatUint.
  rewrite to_of_bytes by apply format_digits_ok.
  assert (Hp : parse_digits (format_digits 20 n) 0 = Some n).
  { apply parse_format_digits. split; [lia|]. eapply Z.lt_trans; [apply Hn|]. by vm_compute. }
  pose proof (format_digits_nonempty 19 n) as Hne.
  destruct (format_digits 20 n) as [|c l]; [done|].
  rewrite Hp, (proj2 (Z.ltb_lt _ _)) by done. done.
Qed.

Lemma length_format_digits fuel n : (length (format_digits fuel n) <= fuel)%nat.
Proof.
  revert n. induction fuel as [|fuel IH]; intros n; cbn [format_digits]; [done|].
  rewrite length_app. specialize (IH (n / 10)). destruct (n <? 10); simpl; lia.
Qed.

Lemma format_digits_plain fuel n : 0 ∉ format_digits fuel n.
Proof.
  revert n. induction fuel as [|fuel IH]; intros n; cbn [format_digits]; [apply not_elem_of_nil|].
  rewrite not_elem_of_app, not_elem_of_cons. pose proof (Z.mod_pos_bound n 10).
  split; [destruct (n <? 10); [apply not_elem_of_nil|apply IH]|]. split; [lia|apply not_elem_of_nil].
Qed.

(** A number is short text without NUL. *)
Lemma FormatUint_plain n : (0 ∉ to_bytes (FormatUint n)) /\ (length (to_bytes (FormatUint n)) <= 20)%nat.
Proof.
  unfold FormatUint. rewrite to_of_bytes by apply format_digits_ok.
  split; [apply format_digits_plain|apply length_format_digits].
Qed.

Lemma ParseUint_range s bits v : ParseUint s bits = Ok v -> 0 <= v < 2 ^ bits.
Proof.
  unfold ParseUint. destruct (to_bytes s) as [|b l]; [done|].
  assert (H : forall l acc v, 0 <= acc -> parse_digits l acc = Some v -> 0 <= v).
  { clear. induction l as [|c l IH]; intros acc v Ha H; simpl in H; [by injection H as <-|].
    destruct ((48 <=? c) && (c <=? 57)) eqn:Hc; [|done].
    eapply IH; [|exact H]. lia. }
  destruct (parse_digits _ _) as [v'|] eqn:E; [|done].
  destruct (Z.ltb_spec v' (2 ^ bits)); [|done]. intros [= <-]. split; [by eapply H|done].
Qed.

(** ** Properties *)

(** The text format: decoding what was encoded gives back the pairs, in
    order, also when the segment is followed by any number of zero padding
    bytes; this needs keys without '=' and no NUL byte in keys or values. *)
Theorem DecodeTextKV_EncodeTextKV (pairs : list KeyValue) (n : nat) :
  Forall text_safe pairs ->
  DecodeTextKV (EncodeTextKV pairs ++ zeros n) = pairs.
Proof. intros H. by rewrite DecodeTextKV_app, DecodeTextKV_zeros, app_nil_r. Qed.

Lemma DecodeTextKV_EncodeTextKV_witness :
  let ps := [KV "AuthMethod" "CHAP,None"; KV "TargetName" ""; KV "X" "a=b"]%string in
  DecodeTextKV (EncodeTextKV ps ++ zeros 3) = ps.
Proof.
  apply (DecodeTextKV_EncodeTextKV [KV "AuthMethod" "CHAP,None"; KV "TargetName" ""; KV "X" "a=b"]%string 3).
  unfold text_safe. by apply (bool_decide_unpack _); vm_compute.
Defined.
