(* ===== verification/Negotiation.v ===== *)
(** Operational parameter negotiation ([src/internal/login/negotiation.go],
    [params.go]): the key registry, how one key is resolved, and how the resolved
    values become [NegotiatedParams]. *)
From S2P Require Import Prelude Errors Text.
#[local] Open Scope string_scope.
#[local] Open Scope Z_scope.

(** ** NegotiatedParams *)

Record NegotiatedParams := mkParams {
  np_HeaderDigest : bool;
  np_DataDigest : bool;
  np_MaxConnections : Z;
  np_InitialR2T : bool;
  np_ImmediateData : bool;
  np_MaxRecvDataSegmentLength : Z;
  np_MaxBurstLength : Z;
  np_FirstBurstLength : Z;
  np_DefaultTime2Wait : Z;
  np_DefaultTime2Retain : Z;
  np_MaxOutstandingR2T : Z;
  np_DataPDUInOrder : bool;
  np_DataSequenceInOrder : bool;
  np_ErrorRecoveryLevel : Z;
  np_TargetName : string;
  np_TSIH : Z;
  np_ISID : bytes;
  np_CmdSN : Z;
  np_ExpStatSN : Z;
}.

(** [Defaults()] *)
Definition Defaults : NegotiatedParams :=
  {| np_HeaderDigest := false; np_DataDigest := false; np_MaxConnections := 1;
     np_InitialR2T := true; np_ImmediateData := true; np_MaxRecvDataSegmentLength := 8192;
     np_MaxBurstLength := 262144; np_FirstBurstLength := 65536; np_DefaultTime2Wait := 2;
     np_DefaultTime2Retain := 20; np_MaxOutstandingR2T := 1; np_DataPDUInOrder := true;
     np_DataSequenceInOrder := true; np_ErrorRecoveryLevel := 0; np_TargetName := "";
     np_TSIH := 0; np_ISID := zeros 6; np_CmdSN := 1; np_ExpStatSN := 0 |}.

(** [&NegotiatedParams{}] *)
Definition Params0 : NegotiatedParams :=
  mkParams false false 0 false false 0 0 0 0 0 0 false false 0 "" 0 (zeros 6) 0 0.

(** The assignments [params.X = v] *)
Definition set_HeaderDigest (v : bool) (p : NegotiatedParams) : NegotiatedParams :=
  mkParams v (np_DataDigest p) (np_MaxConnections p) (np_InitialR2T p) (np_ImmediateData
    p) (np_MaxRecvDataSegmentLength p) (np_MaxBurstLength p) (np_FirstBurstLength p)
    (np_DefaultTime2Wait p) (np_DefaultTime2Retain p) (np_MaxOutstandingR2T p)
    (np_DataPDUInOrder p) (np_DataSequenceInOrder p) (np_ErrorRecoveryLevel p)
    (np_TargetName p) (np_TSIH p) (np_ISID p) (np_CmdSN p) (np_ExpStatSN p).
Definition set_DataDigest (v : bool) (p : NegotiatedParams) : NegotiatedParams :=
  mkParams (np_HeaderDigest p) v (np_MaxConnections p) (np_InitialR2T p)
    (np_ImmediateData p) (np_MaxRecvDataSegmentLength p) (np_MaxBurstLength p)
    (np_FirstBurstLength p) (np_DefaultTime2Wait p) (np_DefaultTime2Retain p)
    (np_MaxOutstandingR2T p) (np_DataPDUInOrder p) (np_DataSequenceInOrder p)
    (np_ErrorRecoveryLevel p) (np_TargetName p) (np_TSIH p) (np_ISID p) (np_CmdSN p)
    (np_ExpStatSN p).
Definition set_MaxConnections (v : Z) (p : NegotiatedParams) : NegotiatedParams :=
  mkParams (np_HeaderDigest p) (np_DataDigest p) v (np_InitialR2T p) (np_ImmediateData
    p) (np_MaxRecvDataSegmentLength p) (np_MaxBurstLength p) (np_FirstBurstLength p)
    (np_DefaultTime2Wait p) (np_DefaultTime2Retain p) (np_MaxOutstandingR2T p)
    (np_DataPDUInOrder p) (np_DataSequenceInOrder p) (np_ErrorRecoveryLevel p)
    (np_TargetName p) (np_TSIH p) (np_ISID p) (np_CmdSN p) (np_ExpStatSN p).
Definition set_InitialR2T (v : bool) (p : NegotiatedParams) : NegotiatedParams :=
  mkParams (np_HeaderDigest p) (np_DataDigest p) (np_MaxConnections p) v
    (np_ImmediateData p) (np_MaxRecvDataSegmentLength p) (np_MaxBurstLength p)
    (np_FirstBurstLength p) (np_DefaultTime2Wait p) (np_DefaultTime2Retain p)
    (np_MaxOutstandingR2T p) (np_DataPDUInOrder p) (np_DataSequenceInOrder p)
    (np_ErrorRecoveryLevel p) (np_TargetName p) (np_TSIH p) (np_ISID p) (np_CmdSN p)
    (np_ExpStatSN p).
Definition set_ImmediateData (v : bool) (p : NegotiatedParams) : NegotiatedParams :=
  mkParams (np_HeaderDigest p) (np_DataDigest p) (np_MaxConnections p) (np_InitialR2T p)
    v (np_MaxRecvDataSegmentLength p) (np_MaxBurstLength p) (np_FirstBurstLength p)
    (np_DefaultTime2Wait p) (np_DefaultTime2Retain p) (np_MaxOutstandingR2T p)
    (np_DataPDUInOrder p) (np_DataSequenceInOrder p) (np_ErrorRecoveryLevel p)
    (np_TargetName p) (np_TSIH p) (np_ISID p) (np_CmdSN p) (np_ExpStatSN p).
Definition set_MaxRecvDataSegmentLength (v : Z) (p : NegotiatedParams) : NegotiatedParams :=
  mkParams (np_HeaderDigest p) (np_DataDigest p) (np_MaxConnections p) (np_InitialR2T p)
    (np_ImmediateData p) v (np_MaxBurstLength p) (np_FirstBurstLength p)
    (np_DefaultTime2Wait p) (np_DefaultTime2Retain p) (np_MaxOutstandingR2T p)
    (np_DataPDUInOrder p) (np_DataSequenceInOrder p) (np_ErrorRecoveryLevel p)
    (np_TargetName p) (np_TSIH p) (np_ISID p) (np_CmdSN p) (np_ExpStatSN p).
Definition set_MaxBurstLength (v : Z) (p : NegotiatedParams) : NegotiatedParams :=
  mkParams (np_HeaderDigest p) (np_DataDigest p) (np_MaxConnections p) (np_InitialR2T p)
    (np_ImmediateData p) (np_MaxRecvDataSegmentLength p) v (np_FirstBurstLength p)
    (np_DefaultTime2Wait p) (np_DefaultTime2Retain p) (np_MaxOutstandingR2T p)
    (np_DataPDUInOrder p) (np_DataSequenceInOrder p) (np_ErrorRecoveryLevel p)
    (np_TargetName p) (np_TSIH p) (np_ISID p) (np_CmdSN p) (np_ExpStatSN p).
Definition set_FirstBurstLength (v : Z) (p : NegotiatedParams) : NegotiatedParams :=
  mkParams (np_HeaderDigest p) (np_DataDigest p) (np_MaxConnections p) (np_InitialR2T p)
    (np_ImmediateData p) (np_MaxRecvDataSegmentLength p) (np_MaxBurstLength p) v
    (np_DefaultTime2Wait p) (np_DefaultTime2Retain p) (np_MaxOutstandingR2T p)
    (np_DataPDUInOrder p) (np_DataSequenceInOrder p) (np_ErrorRecoveryLevel p)
    (np_TargetName p) (np_TSIH p) (np_ISID p) (np_CmdSN p) (np_ExpStatSN p).
Definition set_DefaultTime2Wait (v : Z) (p : NegotiatedParams) : NegotiatedParams :=
  mkParams (np_HeaderDigest p) (np_DataDigest p) (np_MaxConnections p) (np_InitialR2T p)
    (np_ImmediateData p) (np_MaxRecvDataSegmentLength p) (np_MaxBurstLength p)
    (np_FirstBurstLength p) v (np_DefaultTime2Retain p) (np_MaxOutstandingR2T p)
    (np_DataPDUInOrder p) (np_DataSequenceInOrder p) (np_ErrorRecoveryLevel p)
    (np_TargetName p) (np_TSIH p) (np_ISID p) (np_CmdSN p) (np_ExpStatSN p).
Definition set_DefaultTime2Retain (v : Z) (p : NegotiatedParams) : NegotiatedParams :=
  mkParams (np_HeaderDigest p) (np_DataDigest p) (np_MaxConnections p) (np_InitialR2T p)
    (np_ImmediateData p) (np_MaxRecvDataSegmentLength p) (np_MaxBurstLength p)
    (np_FirstBurstLength p) (np_DefaultTime2Wait p) v (np_MaxOutstandingR2T p)
    (np_DataPDUInOrder p) (np_DataSequenceInOrder p) (np_ErrorRecoveryLevel p)
    (np_TargetName p) (np_TSIH p) (np_ISID p) (np_CmdSN p) (np_ExpStatSN p).
Definition set_MaxOutstandingR2T (v : Z) (p : NegotiatedParams) : NegotiatedParams :=
  mkParams (np_HeaderDigest p) (np_DataDigest p) (np_MaxConnections p) (np_InitialR2T p)
    (np_ImmediateData p) (np_MaxRecvDataSegmentLength p) (np_MaxBurstLength p)
    (np_FirstBurstLength p) (np_DefaultTime2Wait p) (np_DefaultTime2Retain p) v
    (np_DataPDUInOrder p) (np_DataSequenceInOrder p) (np_ErrorRecoveryLevel p)
    (np_TargetName p) (np_TSIH p) (np_ISID p) (np_CmdSN p) (np_ExpStatSN p).
Definition set_DataPDUInOrder (v : bool) (p : NegotiatedParams) : NegotiatedParams :=
  mkParams (np_HeaderDigest p) (np_DataDigest p) (np_MaxConnections p) (np_InitialR2T p)
    (np_ImmediateData p) (np_MaxRecvDataSegmentLength p) (np_MaxBurstLength p)
    (np_FirstBurstLength p) (np_DefaultTime2Wait p) (np_DefaultTime2Retain p)
    (np_MaxOutstandingR2T p) v (np_DataSequenceInOrder p) (np_ErrorRecoveryLevel p)
    (np_TargetName p) (np_TSIH p) (np_ISID p) (np_CmdSN p) (np_ExpStatSN p).
Definition set_DataSequenceInOrder (v : bool) (p : NegotiatedParams) : NegotiatedParams :=
  mkParams (np_HeaderDigest p) (np_DataDigest p) (np_MaxConnections p) (np_InitialR2T p)
    (np_ImmediateData p) (np_MaxRecvDataSegmentLength p) (np_MaxBurstLength p)
    (np_FirstBurstLength p) (np_DefaultTime2Wait p) (np_DefaultTime2Retain p)
    (np_MaxOutstandingR2T p) (np_DataPDUInOrder p) v (np_ErrorRecoveryLevel p)
    (np_TargetName p) (np_TSIH p) (np_ISID p) (np_CmdSN p) (np_ExpStatSN p).
Definition set_ErrorRecoveryLevel (v : Z) (p : NegotiatedParams) : NegotiatedParams :=
  mkParams (np_HeaderDigest p) (np_DataDigest p) (np_MaxConnections p) (np_InitialR2T p)
    (np_ImmediateData p) (np_MaxRecvDataSegmentLength p) (np_MaxBurstLength p)
    (np_FirstBurstLength p) (np_DefaultTime2Wait p) (np_DefaultTime2Retain p)
    (np_MaxOutstandingR2T p) (np_DataPDUInOrder p) (np_DataSequenceInOrder p) v
    (np_TargetName p) (np_TSIH p) (np_ISID p) (np_CmdSN p) (np_ExpStatSN p).
Definition set_TargetName (v : string) (p : NegotiatedParams) : NegotiatedParams :=
  mkParams (np_HeaderDigest p) (np_DataDigest p) (np_MaxConnections p) (np_InitialR2T p)
    (np_ImmediateData p) (np_MaxRecvDataSegmentLength p) (np_MaxBurstLength p)
    (np_FirstBurstLength p) (np_DefaultTime2Wait p) (np_DefaultTime2Retain p)
    (np_MaxOutstandingR2T p) (np_DataPDUInOrder p) (np_DataSequenceInOrder p)
    (np_ErrorRecoveryLevel p) v (np_TSIH p) (np_ISID p) (np_CmdSN p) (np_ExpStatSN p).
Definition set_TSIH (v : Z) (p : NegotiatedParams) : NegotiatedParams :=
  mkParams (np_HeaderDigest p) (np_DataDigest p) (np_MaxConnections p) (np_InitialR2T p)
    (np_ImmediateData p) (np_MaxRecvDataSegmentLength p) (np_MaxBurstLength p)
    (np_FirstBurstLength p) (np_DefaultTime2Wait p) (np_DefaultTime2Retain p)
    (np_MaxOutstandingR2T p) (np_DataPDUInOrder p) (np_DataSequenceInOrder p)
    (np_ErrorRecoveryLevel p) (np_TargetName p) v (np_ISID p) (np_CmdSN p) (np_ExpStatSN
    p).
Definition set_ISID (v : bytes) (p : NegotiatedParams) : NegotiatedParams :=
  mkParams (np_HeaderDigest p) (np_DataDigest p) (np_MaxConnections p) (np_InitialR2T p)
    (np_ImmediateData p) (np_MaxRecvDataSegmentLength p) (np_MaxBurstLength p)
    (np_FirstBurstLength p) (np_DefaultTime2Wait p) (np_DefaultTime2Retain p)
    (np_MaxOutstandingR2T p) (np_DataPDUInOrder p) (np_DataSequenceInOrder p)
    (np_ErrorRecoveryLevel p) (np_TargetName p) (np_TSIH p) v (np_CmdSN p) (np_ExpStatSN
    p).
Definition set_CmdSN (v : Z) (p : NegotiatedParams) : NegotiatedParams :=
  mkParams (np_HeaderDigest p) (np_DataDigest p) (np_MaxConnections p) (np_InitialR2T p)
    (np_ImmediateData p) (np_MaxRecvDataSegmentLength p) (np_MaxBurstLength p)
    (np_FirstBurstLength p) (np_DefaultTime2Wait p) (np_DefaultTime2Retain p)
    (np_MaxOutstandingR2T p) (np_DataPDUInOrder p) (np_DataSequenceInOrder p)
    (np_ErrorRecoveryLevel p) (np_TargetName p) (np_TSIH p) (np_ISID p) v (np_ExpStatSN p).
Definition set_ExpStatSN (v : Z) (p : NegotiatedParams) : NegotiatedParams :=
  mkParams (np_HeaderDigest p) (np_DataDigest p) (np_MaxConnections p) (np_InitialR2T p)
    (np_ImmediateData p) (np_MaxRecvDataSegmentLength p) (np_MaxBurstLength p)
    (np_FirstBurstLength p) (np_DefaultTime2Wait p) (np_DefaultTime2Retain p)
    (np_MaxOutstandingR2T p) (np_DataPDUInOrder p) (np_DataSequenceInOrder p)
    (np_ErrorRecoveryLevel p) (np_TargetName p) (np_TSIH p) (np_ISID p) (np_CmdSN p) v.

(** ** The key registry *)

Inductive NegotiationType :=
  ListSelect | BooleanAnd | BooleanOr | NumericalMin | NumericalMax | Declarative.

#[export] Instance NegotiationType_eq_dec : EqDecision NegotiationType.
Proof. solve_decision. Defined.

(** [RFCRef] is documentation and left out. *)
Record KeyDef := mkKeyDef {
  kd_Name : string;
  kd_Type : NegotiationType;
  kd_Default : string;
  kd_Min : Z;
  kd_Max : Z;
}.

#[export] Instance KeyDef_eq_dec : EqDecision KeyDef.
Proof. solve_decision. Defined.

Definition keyRegistry : list KeyDef :=
  [ mkKeyDef "HeaderDigest" ListSelect "None" 0 0;
    mkKeyDef "DataDigest" ListSelect "None" 0 0;
    mkKeyDef "MaxConnections" NumericalMin "1" 1 65535;
    mkKeyDef "InitialR2T" BooleanOr "Yes" 0 0;
    mkKeyDef "ImmediateData" BooleanAnd "Yes" 0 0;
    mkKeyDef "MaxRecvDataSegmentLength" Declarative "8192" 512 16777215;
    mkKeyDef "MaxBurstLength" NumericalMin "262144" 512 16777215;
    mkKeyDef "FirstBurstLength" NumericalMin "65536" 512 16777215;
    mkKeyDef "DefaultTime2Wait" NumericalMin "2" 0 3600;
    mkKeyDef "DefaultTime2Retain" NumericalMin "20" 0 3600;
    mkKeyDef "MaxOutstandingR2T" NumericalMin "1" 1 65535;
    mkKeyDef "DataPDUInOrder" BooleanOr "Yes" 0 0;
    mkKeyDef "DataSequenceInOrder" BooleanOr "Yes" 0 0;
    mkKeyDef "ErrorRecoveryLevel" NumericalMin "0" 0 2 ].

Definition findKeyDef (name : string) : option KeyDef :=
  List.find (fun def => String.eqb (kd_Name def) name) keyRegistry.

(** ** Resolving one key *)

Definition clampValue (v : Z) (def : KeyDef) : Z :=
  if (kd_Min def =? 0) && (kd_Max def =? 0) then v
  else if v <? kd_Min def then kd_Min def
  else if (kd_Max def >? 0) && (v >? kd_Max def) then kd_Max def
  else v.

(** [strconv.ParseUint] with the error wrapped *)
Definition parseValue (what : string) (s : string) : res Z :=
  match ParseUint s 32 with
  | Ok v => Ok v
  | Err e => Err (Wrapf what [] e)
  end.

Definition errInvalidInitiator := "negotiation %s: invalid initiator value %q: %w".
Definition errInvalidTarget := "negotiation %s: invalid target value %q: %w".

(** The nested loops of the [ListSelect] case: the first of the target's items
    that is among the initiator's *)
Definition listSelect (initiatorItems targetItems : list string) : option string :=
  List.find (fun ti => existsb (fun ii => String.eqb (TrimSpace ii) ti) initiatorItems)
    (map TrimSpace targetItems).

Definition resolveKey (def : KeyDef) (initiatorValue targetValue : string) : res string :=
  match kd_Type def with
  | BooleanAnd =>
      if String.eqb initiatorValue "Yes" && String.eqb targetValue "Yes" then Ok "Yes" else Ok "No"
  | BooleanOr =>
      if String.eqb initiatorValue "Yes" || String.eqb targetValue "Yes" then Ok "Yes" else Ok "No"
  | NumericalMin =>
      iv ← parseValue errInvalidInitiator initiatorValue;
      tv ← parseValue errInvalidTarget targetValue;
      let result := iv in
      let result := if tv <? iv then tv else result in
      let result := clampValue result def in
      Ok (FormatUint result)
  | NumericalMax =>
      iv ← parseValue errInvalidInitiator initiatorValue;
      tv ← parseValue errInvalidTarget targetValue;
      let result := iv in
      let result := if tv >? iv then tv else result in
      let result := clampValue result def in
      Ok (FormatUint result)
  | ListSelect =>
      match listSelect (Split 44 initiatorValue) (Split 44 targetValue) with
      | Some ti => Ok ti
      | None => Err (Errorf "negotiation %s: no overlap between %q and %q" [])
      end
  | Declarative =>
      tv ← parseValue errInvalidTarget targetValue;
      let tv := clampValue tv def in
      Ok (FormatUint tv)
  end.

(** ** Applying the resolved keys *)

Definition parseUint32 (s : string) : Z :=
  match ParseUint s 32 with Ok v => v | Err _ => 0 end.

(** One iteration of the loop of [applyNegotiatedKeys] *)
Definition applyKey (p : NegotiatedParams) (kv : KeyValue) : NegotiatedParams :=
  let k := kv_Key kv in
  let v := kv_Value kv in
  if String.eqb k "HeaderDigest" then set_HeaderDigest (String.eqb v "CRC32C") p else
  if String.eqb k "DataDigest" then set_DataDigest (String.eqb v "CRC32C") p else
  if String.eqb k "MaxConnections" then set_MaxConnections (parseUint32 v) p else
  if String.eqb k "InitialR2T" then set_InitialR2T (String.eqb v "Yes") p else
  if String.eqb k "ImmediateData" then set_ImmediateData (String.eqb v "Yes") p else
  if String.eqb k "MaxRecvDataSegmentLength" then set_MaxRecvDataSegmentLength (parseUint32 v) p else
  if String.eqb k "MaxBurstLength" then set_MaxBurstLength (parseUint32 v) p else
  if String.eqb k "FirstBurstLength" then set_FirstBurstLength (parseUint32 v) p else
  if String.eqb k "DefaultTime2Wait" then set_DefaultTime2Wait (parseUint32 v) p else
  if String.eqb k "DefaultTime2Retain" then set_DefaultTime2Retain (parseUint32 v) p else
  if String.eqb k "MaxOutstandingR2T" then set_MaxOutstandingR2T (parseUint32 v) p else
  if String.eqb k "DataPDUInOrder" then set_DataPDUInOrder (String.eqb v "Yes") p else
  if String.eqb k "DataSequenceInOrder" then set_DataSequenceInOrder (String.eqb v "Yes") p else
  if String.eqb k "ErrorRecoveryLevel" then set_ErrorRecoveryLevel (parseUint32 v) p else
  p.

Definition applyNegotiatedKeys (params : NegotiatedParams) (keys : list KeyValue) : NegotiatedParams :=
  let params := fold_left applyKey keys params in
  if np_FirstBurstLength params >? np_MaxBurstLength params
  then set_FirstBurstLength (np_MaxBurstLength params) params
  else params.

(** ** Specification *)

(** A parameter by its key name, and the value a text denotes for a key *)
Inductive param_value := VBool (b : bool) | VNum (n : Z).

Definition np_get (k : string) (p : NegotiatedParams) : option param_value :=
  if String.eqb k "HeaderDigest" then Some (VBool (np_HeaderDigest p)) else
  if String.eqb k "DataDigest" then Some (VBool (np_DataDigest p)) else
  if String.eqb k "MaxConnections" then Some (VNum (np_MaxConnections p)) else
  if String.eqb k "InitialR2T" then Some (VBool (np_InitialR2T p)) else
  if String.eqb k "ImmediateData" then Some (VBool (np_ImmediateData p)) else
  if String.eqb k "MaxRecvDataSegmentLength" then Some (VNum (np_MaxRecvDataSegmentLength p)) else
  if String.eqb k "MaxBurstLength" then Some (VNum (np_MaxBurstLength p)) else
  if String.eqb k "FirstBurstLength" then Some (VNum (np_FirstBurstLength p)) else
  if String.eqb k "DefaultTime2Wait" then Some (VNum (np_DefaultTime2Wait p)) else
  if String.eqb k "DefaultTime2Retain" then Some (VNum (np_DefaultTime2Retain p)) else
  if String.eqb k "MaxOutstandingR2T" then Some (VNum (np_MaxOutstandingR2T p)) else
  if String.eqb k "DataPDUInOrder" then Some (VBool (np_DataPDUInOrder p)) else
  if String.eqb k "DataSequenceInOrder" then Some (VBool (np_DataSequenceInOrder p)) else
  if String.eqb k "ErrorRecoveryLevel" then Some (VNum (np_ErrorRecoveryLevel p)) else
  None.

Definition denotes (def : KeyDef) (v : string) : param_value :=
  match kd_Type def with
  | ListSelect => VBool (String.eqb v "CRC32C")
  | BooleanAnd | BooleanOr => VBool (String.eqb v "Yes")
  | NumericalMin | NumericalMax | Declarative => VNum (parseUint32 v)
  end.

(** RFC 7143 Section 6.2: what the two sides agree on for a key, given the texts of
    the initiator's proposal and the target's answer *)
Definition in_range (def : KeyDef) (v : Z) : Z := Z.max (kd_Min def) (Z.min (kd_Max def) v).

Definition agreed (def : KeyDef) (offer answer : string) : option param_value :=
  match kd_Type def, ParseUint offer 32, ParseUint answer 32 with
  | BooleanAnd, _, _ => Some (VBool (String.eqb offer "Yes" && String.eqb answer "Yes"))
  | BooleanOr, _, _ => Some (VBool (String.eqb offer "Yes" || String.eqb answer "Yes"))
  | NumericalMin, Ok i, Ok t => Some (VNum (in_range def (Z.min i t)))
  | NumericalMax, Ok i, Ok t => Some (VNum (in_range def (Z.max i t)))
  | Declarative, _, Ok t => Some (VNum (in_range def t))
  | ListSelect, _, _ =>
      s ← head (filter (fun s => s ∈ map TrimSpace (Split 44 offer)) (map TrimSpace (Split 44 answer)));
      Some (VBool (String.eqb s "CRC32C"))
  | _, _, _ => None
  end.

(** The type invariant of the fields the keys set *)
Definition params_ok (p : NegotiatedParams) : Prop :=
  u32 (np_MaxConnections p) /\ u32 (np_MaxRecvDataSegmentLength p) /\ u32 (np_MaxBurstLength p) /\
  u32 (np_FirstBurstLength p) /\ u32 (np_DefaultTime2Wait p) /\ u32 (np_DefaultTime2Retain p) /\
  u32 (np_MaxOutstandingR2T p) /\ u32 (np_ErrorRecoveryLevel p).

(** ** Lemmas *)

Lemma parseUint32_width s : u32 (parseUint32 s).
Proof.
  unfold parseUint32. destruct (ParseUint s 32) eqn:E; [by apply ParseUint_range in E|].
  auto with width.
Qed.

(** Compares the key with each name of the registry. *)
Ltac key_cases k :=
  repeat match goal with
  | |- context [String.eqb k ?n] => destruct (String.eqb_spec k n); [subst k|]
  end.

Lemma applyKey_ok p kv : params_ok p -> params_ok (applyKey p kv).
Proof.
  destruct kv as [k v]. pose proof (parseUint32_width v) as Hv. unfold applyKey, params_ok. simpl.
  intros (? & ? & ? & ? & ? & ? & ? & ?). key_cases k; simpl; tauto.
Qed.

Lemma applyKeys_ok keys p : params_ok p -> params_ok (fold_left applyKey keys p).
Proof. revert p. induction keys as [|kv keys IH]; intros p Hp; [done|]. by apply IH, applyKey_ok. Qed.

Lemma findKeyDef_get k def p : findKeyDef k = Some def ->
  kd_Name def = k /\ exists v, np_get k p = Some v.
Proof.
  intros H. pose proof (List.find_some _ _ H) as [_ Hn%String.eqb_eq]. split; [done|].
  revert H. unfold findKeyDef, keyRegistry, np_get. cbn [List.find kd_Name].
  rewrite <- Hn. clear Hn. set (n := kd_Name def).
  repeat match goal with |- context [String.eqb n ?m] => 
    rewrite ?(String.eqb_sym m n); destruct (String.eqb n m); [by eauto|] end.
  done.
Qed.

Lemma applyKey_get k def k' v p : findKeyDef k = Some def ->
  np_get k (applyKey p (KV k' v)) = if String.eqb k k' then Some (denotes def v) else np_get k p.
Proof.
  unfold findKeyDef, keyRegistry. cbn [List.find kd_Name].
  repeat match goal with |- context [String.eqb ?n k] =>
    destruct (String.eqb_spec n k) as [<-|]; [intros [= <-]; unfold applyKey; cbn [kv_Key kv_Value];
      key_cases k'; try reflexivity;
      match goal with H : k' <> ?n |- context [String.eqb ?n k'] =>
        by rewrite (proj2 (String.eqb_neq n k') (not_eq_sym H)) end|] end.
  done.
Qed.

Lemma applyKeys_get keys k def p0 : findKeyDef k = Some def ->
  np_get k (fold_left applyKey keys p0) =
  match kvToMap keys !! k with Some v => Some (denotes def v) | None => np_get k p0 end.
Proof.
  intros Hdef. unfold kvToMap.
  enough (forall (m : gmap string string) p,
    np_get k p = match m !! k with Some v => Some (denotes def v) | None => np_get k p0 end ->
    np_get k (fold_left applyKey keys p) =
    match fold_left (fun m p => <[kv_Key p := kv_Value p]> m) keys m !! k with
    | Some v => Some (denotes def v) | None => np_get k p0 end) as H.
  { apply H. by rewrite lookup_empty. }
  induction keys as [|[k' v] keys IH]; intros m p Hp; [done|]. simpl. apply IH.
  rewrite (applyKey_get k def) by done. destruct (String.eqb_spec k k') as [->|Hne].
  - by rewrite lookup_insert_eq.
  - by rewrite lookup_insert_ne by done.
Qed.

Lemma clampValue_range v def : kd_Min def <= kd_Max def -> 0 < kd_Max def ->
  kd_Min def <= clampValue v def <= kd_Max def.
Proof.
  intros H1 H2. unfold clampValue.
  destruct (Z.eqb_spec (kd_Min def) 0), (Z.eqb_spec (kd_Max def) 0); simpl; try lia;
    repeat case_match; lia.
Qed.

Lemma registry_bounds def : def ∈ keyRegistry ->
  0 <= kd_Min def <= kd_Max def /\ kd_Max def < 2 ^ 32 /\
  (kd_Type def = NumericalMin \/ kd_Type def = Declarative -> 0 < kd_Max def).
Proof.
  revert def. apply Forall_forall. unfold keyRegistry.
  repeat (apply Forall_cons; split; [cbn [kd_Min kd_Max kd_Type]; intuition (lia || done)|]).
  constructor.
Qed.

Lemma set_FirstBurstLength_get k v p : k <> "FirstBurstLength" ->
  np_get k (set_FirstBurstLength v p) = np_get k p.
Proof. intros Hk. unfold np_get, set_FirstBurstLength. simpl. by rewrite (proj2 (String.eqb_neq _ _) Hk). Qed.

Lemma applyNegotiatedKeys_get p keys k def : findKeyDef k = Some def -> k <> "FirstBurstLength" ->
  np_get k (applyNegotiatedKeys p keys) =
  match kvToMap keys !! k with Some v => Some (denotes def v) | None => np_get k p end.
Proof.
  intros Hd Hk. unfold applyNegotiatedKeys. case_match; [rewrite set_FirstBurstLength_get by done|];
  by apply applyKeys_get.
Qed.

Lemma applyNegotiatedKeys_burst p keys :
  let q := applyNegotiatedKeys p keys in np_FirstBurstLength q <= np_MaxBurstLength q.
Proof.
  unfold applyNegotiatedKeys. set (p1 := fold_left _ _ _).
  destruct (Z.gtb_spec (np_FirstBurstLength p1) (np_MaxBurstLength p1)); simpl; lia.
Qed.

Lemma clampValue_in_range v def : 0 < kd_Max def -> kd_Min def <= kd_Max def -> clampValue v def = in_range def v.
Proof.
  intros H1 H2. unfold clampValue, in_range. destruct (Z.eqb_spec (kd_Max def) 0); [lia|]. rewrite andb_false_r.
  destruct (Z.ltb_spec v (kd_Min def)); [lia|]. destruct (Z.gtb_spec (kd_Max def) 0), (Z.gtb_spec v (kd_Max def)); cbn; lia.
Qed.

Lemma denotes_clamped def v : def ∈ keyRegistry -> kd_Type def = NumericalMin \/ kd_Type def = Declarative ->
  denotes def (FormatUint (clampValue v def)) = VNum (in_range def v).
Proof.
  intros Hdef Hty. destruct (registry_bounds def Hdef) as (Hb & Hmax & Hpos). specialize (Hpos Hty).
  pose proof (clampValue_range v def ltac:(lia) Hpos). rewrite <- clampValue_in_range by lia.
  unfold denotes. assert (parseUint32 (FormatUint (clampValue v def)) = clampValue v def) as E.
  { unfold parseUint32. by rewrite ParseUint_FormatUint by lia. }
  destruct Hty as [-> | ->]; by rewrite E.
Qed.

Lemma registry_types def : def ∈ keyRegistry -> kd_Type def <> NumericalMax.
Proof. revert def. apply Forall_forall. by repeat constructor. Qed.

Lemma listSelect_head (offered chosen : list string) :
  listSelect offered chosen = head (filter (fun s => s ∈ map TrimSpace offered) (map TrimSpace chosen)).
Proof.
  unfold listSelect. induction (map TrimSpace chosen) as [|c l IH]; [done|]. rewrite filter_cons. cbn [List.find].
  assert (Hin : existsb (fun ii => String.eqb (TrimSpace ii) c) offered = true <-> c ∈ map TrimSpace offered).
  { rewrite List.existsb_exists, list_elem_of_fmap. setoid_rewrite String.eqb_eq. setoid_rewrite list_elem_of_In.
    split; intros (x & H1 & H2); exists x; auto. }
  destruct (existsb _ offered), (decide (c ∈ map TrimSpace offered)) as [Hc|Hc]; try done.
  - destruct Hc. by apply Hin.
  - by apply Hin in Hc.
Qed.

(** The text a key resolves to denotes what the sides agree on. *)
Lemma resolveKey_agreed def iv tv s : def ∈ keyRegistry -> resolveKey def iv tv = Ok s ->
  agreed def iv tv = Some (denotes def s).
Proof.
  intros Hdef. pose proof (denotes_clamped def) as Hnum. pose proof (registry_types def Hdef) as Hmax.
  unfold resolveKey, agreed, parseValue. destruct (kd_Type def) eqn:Ety; [| | | |done|].
  - rewrite listSelect_head. destruct (head _) as [c|]; [|done]. intros [= <-]. unfold denotes. by rewrite Ety.
  - unfold denotes. rewrite Ety. by destruct (String.eqb iv "Yes"), (String.eqb tv "Yes"); intros [= <-].
  - unfold denotes. rewrite Ety. by destruct (String.eqb iv "Yes"), (String.eqb tv "Yes"); intros [= <-].
  - destruct (ParseUint iv 32) as [i|], (ParseUint tv 32) as [t|]; try done. cbn [mbind result_bind]. cbv zeta.
    intros [= <-]. rewrite Hnum by auto. do 3 f_equal. destruct (Z.ltb_spec t i); lia.
  - destruct (ParseUint iv 32), (ParseUint tv 32) as [t|]; try done; cbn [mbind result_bind]; cbv zeta; intros [= <-]; by rewrite Hnum by auto.
Qed.

(** FirstBurstLength is its key's value, cut to MaxBurstLength. *)
Lemma applyNegotiatedKeys_first p keys (def := mkKeyDef "FirstBurstLength" NumericalMin "65536" 512 16777215) : exists f,
  match kvToMap keys !! "FirstBurstLength" with Some v => Some (denotes def v) | None => np_get "FirstBurstLength" p end
  = Some (VNum f) /\ np_FirstBurstLength (applyNegotiatedKeys p keys) = Z.min f (np_MaxBurstLength (applyNegotiatedKeys p keys)).
Proof.
  rewrite <- (applyKeys_get keys "FirstBurstLength" def p eq_refl). unfold applyNegotiatedKeys.
  set (p1 := fold_left _ _ _). exists (np_FirstBurstLength p1). split; [done|].
  destruct (Z.gtb_spec (np_FirstBurstLength p1) (np_MaxBurstLength p1)); cbn; lia.
Qed.

(** ** Properties *)

(** Numeric keys of the registry resolve exactly when the values parse as
    32-bit numbers, and then to the smaller of the two values (for the
    declarative key, to the target's) forced into the key's range, written in
    decimal; the text parses back to that number. *)
Theorem resolveKey_numeric def (iv tv : string) :
  def ∈ keyRegistry -> kd_Type def = NumericalMin \/ kd_Type def = Declarative ->
  match ParseUint iv 32, ParseUint tv 32 with
  | Ok i, Ok t =>
      let n := clampValue (if decide (kd_Type def = Declarative) then t else Z.min i t) def in
      exists s, resolveKey def iv tv = Ok s /\ ParseUint s 32 = Ok n /\ kd_Min def <= n <= kd_Max def
  | Err _, Ok t => is_Ok (resolveKey def iv tv) = bool_decide (kd_Type def = Declarative)
  | _, Err _ => is_Ok (resolveKey def iv tv) = false
  end.
Proof.
  intros Hdef Hty. destruct (registry_bounds def Hdef) as (Hb & Hmax & Hpos).
  specialize (Hpos Hty). unfold resolveKey, parseValue.
  assert (Hfmt : forall v, exists s, Ok (E:=error) (FormatUint (clampValue v def)) = Ok s /\
    ParseUint s 32 = Ok (clampValue v def) /\ kd_Min def <= clampValue v def <= kd_Max def).
  { intros v. pose proof (clampValue_range v def ltac:(lia) Hpos) as Hc.
    exists (FormatUint (clampValue v def)). split; [done|]. split; [|done].
    apply ParseUint_FormatUint; lia. }
  destruct (ParseUint iv 32) as [i|ei], (ParseUint tv 32) as [t|et];
    destruct Hty as [-> | ->]; simpl; try done.
  replace (if t <? i then t else i) with (Z.min i t); [apply Hfmt|].
  destruct (Z.ltb_spec t i); lia.
Qed.

Lemma resolveKey_numeric_witness :
  exists s, resolveKey (mkKeyDef "MaxBurstLength" NumericalMin "262144" 512 16777215) "262144" "100" = Ok s /\
            ParseUint s 32 = Ok 512 /\ 512 <= 512 <= 16777215.
Proof.
  refine (resolveKey_numeric (mkKeyDef "MaxBurstLength" NumericalMin "262144" 512 16777215)
            "262144" "100" _ _); [|by left].
  by apply (bool_decide_unpack (_ ∈ _)); vm_compute.
Defined.

(** A digest list resolves to the first of the target's choices that the
    initiator offered, and fails exactly when there is none. *)
Theorem resolveKey_list def (iv tv : string) :
  kd_Type def = ListSelect ->
  let offered := map TrimSpace (Split 44 iv) in
  let chosen := map TrimSpace (Split 44 tv) in
  match resolveKey def iv tv with
  | Ok s => exists before after, chosen = (before ++ s :: after)%list /\ s ∈ offered /\
              Forall (fun x => ~ x ∈ offered) before
  | Err _ => Forall (fun x => ~ x ∈ offered) chosen
  end.
Proof.
  intros Hty offered chosen. unfold resolveKey. rewrite Hty.
  assert (Hin : forall ti, existsb (fun ii => String.eqb (TrimSpace ii) ti) (Split 44 iv) = true
                           <-> ti ∈ offered).
  { intros ti. rewrite List.existsb_exists. unfold offered. rewrite list_elem_of_fmap.
    setoid_rewrite String.eqb_eq. setoid_rewrite list_elem_of_In.
    split; intros (x & H1 & H2); exists x; auto. }
  unfold listSelect. fold chosen. clearbody chosen.
  induction chosen as [|c cs IH]; [constructor|]. simpl.
  destruct (existsb _ _) eqn:E.
  - exists [], cs. split; [done|]. split; [by apply Hin|constructor].
  - assert (~ c ∈ offered) as Hc by (rewrite <- Hin, E; done).
    destruct (List.find _ cs).
    + destruct IH as (b & a & -> & Hs & Hb). exists (c :: b), a. by repeat constructor.
    + by constructor.
Qed.

Lemma resolveKey_list_witness :
  exists before after, ["None"; "CRC32C"] = (before ++ "CRC32C" :: after)%list /\ "CRC32C" ∈ ["CRC32C"] /\
    Forall (fun x => ~ x ∈ ["CRC32C"]) before.
Proof.
  exact (resolveKey_list (mkKeyDef "HeaderDigest" ListSelect "None" 0 0) "CRC32C" "None, CRC32C" eq_refl).
Defined.

(** After applyNegotiatedKeys the parameters are well formed, the first
    burst is no longer than the burst, and every other parameter has the value
    of the last text given for its key, or is unchanged if none was given;
    FirstBurstLength is that value cut to MaxBurstLength. *)
Theorem applyNegotiatedKeys_spec (p : NegotiatedParams) (keys : list KeyValue) :
  params_ok p ->
  let q := applyNegotiatedKeys p keys in
  let expected k def :=
    match kvToMap keys !! k with Some v => Some (denotes def v) | None => np_get k p end in
  params_ok q /\ np_FirstBurstLength q <= np_MaxBurstLength q /\
  (forall k def, findKeyDef k = Some def -> k <> "FirstBurstLength" -> np_get k q = expected k def) /\
  (forall def f, findKeyDef "FirstBurstLength" = Some def ->
     expected "FirstBurstLength" def = Some (VNum f) ->
     np_FirstBurstLength q = Z.min f (np_MaxBurstLength q)).
Proof.
  intros Hp q expected. pose proof (applyKeys_ok keys p Hp) as Hok.
  unfold q, applyNegotiatedKeys. set (p1 := fold_left applyKey keys p) in *.
  assert (Hget : forall k def, findKeyDef k = Some def -> np_get k p1 = expected k def)
    by (intros; by apply applyKeys_get).
  assert (Hfb : forall def f, findKeyDef "FirstBurstLength" = Some def ->
    expected "FirstBurstLength" def = Some (VNum f) -> np_FirstBurstLength p1 = f).
  { intros def f Hd Hf. rewrite <- (Hget _ def Hd) in Hf. unfold np_get in Hf. simpl in Hf. congruence. }
  destruct (Z.gtb_spec (np_FirstBurstLength p1) (np_MaxBurstLength p1)) as [Hgt|Hle].
  - split; [unfold params_ok in *; simpl; tauto|]. split; [simpl; lia|]. split.
    + intros k def Hd Hk. rewrite set_FirstBurstLength_get by done. by apply Hget.
    + intros def f Hd Hf. rewrite <- (Hfb def f Hd Hf). simpl. lia.
  - split; [done|]. split; [done|]. split; [intros; by apply Hget|].
    intros def f Hd Hf. rewrite <- (Hfb def f Hd Hf). lia.
Qed.

Lemma applyNegotiatedKeys_spec_witness :
  let q := applyNegotiatedKeys Defaults [KV "MaxBurstLength" "4096"; KV "ImmediateData" "No"] in
  params_ok q /\ np_FirstBurstLength q <= np_MaxBurstLength q /\
  np_get "ImmediateData" q = Some (VBool false).
Proof.
  destruct (applyNegotiatedKeys_spec Defaults [KV "MaxBurstLength" "4096"; KV "ImmediateData" "No"])
    as (H1 & H2 & H3 & _); [by vm_compute|].
  split; [exact H1|]. split; [exact H2|]. by apply (H3 "ImmediateData" _ eq_refl).
Defined.
