(* ===== verification/Crypto.v ===== *)
(** The MD5 hash and the text encodings of binary values that CHAP uses:
    [crypto/md5], [encoding/hex] and [encoding/base64] of the Go standard
    library, executable and checked against the test suite of RFC 1321. *)
From S2P Require Import Prelude Errors Text.
#[local] Open Scope Z_scope.

(** ** crypto/md5 *)

Definition md5_k : list Z :=
  [  0xd76aa478; 0xe8c7b756; 0x242070db; 0xc1bdceee; 0xf57c0faf; 0x4787c62a;
     0xa8304613; 0xfd469501; 0x698098d8; 0x8b44f7af; 0xffff5bb1; 0x895cd7be;
     0x6b901122; 0xfd987193; 0xa679438e; 0x49b40821; 0xf61e2562; 0xc040b340;
     0x265e5a51; 0xe9b6c7aa; 0xd62f105d; 0x02441453; 0xd8a1e681; 0xe7d3fbc8;
     0x21e1cde6; 0xc33707d6; 0xf4d50d87; 0x455a14ed; 0xa9e3e905; 0xfcefa3f8;
     0x676f02d9; 0x8d2a4c8a; 0xfffa3942; 0x8771f681; 0x6d9d6122; 0xfde5380c;
     0xa4beea44; 0x4bdecfa9; 0xf6bb4b60; 0xbebfbc70; 0x289b7ec6; 0xeaa127fa;
     0xd4ef3085; 0x04881d05; 0xd9d4d039; 0xe6db99e5; 0x1fa27cf8; 0xc4ac5665;
     0xf4292244; 0x432aff97; 0xab9423a7; 0xfc93a039; 0x655b59c3; 0x8f0ccc92;
     0xffeff47d; 0x85845dd1; 0x6fa87e4f; 0xfe2ce6e0; 0xa3014314; 0x4e0811a1;
     0xf7537e82; 0xbd3af235; 0x2ad7d2bb; 0xeb86d391 ].

Definition md5_shift : list Z :=
  [  7; 12; 17; 22; 7; 12; 17; 22; 7; 12; 17; 22; 7; 12; 17; 22;
     5; 9; 14; 20; 5; 9; 14; 20; 5; 9; 14; 20; 5; 9; 14; 20;
     4; 11; 16; 23; 4; 11; 16; 23; 4; 11; 16; 23; 4; 11; 16; 23;
     6; 10; 15; 21; 6; 10; 15; 21; 6; 10; 15; 21; 6; 10; 15; 21 ].

Definition rotl (x n : Z) : Z := Z.lor (uint32 (Z.shiftl x n)) (Z.shiftr x (32 - n)).
Definition not32 (x : Z) : Z := Z.lxor x 0xffffffff.

Record MD5State := mkMD5 { md_a : Z; md_b : Z; md_c : Z; md_d : Z }.

Definition md5_init : MD5State := mkMD5 0x67452301 0xefcdab89 0x98badcfe 0x10325476.

(** The round function and the message word of step [i] *)
Definition md5_f (i : nat) (b c d : Z) : Z :=
  match Nat.div i 16 with
  | 0 => Z.lor (Z.land b c) (Z.land (not32 b) d)
  | 1 => Z.lor (Z.land d b) (Z.land (not32 d) c)
  | 2 => Z.lxor (Z.lxor b c) d
  | _ => Z.lxor c (Z.lor b (not32 d))
  end%nat.
Definition md5_g (i : nat) : nat :=
  match Nat.div i 16 with
  | 0 => i
  | 1 => (5 * i + 1) mod 16
  | 2 => (3 * i + 5) mod 16
  | _ => (7 * i) mod 16
  end%nat.

Definition md5_step (block : bytes) (s : MD5State) (i : nat) : MD5State :=
  let '(mkMD5 a b c d) := s in
  let f := uint32 (md5_f i b c d + a + nth i md5_k 0 + le_val (sub (4 * md5_g i) 4 block)) in
  mkMD5 d (uint32 (b + rotl f (nth i md5_shift 0))) b c.

Definition md5_block (s : MD5State) (block : bytes) : MD5State :=
  let '(mkMD5 a b c d) := fold_left (md5_step block) (seq 0 64) s in
  mkMD5 (uint32 (md_a s + a)) (uint32 (md_b s + b)) (uint32 (md_c s + c)) (uint32 (md_d s + d)).

(** The message with 0x80, zeros to 56 modulo 64, and its bit length *)
Definition md5_pad (msg : bytes) : bytes :=
  let n := Z.of_nat (length msg) in
  msg ++ [0x80] ++ zeros (Z.to_nat ((55 - n) mod 64)) ++ le_bytes 8 (8 * n).

Fixpoint md5_blocks (n : nat) (l : bytes) (s : MD5State) : MD5State :=
  match n with
  | O => s
  | S n => md5_blocks n (drop 64 l) (md5_block s (take 64 l))
  end.

(** [md5.Sum] of everything written to the hash *)
Definition MD5 (msg : bytes) : bytes :=
  let l := md5_pad msg in
  let '(mkMD5 a b c d) := md5_blocks (Nat.div (length l) 64) l md5_init in
  le_bytes 4 a ++ le_bytes 4 b ++ le_bytes 4 c ++ le_bytes 4 d.

(** ** encoding/hex *)

Definition hex_digit (n : Z) : Z := if n <? 10 then 48 + n else 87 + n.

Definition hex_Encode (l : bytes) : bytes :=
  concat (map (fun b => [hex_digit (Z.shiftr b 4); hex_digit (Z.land b 0x0f)]) l).

Definition hex_value (c : Z) : option Z :=
  if (48 <=? c) && (c <=? 57) then Some (c - 48)
  else if (97 <=? c) && (c <=? 102) then Some (c - 87)
  else if (65 <=? c) && (c <=? 70) then Some (c - 55)
  else None.

Fixpoint hex_Decode (l : bytes) : res bytes :=
  match l with
  | [] => Ok []
  | [_] => Err (Errorf "encoding/hex: odd length hex string" [])
  | a :: b :: l =>
    match hex_value a, hex_value b with
    | Some x, Some y => r ← hex_Decode l; Ok (Z.lor (Z.shiftl x 4) y :: r)
    | _, _ => Err (Errorf "encoding/hex: invalid byte" [])
    end
  end.

(** ** encoding/base64, StdEncoding *)

Definition b64_value (c : Z) : option Z :=
  if (65 <=? c) && (c <=? 90) then Some (c - 65)
  else if (97 <=? c) && (c <=? 122) then Some (c - 71)
  else if (48 <=? c) && (c <=? 57) then Some (c + 4)
  else if c =? 43 then Some 62
  else if c =? 47 then Some 63
  else None.

Definition errCorrupt : error := Errorf "illegal base64 data at input byte" [].

Fixpoint b64_quanta (l : bytes) : res bytes :=
  match l with
  | [] => Ok []
  | a :: b :: c :: d :: l =>
    match b64_value a, b64_value b with
    | Some x, Some y =>
      let b0 := uint8 (Z.lor (Z.shiftl x 2) (Z.shiftr y 4)) in
      match b64_value c with
      | Some z =>
        let b1 := uint8 (Z.lor (Z.shiftl y 4) (Z.shiftr z 2)) in
        match b64_value d with
        | Some w =>
          r ← b64_quanta l;
          Ok (b0 :: b1 :: uint8 (Z.lor (Z.shiftl z 6) w) :: r)
        | None => if (d =? 61) && bool_decide (l = []) then Ok [b0; b1] else Err errCorrupt
        end
      | None =>
        if (c =? 61) && (d =? 61) && bool_decide (l = []) then Ok [b0] else Err errCorrupt
      end
    | _, _ => Err errCorrupt
    end
  | _ => Err errCorrupt
  end.

(** Line breaks are skipped. *)
Definition b64_Decode (l : bytes) : res bytes :=
  b64_quanta (List.filter (fun c => negb ((c =? 10) || (c =? 13))) l).

(** ** The test vectors *)

Example MD5_empty : hex_Encode (MD5 []) = to_bytes "d41d8cd98f00b204e9800998ecf8427e".
Proof. vm_compute. reflexivity. Qed.

Example MD5_digits :
  hex_Encode (MD5 (to_bytes "12345678901234567890123456789012345678901234567890123456789012345678901234567890"))
  = to_bytes "57edf4a22be3c955ac49da2e2107b67a".
Proof. vm_compute. reflexivity. Qed.

Example b64_hello : b64_Decode (to_bytes "aGVsbG8=") = Ok (to_bytes "hello").
Proof. vm_compute. reflexivity. Qed.

(** ** Lemmas *)

Lemma length_MD5 msg : length (MD5 msg) = 16%nat.
Proof. unfold MD5. destruct (md5_blocks _ _ _). by rewrite !length_app, !length_le_bytes. Qed.

Lemma MD5_ok msg : bytes_ok (MD5 msg).
Proof. unfold MD5. destruct (md5_blocks _ _ _). auto using Forall_app_2, le_bytes_ok. Qed.

Lemma hex_value_digit n : in_width 4 n -> hex_value (hex_digit n) = Some n.
Proof.
  intros Hn. unfold hex_digit, hex_value, in_width in *. change (2 ^ 4) with 16 in Hn.
  destruct (Z.ltb_spec n 10).
  - rewrite (proj2 (andb_true_iff _ _)) by lia. f_equal. lia.
  - destruct ((48 <=? 87 + n) && (87 + n <=? 57)) eqn:E; [lia|].
    rewrite (proj2 (andb_true_iff _ _)) by lia. f_equal. lia.
Qed.

Lemma nibbles b : u8 b ->
  in_width 4 (Z.shiftr b 4) /\ in_width 4 (Z.land b 0x0f) /\
  Z.lor (Z.shiftl (Z.shiftr b 4) 4) (Z.land b 0x0f) = b.
Proof.
  intros Hb. change 0x0f with (Z.ones 4). assert (in_width 4 (Z.shiftr b 4)).
  { rewrite Z.shiftr_div_pow2 by lia. unfold in_width in *. Z.to_euclidean_division_equations. lia. }
  split; [done|]. split; [by apply land_ones_width|].
  rewrite lor_shiftl_add by (lia || by apply land_ones_width).
  rewrite Z.land_ones, Z.shiftr_div_pow2 by lia. pose proof (Z.div_mod b (2 ^ 4)). lia.
Qed.

Lemma hex_Decode_Encode l : bytes_ok l -> hex_Decode (hex_Encode l) = Ok l.
Proof.
  unfold hex_Encode. induction 1 as [|b l Hb Hl IH]; [done|].
  destruct (nibbles b Hb) as (H1 & H2 & H3). cbn [map concat app hex_Decode].
  rewrite !hex_value_digit by done. rewrite IH. simpl. by rewrite H3.
Qed.

Lemma hex_Encode_ok l : bytes_ok l -> bytes_ok (hex_Encode l).
Proof.
  assert (Hd : forall n, in_width 4 n -> u8 (hex_digit n)).
  { intros n. unfold hex_digit, in_width. intros. case_match; lia. }
  unfold hex_Encode. induction 1 as [|b l Hb Hl IH]; [constructor|].
  destruct (nibbles b Hb) as (H1 & H2 & _). cbn [map concat app]. auto.
Qed.
