(* ===== verification/Fmt.v ===== *)
(** The verbs of Go's [fmt] that the strings of PDUs and errors use, and reading what
    they print back. *)
From S2P Require Import Prelude Text Crypto.
#[local] Open Scope string_scope.
#[local] Open Scope list_scope.
#[local] Open Scope Z_scope.

(** ** Formatting *)

(** An operand: a number that is not negative, a bool or a string *)
Inductive arg := Int (n : Z) | Bool (b : bool) | Str (s : bytes).

(** [%0wx] and [%0wX], [%d], [%t] and [%s], with [w] a digit *)
Inductive verb := HexPadded (upper : bool) (w : nat) | Decimal | Truth | Plain.
Inductive token := Lit (c : Z) | Verb (v : verb).

Fixpoint parse_format (bs : bytes) : list token :=
  match bs with
  | 37 :: 48 :: w :: 120 :: bs => Verb (HexPadded false (Z.to_nat (w - 48))) :: parse_format bs
  | 37 :: 48 :: w :: 88 :: bs => Verb (HexPadded true (Z.to_nat (w - 48))) :: parse_format bs
  | 37 :: 100 :: bs => Verb Decimal :: parse_format bs
  | 37 :: 116 :: bs => Verb Truth :: parse_format bs
  | 37 :: 115 :: bs => Verb Plain :: parse_format bs
  | c :: bs => Lit c :: parse_format bs
  | [] => []
  end.

Definition digit_of (upper : bool) (n : Z) : Z := if n <? 10 then 48 + n else if upper then 55 + n else 87 + n.

Fixpoint format_hex (upper : bool) (fuel : nat) (n : Z) : bytes :=
  match fuel with
  | O => []
  | S fuel => (if n <? 16 then [] else format_hex upper fuel (n / 16)) ++ [digit_of upper (n mod 16)]
  end.

(** Zeros up to the width *)
Definition zero_padded (w : nat) (l : bytes) : bytes := replicate (w - length l) 48 ++ l.

(** 64 bits have at most 16 hexadecimal and 20 decimal digits. *)
Definition format_verb (v : verb) (a : arg) : option bytes :=
  match v, a with
  | HexPadded u w, Int n => Some (zero_padded w (format_hex u 16 n))
  | Decimal, Int n => Some (format_digits 20 n)
  | Truth, Bool b => Some (to_bytes (if b then "true" else "false"))
  | Plain, Str s => Some s
  | _, _ => None
  end.

(** [fmt.Sprintf]; [None] where operands are missing or left over, or do not suit
    their verb *)
Fixpoint format_tokens (ts : list token) (args : list arg) : option bytes :=
  match ts, args with
  | [], [] => Some []
  | Lit c :: ts, args => rest ← format_tokens ts args; Some (c :: rest)
  | Verb v :: ts, a :: args => s ← format_verb v a; rest ← format_tokens ts args; Some (s ++ rest)
  | _, _ => None
  end.

Definition fmt_Sprintf (format : string) (args : list arg) : option bytes :=
  format_tokens (parse_format (to_bytes format)) args.

(** ** Reading a string back *)

Fixpoint parse_hex (l : bytes) (acc : Z) : option Z :=
  match l with
  | [] => Some acc
  | c :: l => v ← hex_value c; parse_hex l (acc * 16 + v)
  end.

Definition scan_verb (v : verb) (l : bytes) : option arg :=
  match v with
  | HexPadded _ _ => Int <$> parse_hex l 0
  | Decimal => Int <$> parse_digits l 0
  | Truth => if bool_decide (l = to_bytes "true") then Some (Bool true)
             else if bool_decide (l = to_bytes "false") then Some (Bool false) else None
  | Plain => Some (Str l)
  end.

(** A verb's text ends at the literal behind it. *)
Fixpoint scan_tokens (ts : list token) (l : bytes) : option (list arg) :=
  match ts with
  | [] => if bool_decide (l = []) then Some [] else None
  | Lit c :: ts => match l with b :: l => if b =? c then scan_tokens ts l else None | [] => None end
  | Verb v :: ts =>
      let text := match ts with Lit c :: _ => (cut c l).1.1 | _ => l end in
      a ← scan_verb v text; args ← scan_tokens ts (drop (length text) l); Some (a :: args)
  end.

Definition Sscanf (format : string) (l : bytes) : option (list arg) := scan_tokens (parse_format (to_bytes format)) l.

(** Operands that their verbs print faithfully, each verb with a space or a closing
    brace behind it *)
Definition separator (c : Z) : Prop := c = 32 \/ c = 125.
Definition arg_ok (v : verb) (a : arg) : Prop :=
  match v, a with
  | HexPadded _ _, Int n => 0 <= n < 16 ^ 16
  | Decimal, Int n => 0 <= n < 10 ^ 20
  | Truth, Bool _ => True
  | Plain, Str s => (32 ∉ s) /\ (125 ∉ s)
  | _, _ => False
  end.
Fixpoint call_ok (ts : list token) (args : list arg) : Prop :=
  match ts, args with
  | [], [] => True
  | Lit _ :: ts, args => call_ok ts args
  | Verb v :: ts, a :: args =>
      arg_ok v a /\ (match ts with Lit c :: _ => separator c | _ => False end) /\ call_ok ts args
  | _, _ => False
  end.

(** ** Lemmas *)

Lemma hex_digit_value u n : 0 <= n < 16 -> hex_value (digit_of u n) = Some n.
Proof.
  intros Hn. unfold digit_of, hex_value. destruct (Z.ltb_spec n 10).
  - rewrite (proj2 (Z.leb_le 48 _)), (proj2 (Z.leb_le _ 57)) by lia. cbn. f_equal. lia.
  - destruct u.
    + rewrite (proj2 (Z.leb_gt (55 + n) 57)), andb_false_r by lia. rewrite (proj2 (Z.leb_gt 97 (55 + n))) by lia.
      rewrite (proj2 (Z.leb_le 65 _)), (proj2 (Z.leb_le _ 70)) by lia. cbn. f_equal. lia.
    + rewrite (proj2 (Z.leb_gt (87 + n) 57)), andb_false_r by lia.
      rewrite (proj2 (Z.leb_le 97 _)), (proj2 (Z.leb_le _ 102)) by lia. cbn. f_equal. lia.
Qed.

Lemma parse_hex_app l l' acc : parse_hex (l ++ l') acc = (a ← parse_hex l acc; parse_hex l' a).
Proof. revert acc. induction l as [|c l IH]; intros acc; simpl; [done|]. destruct (hex_value c); simpl; [apply IH|done]. Qed.

Lemma parse_format_hex u fuel n : 0 <= n < 16 ^ Z.of_nat fuel -> parse_hex (format_hex u fuel n) 0 = Some n.
Proof.
  revert n. induction fuel as [|fuel IH]; intros n Hn; [simpl in *; f_equal; lia|].
  cbn [format_hex]. rewrite parse_hex_app.
  pose proof (Z.mod_pos_bound n 16 ltac:(lia)) as Hm.
  assert (Hlast : forall a, parse_hex [digit_of u (n mod 16)] a = Some (a * 16 + n mod 16)).
  { intros a. cbn [parse_hex]. by rewrite hex_digit_value. }
  destruct (Z.ltb_spec n 16).
  - change (parse_hex [digit_of u (n mod 16)] 0 = Some n). rewrite Hlast. f_equal. rewrite Z.mod_small; lia.
  - rewrite Nat2Z.inj_succ, Z.pow_succ_r in Hn by lia.
    rewrite IH by (Z.to_euclidean_division_equations; lia).
    change (parse_hex [digit_of u (n mod 16)] (n / 16) = Some n). rewrite Hlast. f_equal.
    pose proof (Z.div_mod n 16). lia.
Qed.

Lemma parse_zero_padded w l : parse_hex (zero_padded w l) 0 = parse_hex l 0.
Proof. unfold zero_padded. induction (w - length l)%nat as [|k IH]; [done|exact IH]. Qed.

(** What the verbs print has no separator in it. *)
Definition alphanumeric (c : Z) : Prop := 48 <= c <= 57 \/ 65 <= c <= 90 \/ 97 <= c <= 122.

Lemma alphanumeric_separator c l : separator c -> Forall alphanumeric l -> c ∉ l.
Proof. intros Hc Hl Hin. apply (proj1 (Forall_forall _ _) Hl) in Hin. unfold separator, alphanumeric in *. lia. Qed.

Lemma format_hex_plain u fuel n : Forall alphanumeric (format_hex u fuel n).
Proof.
  revert n. induction fuel as [|fuel IH]; intros n; cbn [format_hex]; [constructor|].
  apply Forall_app_2; [case_match; [constructor|apply IH]|]. constructor; [|constructor].
  pose proof (Z.mod_pos_bound n 16). unfold digit_of, alphanumeric. destruct u; case_match; lia.
Qed.

Lemma format_digits_alnum fuel n : Forall alphanumeric (format_digits fuel n).
Proof.
  revert n. induction fuel as [|fuel IH]; intros n; cbn [format_digits]; [constructor|].
  apply Forall_app_2; [case_match; [constructor|apply IH]|]. constructor; [|constructor].
  pose proof (Z.mod_pos_bound n 10). unfold alphanumeric. lia.
Qed.

Lemma zero_padded_plain w l : Forall alphanumeric l -> Forall alphanumeric (zero_padded w l).
Proof. intros Hl. apply Forall_app_2; [|done]. apply Forall_replicate. unfold alphanumeric. lia. Qed.

Lemma verb_reads_back v a : arg_ok v a -> exists text, format_verb v a = Some text /\ scan_verb v text = Some a /\
  forall c, separator c -> c ∉ text.
Proof.
  intros Ha. destruct v, a; try done; eexists; (split; [reflexivity|]); cbn [scan_verb arg_ok] in *.
  - rewrite parse_zero_padded, (parse_format_hex _ 16 _ Ha). split; [done|]. intros c Hc.
    by apply alphanumeric_separator, zero_padded_plain, format_hex_plain.
  - rewrite (parse_format_digits 20 _ Ha). split; [done|]. intros c Hc.
    by apply alphanumeric_separator, format_digits_alnum.
  - split; [by destruct b; vm_compute|]. intros c Hc. apply alphanumeric_separator; [done|].
    destruct b; [change (Forall alphanumeric [116; 114; 117; 101])|change (Forall alphanumeric [102; 97; 108; 115; 101])];
      repeat (apply Forall_cons; split); try apply Forall_nil; unfold alphanumeric; lia.
  - split; [done|]. destruct Ha. intros c Hc. by destruct Hc; subst c.
Qed.

Lemma scan_format ts : forall args, call_ok ts args -> exists l, format_tokens ts args = Some l /\ scan_tokens ts l = Some args.
Proof.
  induction ts as [|[c|v] ts IH]; intros args H; cbn [call_ok format_tokens scan_tokens] in *.
  - destruct args; [|done]. by exists [].
  - destruct (IH args H) as (l & E1 & E2). exists (c :: l). rewrite E1. split; [done|]. by rewrite Z.eqb_refl.
  - destruct args as [|a args]; [done|]. destruct H as (Ha & Hs & H).
    destruct (verb_reads_back v a Ha) as (text & E1 & E2 & Hsep). destruct (IH args H) as (l & E3 & E4).
    exists (text ++ l). rewrite E1, E3. split; [done|].
    destruct ts as [|[c|] ts]; [done| |done].
    assert (Hl : exists l', l = c :: l').
    { cbn [format_tokens] in E3. destruct (format_tokens ts args) as [l'|]; [|done]. injection E3 as <-. by exists l'. }
    destruct Hl as [l' ->]. rewrite cut_app by by apply Hsep. cbn [fst].
    by rewrite E2, drop_app_length, E4.
Qed.

