(* ===== verification/Stringer.v ===== *)
(** The strings of PDUs in logs ([src/internal/pdu/stringer.go]). *)
From S2P Require Import Prelude Errors Bhs PduTactics PduInitiator PduTarget Pdu Text Fmt.
#[local] Open Scope string_scope.
#[local] Open Scope list_scope.
#[local] Open Scope Z_scope.

(** ** The methods *)

(** [truncHex(b, maxBytes)] *)
Definition truncHex (b : bytes) (maxBytes : nat) : bytes :=
  let b := if Nat.ltb maxBytes (length b) then take maxBytes b else b in
  concat (imap (fun i v => (if Nat.ltb 0 i then [58] else []) ++ zero_padded 2 (format_hex false 16 v)) b).

(** What a method hands to [fmt.Sprintf] *)
Definition call : Type := string * list arg.

Definition NOPOut_String (p : NOPOut) : call :=
  ("NOPOut{ITT:0x%08x TTT:0x%08x CmdSN:%d}",
   [Int (InitiatorTaskTag (NOPOut_Hdr p)); Int (NOPOut_TargetTransferTag p); Int (NOPOut_CmdSN p)]).
Definition SCSICommand_String (p : SCSICommand) : call :=
  ("SCSICommand{ITT:0x%08x CmdSN:%d R:%t W:%t CDB:%s}",
   [Int (InitiatorTaskTag (SCSICommand_Hdr p)); Int (SCSICommand_CmdSN p); Bool (SCSICommand_Read p);
    Bool (SCSICommand_Write p); Str (truncHex (SCSICommand_CDB p) 8)]).
Definition TaskMgmtReq_String (p : TaskMgmtReq) : call :=
  ("TaskMgmtReq{ITT:0x%08x Function:%d RefTaskTag:0x%08x CmdSN:%d}",
   [Int (InitiatorTaskTag (TaskMgmtReq_Hdr p)); Int (TaskMgmtReq_Function p);
    Int (TaskMgmtReq_ReferencedTaskTag p); Int (TaskMgmtReq_CmdSN p)]).
Definition LoginReq_String (p : LoginReq) : call :=
  ("LoginReq{ITT:0x%08x CSG:%d NSG:%d T:%t CmdSN:%d}",
   [Int (InitiatorTaskTag (LoginReq_Hdr p)); Int (LoginReq_CSG p); Int (LoginReq_NSG p);
    Bool (LoginReq_Transit p); Int (LoginReq_CmdSN p)]).
Definition TextReq_String (p : TextReq) : call :=
  ("TextReq{ITT:0x%08x C:%t CmdSN:%d}",
   [Int (InitiatorTaskTag (TextReq_Hdr p)); Bool (TextReq_Continue p); Int (TextReq_CmdSN p)]).
Definition DataOut_String (p : DataOut) : call :=
  ("DataOut{ITT:0x%08x TTT:0x%08x DataSN:%d Offset:%d Len:%d}",
   [Int (InitiatorTaskTag (DataOut_Hdr p)); Int (DataOut_TargetTransferTag p); Int (DataOut_DataSN p);
    Int (DataOut_BufferOffset p); Int (Z.of_nat (length (DataOut_Data p)))]).
Definition LogoutReq_String (p : LogoutReq) : call :=
  ("LogoutReq{ITT:0x%08x Reason:%d CmdSN:%d}",
   [Int (InitiatorTaskTag (LogoutReq_Hdr p)); Int (LogoutReq_ReasonCode p); Int (LogoutReq_CmdSN p)]).
Definition SNACKReq_String (p : SNACKReq) : call :=
  ("SNACKReq{ITT:0x%08x Type:%d BegRun:%d RunLength:%d}",
   [Int (InitiatorTaskTag (SNACKReq_Hdr p)); Int (SNACKReq_Type_ p); Int (SNACKReq_BegRun p);
    Int (SNACKReq_RunLength p)]).

Definition NOPIn_String (p : NOPIn) : call :=
  ("NOPIn{ITT:0x%08x TTT:0x%08x StatSN:%d}",
   [Int (InitiatorTaskTag (NOPIn_Hdr p)); Int (NOPIn_TargetTransferTag p); Int (NOPIn_StatSN p)]).
Definition SCSIResponse_String (p : SCSIResponse) : call :=
  ("SCSIResponse{ITT:0x%08x StatSN:%d Status:0x%02x Response:0x%02x}",
   [Int (InitiatorTaskTag (SCSIResponse_Hdr p)); Int (SCSIResponse_StatSN p); Int (SCSIResponse_Status p);
    Int (SCSIResponse_Response p)]).
Definition TaskMgmtResp_String (p : TaskMgmtResp) : call :=
  ("TaskMgmtResp{ITT:0x%08x Response:0x%02x StatSN:%d}",
   [Int (InitiatorTaskTag (TaskMgmtResp_Hdr p)); Int (TaskMgmtResp_Response p); Int (TaskMgmtResp_StatSN p)]).
Definition LoginResp_String (p : LoginResp) : call :=
  ("LoginResp{ITT:0x%08x CSG:%d NSG:%d T:%t StatSN:%d StatusClass:0x%02x StatusDetail:0x%02x}",
   [Int (InitiatorTaskTag (LoginResp_Hdr p)); Int (LoginResp_CSG p); Int (LoginResp_NSG p);
    Bool (LoginResp_Transit p); Int (LoginResp_StatSN p); Int (LoginResp_StatusClass p);
    Int (LoginResp_StatusDetail p)]).
Definition TextResp_String (p : TextResp) : call :=
  ("TextResp{ITT:0x%08x C:%t StatSN:%d}",
   [Int (InitiatorTaskTag (TextResp_Hdr p)); Bool (TextResp_Continue p); Int (TextResp_StatSN p)]).
Definition DataIn_String (p : DataIn) : call :=
  ("DataIn{ITT:0x%08x StatSN:%d DataSN:%d Offset:%d Len:%d S:%t}",
   [Int (InitiatorTaskTag (DataIn_Hdr p)); Int (DataIn_StatSN p); Int (DataIn_DataSN p);
    Int (DataIn_BufferOffset p); Int (Z.of_nat (length (DataIn_Data p))); Bool (DataIn_HasStatus p)]).
Definition LogoutResp_String (p : LogoutResp) : call :=
  ("LogoutResp{ITT:0x%08x Response:0x%02x StatSN:%d T2W:%d T2R:%d}",
   [Int (InitiatorTaskTag (LogoutResp_Hdr p)); Int (LogoutResp_Response p); Int (LogoutResp_StatSN p);
    Int (LogoutResp_Time2Wait p); Int (LogoutResp_Time2Retain p)]).
Definition R2T_String (p : R2T) : call :=
  ("R2T{ITT:0x%08x TTT:0x%08x R2TSN:%d Offset:%d DDTL:%d}",
   [Int (InitiatorTaskTag (R2T_Hdr p)); Int (R2T_TargetTransferTag p); Int (R2T_R2TSN p);
    Int (R2T_BufferOffset p); Int (R2T_DesiredDataTransferLength p)]).
Definition AsyncMsg_String (p : AsyncMsg) : call :=
  ("AsyncMsg{ITT:0x%08x Event:%d StatSN:%d}",
   [Int (InitiatorTaskTag (AsyncMsg_Hdr p)); Int (AsyncMsg_AsyncEvent p); Int (AsyncMsg_StatSN p)]).
Definition Reject_String (p : Reject) : call :=
  ("Reject{ITT:0x%08x Reason:0x%02x StatSN:%d}",
   [Int (InitiatorTaskTag (Reject_Hdr p)); Int (Reject_Reason p); Int (Reject_StatSN p)]).

(** The method a PDU has through the interface [fmt.Stringer] *)
Definition stringer (p : PDU) : call :=
  match p with
  | PNOPOut p => NOPOut_String p
  | PSCSICommand p => SCSICommand_String p
  | PTaskMgmtReq p => TaskMgmtReq_String p
  | PLoginReq p => LoginReq_String p
  | PTextReq p => TextReq_String p
  | PDataOut p => DataOut_String p
  | PLogoutReq p => LogoutReq_String p
  | PSNACKReq p => SNACKReq_String p
  | PNOPIn p => NOPIn_String p
  | PSCSIResponse p => SCSIResponse_String p
  | PTaskMgmtResp p => TaskMgmtResp_String p
  | PLoginResp p => LoginResp_String p
  | PTextResp p => TextResp_String p
  | PDataIn p => DataIn_String p
  | PLogoutResp p => LogoutResp_String p
  | PR2T p => R2T_String p
  | PAsyncMsg p => AsyncMsg_String p
  | PReject p => Reject_String p
  end.

Definition String_ (p : PDU) : option bytes := fmt_Sprintf (stringer p).1 (stringer p).2.

(** ** Lemmas *)

Lemma truncHex_plain b n c : separator c -> c ∉ truncHex b n.
Proof.
  intros Hc. unfold truncHex. set (l := if Nat.ltb _ _ then _ else _). clearbody l.
  assert (H : Forall (fun d => alphanumeric d \/ d = 58) (concat (imap (fun i v =>
    (if Nat.ltb 0 i then [58] else []) ++ zero_padded 2 (format_hex false 16 v)) l))).
  { apply Forall_concat, Forall_forall. intros x (i & v & -> & _)%elem_of_lookup_imap. apply Forall_app_2.
    - destruct (Nat.ltb 0 i); [|constructor]. constructor; [by right|constructor].
    - eapply Forall_impl; [apply zero_padded_plain, format_hex_plain|]. by left. }
  intros Hin. apply (proj1 (Forall_forall _ _) H) in Hin. unfold separator, alphanumeric in *. lia.
Qed.

(** Every method's operands suit its format. *)
Definition logged_ok (p : PDU) : Prop := PDU_ok p /\ Z.of_nat (length (DataSegment p)) < 2 ^ 63.

Lemma stringer_ok p : logged_ok p -> call_ok (parse_format (to_bytes (stringer p).1)) (stringer p).2.
Proof.
  intros [Hok Hlen]. destruct p as [p|p|p|p|p|p|p|p|p|p|p|p|p|p|p|p|p|p].
  all: cbn [stringer]; cbv [NOPOut_String SCSICommand_String TaskMgmtReq_String LoginReq_String TextReq_String
    DataOut_String LogoutReq_String SNACKReq_String NOPIn_String SCSIResponse_String TaskMgmtResp_String
    LoginResp_String TextResp_String DataIn_String LogoutResp_String R2T_String AsyncMsg_String Reject_String fst snd].
  all: match goal with |- call_ok ?ts _ => let t := eval vm_compute in ts in change ts with t end; cbn [call_ok arg_ok].
  all: try match goal with p : DataOut |- _ => change (Z.of_nat (length (DataOut_Data p)) < 2 ^ 63) in Hlen end.
  all: try match goal with p : DataIn |- _ => change (Z.of_nat (length (DataIn_Data p)) < 2 ^ 63) in Hlen end.
  all: hnf in Hok; unfold Header_ok, in_width in Hok; destruct_and?.
  all: repeat (split; [first [by left|by right|exact I|lia|split; apply truncHex_plain; solve [by left|by right]]|]); exact I.
Qed.

(** The name in front of the brace *)
Fixpoint name_of (ts : list token) : option bytes :=
  match ts with
  | Lit c :: ts => if c =? 123 then Some [] else cons c <$> name_of ts
  | _ => None
  end.

Lemma printed_name ts : forall args nm l, name_of ts = Some nm -> format_tokens ts args = Some l -> (cut 123 l).1.1 = nm.
Proof.
  induction ts as [|[c|v] ts IH]; intros args nm l Hn Hl; try done. cbn [name_of format_tokens] in *.
  destruct (format_tokens ts args) as [l'|] eqn:E; [|done]. injection Hl as <-. cbn [cut].
  destruct (c =? 123); [by injection Hn as <-|]. destruct (name_of ts) as [nm'|]; [|done]. injection Hn as <-.
  specialize (IH args nm' l' eq_refl E). destruct (cut 123 l') as [[before after] found]. cbn in *. by rewrite IH.
Qed.

Definition kind_name (p : PDU) : option bytes := name_of (parse_format (to_bytes (stringer p).1)).

Lemma kind_name_Some p : is_Some (kind_name p).
Proof. destruct p; vm_compute; by eexists. Qed.

Lemma kind_name_inj p q : kind_name p = kind_name q -> (stringer p).1 = (stringer q).1 /\ Opcode p = Opcode q.
Proof. destruct p, q; intros H; vm_compute in H; first [discriminate H|split; reflexivity]. Qed.

(** ** Specification

    A line of a log names a PDU and shows fields of its basic header segment, under the
    labels of this table, each read at the place RFC 7143 gives it (Section 11): a
    32-bit word of the header in hexadecimal or decimal, a byte, bits of byte 1. *)

Definition word_at (n : nat) (bhs : bytes) : Z := get_be 4 n bhs.
Definition hex_text (digits : nat) (n : Z) : bytes := 48 :: 120 :: zero_padded digits (format_hex false 16 n).
Definition dec_text (n : Z) : bytes := format_digits 20 n.
Definition bool_text (b : bool) : bytes := to_bytes (if b then "true" else "false").
Definition joined (sep : Z) (l : list bytes) : bytes :=
  match l with [] => [] | x :: l => x ++ concat (map (cons sep) l) end.
Definition bytes_text (l : bytes) : bytes := joined 58 (map (fun v => zero_padded 2 (format_hex false 16 v)) l).

Definition logged_kind (p : PDU) : string :=
  match p with
  | PNOPOut _ => "NOPOut" | PSCSICommand _ => "SCSICommand" | PTaskMgmtReq _ => "TaskMgmtReq"
  | PLoginReq _ => "LoginReq" | PTextReq _ => "TextReq" | PDataOut _ => "DataOut"
  | PLogoutReq _ => "LogoutReq" | PSNACKReq _ => "SNACKReq" | PNOPIn _ => "NOPIn"
  | PSCSIResponse _ => "SCSIResponse" | PTaskMgmtResp _ => "TaskMgmtResp" | PLoginResp _ => "LoginResp"
  | PTextResp _ => "TextResp" | PDataIn _ => "DataIn" | PLogoutResp _ => "LogoutResp"
  | PR2T _ => "R2T" | PAsyncMsg _ => "AsyncMsg" | PReject _ => "Reject"
  end.

Definition logged_fields (p : PDU) (bhs : bytes) : list (string * bytes) :=
  let hex n := hex_text 8 (word_at n bhs) in
  let dec n := dec_text (word_at n bhs) in
  let byte n := dec_text (byte_at n bhs) in
  let hexbyte n := hex_text 2 (byte_at n bhs) in
  let flag m := bool_text (has_bit (byte_at 1 bhs) m) in
  let len := dec_text (Z.of_nat (length (DataSegment p))) in
  let csg := dec_text (Z.land (Z.shiftr (byte_at 1 bhs) 2) 0x03) in
  let nsg := dec_text (Z.land (byte_at 1 bhs) 0x03) in
  let function := dec_text (Z.land (byte_at 1 bhs) 0x7f) in
  ("ITT", hex 16%nat) ::
  match p with
  | PNOPOut _ => [("TTT", hex 20%nat); ("CmdSN", dec 24%nat)]
  | PSCSICommand _ => [("CmdSN", dec 24%nat); ("R", flag 0x40); ("W", flag 0x20); ("CDB", bytes_text (sub 32 8 bhs))]
  | PTaskMgmtReq _ => [("Function", function); ("RefTaskTag", hex 20%nat); ("CmdSN", dec 24%nat)]
  | PLoginReq _ => [("CSG", csg); ("NSG", nsg); ("T", flag 0x80); ("CmdSN", dec 24%nat)]
  | PTextReq _ => [("C", flag 0x40); ("CmdSN", dec 24%nat)]
  | PDataOut _ => [("TTT", hex 20%nat); ("DataSN", dec 36%nat); ("Offset", dec 40%nat); ("Len", len)]
  | PLogoutReq _ => [("Reason", function); ("CmdSN", dec 24%nat)]
  | PSNACKReq _ => [("Type", dec_text (Z.land (byte_at 1 bhs) 0x0f)); ("BegRun", dec 40%nat); ("RunLength", dec 44%nat)]
  | PNOPIn _ => [("TTT", hex 20%nat); ("StatSN", dec 24%nat)]
  | PSCSIResponse _ => [("StatSN", dec 24%nat); ("Status", hexbyte 3%nat); ("Response", hexbyte 2%nat)]
  | PTaskMgmtResp _ => [("Response", hexbyte 2%nat); ("StatSN", dec 24%nat)]
  | PLoginResp _ => [("CSG", csg); ("NSG", nsg); ("T", flag 0x80); ("StatSN", dec 24%nat);
                     ("StatusClass", hexbyte 36%nat); ("StatusDetail", hexbyte 37%nat)]
  | PTextResp _ => [("C", flag 0x40); ("StatSN", dec 24%nat)]
  | PDataIn _ => [("StatSN", dec 24%nat); ("DataSN", dec 36%nat); ("Offset", dec 40%nat); ("Len", len); ("S", flag 0x01)]
  | PLogoutResp _ => [("Response", hexbyte 2%nat); ("StatSN", dec 24%nat); ("T2W", dec_text (get_be 2 40 bhs));
                      ("T2R", dec_text (get_be 2 42 bhs))]
  | PR2T _ => [("TTT", hex 20%nat); ("R2TSN", dec 36%nat); ("Offset", dec 40%nat); ("DDTL", dec 44%nat)]
  | PAsyncMsg _ => [("Event", byte 36%nat); ("StatSN", dec 24%nat)]
  | PReject _ => [("Reason", hexbyte 2%nat); ("StatSN", dec 24%nat)]
  end.

(** [Kind{label:text label:text ...}] *)
Definition log_line (p : PDU) (bhs : bytes) : bytes :=
  to_bytes (logged_kind p) ++ 123 ::
  joined 32 (map (fun f => to_bytes f.1 ++ 58 :: f.2) (logged_fields p bhs)) ++ [125].

Lemma concat_imap_sep (f : Z -> bytes) l : forall k, (0 < k)%nat ->
  concat (imap (fun i v => (if Nat.ltb 0 (k + i) then [58] else []) ++ f v) l) = concat (map (cons 58) (map f l)).
Proof.
  induction l as [|v l IH]; intros k Hk; [done|]. rewrite imap_cons. cbn [concat map].
  rewrite Nat.add_0_r, (proj2 (Nat.ltb_lt 0 k) Hk). cbn. do 2 f_equal. rewrite <- (IH (S k)) by lia. f_equal.
  apply imap_ext. intros i x _. cbn. by rewrite Nat.add_succ_r.
Qed.

Lemma truncHex_bytes b n : truncHex b n = bytes_text (take n b).
Proof.
  unfold truncHex, bytes_text. replace (if Nat.ltb n (length b) then take n b else b) with (take n b).
  2: { destruct (Nat.ltb_spec n (length b)); [done|]. by apply take_ge. }
  destruct (take n b) as [|v l]; [done|]. rewrite imap_cons. cbn [concat map joined Nat.ltb Nat.leb app]. f_equal.
  rewrite <- (concat_imap_sep (fun v => zero_padded 2 (format_hex false 16 v)) l 1) by lia. f_equal.
Qed.

(** Both texts with the literals computed and the operands as they are *)
Ltac log_texts :=
  unfold fmt_Sprintf, log_line;
  repeat match goal with |- context [parse_format ?f] => let t := eval vm_compute in (parse_format f) in change (parse_format f) with t end;
  cbn [format_tokens format_verb mbind option_bind fst snd logged_kind logged_fields joined map concat];
  repeat match goal with |- context [to_bytes (String ?c ?l)] =>
    let t := eval vm_compute in (to_bytes (String c l)) in change (to_bytes (String c l)) with t end;
  unfold hex_text, dec_text, bool_text, word_at; cbn [app]; rewrite ?app_nil_r; repeat (rewrite <- app_assoc; cbn [app]); reflexivity.

Ltac from_header S W H :=
  match goal with |- context [stringer (?C ?p)] => change (stringer (C p)) with (S (W p)) end;
  rewrite <- H; unfold S; log_texts.

(** The string is the line of the table. *)
Lemma String_log_line p bhs : PDU_ok p -> MarshalBHS p = Ok bhs -> String_ p = Some (log_line p bhs).
Proof.
  intros Hok Hm. unfold String_. destruct p as [p|p|p|p|p|p|p|p|p|p|p|p|p|p|p|p|p|p].
  all: match goal with |- _ = Some (log_line (?C ?p) _) => pose proof (pdu_law_roundtrip p bhs Hok Hm) as H end; cbn in H.
  - from_header NOPOut_String NOPOut_wire H.
  - change (stringer (PSCSICommand p)) with (SCSICommand_String (SCSICommand_wire p)). rewrite <- H.
    unfold SCSICommand_String. rewrite truncHex_bytes.
    change (take 8 (SCSICommand_CDB (SCSICommand_UnmarshalBHS bhs))) with (take 8 (take 16 (drop 32 bhs))).
    rewrite take_take. log_texts.
  - from_header TaskMgmtReq_String TaskMgmtReq_wire H.
  - from_header LoginReq_String LoginReq_wire H.
  - from_header TextReq_String TextReq_wire H.
  - change (stringer (PDataOut p)) with ((DataOut_String (DataOut_wire p)).1,
      take 4 (DataOut_String (DataOut_wire p)).2 ++ [Int (Z.of_nat (length (DataOut_Data p)))]).
    rewrite <- H. unfold DataOut_String. cbn [take app]. log_texts.
  - from_header LogoutReq_String LogoutReq_wire H.
  - from_header SNACKReq_String SNACKReq_wire H.
  - from_header NOPIn_String NOPIn_wire H.
  - from_header SCSIResponse_String SCSIResponse_wire H.
  - from_header TaskMgmtResp_String TaskMgmtResp_wire H.
  - from_header LoginResp_String LoginResp_wire H.
  - from_header TextResp_String TextResp_wire H.
  - change (stringer (PDataIn p)) with ((DataIn_String (DataIn_wire p)).1,
      take 4 (DataIn_String (DataIn_wire p)).2 ++ [Int (Z.of_nat (length (DataIn_Data p))); Bool (DataIn_HasStatus (DataIn_wire p))]).
    rewrite <- H. unfold DataIn_String. cbn [take app]. log_texts.
  - from_header LogoutResp_String LogoutResp_wire H.
  - from_header R2T_String R2T_wire H.
  - from_header AsyncMsg_String AsyncMsg_wire H.
  - from_header Reject_String Reject_wire H.
Qed.

(** Two calls that are the same have the same operands, whatever the texts. *)
Ltac same_operands E :=
  cbn -[get_be has_bit byte_at Z.land Z.shiftr sub truncHex Z.of_nat] in E; injection E; clear E; intros;
  unfold logged_fields, word_at; cbn -[get_be has_bit byte_at Z.land Z.shiftr sub hex_text dec_text bool_text bytes_text Z.of_nat]; congruence.

Ltac same_call S W E H H' :=
  match type of E with stringer (?C ?p) = stringer (_ ?q) => change (S (W p) = S (W q)) in E end;
  rewrite <- H, <- H' in E; unfold S in E; same_operands E.

(** PDUs whose methods print the same show the same fields. *)
Lemma stringer_fields p q bhs bhs' : PDU_ok p -> PDU_ok q -> MarshalBHS p = Ok bhs -> MarshalBHS q = Ok bhs' ->
  Opcode p = Opcode q -> stringer p = stringer q -> logged_fields p bhs = logged_fields q bhs'.
Proof.
  intros Hp Hq Hm Hm' Ho E. destruct p as [p|p|p|p|p|p|p|p|p|p|p|p|p|p|p|p|p|p], q as [q|q|q|q|q|q|q|q|q|q|q|q|q|q|q|q|q|q];
    try discriminate Ho; clear Ho.
  all: pose proof (pdu_law_roundtrip p bhs Hp Hm) as H; pose proof (pdu_law_roundtrip q bhs' Hq Hm') as H'; cbn in H, H'.
  - same_call NOPOut_String NOPOut_wire E H H'.
  - change (SCSICommand_String (SCSICommand_wire p) = SCSICommand_String (SCSICommand_wire q)) in E.
    rewrite <- H, <- H' in E. unfold SCSICommand_String in E. rewrite !truncHex_bytes in E.
    change (SCSICommand_CDB (SCSICommand_UnmarshalBHS bhs)) with (take 16 (drop 32 bhs)) in E.
    change (SCSICommand_CDB (SCSICommand_UnmarshalBHS bhs')) with (take 16 (drop 32 bhs')) in E. rewrite !take_take in E.
    change (take (8 `min` 16) (drop 32 bhs)) with (sub 32 8 bhs) in E.
    change (take (8 `min` 16) (drop 32 bhs')) with (sub 32 8 bhs') in E. same_operands E.
  - same_call TaskMgmtReq_String TaskMgmtReq_wire E H H'.
  - same_call LoginReq_String LoginReq_wire E H H'.
  - same_call TextReq_String TextReq_wire E H H'.
  - change (((DataOut_String (DataOut_wire p)).1, take 4 (DataOut_String (DataOut_wire p)).2 ++ [Int (Z.of_nat (length (DataOut_Data p)))]) = ((DataOut_String (DataOut_wire q)).1, take 4 (DataOut_String (DataOut_wire q)).2 ++ [Int (Z.of_nat (length (DataOut_Data q)))])) in E.
    rewrite <- H, <- H' in E. unfold DataOut_String in E. cbn [take app fst snd] in E. same_operands E.
  - same_call LogoutReq_String LogoutReq_wire E H H'.
  - same_call SNACKReq_String SNACKReq_wire E H H'.
  - same_call NOPIn_String NOPIn_wire E H H'.
  - same_call SCSIResponse_String SCSIResponse_wire E H H'.
  - same_call TaskMgmtResp_String TaskMgmtResp_wire E H H'.
  - same_call LoginResp_String LoginResp_wire E H H'.
  - same_call TextResp_String TextResp_wire E H H'.
  - change (((DataIn_String (DataIn_wire p)).1, take 4 (DataIn_String (DataIn_wire p)).2 ++ [Int (Z.of_nat (length (DataIn_Data p))); Bool (DataIn_HasStatus (DataIn_wire p))]) = ((DataIn_String (DataIn_wire q)).1, take 4 (DataIn_String (DataIn_wire q)).2 ++ [Int (Z.of_nat (length (DataIn_Data q))); Bool (DataIn_HasStatus (DataIn_wire q))])) in E.
    rewrite <- H, <- H' in E. unfold DataIn_String in E. cbn [take app fst snd] in E. same_operands E.
  - same_call LogoutResp_String LogoutResp_wire E H H'.
  - same_call R2T_String R2T_wire E H H'.
  - same_call AsyncMsg_String AsyncMsg_wire E H H'.
  - same_call Reject_String Reject_wire E H H'.
Qed.

(** ** Properties *)

(** C36.  The string of a PDU in a log is its kind and, under their labels, the
    fields of the PDU's basic header segment: what stands behind a label is the
    printed word, byte or bits found at the place RFC 7143 gives that field in the
    header the PDU is sent with (and the length of its data, for the Data PDUs).
    PDUs with the same string are of the same kind, and all these fields of their
    headers print the same. *)
Theorem String_identifies (p q : PDU) (bhs bhs' : bytes) : logged_ok p -> logged_ok q ->
  MarshalBHS p = Ok bhs -> MarshalBHS q = Ok bhs' ->
  String_ p = Some (log_line p bhs) /\
  (String_ p = String_ q -> Opcode p = Opcode q /\ logged_fields p bhs = logged_fields q bhs').
Proof.
  intros Hp Hq Hm Hm'. split; [by apply String_log_line; [apply Hp|]|]. intros Heq.
  destruct (scan_format _ _ (stringer_ok p Hp)) as (s & Hs & Hscan).
  destruct (scan_format _ _ (stringer_ok q Hq)) as (s' & Hs' & Hscan').
  unfold String_, fmt_Sprintf in Heq. rewrite Hs, Hs' in Heq. injection Heq as <-.
  destruct (kind_name_Some p) as [n Hn], (kind_name_Some q) as [n' Hn'].
  pose proof (printed_name _ _ _ _ Hn Hs) as E. pose proof (printed_name _ _ _ _ Hn' Hs') as E'.
  destruct (kind_name_inj p q) as [Hf Ho]; [congruence|]. split; [done|].
  apply (stringer_fields p q); [apply Hp|apply Hq|done|done|done|].
  rewrite Hf in Hscan. destruct (stringer p), (stringer q). cbn in *. congruence.
Qed.

Definition test_scsiCommand (sn : Z) : PDU :=
  PSCSICommand (mkSCSICommand (mkHeader false OpSCSICommand true 0 0 (zeros 8) 0x2a) true false 1 512 sn 3
    (0x28 :: zeros 6 ++ [0xff; 1] ++ zeros 7) []).

Example String_test : of_bytes <$> String_ (test_scsiCommand 7) =
  Some "SCSICommand{ITT:0x0000002a CmdSN:7 R:true W:false CDB:28:00:00:00:00:00:00:ff}".
Proof. vm_compute. reflexivity. Qed.

Lemma String_identifies_witness :
  let bhs sn := match MarshalBHS (test_scsiCommand sn) with Ok bhs => bhs | Err _ => [] end in
  String_ (test_scsiCommand 7) = Some (log_line (test_scsiCommand 7) (bhs 7)) /\
  String_ (test_scsiCommand 7) <> String_ (test_scsiCommand 8).
Proof.
  intros bhs. destruct (String_identifies (test_scsiCommand 7) (test_scsiCommand 8) (bhs 7) (bhs 8)) as [H1 H2].
  - split; [|by vm_compute]. repeat (split; [vm_compute; done|]). apply (bool_decide_unpack _). by vm_compute.
  - split; [|by vm_compute]. repeat (split; [vm_compute; done|]). apply (bool_decide_unpack _). by vm_compute.
  - reflexivity.
  - reflexivity.
  - split; [exact H1|]. intros H. destruct (H2 H) as [_ E]. vm_compute in E. discriminate E.
Defined.
