(* ===== verification/Messages.v ===== *)
(** What errors and states are called in messages ([src/internal/login/errors.go],
    [src/internal/pdu/errors.go], [src/internal/digest/errors.go]).

    The numbers a Go type has beside those of its constants are not in the types of
    the model, and the default branches of the methods are not reached. *)
From S2P Require Import Prelude Errors Text Fmt.
#[local] Open Scope string_scope.
#[local] Open Scope list_scope.
#[local] Open Scope Z_scope.

Definition AuthReason_String (r : AuthReason) : string :=
  match r with
  | ReasonNone => "none"
  | ReasonShortChallenge => "short challenge"
  | ReasonLowEntropy => "low entropy challenge"
  | ReasonBadResponse => "bad mutual response"
  | ReasonUnsupportedAlgorithm => "unsupported algorithm"
  end.

Definition LoginError_Error (e : LoginError) : option bytes :=
  if negb (bool_decide (le_Reason e = ReasonNone)) then
    fmt_Sprintf "iscsi login: %s: %s" [Str (to_bytes (AuthReason_String (le_Reason e))); Str (to_bytes (le_Message e))]
  else
    fmt_Sprintf "iscsi login: class=%d detail=%d: %s"
      [Int (le_StatusClass e); Int (le_StatusDetail e); Str (to_bytes (le_Message e))].

Definition ViolationKind_String (k : ViolationKind) : string :=
  match k with
  | BadOpcode => "BadOpcode"
  | OversizedSegment => "OversizedSegment"
  | MalformedBHS => "MalformedBHS"
  | MRDSLExceeded => "MRDSLExceeded"
  end.

Definition DigestType_String (d : DigestType) : string :=
  match d with DigestHeader => "header" | DigestData => "data" end.

Definition DigestError_Error (e : DigestError) : option bytes :=
  fmt_Sprintf "digest: %s CRC32C mismatch: expected 0x%08X, got 0x%08X"
    [Str (to_bytes (DigestType_String (de_Type e))); Int (de_Expected e); Int (de_Actual e)].

(** ** Examples *)

Example DigestError_test : of_bytes <$> DigestError_Error (mkDigestError DigestData 0xab 0xffffffff) =
  Some "digest: data CRC32C mismatch: expected 0x000000AB, got 0xFFFFFFFF".
Proof. vm_compute. reflexivity. Qed.

Example LoginError_test : of_bytes <$> LoginError_Error (mkLoginError 2 1 "authentication failure" ReasonNone) =
  Some "iscsi login: class=2 detail=1: authentication failure".
Proof. vm_compute. reflexivity. Qed.

Example LoginError_reason_test : of_bytes <$> LoginError_Error (mkLoginError 0 0 "challenge of 4 bytes" ReasonShortChallenge) =
  Some "iscsi login: short challenge: challenge of 4 bytes".
Proof. vm_compute. reflexivity. Qed.
