(* ===== verification/Chap.v ===== *)
(** CHAP authentication ([src/internal/login/chap.go]).  What [crypto/rand]
    delivers is an argument of [newCHAPState]. *)
From S2P Require Import Prelude Errors Text Crypto.
#[local] Open Scope string_scope.
#[local] Open Scope Z_scope.

Definition minCHAPChallengeLen : nat := 16.

Definition loginError (msg : string) (reason : AuthReason) : error :=
  ELogin (mkLoginError 0 0 msg reason).

Definition validateChallenge (challenge : bytes) : option error :=
  if Nat.ltb (length challenge) minCHAPChallengeLen then
    Some (loginError "CHAP challenge too short (%d bytes, minimum %d)" ReasonShortChallenge)
  else
    let allZero := negb (existsb (fun b => negb (b =? 0)) challenge) in
    if allZero then
      Some (loginError "CHAP challenge has zero entropy (all bytes are 0x00)" ReasonLowEntropy)
    else None.

Definition chapResponse (id : Z) (secret challenge : bytes) : bytes :=
  MD5 ([id] ++ secret ++ challenge).

Definition encodeCHAPBinary (data : bytes) : string :=
  of_bytes (to_bytes "0x" ++ hex_Encode data).

Definition decodeCHAPBinary (s : string) : res bytes :=
  match to_bytes s with
  | 48 :: 120 :: l | 48 :: 88 :: l => hex_Decode l      (* 0x, 0X *)
  | 48 :: 98 :: l | 48 :: 66 :: l => b64_Decode l       (* 0b, 0B *)
  | _ => Err (Errorf "chap: unknown binary encoding prefix in %q" [])
  end.

Record chapState := mkChapState {
  cs_user : string;
  cs_secret : string;
  cs_mutualSecret : string;
  cs_isMutual : bool;
  cs_initiatorID : Z;
  cs_initiatorChallenge : bytes;
}.

(** [randID] and [randChallenge] are the results of the two [rand.Read] calls. *)
Definition newCHAPState (user secret : string) (mutual : bool) (mutualSecret : string)
    (randID : res Z) (randChallenge : res bytes) : res chapState :=
  if mutual then
    match randID with
    | Err e => Err (Wrapf "chap: failed to read random byte for initiator ID: %w" [] e)
    | Ok id =>
      match randChallenge with
      | Err e => Err (Wrapf "chap: failed to read random bytes for initiator challenge: %w" [] e)
      | Ok c => Ok (mkChapState user secret mutualSecret mutual id c)
      end
    end
  else Ok (mkChapState user secret mutualSecret mutual 0 []).

(** [v, ok := keys[k]] with the error of the missing key *)
Definition get_key (keys : gmap string string) (k : string) (missing : string) : res string :=
  match keys !! k with Some v => Ok v | None => Err (Errorf missing []) end.

Definition processChallenge (cs : chapState) (keys : gmap string string)
    : res (gmap string string) :=
  algo ← get_key keys "CHAP_A" "chap: missing CHAP_A key";
  if negb (String.eqb algo "5") then
    Err (loginError "unsupported CHAP algorithm CHAP_A=%s (only MD5/5 supported)"
           ReasonUnsupportedAlgorithm)
  else
    idStr ← get_key keys "CHAP_I" "chap: missing CHAP_I key";
    match ParseUint idStr 8 with
    | Err e => Err (Wrapf "chap: invalid CHAP_I value %q (expected 0-255): %w" [] e)
    | Ok idVal =>
      let id := uint8 idVal in
      cStr ← get_key keys "CHAP_C" "chap: missing CHAP_C key";
      match decodeCHAPBinary cStr with
      | Err e => Err (Wrapf "chap: failed to decode CHAP_C: %w" [] e)
      | Ok challenge =>
        match validateChallenge challenge with
        | Some e => Err e
        | None =>
          let response := chapResponse id (to_bytes (cs_secret cs)) challenge in
          let resp := <["CHAP_N" := cs_user cs]> (<["CHAP_R" := encodeCHAPBinary response]> ∅) in
          let resp :=
            if cs_isMutual cs then
              <["CHAP_C" := encodeCHAPBinary (cs_initiatorChallenge cs)]>
                (<["CHAP_I" := FormatUint (cs_initiatorID cs)]> resp)
            else resp in
          Ok resp
        end
      end
    end.

(** [subtle.ConstantTimeCompare(x, y) == 1] *)
Definition ConstantTimeCompare (x y : bytes) : bool := bool_decide (x = y).

(** [None] is success. *)
Definition verifyMutualResponse (cs : chapState) (keys : gmap string string) : option error :=
  match keys !! "CHAP_R" with
  | None => Some (Errorf "chap: missing CHAP_R in target mutual response" [])
  | Some rStr =>
    match decodeCHAPBinary rStr with
    | Err e => Some (Wrapf "chap: failed to decode target CHAP_R: %w" [] e)
    | Ok targetResp =>
      let expected :=
        chapResponse (cs_initiatorID cs) (to_bytes (cs_mutualSecret cs)) (cs_initiatorChallenge cs) in
      if negb (ConstantTimeCompare targetResp expected) then
        Some (loginError "mutual CHAP authentication failed: target response mismatch" ReasonBadResponse)
      else None
    end
  end.

(** ** Specification *)

(** RFC 1994: what a party that knows [secret] answers to [id] and [challenge],
    in the text form of the keys *)
Definition chap_answer (idStr cStr : string) (secret : bytes) : option bytes :=
  match ParseUint idStr 8, decodeCHAPBinary cStr with
  | Ok id, Ok challenge => Some (MD5 ([id] ++ secret ++ challenge))
  | _, _ => None
  end.

(** A challenge an initiator may answer *)
Definition acceptable (challenge : bytes) : Prop :=
  (minCHAPChallengeLen <= length challenge)%nat /\ Exists (fun b => b <> 0) challenge.

(** ** Lemmas *)

Lemma decode_encode_CHAPBinary data : bytes_ok data ->
  decodeCHAPBinary (encodeCHAPBinary data) = Ok data.
Proof.
  intros H. unfold decodeCHAPBinary, encodeCHAPBinary. rewrite to_of_bytes.
  - simpl. by apply hex_Decode_Encode.
  - apply Forall_app_2; [apply to_bytes_ok | by apply hex_Encode_ok].
Qed.

Lemma validateChallenge_None challenge : validateChallenge challenge = None <-> acceptable challenge.
Proof.
  unfold validateChallenge, acceptable.
  destruct (Nat.ltb_spec (length challenge) minCHAPChallengeLen) as [H|H].
  { split; [done|]. intros [? _]. lia. }
  destruct (existsb _ challenge) eqn:E; simpl; split; try done.
  - intros _. split; [done|]. apply List.existsb_exists in E as (b & Hin & Hb).
    apply Exists_exists. exists b. rewrite list_elem_of_In. split; [done|]. lia.
  - intros [_ Hex]. apply Exists_exists in Hex as (b & Hin & Hb).
    enough (existsb (fun b => negb (b =? 0)) challenge = true) by congruence.
    apply List.existsb_exists. exists b. rewrite <- list_elem_of_In. split; [done|]. lia.
Qed.

Lemma processChallenge_mutual cs keys sent : cs_isMutual cs = true ->
  processChallenge cs keys = Ok sent ->
  sent !! "CHAP_I" = Some (FormatUint (cs_initiatorID cs)) /\
  sent !! "CHAP_C" = Some (encodeCHAPBinary (cs_initiatorChallenge cs)).
Proof.
  intros Hm. unfold processChallenge, get_key.
  destruct (keys !! "CHAP_A"); simpl; [|done]. case_match; [done|].
  destruct (keys !! "CHAP_I"); simpl; [|done]. case_match; [|done].
  destruct (keys !! "CHAP_C"); simpl; [|done]. case_match; [|done].
  case_match; [done|]. rewrite Hm. intros [= <-]. by simplify_map_eq.
Qed.

(** ** Properties *)

(** Binary values survive the text keys: decodeCHAPBinary inverts
    encodeCHAPBinary. *)
Theorem decodeCHAPBinary_encodeCHAPBinary (data : bytes) :
  bytes_ok data -> decodeCHAPBinary (encodeCHAPBinary data) = Ok data.
Proof. apply decode_encode_CHAPBinary. Qed.

Lemma decodeCHAPBinary_encodeCHAPBinary_witness :
  decodeCHAPBinary (encodeCHAPBinary [0; 255; 16]) = Ok [0; 255; 16].
Proof. apply decodeCHAPBinary_encodeCHAPBinary. by apply (bool_decide_unpack _); vm_compute. Defined.

(** The initiator answers a CHAP challenge exactly when the algorithm is
    MD5, the identifier is an 8-bit number and the challenge decodes, has at
    least 16 bytes and is not all zero; the answer then carries the user name
    and the RFC 1994 response, and for mutual CHAP, and only then, the
    initiator's own identifier and challenge. *)
Theorem processChallenge_spec (cs : chapState) (keys : gmap string string) :
  match processChallenge cs keys with
  | Ok resp =>
      exists idStr cStr challenge r a,
        keys !! "CHAP_A" = Some "5" /\ keys !! "CHAP_I" = Some idStr /\ keys !! "CHAP_C" = Some cStr /\
        decodeCHAPBinary cStr = Ok challenge /\ acceptable challenge /\
        resp !! "CHAP_N" = Some (cs_user cs) /\ resp !! "CHAP_R" = Some r /\
        chap_answer idStr cStr (to_bytes (cs_secret cs)) = Some a /\ decodeCHAPBinary r = Ok a /\
        resp !! "CHAP_I" = (if cs_isMutual cs then Some (FormatUint (cs_initiatorID cs)) else None) /\
        resp !! "CHAP_C" =
          (if cs_isMutual cs then Some (encodeCHAPBinary (cs_initiatorChallenge cs)) else None)
  | Err _ =>
      ~ exists idStr cStr id challenge,
          keys !! "CHAP_A" = Some "5" /\ keys !! "CHAP_I" = Some idStr /\ keys !! "CHAP_C" = Some cStr /\
          ParseUint idStr 8 = Ok id /\ decodeCHAPBinary cStr = Ok challenge /\ acceptable challenge
  end.
Proof.
  unfold processChallenge, get_key.
  destruct (keys !! "CHAP_A") as [algo|]; simpl; [|contra].
  destruct (String.eqb_spec algo "5") as [->|Hne]; simpl; [|contra].
  destruct (keys !! "CHAP_I") as [idStr|]; simpl; [|contra].
  destruct (ParseUint idStr 8) as [id|e] eqn:Ei; [|contra].
  destruct (keys !! "CHAP_C") as [cStr|]; simpl; [|contra].
  destruct (decodeCHAPBinary cStr) as [challenge|e] eqn:Ec; [|contra].
  destruct (validateChallenge challenge) as [e|] eqn:Ev.
  - intros (i & c & id' & ch & _ & _ & [= <-] & _ & Hd & Ha%validateChallenge_None). congruence.
  - apply validateChallenge_None in Ev.
    set (response := chapResponse _ _ _).
    exists idStr, cStr, challenge, (encodeCHAPBinary response), response.
    assert (chap_answer idStr cStr (to_bytes (cs_secret cs)) = Some response).
    { unfold chap_answer. rewrite Ei, Ec. apply ParseUint_range in Ei.
      unfold response, chapResponse, wrap. by rewrite Z.mod_small. }
    rewrite decode_encode_CHAPBinary by apply MD5_ok.
    destruct (cs_isMutual cs); repeat (split; [done|]); by simplify_map_eq.
Qed.

(** Mutual CHAP accepts the target exactly when it proves the shared
    secret: verification succeeds if and only if CHAP_R decodes to the RFC 1994
    response to the initiator's identifier and challenge, and then also for the
    answer an honest target computes from the keys the initiator sent. *)
Theorem verifyMutualResponse_spec (cs : chapState) (keys : gmap string string) :
  let expected := MD5 ([cs_initiatorID cs] ++ to_bytes (cs_mutualSecret cs) ++ cs_initiatorChallenge cs) in
  (verifyMutualResponse cs keys = None <->
   exists r, keys !! "CHAP_R" = Some r /\ decodeCHAPBinary r = Ok expected) /\
  (forall sent a, u8 (cs_initiatorID cs) -> bytes_ok (cs_initiatorChallenge cs) ->
     cs_isMutual cs = true -> processChallenge cs keys = Ok sent ->
     chap_answer (default "" (sent !! "CHAP_I")) (default "" (sent !! "CHAP_C"))
       (to_bytes (cs_mutualSecret cs)) = Some a ->
     forall keys', keys' !! "CHAP_R" = Some (encodeCHAPBinary a) ->
     verifyMutualResponse cs keys' = None).
Proof.
  intros expected.
  assert (Hiff : forall ks, verifyMutualResponse cs ks = None <->
    exists r, ks !! "CHAP_R" = Some r /\ decodeCHAPBinary r = Ok expected).
  { intros ks. unfold verifyMutualResponse, ConstantTimeCompare.
    destruct (ks !! "CHAP_R") as [r|]; [|split; contra].
    destruct (decodeCHAPBinary r) as [t|e] eqn:Ed; [|split; contra].
    change (chapResponse _ _ _) with expected.
    destruct (bool_decide_reflect (t = expected)) as [->|Hne]; simpl; split; try done; [eauto|contra]. }
  split; [apply Hiff|]. intros sent a Hid Hc Hm Hsent Ha keys' Hr. apply Hiff.
  exists (encodeCHAPBinary a). split; [done|].
  destruct (processChallenge_mutual cs keys sent Hm Hsent) as [HI HC].
  rewrite HI, HC in Ha. unfold chap_answer in Ha. simpl in Ha.
  rewrite ParseUint_FormatUint in Ha by (unfold in_width in Hid; lia).
  rewrite decode_encode_CHAPBinary in Ha by done. injection Ha as <-.
  apply decode_encode_CHAPBinary, MD5_ok.
Qed.

Lemma verifyMutualResponse_spec_witness :
  let cs := mkChapState "user" "secret" "targetsecret" true 42 (MD5 [1]) in
  let keys : gmap string string := <["CHAP_A" := "5"]> (<["CHAP_I" := "7"]> (<["CHAP_C" := encodeCHAPBinary (MD5 [2])]> ∅)) in
  let a := MD5 ([42] ++ to_bytes "targetsecret" ++ MD5 [1]) in
  verifyMutualResponse cs (<["CHAP_R" := encodeCHAPBinary a]> ∅) = None.
Proof.
  intros cs keys a.
  destruct (processChallenge cs keys) as [sent|e] eqn:E; [|by vm_compute in E].
  refine (proj2 (verifyMutualResponse_spec cs keys) sent a _ _ eq_refl E _ _ _).
  - unfold in_width. simpl. lia.
  - apply MD5_ok.
  - destruct (processChallenge_mutual cs keys sent eq_refl E) as [-> ->]. vm_compute. reflexivity.
  - apply lookup_insert_eq.
Defined.
