(* ===== verification/Login.v ===== *)
(** The login phase ([src/internal/login/login.go], status codes of
    [errors.go]).

    A login runs on the raw connection: [lc_r] is what the target will send,
    [lc_w] what the initiator writes.  [LM] is the monad of the methods of
    [loginState]: they thread the state and may fail.  Arguments of the model
    are the results of [crypto/rand], the order in which [range] visits the map
    of CHAP keys, and the content of the pooled write buffer.  Context
    deadlines ([SetDeadline]) and the logger are left out; a deadline that
    expires is a read or write error of the connection. *)
From S2P Require Import Prelude Errors Bhs PduTactics PduInitiator PduTarget Pdu GoIO Digest Framer.
From S2P Require Import Text Negotiation Crypto Chap.
#[local] Open Scope string_scope.
#[local] Open Scope list_scope.
#[local] Open Scope Z_scope.

Definition stageSecurityNegotiation : Z := 0.
Definition stageOperationalNeg : Z := 1.
Definition stageFullFeaturePhase : Z := 3.

(** ** Status codes *)

Definition StatusSuccess : Z := 0x0000.
Definition StatusRedirectTemp : Z := 0x0101.
Definition StatusRedirectPerm : Z := 0x0102.
Definition StatusInitiatorError : Z := 0x0200.
Definition StatusAuthFailure : Z := 0x0201.
Definition StatusForbidden : Z := 0x0202.
Definition StatusTargetNotFound : Z := 0x0203.
Definition StatusTargetRemoved : Z := 0x0204.
Definition StatusTargetError : Z := 0x0300.
Definition StatusServiceUnavailable : Z := 0x0301.
Definition StatusOutOfResources : Z := 0x0302.

Definition statusMessage (class detail : Z) : string :=
  let code := Z.lor (uint16 (Z.shiftl class 8)) detail in
  if code =? StatusSuccess then "login succeeded" else
  if code =? StatusRedirectTemp then "target moved temporarily" else
  if code =? StatusRedirectPerm then "target moved permanently" else
  if code =? StatusInitiatorError then "initiator error" else
  if code =? StatusAuthFailure then "authentication failure" else
  if code =? StatusForbidden then "authorization failure" else
  if code =? StatusTargetNotFound then "target not found" else
  if code =? StatusTargetRemoved then "target removed" else
  if code =? StatusTargetError then "target error" else
  if code =? StatusServiceUnavailable then "service unavailable" else
  if code =? StatusOutOfResources then "out of resources" else
  "unknown status 0x%04x".

(** ** Configuration *)

Record loginConfig := mkLoginConfig {
  lc_targetName : string;
  lc_sessionType : string;
  lc_initiatorName : string;
  lc_chapUser : string;
  lc_chapSecret : string;
  lc_mutualCHAP : bool;
  lc_targetSecret : string;
  lc_headerDigest : list string;
  lc_dataDigest : list string;
  lc_isid : bytes;
  lc_tsih : Z;
  lc_operationalOverrides : option (gmap string string);
}.

Definition LoginOption : Type := loginConfig -> loginConfig.

Definition defaultConfig : loginConfig :=
  mkLoginConfig "" "Normal" "iqn.2026-03.com.github.rkujawa:uiscsi" "" "" false ""
    ["None"] ["None"] (zeros 6) 0 None.

Definition WithTarget (iqn : string) : LoginOption := fun '(mkLoginConfig _ st ini u s m t hd dd i ts o) =>
  mkLoginConfig iqn st ini u s m t hd dd i ts o.
Definition WithCHAP (user secret : string) : LoginOption :=
  fun '(mkLoginConfig tn st ini _ _ m t hd dd i ts o) =>
  mkLoginConfig tn st ini user secret m t hd dd i ts o.
Definition WithMutualCHAP (user secret targetSecret : string) : LoginOption :=
  fun '(mkLoginConfig tn st ini _ _ _ _ hd dd i ts o) =>
  mkLoginConfig tn st ini user secret true targetSecret hd dd i ts o.
Definition WithHeaderDigest (prefs : list string) : LoginOption :=
  fun '(mkLoginConfig tn st ini u s m t _ dd i ts o) =>
  mkLoginConfig tn st ini u s m t prefs dd i ts o.
Definition WithDataDigest (prefs : list string) : LoginOption :=
  fun '(mkLoginConfig tn st ini u s m t hd _ i ts o) =>
  mkLoginConfig tn st ini u s m t hd prefs i ts o.
Definition WithInitiatorName (iqn : string) : LoginOption :=
  fun '(mkLoginConfig tn st _ u s m t hd dd i ts o) =>
  mkLoginConfig tn st iqn u s m t hd dd i ts o.
Definition WithSessionType (st : string) : LoginOption :=
  fun '(mkLoginConfig tn _ ini u s m t hd dd i ts o) =>
  mkLoginConfig tn st ini u s m t hd dd i ts o.
Definition WithISID (isid : bytes) : LoginOption :=
  fun '(mkLoginConfig tn st ini u s m t hd dd _ ts o) =>
  mkLoginConfig tn st ini u s m t hd dd isid ts o.
Definition WithOperationalOverrides (overrides : gmap string string) : LoginOption :=
  fun '(mkLoginConfig tn st ini u s m t hd dd i ts _) =>
  mkLoginConfig tn st ini u s m t hd dd i ts (Some overrides).
Definition WithTSIH (tsih : Z) : LoginOption :=
  fun '(mkLoginConfig tn st ini u s m t hd dd i _ o) =>
  mkLoginConfig tn st ini u s m t hd dd i tsih o.

(** ** State *)

Record loginState := mkLoginState {
  ls_r : Reader;                (* conn, receiving *)
  ls_w : Writer;                (* conn, sending *)
  ls_cfg : loginConfig;
  ls_params : NegotiatedParams;
  ls_chap : option chapState;
  ls_cmdSN : Z;
  ls_expStatSN : Z;
  ls_tsih : Z;
  ls_isid : bytes;
}.

Definition LM (A : Type) : Type := loginState -> res A * loginState.

#[export] Instance LM_ret : MRet LM := fun A a ls => (Ok a, ls).
#[export] Instance LM_bind : MBind LM := fun A B f m ls =>
  match m ls with
  | (Ok a, ls) => f a ls
  | (Err e, ls) => (Err e, ls)
  end.

Definition LM_fail {A} (e : error) : LM A := fun ls => (Err e, ls).
Definition LM_get {A} (f : loginState -> A) : LM A := fun ls => (Ok (f ls), ls).
Definition LM_of {A} (wrap : error -> error) (r : res A) : LM A := fun ls =>
  (match r with Ok a => Ok a | Err e => Err (wrap e) end, ls).

Definition set_params (p : NegotiatedParams) : LM () := fun ls =>
  (Ok (), mkLoginState (ls_r ls) (ls_w ls) (ls_cfg ls) p (ls_chap ls) (ls_cmdSN ls)
            (ls_expStatSN ls) (ls_tsih ls) (ls_isid ls)).
Definition set_expStatSN (n : Z) : LM () := fun ls =>
  (Ok (), mkLoginState (ls_r ls) (ls_w ls) (ls_cfg ls) (ls_params ls) (ls_chap ls) (ls_cmdSN ls)
            n (ls_tsih ls) (ls_isid ls)).

(** ** Keys *)

Definition buildInitiatorKeys (cfg : loginConfig) : list KeyValue :=
  let keys :=
    [ KV "HeaderDigest" (Join (lc_headerDigest cfg) ",");
      KV "DataDigest" (Join (lc_dataDigest cfg) ",");
      KV "MaxConnections" "1";
      KV "InitialR2T" "Yes";
      KV "ImmediateData" "Yes";
      KV "MaxRecvDataSegmentLength" "8192";
      KV "MaxBurstLength" "262144";
      KV "FirstBurstLength" "65536";
      KV "DefaultTime2Wait" "2";
      KV "DefaultTime2Retain" "20";
      KV "MaxOutstandingR2T" "1";
      KV "DataPDUInOrder" "Yes";
      KV "DataSequenceInOrder" "Yes";
      KV "ErrorRecoveryLevel" "0" ] in
  match lc_operationalOverrides cfg with
  | Some overrides =>
      map (fun kv => match overrides !! kv_Key kv with
                     | Some v => KV (kv_Key kv) v
                     | None => kv
                     end) keys
  | None => keys
  end.

Definition firstKeys (cfg : loginConfig) (authMethod : string) : list KeyValue :=
  let keys := [ KV "InitiatorName" (lc_initiatorName cfg); KV "SessionType" (lc_sessionType cfg);
                KV "AuthMethod" authMethod ] in
  if String.eqb (lc_targetName cfg) "" then keys
  else (keys ++ [KV "TargetName" (lc_targetName cfg)])%list.

(** ** One exchange *)

Definition loginReq (ls : loginState) (data : bytes) (transit : bool) (csg nsg : Z) : LoginReq :=
  {| LoginReq_Hdr := mkHeader false 0 true 0 (uint32 (Z.of_nat (length data))) (zeros 8) 0;
     LoginReq_Transit := transit; LoginReq_Continue := false;
     LoginReq_CSG := csg; LoginReq_NSG := nsg;
     LoginReq_VersionMax := 0; LoginReq_VersionMin := 0;
     LoginReq_ISID := ls_isid ls; LoginReq_TSIH := ls_tsih ls; LoginReq_CID := 0;
     LoginReq_CmdSN := ls_cmdSN ls; LoginReq_ExpStatSN := ls_expStatSN ls;
     LoginReq_Data := data |}.

(** [resp.Data = data] *)
Definition with_resp_Data (data : bytes) (r : LoginResp) : LoginResp :=
  {| LoginResp_Hdr := LoginResp_Hdr r; LoginResp_Transit := LoginResp_Transit r;
     LoginResp_Continue := LoginResp_Continue r; LoginResp_CSG := LoginResp_CSG r;
     LoginResp_NSG := LoginResp_NSG r; LoginResp_VersionMax := LoginResp_VersionMax r;
     LoginResp_VersionActive := LoginResp_VersionActive r; LoginResp_ISID := LoginResp_ISID r;
     LoginResp_TSIH := LoginResp_TSIH r; LoginResp_StatSN := LoginResp_StatSN r;
     LoginResp_ExpCmdSN := LoginResp_ExpCmdSN r; LoginResp_MaxCmdSN := LoginResp_MaxCmdSN r;
     LoginResp_StatusClass := LoginResp_StatusClass r;
     LoginResp_StatusDetail := LoginResp_StatusDetail r; LoginResp_Data := data |}.

Section login.
Context (stale : bytes) (range : gmap string string -> list (string * string)).

(** [transport.WriteRawPDU(ls.conn, raw)] and [transport.ReadRawPDU(ls.conn, ...)] *)
Definition conn_write (raw : RawPDU) : LM () := fun ls =>
  let '(err, w) := w_Write (WriteRawPDU None raw stale) (ls_w ls) in
  (match err with Some e => Err e | None => Ok () end,
   mkLoginState (ls_r ls) w (ls_cfg ls) (ls_params ls) (ls_chap ls) (ls_cmdSN ls)
     (ls_expStatSN ls) (ls_tsih ls) (ls_isid ls)).
Definition conn_read : LM RawPDU := fun ls =>
  let '(res, r) := ReadRawPDU None false false (ls_r ls) in
  (res, mkLoginState r (ls_w ls) (ls_cfg ls) (ls_params ls) (ls_chap ls) (ls_cmdSN ls)
          (ls_expStatSN ls) (ls_tsih ls) (ls_isid ls)).

(** [fmt.Errorf("...%w", err)] on the error of [m] *)
Definition wrapErr {A} (fmt : string) (m : LM A) : LM A := fun ls =>
  match m ls with
  | (Err e, ls) => (Err (Wrapf fmt [] e), ls)
  | r => r
  end.

Definition sendLogin (keys : list KeyValue) (transit : bool) (csg nsg : Z) : LM LoginResp :=
  let data := EncodeTextKV keys in
  req ← LM_get (fun ls => loginReq ls data transit csg nsg);
  encoded ← LM_of (Wrapf "login: encode PDU: %w" []) (EncodePDU (PLoginReq req));
  let raw := newRawPDU (take BHSLength encoded) (drop BHSLength encoded) in
  _ ← wrapErr "login: write PDU: %w" (conn_write raw);
  respRaw ← wrapErr "login: read PDU: %w" conn_read;
  let resp := LoginResp_UnmarshalBHS (raw_BHS respRaw) in
  let resp := with_resp_Data (raw_DataSegment respRaw) resp in
  _ ← set_expStatSN (uint32 (LoginResp_StatSN resp + 1));
  mret resp.

(** [if resp.StatusClass != 0 { return &LoginError{...} }] after an exchange *)
Definition checkStatusClass (resp : LoginResp) : LM () :=
  if negb (LoginResp_StatusClass resp =? 0) then
    LM_fail (ELogin (mkLoginError (LoginResp_StatusClass resp) (LoginResp_StatusDetail resp)
      (statusMessage (LoginResp_StatusClass resp) (LoginResp_StatusDetail resp)) ReasonNone))
  else mret ().

(** [*ls.params = Defaults()] with the TSIH and the target name, when the target
    goes to full feature phase *)
Definition handleDirectFFP (resp : LoginResp) : LM () :=
  if LoginResp_Transit resp && (LoginResp_NSG resp =? stageFullFeaturePhase) then
    cfg ← LM_get ls_cfg;
    set_params (set_TargetName (lc_targetName cfg) (set_TSIH (LoginResp_TSIH resp) Defaults))
  else mret ().

(** ** Security negotiation *)

Definition doSecurityNegotiation : LM () :=
  chap ← LM_get ls_chap;
  cfg ← LM_get ls_cfg;
  match chap with
  | None =>
      resp ← sendLogin (firstKeys cfg "None") true stageSecurityNegotiation stageOperationalNeg;
      _ ← checkStatusClass resp;
      handleDirectFFP resp
  | Some cs =>
      resp ← sendLogin (firstKeys cfg "CHAP") false stageSecurityNegotiation stageSecurityNegotiation;
      _ ← checkStatusClass resp;
      resp ← sendLogin [KV "CHAP_A" "5"] false stageSecurityNegotiation stageSecurityNegotiation;
      _ ← checkStatusClass resp;
      let respKeys := kvToMap (DecodeTextKV (LoginResp_Data resp)) in
      chapResp ← LM_of (Wrapf "login: CHAP: %w" []) (processChallenge cs respKeys);
      let chapKeys := map (fun kv => KV kv.1 kv.2) (range chapResp) in
      resp ← sendLogin chapKeys true stageSecurityNegotiation stageOperationalNeg;
      _ ← checkStatusClass resp;
      _ ← (if cs_isMutual cs then
             let mutualKeys := kvToMap (DecodeTextKV (LoginResp_Data resp)) in
             match verifyMutualResponse cs mutualKeys with
             | Some e => LM_fail (Wrapf "login: mutual CHAP: %w" [] e)
             | None => mret ()
             end
           else mret ());
      handleDirectFFP resp
  end.

End login.

(** ** Operational negotiation *)

(** The loop over the target's keys *)
Fixpoint resolveAll (initiatorMap : gmap string string) (targetKVs : list KeyValue)
    : res (list KeyValue) :=
  match targetKVs with
  | [] => Ok []
  | kv :: kvs =>
    match findKeyDef (kv_Key kv) with
    | None => resolveAll initiatorMap kvs
    | Some def =>
      let initiatorVal := default "" (initiatorMap !! kv_Key kv) in
      match resolveKey def initiatorVal (kv_Value kv) with
      | Err e => Err (Wrapf "login: negotiate %s: %w" [] e)
      | Ok result => rest ← resolveAll initiatorMap kvs; Ok (KV (kv_Key kv) result :: rest)
      end
    end
  end.

(** [for i, kv := range resolved { if kv.Key == k { resolved[i].Value = v; break } }],
    with [found] *)
Fixpoint replaceFirst (k v : string) (kvs : list KeyValue) : list KeyValue * bool :=
  match kvs with
  | [] => ([], false)
  | kv :: kvs =>
    if String.eqb (kv_Key kv) k then (KV k v :: kvs, true)
    else let '(kvs, found) := replaceFirst k v kvs in (kv :: kvs, found)
  end.

(** The part of [doOperationalNegotiation] between the response and
    [applyNegotiatedKeys] *)
Definition resolveResponse (keys : list KeyValue) (data : bytes) : res (list KeyValue) :=
  let targetKVs := DecodeTextKV data in
  let targetMap := kvToMap targetKVs in
  let initiatorMap := kvToMap keys in
  resolved ← resolveAll initiatorMap targetKVs;
  match targetMap !! "MaxRecvDataSegmentLength" with
  | Some mrdsl =>
      let '(resolved, found) := replaceFirst "MaxRecvDataSegmentLength" mrdsl resolved in
      Ok (if found then resolved else (resolved ++ [KV "MaxRecvDataSegmentLength" mrdsl])%list)
  | None => Ok resolved
  end.

Section login2.
Context (stale : bytes) (range : gmap string string -> list (string * string)).

Definition doOperationalNegotiation : LM () :=
  _ ← set_params Defaults;
  cfg ← LM_get ls_cfg;
  let keys := buildInitiatorKeys cfg in
  resp ← sendLogin stale keys true stageOperationalNeg stageFullFeaturePhase;
  _ ← checkStatusClass resp;
  resolved ← LM_of id (resolveResponse keys (LoginResp_Data resp));
  params ← LM_get ls_params;
  let params := applyNegotiatedKeys params resolved in
  let params := set_TSIH (LoginResp_TSIH resp) params in
  let params := set_TargetName (lc_targetName cfg) params in
  set_params params.

Definition run : LM () :=
  _ ← doSecurityNegotiation stale range;
  doOperationalNegotiation.

(** What [crypto/rand] delivers: the last five bytes of the ISID, the CHAP
    identifier and the CHAP challenge *)
Record Randomness := mkRandomness {
  rnd_isid : res bytes;
  rnd_id : res Z;
  rnd_challenge : res bytes;
}.

(** The connection flags a successful login sets *)
Record ConnConfig := mkConnConfig {
  cc_digestHeader : bool;
  cc_digestData : bool;
  cc_maxRecvDSL : Z;
}.

Definition applyOptions (opts : list LoginOption) : loginConfig :=
  fold_left (fun cfg o => o cfg) opts defaultConfig.

Definition chooseISID (cfg : loginConfig) (rnd : Randomness) : res bytes :=
  if bool_decide (lc_isid cfg = zeros 6) then
    match rnd_isid rnd with
    | Ok b => Ok (0x40 :: b)
    | Err e => Err (Wrapf "login: generate ISID: %w" [] e)
    end
  else Ok (lc_isid cfg).

Definition Login (rnd : Randomness) (r : Reader) (w : Writer) (opts : list LoginOption)
    : res (NegotiatedParams * ConnConfig) * Reader * Writer :=
  let cfg := applyOptions opts in
  match chooseISID cfg rnd with
  | Err e => (Err e, r, w)
  | Ok isid =>
    let chap :=
      if String.eqb (lc_chapUser cfg) "" then Ok None
      else
        cs ← newCHAPState (lc_chapUser cfg) (lc_chapSecret cfg) (lc_mutualCHAP cfg)
               (lc_targetSecret cfg) (rnd_id rnd) (rnd_challenge rnd);
        Ok (Some cs) in
    match chap with
    | Err e => (Err e, r, w)
    | Ok chap =>
      let ls := mkLoginState r w cfg Params0 chap 1 0 (lc_tsih cfg) isid in
      match run ls with
      | (Err e, ls) => (Err e, ls_r ls, ls_w ls)
      | (Ok _, ls) =>
        let params := ls_params ls in
        let conn := mkConnConfig (np_HeaderDigest params) (np_DataDigest params)
                      (np_MaxRecvDataSegmentLength params) in
        let params := set_CmdSN (ls_cmdSN ls) params in
        let params := set_ExpStatSN (ls_expStatSN ls) params in
        let params := set_ISID (ls_isid ls) params in
        (Ok (params, conn), ls_r ls, ls_w ls)
      end
    end
  end.

End login2.

(** ** Lemmas *)

Lemma LM_bind_Ok {A B} (m : LM A) (f : A -> LM B) ls b ls' :
  (m ≫= f) ls = (Ok b, ls') <-> exists a ls1, m ls = (Ok a, ls1) /\ f a ls1 = (Ok b, ls').
Proof.
  unfold mbind, LM_bind. destruct (m ls) as [[a|e] ls1]; split; [eauto| |contra|contra].
  intros (a' & ls2 & [= <- <-] & H). done.
Qed.

Lemma LM_bind_step {A B} (m : LM A) (f : A -> LM B) ls a ls1 :
  m ls = (Ok a, ls1) -> (m ≫= f) ls = f a ls1.
Proof. unfold mbind, LM_bind. by intros ->. Qed.

(** The state after an exchange *)
Definition exchanged (r : Reader) (w : Writer) (expStatSN : Z) (ls : loginState) : loginState :=
  mkLoginState r w (ls_cfg ls) (ls_params ls) (ls_chap ls) (ls_cmdSN ls) expStatSN (ls_tsih ls)
    (ls_isid ls).

(** Type invariant of what goes into a request *)
Definition login_ok (ls : loginState) : Prop :=
  length (ls_isid ls) = 6%nat /\ bytes_ok (ls_isid ls) /\ u16 (ls_tsih ls) /\
  u32 (ls_cmdSN ls) /\ u32 (ls_expStatSN ls).

(** The bytes of a login request and of a login response on the wire *)
Definition req_wire (req : LoginReq) : bytes :=
  match EncodePDU (PLoginReq req) with Ok b => b | Err _ => [] end.
Definition resp_wire (p : LoginResp) : bytes :=
  match EncodePDU (PLoginResp p) with Ok b => b | Err _ => [] end.

(** A login response a target can send *)
Definition resp_ok (p : LoginResp) : Prop :=
  LoginResp_ok p /\ TotalAHSLength (LoginResp_Hdr p) = 0 /\
  DataSegmentLen (LoginResp_Hdr p) = Z.of_nat (length (LoginResp_Data p)) /\
  Z.of_nat (length (LoginResp_Data p)) <= 0xFFFFFF.

(** The response as the initiator has it *)
Definition received (p : LoginResp) : LoginResp := with_resp_Data (LoginResp_Data p) (LoginResp_wire p).

Lemma PadLen_small n : (n <= 0xFFFFFF)%Z -> 0 <= n -> uint32 n = n.
Proof. intros. apply wrap_id. unfold in_width. lia. Qed.

Lemma resp_wire_layout p : resp_ok p -> exists bhs, LoginResp_MarshalBHS p = Ok bhs /\
  LoginResp_UnmarshalBHS bhs = LoginResp_wire p /\
  unstamped (newRawPDU bhs (LoginResp_Data p)) /\
  resp_wire p = wire_layout LittleEndian (newRawPDU bhs (LoginResp_Data p)).
Proof.
  intros (Hok & Ha & Hl & Hb).
  pose proof (LoginResp_marshal_total p) as Ht. rewrite Hl in Ht.
  replace (_ >? 0xFFFFFF) with false in Ht by lia.
  destruct (LoginResp_MarshalBHS p) as [bhs|] eqn:Hm; [|done]. exists bhs.
  split; [done|]. split; [by apply LoginResp_roundtrip|]. split.
  - by apply (unstamped_PDU (PLoginResp p)).
  - unfold resp_wire. rewrite (EncodePDU_Ok (PLoginResp p) bhs) by done.
    unfold wire_layout. simpl. by rewrite app_nil_r.
Qed.

Lemma conn_read_resp ls p rest : resp_ok p -> rd_bytes (ls_r ls) = resp_wire p ++ rest ->
  exists raw r', conn_read ls = (Ok raw, exchanged r' (ls_w ls) (ls_expStatSN ls) ls) /\
    with_resp_Data (raw_DataSegment raw) (LoginResp_UnmarshalBHS (raw_BHS raw)) = received p /\
    rd_bytes r' = rest /\ rd_err r' = rd_err (ls_r ls).
Proof.
  intros Hp Hr. destruct (resp_wire_layout p Hp) as (bhs & _ & Hu & Hun & Hw).
  set (raw := newRawPDU bhs (LoginResp_Data p)) in *.
  assert (WriteRawPDU None raw [] = resp_wire p) as Hwr.
  { rewrite WriteRawPDU_layout by apply Hun. by rewrite Hw. }
  destruct (ReadRawPDU_framed None false false raw [] (ls_r ls) rest) as (r' & Hres & Hrest & Herr).
  { rewrite <- (stampDigests_off raw). by apply stampDigests_framed. }
  { by rewrite Hwr. }
  pose proof (verifyDigests_stamped false false raw Hun) as Hv.
  cbv zeta in Hv. rewrite stampDigests_off in Hv. rewrite Hv in Hres.
  exists raw, r'. unfold conn_read. rewrite Hres. split; [done|]. split; [|done].
  unfold received. simpl. by rewrite Hu.
Qed.

Lemma loginReq_ok ls data transit csg nsg : login_ok ls -> in_width 2 csg -> in_width 2 nsg ->
  (Z.of_nat (length data) <= 0xFFFFFF)%Z -> LoginReq_ok (loginReq ls data transit csg nsg).
Proof.
  intros (H1 & H2 & H3 & H4 & H5) Hc Hn Hl. unfold LoginReq_ok, loginReq, Header_ok. simpl.
  rewrite PadLen_small by lia.
  split; [|by auto 20 with width].
  split; [by auto with width|]. split; [unfold in_width; lia|]. split; [done|].
  split; [apply zeros_ok|]. by auto with width.
Qed.

(** What [sendLogin] writes: the encoded request, read back as the same request
    with the text of the keys. *)
Lemma req_wire_layout req : LoginReq_ok req -> TotalAHSLength (LoginReq_Hdr req) = 0 ->
  DataSegmentLen (LoginReq_Hdr req) = Z.of_nat (length (LoginReq_Data req)) ->
  (Z.of_nat (length (LoginReq_Data req)) <= 0xFFFFFF)%Z ->
  exists bhs, LoginReq_MarshalBHS req = Ok bhs /\ EncodePDU (PLoginReq req) = Ok (req_wire req) /\
    LoginReq_UnmarshalBHS bhs = LoginReq_wire req /\
    unstamped (newRawPDU bhs (LoginReq_Data req)) /\
    req_wire req = wire_layout LittleEndian (newRawPDU bhs (LoginReq_Data req)) /\
    take BHSLength (req_wire req) = bhs.
Proof.
  intros Hok Ha Hl Hb.
  pose proof (LoginReq_marshal_total req) as Ht. rewrite Hl in Ht.
  replace (_ >? 0xFFFFFF) with false in Ht by lia.
  destruct (LoginReq_MarshalBHS req) as [bhs|] eqn:Hm; [|done]. exists bhs.
  assert (Hlen : length bhs = BHSLength) by by eapply LoginReq_bhs_ok.
  unfold req_wire. rewrite (EncodePDU_Ok (PLoginReq req) bhs) by done.
  split; [done|]. split; [done|]. split; [by apply LoginReq_roundtrip|].
  split; [by apply (unstamped_PDU (PLoginReq req))|]. split.
  - unfold wire_layout. simpl. by rewrite app_nil_r.
  - by rewrite take_app_length'.
Qed.

Lemma PadLen_aligned n : n mod 4 = 0 -> PadLen n = 0.
Proof. intros H. unfold PadLen. by rewrite H. Qed.

(** The request is written unchanged: its padding is already in the data
    segment of the raw PDU, which is therefore aligned. *)
Lemma conn_write_req stale req bhs : length bhs = BHSLength ->
  (Z.of_nat (length (LoginReq_Data req)) <= 0xFFFFFF)%Z ->
  req_wire req = wire_layout LittleEndian (newRawPDU bhs (LoginReq_Data req)) ->
  take BHSLength (req_wire req) = bhs ->
  WriteRawPDU None (newRawPDU (take BHSLength (req_wire req)) (drop BHSLength (req_wire req))) stale
  = req_wire req.
Proof.
  intros Hb Hl Hw Ht. rewrite WriteRawPDU_layout by by rewrite Ht. rewrite Ht.
  unfold wire_layout at 1. simpl. rewrite app_nil_r.
  assert (Hd : drop BHSLength (req_wire req) = LoginReq_Data req ++
    zeros (Z.to_nat (PadLen (Z.of_nat (length (LoginReq_Data req)))))).
  { rewrite Hw. unfold wire_layout. simpl. rewrite app_nil_r, drop_app_length' by done.
    by rewrite PadLen_small by lia. }
  set (n := Z.of_nat (length (LoginReq_Data req))) in *.
  pose proof (PadLen_range n). pose proof (PadLen_spec n).
  rewrite Hd at 2. rewrite length_app, length_zeros, Nat2Z.inj_add, Z2Nat.id by lia. fold n.
  rewrite wrap_id by (unfold in_width; lia). rewrite PadLen_aligned by done.
  simpl. rewrite app_nil_r, <- Ht. apply take_drop.
Qed.

Lemma sendLogin_spec stale keys transit csg nsg ls p rest :
  login_ok ls -> in_width 2 csg -> in_width 2 nsg ->
  (Z.of_nat (length (EncodeTextKV keys)) <= 0xFFFFFF)%Z ->
  w_fails (ls_w ls) = [] -> resp_ok p -> rd_bytes (ls_r ls) = resp_wire p ++ rest ->
  exists r', sendLogin stale keys transit csg nsg ls =
    (Ok (received p),
     exchanged r'
       (mkWriter (w_out (ls_w ls) ++ req_wire (loginReq ls (EncodeTextKV keys) transit csg nsg)) [])
       (uint32 (LoginResp_StatSN p + 1)) ls) /\
    rd_bytes r' = rest /\ rd_err r' = rd_err (ls_r ls).
Proof.
  intros Hok Hc Hn Hlen Hw Hp Hr. unfold sendLogin.
  set (data := EncodeTextKV keys) in *. set (req := loginReq ls data transit csg nsg).
  destruct (req_wire_layout req) as (bhs & _ & Henc & _ & Hun & Hwl & Ht);
    [by apply loginReq_ok|done|by simpl; rewrite PadLen_small by lia|done|].
  assert (Hb : length bhs = BHSLength) by apply Hun.
  rewrite (LM_bind_step _ _ ls req ls) by done.
  rewrite (LM_bind_step _ _ ls (req_wire req) ls) by (unfold LM_of; by rewrite Henc).
  cbv zeta.
  set (ls1 := exchanged (ls_r ls) (mkWriter (w_out (ls_w ls) ++ req_wire req) []) (ls_expStatSN ls) ls).
  rewrite (LM_bind_step _ _ ls () ls1).
  2: { unfold wrapErr, conn_write. rewrite (conn_write_req stale req bhs) by done.
       unfold w_Write. by rewrite Hw. }
  destruct (conn_read_resp ls1 p rest Hp Hr) as (raw & r' & Hread & Hres & Hrest & Herr).
  rewrite (LM_bind_step _ _ ls1 raw (exchanged r' (ls_w ls1) (ls_expStatSN ls1) ls1))
    by (unfold wrapErr; by rewrite Hread).
  rewrite Hres. exists r'. split; [|by split].
  reflexivity.
Qed.

Lemma checkStatus_ok resp ls : LoginResp_StatusClass resp = 0 -> checkStatusClass resp ls = (Ok (), ls).
Proof. intros H. unfold checkStatusClass. by rewrite H. Qed.

Definition status_error (resp : LoginResp) : error :=
  ELogin (mkLoginError (LoginResp_StatusClass resp) (LoginResp_StatusDetail resp)
    (statusMessage (LoginResp_StatusClass resp) (LoginResp_StatusDetail resp)) ReasonNone).

Lemma kvToMap_snoc kvs kv : kvToMap (kvs ++ [kv]) = <[kv_Key kv := kv_Value kv]> (kvToMap kvs).
Proof. unfold kvToMap. by rewrite fold_left_app. Qed.

(** The value a resolved key has, given the texts of both sides *)
Definition resolved_value (im : gmap string string) (def : KeyDef) (k tv : string) : option string :=
  match resolveKey def (default "" (im !! k)) tv with Ok s => Some s | Err _ => None end.

Lemma resolveAll_app im kvs kvs' :
  resolveAll im (kvs ++ kvs') = (a ← resolveAll im kvs; b ← resolveAll im kvs'; Ok (a ++ b)).
Proof.
  induction kvs as [|kv kvs IH]; simpl.
  - by destruct (resolveAll im kvs').
  - destruct (findKeyDef (kv_Key kv)); [|done]. destruct (resolveKey _ _ _); [|done].
    rewrite IH. destruct (resolveAll im kvs); simpl; [|done]. by destruct (resolveAll im kvs').
Qed.

Lemma resolveAll_map im kvs rs k def : findKeyDef k = Some def ->
  resolveAll im kvs = Ok rs ->
  kvToMap rs !! k = (tv ← kvToMap kvs !! k; resolved_value im def k tv).
Proof.
  intros Hdef. revert rs. induction kvs as [|kv kvs IH] using rev_ind; intros rs H.
  { injection H as <-. done. }
  rewrite resolveAll_app in H. destruct (resolveAll im kvs) as [a|]; [|done]. simpl in H.
  specialize (IH a eq_refl). rewrite kvToMap_snoc.
  destruct (findKeyDef (kv_Key kv)) as [def'|] eqn:Hf.
  - destruct (resolveKey def' _ (kv_Value kv)) as [s|] eqn:Hr; [|done]. injection H as <-.
    rewrite kvToMap_snoc. simpl kv_Key. destruct (decide (kv_Key kv = k)) as [<-|Hne].
    + rewrite Hdef in Hf. injection Hf as ->. rewrite !lookup_insert_eq. simpl.
      unfold resolved_value. by rewrite Hr.
    + by rewrite !lookup_insert_ne.
  - injection H as <-. rewrite app_nil_r, lookup_insert_ne; [done|]. congruence.
Qed.

(** The last answer for a key has been resolved. *)
Lemma resolveAll_resolved im kvs k def tv rs : findKeyDef k = Some def -> resolveAll im kvs = Ok rs ->
  kvToMap kvs !! k = Some tv -> exists s, resolveKey def (default "" (im !! k)) tv = Ok s.
Proof.
  intros Hdef. revert rs tv. induction kvs as [|kv kvs IH] using rev_ind; intros rs tv H Hk; [done|].
  rewrite resolveAll_app in H. destruct (resolveAll im kvs) as [a|]; [|done]. cbn [mbind result_bind resolveAll] in H.
  rewrite kvToMap_snoc in Hk. destruct (decide (kv_Key kv = k)) as [<-|Hne].
  - rewrite lookup_insert_eq in Hk. injection Hk as <-. rewrite Hdef in H.
    destruct (resolveKey def _ (kv_Value kv)) as [s|]; [by exists s|done].
  - rewrite lookup_insert_ne in Hk by done. by apply (IH a).
Qed.

Lemma replaceFirst_other k v kvs k' : k' <> k ->
  kvToMap (replaceFirst k v kvs).1 !! k' = kvToMap kvs !! k'.
Proof.
  intros Hne. unfold kvToMap. generalize (∅ : gmap string string).
  induction kvs as [|kv kvs IH]; intros m; [done|]. simpl.
  destruct (String.eqb_spec (kv_Key kv) k) as [->|Hk]; simpl.
  - clear IH. revert m.
    enough (forall (m m' : gmap string string), m !! k' = m' !! k' ->
      fold_left (fun m p => <[kv_Key p := kv_Value p]> m) kvs m !! k' =
      fold_left (fun m p => <[kv_Key p := kv_Value p]> m) kvs m' !! k') as H.
    { intros m. apply H. by rewrite !lookup_insert_ne. }
    induction kvs as [|kv' kvs IH]; intros m m' Hm; [done|]. simpl. apply IH.
    destruct (decide (kv_Key kv' = k')) as [<-|]; by rewrite ?lookup_insert_eq, ?lookup_insert_ne.
  - destruct (replaceFirst k v kvs) as [l f]. simpl in *. apply IH.
Qed.

Lemma replaceFirst_found k v kvs :
  (replaceFirst k v kvs).2 = bool_decide (k ∈ map kv_Key kvs).
Proof.
  induction kvs as [|kv kvs IH]; [done|]. simpl.
  destruct (String.eqb_spec (kv_Key kv) k) as [->|Hne]; simpl.
  - symmetry. apply bool_decide_eq_true. by constructor.
  - destruct (replaceFirst k v kvs) as [l f]. simpl in *. rewrite IH.
    apply bool_decide_ext. rewrite elem_of_cons. intuition congruence.
Qed.

(** With a single occurrence, the replacement decides the value. *)
Lemma replaceFirst_once k v kvs : length (filter (fun kv => kv_Key kv = k) kvs) = 1%nat ->
  kvToMap (replaceFirst k v kvs).1 !! k = Some v.
Proof.
  unfold kvToMap. generalize (∅ : gmap string string).
  induction kvs as [|kv kvs IH]; intros m H; [done|]. simpl. rewrite filter_cons in H.
  destruct (String.eqb_spec (kv_Key kv) k) as [Hk|Hne].
  - rewrite decide_True in H by done. injection H as H. apply nil_length_inv in H.
    simpl. assert (Hm : (<[k:=v]> m) !! k = Some v) by apply lookup_insert_eq.
    clear IH. revert H Hm. generalize (<[k:=v]> m). clear m.
    induction kvs as [|kv' kvs IH]; intros m H Hm; [done|]. simpl. rewrite filter_cons in H.
    destruct (decide (kv_Key kv' = k)); [done|]. apply IH; [done|]. by rewrite lookup_insert_ne.
  - rewrite decide_False in H by done. destruct (replaceFirst k v kvs) as [l f]. simpl in *. by apply IH.
Qed.

Lemma resolveAll_keys im kvs rs k def : findKeyDef k = Some def -> resolveAll im kvs = Ok rs ->
  length (filter (fun kv => kv_Key kv = k) rs) = length (filter (fun kv => kv_Key kv = k) kvs).
Proof.
  intros Hdef. revert rs. induction kvs as [|kv kvs IH]; intros rs H; simpl in H; [by injection H as <-|].
  rewrite filter_cons. destruct (findKeyDef (kv_Key kv)) eqn:Hf.
  - destruct (resolveKey _ _ _); [|done]. destruct (resolveAll im kvs) as [rest|]; [|done].
    injection H as <-. rewrite filter_cons. simpl kv_Key.
    destruct (decide (kv_Key kv = k)); simpl; by rewrite (IH rest).
  - rewrite decide_False by congruence. by apply IH.
Qed.

Lemma resolveResponse_map keys data kvs k def : findKeyDef k = Some def ->
  k <> "MaxRecvDataSegmentLength" -> resolveResponse keys data = Ok kvs ->
  kvToMap kvs !! k =
    (tv ← kvToMap (DecodeTextKV data) !! k; resolved_value (kvToMap keys) def k tv).
Proof.
  intros Hdef Hk H. unfold resolveResponse in H.
  destruct (resolveAll _ _) as [rs|] eqn:Hr; [|done]. simpl in H.
  rewrite <- (resolveAll_map _ _ rs k def Hdef Hr).
  destruct (_ !! "MaxRecvDataSegmentLength") as [mrdsl|]; [|by injection H as <-].
  pose proof (replaceFirst_other "MaxRecvDataSegmentLength" mrdsl rs k Hk) as Ho.
  destruct (replaceFirst _ mrdsl rs) as [l f]. simpl in Ho. injection H as <-.
  destruct f; [done|]. rewrite kvToMap_snoc. by rewrite lookup_insert_ne by done.
Qed.

Lemma findKeyDef_registry k def : findKeyDef k = Some def -> def ∈ keyRegistry.
Proof. intros H. apply list_elem_of_In. by apply List.find_some in H as [? _]. Qed.

(** A key's value after the negotiation *)
Lemma resolveResponse_value keys data kvs k def : findKeyDef k = Some def -> k <> "MaxRecvDataSegmentLength" ->
  resolveResponse keys data = Ok kvs ->
  match kvToMap kvs !! k with Some v => Some (denotes def v) | None => np_get k Defaults end =
  match kvToMap (DecodeTextKV data) !! k with
  | None => np_get k Defaults
  | Some tv => agreed def (default "" (kvToMap keys !! k)) tv
  end.
Proof.
  intros Hdef Hk H. rewrite (resolveResponse_map _ _ _ k def Hdef Hk H).
  destruct (kvToMap (DecodeTextKV data) !! k) as [tv|] eqn:Et; [|done]. unfold resolveResponse in H.
  destruct (resolveAll _ _) as [rs|] eqn:Hr; [|done].
  destruct (resolveAll_resolved _ _ k def tv rs Hdef Hr Et) as [s Hs]. unfold resolved_value. cbn. rewrite Hs.
  symmetry. exact (resolveKey_agreed def _ _ s (findKeyDef_registry k def Hdef) Hs).
Qed.


Lemma resolveResponse_mrdsl keys data kvs v :
  let T := DecodeTextKV data in
  length (filter (fun kv => kv_Key kv = "MaxRecvDataSegmentLength") T) = 1%nat ->
  kvToMap T !! "MaxRecvDataSegmentLength" = Some v -> resolveResponse keys data = Ok kvs ->
  kvToMap kvs !! "MaxRecvDataSegmentLength" = Some v.
Proof.
  intros T Hone Hv H. unfold resolveResponse in H. fold T in H.
  destruct (resolveAll _ T) as [rs|] eqn:Hr; [|done]. simpl in H. rewrite Hv in H.
  pose proof (resolveAll_keys _ _ rs "MaxRecvDataSegmentLength" _ eq_refl Hr) as Hk.
  rewrite Hone in Hk. pose proof (replaceFirst_once _ v rs Hk) as Ho.
  destruct (replaceFirst _ v rs) as [l f]. simpl in Ho. injection H as <-.
  destruct f; [done|]. rewrite kvToMap_snoc. apply lookup_insert_eq.
Qed.

Definition with_params (np : NegotiatedParams) (ls : loginState) : loginState :=
  mkLoginState (ls_r ls) (ls_w ls) (ls_cfg ls) np (ls_chap ls) (ls_cmdSN ls) (ls_expStatSN ls)
    (ls_tsih ls) (ls_isid ls).

Lemma security_None stale range ls : ls_chap ls = None ->
  doSecurityNegotiation stale range ls =
  match sendLogin stale (firstKeys (ls_cfg ls) "None") true stageSecurityNegotiation
          stageOperationalNeg ls with
  | (Ok resp, ls) => (checkStatusClass resp ≫= fun _ => handleDirectFFP resp) ls
  | (Err e, ls) => (Err e, ls)
  end.
Proof. intros H. unfold doSecurityNegotiation, mbind, LM_bind, LM_get. by rewrite H. Qed.

Lemma checkStatus_bind {A} resp (f : () -> LM A) ls :
  (checkStatusClass resp ≫= f) ls =
  if negb (LoginResp_StatusClass resp =? 0) then (Err (status_error resp), ls) else f () ls.
Proof. unfold checkStatusClass, mbind, LM_bind. by destruct (negb _). Qed.

Lemma handleDirectFFP_spec resp ls : exists np, handleDirectFFP resp ls = (Ok (), with_params np ls).
Proof.
  unfold handleDirectFFP. case_match.
  - by eexists.
  - exists (ls_params ls). by destruct ls.
Qed.

(** Operational negotiation against one response; it does not depend on the
    parameters security negotiation left behind. *)
Lemma operational_spec stale ls p rest : login_ok ls -> w_fails (ls_w ls) = [] ->
  let keys := buildInitiatorKeys (ls_cfg ls) in
  (Z.of_nat (length (EncodeTextKV keys)) <= 0xFFFFFF)%Z ->
  resp_ok p -> rd_bytes (ls_r ls) = resp_wire p ++ rest ->
  let w' := mkWriter (w_out (ls_w ls) ++ req_wire (loginReq ls (EncodeTextKV keys) true 1 3)) [] in
  exists r', rd_bytes r' = rest /\ rd_err r' = rd_err (ls_r ls) /\ doOperationalNegotiation stale ls =
    if negb (LoginResp_StatusClass p =? 0)
    then (Err (status_error p),
          exchanged r' w' (uint32 (LoginResp_StatSN p + 1)) (with_params Defaults ls))
    else match resolveResponse keys (LoginResp_Data p) with
         | Err e => (Err e, exchanged r' w' (uint32 (LoginResp_StatSN p + 1)) (with_params Defaults ls))
         | Ok kvs =>
             (Ok (), with_params (set_TargetName (lc_targetName (ls_cfg ls))
                        (set_TSIH (LoginResp_TSIH p) (applyNegotiatedKeys Defaults kvs)))
                       (exchanged r' w' (uint32 (LoginResp_StatSN p + 1)) ls))
         end.
Proof.
  intros Hok Hw keys Hlen Hp Hr w'.
  destruct (sendLogin_spec stale keys true 1 3 (with_params Defaults ls) p rest) as (r' & Hs & Hr1 & Hr2);
    [done|by vm_compute|by vm_compute|done|done|done|done|].
  exists r'. split; [done|]. split; [done|]. unfold doOperationalNegotiation.
  rewrite (LM_bind_step _ _ ls () (with_params Defaults ls)) by done.
  rewrite (LM_bind_step _ _ _ (ls_cfg ls) (with_params Defaults ls)) by done. cbv zeta. fold keys.
  erewrite LM_bind_step by exact Hs. rewrite checkStatus_bind.
  change (LoginResp_StatusClass (received p)) with (LoginResp_StatusClass p).
  destruct (negb (LoginResp_StatusClass p =? 0)); [done|].
  change (LoginResp_Data (received p)) with (LoginResp_Data p).
  unfold mbind at 1, LM_bind at 1, LM_of at 1.
  destruct (resolveResponse keys (LoginResp_Data p)) as [kvs|e]; reflexivity.
Qed.

(** A successful exchange read one PDU: the next one on the connection. *)
Lemma sendLogin_reads stale keys transit csg nsg ls resp ls' :
  sendLogin stale keys transit csg nsg ls = (Ok resp, ls') ->
  exists raw, ReadRawPDU None false false (ls_r ls) = (Ok raw, ls_r ls') /\
    LoginResp_Data resp = raw_DataSegment raw.
Proof.
  intros H. unfold sendLogin in H.
  apply LM_bind_Ok in H as (req & ls1 & [= <- <-] & H).
  apply LM_bind_Ok in H as (enc & ls2 & Henc & H).
  apply LM_bind_Ok in H as (u & ls3 & Hw & H). apply LM_bind_Ok in H as (raw & ls4 & Hread & H).
  apply LM_bind_Ok in H as (u' & ls5 & [= _ <-] & H). injection H as <- <-. simpl ls_r.
  assert (ls_r ls3 = ls_r ls) as Hr.
  { unfold LM_of in Henc. injection Henc as _ <-. unfold wrapErr, conn_write in Hw.
    destruct (w_Write _ _) as [[e|] w]; [done|]. by injection Hw as _ <-. }
  unfold wrapErr, conn_read in Hread. rewrite Hr in Hread.
  destruct (ReadRawPDU None false false (ls_r ls)) as [[raw'|] r'] eqn:E; [|done].
  injection Hread as <- <-. by exists raw'.
Qed.

Lemma checkStatus_same resp ls u ls' : checkStatusClass resp ls = (Ok u, ls') -> ls' = ls.
Proof. unfold checkStatusClass. destruct (negb _); [done|]. by intros [= _ ->]. Qed.

Lemma security_mutual stale range ls cs u ls' : ls_chap ls = Some cs -> cs_isMutual cs = true ->
  doSecurityNegotiation stale range ls = (Ok u, ls') ->
  exists raw1 r1 raw2 r2 raw3 r3,
    ReadRawPDU None false false (ls_r ls) = (Ok raw1, r1) /\
    ReadRawPDU None false false r1 = (Ok raw2, r2) /\
    ReadRawPDU None false false r2 = (Ok raw3, r3) /\
    is_Ok (processChallenge cs (kvToMap (DecodeTextKV (raw_DataSegment raw2)))) = true /\
    verifyMutualResponse cs (kvToMap (DecodeTextKV (raw_DataSegment raw3))) = None.
Proof.
  intros Hc Hm H. unfold doSecurityNegotiation in H.
  apply LM_bind_Ok in H as (chap & ls1 & [= <- <-] & H). rewrite Hc in H.
  apply LM_bind_Ok in H as (cfg & ls1 & [= <- <-] & H).
  apply LM_bind_Ok in H as (resp1 & ls2 & (raw1 & H1 & _)%sendLogin_reads & H).
  apply LM_bind_Ok in H as (u1 & ls3 & ->%checkStatus_same & H).
  apply LM_bind_Ok in H as (resp2 & ls4 & (raw2 & H2 & Hd2)%sendLogin_reads & H).
  apply LM_bind_Ok in H as (u2 & ls5 & ->%checkStatus_same & H).
  apply LM_bind_Ok in H as (cresp & ls6 & Hpc & H). rewrite Hd2 in Hpc.
  unfold LM_of in Hpc. destruct (processChallenge _ _) as [c|] eqn:Ep; [|done]. injection Hpc as _ <-.
  apply LM_bind_Ok in H as (resp3 & ls7 & (raw3 & H3 & Hd3)%sendLogin_reads & H).
  apply LM_bind_Ok in H as (u3 & ls8 & _ & H).
  apply LM_bind_Ok in H as (u4 & ls9 & Hver & _). rewrite Hm, Hd3 in Hver.
  exists raw1, (ls_r ls2), raw2, (ls_r ls4), raw3, (ls_r ls7).
  repeat (split; [done|]). split; [by rewrite Ep|]. by destruct (verifyMutualResponse _ _).
Qed.

(** The two requests of a login without authentication, of which the second
    acknowledges the first response *)
Definition login_request (cfg : loginConfig) (isid : bytes) (expStatSN : Z) (keys : list KeyValue) (csg nsg : Z) : LoginReq :=
  loginReq (mkLoginState (NewReader []) (mkWriter [] []) cfg Params0 None 1 expStatSN (lc_tsih cfg) isid)
    (EncodeTextKV keys) true csg nsg.

(** Login without authentication as a function of the two responses *)
Lemma Login_None stale range rnd r w opts isid p1 p2 rest :
  let cfg := applyOptions opts in
  let keys1 := firstKeys cfg "None" in
  let keys2 := buildInitiatorKeys cfg in
  lc_chapUser cfg = "" -> chooseISID cfg rnd = Ok isid ->
  length isid = 6%nat -> bytes_ok isid -> u16 (lc_tsih cfg) -> w_fails w = [] ->
  (Z.of_nat (length (EncodeTextKV keys1)) <= 0xFFFFFF)%Z ->
  (Z.of_nat (length (EncodeTextKV keys2)) <= 0xFFFFFF)%Z ->
  resp_ok p1 -> resp_ok p2 -> rd_bytes r = resp_wire p1 ++ resp_wire p2 ++ rest ->
  let result :=
    if negb (LoginResp_StatusClass p1 =? 0) then Err (status_error p1)
    else if negb (LoginResp_StatusClass p2 =? 0) then Err (status_error p2)
    else
      kvs ← resolveResponse keys2 (LoginResp_Data p2);
      let np := set_TargetName (lc_targetName cfg)
                  (set_TSIH (LoginResp_TSIH p2) (applyNegotiatedKeys Defaults kvs)) in
      Ok (set_ISID isid (set_ExpStatSN (uint32 (LoginResp_StatSN p2 + 1)) (set_CmdSN 1 np)),
          mkConnConfig (np_HeaderDigest np) (np_DataDigest np) (np_MaxRecvDataSegmentLength np)) in
  (Login stale range rnd r w opts).1.1 = result /\
  (LoginResp_StatusClass p1 = 0 -> exists r', rd_bytes r' = rest /\ rd_err r' = rd_err r /\
   Login stale range rnd r w opts = (result, r',
     mkWriter ((w_out w ++ req_wire (login_request cfg isid 0 keys1 0 1)) ++
       req_wire (login_request cfg isid (uint32 (LoginResp_StatSN p1 + 1)) keys2 1 3)) [])).
Proof.
  intros cfg keys1 keys2 Hu Hisid Hil Hib Hts Hw Hk1 Hk2 Hp1 Hp2 Hr result.
  set (out := mkWriter _ _).
  enough (exists r' w', Login stale range rnd r w opts = (result, r', w') /\
    (LoginResp_StatusClass p1 = 0 -> rd_bytes r' = rest /\ rd_err r' = rd_err r /\ w' = out)) as (r' & w' & -> & H).
  { split; [done|]. intros H0. destruct (H H0) as (H1 & H2 & ->). by exists r'. }
  unfold Login. fold cfg. rewrite Hisid, Hu. simpl (String.eqb "" ""). cbv iota zeta.
  set (ls0 := mkLoginState r w cfg Params0 None 1 0 (lc_tsih cfg) isid).
  assert (Hok0 : login_ok ls0) by (unfold login_ok; simpl; by auto with width).
  destruct (sendLogin_spec stale keys1 true 0 1 ls0 p1 (resp_wire p2 ++ rest)) as (r1 & Hs1 & Hr1 & He1);
    [done|by vm_compute|by vm_compute|done|done|done|done|].
  set (ls1 := exchanged r1 _ _ ls0) in Hs1.
  unfold run. unfold mbind at 1, LM_bind at 1.
  rewrite security_None by done.
  change (sendLogin stale (firstKeys (ls_cfg ls0) "None") _ _ _ ls0) with (sendLogin stale keys1 true 0 1 ls0).
  rewrite Hs1, checkStatus_bind.
  change (LoginResp_StatusClass (received p1)) with (LoginResp_StatusClass p1).
  destruct (Z.eqb_spec (LoginResp_StatusClass p1) 0) as [H0|H0]; subst result; [cbn [negb]|by eexists _, _].
  destruct (handleDirectFFP_spec (received p1) ls1) as [np ->].
  destruct (operational_spec stale (with_params np ls1) p2 rest) as (r2 & Hr2 & He2 & ->); try done.
  { destruct Hok0 as (? & ? & ? & ? & _). refine (conj _ (conj _ (conj _ (conj _ _)))); try done.
    by apply wrap_range. }
  simpl ls_cfg. fold keys2.
  assert (He : rd_err r2 = rd_err r) by (rewrite He2; exact He1).
  exists r2, out. destruct (negb (LoginResp_StatusClass p2 =? 0)); [done|].
  by destruct (resolveResponse keys2 (LoginResp_Data p2)).
Qed.

(** ** Properties *)

(** What a target sees of a login request: any reader positioned at the
    bytes sendLogin writes gets one PDU that decodes to the request, with the
    stage, transit bit, ISID, TSIH and sequence numbers of the login state, and
    whose text decodes to exactly the keys, although the segment is padded
    before it is framed. *)
Theorem sendLogin_request stale keys transit csg nsg ls r rest :
  login_ok ls -> in_width 2 csg -> in_width 2 nsg ->
  (Z.of_nat (length (EncodeTextKV keys)) <= 0xFFFFFF)%Z -> Forall text_safe keys ->
  w_fails (ls_w ls) = [] ->
  let req := loginReq ls (EncodeTextKV keys) transit csg nsg in
  exists out, w_out (ls_w (sendLogin stale keys transit csg nsg ls).2) = w_out (ls_w ls) ++ out /\
  (rd_bytes r = out ++ rest ->
   exists raw r', ReadRawPDU None false false r = (Ok raw, r') /\ rd_bytes r' = rest /\
     LoginReq_UnmarshalBHS (raw_BHS raw) = LoginReq_wire req /\
     DecodeTextKV (raw_DataSegment raw) = keys).
Proof.
  intros Hok Hc Hn Hlen Hsafe Hw req. exists (req_wire req).
  destruct (req_wire_layout req) as (bhs & _ & Henc & Hu & Hun & Hwl & Ht);
    [by apply loginReq_ok|done|by simpl; rewrite PadLen_small by lia|done|].
  assert (Hb : length bhs = BHSLength) by apply Hun. split.
  - unfold sendLogin. fold req.
    set (ls1 := exchanged (ls_r ls) (mkWriter (w_out (ls_w ls) ++ req_wire req) []) (ls_expStatSN ls) ls).
    rewrite (LM_bind_step _ _ ls req ls) by done.
    rewrite (LM_bind_step _ _ ls (req_wire req) ls) by (unfold LM_of; by rewrite Henc).
    cbv zeta. rewrite (LM_bind_step _ _ ls () ls1).
    2: { unfold wrapErr, conn_write. rewrite (conn_write_req stale req bhs) by done.
         unfold w_Write. by rewrite Hw. }
    unfold wrapErr, conn_read. unfold mbind at 1, LM_bind at 1.
    by destruct (ReadRawPDU None false false (ls_r ls1)) as [[raw|e] r'].
  - intros Hr. set (raw := newRawPDU bhs (LoginReq_Data req)) in *.
    destruct (ReadRawPDU_framed None false false raw [] r rest) as (r' & Hres & Hrest & _).
    { rewrite <- (stampDigests_off raw). by apply stampDigests_framed. }
    { rewrite WriteRawPDU_layout by apply Hun. change (default_order None) with LittleEndian.
      by rewrite <- Hwl. }
    pose proof (verifyDigests_stamped false false raw Hun) as Hv. cbv zeta in Hv.
    rewrite stampDigests_off in Hv. rewrite Hv in Hres.
    exists raw, r'. repeat (split; [done|]). simpl.
    rewrite <- (app_nil_r (EncodeTextKV keys)), DecodeTextKV_app by done.
    apply app_nil_r.
Qed.

Lemma sendLogin_request_witness :
  let ls := mkLoginState (NewReader []) (mkWriter [] []) defaultConfig Params0 None 1 0 0
              [0x40; 1; 2; 3; 4; 5] in
  let keys := [KV "AuthMethod" "None"] in
  exists out, w_out (ls_w (sendLogin [] keys true 0 1 ls).2) = out /\
  (rd_bytes (NewReader out) = out ++ [] ->
   exists raw r', ReadRawPDU None false false (NewReader out) = (Ok raw, r') /\ rd_bytes r' = [] /\
     LoginReq_UnmarshalBHS (raw_BHS raw) = LoginReq_wire (loginReq ls (EncodeTextKV keys) true 0 1) /\
     DecodeTextKV (raw_DataSegment raw) = keys).
Proof.
  intros ls keys. set (out := w_out (ls_w (sendLogin [] keys true 0 1 ls).2)).
  destruct (sendLogin_request [] keys true 0 1 ls (NewReader out) []) as (o & Ho & H).
  - unfold login_ok. by apply (bool_decide_unpack _); vm_compute.
  - by vm_compute.
  - by vm_compute.
  - by vm_compute.
  - unfold text_safe. by apply (bool_decide_unpack _); vm_compute.
  - done.
  - exists o. split; [exact Ho|]. intros Hr. simpl in Ho. fold out in Ho. subst o. exact (H Hr).
Defined.


(** An initiator that prefers digests *)
Definition crc_config : loginConfig := applyOptions [WithHeaderDigest ["CRC32C"; "None"]].


(** C19.  Login without authentication, for every configuration and every pair of
    responses the target sends: a response with a non-zero status class is
    returned as the LoginError of that status; otherwise the negotiation error,
    or the negotiated parameters with the TSIH of the second response, CmdSN 1,
    ExpStatSN one past its StatSN, and the connection set to the negotiated
    digests.  The second exchange takes place whatever stage the first response
    moves to. *)
Theorem Login_None_spec stale range rnd r w opts isid p1 p2 rest :
  let cfg := applyOptions opts in
  let keys1 := firstKeys cfg "None" in
  let keys2 := buildInitiatorKeys cfg in
  lc_chapUser cfg = "" -> chooseISID cfg rnd = Ok isid ->
  length isid = 6%nat -> bytes_ok isid -> u16 (lc_tsih cfg) -> w_fails w = [] ->
  (Z.of_nat (length (EncodeTextKV keys1)) <= 0xFFFFFF)%Z ->
  (Z.of_nat (length (EncodeTextKV keys2)) <= 0xFFFFFF)%Z ->
  resp_ok p1 -> resp_ok p2 -> rd_bytes r = resp_wire p1 ++ resp_wire p2 ++ rest ->
  (Login stale range rnd r w opts).1.1 =
    if negb (LoginResp_StatusClass p1 =? 0) then Err (status_error p1)
    else if negb (LoginResp_StatusClass p2 =? 0) then Err (status_error p2)
    else
      kvs ← resolveResponse keys2 (LoginResp_Data p2);
      let np := set_TargetName (lc_targetName cfg)
                  (set_TSIH (LoginResp_TSIH p2) (applyNegotiatedKeys Defaults kvs)) in
      Ok (set_ISID isid (set_ExpStatSN (uint32 (LoginResp_StatSN p2 + 1)) (set_CmdSN 1 np)),
          mkConnConfig (np_HeaderDigest np) (np_DataDigest np) (np_MaxRecvDataSegmentLength np)).
Proof. intros. eapply Login_None; done. Qed.

Lemma Login_None_spec_witness :
  let hdr n := mkHeader false OpLoginResp false 0 n (zeros 8) 0 in
  let data := EncodeTextKV [KV "InitialR2T" "No"] in
  let p1 := mkLoginResp (hdr 0) true false 0 1 0 0 (zeros 6) 0 4 1 1 0 0 [] in
  let p2 := mkLoginResp (hdr 14) true false 1 3 0 0 (zeros 6) 9 5 1 1 0 0 data in
  let rnd := mkRandomness (Ok [1; 2; 3; 4; 5]) (Ok 0) (Ok []) in
  match (Login [] map_to_list rnd (NewReader (resp_wire p1 ++ resp_wire p2)) (mkWriter [] [])
           [WithTarget "iqn.x"]).1.1 with
  | Ok (np, _) => np_TSIH np = 9 /\ np_ExpStatSN np = 6
  | Err _ => False
  end.
Proof.
  intros hdr data p1 p2 rnd.
  assert (Hd : bytes_ok data) by apply EncodeTextKV_ok.
  rewrite (Login_None_spec [] map_to_list rnd _ _ _ [0x40; 1; 2; 3; 4; 5] p1 p2 []).
  all: try (vm_compute; repeat split; try discriminate; repeat constructor; discriminate).
Defined.

(** C21.  No login without mutual authentication: when mutual CHAP is configured
    and the login succeeds, then, whatever the connection delivered, the first
    three PDUs on it were read; the second proposed MD5 and held an identifier and
    a challenge of at least 16 bytes, not all zero; and the third held a CHAP_R
    that decodes to the MD5 sum of the initiator's own random identifier, the
    target's secret and the initiator's own random challenge. *)
Theorem mutual_chap_authenticated stale range rnd r w opts res r' w' :
  let cfg := applyOptions opts in
  lc_chapUser cfg <> "" -> lc_mutualCHAP cfg = true ->
  Login stale range rnd r w opts = (Ok res, r', w') ->
  exists id challenge raw1 r1 raw2 r2 raw3 r3,
    rnd_id rnd = Ok id /\ rnd_challenge rnd = Ok challenge /\
    ReadRawPDU None false false r = (Ok raw1, r1) /\
    ReadRawPDU None false false r1 = (Ok raw2, r2) /\
    ReadRawPDU None false false r2 = (Ok raw3, r3) /\
    let keys2 := kvToMap (DecodeTextKV (raw_DataSegment raw2)) in
    let keys3 := kvToMap (DecodeTextKV (raw_DataSegment raw3)) in
    (exists idStr cStr c, keys2 !! "CHAP_A" = Some "5" /\ keys2 !! "CHAP_I" = Some idStr /\
       is_Ok (ParseUint idStr 8) = true /\ keys2 !! "CHAP_C" = Some cStr /\ decodeCHAPBinary cStr = Ok c /\
       (16 <= length c)%nat /\ Exists (fun b => b <> 0)%Z c) /\
    (exists answer, keys3 !! "CHAP_R" = Some answer /\
       decodeCHAPBinary answer = Ok (MD5 ([id] ++ to_bytes (lc_targetSecret cfg) ++ challenge))).
Proof.
  intros cfg Hu Hm H. unfold Login in H. fold cfg in H.
  destruct (chooseISID cfg rnd) as [isid|]; [|done].
  rewrite (proj2 (String.eqb_neq _ _) Hu), Hm in H. cbv iota zeta in H.
  destruct (newCHAPState _ _ _ _ _ _) as [cs|] eqn:Hcs; [|done].
  change (Ok cs ≫= _) with (Ok (E := error) (Some cs)) in H. cbv iota beta in H.
  assert (Hmut : exists id challenge, rnd_id rnd = Ok id /\ rnd_challenge rnd = Ok challenge /\
    cs = mkChapState (lc_chapUser cfg) (lc_chapSecret cfg) (lc_targetSecret cfg) true id challenge).
  { unfold newCHAPState in Hcs. destruct (rnd_id rnd) as [id|], (rnd_challenge rnd) as [ch|]; try done.
    injection Hcs as <-. by exists id, ch. }
  destruct Hmut as (id & challenge & Hid & Hch & ->).
  destruct (run stale range _) as [[u|] ls'] eqn:Hrun; [|done]. clear H.
  unfold run in Hrun. apply LM_bind_Ok in Hrun as (u1 & ls1 & Hsec & _).
  eapply security_mutual in Hsec as (raw1 & r1 & raw2 & r2 & raw3 & r3 & H1 & H2 & H3 & Hp & Hv); [|done..].
  exists id, challenge, raw1, r1, raw2, r2, raw3, r3. do 5 (split; [done|]). split.
  - pose proof (processChallenge_spec (mkChapState (lc_chapUser cfg) (lc_chapSecret cfg) (lc_targetSecret cfg) true id challenge)
      (kvToMap (DecodeTextKV (raw_DataSegment raw2)))) as Hs.
    destruct (processChallenge _ _) as [resp|]; [|done].
    destruct Hs as (idStr & cStr & c & rr & a & A1 & A2 & A3 & A4 & [A5 A6] & _ & _ & A7 & _).
    exists idStr, cStr, c. do 2 (split; [done|]). split; [|done].
    unfold chap_answer in A7. by destruct (ParseUint idStr 8).
  - by apply verifyMutualResponse_spec in Hv.
Qed.

Lemma mutual_chap_authenticated_witness :
  let hdr n := mkHeader false OpLoginResp false 0 n (zeros 8) 0 in
  let resp t n data := mkLoginResp (hdr (Z.of_nat (length data))) t false 0 n 0 0 (zeros 6) 9 0 1 1 0 0 data in
  let challenge := MD5 [1] in
  let answer := MD5 ([42] ++ to_bytes "tsecret" ++ MD5 [2]) in
  let stream :=
    resp_wire (resp false 0 []) ++
    resp_wire (resp false 0 (EncodeTextKV [KV "CHAP_A" "5"; KV "CHAP_I" "7";
                                           KV "CHAP_C" (encodeCHAPBinary challenge)])) ++
    resp_wire (resp true 1 (EncodeTextKV [KV "CHAP_N" "t"; KV "CHAP_R" (encodeCHAPBinary answer)])) ++
    resp_wire (resp true 3 []) in
  let opts := [WithMutualCHAP "user" "secret" "tsecret"] in
  let rnd := mkRandomness (Ok [1; 2; 3; 4; 5]) (Ok 42) (Ok (MD5 [2])) in
  match Login [] map_to_list rnd (NewReader stream) (mkWriter [] []) opts with
  | (Ok _, _, _) =>
      exists id c raw1 r1 raw2 r2 raw3 r3,
        Ok (E := error) 42 = Ok id /\ Ok (E := error) (MD5 [2]) = Ok c /\
        ReadRawPDU None false false (NewReader stream) = (Ok raw1, r1) /\
        ReadRawPDU None false false r1 = (Ok raw2, r2) /\
        ReadRawPDU None false false r2 = (Ok raw3, r3) /\
        let keys2 := kvToMap (DecodeTextKV (raw_DataSegment raw2)) in
        let keys3 := kvToMap (DecodeTextKV (raw_DataSegment raw3)) in
        (exists idStr cStr c2, keys2 !! "CHAP_A" = Some "5" /\ keys2 !! "CHAP_I" = Some idStr /\
           is_Ok (ParseUint idStr 8) = true /\ keys2 !! "CHAP_C" = Some cStr /\ decodeCHAPBinary cStr = Ok c2 /\
           (16 <= length c2)%nat /\ Exists (fun b => b <> 0)%Z c2) /\
        (exists answer, keys3 !! "CHAP_R" = Some answer /\
           decodeCHAPBinary answer = Ok (MD5 ([id] ++ to_bytes "tsecret" ++ c)))
  | _ => False
  end.
Proof.
  intros hdr resp challenge answer stream opts rnd.
  destruct (Login [] map_to_list rnd (NewReader stream) (mkWriter [] []) opts) as [[[res|e] r'] w'] eqn:E.
  - exact (mutual_chap_authenticated [] map_to_list rnd _ _ opts res r' w' ltac:(discriminate) eq_refl E).
  - assert (is_Ok (Login [] map_to_list rnd (NewReader stream) (mkWriter [] []) opts).1.1 = true) as Hok
      by (vm_compute; reflexivity).
    rewrite E in Hok. discriminate Hok.
Defined.

(** A target that moves to full feature phase in the security stage and waits for
    commands never gets one: the initiator sends the operational stage anyway. *)
Lemma direct_FFP_not_honoured :
  let p := mkLoginResp (mkHeader false OpLoginResp false 0 0 (zeros 8) 0) true false 0 3 0 0
             (zeros 6) 9 0 1 1 0 0 [] in
  (Login [] map_to_list (mkRandomness (Ok [1; 2; 3; 4; 5]) (Ok 0) (Ok [])) (NewReader (resp_wire p))
     (mkWriter [] []) []).1.1 = Err (Wrapf "login: read PDU: %w" [] EOF).
Proof. vm_compute. reflexivity. Qed.
