(* ===== verification/Config.v ===== *)
(** The configuration of a session and its options
    ([src/internal/session/types.go]), and the states that a session reports.

    A duration is a number of nanoseconds.  Of a callback the configuration has
    whether one is set; the logger and the dial function are not part of it. *)
From S2P Require Import Prelude Errors Framer Text Login.
#[local] Open Scope string_scope.
#[local] Open Scope list_scope.
#[local] Open Scope Z_scope.

(** ** Lifecycle states ([src/internal/session/state.go]) *)

Inductive SessionState := SessionLogin | SessionFullFeature | SessionReconnecting | SessionClosed.
#[export] Instance SessionState_eq_dec : EqDecision SessionState.
Proof. solve_decision. Defined.

Definition SessionState_String (s : SessionState) : string :=
  match s with
  | SessionLogin => "login" | SessionFullFeature => "full-feature" | SessionReconnecting => "reconnecting"
  | SessionClosed => "closed"
  end.

(** ** Session options *)

Definition Second : Z := 1000000000.

Record sessionConfig := mkSessionConfig {
  sc_keepaliveInterval : Z;
  sc_keepaliveTimeout : Z;
  sc_asyncHandler : bool;
  sc_pduHook : bool;
  sc_metricsHook : bool;
  sc_stateChangeHook : bool;
  sc_maxReconnectAttempts : Z;
  sc_reconnectBackoff : Z;
  sc_snackTimeout : Z;
  sc_targetAddr : string;
  sc_loginOpts : list LoginOption;
  sc_digestByteOrder : option ByteOrder;
  sc_streamBufDepth : Z;
  sc_routerBufDepth : Z;
}.

(** [defaultConfig()] *)
Definition defaultConfig : sessionConfig :=
  mkSessionConfig (30 * Second) (5 * Second) false false false false 3 (1 * Second) (5 * Second)
    "" [] None 0 0.

Definition SessionOption : Type := sessionConfig -> sessionConfig.

Definition WithKeepaliveInterval (d : Z) : SessionOption :=
  fun '(mkSessionConfig _ kt a p m h n b s t l o sd rd) => mkSessionConfig d kt a p m h n b s t l o sd rd.
Definition WithKeepaliveTimeout (d : Z) : SessionOption :=
  fun '(mkSessionConfig ki _ a p m h n b s t l o sd rd) => mkSessionConfig ki d a p m h n b s t l o sd rd.
Definition WithAsyncHandler (set : bool) : SessionOption :=
  fun '(mkSessionConfig ki kt _ p m h n b s t l o sd rd) => mkSessionConfig ki kt set p m h n b s t l o sd rd.
Definition WithPDUHook (set : bool) : SessionOption :=
  fun '(mkSessionConfig ki kt a _ m h n b s t l o sd rd) => mkSessionConfig ki kt a set m h n b s t l o sd rd.
Definition WithMetricsHook (set : bool) : SessionOption :=
  fun '(mkSessionConfig ki kt a p _ h n b s t l o sd rd) => mkSessionConfig ki kt a p set h n b s t l o sd rd.
Definition WithStateChangeHook (set : bool) : SessionOption :=
  fun '(mkSessionConfig ki kt a p m _ n b s t l o sd rd) => mkSessionConfig ki kt a p m set n b s t l o sd rd.
Definition WithMaxReconnectAttempts (n : Z) : SessionOption :=
  fun '(mkSessionConfig ki kt a p m h _ b s t l o sd rd) => mkSessionConfig ki kt a p m h n b s t l o sd rd.
Definition WithReconnectBackoff (base : Z) : SessionOption :=
  fun '(mkSessionConfig ki kt a p m h n _ s t l o sd rd) => mkSessionConfig ki kt a p m h n base s t l o sd rd.
Definition WithSNACKTimeout (d : Z) : SessionOption :=
  fun '(mkSessionConfig ki kt a p m h n b _ t l o sd rd) => mkSessionConfig ki kt a p m h n b d t l o sd rd.
Definition WithStreamBufDepth (depth : Z) : SessionOption :=
  fun '(mkSessionConfig ki kt a p m h n b s t l o _ rd) => mkSessionConfig ki kt a p m h n b s t l o depth rd.
Definition WithRouterBufDepth (depth : Z) : SessionOption :=
  fun '(mkSessionConfig ki kt a p m h n b s t l o sd _) => mkSessionConfig ki kt a p m h n b s t l o sd depth.
Definition WithDigestByteOrder (bo : ByteOrder) : SessionOption :=
  fun '(mkSessionConfig ki kt a p m h n b s t l _ sd rd) => mkSessionConfig ki kt a p m h n b s t l (Some bo) sd rd.
Definition WithReconnectInfo (addr : string) (loginOpts : list LoginOption) : SessionOption :=
  fun '(mkSessionConfig ki kt a p m h n b s _ _ o sd rd) =>
  mkSessionConfig ki kt a p m h n b s addr loginOpts o sd rd.

(** The loop of [NewSession] over its options *)
Definition sessionOptions (opts : list SessionOption) : sessionConfig :=
  fold_left (fun cfg o => o cfg) opts defaultConfig.

(** [time.NewTicker(s.cfg.keepaliveInterval)] panics unless the interval is
    positive. *)
Definition keepaliveLoop_starts (cfg : sessionConfig) : bool := 0 <? sc_keepaliveInterval cfg.

(** [t.snackTimeout > 0] *)
Definition snackEnabled (cfg : sessionConfig) : bool := 0 <? sc_snackTimeout cfg.

(** [s.targetAddr != ""] *)
Definition reconnectEnabled (cfg : sessionConfig) : bool := negb (String.eqb (sc_targetAddr cfg) "").

