(* ===== verification/Options.v ===== *)
(** The options of [Dial] and [Discover] ([src/options.go]).  Loggers are not
    modelled, so [WithLogger] adds options that change nothing. *)
From S2P Require Import Prelude Errors Framer Text Login Config.
#[local] Open Scope string_scope.
#[local] Open Scope list_scope.
#[local] Open Scope Z_scope.

Record dialConfig := mkDialConfig {
  dc_loginOpts : list LoginOption;
  dc_sessionOpts : list SessionOption;
  dc_dialTimeout : Z;
}.

Definition Option_ : Type := dialConfig -> dialConfig.

Definition add_login (o : LoginOption) : Option_ := fun c =>
  mkDialConfig (dc_loginOpts c ++ [o]) (dc_sessionOpts c) (dc_dialTimeout c).
Definition add_session (o : SessionOption) : Option_ := fun c =>
  mkDialConfig (dc_loginOpts c) (dc_sessionOpts c ++ [o]) (dc_dialTimeout c).

Definition WithTarget (iqn : string) : Option_ := add_login (Login.WithTarget iqn).
Definition WithDialTimeout (d : Z) : Option_ := fun c => mkDialConfig (dc_loginOpts c) (dc_sessionOpts c) d.
Definition WithCHAP (user secret : string) : Option_ := add_login (Login.WithCHAP user secret).
Definition WithMutualCHAP (user secret targetSecret : string) : Option_ :=
  add_login (Login.WithMutualCHAP user secret targetSecret).
Definition WithInitiatorName (iqn : string) : Option_ := add_login (Login.WithInitiatorName iqn).
Definition WithHeaderDigest (prefs : list string) : Option_ := add_login (Login.WithHeaderDigest prefs).
Definition WithDataDigest (prefs : list string) : Option_ := add_login (Login.WithDataDigest prefs).
Definition WithLogger : Option_ := fun c => add_session (fun cfg => cfg) (add_login (fun cfg => cfg) c).
Definition WithKeepaliveInterval (d : Z) : Option_ := add_session (Config.WithKeepaliveInterval d).
Definition WithKeepaliveTimeout (d : Z) : Option_ := add_session (Config.WithKeepaliveTimeout d).
Definition WithAsyncHandler : Option_ := add_session (Config.WithAsyncHandler true).
Definition WithPDUHook : Option_ := add_session (Config.WithPDUHook true).
Definition WithMetricsHook : Option_ := add_session (Config.WithMetricsHook true).
Definition WithStateChangeHook : Option_ := add_session (Config.WithStateChangeHook true).
Definition WithMaxRecvDataSegmentLength (size : Z) : Option_ :=
  add_login (Login.WithOperationalOverrides {["MaxRecvDataSegmentLength" := FormatUint size]}).
Definition WithOperationalOverrides (overrides : gmap string string) : Option_ :=
  add_login (Login.WithOperationalOverrides overrides).
Definition WithDigestByteOrder (bo : ByteOrder) : Option_ := add_session (Config.WithDigestByteOrder bo).
Definition WithMaxBurstLength (size : Z) : Option_ :=
  add_login (Login.WithOperationalOverrides {["MaxBurstLength" := FormatUint size]}).
Definition WithFirstBurstLength (size : Z) : Option_ :=
  add_login (Login.WithOperationalOverrides {["FirstBurstLength" := FormatUint size]}).
Definition WithStreamBufDepth (depth : Z) : Option_ := add_session (Config.WithStreamBufDepth depth).
Definition WithRouterBufDepth (depth : Z) : Option_ := add_session (Config.WithRouterBufDepth depth).
Definition WithMaxReconnectAttempts (n : Z) : Option_ := add_session (Config.WithMaxReconnectAttempts n).
Definition WithReconnectBackoff (base : Z) : Option_ := add_session (Config.WithReconnectBackoff base).
Definition WithSNACKTimeout (d : Z) : Option_ := add_session (Config.WithSNACKTimeout d).

(** The loop of [Dial] and [Discover] over their options *)
Definition dialOptions (opts : list Option_) : dialConfig :=
  fold_left (fun c o => o c) opts (mkDialConfig [] [] 0).

(** The session options of [Dial]: the reconnect information first *)
Definition allSessionOpts (addr : string) (cfg : dialConfig) : list SessionOption :=
  WithReconnectInfo addr (dc_loginOpts cfg) :: dc_sessionOpts cfg.

(** ** Specification: settings by name *)

(** A call of one of the options *)
Inductive setting :=
  | Target (iqn : string) | DialTimeout (d : Z) | CHAP (user secret : string)
  | MutualCHAP (user secret targetSecret : string) | InitiatorName (iqn : string)
  | HeaderDigest (prefs : list string) | DataDigest (prefs : list string) | Logger
  | KeepaliveInterval (d : Z) | KeepaliveTimeout (d : Z) | AsyncHandler | PDUHook | MetricsHook
  | StateChangeHook | MaxRecvDataSegmentLength (size : Z) | OperationalOverrides (o : gmap string string)
  | DigestByteOrder (bo : ByteOrder) | MaxBurstLength (size : Z) | FirstBurstLength (size : Z)
  | StreamBufDepth (depth : Z) | RouterBufDepth (depth : Z) | MaxReconnectAttempts (n : Z)
  | ReconnectBackoff (base : Z) | SNACKTimeout (d : Z).

Definition option_of (s : setting) : Option_ :=
  match s with
  | Target iqn => WithTarget iqn | DialTimeout d => WithDialTimeout d
  | CHAP user secret => WithCHAP user secret
  | MutualCHAP user secret t => WithMutualCHAP user secret t
  | InitiatorName iqn => WithInitiatorName iqn
  | HeaderDigest prefs => WithHeaderDigest prefs | DataDigest prefs => WithDataDigest prefs
  | Logger => WithLogger | KeepaliveInterval d => WithKeepaliveInterval d
  | KeepaliveTimeout d => WithKeepaliveTimeout d | AsyncHandler => WithAsyncHandler
  | PDUHook => WithPDUHook | MetricsHook => WithMetricsHook | StateChangeHook => WithStateChangeHook
  | MaxRecvDataSegmentLength size => WithMaxRecvDataSegmentLength size
  | OperationalOverrides o => WithOperationalOverrides o | DigestByteOrder bo => WithDigestByteOrder bo
  | MaxBurstLength size => WithMaxBurstLength size | FirstBurstLength size => WithFirstBurstLength size
  | StreamBufDepth depth => WithStreamBufDepth depth | RouterBufDepth depth => WithRouterBufDepth depth
  | MaxReconnectAttempts n => WithMaxReconnectAttempts n | ReconnectBackoff base => WithReconnectBackoff base
  | SNACKTimeout d => WithSNACKTimeout d
  end.

(** The login configuration and the session configuration of [Dial addr] *)
Definition dial_login (l : list setting) : loginConfig :=
  Login.applyOptions (dc_loginOpts (dialOptions (map option_of l))).
Definition dial_session (addr : string) (l : list setting) : sessionConfig :=
  sessionOptions (allSessionOpts addr (dialOptions (map option_of l))).

(** The value the last setting of a kind gives, [d] if there is none *)
Definition last_of {A} (f : setting -> option A) (d : A) (l : list setting) : A :=
  fold_left (fun d s => default d (f s)) l d.

(** What a setting overrides of the keys a login proposes *)
Definition overrides_of (s : setting) : option (gmap string string) :=
  match s with
  | MaxRecvDataSegmentLength n => Some {["MaxRecvDataSegmentLength" := FormatUint n]}
  | MaxBurstLength n => Some {["MaxBurstLength" := FormatUint n]}
  | FirstBurstLength n => Some {["FirstBurstLength" := FormatUint n]}
  | OperationalOverrides o => Some o
  | _ => None
  end.

(** The keys a login proposes: the defaults, with [o]'s values in the place of its
    keys *)
Definition proposal (headerDigest dataDigest : list string) (o : gmap string string) : list KeyValue :=
  map (fun kv => KV (kv_Key kv) (default (kv_Value kv) (o !! kv_Key kv)))
    [ KV "HeaderDigest" (Join headerDigest ","); KV "DataDigest" (Join dataDigest ",");
      KV "MaxConnections" "1"; KV "InitialR2T" "Yes"; KV "ImmediateData" "Yes";
      KV "MaxRecvDataSegmentLength" "8192"; KV "MaxBurstLength" "262144"; KV "FirstBurstLength" "65536";
      KV "DefaultTime2Wait" "2"; KV "DefaultTime2Retain" "20"; KV "MaxOutstandingR2T" "1";
      KV "DataPDUInOrder" "Yes"; KV "DataSequenceInOrder" "Yes"; KV "ErrorRecoveryLevel" "0" ].

(** ** Lemmas *)

Lemma last_of_snoc {A} (f : setting -> option A) d l s :
  last_of f d (l ++ [s]) = default (last_of f d l) (f s).
Proof. unfold last_of. by rewrite fold_left_app. Qed.

Lemma last_of_none {A} (f : setting -> option A) d l : Forall (fun s => f s = None) l -> last_of f d l = d.
Proof.
  unfold last_of. intros H. revert d. induction H as [|s l Hs H IH]; intros d; [done|]. simpl. rewrite Hs. apply IH.
Qed.

Lemma last_of_last {A} (f : setting -> option A) d l s a l' : f s = Some a ->
  Forall (fun s => f s = None) l' -> last_of f d (l ++ s :: l') = a.
Proof.
  intros Hs H. unfold last_of. rewrite fold_left_app. simpl. rewrite Hs. simpl. by apply last_of_none.
Qed.

(** What a setting adds to the options of the login and of the session *)
Definition added (s : setting) : dialConfig := option_of s (mkDialConfig [] [] 0).

Lemma dialOptions_snoc l s (c := dialOptions (map option_of l)) :
  dc_loginOpts (dialOptions (map option_of (l ++ [s]))) = dc_loginOpts c ++ dc_loginOpts (added s) /\
  dc_sessionOpts (dialOptions (map option_of (l ++ [s]))) = dc_sessionOpts c ++ dc_sessionOpts (added s).
Proof.
  unfold dialOptions. rewrite map_app, fold_left_app. subst c.
  fold (dialOptions (map option_of l)). split; destruct s; cbn; by rewrite ?app_nil_r.
Qed.

Lemma dial_login_snoc l s :
  dial_login (l ++ [s]) = fold_left (fun cfg o => o cfg) (dc_loginOpts (added s)) (dial_login l).
Proof. unfold dial_login, Login.applyOptions. by rewrite (proj1 (dialOptions_snoc l s)), fold_left_app. Qed.

Lemma reconnectInfo_commutes s addr opts cfg :
  fold_left (fun cfg o => o cfg) (dc_sessionOpts (added s)) (WithReconnectInfo addr opts cfg) =
  WithReconnectInfo addr opts (fold_left (fun cfg o => o cfg) (dc_sessionOpts (added s)) cfg).
Proof. by destruct s, cfg. Qed.

(** The session configuration but for the reconnect information *)
Definition dial_tunables (l : list setting) : sessionConfig :=
  sessionOptions (dc_sessionOpts (dialOptions (map option_of l))).

Lemma dial_tunables_snoc l s :
  dial_tunables (l ++ [s]) = fold_left (fun cfg o => o cfg) (dc_sessionOpts (added s)) (dial_tunables l).
Proof. unfold dial_tunables, sessionOptions. by rewrite (proj2 (dialOptions_snoc l s)), fold_left_app. Qed.

Lemma dial_session_eq addr l :
  dial_session addr l =
  WithReconnectInfo addr (dc_loginOpts (dialOptions (map option_of l))) (dial_tunables l).
Proof.
  unfold dial_session, allSessionOpts, dial_tunables, sessionOptions. cbn [fold_left].
  generalize (dc_loginOpts (dialOptions (map option_of l))), defaultConfig. intros opts cfg.
  induction l as [|s l IH] using rev_ind; [done|].
  rewrite (proj2 (dialOptions_snoc l s)), !(fold_left_app (B := sessionConfig -> sessionConfig)), IH.
  apply reconnectInfo_commutes.
Qed.

Lemma reconnectInfo_fields addr opts cfg (cfg' := WithReconnectInfo addr opts cfg) :
  sc_targetAddr cfg' = addr /\ sc_loginOpts cfg' = opts /\ sc_snackTimeout cfg' = sc_snackTimeout cfg /\
  sc_maxReconnectAttempts cfg' = sc_maxReconnectAttempts cfg /\
  sc_keepaliveInterval cfg' = sc_keepaliveInterval cfg.
Proof. by destruct cfg. Qed.

Ltac last_setting l :=
  induction l as [|s l IH] using rev_ind; [done|];
  rewrite ?last_of_snoc, ?existsb_app, ?dial_login_snoc, ?dial_tunables_snoc, <- ?IH;
  destruct (dial_login l), (dial_tunables l), s; simpl; by rewrite ?orb_false_r, ?orb_true_r.

Lemma last_of_default {A} (f : setting -> option A) d l :
  default d (last_of (fun s => Some <$> f s) None l) = last_of f d l.
Proof.
  induction l as [|s l IH] using rev_ind; [done|]. rewrite !last_of_snoc. by destruct (f s).
Qed.

Lemma dial_overrides l :
  lc_operationalOverrides (dial_login l) = last_of (fun s => Some <$> overrides_of s) None l.
Proof. last_setting l. Qed.

Lemma dial_digests l :
  lc_headerDigest (dial_login l) =
    last_of (fun s => match s with HeaderDigest p => Some p | _ => None end) ["None"] l /\
  lc_dataDigest (dial_login l) =
    last_of (fun s => match s with DataDigest p => Some p | _ => None end) ["None"] l.
Proof. split; last_setting l. Qed.

Lemma dial_proposal l :
  buildInitiatorKeys (dial_login l) =
    proposal (last_of (fun s => match s with HeaderDigest p => Some p | _ => None end) ["None"] l)
             (last_of (fun s => match s with DataDigest p => Some p | _ => None end) ["None"] l)
             (last_of overrides_of ∅ l).
Proof.
  destruct (dial_digests l) as [<- <-]. rewrite <- last_of_default, <- dial_overrides.
  unfold buildInitiatorKeys, proposal. destruct (lc_operationalOverrides (dial_login l)) as [o|]; simpl.
  - repeat f_equal; by destruct (o !! _).
  - by rewrite !lookup_empty.
Qed.

(** [Dial]'s options set, of each kind, what the last option of that kind says:
    except that the three size options and [WithOperationalOverrides] are one
    kind, of which the last replaces all that came before, and that a
    [WithMutualCHAP] is not undone by a later [WithCHAP]. *)
Theorem dial_settings (addr : string) (l : list setting) :
  let cfg := dial_login l in
  let sc := dial_session addr l in
  (lc_targetName cfg = last_of (fun s => match s with Target iqn => Some iqn | _ => None end) "" l /\
   lc_chapUser cfg =
     last_of (fun s => match s with CHAP u _ | MutualCHAP u _ _ => Some u | _ => None end) "" l /\
   lc_chapSecret cfg =
     last_of (fun s => match s with CHAP _ x | MutualCHAP _ x _ => Some x | _ => None end) "" l /\
   lc_mutualCHAP cfg = existsb (fun s => match s with MutualCHAP _ _ _ => true | _ => false end) l /\
   lc_targetSecret cfg = last_of (fun s => match s with MutualCHAP _ _ t => Some t | _ => None end) "" l) /\
  buildInitiatorKeys cfg =
    proposal (last_of (fun s => match s with HeaderDigest p => Some p | _ => None end) ["None"] l)
             (last_of (fun s => match s with DataDigest p => Some p | _ => None end) ["None"] l)
             (last_of overrides_of ∅ l) /\
  (sc_targetAddr sc = addr /\ Login.applyOptions (sc_loginOpts sc) = cfg /\
   sc_snackTimeout sc =
     last_of (fun s => match s with SNACKTimeout d => Some d | _ => None end) (5 * Second) l /\
   sc_maxReconnectAttempts sc =
     last_of (fun s => match s with MaxReconnectAttempts n => Some n | _ => None end) 3 l /\
   keepaliveLoop_starts sc =
     (0 <? last_of (fun s => match s with KeepaliveInterval d => Some d | _ => None end) (30 * Second) l)).
Proof.
  cbv zeta. split; [split_and!; last_setting l|]. split; [apply dial_proposal|].
  rewrite dial_session_eq. destruct (reconnectInfo_fields addr (dc_loginOpts (dialOptions (map option_of l)))
    (dial_tunables l)) as (-> & -> & -> & -> & Hk). unfold keepaliveLoop_starts. rewrite Hk.
  split; [done|]. split; [done|]. split_and!; [last_setting l..|]. f_equal. last_setting l.
Qed.
