(* ===== verification/Types.v ===== *)
(** Commands, results and events of the session layer
    ([src/internal/session/types.go]), and the streaming reader
    ([chanreader.go]). *)
From S2P Require Import Prelude Errors GoIO Chan.
#[local] Open Scope string_scope.
#[local] Open Scope list_scope.
#[local] Open Scope Z_scope.

Record Command := mkCommand {
  cmd_CDB : bytes;
  cmd_Read : bool;
  cmd_Write : bool;
  cmd_ExpectedDataTransferLen : Z;
  cmd_LUN : Z;
  cmd_TaskAttributes : Z;
  cmd_Data : option Reader;
}.

Record Result := mkResult {
  rs_Status : Z;
  rs_SenseData : bytes;
  rs_Data : option Reader;
  rs_Overflow : bool;
  rs_Underflow : bool;
  rs_ResidualCount : Z;
  rs_Err : option error;
}.

(** [Result{Err: err}] *)
Definition errResult (e : error) : Result := mkResult 0 [] None false false 0 (Some e).

Record AsyncEvent := mkAsyncEvent {
  ae_EventCode : Z;
  ae_VendorCode : Z;
  ae_Parameter1 : Z;
  ae_Parameter2 : Z;
  ae_Parameter3 : Z;
  ae_Data : bytes;
}.

Record Portal := mkPortal { po_Address : string; po_Port : Z; po_GroupTag : Z }.

Record DiscoveryTarget := mkDiscoveryTarget { dt_Name : string; dt_Portals : list Portal }.

Record TMFResult := mkTMFResult { tmf_Response : Z; tmf_Err : option error }.

Definition TMFAbortTask : Z := 1.
Definition TMFAbortTaskSet : Z := 2.
Definition TMFClearTaskSet : Z := 3.
Definition TMFLogicalUnitReset : Z := 5.
Definition TMFTargetWarmReset : Z := 6.
Definition TMFTargetColdReset : Z := 7.
Definition TMFTaskReassign : Z := 14.

Definition TMFRespComplete : Z := 0.
Definition TMFRespTaskNotExist : Z := 1.
Definition TMFRespLUNNotExist : Z := 2.
Definition TMFRespTaskAllegiant : Z := 3.
Definition TMFRespReassignNotSupport : Z := 4.
Definition TMFRespNotSupported : Z := 5.
Definition TMFRespAuthFailed : Z := 6.
Definition TMFRespRejected : Z := 255.

Definition SNACKTypeDataR2T : Z := 0.
Definition SNACKTypeStatus : Z := 1.
Definition SNACKTypeDataACK : Z := 2.
Definition SNACKTypeRDataSNACK : Z := 3.

Definition ErrTaskAborted : error := Errorf "session: task aborted" [].
Definition ErrSessionDraining : error := Errorf "session: drain in progress" [].

(** ** chanReader *)

Definition defaultChanBufSize : nat := 128.

(** [closed] of the source is [ch_closed cr_ch]; the two are set together. *)
Record chanReader := mkChanReader {
  cr_ch : Chan bytes;
  cr_current : bytes;
  cr_err : option error;
}.

Definition newChanReader (depth : Z) : chanReader :=
  let depth := if depth <=? 0 then defaultChanBufSize else Z.to_nat depth in
  mkChanReader (make_chan depth) [] None.

(** [cr.Read(p)] with [len(p) = n] *)
Definition cr_Read (n : nat) (cr : chanReader) : outcome (bytes * option error * chanReader) :=
  match cr_current cr with
  | _ :: _ =>
      Done (take n (cr_current cr), None,
            mkChanReader (cr_ch cr) (drop n (cr_current cr)) (cr_err cr))
  | [] =>
    match recv (cr_ch cr) with
    | None => Blocks
    | Some (None, ch) =>
        let cr := mkChanReader ch [] (cr_err cr) in
        match cr_err cr with
        | Some e => Done ([], Some e, cr)
        | None => Done ([], Some EOF, cr)
        end
    | Some (Some chunk, ch) =>
        Done (take n chunk, None,
              mkChanReader ch (if Nat.ltb n (length chunk) then drop n chunk else []) (cr_err cr))
    end
  end.

Definition cr_close (cr : chanReader) : chanReader :=
  if ch_closed (cr_ch cr) then cr
  else mkChanReader (close_chan (cr_ch cr)) (cr_current cr) (cr_err cr).

Definition cr_closeWithError (err : error) (cr : chanReader) : chanReader :=
  if ch_closed (cr_ch cr) then cr
  else mkChanReader (close_chan (cr_ch cr)) (cr_current cr) (Some err).

(** [cr.ch <- chunk] *)
Definition cr_send (chunk : bytes) (cr : chanReader) : outcome chanReader :=
  match send chunk (cr_ch cr) with
  | Done ch => Done (mkChanReader ch (cr_current cr) (cr_err cr))
  | Blocks => Blocks
  | Panics => Panics
  end.

(** Reading until an error, with the sizes of the caller's buffers *)
Fixpoint cr_drain (sizes : list nat) (cr : chanReader) : outcome (bytes * option error) :=
  match sizes with
  | [] => Done ([], None)
  | n :: sizes =>
    match cr_Read n cr with
    | Done (bs, None, cr) =>
        match cr_drain sizes cr with
        | Done (bs', e) => Done (bs ++ bs', e)
        | Blocks => Blocks
        | Panics => Panics
        end
    | Done (bs, Some e, _) => Done (bs, Some e)
    | Blocks => Blocks
    | Panics => Panics
    end
  end.

(** The bytes a reader still holds *)
Definition cr_bytes (cr : chanReader) : bytes := cr_current cr ++ concat (ch_buf (cr_ch cr)).

(** ** Lemmas *)

Lemma cr_Read_bytes n cr bs cr' : (0 < n)%nat ->
  cr_Read n cr = Done (bs, None, cr') ->
  cr_bytes cr = bs ++ cr_bytes cr' /\ cr_err cr' = cr_err cr /\
  ch_closed (cr_ch cr') = ch_closed (cr_ch cr).
Proof.
  intros Hn. unfold cr_Read, cr_bytes, recv. destruct cr as [[buf cap cl] cur err]. simpl.
  destruct cur as [|b cur].
  - destruct buf as [|c buf]; [by destruct cl, err|]. simpl. intros [= <- <-]. simpl.
    split; [|done]. destruct (Nat.ltb_spec n (length c)).
    + by rewrite app_assoc, take_drop.
    + by rewrite take_ge by lia.
  - intros [= <- <-]. simpl. split; [|done]. by rewrite app_assoc, take_drop.
Qed.

(** The chunks of a closed reader come out as their concatenation, followed by
    the terminal error, however the caller sizes its buffers. *)
Lemma cr_drain_closed sizes cr : Forall (fun n => 0 < n)%nat sizes ->
  Forall (fun c => c <> []) (ch_buf (cr_ch cr)) -> ch_closed (cr_ch cr) = true ->
  (length (cr_bytes cr) < length sizes)%nat ->
  cr_drain sizes cr = Done (cr_bytes cr, Some (default EOF (cr_err cr))).
Proof.
  intros Hs. revert cr. induction Hs as [|n sizes Hn Hs IH]; intros cr Hne Hcl Hlen; [simpl in Hlen; lia|].
  simpl. destruct (cr_Read n cr) as [[[bs [e|]] cr']| |] eqn:E.
  - unfold cr_Read, recv, cr_bytes in *. destruct cr as [[buf cap cl] [|b cur] err]; simpl in *; [|done].
    destruct buf; [|done]. rewrite Hcl in E. simpl in E. by destruct err; injection E as <- <- _.
  - pose proof (cr_Read_bytes n cr bs cr' Hn E) as (Hb & He & Hc).
    assert (bs <> [] /\ Forall (fun c => c <> []) (ch_buf (cr_ch cr'))) as [Hbs Hne'].
    { unfold cr_Read, recv in E. destruct cr as [[buf cap cl] [|b cur] err]; simpl in *.
      - destruct buf as [|c buf]; [by destruct cl, err|]. injection E as <- <-. simpl.
        apply Forall_cons in Hne as [H1 H2]. split; [|done]. destruct c, n; simpl; done || lia.
      - injection E as <- <-. simpl. split; [|done]. by destruct n; [lia|]. }
    rewrite IH; [by rewrite Hb, He|done|by rewrite Hc|].
    rewrite Hb, length_app in Hlen. destruct bs; [done|]. simpl in Hlen. lia.
  - unfold cr_Read, recv in E. destruct cr as [[buf cap cl] [|b cur] err]; simpl in *; [|done].
    by destruct buf; [rewrite Hcl in E; destruct err|].
  - unfold cr_Read, recv in E. destruct cr as [[buf cap cl] [|b cur] err]; simpl in *; [|done].
    by destruct buf; [rewrite Hcl in E; destruct err|].
Qed.
