(* ===== verification/Task.v ===== *)
(** In-flight SCSI tasks: Data-In reassembly, SNACK recovery and completion
    ([src/internal/session/datain.go], [snack.go]).

    The methods of [task] are operations of the goroutine that runs [taskLoop],
    on the task, the write channel and the session's ExpStatSN ([TS]).  A send
    on [resultCh] or on the stream of a streaming task blocks when it is full
    and panics when it is closed, as in Go; a use of the read buffer of a task
    that has none is a nil dereference, also a panic.  Of the timer only whether
    it is armed is kept; [snackTimerFires] is what it does. *)
From S2P Require Import Prelude Errors Bhs PduTactics PduInitiator PduTarget Pdu GoIO Digest Framer.
From S2P Require Import Chan Serial Types.
#[local] Open Scope string_scope.
#[local] Open Scope list_scope.
#[local] Open Scope Z_scope.

Record snackState := mkSnackState {
  sn_pendingDataIn : gmap Z DataIn;
  sn_gapDetected : bool;
  sn_timer : bool;
}.

Definition newSnackState : snackState := mkSnackState ∅ false false.

(** [tk_snackTimeout] is whether the timeout is positive; the call's context and
    the start time are left to the loop that watches them. *)
Record task := mkTask {
  tk_itt : Z;
  tk_lun : Z;
  tk_cmd : Command;
  tk_cmdSN : Z;
  tk_buf : option bytes;
  tk_resultCh : Chan Result;
  tk_done : bool;
  tk_nextDataSN : Z;
  tk_nextOffset : Z;
  tk_isRead : bool;
  tk_isWrite : bool;
  tk_reader : option Reader;
  tk_bytesSent : Z;
  tk_streaming : bool;
  tk_dataReader : option chanReader;
  tk_erl : Z;
  tk_snackTimeout : bool;
  tk_snack : option snackState;
}.

(** The assignments [t.x = v] *)
Definition set_tk_lun (v : Z) (t : task) : task :=
  mkTask (tk_itt t) v (tk_cmd t) (tk_cmdSN t) (tk_buf t) (tk_resultCh t) (tk_done t)
    (tk_nextDataSN t) (tk_nextOffset t) (tk_isRead t) (tk_isWrite t) (tk_reader t)
    (tk_bytesSent t) (tk_streaming t) (tk_dataReader t) (tk_erl t) (tk_snackTimeout t)
    (tk_snack t).
Definition set_tk_cmd (v : Command) (t : task) : task :=
  mkTask (tk_itt t) (tk_lun t) v (tk_cmdSN t) (tk_buf t) (tk_resultCh t) (tk_done t)
    (tk_nextDataSN t) (tk_nextOffset t) (tk_isRead t) (tk_isWrite t) (tk_reader t)
    (tk_bytesSent t) (tk_streaming t) (tk_dataReader t) (tk_erl t) (tk_snackTimeout t)
    (tk_snack t).
Definition set_tk_cmdSN (v : Z) (t : task) : task :=
  mkTask (tk_itt t) (tk_lun t) (tk_cmd t) v (tk_buf t) (tk_resultCh t) (tk_done t)
    (tk_nextDataSN t) (tk_nextOffset t) (tk_isRead t) (tk_isWrite t) (tk_reader t)
    (tk_bytesSent t) (tk_streaming t) (tk_dataReader t) (tk_erl t) (tk_snackTimeout t)
    (tk_snack t).
Definition set_tk_buf (v : option bytes) (t : task) : task :=
  mkTask (tk_itt t) (tk_lun t) (tk_cmd t) (tk_cmdSN t) v (tk_resultCh t) (tk_done t)
    (tk_nextDataSN t) (tk_nextOffset t) (tk_isRead t) (tk_isWrite t) (tk_reader t)
    (tk_bytesSent t) (tk_streaming t) (tk_dataReader t) (tk_erl t) (tk_snackTimeout t)
    (tk_snack t).
Definition set_tk_resultCh (v : Chan Result) (t : task) : task :=
  mkTask (tk_itt t) (tk_lun t) (tk_cmd t) (tk_cmdSN t) (tk_buf t) v (tk_done t)
    (tk_nextDataSN t) (tk_nextOffset t) (tk_isRead t) (tk_isWrite t) (tk_reader t)
    (tk_bytesSent t) (tk_streaming t) (tk_dataReader t) (tk_erl t) (tk_snackTimeout t)
    (tk_snack t).
Definition set_tk_done (v : bool) (t : task) : task :=
  mkTask (tk_itt t) (tk_lun t) (tk_cmd t) (tk_cmdSN t) (tk_buf t) (tk_resultCh t) v
    (tk_nextDataSN t) (tk_nextOffset t) (tk_isRead t) (tk_isWrite t) (tk_reader t)
    (tk_bytesSent t) (tk_streaming t) (tk_dataReader t) (tk_erl t) (tk_snackTimeout t)
    (tk_snack t).
Definition set_tk_nextDataSN (v : Z) (t : task) : task :=
  mkTask (tk_itt t) (tk_lun t) (tk_cmd t) (tk_cmdSN t) (tk_buf t) (tk_resultCh t) (tk_done
    t) v (tk_nextOffset t) (tk_isRead t) (tk_isWrite t) (tk_reader t) (tk_bytesSent t)
    (tk_streaming t) (tk_dataReader t) (tk_erl t) (tk_snackTimeout t) (tk_snack t).
Definition set_tk_nextOffset (v : Z) (t : task) : task :=
  mkTask (tk_itt t) (tk_lun t) (tk_cmd t) (tk_cmdSN t) (tk_buf t) (tk_resultCh t) (tk_done
    t) (tk_nextDataSN t) v (tk_isRead t) (tk_isWrite t) (tk_reader t) (tk_bytesSent t)
    (tk_streaming t) (tk_dataReader t) (tk_erl t) (tk_snackTimeout t) (tk_snack t).
Definition set_tk_isRead (v : bool) (t : task) : task :=
  mkTask (tk_itt t) (tk_lun t) (tk_cmd t) (tk_cmdSN t) (tk_buf t) (tk_resultCh t) (tk_done
    t) (tk_nextDataSN t) (tk_nextOffset t) v (tk_isWrite t) (tk_reader t) (tk_bytesSent t)
    (tk_streaming t) (tk_dataReader t) (tk_erl t) (tk_snackTimeout t) (tk_snack t).
Definition set_tk_isWrite (v : bool) (t : task) : task :=
  mkTask (tk_itt t) (tk_lun t) (tk_cmd t) (tk_cmdSN t) (tk_buf t) (tk_resultCh t) (tk_done
    t) (tk_nextDataSN t) (tk_nextOffset t) (tk_isRead t) v (tk_reader t) (tk_bytesSent t)
    (tk_streaming t) (tk_dataReader t) (tk_erl t) (tk_snackTimeout t) (tk_snack t).
Definition set_tk_reader (v : option Reader) (t : task) : task :=
  mkTask (tk_itt t) (tk_lun t) (tk_cmd t) (tk_cmdSN t) (tk_buf t) (tk_resultCh t) (tk_done
    t) (tk_nextDataSN t) (tk_nextOffset t) (tk_isRead t) (tk_isWrite t) v (tk_bytesSent t)
    (tk_streaming t) (tk_dataReader t) (tk_erl t) (tk_snackTimeout t) (tk_snack t).
Definition set_tk_bytesSent (v : Z) (t : task) : task :=
  mkTask (tk_itt t) (tk_lun t) (tk_cmd t) (tk_cmdSN t) (tk_buf t) (tk_resultCh t) (tk_done
    t) (tk_nextDataSN t) (tk_nextOffset t) (tk_isRead t) (tk_isWrite t) (tk_reader t) v
    (tk_streaming t) (tk_dataReader t) (tk_erl t) (tk_snackTimeout t) (tk_snack t).
Definition set_tk_streaming (v : bool) (t : task) : task :=
  mkTask (tk_itt t) (tk_lun t) (tk_cmd t) (tk_cmdSN t) (tk_buf t) (tk_resultCh t) (tk_done
    t) (tk_nextDataSN t) (tk_nextOffset t) (tk_isRead t) (tk_isWrite t) (tk_reader t)
    (tk_bytesSent t) v (tk_dataReader t) (tk_erl t) (tk_snackTimeout t) (tk_snack t).
Definition set_tk_dataReader (v : option chanReader) (t : task) : task :=
  mkTask (tk_itt t) (tk_lun t) (tk_cmd t) (tk_cmdSN t) (tk_buf t) (tk_resultCh t) (tk_done
    t) (tk_nextDataSN t) (tk_nextOffset t) (tk_isRead t) (tk_isWrite t) (tk_reader t)
    (tk_bytesSent t) (tk_streaming t) v (tk_erl t) (tk_snackTimeout t) (tk_snack t).
Definition set_tk_erl (v : Z) (t : task) : task :=
  mkTask (tk_itt t) (tk_lun t) (tk_cmd t) (tk_cmdSN t) (tk_buf t) (tk_resultCh t) (tk_done
    t) (tk_nextDataSN t) (tk_nextOffset t) (tk_isRead t) (tk_isWrite t) (tk_reader t)
    (tk_bytesSent t) (tk_streaming t) (tk_dataReader t) v (tk_snackTimeout t) (tk_snack t).
Definition set_tk_snackTimeout (v : bool) (t : task) : task :=
  mkTask (tk_itt t) (tk_lun t) (tk_cmd t) (tk_cmdSN t) (tk_buf t) (tk_resultCh t) (tk_done
    t) (tk_nextDataSN t) (tk_nextOffset t) (tk_isRead t) (tk_isWrite t) (tk_reader t)
    (tk_bytesSent t) (tk_streaming t) (tk_dataReader t) (tk_erl t) v (tk_snack t).
Definition set_tk_snack (v : option snackState) (t : task) : task :=
  mkTask (tk_itt t) (tk_lun t) (tk_cmd t) (tk_cmdSN t) (tk_buf t) (tk_resultCh t) (tk_done
    t) (tk_nextDataSN t) (tk_nextOffset t) (tk_isRead t) (tk_isWrite t) (tk_reader t)
    (tk_bytesSent t) (tk_streaming t) (tk_dataReader t) (tk_erl t) (tk_snackTimeout t) v.

(** [Command{}] of a task that has not been given one *)
Definition Command0 : Command := mkCommand (zeros 16) false false 0 0 0 None.

Definition newTask (itt : Z) (isRead isWrite : bool) (streamBufDepth : Z) : task :=
  let streaming := isRead && negb (streamBufDepth =? 0) in
  mkTask itt 0 Command0 0 (if isRead && negb streaming then Some [] else None) (make_chan 1) false
    0 0 isRead isWrite None 0 streaming
    (if streaming then Some (newChanReader streamBufDepth) else None) 0 false None.

(** ** The state of the methods *)

Record TS := mkTS {
  ts_task : task;
  ts_writeCh : Chan RawPDU;
  ts_expStatSN : Z;
}.

Abbreviation TM := (SM TS).

Definition get_task : TM task := SM_get ts_task.
Definition upd_task (f : task -> task) : TM () :=
  SM_put (fun s => mkTS (f (ts_task s)) (ts_writeCh s) (ts_expStatSN s)).

(** [t.resultCh <- r] *)
Definition sendResult (r : Result) : TM () :=
  SM_chan (fun s => tk_resultCh (ts_task s))
    (fun c s => mkTS (set_tk_resultCh c (ts_task s)) (ts_writeCh s) (ts_expStatSN s)) r.

(** [t.cancelOnce.Do(func() { close(t.done) })] *)
Definition closeDone : TM () := upd_task (set_tk_done true).

(** [if t.streaming && t.dataReader != nil { t.dataReader.closeWithError(err) }] *)
Definition closeReaderWithError (err : error) : TM () :=
  upd_task (fun t => if tk_streaming t then set_tk_dataReader (cr_closeWithError err <$> tk_dataReader t) t
                     else t).

(** [t.dataReader.ch <- data] or [t.buf.Write(data)] *)
Definition appendData (data : bytes) : TM () :=
  t ← get_task;
  if tk_streaming t then
    match tk_dataReader t with
    | None => SM_panic
    | Some cr =>
      match cr_send data cr with
      | Done cr => upd_task (set_tk_dataReader (Some cr))
      | Blocks => SM_block
      | Panics => SM_panic
      end
    end
  else
    match tk_buf t with
    | None => SM_panic
    | Some b => upd_task (set_tk_buf (Some (b ++ data)))
    end.

Definition stopSnackTimer : TM () :=
  upd_task (fun t => match tk_snack t with
    | Some sn => set_tk_snack (Some (mkSnackState (sn_pendingDataIn sn) (sn_gapDetected sn) false)) t
    | None => t
    end).

Definition startSnackTimer : TM () :=
  upd_task (fun t =>
    let sn := default newSnackState (tk_snack t) in
    set_tk_snack (Some (mkSnackState (sn_pendingDataIn sn) (sn_gapDetected sn) true)) t).

Definition resetSnackTimer : TM () := startSnackTimer.

(** ** SNACK *)

Definition snackPDU (t : task) (snackType ttt begRun runLength expStatSN : Z) : SNACKReq :=
  mkSNACKReq (mkHeader false 0 true 0 0 (zeros 8) (tk_itt t)) snackType ttt expStatSN begRun runLength.

(** [None] is success.  The send waits for room on the write channel for up to five
    seconds.  As nobody else acts within an operation of this model, a channel that
    is full stays full, and the wait ends with the timeout; a wait that ends with
    room is this operation at the later moment at which the write pump has made it:
    until then the task loop, which is what waits, does nothing else. *)
Definition sendSNACK (snackType begRun runLength expStatSN : Z) : TM (option error) := fun s =>
  match SNACKReq_MarshalBHS (snackPDU (ts_task s) snackType 0 begRun runLength expStatSN) with
  | Err e => Done (Some (Wrapf "session: encode SNACK: %w" [] e), s)
  | Ok bhs =>
    match send (newRawPDU bhs []) (ts_writeCh s) with
    | Done c => Done (None, mkTS (ts_task s) c (ts_expStatSN s))
    | Blocks => Done (Some (Errorf "session: SNACK send timed out after 5s (writeCh blocked)" []), s)
    | Panics => Panics
    end
  end.

(** The function of the SNACK timer *)
Definition snackTimerFires : TM () :=
  expStatSN ← SM_get ts_expStatSN;
  _ ← sendSNACK SNACKTypeStatus 0 0 expStatSN;
  mret ().

(** The A-bit: a DataACK SNACK, dropped when the write channel is full *)
Definition sendDataACK (din : DataIn) : TM () := fun s =>
  let t := ts_task s in
  match SNACKReq_MarshalBHS (snackPDU t SNACKTypeDataACK (DataIn_TargetTransferTag din)
          (tk_nextDataSN t) 0 (ts_expStatSN s)) with
  | Err _ => Done ((), s)
  | Ok bhs =>
    match send (newRawPDU bhs []) (ts_writeCh s) with
    | Done c => Done ((), mkTS t c (ts_expStatSN s))
    | Blocks => Done ((), s)
    | Panics => Panics
    end
  end.

(** ** Completion *)

(** [bytes.NewReader(t.buf.Bytes())]; the buffer must exist *)
Definition bufReader : TM Reader :=
  t ← get_task;
  match tk_buf t with Some b => mret (NewReader b) | None => SM_panic end.

(** The delivery of a Data-In that carries status *)
Definition deliverStatus (din : DataIn) : TM () :=
  _ ← stopSnackTimer;
  t ← get_task;
  let result data := mkResult (DataIn_Status din) [] data (DataIn_ResidualOverflow din)
                       (DataIn_ResidualUnderflow din) (DataIn_ResidualCount din) None in
  if tk_streaming t then
    _ ← upd_task (fun t => set_tk_dataReader (cr_close <$> tk_dataReader t) t);
    sendResult (result None)
  else
    data ← bufReader;
    sendResult (result (Some data)).

(** Data accepted in sequence: append it and advance the counters *)
Definition acceptDataIn (din : DataIn) : TM () :=
  _ ← SM_when (negb (bool_decide (DataIn_Data din = []))) (appendData (DataIn_Data din));
  upd_task (fun t =>
    set_tk_nextOffset (uint32 (tk_nextOffset t + Z.of_nat (length (DataIn_Data din))))
      (set_tk_nextDataSN (uint32 (tk_nextDataSN t + 1)) t)).

(** The loop of [drainPendingDataIn]; every iteration removes a pending PDU, so
    [fuel] beyond their number is enough. *)
Fixpoint drain_loop (fuel : nat) : TM () :=
  match fuel with
  | O => mret ()
  | S fuel =>
    t ← get_task;
    match tk_snack t ≫= (fun sn => (fun din => (sn, din)) <$> sn_pendingDataIn sn !! tk_nextDataSN t) with
    | None => mret ()
    | Some (sn, din) =>
      _ ← upd_task (set_tk_snack (Some (mkSnackState (delete (DataIn_DataSN din) (sn_pendingDataIn sn))
                                          (sn_gapDetected sn) (sn_timer sn))));
      _ ← acceptDataIn din;
      if DataIn_HasStatus din then deliverStatus din else drain_loop fuel
    end
  end.

Definition drainPendingDataIn : TM () :=
  t ← get_task;
  match tk_snack t with
  | None => mret ()
  | Some sn => drain_loop (S (size (sn_pendingDataIn sn)))
  end.

Definition errDataSNGap (itt got want : Z) : error :=
  Errorf "session: DataSN gap (itt=0x%08x got=%d want=%d)" [itt; got; want].
Definition errBufferOffset (itt got want : Z) : error :=
  Errorf "session: BufferOffset mismatch (itt=0x%08x got=%d want=%d)" [itt; got; want].

(** The out-of-sequence branch of [handleDataIn] *)
Definition handleGap (din : DataIn) : TM () :=
  t ← get_task;
  if tk_erl t >=? 1 then
    let gap := uint32 (DataIn_DataSN din - tk_nextDataSN t) in
    let sn := default newSnackState (tk_snack t) in
    _ ← upd_task (set_tk_snack (Some (mkSnackState
           (<[DataIn_DataSN din := din]> (sn_pendingDataIn sn)) true (sn_timer sn))));
    expStatSN ← SM_get ts_expStatSN;
    err ← sendSNACK SNACKTypeDataR2T (tk_nextDataSN t) gap expStatSN;
    match err with
    | Some e =>
        let snackErr := Wrapf "session: SNACK send failed: %w" [] e in
        _ ← closeReaderWithError snackErr;
        _ ← sendResult (errResult snackErr);
        closeDone
    | None => mret ()
    end
  else
    let err := errDataSNGap (tk_itt t) (DataIn_DataSN din) (tk_nextDataSN t) in
    _ ← closeReaderWithError err;
    sendResult (errResult err).

Definition handleDataIn (din : DataIn) : TM () :=
  t ← get_task;
  _ ← SM_when ((tk_erl t >=? 1) && tk_snackTimeout t) resetSnackTimer;
  if negb (DataIn_DataSN din =? tk_nextDataSN t) then handleGap din
  else if negb (DataIn_BufferOffset din =? tk_nextOffset t) then
    let err := errBufferOffset (tk_itt t) (DataIn_BufferOffset din) (tk_nextOffset t) in
    _ ← closeReaderWithError err;
    sendResult (errResult err)
  else
    _ ← acceptDataIn din;
    _ ← SM_when (DataIn_Acknowledge din && (tk_erl t >=? 1)) (sendDataACK din);
    t ← get_task;
    let pending := match tk_snack t with
                   | Some sn => negb (bool_decide (sn_pendingDataIn sn = ∅))
                   | None => false
                   end in
    _ ← SM_when pending drainPendingDataIn;
    t ← get_task;
    if pending && Nat.ltb 0 (length (ch_buf (tk_resultCh t))) then mret ()
    else SM_when (DataIn_HasStatus din) (deliverStatus din).

(** The sense data of a SCSI response: a 16-bit length and that many bytes *)
Definition responseSense (data : bytes) : bytes :=
  if Nat.leb 2 (length data) then
    let senseLen := Z.to_nat (get_be 2 0 data) in
    if Nat.leb senseLen (length data - 2) then sub 2 senseLen data else []
  else [].

Definition handleSCSIResponse (resp : SCSIResponse) : TM () :=
  let senseData := responseSense (SCSIResponse_Data resp) in
  t ← get_task;
  let r data := mkResult (SCSIResponse_Status resp) senseData data (SCSIResponse_Overflow resp)
                  (SCSIResponse_Underflow resp) (SCSIResponse_ResidualCount resp) None in
  if tk_streaming t && bool_decide (is_Some (tk_dataReader t)) then
    _ ← upd_task (fun t => set_tk_dataReader (cr_close <$> tk_dataReader t) t);
    sendResult (r None)
  else if tk_isRead t then
    match tk_buf t with
    | Some (b :: bs) => sendResult (r (Some (NewReader (b :: bs))))
    | _ => sendResult (r None)
    end
  else sendResult (r None).

(** [cancel]: the result is dropped when one is already waiting. *)
Definition cancel (err : error) : TM () :=
  _ ← closeReaderWithError err;
  _ ← (fun s =>
    match send (errResult err) (tk_resultCh (ts_task s)) with
    | Done c => Done ((), mkTS (set_tk_resultCh c (ts_task s)) (ts_writeCh s) (ts_expStatSN s))
    | Blocks => Done ((), s)
    | Panics => Panics
    end);
  closeDone.
