(* ===== verification/Reassembly.v ===== *)
(** Data-In reassembly is correct whatever order the PDUs arrive in
    ([src/internal/session/datain.go], [snack.go]): the proof that [handleDataIn]
    with SNACK recovery implements "collect all the parts, then deliver them in
    order". *)
From S2P Require Import Prelude Errors Bhs PduTactics PduInitiator PduTarget Pdu GoIO Digest Framer.
From S2P Require Import Chan Serial Types Task.
#[local] Open Scope Z_scope.
#[local] Set Default Proof Using "All".

Fixpoint handle_all (dins : list DataIn) : TM () :=
  match dins with
  | [] => mret ()
  | din :: dins => _ ← handleDataIn din; handle_all dins
  end.

Definition pending_of (t : task) : gmap Z DataIn :=
  match tk_snack t with Some sn => sn_pendingDataIn sn | None => ∅ end.

(** ** SNACK sends *)

Lemma snack_marshals t ty ttt b l e : exists bhs,
  SNACKReq_MarshalBHS (snackPDU t ty ttt b l e) = Ok bhs.
Proof.
  pose proof (SNACKReq_marshal_total (snackPDU t ty ttt b l e)) as H.
  destruct (SNACKReq_MarshalBHS _); [eauto|]. by simpl in H.
Qed.

Lemma sendSNACK_ok ty b l e s : room 1 (ts_writeCh s) -> exists c',
  sendSNACK ty b l e s = Done (None, mkTS (ts_task s) c' (ts_expStatSN s)) /\ spared (ts_writeCh s) c'.
Proof.
  intros Hr. unfold sendSNACK. destruct (snack_marshals (ts_task s) ty 0 b l e) as [bhs ->].
  destruct (send_sent_on (newRawPDU bhs []) 0 _ Hr) as [-> _]. eexists. split; [done|]. right. eauto.
Qed.

(** A DataACK is sent, or dropped when the channel is full. *)
Lemma sendDataACK_ok din s : ch_closed (ts_writeCh s) = false -> exists c',
  sendDataACK din s = Done ((), mkTS (ts_task s) c' (ts_expStatSN s)) /\ spared (ts_writeCh s) c'.
Proof.
  intros Hc. unfold sendDataACK.
  destruct (snack_marshals (ts_task s) SNACKTypeDataACK (DataIn_TargetTransferTag din)
              (tk_nextDataSN (ts_task s)) 0 (ts_expStatSN s)) as [bhs ->].
  destruct (Nat.ltb_spec (length (ch_buf (ts_writeCh s))) (ch_cap (ts_writeCh s))) as [Hl|Hl].
  - destruct (send_sent_on (newRawPDU bhs []) 0 (ts_writeCh s)) as [-> _]; [split; [done|lia]|].
    eexists. split; [done|]. right. eauto.
  - unfold send. rewrite Hc, (proj2 (Nat.ltb_ge _ _)) by lia. exists (ts_writeCh s).
    split; [by destruct s|by left].
Qed.

(** ** A transfer *)

Section transfer.
Context (parts : list bytes) (pdu : nat -> DataIn) (erl0 itt0 : Z).
#[local] Abbreviation n := (length parts).

(** What the first [m] parts amount to *)
Definition prefix (m : nat) : bytes := concat (take m parts).

(** [pdu i] is the [i]-th Data-In of the transfer; the last one has the S-bit. *)
Hypothesis Hn : Z.of_nat n < 2 ^ 32.
Hypothesis Htotal : Z.of_nat (length (concat parts)) < 2 ^ 32.
Hypothesis HSN : forall i, DataIn_DataSN (pdu i) = Z.of_nat i.
Hypothesis Hoff : forall i, (i < n)%nat ->
  DataIn_BufferOffset (pdu i) = Z.of_nat (length (prefix i)).
Hypothesis Hdata : forall i, (i < n)%nat -> parts !! i = Some (DataIn_Data (pdu i)).
Hypothesis Hstatus : forall i, (i < n)%nat -> DataIn_HasStatus (pdu i) = bool_decide (S i = n).

(** The one result of the transfer *)
Definition transfer_result : Result :=
  let last := pdu (n - 1) in
  mkResult (DataIn_Status last) [] (Some (NewReader (concat parts))) (DataIn_ResidualOverflow last)
    (DataIn_ResidualUnderflow last) (DataIn_ResidualCount last) None.

Lemma prefix_S i : (i < n)%nat -> prefix (S i) = prefix i ++ DataIn_Data (pdu i).
Proof. intros Hi. unfold prefix. rewrite (take_S_r _ _ _ (Hdata i Hi)), concat_app. simpl. by rewrite app_nil_r. Qed.

Lemma prefix_all : prefix n = concat parts.
Proof. unfold prefix. by rewrite take_ge by lia. Qed.

Lemma prefix_length m : Z.of_nat (length (prefix m)) < 2 ^ 32.
Proof.
  eapply Z.le_lt_trans; [|exact Htotal]. apply Nat2Z.inj_le.
  unfold prefix. rewrite <- (take_drop m parts) at 2. rewrite concat_app, length_app. lia.
Qed.

(** The task after [m] parts were accepted in sequence and the PDUs of [got] were
    received; [results] is what is on the result channel. *)
Record progress (got : list nat) (m : nat) (results : list Result) (t : task) : Prop := {
  pr_task : tk_erl t = erl0 /\ tk_itt t = itt0 /\ tk_done t = false;
  pr_mode : tk_streaming t = false;
  pr_next : tk_nextDataSN t = Z.of_nat m;
  pr_off : tk_nextOffset t = Z.of_nat (length (prefix m));
  pr_buf : tk_buf t = Some (prefix m);
  pr_res : tk_resultCh t = mkChan results 1 false;
  pr_pending : forall z d, pending_of t !! z = Some d <->
    exists j, z = Z.of_nat j /\ d = pdu j /\ j ∈ got /\ (m <= j)%nat;
}.

Lemma stopSnackTimer_ok got m rs s : progress got m rs (ts_task s) ->
  exists t', stopSnackTimer s = Done ((), mkTS t' (ts_writeCh s) (ts_expStatSN s)) /\
             progress got m rs t'.
Proof.
  intros [H1 H2 H3 H4 H5 H6 H7]. eexists. split; [reflexivity|].
  unfold pending_of in H7. destruct (tk_snack (ts_task s)) eqn:E; simpl.
  - split; try done.
  - split; try done. intros z d. unfold pending_of. rewrite E. apply H7.
Qed.

Lemma resetSnackTimer_ok got m rs s : progress got m rs (ts_task s) ->
  exists t', resetSnackTimer s = Done ((), mkTS t' (ts_writeCh s) (ts_expStatSN s)) /\
             progress got m rs t'.
Proof.
  intros [H1 H2 H3 H4 H5 H6 H7]. eexists. split; [reflexivity|].
  unfold pending_of in H7. split; try done. unfold pending_of. simpl.
  by destruct (tk_snack (ts_task s)).
Qed.

(** Accepting part [m] *)
Lemma acceptDataIn_ok got m s : (m < n)%nat -> progress got m [] (ts_task s) ->
  pending_of (ts_task s) !! Z.of_nat m = None ->
  exists t', acceptDataIn (pdu m) s = Done ((), mkTS t' (ts_writeCh s) (ts_expStatSN s)) /\
    progress got (S m) [] t' /\ pending_of t' = pending_of (ts_task s).
Proof.
  intros Hm [H1 H2 H3 H4 H5 H6 H7] Hnone. unfold acceptDataIn.
  assert (Hnext : uint32 (Z.of_nat m + 1) = Z.of_nat (S m)).
  { rewrite wrap_id by (unfold in_width; lia). lia. }
  assert (Hoffs : uint32 (Z.of_nat (length (prefix m)) + Z.of_nat (length (DataIn_Data (pdu m))))
                  = Z.of_nat (length (prefix (S m)))).
  { pose proof (prefix_length (S m)) as Hp. rewrite (prefix_S m Hm), length_app in *.
    rewrite wrap_id by (unfold in_width; lia). lia. }
  set (t1 := set_tk_buf (Some (prefix (S m))) (ts_task s)).
  assert (Happ : SM_when (negb (bool_decide (DataIn_Data (pdu m) = []))) (appendData (DataIn_Data (pdu m))) s
                 = Done ((), mkTS t1 (ts_writeCh s) (ts_expStatSN s))).
  { subst t1. rewrite prefix_S by done. destruct (bool_decide_reflect (DataIn_Data (pdu m) = [])) as [E|E].
    - rewrite E, app_nil_r, <- H5. destruct s as [[] ? ?]. reflexivity.
    - unfold SM_when, appendData, mbind, SM_bind, get_task, SM_get. cbn [negb]. by rewrite H2, H5. }
  rewrite (SM_bind_Done _ _ _ _ _ Happ). eexists. split; [reflexivity|].
  split; [|done]. cbn [ts_task]. split; cbn [tk_erl tk_streaming tk_nextDataSN tk_nextOffset tk_buf tk_resultCh
    set_tk_nextOffset set_tk_nextDataSN t1 set_tk_buf]; try done.
  - by rewrite H3.
  - by rewrite H4.
  - intros z d. change (pending_of _) with (pending_of (ts_task s)). rewrite H7. split.
    + intros (j & -> & -> & Hj & Hle). exists j. repeat (split; [done|]).
      destruct (decide (j = m)) as [->|]; [|lia].
      assert (pending_of (ts_task s) !! Z.of_nat m = Some (pdu m)) by (apply H7; eauto). congruence.
    + intros (j & -> & -> & Hj & Hle). exists j. repeat (split; [done|]). lia.
Qed.

Lemma deliverStatus_ok got s : (0 < n)%nat -> progress got n [] (ts_task s) ->
  exists t', deliverStatus (pdu (n - 1)) s = Done ((), mkTS t' (ts_writeCh s) (ts_expStatSN s)) /\
    progress got n [transfer_result] t'.
Proof.
  intros Hpos Hp. unfold deliverStatus.
  destruct (stopSnackTimer_ok _ _ _ s Hp) as (t1 & Hst & Hp1).
  rewrite (SM_bind_Done _ _ _ _ _ Hst). destruct Hp1 as [H1 H2 H3 H4 H5 H6 H7].
  unfold mbind, SM_bind, get_task, SM_get. cbn [ts_task]. rewrite H2.
  unfold bufReader, mbind, SM_bind, get_task, SM_get. cbn [ts_task]. rewrite H5.
  unfold mret, SM_ret, sendResult, SM_chan. cbn [ts_task]. rewrite H6.
  eexists. split; [reflexivity|]. split; cbn; try done.
  unfold transfer_result. by rewrite prefix_all.
Qed.

Definition done_results (m : nat) : list Result :=
  if Nat.eqb m n then [transfer_result] else [].

Lemma progress_ext got got' m rs t : (forall j, j ∈ got <-> j ∈ got') ->
  progress got m rs t -> progress got' m rs t.
Proof.
  intros Hg [H1 H2 H3 H4 H5 H6 H7]. split; try done. intros z d. rewrite H7.
  by setoid_rewrite Hg.
Qed.

(** A part below the first missing one does not count as pending. *)
Lemma progress_ext_drop got k m rs t : (k < m)%nat -> progress got m rs t -> progress (k :: got) m rs t.
Proof.
  intros Hk [H1 H2 H3 H4 H5 H6 H7]. split; try done. intros z d. rewrite H7.
  split; intros (j & -> & -> & Hj & Hle); exists j; repeat split; auto.
  - apply elem_of_cons. by right.
  - apply elem_of_cons in Hj as [->|]; [lia|done].
Qed.

(** The drain loop takes the next part out of the pending ones and accepts it. *)
Lemma drain_take got m s sn d : (m < n)%nat -> progress got m [] (ts_task s) ->
  tk_snack (ts_task s) = Some sn -> sn_pendingDataIn sn !! Z.of_nat m = Some d ->
  d = pdu m /\ m ∈ got /\ exists t2,
    (_ ← upd_task (set_tk_snack (Some (mkSnackState (delete (DataIn_DataSN d) (sn_pendingDataIn sn))
                                         (sn_gapDetected sn) (sn_timer sn))));
     acceptDataIn d) s = Done ((), mkTS t2 (ts_writeCh s) (ts_expStatSN s)) /\
    progress got (S m) [] t2 /\ (size (pending_of t2) < size (pending_of (ts_task s)))%nat.
Proof.
  intros Hm [H1 H2 H3 H4 H5 H6 H7] Es Ed. unfold pending_of in *. rewrite Es in *.
  assert (Hd := Ed). apply H7 in Hd as (j & Hj & -> & Hin & _). apply Nat2Z.inj in Hj. subst j.
  split; [done|]. split; [done|]. rewrite HSN.
  set (sn' := mkSnackState _ _ _).
  set (s1 := mkTS (set_tk_snack (Some sn') (ts_task s)) (ts_writeCh s) (ts_expStatSN s)).
  rewrite (SM_bind_Done _ _ s () s1) by done.
  set (got' := filter (fun j => j <> m) got).
  assert (Hg' : forall j, j ∈ got' <-> j ∈ got /\ j <> m).
  { intros j. unfold got'. rewrite list_elem_of_filter. tauto. }
  assert (Hp1 : progress got' m [] (ts_task s1)).
  { split; try done. intros z d. unfold pending_of. simpl. rewrite lookup_delete_Some, H7. split.
    - intros (Hne & j & -> & -> & Hj & Hle). exists j. rewrite Hg'. repeat split; auto; lia.
    - intros (j & -> & -> & [Hj Hjm]%Hg' & Hle). split; [lia|]. by exists j. }
  assert (Hnone : pending_of (ts_task s1) !! Z.of_nat m = None) by apply lookup_delete_eq.
  destruct (acceptDataIn_ok got' m s1 Hm Hp1 Hnone) as (t2 & Hacc & [K1 K2 K3 K4 K5 K6 K7] & Hpend).
  exists t2. split; [exact Hacc|]. split.
  - split; try done. intros z d. rewrite K7.
    split; intros (j & -> & -> & Hj & Hle); exists j; (repeat split; try done; try lia).
    + by apply Hg' in Hj as [Hj _].
    + apply Hg'. split; [done|lia].
  - unfold pending_of in Hpend. rewrite Hpend. simpl. rewrite map_size_delete, Ed.
    assert (size (sn_pendingDataIn sn) <> 0%nat); [|lia].
    intros E0%map_size_empty_inv. by rewrite E0, lookup_empty in Ed.
Qed.

(** The drain loop accepts the received parts that follow, up to the first one
    missing. *)
Lemma drain_loop_ok got fuel m s : Forall (fun j => j < n)%nat got ->
  (m < n)%nat -> progress got m [] (ts_task s) ->
  (size (pending_of (ts_task s)) < fuel)%nat ->
  exists m' t', drain_loop fuel s = Done ((), mkTS t' (ts_writeCh s) (ts_expStatSN s)) /\
    (m <= m' <= n)%nat /\ (m' ∉ got) /\ (forall j, (m <= j < m')%nat -> j ∈ got) /\
    progress got m' (done_results m') t'.
Proof.
  intros Hgot. revert m s. induction fuel as [|fuel IH]; intros m s Hm Hp Hf; [lia|].
  cbn [drain_loop]. rewrite (SM_bind_Done _ _ s (ts_task s) s) by done. rewrite (pr_next _ _ _ _ Hp).
  destruct (tk_snack (ts_task s) ≫= _) as [[sn d]|] eqn:Et.
  - apply bind_Some in Et as (sn0 & Es & (d0 & Ed & [= -> ->])%fmap_Some).
    destruct (drain_take got m s _ _ Hm Hp Es Ed) as (-> & Hin & t2 & Hrun2 & Hp2 & Hsize).
    apply SM_bind_inv in Hrun2 as ([] & s1 & Hupd & Hacc). rewrite (SM_bind_Done _ _ _ _ _ Hupd).
    rewrite (SM_bind_Done _ _ _ _ _ Hacc), Hstatus by done.
    set (s2 := mkTS t2 (ts_writeCh s) (ts_expStatSN s)).
    destruct (bool_decide_reflect (S m = n)) as [Hlast|Hlast].
    + destruct (deliverStatus_ok got s2) as (t3 & Hdel & Hp3); [lia|by rewrite <- Hlast|].
      replace (n - 1)%nat with m in Hdel by lia. exists n, t3. split; [exact Hdel|].
      split; [lia|]. split.
      { intros Hin'. rewrite Forall_forall in Hgot. apply Hgot in Hin'. lia. }
      split; [intros j Hj; by replace j with m by lia|].
      unfold done_results. by rewrite Nat.eqb_refl.
    + destruct (IH (S m) s2) as (m' & t' & Hrun & Hb & Hnot & Hall & Hp'); [lia|done|simpl; lia|].
      exists m', t'. split; [exact Hrun|]. split; [lia|]. split; [done|]. split; [|done].
      intros j Hj. destruct (decide (j = m)) as [->|]; [done|]. apply Hall. lia.
  - exists m, (ts_task s). split; [by destruct s|]. split; [lia|]. split.
    { intros Hin. assert (Hx : pending_of (ts_task s) !! Z.of_nat m = Some (pdu m)) by (apply (pr_pending _ _ _ _ Hp); by exists m).
      unfold pending_of in Hx. destruct (tk_snack (ts_task s)) as [sn|]; [|done]. simpl in Et. by rewrite Hx in Et. }
    split; [lia|]. unfold done_results. by rewrite (proj2 (Nat.eqb_neq m n)) by lia.
Qed.

(** The state between arrivals: [m] is the first part missing from [got]. *)
Definition collected (got : list nat) (m : nat) (t : task) : Prop :=
  progress got m (done_results m) t /\ (m <= n)%nat /\ (m ∉ got) /\
  (forall j, (j < m)%nat -> j ∈ got) /\ Forall (fun j => j < n)%nat got.

(** An out-of-sequence part is put aside and asked for with a SNACK. *)
Lemma handleGap_ok got m k s : 1 <= erl0 -> (m < k < n)%nat -> room 1 (ts_writeCh s) ->
  progress got m [] (ts_task s) ->
  exists t' c', handleGap (pdu k) s = Done ((), mkTS t' c' (ts_expStatSN s)) /\
    progress (k :: got) m [] t' /\ spared (ts_writeCh s) c'.
Proof.
  intros Herl Hk Hr [H1 H2 H3 H4 H5 H6 H7]. unfold handleGap.
  rewrite (SM_bind_Done _ _ s (ts_task s) s) by done.
  rewrite (proj2 (Z.geb_le _ _)) by lia.
  set (sn' := mkSnackState _ _ _).
  set (s1 := mkTS (set_tk_snack (Some sn') (ts_task s)) (ts_writeCh s) (ts_expStatSN s)).
  rewrite (SM_bind_Done _ _ s () s1) by done.
  rewrite (SM_bind_Done _ _ s1 (ts_expStatSN s) s1) by done.
  destruct (sendSNACK_ok SNACKTypeDataR2T (tk_nextDataSN (ts_task s))
              (uint32 (DataIn_DataSN (pdu k) - tk_nextDataSN (ts_task s))) (ts_expStatSN s) s1 Hr)
    as (c' & Hsend & Hr').
  rewrite (SM_bind_Done _ _ _ _ _ Hsend). exists (ts_task s1), c'. split; [done|]. split; [|done].
  assert (Hpend : default newSnackState (tk_snack (ts_task s)) = mkSnackState (pending_of (ts_task s))
    (sn_gapDetected (default newSnackState (tk_snack (ts_task s))))
    (sn_timer (default newSnackState (tk_snack (ts_task s))))).
  { unfold pending_of. by destruct (tk_snack (ts_task s)) as [[]|]. }
  split; try done. intros z d. unfold pending_of at 1. simpl. rewrite Hpend, HSN. cbn [sn_pendingDataIn].
  destruct (decide (z = Z.of_nat k)) as [->|Hz].
  - rewrite lookup_insert_eq. split.
    + intros [= <-]. exists k. repeat split; [apply elem_of_cons; by left|lia].
    + intros (j & Hj & -> & _). apply Nat2Z.inj in Hj. by subst.
  - rewrite lookup_insert_ne by done. rewrite H7. split; intros (j & -> & -> & Hj & Hle); exists j;
      repeat split; auto.
    + apply elem_of_cons. by right.
    + by apply elem_of_cons in Hj as [->|].
Qed.

(** What [handleDataIn] does after an in-sequence part was accepted and
    acknowledged *)
Definition pending_waits (t : task) : bool :=
  match tk_snack t with Some sn => negb (bool_decide (sn_pendingDataIn sn = ∅)) | None => false end.
Definition after_accept (din : DataIn) : TM () :=
  t ← get_task;
  let pending := pending_waits t in
  _ ← SM_when pending drainPendingDataIn;
  t ← get_task;
  if pending && Nat.ltb 0 (length (ch_buf (tk_resultCh t))) then mret ()
  else SM_when (DataIn_HasStatus din) (deliverStatus din).

Lemma pending_waits_spec t : pending_waits t = negb (bool_decide (pending_of t = ∅)).
Proof. unfold pending_waits, pending_of. by destruct (tk_snack t). Qed.

Lemma collected_next got m m' t : (m < m' <= n)%nat -> Forall (fun j => j < n)%nat got -> (m < n)%nat ->
  (m' ∉ got) -> (forall j, (j < m)%nat -> j ∈ got) -> (forall j, (S m <= j < m')%nat -> j ∈ got) ->
  progress got m' (done_results m') t -> collected (m :: got) m' t.
Proof.
  intros Hb Hgot Hm Hnot Hall Hrange Hp. split; [apply progress_ext_drop; [lia|done]|].
  split; [lia|]. split; [rewrite not_elem_of_cons; split; [lia|done]|]. split; [|by constructor].
  intros j Hj. apply elem_of_cons. destruct (decide (j = m)) as [->|]; [by left|right].
  destruct (decide (j < m)%nat); [by apply Hall|apply Hrange; lia].
Qed.

(** Parts beyond the accepted one are waiting. *)
Lemma after_accept_pending got m s : (m < n)%nat -> Forall (fun j => j < n)%nat got ->
  (forall j, (j < m)%nat -> j ∈ got) -> progress got (S m) [] (ts_task s) -> pending_of (ts_task s) <> ∅ ->
  exists m' t', after_accept (pdu m) s = Done ((), mkTS t' (ts_writeCh s) (ts_expStatSN s)) /\
    collected (m :: got) m' t'.
Proof.
  intros Hm Hgot Hall Hp Hpd.
  assert (Hm' : (S m < n)%nat).
  { destruct (map_choose (pending_of (ts_task s)) Hpd) as (z & d & Hz).
    apply (pr_pending _ _ _ _ Hp) in Hz as (j & _ & _ & Hj & Hle).
    rewrite Forall_forall in Hgot. apply Hgot in Hj. lia. }
  assert (Hdrain : drainPendingDataIn s = drain_loop (S (size (pending_of (ts_task s)))) s).
  { unfold drainPendingDataIn. rewrite (SM_bind_Done _ _ s (ts_task s) s) by done.
    unfold pending_of in *. by destruct (tk_snack (ts_task s)). }
  destruct (drain_loop_ok got (S (size (pending_of (ts_task s)))) (S m) s Hgot Hm' Hp) as
    (m' & t' & Hrun & Hb & Hnm & Hrange & Hp'); [apply Nat.lt_succ_diag_r|].
  unfold after_accept. rewrite (SM_bind_Done _ _ s (ts_task s) s) by done.
  rewrite pending_waits_spec, bool_decide_false by done. cbn [negb]. unfold SM_when at 1.
  rewrite <- Hdrain in Hrun. rewrite (SM_bind_Done _ _ _ _ _ Hrun).
  set (s3 := mkTS t' _ _). rewrite (SM_bind_Done _ _ _ t' s3) by done.
  exists m', t'. split; [|by apply (collected_next got m m'); [lia|..]].
  rewrite (pr_res _ _ _ _ Hp'). cbn [ch_buf]. unfold done_results.
  destruct (Nat.eqb_spec m' n); [done|]. simpl. rewrite Hstatus by done. by rewrite bool_decide_false by lia.
Qed.

(** Nothing is waiting. *)
Lemma after_accept_none got m s : (m < n)%nat -> Forall (fun j => j < n)%nat got ->
  (forall j, (j < m)%nat -> j ∈ got) -> progress got (S m) [] (ts_task s) -> pending_of (ts_task s) = ∅ ->
  exists m' t', after_accept (pdu m) s = Done ((), mkTS t' (ts_writeCh s) (ts_expStatSN s)) /\
    collected (m :: got) m' t'.
Proof.
  intros Hm Hgot Hall Hp Hpd. unfold after_accept. rewrite (SM_bind_Done _ _ s (ts_task s) s) by done.
  rewrite pending_waits_spec, bool_decide_true by done. cbn [negb andb]. unfold SM_when at 1.
  rewrite (SM_bind_Done _ _ s () s), (SM_bind_Done _ _ s (ts_task s) s) by done. rewrite Hstatus by done.
  assert (Hnm : forall j, (S m <= j)%nat -> j ∉ got).
  { intros j Hle Hj. enough (pending_of (ts_task s) !! Z.of_nat j = Some (pdu j)) as E by by rewrite Hpd in E.
    apply (pr_pending _ _ _ _ Hp). by exists j. }
  destruct (bool_decide_reflect (S m = n)) as [Hlast|Hlast].
  - destruct (deliverStatus_ok got s) as (t3 & Hdel & Hp3); [lia|by rewrite <- Hlast|].
    replace (n - 1)%nat with m in Hdel by lia. exists n, t3. split; [exact Hdel|].
    apply (collected_next got m n); try done; first [lia|apply Hnm; lia|intros; lia|idtac].
    unfold done_results. by rewrite Nat.eqb_refl.
  - exists (S m), (ts_task s). split; [by destruct s|].
    apply (collected_next got m (S m)); try done; first [lia|by apply Hnm|intros; lia|idtac].
    unfold done_results. by rewrite (proj2 (Nat.eqb_neq _ _) Hlast).
Qed.

(** The next part in sequence *)
Lemma handleDataIn_next got m s : (m < n)%nat -> (m ∉ got) -> Forall (fun j => j < n)%nat got ->
  (forall j, (j < m)%nat -> j ∈ got) -> ch_closed (ts_writeCh s) = false ->
  progress got m [] (ts_task s) ->
  exists m' t' c',
    (_ ← acceptDataIn (pdu m);
     _ ← SM_when (DataIn_Acknowledge (pdu m) && (tk_erl (ts_task s) >=? 1)) (sendDataACK (pdu m));
     after_accept (pdu m)) s
    = Done ((), mkTS t' c' (ts_expStatSN s)) /\
    collected (m :: got) m' t' /\ acked (DataIn_Acknowledge (pdu m)) (ts_writeCh s) c'.
Proof.
  intros Hm Hnot Hgot Hall Hc Hp.
  assert (Hnone : pending_of (ts_task s) !! Z.of_nat m = None).
  { destruct (_ !! _) as [d|] eqn:E; [|done].
    apply (pr_pending _ _ _ _ Hp) in E as (j & ->%Nat2Z.inj & _ & Hj & _). done. }
  destruct (acceptDataIn_ok got m s Hm Hp Hnone) as (t1 & Hacc & Hp1 & _).
  rewrite (SM_bind_Done _ _ _ _ _ Hacc). set (s1 := mkTS t1 (ts_writeCh s) (ts_expStatSN s)).
  assert (Hack : exists c1, SM_when (DataIn_Acknowledge (pdu m) && (tk_erl (ts_task s) >=? 1))
    (sendDataACK (pdu m)) s1 = Done ((), mkTS t1 c1 (ts_expStatSN s)) /\
    acked (DataIn_Acknowledge (pdu m)) (ts_writeCh s) c1).
  { unfold SM_when, acked. destruct (DataIn_Acknowledge (pdu m)); [|by exists (ts_writeCh s)]. cbn [andb].
    destruct (_ >=? 1); [by apply (sendDataACK_ok (pdu m) s1)|]. exists (ts_writeCh s). split; [done|by left]. }
  destruct Hack as (c1 & Hack & Hs1). rewrite (SM_bind_Done _ _ _ _ _ Hack).
  set (s2 := mkTS t1 c1 (ts_expStatSN s)).
  destruct (decide (pending_of t1 = ∅)) as [E|E].
  - destruct (after_accept_none got m s2 Hm Hgot Hall Hp1 E) as (m' & t' & Hrun & Hcol).
    exists m', t', c1. by split.
  - destruct (after_accept_pending got m s2 Hm Hgot Hall Hp1 E) as (m' & t' & Hrun & Hcol).
    exists m', t', c1. by split.
Qed.

Lemma handleDataIn_collects got m k s : k = m \/ 1 <= erl0 /\ room 1 (ts_writeCh s) ->
  collected got m (ts_task s) -> (k < n)%nat -> (k ∉ got) -> ch_closed (ts_writeCh s) = false ->
  exists m' t' c', handleDataIn (pdu k) s = Done ((), mkTS t' c' (ts_expStatSN s)) /\
    collected (k :: got) m' t' /\ spared (ts_writeCh s) c' /\
    (k = m -> acked (DataIn_Acknowledge (pdu m)) (ts_writeCh s) c').
Proof.
  intros Hmode (Hp & Hle & Hnot & Hall & Hgot) Hk Hkg Hc.
  assert (Hm : (m < n)%nat).
  { destruct (decide (m = n)) as [->|]; [|lia]. destruct Hkg. apply Hall. lia. }
  unfold done_results in Hp. rewrite (proj2 (Nat.eqb_neq m n)) in Hp by lia.
  unfold handleDataIn. rewrite (SM_bind_Done _ _ s (ts_task s) s) by done.
  assert (Htimer : exists t1, SM_when ((tk_erl (ts_task s) >=? 1) && tk_snackTimeout (ts_task s)) resetSnackTimer s
    = Done ((), mkTS t1 (ts_writeCh s) (ts_expStatSN s)) /\ progress got m [] t1 /\
      tk_erl t1 = tk_erl (ts_task s)).
  { unfold SM_when. destruct (_ && _).
    - destruct (resetSnackTimer_ok got m [] s Hp) as (t1 & Hs & Hp1). exists t1.
      split; [done|]. split; [done|]. unfold resetSnackTimer, startSnackTimer, upd_task, SM_put in Hs.
      by injection Hs as <-.
    - exists (ts_task s). split; [by destruct s|done]. }
  destruct Htimer as (t1 & Htimer & Hp1 & Herl). rewrite (SM_bind_Done _ _ _ _ _ Htimer).
  set (s1 := mkTS t1 (ts_writeCh s) (ts_expStatSN s)).
  rewrite HSN, (pr_next _ _ _ _ Hp), <- Herl.
  destruct (Z.eqb_spec (Z.of_nat k) (Z.of_nat m)) as [Heq|Hne]; cbn [negb].
  - apply Nat2Z.inj in Heq. subst k. rewrite Hoff, (pr_off _ _ _ _ Hp), Z.eqb_refl by done. cbn [negb].
    destruct (handleDataIn_next got m s1) as (m' & t' & c' & Hrun & Hcol & Hack); try done.
    exists m', t', c'. split; [exact Hrun|]. split; [done|]. split; [by eapply acked_spared|done].
  - destruct Hmode as [->|[Herl1 Hr]]; [done|].
    assert (m < k)%nat.
    { destruct (decide (k < m)%nat) as [Hlt|]; [|lia]. destruct Hkg. by apply Hall. }
    destruct (handleGap_ok got m k s1) as (t' & c' & Hgap & Hp' & Hr'); [lia..|done|done|].
    exists m, t', c'. split; [exact Hgap|]. split; [|split; [done|lia]].
    split; [unfold done_results; by rewrite (proj2 (Nat.eqb_neq m n)) by lia|].
    split; [done|]. split; [rewrite not_elem_of_cons; split; [lia|done]|].
    split; [intros j Hj; apply elem_of_cons; right; by apply Hall|by constructor].
Qed.

Lemma handle_all_collects ks got m r s : 1 <= erl0 -> collected got m (ts_task s) ->
  Forall (fun k => k < n)%nat ks -> NoDup ks -> (forall k, k ∈ ks -> k ∉ got) ->
  room (length ks + r) (ts_writeCh s) ->
  exists m' t' c', handle_all (map pdu ks) s = Done ((), mkTS t' c' (ts_expStatSN s)) /\
    collected (reverse ks ++ got) m' t' /\ room r c'.
Proof.
  intros Herl. revert got m s. induction ks as [|k ks IH]; intros got m s Hc Hks Hnd Hdis Hr.
  - exists m, (ts_task s), (ts_writeCh s). split; [by destruct s|done].
  - apply Forall_cons in Hks as [Hk Hks]. apply NoDup_cons in Hnd as [Hkn Hnd].
    destruct (handleDataIn_collects got m k s) as (m1 & t1 & c1 & Hstep & Hc1 & Hs1 & _);
      [right; split; [done|by eapply room_weaken; [|exact Hr]; simpl; lia]|done|done
      |apply Hdis; apply elem_of_cons; by left|by apply Hr|].
    assert (Hr1 : room (length ks + r) c1) by by eapply spared_room.
    destruct (IH (k :: got) m1 (mkTS t1 c1 (ts_expStatSN s))) as (m' & t' & c' & Hrun & Hc' & Hr');
      [done|done|done| |done|].
    { intros j Hj. rewrite not_elem_of_cons. split; [by intros ->|].
      apply Hdis, elem_of_cons. by right. }
    exists m', t', c'. split; [|split; [|done]].
    + simpl. by rewrite (SM_bind_Done _ _ _ _ _ Hstep).
    + by rewrite reverse_cons, <- app_assoc.
Qed.

End transfer.

(** A task of a non-streaming read as Submit registers it at error recovery
    level [erl] *)
Definition fresh_read (erl : Z) (timeout : bool) (itt : Z) : task :=
  set_tk_snackTimeout timeout (set_tk_erl erl (newTask itt true false 0)).

(** ** Properties *)

(** C11.  Reassembly does not depend on arrival order at error recovery level 1 and
    above (at level 0 a Data-In out of order is an error): when the Data-In PDUs of a
    transfer arrive in any order, each once, for a read that is not streaming, with
    room in the write channel for a SNACK each,
    the task delivers exactly one Result, with the concatenation of the
    parts in DataSN order and the status and residuals of the last part; and
    before all have arrived it delivers nothing and holds exactly the parts
    before the first one missing. *)
Theorem reassembly_any_order (parts : list bytes) (pdu : nat -> DataIn) (ks : list nat)
    (erl : Z) (timeout : bool) (itt e : Z) (c : Chan RawPDU) :
  let n := length parts in
  Z.of_nat n < 2 ^ 32 -> Z.of_nat (length (concat parts)) < 2 ^ 32 ->
  (forall i, DataIn_DataSN (pdu i) = Z.of_nat i) ->
  (forall i, (i < n)%nat -> DataIn_BufferOffset (pdu i) = Z.of_nat (length (prefix parts i))) ->
  (forall i, (i < n)%nat -> parts !! i = Some (DataIn_Data (pdu i))) ->
  (forall i, (i < n)%nat -> DataIn_HasStatus (pdu i) = bool_decide (S i = n)) ->
  1 <= erl -> (0 < n)%nat -> Forall (fun k => k < n)%nat ks -> NoDup ks -> room (length ks) c ->
  exists m t' c', handle_all (map pdu ks) (mkTS (fresh_read erl timeout itt) c e) = Done ((), mkTS t' c' e) /\
    (m ∉ ks) /\ (forall j, (j < m)%nat -> j ∈ ks) /\
    tk_buf t' = Some (concat (take m parts)) /\ tk_nextDataSN t' = Z.of_nat m /\
    ch_buf (tk_resultCh t') = (if Nat.eqb m n then [transfer_result parts pdu] else []).
Proof.
  intros n Hn Ht HSN Hoff Hdata Hst Herl Hpos Hks Hnd Hr.
  destruct (handle_all_collects parts pdu erl itt Hn Ht HSN Hoff Hdata Hst ks [] 0 0
    (mkTS (fresh_read erl timeout itt) c e)) as (m & t' & c' & Hrun & Hc & _).
  - done.
  - split; [|split; [lia|split; [apply not_elem_of_nil|split; [lia|constructor]]]].
    unfold done_results. rewrite (proj2 (Nat.eqb_neq 0 _)) by (fold n; lia).
    split; try done. intros z d. unfold pending_of. simpl. rewrite lookup_empty.
    split; [done|]. intros (j & _ & _ & Hj & _). by apply not_elem_of_nil in Hj.
  - done.
  - done.
  - intros k _. apply not_elem_of_nil.
  - by rewrite Nat.add_0_r.
  - destruct Hc as (Hp & _ & Hnot & Hall & _). rewrite app_nil_r in *.
    exists m, t', c'. split; [exact Hrun|].
    split; [by rewrite <- elem_of_reverse|]. split; [intros j Hj; rewrite <- elem_of_reverse; by apply Hall|].
    split; [apply (pr_buf _ _ _ _ _ _ _ _ Hp)|]. split; [apply (pr_next _ _ _ _ _ _ _ _ Hp)|].
    by rewrite (pr_res _ _ _ _ _ _ _ _ Hp).
Qed.

Lemma reassembly_any_order_witness :
  let parts := [[1; 2]; [3; 4]; [5]] in
  let din i := mkDataIn (mkHeader false 0x25 true 0 (Z.of_nat (length (nth i parts []))) (zeros 8) 7)
                 false false false (bool_decide (S i = 3%nat)) 0 0 0 0 0 (Z.of_nat i)
                 (Z.of_nat (length (prefix parts i))) 0 (nth i parts []) in
  exists m t' c', handle_all (map din [2; 0; 1]%nat) (mkTS (fresh_read 1 true 7) (make_chan 8) 0)
                  = Done ((), mkTS t' c' 0) /\
    tk_buf t' = Some (concat (take m parts)) /\
    ch_buf (tk_resultCh t') = (if Nat.eqb m 3 then [transfer_result parts din] else []).
Proof.
  intros parts din.
  destruct (reassembly_any_order parts din [2; 0; 1]%nat 1 true 7 0 (make_chan 8))
    as (m & t' & c' & H1 & _ & _ & H2 & _ & H3).
  all: try by vm_compute.
  - intros i Hi. by do 3 (destruct i as [|i]; [done|]); simpl in Hi; lia.
  - simpl. lia.
  - apply Forall_forall. intros i Hi. simpl.
    repeat (apply elem_of_cons in Hi as [->|Hi]; [lia|]). by apply not_elem_of_nil in Hi.
  - apply (bool_decide_unpack _); by vm_compute.
  - split; [done|]. simpl. lia.
  - by exists m, t', c'.
Defined.
