(* ===== verification/DataOut.v ===== *)
(** Data-Out: sending write data in bursts ([src/internal/session/dataout.go]).

    [sendDataOutBurst] is the loop of the source over the task's reader; the PDUs
    go to the write channel, which may block.  [burst] is the list of Data-Out
    PDUs a burst should consist of, by index. *)
From S2P Require Import Prelude Errors Bhs PduTactics PduInitiator PduTarget Pdu GoIO Digest Framer.
From S2P Require Import Chan Serial Negotiation Types Task.
#[local] Open Scope string_scope.
#[local] Open Scope list_scope.
#[local] Open Scope Z_scope.

(** [io.ReadFull(t.reader, buf)] with [len(buf) = n]: reading from a nil reader
    is a nil dereference. *)
Definition readData (n : nat) : TM (bytes * option error) :=
  t ← get_task;
  match n, tk_reader t with
  | O, _ => mret ([], None)
  | S _, None => SM_panic
  | S _, Some r =>
      let '(bs, e, r) := ReadFull n r in
      _ ← upd_task (set_tk_reader (Some r));
      mret (bs, e)
  end.

(** [writeCh <- raw] *)
Definition sendRaw (raw : RawPDU) : TM () :=
  SM_chan ts_writeCh (fun c s => mkTS (ts_task s) c (ts_expStatSN s)) raw.

Definition dataOutPDU (itt : Z) (final : bool) (ttt expStatSN dataSN bufferOffset : Z) (data : bytes)
    : DataOut :=
  mkDataOut (mkHeader false 0 final 0 (uint32 (Z.of_nat (length data))) (zeros 8) itt)
    ttt expStatSN dataSN bufferOffset data.

(** The loop of [sendDataOutBurst].  An iteration that goes on has taken a byte
    from the reader, so [fuel] beyond the bytes left in it is enough. *)
Fixpoint burst_loop (fuel : nat) (digestHeader digestData : bool) (ttt offset burstLen maxRecvDSL : Z)
    (dataSN sent : Z) : TM (Z * option error) :=
  match fuel with
  | O => SM_block
  | S fuel =>
    if sent <? burstLen then
      let chunkSize := Z.min maxRecvDSL (uint32 (burstLen - sent)) in
      read ← readData (Z.to_nat chunkSize);
      let '(data, err) := read in
      if bool_decide (is_Some err) && negb (bool_decide (err = Some ErrUnexpectedEOF)) then
        mret (sent, Wrapf "session: read write data: %w" [] <$> err)
      else if bool_decide (data = []) then mret (sent, None)
      else
        let n := Z.of_nat (length data) in
        let isFinal := (uint32 (sent + n) >=? burstLen) || bool_decide (err = Some ErrUnexpectedEOF) in
        t ← get_task;
        expStatSN ← SM_get ts_expStatSN;
        match DataOut_MarshalBHS (dataOutPDU (tk_itt t) isFinal ttt expStatSN dataSN
                (uint32 (offset + sent)) data) with
        | Err e => mret (sent, Some (Wrapf "session: encode DataOut: %w" [] e))
        | Ok bhs =>
          match ValidateOutgoingSegmentLength (uint32 n) maxRecvDSL with
          | Some e => mret (sent, Some (Wrapf "session: outgoing Data-Out validation: %w" [] e))
          | None =>
            _ ← sendRaw (stampDigests digestHeader digestData (newRawPDU bhs data));
            if bool_decide (err = Some ErrUnexpectedEOF) then mret (uint32 (sent + n), None)
            else burst_loop fuel digestHeader digestData ttt offset burstLen maxRecvDSL
                   (uint32 (dataSN + 1)) (uint32 (sent + n))
          end
        end
    else mret (sent, None)
  end.

Definition sendDataOutBurst (digestHeader digestData : bool) (ttt offset burstLen maxRecvDSL : Z)
    : TM (Z * option error) :=
  t ← get_task;
  let left := match tk_reader t with Some r => length (rd_bytes r) | None => O end in
  burst_loop (S (S left)) digestHeader digestData ttt offset burstLen maxRecvDSL 0 0.

Definition handleR2T (digestHeader digestData : bool) (r2t : R2T) (params : NegotiatedParams)
    : TM (option error) :=
  let desired := Z.min (R2T_DesiredDataTransferLength r2t) (np_MaxBurstLength params) in
  r ← sendDataOutBurst digestHeader digestData (R2T_TargetTransferTag r2t) (R2T_BufferOffset r2t) desired
        (np_MaxRecvDataSegmentLength params);
  mret r.2.

Definition unsolicitedTTT : Z := 0xFFFFFFFF.

Definition sendUnsolicitedDataOut (digestHeader digestData : bool) (params : NegotiatedParams)
    : TM (option error) :=
  t ← get_task;
  let remaining := uint32 (np_FirstBurstLength params - tk_bytesSent t) in
  if remaining <=? 0 then mret None
  else
    r ← sendDataOutBurst digestHeader digestData unsolicitedTTT (tk_bytesSent t) remaining
          (np_MaxRecvDataSegmentLength params);
    _ ← upd_task (fun t => set_tk_bytesSent (uint32 (tk_bytesSent t + r.1)) t);
    mret r.2.

Lemma readData_reader n r s bs err r' : (0 < n)%nat -> tk_reader (ts_task s) = Some r ->
  ReadFull n r = (bs, err, r') ->
  readData n s = Done ((bs, err), mkTS (set_tk_reader (Some r') (ts_task s)) (ts_writeCh s) (ts_expStatSN s)).
Proof.
  intros Hn Hr HR. unfold readData. rewrite (SM_bind_Done _ _ s (ts_task s) s) by done.
  destruct n; [lia|]. by rewrite Hr, HR.
Qed.

(** ** What a burst should be *)

Section burst.
#[local] Set Default Proof Using "All".
Context (h d : bool) (itt ttt offset e : Z) (data : bytes) (L m : nat).

(** The bytes of the burst: at most [L], and what there is *)
#[local] Abbreviation t := (Nat.min L (length data)).

(** Part [i] of the data cut into pieces of [m] bytes *)
Definition piece (i : nat) : bytes := sub (i * m) (Nat.min m (t - i * m)) data.

(** The [i]-th Data-Out; the F bit is set when the burst length is reached or
    the data ran short. *)
Definition burst_pdu (i : nat) : DataOut :=
  let n := length (piece i) in
  dataOutPDU itt (Nat.leb L (i * m + n) || Nat.ltb n m) ttt e (Z.of_nat i)
    (uint32 (offset + Z.of_nat (i * m))) (piece i).

(** ceil(t / m) *)
Definition burst_count : nat := (t + m - 1) / m.

Definition burst : list DataOut := map burst_pdu (seq 0 burst_count).

(** A Data-Out as it is handed to the write pump *)
Definition raw_dataOut (p : DataOut) : RawPDU :=
  stampDigests h d (newRawPDU (match DataOut_MarshalBHS p with Ok bhs => bhs | Err _ => [] end)
                      (DataOut_Data p)).

(** The burst fails when the data ends short of the burst on a piece boundary:
    the next read meets the end of the reader. *)
Definition burst_error : option error :=
  if Nat.ltb t L && Nat.eqb (t mod m) 0 then Some (Wrapf "session: read write data: %w" [] EOF)
  else None.

Hypothesis Hm : (0 < m)%nat.
Hypothesis Hm24 : Z.of_nat m < 2 ^ 24.
Hypothesis HL : Z.of_nat L < 2 ^ 32.

Lemma burst_count_at i : (i * m <= t)%nat -> (i <= burst_count)%nat.
Proof using Hm. intros H. unfold burst_count. apply Nat.div_le_lower_bound; lia. Qed.

Lemma burst_count_last i : (i * m <= t)%nat -> (t < S i * m)%nat ->
  burst_count = if Nat.eqb (i * m) t then i else S i.
Proof using Hm.
  intros H1 H2. unfold burst_count. destruct (Nat.eqb_spec (i * m) t).
  - symmetry. apply (Nat.div_unique _ _ _ (m - 1)); lia.
  - symmetry. apply (Nat.div_unique _ _ _ (t - i * m - 1)); lia.
Qed.

Lemma burst_count_more i : (S i * m <= t)%nat -> (i < burst_count)%nat.
Proof using Hm. intros H. by apply burst_count_at. Qed.

Lemma length_piece i : (i * m <= t)%nat -> length (piece i) = Nat.min m (t - i * m).
Proof using Hm. intros H. unfold piece. apply length_sub. lia. Qed.

Lemma burst_pdu_marshals i : (i * m <= t)%nat -> exists bhs, DataOut_MarshalBHS (burst_pdu i) = Ok bhs.
Proof.
  intros Hi. pose proof (DataOut_marshal_total (burst_pdu i)) as H. simpl in H.
  rewrite length_piece, wrap_id in H by (unfold in_width in *; lia).
  destruct (Z.gtb_spec (Z.of_nat (Nat.min m (t - i * m))) 0xFFFFFF); [lia|].
  destruct (DataOut_MarshalBHS _); [eauto|done].
Qed.

(** What one turn reads *)
Lemma burst_read i r (n := Nat.min m (t - i * m)) (eof := Nat.ltb (t - i * m) (Nat.min m (L - i * m))) :
  (i * m < t)%nat -> rd_bytes r = drop (i * m) data -> rd_err r = EOF ->
  exists r', ReadFull (Nat.min m (L - i * m)) r = (piece i, if eof then Some ErrUnexpectedEOF else None, r') /\
    rd_bytes r' = drop (i * m + n) data /\ rd_err r' = EOF.
Proof.
  intros Hi Hbytes Herr. subst eof n. unfold piece, sub.
  destruct (Nat.ltb_spec (t - i * m) (Nat.min m (L - i * m))) as [Hlt|Hge].
  - rewrite ReadFull_short by (rewrite Hbytes, length_drop; lia).
    rewrite Hbytes, Herr, !bool_decide_true by done. cbn [andb negb].
    rewrite bool_decide_false by (intros E%(f_equal length); rewrite length_drop in E; simpl in E; lia).
    exists (rd_with r []). split; [|split; [|done]].
    + rewrite !take_ge by (rewrite length_drop; lia). reflexivity.
    + unfold rd_bytes. simpl. symmetry. apply drop_ge. lia.
  - destruct (ReadFull_enough (Nat.min m (L - i * m)) r) as (r' & HR & Hb & He' & _).
    { rewrite Hbytes, length_drop. lia. }
    exists r'. rewrite HR, Hb, Hbytes, drop_drop. split; [|split; [f_equal; lia|by rewrite He']].
    do 3 f_equal. lia.
Qed.

(** The PDU one turn sends: the code's test for the last piece is [burst_pdu]'s *)
Lemma burst_turn_pdu i (n := Nat.min m (t - i * m)) (eof := Nat.ltb (t - i * m) (Nat.min m (L - i * m))) :
  (i * m < t)%nat ->
  dataOutPDU itt ((uint32 (Z.of_nat (i * m) + Z.of_nat n) >=? Z.of_nat L)
      || bool_decide ((if eof then Some ErrUnexpectedEOF else None) = Some ErrUnexpectedEOF)) ttt e
    (Z.of_nat i) (uint32 (offset + Z.of_nat (i * m))) (piece i) = burst_pdu i.
Proof.
  intros Hi. unfold burst_pdu. rewrite length_piece by lia. f_equal. rewrite wrap_id by (unfold in_width; lia). subst eof n.
  destruct (Nat.leb_spec L (i * m + Nat.min m (t - i * m))).
  { by rewrite (proj2 (Z.geb_le _ _)) by lia. }
  rewrite Z.geb_leb, (proj2 (Z.leb_gt _ _)) by lia. cbn [orb].
  destruct (Nat.ltb_spec (t - i * m) (Nat.min m (L - i * m))), (Nat.ltb_spec (Nat.min m (t - i * m)) m);
    done || lia.
Qed.

(** One turn of the loop that finds data *)
Lemma burst_turn fuel i k r s (n := Nat.min m (t - i * m)) (eof := Nat.ltb (t - i * m) (Nat.min m (L - i * m))) :
  (i * m < t)%nat -> room (S k) (ts_writeCh s) ->
  tk_reader (ts_task s) = Some r -> tk_itt (ts_task s) = itt -> ts_expStatSN s = e ->
  rd_bytes r = drop (i * m) data -> rd_err r = EOF ->
  exists r', rd_bytes r' = drop (i * m + n) data /\ rd_err r' = EOF /\
    let s' := mkTS (set_tk_reader (Some r') (ts_task s)) (sent_on [raw_dataOut (burst_pdu i)] (ts_writeCh s))
                (ts_expStatSN s) in
    room k (ts_writeCh s') /\
    burst_loop (S fuel) h d ttt offset (Z.of_nat L) (Z.of_nat m) (Z.of_nat i) (Z.of_nat (i * m)) s
    = if eof then Done ((Z.of_nat t, None), s')
      else burst_loop fuel h d ttt offset (Z.of_nat L) (Z.of_nat m) (Z.of_nat (S i))
             (Z.of_nat (i * m + n)) s'.
Proof.
  intros Hi Hroom Hr Hitt He Hbytes Herr.
  destruct (burst_read i r Hi Hbytes Herr) as (r' & HR & Hb' & He').
  fold eof in HR. exists r'. split; [done|]. split; [done|]. cbv zeta.
  destruct (send_sent_on (raw_dataOut (burst_pdu i)) k _ Hroom) as [Hsend Hroom']. split; [done|].
  assert (Hlen : length (piece i) = n) by (apply length_piece; lia).
  cbn [burst_loop]. rewrite (proj2 (Z.ltb_lt _ _)) by lia.
  rewrite (wrap_id 32 (Z.of_nat L - _)) by (unfold in_width; lia).
  replace (Z.to_nat (Z.min _ _)) with (Nat.min m (L - i * m)) by lia.
  assert (Hpos : (0 < Nat.min m (L - i * m))%nat) by lia.
  rewrite (SM_bind_Done _ _ _ _ _ (readData_reader _ r s _ _ _ Hpos Hr HR)).
  replace (_ && negb _) with false by (by destruct eof).
  rewrite bool_decide_false by (intros E; rewrite E in Hlen; simpl in Hlen; lia).
  set (s1 := mkTS _ _ _). rewrite (SM_bind_Done _ _ s1 (ts_task s1) s1) by done.
  rewrite (SM_bind_Done _ _ s1 (ts_expStatSN s) s1) by done.
  destruct (burst_pdu_marshals i) as [bhs Hbhs]; [lia|].
  pose proof (burst_turn_pdu i Hi) as Hpdu. fold n eof in Hpdu. rewrite <- Hlen, <- He, <- Hitt in Hpdu.
  change (tk_itt (ts_task s1)) with (tk_itt (ts_task s)). rewrite Hpdu, Hbhs.
  assert (Hval : ValidateOutgoingSegmentLength (uint32 (Z.of_nat (length (piece i)))) (Z.of_nat m) = None).
  { unfold ValidateOutgoingSegmentLength. rewrite wrap_id by (unfold in_width; lia).
    rewrite (Z.gtb_ltb (Z.of_nat (length _))), (proj2 (Z.ltb_ge _ _)) by lia. by rewrite andb_false_r. }
  rewrite Hval.
  assert (Hraw : stampDigests h d (newRawPDU bhs (piece i)) = raw_dataOut (burst_pdu i)).
  { unfold raw_dataOut. by rewrite Hbhs. }
  rewrite Hraw.
  assert (Hs : sendRaw (raw_dataOut (burst_pdu i)) s1 = Done ((), mkTS (ts_task s1)
    (sent_on [raw_dataOut (burst_pdu i)] (ts_writeCh s)) (ts_expStatSN s))).
  { unfold sendRaw, SM_chan. change (ts_writeCh s1) with (ts_writeCh s). by rewrite Hsend. }
  rewrite (SM_bind_Done _ _ _ _ _ Hs), Hlen. subst eof n.
  destruct (Nat.ltb_spec (t - i * m) (Nat.min m (L - i * m))); cbn [bool_decide decide_rel].
  - rewrite bool_decide_true by done. unfold mret, SM_ret. do 2 f_equal.
    rewrite wrap_id by (unfold in_width; lia). f_equal. lia.
  - rewrite bool_decide_false by done. rewrite !wrap_id by (unfold in_width; lia).
    f_equal; lia.
Qed.
Lemma burst_loop_ok fuel i k r s : (i * m <= t)%nat -> (i + k = burst_count)%nat -> (k < fuel)%nat ->
  room k (ts_writeCh s) ->
  tk_reader (ts_task s) = Some r -> tk_itt (ts_task s) = itt -> ts_expStatSN s = e ->
  rd_bytes r = drop (i * m) data -> rd_err r = EOF ->
  exists r', rd_bytes r' = drop t data /\ rd_err r' = EOF /\
    burst_loop fuel h d ttt offset (Z.of_nat L) (Z.of_nat m) (Z.of_nat i) (Z.of_nat (i * m)) s
    = Done ((Z.of_nat t, burst_error),
            mkTS (set_tk_reader (Some r') (ts_task s))
              (sent_on (map (fun j => raw_dataOut (burst_pdu j)) (seq i k)) (ts_writeCh s)) (ts_expStatSN s)).
Proof.
  revert i k r s. induction fuel as [|fuel IH]; intros i k r s Hi Hk Hf Hroom Hr Hitt He Hbytes Herr; [lia|].
  destruct (decide (i * m < t)%nat) as [Hlt|Hge].
  - assert (Hic : (i < burst_count)%nat) by (unfold burst_count; apply Nat.div_le_lower_bound; lia).
    destruct k as [|k]; [lia|].
    destruct (burst_turn fuel i k r s Hlt Hroom Hr Hitt He Hbytes Herr) as (r1 & Hb1 & He1 & Hroom1 & ->).
    cbv zeta in *. set (s1 := mkTS _ _ _) in *.
    assert (Hone : seq i (S k) = i :: seq (S i) k) by done.
    assert (Hlast : (t < S i * m)%nat -> k = 0%nat).
    { intros H. assert (burst_count = S i); [|lia]. rewrite (burst_count_last i) by lia.
      by rewrite (proj2 (Nat.eqb_neq _ _)) by lia. }
    destruct (Nat.ltb_spec (t - i * m) (Nat.min m (L - i * m))) as [Hshort|Hfull].
    + rewrite Hlast by lia. exists r1. rewrite Hb1. split; [f_equal; lia|]. split; [done|].
      unfold burst_error. rewrite andb_comm, (proj2 (Nat.eqb_neq _ _)); [done|].
      intros Hmod. apply Nat.Div0.mod_divides in Hmod as [c Hc].
      assert (i < c < S i)%nat; [split; apply (Nat.mul_lt_mono_pos_l m); lia|lia].
    + destruct (decide (S i * m <= t)%nat) as [Hnext|Hend].
      * destruct (IH (S i) k r1 s1) as (r' & Hb' & He' & Hrun); try done; [lia..| |].
        { rewrite Hb1. f_equal. lia. }
        exists r'. split; [done|]. split; [done|].
        replace (i * m + Nat.min m (t - i * m))%nat with (S i * m)%nat by lia.
        rewrite Hrun, Hone. simpl map. unfold s1. cbn [ts_task ts_writeCh ts_expStatSN].
        by rewrite sent_on_app.
      * rewrite Hlast by lia. exists r1. rewrite Hb1. split; [f_equal; lia|]. split; [done|].
        destruct fuel as [|fuel]; [lia|]. cbn [burst_loop].
        rewrite (proj2 (Z.ltb_ge _ _)) by lia. unfold mret, SM_ret, burst_error.
        rewrite (proj2 (Nat.ltb_ge t L)) by lia. cbn [andb]. do 3 f_equal. lia.
  - assert (k = 0)%nat as ->.
    { assert (burst_count = i); [|lia]. rewrite (burst_count_last i) by lia.
      by rewrite (proj2 (Nat.eqb_eq _ _)) by lia. }
    assert (i * m = t)%nat as Ht by lia. rewrite Ht in *. cbn [burst_loop seq map].
    assert (Hmod : (t mod m = 0)%nat) by (rewrite <- Ht; apply Nat.Div0.mod_mul).
    unfold burst_error. rewrite Hmod, sent_on_nil, Nat.eqb_refl, andb_true_r.
    destruct (Nat.ltb_spec t L) as [HtL|HtL].
    + exists (rd_with r []). rewrite drop_ge by lia. split; [done|]. split; [done|].
      rewrite (proj2 (Z.ltb_lt _ _)) by lia.
      rewrite (wrap_id 32 (Z.of_nat L - _)) by (unfold in_width; lia).
      replace (Z.to_nat (Z.min _ _)) with (Nat.min m (L - t)) by lia.
      assert (Hpos : (0 < Nat.min m (L - t))%nat) by lia.
      assert (HR : ReadFull (Nat.min m (L - t)) r = ([], Some EOF, rd_with r [])).
      { rewrite ReadFull_short by (rewrite Hbytes, length_drop; lia).
        rewrite Herr, Hbytes, drop_ge by lia. done. }
      by rewrite (SM_bind_Done _ _ _ _ _ (readData_reader _ r s _ _ _ Hpos Hr HR)).
    + exists r. split; [done|]. split; [done|]. rewrite (proj2 (Z.ltb_ge _ _)) by lia.
      assert (Hs : mkTS (set_tk_reader (Some r) (ts_task s)) (ts_writeCh s) (ts_expStatSN s) = s).
      { destruct s as [[] ? ?]. simpl in *. by subst. }
      by rewrite Hs.
Qed.

Lemma sendDataOutBurst_ok r s : room burst_count (ts_writeCh s) ->
  tk_reader (ts_task s) = Some r -> tk_itt (ts_task s) = itt -> ts_expStatSN s = e ->
  rd_bytes r = data -> rd_err r = EOF ->
  exists r', rd_bytes r' = drop t data /\ rd_err r' = EOF /\
    sendDataOutBurst h d ttt offset (Z.of_nat L) (Z.of_nat m) s
    = Done ((Z.of_nat t, burst_error),
            mkTS (set_tk_reader (Some r') (ts_task s)) (sent_on (map raw_dataOut burst) (ts_writeCh s)) (ts_expStatSN s)).
Proof.
  intros Hroom Hr Hitt He Hb Herr. unfold sendDataOutBurst.
  rewrite (SM_bind_Done _ _ s (ts_task s) s) by done. rewrite Hr, Hb. unfold burst. rewrite map_map.
  apply (burst_loop_ok (S (S (length data))) 0 burst_count r s); try done; [lia|].
  assert (burst_count <= t)%nat; [|lia].
  unfold burst_count. pose proof (Nat.Div0.mul_div_le (t + m - 1) m). nia.
Qed.

(** The pieces are the data, cut. *)
Lemma concat_pieces i k : (i + k = burst_count)%nat -> (i * m <= t)%nat ->
  concat (map piece (seq i k)) = drop (i * m) (take t data).
Proof using Hm.
  revert i. induction k as [|k IH]; intros i Hk Hi; simpl.
  - rewrite drop_ge; [done|]. rewrite length_take. destruct (decide (i * m < t)%nat); [|lia].
    assert (i < burst_count)%nat by (unfold burst_count; apply Nat.div_le_lower_bound; lia). lia.
  - assert (i * m < t)%nat.
    { destruct (decide (i * m < t)%nat); [done|]. assert (burst_count = i); [|lia].
      rewrite (burst_count_last i) by lia. by rewrite (proj2 (Nat.eqb_eq _ _)) by lia. }
    unfold piece at 1, sub. destruct (decide (S i * m <= t)%nat).
    + rewrite IH by lia. rewrite <- (take_drop m (drop (i * m) (take t data))).
      rewrite drop_drop. replace (i * m + m)%nat with (S i * m)%nat by lia. f_equal.
      by rewrite skipn_firstn_comm, take_take.
    + assert (burst_count = S i) as Hc.
      { rewrite (burst_count_last i) by lia. by rewrite (proj2 (Nat.eqb_neq _ _)) by lia. }
      replace k with 0%nat by lia. simpl. rewrite app_nil_r, skipn_firstn_comm. f_equal. lia.
Qed.

Lemma burst_data : concat (map DataOut_Data burst) = take L data.
Proof using Hm.
  unfold burst. rewrite map_map. change (fun x => DataOut_Data (burst_pdu x)) with piece.
  rewrite concat_pieces by lia. simpl. rewrite drop_0.
  destruct (decide (L <= length data)%nat); [f_equal; lia|]. rewrite !take_ge by lia. done.
Qed.

Lemma length_burst : length burst = burst_count.
Proof using. unfold burst. by rewrite length_map, length_seq. Qed.

Lemma burst_lookup i p : burst !! i = Some p -> (i < burst_count)%nat /\ (i * m < t)%nat /\ p = burst_pdu i.
Proof using Hm.
  unfold burst. intros (j & -> & Hj)%list_lookup_fmap_Some.
  apply lookup_seq in Hj as [-> Hj]. split; [done|]. split; [|done].
  unfold burst_count in Hj. pose proof (Nat.Div0.mul_div_le (t + m - 1) m). nia.
Qed.

Lemma length_pieces i j : ((j + i) * m <= t)%nat -> length (concat (map piece (seq j i))) = (i * m)%nat.
Proof using Hm.
  revert j. induction i as [|i IH]; intros j Hi; [done|]. simpl.
  rewrite length_app, length_piece, IH by nia. nia.
Qed.

(** The offset of a Data-Out is what the Data-Outs before it carry. *)
Lemma burst_before i : (i * m < t)%nat ->
  length (concat (map DataOut_Data (take i burst))) = (i * m)%nat.
Proof using Hm.
  intros Hi. unfold burst. rewrite firstn_map, map_map.
  change (fun x => DataOut_Data (burst_pdu x)) with piece.
  assert (i < burst_count)%nat by (unfold burst_count; apply Nat.div_le_lower_bound; lia).
  replace burst_count with (i + (burst_count - i))%nat by lia.
  rewrite seq_app, take_app_length' by by rewrite length_seq. apply length_pieces. lia.
Qed.

(** The F bit is on the last Data-Out of a complete burst and on no other. *)
Lemma burst_final i : (i * m < t)%nat ->
  Final (DataOut_Hdr (burst_pdu i)) = bool_decide (S i = burst_count /\ burst_error = None).
Proof using Hm.
  intros Hi. simpl. rewrite length_piece by lia.
  destruct (decide (S i * m <= t)%nat) as [Hnext|Hlast].
  - destruct (decide (S i * m = t)%nat) as [Heq|Hne].
    + assert (Hc : burst_count = S i).
      { rewrite (burst_count_last (S i)) by lia. by rewrite (proj2 (Nat.eqb_eq _ _)) by lia. }
      assert (Hmod : (t mod m = 0)%nat) by (rewrite <- Heq; apply Nat.Div0.mod_mul).
      unfold burst_error. rewrite Hmod, Hc, Nat.eqb_refl, andb_true_r.
      rewrite (proj2 (Nat.ltb_ge (Nat.min m _) m)), orb_false_r by lia.
      destruct (Nat.ltb_spec t L), (Nat.leb_spec L (i * m + Nat.min m (t - i * m))); try lia.
      * rewrite bool_decide_false; [done|]. by intros [].
      * by rewrite bool_decide_true.
    + assert (S i < burst_count)%nat by (unfold burst_count; apply Nat.div_le_lower_bound; lia).
      rewrite bool_decide_false by lia.
      by rewrite (proj2 (Nat.ltb_ge _ _)), (proj2 (Nat.leb_gt _ _)) by lia.
  - assert (Hc : burst_count = S i).
    { rewrite (burst_count_last i) by lia. by rewrite (proj2 (Nat.eqb_neq _ _)) by lia. }
    rewrite (proj2 (Nat.ltb_lt _ _)), orb_true_r by lia. symmetry. apply bool_decide_true.
    split; [done|]. unfold burst_error. rewrite (proj2 (Nat.eqb_neq _ _)), andb_false_r; [done|].
    intros Hmod. apply Nat.Div0.mod_divides in Hmod as [c Hmc].
    assert (i < c < S i)%nat; [split; apply (Nat.mul_lt_mono_pos_l m); lia|lia].
Qed.

(** What a Data-Out carries is read back from its BHS. *)
Lemma burst_decodes i : (i * m < t)%nat -> u32 itt -> u32 ttt -> u32 e -> (i < burst_count)%nat ->
  DecodeBHS (raw_BHS (raw_dataOut (burst_pdu i))) = Ok (PDataOut (DataOut_wire (burst_pdu i))).
Proof.
  intros Hi Hitt Http He Hic. destruct (burst_pdu_marshals i) as [bhs Hbhs]; [lia|].
  assert (Hraw : raw_BHS (raw_dataOut (burst_pdu i)) = bhs).
  { unfold raw_dataOut. rewrite Hbhs. unfold stampDigests. by destruct (h), (d && _). }
  rewrite Hraw. apply (decode_encoded (PDataOut (burst_pdu i))); [|done].
  split; [|split; [done|split; [done|split; [|apply wrap_range; lia]]]].
  - unfold Header_ok, burst_pdu. simpl. split; [done|]. split; [apply wrap_range; lia|].
    split; [done|]. split; [apply zeros_ok|done].
  - simpl. assert (i <= i * m)%nat by nia. unfold in_width. lia.
Qed.

End burst.

(** The R2Ts a target sends for the data from [o] on, in order, each within the
    burst length *)
Fixpoint r2t_sequence (maxBurst : Z) (o : Z) (rs : list R2T) : Prop :=
  match rs with
  | [] => True
  | r :: rs => R2T_BufferOffset r = o /\ 0 <= R2T_DesiredDataTransferLength r <= maxBurst /\
      r2t_sequence maxBurst (o + R2T_DesiredDataTransferLength r) rs
  end.

Fixpoint handle_r2ts (digestHeader digestData : bool) (params : NegotiatedParams) (rs : list R2T)
    : TM (option error) :=
  match rs with
  | [] => mret None
  | r :: rs =>
      err ← handleR2T digestHeader digestData r params;
      match err with
      | Some e => mret (Some e)
      | None => handle_r2ts digestHeader digestData params rs
      end
  end.

Definition desired (r : R2T) : nat := Z.to_nat (R2T_DesiredDataTransferLength r).
Definition desired_total (rs : list R2T) : nat := list_sum (map desired rs).

(** Data-Outs in a bound of pieces of [m] bytes *)
Definition pieces_total (m : nat) (rs : list R2T) : nat :=
  list_sum (map (fun r => (desired r + m - 1) / m)%nat rs).

(** A Data-Out that carries the bytes of [data] at its offset *)
Definition carries (o : Z) (data : bytes) (p : DataOut) : Prop :=
  exists k, DataOut_BufferOffset p = o + Z.of_nat k /\
            DataOut_Data p = sub k (length (DataOut_Data p)) data.

Lemma carries_shift o k p data : (k <= length data)%nat ->
  carries (o + Z.of_nat k) (drop k data) p -> carries o data p.
Proof.
  intros Hk (j & Ho & Hd). exists (k + j)%nat. split; [lia|].
  rewrite Hd at 1. unfold sub. by rewrite drop_drop.
Qed.

(** The Data-Outs of a burst within the data carry it at its place. *)
Lemma burst_carries itt ttt o e data L m : (0 < m)%nat -> (L <= length data)%nat -> 0 <= o ->
  o + Z.of_nat L < 2 ^ 32 -> Forall (carries o data) (burst itt ttt o e data L m).
Proof.
  intros Hm HL Ho Hw. apply Forall_lookup_2. intros i p Hp.
  unfold burst in Hp. apply list_lookup_fmap_Some in Hp as (j & -> & [-> Hj]%lookup_seq). change (0 + i)%nat with i.
  assert (Hi : (i * m < Nat.min L (length data))%nat).
  { unfold burst_count in Hj. pose proof (Nat.Div0.mul_div_le (Nat.min L (length data) + m - 1) m). nia. }
  exists (i * m)%nat. split.
  - simpl. rewrite wrap_id by (unfold in_width; lia). done.
  - change (DataOut_Data _) with (piece data L m i).
    unfold piece. rewrite length_sub by lia. done.
Qed.

Lemma burst_error_none data L m : (L <= length data)%nat -> burst_error data L m = None.
Proof. intros H. unfold burst_error. by rewrite (proj2 (Nat.ltb_ge _ _)) by lia. Qed.

(** Writing unsolicited data when the reader is used up: an error, although
    nothing is missing. *)
Lemma sendUnsolicited_at_end h d params r s : u32 (np_FirstBurstLength params) ->
  0 <= tk_bytesSent (ts_task s) < np_FirstBurstLength params -> 0 < np_MaxRecvDataSegmentLength params ->
  tk_reader (ts_task s) = Some r -> rd_bytes r = [] -> rd_err r = EOF ->
  sendUnsolicitedDataOut h d params s
  = Done (Some (Wrapf "session: read write data: %w" [] EOF),
      mkTS (set_tk_bytesSent (uint32 (tk_bytesSent (ts_task s) + 0)) (set_tk_reader (Some (rd_with r [])) (ts_task s)))
        (ts_writeCh s) (ts_expStatSN s)).
Proof.
  intros HF Hb Hm Hr Hbytes Herr. unfold sendUnsolicitedDataOut.
  rewrite (SM_bind_Done _ _ s (ts_task s) s) by done.
  rewrite wrap_id by width. rewrite (proj2 (Z.leb_gt _ 0)) by lia.
  set (remaining := np_FirstBurstLength params - tk_bytesSent (ts_task s)).
  assert (Hpos : (0 < Z.to_nat (Z.min (np_MaxRecvDataSegmentLength params) (uint32 (remaining - 0))))%nat).
  { rewrite wrap_id by (unfold remaining in *; width). lia. }
  assert (HR : ReadFull (Z.to_nat (Z.min (np_MaxRecvDataSegmentLength params) (uint32 (remaining - 0)))) r
               = ([], Some EOF, rd_with r [])).
  { rewrite ReadFull_short by (rewrite Hbytes; exact Hpos). by rewrite Herr, Hbytes. }
  assert (Hburst : sendDataOutBurst h d unsolicitedTTT (tk_bytesSent (ts_task s)) remaining
      (np_MaxRecvDataSegmentLength params) s
    = Done ((0, Some (Wrapf "session: read write data: %w" [] EOF)),
            mkTS (set_tk_reader (Some (rd_with r [])) (ts_task s)) (ts_writeCh s) (ts_expStatSN s))).
  { unfold sendDataOutBurst. rewrite (SM_bind_Done _ _ s (ts_task s) s) by done. cbn [burst_loop].
    rewrite (proj2 (Z.ltb_lt _ _)) by lia.
    by rewrite (SM_bind_Done _ _ _ _ _ (readData_reader _ r s _ _ _ Hpos Hr HR)). }
  rewrite (SM_bind_Done _ _ _ _ _ Hburst). reflexivity.
Qed.

(** One R2T answered *)
Lemma handleR2T_ok h d params r2t o data r s k (m := Z.to_nat (np_MaxRecvDataSegmentLength params)) :
  0 < np_MaxRecvDataSegmentLength params < 2 ^ 24 -> u32 (np_MaxBurstLength params) ->
  0 <= o -> o + Z.of_nat (length data) < 2 ^ 32 -> R2T_BufferOffset r2t = o ->
  0 <= R2T_DesiredDataTransferLength r2t <= np_MaxBurstLength params -> (desired r2t <= length data)%nat ->
  tk_reader (ts_task s) = Some r -> rd_bytes r = data -> rd_err r = EOF ->
  room ((desired r2t + m - 1) / m + k) (ts_writeCh s) ->
  exists r' b,
    handleR2T h d r2t params s
    = Done (None, mkTS (set_tk_reader (Some r') (ts_task s)) (sent_on (map (raw_dataOut h d) b) (ts_writeCh s))
                    (ts_expStatSN s)) /\
    rd_bytes r' = drop (desired r2t) data /\ rd_err r' = EOF /\
    concat (map DataOut_Data b) = take (desired r2t) data /\ Forall (carries o data) b /\
    room k (sent_on (map (raw_dataOut h d) b) (ts_writeCh s)).
Proof.
  intros Hm Hburst Ho Hlen Hoff Hdes Htot Hr Hb Herr Hroom.
  assert (Hcount : burst_count data (desired r2t) m = ((desired r2t + m - 1) / m)%nat).
  { unfold burst_count. do 3 f_equal. lia. }
  destruct (sendDataOutBurst_ok h d (tk_itt (ts_task s)) (R2T_TargetTransferTag r2t) o (ts_expStatSN s) data
    (desired r2t) m) with (r := r) (s := s) as (r1 & Hb1 & He1 & Hrun); try done.
  - unfold m; lia.
  - unfold m; lia.
  - unfold desired. width.
  - rewrite Hcount. eapply room_weaken; [|exact Hroom]. lia.
  - exists r1, (burst (tk_itt (ts_task s)) (R2T_TargetTransferTag r2t) o (ts_expStatSN s) data (desired r2t) m).
    split; [|split; [rewrite Hb1; f_equal; lia|split; [done|split; [|split]]]].
    + unfold handleR2T. rewrite Hoff, Z.min_l by lia.
      replace (R2T_DesiredDataTransferLength r2t) with (Z.of_nat (desired r2t)) by (unfold desired; lia).
      replace (np_MaxRecvDataSegmentLength params) with (Z.of_nat m) by (unfold m; lia).
      rewrite (SM_bind_Done _ _ _ _ _ Hrun). cbn [snd]. by rewrite burst_error_none.
    + apply burst_data. unfold m; lia.
    + apply burst_carries; unfold m; lia.
    + unfold room, sent_on in *. cbn [ch_buf ch_cap ch_closed].
      rewrite length_app, length_map, length_burst, Hcount. split; [by destruct Hroom|]. destruct Hroom. lia.
Qed.

(** ** Properties *)

(** C13.  A burst sends exactly the data it was asked for: the payloads of its
    Data-Outs concatenate to the next [L] bytes of the reader (or what is left),
    none is empty or longer than the target's MaxRecvDataSegmentLength, DataSN
    counts from 0, each BufferOffset is the burst's offset plus what was sent
    before, the F bit is on the last one only, and each decodes to what was
    meant.  When the data ends short of the burst on a piece boundary the burst
    reports an error. *)
Theorem sendDataOutBurst_spec (h d : bool) (ttt offset : Z) (L m : nat) (data : bytes) (r : Reader) (s : TS) :
  (0 < m)%nat -> Z.of_nat m < 2 ^ 24 -> Z.of_nat L < 2 ^ 32 ->
  u32 ttt -> u32 (tk_itt (ts_task s)) -> u32 (ts_expStatSN s) ->
  tk_reader (ts_task s) = Some r -> rd_bytes r = data -> rd_err r = EOF ->
  room (burst_count data L m) (ts_writeCh s) ->
  exists r' douts,
    sendDataOutBurst h d ttt offset (Z.of_nat L) (Z.of_nat m) s
    = Done ((Z.of_nat (Nat.min L (length data)), burst_error data L m),
            mkTS (set_tk_reader (Some r') (ts_task s)) (sent_on (map (raw_dataOut h d) douts) (ts_writeCh s))
              (ts_expStatSN s)) /\
    rd_bytes r' = drop L data /\ concat (map DataOut_Data douts) = take L data /\
    forall i p, douts !! i = Some p ->
      DecodeBHS (raw_BHS (raw_dataOut h d p)) = Ok (PDataOut (DataOut_wire p)) /\
      DataOut_TargetTransferTag p = ttt /\ DataOut_DataSN p = Z.of_nat i /\
      DataOut_BufferOffset p = uint32 (offset + Z.of_nat (length (concat (map DataOut_Data (take i douts))))) /\
      (0 < length (DataOut_Data p) <= m)%nat /\
      Final (DataOut_Hdr p) = bool_decide (S i = length douts /\ burst_error data L m = None).
Proof.
  intros Hm Hm24 HL Http Hitt He Hr Hb Herr Hroom.
  destruct (sendDataOutBurst_ok h d (tk_itt (ts_task s)) ttt offset (ts_expStatSN s) data L m Hm Hm24 HL r s)
    as (r' & Hb' & _ & Hrun); try done.
  exists r', (burst (tk_itt (ts_task s)) ttt offset (ts_expStatSN s) data L m).
  split; [exact Hrun|]. split.
  { rewrite Hb'. destruct (decide (L <= length data)%nat); [f_equal; lia|]. by rewrite !drop_ge by lia. }
  split; [by apply burst_data|]. intros i p Hp.
  apply burst_lookup in Hp as (Hic & Hi & ->); [|done..].
  split; [by apply burst_decodes|]. split; [done|]. split; [done|]. split.
  { by rewrite burst_before by done. }
  split.
  { change (DataOut_Data _) with (piece data L m i). rewrite length_piece by (done || lia). lia. }
  by rewrite burst_final, length_burst by done.
Qed.

Definition write_task (data : bytes) : task :=
  set_tk_reader (Some (NewReader data)) (newTask 7 false true 0).

Lemma sendDataOutBurst_spec_witness :
  exists r' douts,
    sendDataOutBurst true true 9 4096 10 4 (mkTS (write_task (zeros 11)) (make_chan 64) 5)
    = Done ((10, None), mkTS (set_tk_reader (Some r') (write_task (zeros 11)))
                          (sent_on (map (raw_dataOut true true) douts) (make_chan 64)) 5) /\
    rd_bytes r' = [0] /\ concat (map DataOut_Data douts) = zeros 10.
Proof.
  destruct (sendDataOutBurst_spec true true 9 4096 10 4 (zeros 11) (NewReader (zeros 11))
    (mkTS (write_task (zeros 11)) (make_chan 64) 5)) as (r' & douts & H1 & H2 & H3 & _).
  all: try reflexivity; try (unfold in_width; simpl; lia).
  { split; [reflexivity|]. apply Nat.leb_le. reflexivity. }
  exists r', douts. split; [exact H1|]. split; [exact H2|exact H3].
Defined.

(** C12.  Solicited writes deliver the data: when the target's R2Ts ask for the
    data from offset [o] on, in order and each within MaxBurstLength, every R2T
    is answered without an error, the Data-Outs' payloads together are exactly
    the bytes asked for, and every Data-Out carries the bytes of the data that
    belong at its BufferOffset. *)
Theorem handle_r2ts_delivers (h d : bool) (params : NegotiatedParams) (rs : list R2T) (o : Z) (data : bytes)
    (r : Reader) (s : TS) (m := Z.to_nat (np_MaxRecvDataSegmentLength params)) :
  0 < np_MaxRecvDataSegmentLength params < 2 ^ 24 -> u32 (np_MaxBurstLength params) ->
  0 <= o -> o + Z.of_nat (length data) < 2 ^ 32 ->
  r2t_sequence (np_MaxBurstLength params) o rs -> (desired_total rs <= length data)%nat ->
  tk_reader (ts_task s) = Some r -> rd_bytes r = data -> rd_err r = EOF ->
  room (pieces_total m rs) (ts_writeCh s) ->
  exists r' douts,
    handle_r2ts h d params rs s
    = Done (None, mkTS (set_tk_reader (Some r') (ts_task s)) (sent_on (map (raw_dataOut h d) douts) (ts_writeCh s))
                    (ts_expStatSN s)) /\
    rd_bytes r' = drop (desired_total rs) data /\
    concat (map DataOut_Data douts) = take (desired_total rs) data /\
    Forall (carries o data) douts.
Proof.
  intros Hm Hburst. revert o data r s. induction rs as [|r2t rs IH]; intros o data r s Ho Hlen Hseq Htot Hr Hb Herr Hroom.
  - exists r, []. simpl. rewrite sent_on_nil, drop_0. split; [|split; [done|split; [done|constructor]]].
    destruct s as [[] ? ?]. simpl in *. by subst.
  - destruct Hseq as (Hoff & Hdes & Hseq).
    change (desired_total (r2t :: rs)) with (desired r2t + desired_total rs)%nat in *.
    change (pieces_total m (r2t :: rs)) with ((desired r2t + m - 1) / m + pieces_total m rs)%nat in Hroom.
    destruct (handleR2T_ok h d params r2t o data r s (pieces_total m rs)) as (r1 & b & HR & Hb1 & He1 & Hd1 & Hc1 & Hr1);
      try done; [lia|].
    cbn [handle_r2ts]. rewrite (SM_bind_Done _ _ _ _ _ HR). set (s1 := mkTS _ _ _).
    assert (Hdl : Z.of_nat (desired r2t) = R2T_DesiredDataTransferLength r2t) by (unfold desired; lia).
    destruct (IH (o + R2T_DesiredDataTransferLength r2t) (drop (desired r2t) data) r1 s1)
      as (r' & douts & Hrest & Hb' & Hdata & Hcarry); try done; rewrite ?length_drop; try lia.
    exists r', (b ++ douts). split; [|split; [|split]].
    + rewrite Hrest. subst s1. cbn [ts_task ts_writeCh ts_expStatSN]. by rewrite sent_on_app, map_app.
    + by rewrite Hb', drop_drop.
    + rewrite map_app, concat_app, Hdata, Hd1. by rewrite take_take_drop.
    + apply Forall_app. split; [done|]. eapply Forall_impl; [exact Hcarry|]. intros p.
      rewrite <- Hdl. apply carries_shift. lia.
Qed.

Lemma handle_r2ts_delivers_witness :
  let params := set_MaxRecvDataSegmentLength 4 Defaults in
  let r2t ttt o len := mkR2T (mkHeader false 0x31 true 0 0 (zeros 8) 7) ttt 1 1 9 0 o len in
  exists r' douts,
    handle_r2ts true true params [r2t 3 8 6; r2t 4 14 3] (mkTS (write_task (zeros 10)) (make_chan 64) 5)
    = Done (None, mkTS (set_tk_reader (Some r') (write_task (zeros 10)))
                    (sent_on (map (raw_dataOut true true) douts) (make_chan 64)) 5) /\
    rd_bytes r' = [0] /\ concat (map DataOut_Data douts) = zeros 9.
Proof.
  intros params r2t.
  destruct (handle_r2ts_delivers true true params [r2t 3 8 6; r2t 4 14 3] 8 (zeros 10) (NewReader (zeros 10))
    (mkTS (write_task (zeros 10)) (make_chan 64) 5)) as (r' & douts & H1 & H2 & H3 & _).
  all: try reflexivity; try (unfold in_width; simpl; lia).
  { apply Nat.leb_le. reflexivity. }
  { split; [reflexivity|]. apply Nat.leb_le. reflexivity. }
  exists r', douts. split; [exact H1|]. split; [exact H2|exact H3].
Defined.
