(* ===== verification/CmdWindow.v ===== *)
(** CmdSN flow control ([src/internal/session/cmdwindow.go]).

    The operations of [cmdWindow] are functions of its fields.  [acquire] also
    waits, with a helper goroutine between the condition variable and the
    caller's context; the interleavings of callers, helpers and updates are the
    runs of [step], an executable labelled transition system with one label per
    atomic action of a goroutine.  An action that needs [mu] is enabled only when
    it can be had; [Broadcast] and the channel operations need none. *)
From S2P Require Import Prelude Errors Serial.
#[local] Open Scope string_scope.
#[local] Open Scope list_scope.
#[local] Open Scope Z_scope.

Definition errWindowClosed : error := Errorf "session: command window closed" [].
Definition errCanceled : error := Errorf "context canceled" [].

Record cmdWindow := mkCmdWindow {
  cw_cmdSN : Z;
  cw_expCmdSN : Z;
  cw_maxCmdSN : Z;
  cw_closed : bool;
}.

Definition newCmdWindow (cmdSN expCmdSN maxCmdSN : Z) : cmdWindow :=
  mkCmdWindow cmdSN expCmdSN maxCmdSN false.

Definition windowOpen (w : cmdWindow) : bool :=
  if LessThan (cw_maxCmdSN w) (cw_expCmdSN w) then false
  else InWindow (cw_cmdSN w) (cw_expCmdSN w) (cw_maxCmdSN w).

(** [sn := w.cmdSN; w.cmdSN = serial.Incr(w.cmdSN)] *)
Definition allocSN (w : cmdWindow) : Z * cmdWindow :=
  (cw_cmdSN w, mkCmdWindow (Incr (cw_cmdSN w)) (cw_expCmdSN w) (cw_maxCmdSN w) (cw_closed w)).

(** The fast path of [acquire]; [None] goes on to wait. *)
Definition acquire_fast (w : cmdWindow) : option (res Z * cmdWindow) :=
  if cw_closed w then Some (Err errWindowClosed, w)
  else if windowOpen w then let '(sn, w) := allocSN w in Some (Ok sn, w)
  else None.

(** [update]; the flag is whether it broadcasts. *)
Definition update (expCmdSN maxCmdSN : Z) (w : cmdWindow) : cmdWindow * bool :=
  if LessThan maxCmdSN (uint32 (expCmdSN - 1)) then (w, false)
  else
    let '(w, updated) :=
      if GreaterThan expCmdSN (cw_expCmdSN w)
      then (mkCmdWindow (cw_cmdSN w) expCmdSN (cw_maxCmdSN w) (cw_closed w), true) else (w, false) in
    if negb (maxCmdSN =? cw_maxCmdSN w)
    then (mkCmdWindow (cw_cmdSN w) (cw_expCmdSN w) maxCmdSN (cw_closed w), true) else (w, updated).

Definition close (w : cmdWindow) : cmdWindow :=
  mkCmdWindow (cw_cmdSN w) (cw_expCmdSN w) (cw_maxCmdSN w) true.

Definition current (w : cmdWindow) : Z := cw_cmdSN w.
Definition maxCmdSNValue (w : cmdWindow) : Z := cw_maxCmdSN w.

(** ** Interleavings *)

(** The helper goroutine of a waiting [acquire] *)
Inductive waiter :=
  | WLocked              (* holds [mu], at the top of the loop *)
  | WDecide              (* holds [mu], past the two checks *)
  | WSleep               (* in [cond.Wait] *)
  | WRunnable            (* woken, waiting for [mu] *)
  | WFinished (r : res Z). (* its result is on [ch] *)

(** The caller of [acquire] *)
Inductive caller :=
  | CSelect              (* in the last select *)
  | CSignal              (* has sent on [waiterDone], will broadcast *)
  | CDrain               (* in [<-ch] of the cancelled branch *)
  | CReturned (r : res Z).

Record acq := mkAcq { aq_waiter : waiter; aq_caller : caller; aq_waiterDone : bool }.

Record wstate := mkWState {
  ws_win : cmdWindow;
  ws_mu : option nat;       (* the waiter that holds it *)
  ws_acqs : list acq;       (* one entry per call of [acquire] *)
}.

Definition wake (a : acq) : acq :=
  match aq_waiter a with
  | WSleep => mkAcq WRunnable (aq_caller a) (aq_waiterDone a)
  | _ => a
  end.

Inductive label :=
  | LAcquire                (* a call of [acquire], up to the select *)
  | LCheck (i : nat)        (* the loop's checks of [closed] and [waiterDone] *)
  | LDecide (i : nat)       (* the window check: allocate, or [cond.Wait] *)
  | LWake (i : nat)         (* a woken waiter gets [mu] *)
  | LReceive (i : nat)      (* the caller receives the result *)
  | LCancel (i : nat)       (* [ctx.Done()]: the caller signals its waiter *)
  | LBroadcast (i : nat)    (* ... and broadcasts *)
  | LDrain (i : nat)        (* ... and drains [ch] and returns [ctx.Err()] *)
  | LUpdate (expCmdSN maxCmdSN : Z)
  | LClose.

Definition set_acq (i : nat) (a : acq) (s : wstate) : wstate :=
  mkWState (ws_win s) (ws_mu s) (<[i := a]> (ws_acqs s)).

Definition step (l : label) (s : wstate) : option wstate :=
  let win := ws_win s in
  match l with
  | LAcquire =>
      match ws_mu s with
      | Some _ => None
      | None =>
        match acquire_fast win with
        | Some (r, win) => Some (mkWState win None (ws_acqs s ++ [mkAcq (WFinished r) (CReturned r) false]))
        | None => Some (mkWState win (Some (length (ws_acqs s))) (ws_acqs s ++ [mkAcq WLocked CSelect false]))
        end
      end
  | LCheck i =>
      match ws_acqs s !! i with
      | Some (mkAcq WLocked c d) =>
          if cw_closed win then
            Some (set_acq i (mkAcq (WFinished (Err errWindowClosed)) c d) (mkWState win None (ws_acqs s)))
          else if d then
            Some (set_acq i (mkAcq (WFinished (Err errCanceled)) c false) (mkWState win None (ws_acqs s)))
          else Some (set_acq i (mkAcq WDecide c d) s)
      | _ => None
      end
  | LDecide i =>
      match ws_acqs s !! i with
      | Some (mkAcq WDecide c d) =>
          if windowOpen win then
            let '(sn, win) := allocSN win in
            Some (set_acq i (mkAcq (WFinished (Ok sn)) c d) (mkWState win None (ws_acqs s)))
          else Some (set_acq i (mkAcq WSleep c d) (mkWState win None (ws_acqs s)))
      | _ => None
      end
  | LWake i =>
      match ws_mu s, ws_acqs s !! i with
      | None, Some (mkAcq WRunnable c d) =>
          Some (set_acq i (mkAcq WLocked c d) (mkWState win (Some i) (ws_acqs s)))
      | _, _ => None
      end
  | LReceive i =>
      match ws_acqs s !! i with
      | Some (mkAcq (WFinished r) CSelect d) => Some (set_acq i (mkAcq (WFinished r) (CReturned r) d) s)
      | _ => None
      end
  | LCancel i =>
      match ws_acqs s !! i with
      | Some (mkAcq w CSelect d) => Some (set_acq i (mkAcq w CSignal true) s)
      | _ => None
      end
  | LBroadcast i =>
      match ws_acqs s !! i with
      | Some (mkAcq w CSignal d) =>
          let s := set_acq i (mkAcq w CDrain d) s in
          Some (mkWState win (ws_mu s) (map wake (ws_acqs s)))
      | _ => None
      end
  | LDrain i =>
      match ws_acqs s !! i with
      | Some (mkAcq (WFinished r) CDrain d) =>
          Some (set_acq i (mkAcq (WFinished r) (CReturned (Err ErrCtx)) d) s)
      | _ => None
      end
  | LUpdate e m =>
      match ws_mu s with
      | Some _ => None
      | None => let '(win, updated) := update e m win in
                Some (mkWState win None (if updated then map wake (ws_acqs s) else ws_acqs s))
      end
  | LClose =>
      match ws_mu s with
      | Some _ => None
      | None => Some (mkWState (close win) None (map wake (ws_acqs s)))
      end
  end.

Fixpoint run (ls : list label) (s : wstate) : option wstate :=
  match ls with
  | [] => Some s
  | l :: ls => s' ← step l s; run ls s'
  end.

Definition init (w : cmdWindow) : wstate := mkWState w None [].
Definition reachable (w : cmdWindow) (s : wstate) : Prop := exists ls, run ls (init w) = Some s.

(** ** The invariant *)

Definition grant (a : acq) : option Z :=
  match aq_waiter a with WFinished (Ok sn) => Some sn | _ => None end.

(** The CmdSNs handed out *)
Definition granted (s : wstate) : list Z := omap grant (ws_acqs s).

(** [n] CmdSNs from [o] on *)
Definition sns (o : Z) (n : nat) : list Z := map (fun k => uint32 (o + Z.of_nat k)) (seq 0 n).

Definition holds_mu (a : acq) : bool :=
  match aq_waiter a with WLocked | WDecide => true | _ => false end.

Record acq_ok (w : cmdWindow) (a : acq) : Prop := {
  ao_returned : forall sn, aq_caller a = CReturned (Ok sn) -> aq_waiter a = WFinished (Ok sn);
  ao_sleep : aq_waiter a = WSleep -> windowOpen w = false /\ cw_closed w = false;
  ao_decide : aq_waiter a = WDecide -> cw_closed w = false;
}.

Record window_inv (o : Z) (n : nat) (s : wstate) : Prop := {
  wi_cmdSN : cw_cmdSN (ws_win s) = uint32 (o + Z.of_nat n);
  wi_granted : granted s ≡ₚ sns o n;
  wi_acqs : Forall (acq_ok (ws_win s)) (ws_acqs s);
  wi_mu : forall i a, ws_acqs s !! i = Some a -> holds_mu a = bool_decide (ws_mu s = Some i);
}.

Lemma sns_S o n : sns o (S n) = sns o n ++ [uint32 (o + Z.of_nat n)].
Proof. unfold sns. rewrite seq_S, map_app. done. Qed.

Lemma Incr_sn o n : Incr (uint32 (o + Z.of_nat n)) = uint32 (o + Z.of_nat (S n)).
Proof. unfold Incr, wrap. rewrite Zplus_mod_idemp_l. f_equal. lia. Qed.

Lemma grant_insert i a a' l : l !! i = Some a ->
  omap grant (<[i := a']> l) ≡ₚ option_list (grant a') ++ omap grant (delete i l) /\
  omap grant l ≡ₚ option_list (grant a) ++ omap grant (delete i l).
Proof.
  intros Hi. assert (Hlt : (i < length l)%nat) by by eapply lookup_lt_Some.
  assert (Hd : delete i (<[i := a']> l) = delete i l).
  { apply list_eq. intros j. destruct (decide (j < i)%nat).
    - rewrite !list_lookup_delete_lt, list_lookup_insert_ne by lia. done.
    - rewrite !list_lookup_delete_ge, list_lookup_insert_ne by lia. done. }
  split.
  - etransitivity; [apply omap_Permutation, (delete_Permutation _ i a'); by apply list_lookup_insert_eq|].
    rewrite Hd. simpl. by destruct (grant a').
  - etransitivity; [by apply omap_Permutation, (delete_Permutation l i a)|]. simpl. by destruct (grant a).
Qed.

Lemma grant_insert_same i a a' l : l !! i = Some a -> grant a' = grant a ->
  omap grant (<[i := a']> l) ≡ₚ omap grant l.
Proof.
  intros Hi Hg. destruct (grant_insert i a a' l Hi) as [-> ->]. by rewrite Hg.
Qed.

Lemma grant_insert_new i a a' l sn : l !! i = Some a -> grant a = None -> grant a' = Some sn ->
  omap grant (<[i := a']> l) ≡ₚ omap grant l ++ [sn].
Proof.
  intros Hi Hg Hg'. destruct (grant_insert i a a' l Hi) as [-> ->]. rewrite Hg, Hg'. simpl.
  by rewrite Permutation_app_comm.
Qed.

Lemma wake_ok w w' a : (cw_closed w' = cw_closed w \/ aq_waiter a <> WDecide) ->
  acq_ok w a -> acq_ok w' (wake a).
Proof.
  intros Hcl [H1 H2 H3]. destruct a as [w0 c d]. simpl in *. unfold wake. simpl.
  destruct w0; split; simpl; try done; try (intros sn Hc; by apply H1 in Hc).
  intros _. destruct Hcl as [->|]; [by apply H3|done].
Qed.

Lemma granted_wake l : omap grant (map wake l) = omap grant l.
Proof.
  induction l as [|a l IH]; [done|]. csimpl. rewrite IH. by destruct a as [[] ? ?].
Qed.

Lemma holds_wake a : holds_mu (wake a) = holds_mu a.
Proof. by destruct a as [[] ? ?]. Qed.

Lemma update_cmdSN e m w : cw_cmdSN (update e m w).1 = cw_cmdSN w /\ cw_closed (update e m w).1 = cw_closed w.
Proof.
  unfold update. destruct (LessThan m _); [done|].
  destruct (GreaterThan e _); cbn; by destruct (m =? _).
Qed.

(** Without a broadcast nothing changed. *)
Lemma update_quiet e m w : (update e m w).2 = false -> (update e m w).1 = w.
Proof.
  unfold update. destruct (LessThan m _); [done|].
  destruct (GreaterThan e _); cbn; by destruct (m =? _).
Qed.

(** A goroutine that keeps its acquisition's grant and does not touch the window *)
Lemma inv_set o n s i a a' mu' : window_inv o n s -> ws_acqs s !! i = Some a ->
  grant a' = grant a -> acq_ok (ws_win s) a' ->
  (forall j, bool_decide (mu' = Some j) = if decide (i = j) then holds_mu a' else bool_decide (ws_mu s = Some j)) ->
  window_inv o n (mkWState (ws_win s) mu' (<[i := a']> (ws_acqs s))).
Proof.
  intros [H1 H2 H3 H4] Hi Hg Hok Hmu. split; simpl.
  - done.
  - rewrite <- H2. unfold granted. simpl. by apply (grant_insert_same _ a).
  - by apply Forall_insert.
  - intros j b Hj. rewrite Hmu. destruct (decide (i = j)) as [<-|Hne].
    + rewrite list_lookup_insert_eq in Hj by by eapply lookup_lt_Some. by injection Hj as <-.
    + rewrite list_lookup_insert_ne in Hj by done. by apply H4.
Qed.

(** Giving a CmdSN to a call that has none *)
Lemma inv_alloc o n s l mu' :
  window_inv o n s -> windowOpen (ws_win s) = true -> omap grant l ≡ₚ omap grant (ws_acqs s) ++ [cw_cmdSN (ws_win s)] ->
  Forall (fun a => acq_ok (ws_win s) a /\ aq_waiter a <> WSleep) l ->
  (forall i a, l !! i = Some a -> holds_mu a = bool_decide (mu' = Some i)) ->
  window_inv o (S n) (mkWState (allocSN (ws_win s)).2 mu' l).
Proof.
  intros [H1 H2 H3 H4] Hopen Hg Hl Hmu. split; simpl; try done.
  - by rewrite H1, Incr_sn.
  - unfold granted in *. simpl. by rewrite Hg, H2, H1, sns_S.
  - eapply Forall_impl; [exact Hl|]. intros a [[K1 K2 K3] Hns]. split; simpl; auto. by intros ?%Hns.
Qed.

Lemma no_sleeper w l : Forall (acq_ok w) l -> windowOpen w = true ->
  Forall (fun a => acq_ok w a /\ aq_waiter a <> WSleep) l.
Proof.
  intros Hl Ho. eapply Forall_impl; [exact Hl|]. intros a Ha. split; [done|].
  intros Hs. apply (ao_sleep _ _ Ha) in Hs as [Hs _]. congruence.
Qed.

Definition allocates (s : wstate) : Prop := windowOpen (ws_win s) = true /\ cw_closed (ws_win s) = false.

Lemma inv_acquire o n s s' : window_inv o n s -> step LAcquire s = Some s' ->
  window_inv o n s' \/ allocates s /\ window_inv o (S n) s'.
Proof.
  intros Hinv. pose proof Hinv as [H1 H2 H3 H4]. unfold step, acquire_fast.
  destruct (ws_mu s) as [j|] eqn:Emu; [done|].
  assert (Happ : forall a mu', holds_mu a = bool_decide (mu' = Some (length (ws_acqs s))) ->
    (forall j, (j < length (ws_acqs s))%nat -> bool_decide (mu' = Some j) = false) ->
    forall i b, (ws_acqs s ++ [a]) !! i = Some b -> holds_mu b = bool_decide (mu' = Some i)).
  { intros a mu' Ha Hmu i b Hb. apply lookup_app_Some in Hb as [Hb|[Hl Hb]].
    - rewrite Hmu by by eapply lookup_lt_Some. rewrite (H4 i b Hb). by apply bool_decide_false.
    - apply list_lookup_singleton_Some in Hb as [Hi <-]. by replace i with (length (ws_acqs s)) by lia. }
  destruct (cw_closed (ws_win s)) eqn:Ecl; [|destruct (windowOpen (ws_win s)) eqn:Eo].
  - intros [= <-]. left. split; cbn [ws_win ws_mu ws_acqs]; try done.
    + unfold granted in *. simpl. rewrite omap_app. simpl. by rewrite app_nil_r.
    + apply Forall_app. split; [done|]. apply Forall_singleton. by split; simpl.
    + apply Happ; [done|]. intros. by apply bool_decide_false.
  - cbn. intros [= <-]. right. split; [done|].
    apply (inv_alloc o n s); try done.
    + rewrite omap_app. done.
    + apply Forall_app. split; [by apply no_sleeper|]. apply Forall_singleton. split; [|done].
      split; simpl; try done. by intros sn [= ->].
    + apply Happ; [done|]. intros. by apply bool_decide_false.
  - intros [= <-]. left. split; cbn [ws_win ws_mu ws_acqs]; try done.
    + unfold granted in *. simpl. rewrite omap_app. simpl. by rewrite app_nil_r.
    + apply Forall_app. split; [done|]. apply Forall_singleton. by split; simpl.
    + apply Happ; simpl; [by rewrite bool_decide_true|]. intros k Hk. apply bool_decide_false.
      intros [= E]. lia.
Qed.

Lemma inv_waiter o n s s' i l : (l = LCheck i \/ l = LDecide i \/ l = LWake i) ->
  window_inv o n s -> step l s = Some s' ->
  window_inv o n s' \/ allocates s /\ window_inv o (S n) s'.
Proof.
  intros Hl Hinv. pose proof Hinv as [H1 H2 H3 H4].
  destruct Hl as [->|[->| ->]]; unfold step.
  - destruct (ws_acqs s !! i) as [[[] c d]|] eqn:Hi; try done.
    pose proof (H4 i _ Hi) as Hmu. simpl in Hmu. symmetry in Hmu. apply bool_decide_eq_true in Hmu.
    pose proof (Forall_lookup_1 _ _ _ _ H3 Hi) as [K1 K2 K3]. simpl in *.
    destruct (cw_closed (ws_win s)) eqn:Ecl; [|destruct d]; intros [= <-]; left; unfold set_acq; simpl;
      (eapply inv_set; [done|exact Hi|done| |]).
    1,3,5: split; simpl; try done; by intros sn Hc%K1.
    all: intros j; simpl; rewrite ?Hmu; destruct (decide (i = j)) as [->|]; try done.
    all: try by (rewrite !bool_decide_false by congruence).
    by rewrite bool_decide_true.
  - destruct (ws_acqs s !! i) as [[[] c d]|] eqn:Hi; try done.
    pose proof (H4 i _ Hi) as Hmu. simpl in Hmu. symmetry in Hmu. apply bool_decide_eq_true in Hmu.
    pose proof (Forall_lookup_1 _ _ _ _ H3 Hi) as [K1 K2 K3]. simpl in *.
    destruct (windowOpen (ws_win s)) eqn:Eo; intros [= <-]; unfold set_acq; simpl.
    + right. split; [by split; [|apply K3]|]. apply (inv_alloc o n s); try done.
      * by apply (grant_insert_new _ _ _ _ _ Hi).
      * apply Forall_insert; [by apply no_sleeper|]. split; [|done]. split; simpl; try done.
        by intros sn Hc%K1.
      * intros j b Hj. destruct (decide (i = j)) as [<-|Hne].
        -- rewrite list_lookup_insert_eq in Hj by by eapply lookup_lt_Some. by injection Hj as <-.
        -- rewrite list_lookup_insert_ne in Hj by done. rewrite (H4 j b Hj), Hmu.
           by rewrite !bool_decide_false by congruence.
    + left. eapply inv_set; [done|exact Hi|done| |].
      * split; simpl; try done; [by intros sn Hc%K1|]. intros _. split; [done|by apply K3].
      * intros j. simpl. rewrite Hmu. destruct (decide (i = j)) as [->|]; [done|].
        by rewrite !bool_decide_false by congruence.
  - destruct (ws_mu s) as [j|] eqn:Emu; [done|].
    destruct (ws_acqs s !! i) as [[[] c d]|] eqn:Hi; try done. intros [= <-]. left.
    pose proof (Forall_lookup_1 _ _ _ _ H3 Hi) as [K1 K2 K3]. simpl in *.
    unfold set_acq; simpl. eapply inv_set; [done|exact Hi|done| |].
    + split; simpl; try done. by intros sn Hc%K1.
    + intros j. rewrite Emu. simpl. destruct (decide (i = j)) as [->|]; [by apply bool_decide_true|].
      by rewrite !bool_decide_false by congruence.
Qed.

Lemma inv_caller o n s s' i l : (l = LReceive i \/ l = LCancel i \/ l = LDrain i) ->
  window_inv o n s -> step l s = Some s' -> window_inv o n s'.
Proof.
  intros Hl Hinv. pose proof Hinv as [H1 H2 H3 H4].
  destruct Hl as [->|[->| ->]]; unfold step;
    destruct (ws_acqs s !! i) as [[w c d]|] eqn:Hi; try done;
    pose proof (H4 i _ Hi) as Hmu; pose proof (Forall_lookup_1 _ _ _ _ H3 Hi) as [K1 K2 K3]; simpl in *.
  - destruct w as [| | | |r], c; try done. intros [= <-]. unfold set_acq.
    eapply inv_set; [done|exact Hi|done|split; simpl; try done; by intros sn [= ->]|].
    intros j. destruct (decide (i = j)) as [<-|]; [by rewrite <- Hmu|done].
  - destruct c; try done. intros [= <-]. unfold set_acq.
    eapply inv_set; [done|exact Hi|done|by split; simpl|].
    intros j. destruct (decide (i = j)) as [<-|]; [by rewrite <- Hmu|done].
  - destruct w as [| | | |r], c; try done. intros [= <-]. unfold set_acq.
    eapply inv_set; [done|exact Hi|done|by split; simpl|].
    intros j. destruct (decide (i = j)) as [<-|]; [by rewrite <- Hmu|done].
Qed.

(** A broadcast, with or without a change of the window *)
Lemma inv_wake o n s w : window_inv o n s -> cw_cmdSN w = cw_cmdSN (ws_win s) ->
  (cw_closed w = cw_closed (ws_win s) \/ ws_mu s = None) ->
  window_inv o n (mkWState w (ws_mu s) (map wake (ws_acqs s))).
Proof.
  intros [H1 H2 H3 H4] Hsn Hcl. split; cbn [ws_win ws_mu ws_acqs].
  - congruence.
  - unfold granted. cbn [ws_acqs]. by rewrite granted_wake.
  - apply Forall_forall. intros b (a & -> & Ha)%list_elem_of_fmap.
    apply (wake_ok (ws_win s)); [|by rewrite Forall_forall in H3; apply H3].
    destruct Hcl as [->|Hmu]; [by left|]. right. intros Ew.
    apply list_elem_of_lookup in Ha as [i Hi]. apply H4 in Hi. rewrite Hmu in Hi.
    unfold holds_mu in Hi. by rewrite Ew in Hi.
  - intros i b. rewrite list_lookup_fmap. intros (a & Ha & ->)%fmap_Some.
    rewrite holds_wake. by apply H4.
Qed.

Lemma step_inv o n s s' l : window_inv o n s -> step l s = Some s' ->
  window_inv o n s' \/ allocates s /\ window_inv o (S n) s'.
Proof.
  intros Hinv Hstep. destruct l as [|i|i|i|i|i|i|i|e m|].
  - by apply inv_acquire.
  - apply (inv_waiter o n s s' i (LCheck i)); auto.
  - apply (inv_waiter o n s s' i (LDecide i)); auto.
  - apply (inv_waiter o n s s' i (LWake i)); auto.
  - left. apply (inv_caller o n s s' i (LReceive i)); auto.
  - left. apply (inv_caller o n s s' i (LCancel i)); auto.
  - left. unfold step in Hstep. destruct (ws_acqs s !! i) as [[w c d]|] eqn:Hi; [|done].
    destruct c; try done. injection Hstep as <-.
    pose proof Hinv as [_ _ H3 H4]. pose proof (Forall_lookup_1 _ _ _ _ H3 Hi) as [K1 K2 K3].
    apply (inv_wake o n (set_acq i (mkAcq w CDrain d) s)); [|done|by left].
    unfold set_acq. eapply inv_set; [done|exact Hi|done|by split; simpl in *|].
    intros j. destruct (decide (i = j)) as [<-|]; [by rewrite <- (H4 i _ Hi)|done].
  - left. apply (inv_caller o n s s' i (LDrain i)); auto.
  - left. unfold step in Hstep. destruct (ws_mu s) eqn:Emu; [done|].
    pose proof (update_cmdSN e m (ws_win s)) as [U1 U2]. pose proof (update_quiet e m (ws_win s)) as U3.
    destruct (update e m (ws_win s)) as [w upd]. simpl in *. injection Hstep as <-. rewrite <- Emu.
    destruct upd; [apply inv_wake; auto|]. rewrite U3 by done. by destruct s.
  - left. unfold step in Hstep. destruct (ws_mu s) eqn:Emu; [done|]. injection Hstep as <-. rewrite <- Emu.
    apply inv_wake; auto.
Qed.

Lemma run_inv o n ls s s' : window_inv o n s -> run ls s = Some s' -> exists n', window_inv o n' s'.
Proof.
  revert n s. induction ls as [|l ls IH]; intros n s Hinv; simpl.
  - intros [= <-]. eauto.
  - destruct (step l s) as [s1|] eqn:E; simpl; [|done].
    destruct (step_inv o n s s1 l Hinv E) as [H|[_ H]]; eauto.
Qed.

Lemma init_inv w : u32 (cw_cmdSN w) -> window_inv (cw_cmdSN w) 0 (init w).
Proof.
  intros Hw. split; simpl; try done. rewrite Z.add_0_r. by rewrite wrap_id.
Qed.

Lemma reachable_inv w s : u32 (cw_cmdSN w) -> reachable w s -> exists n, window_inv (cw_cmdSN w) n s.
Proof. intros Hw [ls Hrun]. by apply (run_inv _ 0 ls (init w)); [apply init_inv|]. Qed.

(** [a] was given the CmdSN [sn] and its caller got it. *)
Definition acquired (s : wstate) (i : nat) (sn : Z) : Prop :=
  exists a, ws_acqs s !! i = Some a /\ aq_caller a = CReturned (Ok sn).

Lemma sns_NoDup o n : Z.of_nat n <= 2 ^ 32 -> NoDup (sns o n).
Proof.
  intros Hn. apply NoDup_fmap_2_strong; [|apply NoDup_seq].
  intros i j [_ Hi]%elem_of_seq [_ Hj]%elem_of_seq E.
  apply (f_equal (dist o)) in E. rewrite !dist_offset in E by lia. lia.
Qed.

Lemma granted_lookup s i a sn : ws_acqs s !! i = Some a -> grant a = Some sn -> sn ∈ granted s.
Proof.
  intros Hi Hg. apply list_elem_of_omap. exists a. split; [|done]. by eapply list_elem_of_lookup_2.
Qed.

Lemma granted_distinct l i j a b sn : NoDup (omap grant l) -> l !! i = Some a -> l !! j = Some b ->
  grant a = Some sn -> grant b = Some sn -> i = j.
Proof.
  revert i j. induction l as [|x l IH]; intros i j Hnd Hi Hj Ha Hb; [done|]. csimpl in Hnd.
  assert (Hin : forall k c, l !! k = Some c -> grant c = Some sn -> sn ∈ omap grant l).
  { intros k c Hk Hc. apply list_elem_of_omap. exists c. split; [|done]. by eapply list_elem_of_lookup_2. }
  destruct i as [|i], j as [|j]; simpl in *; [done| | |].
  - injection Hi as ->. rewrite Ha in Hnd. apply NoDup_cons in Hnd as [Hn _]. destruct Hn. by eapply Hin.
  - injection Hj as ->. rewrite Hb in Hnd. apply NoDup_cons in Hnd as [Hn _]. destruct Hn. by eapply Hin.
  - f_equal. apply IH; try done. destruct (grant x); [by apply NoDup_cons in Hnd as [_ Hnd]|done].
Qed.

(** ** Cancellation *)

(** Call [i] has a CmdSN and has been cancelled: its caller will not return the
    CmdSN. *)
Definition forsaken (i : nat) (sn : Z) (s : wstate) : Prop :=
  exists c d, ws_acqs s !! i = Some (mkAcq (WFinished (Ok sn)) c d) /\
    (c = CSignal \/ c = CDrain \/ c = CReturned (Err ErrCtx)).

(** Call [i] is cancelled, and its waiter sleeps. *)
Definition stranded (i : nat) (s : wstate) : Prop := ws_acqs s !! i = Some (mkAcq WSleep CDrain true).

(** The actions that wake the waiters *)
Definition wakes (l : label) : Prop :=
  match l with LUpdate _ _ | LClose | LBroadcast _ => True | _ => False end.

(** What one action does to a call: it is woken or not, its own action or none *)
Lemma step_acq l s s' i a : step l s = Some s' -> ws_acqs s !! i = Some a ->
  exists a', ws_acqs s' !! i = Some a' /\
    (a' = a \/ (wakes l /\ a' = wake a) \/
     match aq_waiter a, aq_caller a with
     | WFinished r, CSelect => aq_waiter a' = WFinished r /\ (aq_caller a' = CReturned r \/ aq_caller a' = CSignal)
     | WFinished r, CSignal => aq_waiter a' = WFinished r /\ aq_caller a' = CDrain
     | WFinished r, CDrain => aq_waiter a' = WFinished r /\ aq_caller a' = CReturned (Err ErrCtx)
     | WFinished _, CReturned _ => False
     | WSleep, CDrain => False
     | _, _ => True
     end).
Proof.
  intros Hstep Hi. assert (Hlt : (i < length (ws_acqs s))%nat) by by eapply lookup_lt_Some.
  assert (Hins : forall k b, ws_acqs s !! k = Some b -> forall b', (k = i -> a = b) /\
    <[k := b']> (ws_acqs s) !! i = Some (if decide (k = i) then b' else a)).
  { intros k b Hk b'. split; [intros ->; congruence|]. destruct (decide (k = i)) as [->|].
    - by apply list_lookup_insert_eq.
    - by rewrite list_lookup_insert_ne. }
  destruct l as [|k|k|k|k|k|k|k|e m|]; unfold step in Hstep.
  - destruct (ws_mu s); [done|]. exists a. split; [|by left].
    destruct (acquire_fast _) as [[r w]|]; injection Hstep as <-; cbn [ws_acqs]; by rewrite lookup_app_l.
  - destruct (ws_acqs s !! k) as [[[] c d]|] eqn:Hk; try done. pose proof (Hins k _ Hk) as Hs.
    destruct (cw_closed _); [|destruct d]; injection Hstep as <-; cbn [set_acq ws_acqs];
      match goal with |- context [<[k := ?b]> _] => destruct (Hs b) as [He Hl] end; rewrite Hl; eexists; (split; [done|]);
      (destruct (decide (k = i)) as [E|]; [rewrite (He E); by right; right|by left]).
  - destruct (ws_acqs s !! k) as [[[] c d]|] eqn:Hk; try done. pose proof (Hins k _ Hk) as Hs.
    destruct (windowOpen _); [destruct (allocSN _)|]; injection Hstep as <-; cbn [set_acq ws_acqs];
      match goal with |- context [<[k := ?b]> _] => destruct (Hs b) as [He Hl] end; rewrite Hl; eexists; (split; [done|]);
      (destruct (decide (k = i)) as [E|]; [rewrite (He E); by right; right|by left]).
  - destruct (ws_mu s); [done|]. destruct (ws_acqs s !! k) as [[[] c d]|] eqn:Hk; try done. pose proof (Hins k _ Hk) as Hs.
    injection Hstep as <-; cbn [set_acq ws_acqs];
      match goal with |- context [<[k := ?b]> _] => destruct (Hs b) as [He Hl] end; rewrite Hl; eexists; (split; [done|]);
      (destruct (decide (k = i)) as [E|]; [rewrite (He E); by right; right|by left]).
  - destruct (ws_acqs s !! k) as [[[] [] d]|] eqn:Hk; try done. pose proof (Hins k _ Hk) as Hs.
    injection Hstep as <-; cbn [set_acq ws_acqs];
      match goal with |- context [<[k := ?b]> _] => destruct (Hs b) as [He Hl] end; rewrite Hl; eexists; (split; [done|]);
      (destruct (decide (k = i)) as [E|]; [rewrite (He E); right; right; cbn; by split; [|left]|by left]).
  - destruct (ws_acqs s !! k) as [[w0 [] d]|] eqn:Hk; try done. pose proof (Hins k _ Hk) as Hs.
    injection Hstep as <-; cbn [set_acq ws_acqs];
      match goal with |- context [<[k := ?b]> _] => destruct (Hs b) as [He Hl] end; rewrite Hl; eexists; (split; [done|]);
      (destruct (decide (k = i)) as [E|]; [rewrite (He E); right; right; destruct w0; cbn; auto|by left]).
  - destruct (ws_acqs s !! k) as [[w0 [] d]|] eqn:Hk; try done. pose proof (Hins k _ Hk) as Hs.
    injection Hstep as <-; cbn [set_acq ws_acqs]. rewrite list_lookup_fmap.
    match goal with |- context [<[k := ?b]> _] => destruct (Hs b) as [He Hl] end. rewrite Hl. eexists. split; [done|].
    destruct (decide (k = i)) as [E|]; [rewrite (He E); right; right; destruct w0; cbn; auto|right; left; done].
  - destruct (ws_acqs s !! k) as [[[] [] d]|] eqn:Hk; try done. pose proof (Hins k _ Hk) as Hs.
    injection Hstep as <-; cbn [set_acq ws_acqs];
      match goal with |- context [<[k := ?b]> _] => destruct (Hs b) as [He Hl] end; rewrite Hl; eexists; (split; [done|]);
      (destruct (decide (k = i)) as [E|]; [rewrite (He E); right; right; cbn; auto|by left]).
  - destruct (ws_mu s); [done|]. destruct (update _ _ _) as [w []]; injection Hstep as <-; cbn [ws_acqs].
    + rewrite list_lookup_fmap, Hi. eexists. split; [done|]. by right; left.
    + exists a. by split; [|left].
  - destruct (ws_mu s); [done|]. injection Hstep as <-; cbn [ws_acqs]. rewrite list_lookup_fmap, Hi.
    eexists. split; [done|]. by right; left.
Qed.

Lemma step_forsaken l s s' i sn : step l s = Some s' -> forsaken i sn s -> forsaken i sn s'.
Proof.
  intros Hstep (c & d & Hi & Hc). destruct (step_acq l s s' i _ Hstep Hi) as (a' & Hi' & [->|[[_ ->]|Ha]]).
  - by exists c, d.
  - by exists c, d.
  - destruct a' as [w' c' d']. cbn in Ha. exists c', d'.
    destruct Hc as [->|[->| ->]]; cbn in Ha; try done; destruct Ha as [-> ->]; auto.
Qed.

Lemma run_forsaken ls : forall s s' i sn, run ls s = Some s' -> forsaken i sn s -> forsaken i sn s'.
Proof.
  induction ls as [|l ls IH]; intros s s' i sn H Hf; cbn in H; [by injection H as <-|].
  destruct (step l s) as [s1|] eqn:E; [|done]. eapply IH; [exact H|]. by eapply step_forsaken.
Qed.

Lemma run_stranded ls : forall s s' i, Forall (fun l => ~ wakes l) ls -> run ls s = Some s' -> stranded i s -> stranded i s'.
Proof.
  induction ls as [|l ls IH]; intros s s' i Hl H Hs; cbn in H; [by injection H as <-|].
  apply Forall_cons in Hl as [Hw Hl]. destruct (step l s) as [s1|] eqn:E; [|done].
  eapply IH; [done|exact H|]. destruct (step_acq l s s1 i _ E Hs) as (a' & Hi' & [->|[[? _]|Ha]]); [done|done|].
  done.
Qed.

Lemma run_labels_app ls ls' s : run (ls ++ ls') s = (s1 ← run ls s; run ls' s1).
Proof. revert s. induction ls as [|l ls IH]; intros s; [done|]. cbn. destruct (step l s); [apply IH|done]. Qed.

(** A stale update, of a PDU processed late, moves MaxCmdSN backwards. *)
Lemma update_stale : (update 3 10 (mkCmdWindow 6 5 20 false)).1 = mkCmdWindow 6 5 10 false.
Proof. reflexivity. Qed.

(** ** Properties *)

(** C9.  CmdSNs are handed out at most once and without gaps: in every
    interleaving of calls, helpers, cancellations, updates and close, the CmdSNs
    given so far are the next [n] after the initial one, and no two successful
    calls have the same. *)
Theorem acquire_distinct (w : cmdWindow) (s : wstate) :
  u32 (cw_cmdSN w) -> reachable w s ->
  exists n, granted s ≡ₚ sns (cw_cmdSN w) n /\ cw_cmdSN (ws_win s) = uint32 (cw_cmdSN w + Z.of_nat n) /\
    (Z.of_nat n <= 2 ^ 32 -> forall i j sn, acquired s i sn -> acquired s j sn -> i = j).
Proof.
  intros Hw Hr. destruct (reachable_inv w s Hw Hr) as [n [H1 H2 H3 H4]]. exists n.
  split; [done|]. split; [done|]. intros Hn i j sn (a & Hi & Ha) (b & Hj & Hb).
  assert (Hg : forall k c, ws_acqs s !! k = Some c -> aq_caller c = CReturned (Ok sn) -> grant c = Some sn).
  { intros k c Hk Hc. pose proof (Forall_lookup_1 _ _ _ _ H3 Hk) as [K _ _].
    unfold grant. by rewrite (K _ Hc). }
  apply (granted_distinct (ws_acqs s) i j a b sn); eauto.
  change (NoDup (granted s)). rewrite H2. by apply sns_NoDup.
Qed.

Lemma acquire_distinct_witness :
  let w := newCmdWindow 4294967295 4294967295 4294967295 in
  exists s, reachable w s /\ acquired s 0 4294967295 /\ acquired s 1 0 /\
  exists n, granted s ≡ₚ sns (cw_cmdSN w) n.
Proof.
  intros w. eexists. assert (Hr : reachable w (mkWState (mkCmdWindow 1 0 0 false) None
    [mkAcq (WFinished (Ok 4294967295)) (CReturned (Ok 4294967295)) false;
     mkAcq (WFinished (Ok 0)) (CReturned (Ok 0)) false])).
  { exists [LAcquire; LAcquire; LCheck 1; LDecide 1; LUpdate 0 0; LWake 1; LCheck 1; LDecide 1; LReceive 1].
    vm_compute. reflexivity. }
  split; [exact Hr|]. split; [by eexists|]. split; [by eexists|].
  destruct (acquire_distinct w _ ltac:(by vm_compute) Hr) as (n & Hn & _). by exists n.
Defined.

(** C10.  Flow control: a step gives out at most one CmdSN, and only when the
    window of the target's last accepted update is open and the session has not
    been closed; for a window shorter than half the circle that CmdSN lies in
    it.  And no caller is left asleep while a CmdSN is to be had, or after close. *)
Theorem acquire_in_window (w : cmdWindow) (s s' : wstate) (l : label) :
  u32 (cw_cmdSN w) -> reachable w s -> step l s = Some s' ->
  (granted s' ≡ₚ granted s \/
   granted s' ≡ₚ granted s ++ [cw_cmdSN (ws_win s)] /\ cw_closed (ws_win s) = false /\
   windowOpen (ws_win s) = true /\
   (u32 (cw_expCmdSN (ws_win s)) -> u32 (cw_maxCmdSN (ws_win s)) ->
    dist (cw_expCmdSN (ws_win s)) (cw_maxCmdSN (ws_win s)) < 2 ^ 31 ->
    dist (cw_expCmdSN (ws_win s)) (cw_cmdSN (ws_win s))
      <= dist (cw_expCmdSN (ws_win s)) (cw_maxCmdSN (ws_win s)))) /\
  (forall i a, ws_acqs s' !! i = Some a -> aq_waiter a = WSleep ->
   windowOpen (ws_win s') = false /\ cw_closed (ws_win s') = false).
Proof.
  intros Hw Hr Hstep. destruct (reachable_inv w s Hw Hr) as [n Hinv].
  assert (Hsn : u32 (cw_cmdSN (ws_win s))) by (rewrite (wi_cmdSN _ _ _ Hinv); apply wrap_range; lia).
  assert (Hsleep : forall m, window_inv (cw_cmdSN w) m s' -> forall i a, ws_acqs s' !! i = Some a ->
    aq_waiter a = WSleep -> windowOpen (ws_win s') = false /\ cw_closed (ws_win s') = false).
  { intros m [_ _ H3 _] i a Hi Ha. exact (ao_sleep _ _ (Forall_lookup_1 _ _ _ _ H3 Hi) Ha). }
  destruct (step_inv _ n s s' l Hinv Hstep) as [H'|[[Ho Hc] H']]; (split; [|by eapply Hsleep]).
  - left. rewrite (wi_granted _ _ _ H'), (wi_granted _ _ _ Hinv). done.
  - right. split.
    { rewrite (wi_granted _ _ _ H'), (wi_granted _ _ _ Hinv), sns_S, (wi_cmdSN _ _ _ Hinv). done. }
    split; [done|]. split; [done|]. intros He Hm Hlt. unfold windowOpen in Ho.
    destruct (LessThan _ _); [done|]. by apply InWindow_dist.
Qed.

Lemma acquire_in_window_witness :
  let w := newCmdWindow 7 7 8 in
  let s := mkWState w None [] in
  let s' := mkWState (mkCmdWindow 8 7 8 false) None [mkAcq (WFinished (Ok 7)) (CReturned (Ok 7)) false] in
  step LAcquire s = Some s' /\
  (granted s' ≡ₚ granted s \/ granted s' ≡ₚ granted s ++ [7] /\ windowOpen w = true).
Proof.
  intros w s s'. split; [reflexivity|].
  destruct (acquire_in_window w s s' LAcquire ltac:(by vm_compute) ltac:(by exists []) ltac:(reflexivity))
    as [[H|(H & _ & Ho & _)] _]; [by left|right; by split].
Defined.

(** C40.  Cancelling a waiting acquire is unsafe in two ways, in every interleaving.
    When its context ends after its helper has been given a CmdSN and before the
    caller has received it, the CmdSN is lost: the caller will return the
    context's error if it returns, and, while no more than 2^32 CmdSNs have been
    given out, no call ever returns that CmdSN, so no command will carry it.  When
    the cancellation is signalled and broadcast between the helper's check for it
    and its wait on a window that is not open, the wake-up is lost: the helper
    sleeps, and the caller with it, through everything that happens until the
    window changes or is closed or another cancellation is broadcast. *)
Theorem cancelled_acquire (w : cmdWindow) (s : wstate) (i : nat) (a : acq) :
  u32 (cw_cmdSN w) -> reachable w s -> ws_acqs s !! i = Some a -> aq_caller a = CSelect ->
  (forall sn, aq_waiter a = WFinished (Ok sn) ->
     exists s1, step (LCancel i) s = Some s1 /\
     forall ls s', run ls s1 = Some s' -> Z.of_nat (length (granted s')) <= 2 ^ 32 ->
       sn ∈ granted s' /\ (forall j, ~ acquired s' j sn) /\
       (forall b r, ws_acqs s' !! i = Some b -> aq_caller b = CReturned r -> r = Err ErrCtx)) /\
  (aq_waiter a = WDecide -> windowOpen (ws_win s) = false ->
     exists s1, run [LCancel i; LBroadcast i; LDecide i] s = Some s1 /\
     forall ls s', Forall (fun l => ~ wakes l) ls -> run ls s1 = Some s' ->
       ws_acqs s' !! i = Some (mkAcq WSleep CDrain true)).
Proof.
  intros Hw [ls0 Hrun0] Hi Hc. destruct a as [wt c d]. cbn in Hc. subst c. split; cbn [aq_waiter].
  - intros sn ->. eexists. split; [unfold step; by rewrite Hi|]. intros ls s' Hrun Hn.
    assert (Hf : forsaken i sn s').
    { eapply run_forsaken; [exact Hrun|]. exists CSignal, true. split; [|by left].
      apply list_lookup_insert_eq. by eapply lookup_lt_Some. }
    destruct Hf as (c & d' & Hi' & Hc').
    assert (Hr : reachable w s').
    { exists (ls0 ++ LCancel i :: ls). rewrite run_labels_app, Hrun0. cbn. rewrite Hi. exact Hrun. }
    destruct (reachable_inv w s' Hw Hr) as [n [H1 H2 H3 H4]].
    assert (Hnd : NoDup (granted s')).
    { rewrite H2. apply sns_NoDup. rewrite H2 in Hn. unfold sns in Hn. by rewrite length_map, length_seq in Hn. }
    split; [by eapply granted_lookup|]. split.
    + intros j (b & Hj & Hb). pose proof (ao_returned _ _ (Forall_lookup_1 _ _ _ _ H3 Hj) sn Hb) as Hg.
      assert (i = j) as <- by (eapply (granted_distinct _ i j _ b sn Hnd Hi' Hj); [done|]; unfold grant; by rewrite Hg).
      rewrite Hi' in Hj. injection Hj as <-. cbn in Hb. destruct Hc' as [->|[->| ->]]; done.
    + intros b r Hb Hret. rewrite Hi' in Hb. injection Hb as <-. cbn in Hret. destruct Hc' as [->|[->| ->]]; congruence.
  - intros -> Ho. set (a1 := mkAcq WDecide CDrain true).
    assert (Hlt : (i < length (ws_acqs s))%nat) by by eapply lookup_lt_Some.
    assert (S1 : step (LCancel i) s = Some (set_acq i (mkAcq WDecide CSignal true) s)) by (unfold step; by rewrite Hi).
    eexists. split.
    { cbn [run]. rewrite S1. cbn [mbind option_bind]. cbn [step set_acq ws_acqs ws_win ws_mu].
      rewrite list_lookup_insert_eq by done. cbn [mbind option_bind]. cbn [step set_acq ws_acqs ws_win ws_mu].
      rewrite list_lookup_fmap, list_lookup_insert_eq by by rewrite length_insert.
      cbn [fmap option_fmap option_map wake aq_waiter]. rewrite Ho. reflexivity. }
    intros ls s' Hl Hrun. eapply (run_stranded ls); [exact Hl|exact Hrun|]. unfold stranded. cbn [set_acq ws_acqs].
    apply list_lookup_insert_eq. by rewrite length_map, !length_insert.
Qed.

(** Two calls on a window for one command: the second waits.  Its CmdSN is lost, or
    its cancellation. *)
Lemma cancelled_acquire_witness : let w := newCmdWindow 7 7 7 in
  let leak := [LCancel 1; LBroadcast 1; LDrain 1] in
  (exists s', run ([LAcquire; LAcquire; LCheck 1; LDecide 1; LUpdate 8 8; LWake 1; LCheck 1; LDecide 1] ++ leak) (init w)
     = Some s' /\ 8 ∈ granted s' /\ forall j, ~ acquired s' j 8) /\
  (exists s', run ([LAcquire; LAcquire; LCheck 1] ++ [LCancel 1; LBroadcast 1; LDecide 1]) (init w) = Some s' /\
     ws_acqs s' !! 1%nat = Some (mkAcq WSleep CDrain true)).
Proof.
  intros w leak. split.
  - destruct (run [LAcquire; LAcquire; LCheck 1; LDecide 1; LUpdate 8 8; LWake 1; LCheck 1; LDecide 1] (init w))
      as [s|] eqn:E; [|by vm_compute in E].
    assert (Hr : reachable w s) by by eexists.
    destruct (ws_acqs s !! 1%nat) as [a|] eqn:Ea; [|vm_compute in E; injection E as <-; by vm_compute in Ea].
    assert (Ha : aq_caller a = CSelect /\ aq_waiter a = WFinished (Ok 8)).
    { vm_compute in E. injection E as <-. vm_compute in Ea. injection Ea as <-. by split. }
    destruct (cancelled_acquire w s 1 a ltac:(by vm_compute) Hr Ea (proj1 Ha)) as [H _].
    destruct (H 8 (proj2 Ha)) as (s1 & H1 & H2). rewrite run_labels_app, E. cbn [mbind option_bind].
    destruct (run leak s) as [s'|] eqn:E'; [|vm_compute in E; injection E as <-; by vm_compute in E'].
    exists s'. split; [done|]. unfold leak in E'. change (run (LCancel 1 :: [LBroadcast 1; LDrain 1]) s = Some s') in E'.
    cbn [run] in E'. rewrite H1 in E'. destruct (H2 [LBroadcast 1; LDrain 1] s' E') as (G1 & G2 & _); [|by split].
    vm_compute in E. injection E as <-. vm_compute in H1. injection H1 as <-. vm_compute in E'. injection E' as <-. by vm_compute.
  - destruct (run [LAcquire; LAcquire; LCheck 1] (init w)) as [s|] eqn:E; [|by vm_compute in E].
    assert (Hr : reachable w s) by by eexists.
    destruct (ws_acqs s !! 1%nat) as [a|] eqn:Ea; [|vm_compute in E; injection E as <-; by vm_compute in Ea].
    assert (Ha : aq_caller a = CSelect /\ aq_waiter a = WDecide /\ windowOpen (ws_win s) = false).
    { vm_compute in E. injection E as <-. vm_compute in Ea. injection Ea as <-. by vm_compute. }
    destruct Ha as (A1 & A2 & A3).
    destruct (cancelled_acquire w s 1 a ltac:(by vm_compute) Hr Ea A1) as [_ H].
    destruct (H A2 A3) as (s1 & H1 & H2). rewrite run_labels_app, E. cbn [mbind option_bind]. exists s1. split; [exact H1|].
    exact (H2 [] s1 (List.Forall_nil _) eq_refl).
Defined.
