(* ===== verification/Session.v ===== *)
(** Sessions: command submission, task loops and unsolicited PDUs
    ([src/internal/session/session.go], [keepalive.go], [async.go]).

    The state is the [Session] struct with the objects it shares: the router, the
    write channel, and the [*task] objects, a store addressed by position, because
    a task is referred to by the table [s.tasks], by its [taskLoop] and by the
    caller of Submit.  Every operation is a transformer of this state in the
    monad [SM]: it can block on a channel or on the command window, and it can
    panic.  [mu] makes the operations' accesses atomic; goroutines an operation
    starts are recorded in [ss_loops] and [ss_spawned]. *)
From S2P Require Import Prelude Errors Bhs PduTactics PduInitiator PduTarget Pdu GoIO Digest Framer.
From S2P Require Import Chan Serial Router Negotiation CmdWindow Config Types Task DataOut.
#[local] Open Scope string_scope.
#[local] Open Scope list_scope.
#[local] Open Scope Z_scope.

Definition ErrRetryNotPossible : error :=
  Errorf "session: retry not possible (non-seekable write data)" [].
Definition ErrSessionRecovering : error := Errorf "session: recovery in progress" [].

(** The other goroutines an operation starts *)
Inductive spawn :=
  | SpawnLogout (evt : AsyncEvent)
  | SpawnRenegotiate (deadline : Z)
  | SpawnReplaceConnection (cause : error)
  | SpawnReconnect (cause : error).

Record Session := mkSession {
  ss_params : NegotiatedParams;
  ss_digestHeader : bool;   (* [s.conn]'s digest flags *)
  ss_digestData : bool;
  ss_router : Router;
  ss_writeCh : Chan RawPDU;
  ss_window : cmdWindow;
  ss_expStatSN : Z;
  ss_objs : list task;   (* the [*task] objects, by address *)
  ss_tasks : gmap Z nat;   (* the table [s.tasks]: ITT to address *)
  ss_loops : list (nat * nat);   (* the [taskLoop]s started: task and channel *)
  ss_loggedIn : bool;
  ss_recovering : bool;
  ss_draining : bool;
  ss_drainDone : bool;   (* [drainDone] is not nil *)
  ss_drained : bool;   (* the channel a waiting [Drain] holds is closed *)
  ss_err : option error;
  ss_cancelled : bool;   (* [s.cancel()] was called *)
  ss_closed : bool;   (* [s.closed] is closed *)
  ss_events : list AsyncEvent;   (* calls of the async handler *)
  ss_spawned : list spawn;   (* other goroutines started *)
  ss_states : list SessionState;   (* calls of the state-change hook *)
  ss_cfg : sessionConfig;
}.

(** Assignments to the fields *)
Definition set_params (v : NegotiatedParams) (s : Session) : Session :=
  mkSession v (ss_digestHeader s) (ss_digestData s) (ss_router s) (ss_writeCh s) (ss_window s)
    (ss_expStatSN s) (ss_objs s) (ss_tasks s) (ss_loops s) (ss_loggedIn s) (ss_recovering s)
    (ss_draining s) (ss_drainDone s) (ss_drained s) (ss_err s) (ss_cancelled s) (ss_closed s)
    (ss_events s) (ss_spawned s) (ss_states s) (ss_cfg s).
Definition set_digestHeader (v : bool) (s : Session) : Session :=
  mkSession (ss_params s) v (ss_digestData s) (ss_router s) (ss_writeCh s) (ss_window s)
    (ss_expStatSN s) (ss_objs s) (ss_tasks s) (ss_loops s) (ss_loggedIn s) (ss_recovering s)
    (ss_draining s) (ss_drainDone s) (ss_drained s) (ss_err s) (ss_cancelled s) (ss_closed s)
    (ss_events s) (ss_spawned s) (ss_states s) (ss_cfg s).
Definition set_digestData (v : bool) (s : Session) : Session :=
  mkSession (ss_params s) (ss_digestHeader s) v (ss_router s) (ss_writeCh s) (ss_window s)
    (ss_expStatSN s) (ss_objs s) (ss_tasks s) (ss_loops s) (ss_loggedIn s) (ss_recovering s)
    (ss_draining s) (ss_drainDone s) (ss_drained s) (ss_err s) (ss_cancelled s) (ss_closed s)
    (ss_events s) (ss_spawned s) (ss_states s) (ss_cfg s).
Definition set_router (v : Router) (s : Session) : Session :=
  mkSession (ss_params s) (ss_digestHeader s) (ss_digestData s) v (ss_writeCh s) (ss_window s)
    (ss_expStatSN s) (ss_objs s) (ss_tasks s) (ss_loops s) (ss_loggedIn s) (ss_recovering s)
    (ss_draining s) (ss_drainDone s) (ss_drained s) (ss_err s) (ss_cancelled s) (ss_closed s)
    (ss_events s) (ss_spawned s) (ss_states s) (ss_cfg s).
Definition set_writeCh (v : Chan RawPDU) (s : Session) : Session :=
  mkSession (ss_params s) (ss_digestHeader s) (ss_digestData s) (ss_router s) v (ss_window s)
    (ss_expStatSN s) (ss_objs s) (ss_tasks s) (ss_loops s) (ss_loggedIn s) (ss_recovering s)
    (ss_draining s) (ss_drainDone s) (ss_drained s) (ss_err s) (ss_cancelled s) (ss_closed s)
    (ss_events s) (ss_spawned s) (ss_states s) (ss_cfg s).
Definition set_window (v : cmdWindow) (s : Session) : Session :=
  mkSession (ss_params s) (ss_digestHeader s) (ss_digestData s) (ss_router s) (ss_writeCh s) v
    (ss_expStatSN s) (ss_objs s) (ss_tasks s) (ss_loops s) (ss_loggedIn s) (ss_recovering s)
    (ss_draining s) (ss_drainDone s) (ss_drained s) (ss_err s) (ss_cancelled s) (ss_closed s)
    (ss_events s) (ss_spawned s) (ss_states s) (ss_cfg s).
Definition set_expStatSN (v : Z) (s : Session) : Session :=
  mkSession (ss_params s) (ss_digestHeader s) (ss_digestData s) (ss_router s) (ss_writeCh s)
    (ss_window s) v (ss_objs s) (ss_tasks s) (ss_loops s) (ss_loggedIn s) (ss_recovering s)
    (ss_draining s) (ss_drainDone s) (ss_drained s) (ss_err s) (ss_cancelled s) (ss_closed s)
    (ss_events s) (ss_spawned s) (ss_states s) (ss_cfg s).
Definition set_objs (v : list task) (s : Session) : Session :=
  mkSession (ss_params s) (ss_digestHeader s) (ss_digestData s) (ss_router s) (ss_writeCh s)
    (ss_window s) (ss_expStatSN s) v (ss_tasks s) (ss_loops s) (ss_loggedIn s) (ss_recovering s)
    (ss_draining s) (ss_drainDone s) (ss_drained s) (ss_err s) (ss_cancelled s) (ss_closed s)
    (ss_events s) (ss_spawned s) (ss_states s) (ss_cfg s).
Definition set_tasks (v : gmap Z nat) (s : Session) : Session :=
  mkSession (ss_params s) (ss_digestHeader s) (ss_digestData s) (ss_router s) (ss_writeCh s)
    (ss_window s) (ss_expStatSN s) (ss_objs s) v (ss_loops s) (ss_loggedIn s) (ss_recovering s)
    (ss_draining s) (ss_drainDone s) (ss_drained s) (ss_err s) (ss_cancelled s) (ss_closed s)
    (ss_events s) (ss_spawned s) (ss_states s) (ss_cfg s).
Definition set_loops (v : list (nat * nat)) (s : Session) : Session :=
  mkSession (ss_params s) (ss_digestHeader s) (ss_digestData s) (ss_router s) (ss_writeCh s)
    (ss_window s) (ss_expStatSN s) (ss_objs s) (ss_tasks s) v (ss_loggedIn s) (ss_recovering s)
    (ss_draining s) (ss_drainDone s) (ss_drained s) (ss_err s) (ss_cancelled s) (ss_closed s)
    (ss_events s) (ss_spawned s) (ss_states s) (ss_cfg s).
Definition set_loggedIn (v : bool) (s : Session) : Session :=
  mkSession (ss_params s) (ss_digestHeader s) (ss_digestData s) (ss_router s) (ss_writeCh s)
    (ss_window s) (ss_expStatSN s) (ss_objs s) (ss_tasks s) (ss_loops s) v (ss_recovering s)
    (ss_draining s) (ss_drainDone s) (ss_drained s) (ss_err s) (ss_cancelled s) (ss_closed s)
    (ss_events s) (ss_spawned s) (ss_states s) (ss_cfg s).
Definition set_recovering (v : bool) (s : Session) : Session :=
  mkSession (ss_params s) (ss_digestHeader s) (ss_digestData s) (ss_router s) (ss_writeCh s)
    (ss_window s) (ss_expStatSN s) (ss_objs s) (ss_tasks s) (ss_loops s) (ss_loggedIn s) v
    (ss_draining s) (ss_drainDone s) (ss_drained s) (ss_err s) (ss_cancelled s) (ss_closed s)
    (ss_events s) (ss_spawned s) (ss_states s) (ss_cfg s).
Definition set_draining (v : bool) (s : Session) : Session :=
  mkSession (ss_params s) (ss_digestHeader s) (ss_digestData s) (ss_router s) (ss_writeCh s)
    (ss_window s) (ss_expStatSN s) (ss_objs s) (ss_tasks s) (ss_loops s) (ss_loggedIn s)
    (ss_recovering s) v (ss_drainDone s) (ss_drained s) (ss_err s) (ss_cancelled s) (ss_closed s)
    (ss_events s) (ss_spawned s) (ss_states s) (ss_cfg s).
Definition set_drainDone (v : bool) (s : Session) : Session :=
  mkSession (ss_params s) (ss_digestHeader s) (ss_digestData s) (ss_router s) (ss_writeCh s)
    (ss_window s) (ss_expStatSN s) (ss_objs s) (ss_tasks s) (ss_loops s) (ss_loggedIn s)
    (ss_recovering s) (ss_draining s) v (ss_drained s) (ss_err s) (ss_cancelled s) (ss_closed s)
    (ss_events s) (ss_spawned s) (ss_states s) (ss_cfg s).
Definition set_drained (v : bool) (s : Session) : Session :=
  mkSession (ss_params s) (ss_digestHeader s) (ss_digestData s) (ss_router s) (ss_writeCh s)
    (ss_window s) (ss_expStatSN s) (ss_objs s) (ss_tasks s) (ss_loops s) (ss_loggedIn s)
    (ss_recovering s) (ss_draining s) (ss_drainDone s) v (ss_err s) (ss_cancelled s) (ss_closed s)
    (ss_events s) (ss_spawned s) (ss_states s) (ss_cfg s).
Definition set_err (v : option error) (s : Session) : Session :=
  mkSession (ss_params s) (ss_digestHeader s) (ss_digestData s) (ss_router s) (ss_writeCh s)
    (ss_window s) (ss_expStatSN s) (ss_objs s) (ss_tasks s) (ss_loops s) (ss_loggedIn s)
    (ss_recovering s) (ss_draining s) (ss_drainDone s) (ss_drained s) v (ss_cancelled s) (ss_closed
    s) (ss_events s) (ss_spawned s) (ss_states s) (ss_cfg s).
Definition set_cancelled (v : bool) (s : Session) : Session :=
  mkSession (ss_params s) (ss_digestHeader s) (ss_digestData s) (ss_router s) (ss_writeCh s)
    (ss_window s) (ss_expStatSN s) (ss_objs s) (ss_tasks s) (ss_loops s) (ss_loggedIn s)
    (ss_recovering s) (ss_draining s) (ss_drainDone s) (ss_drained s) (ss_err s) v (ss_closed s)
    (ss_events s) (ss_spawned s) (ss_states s) (ss_cfg s).
Definition set_closed (v : bool) (s : Session) : Session :=
  mkSession (ss_params s) (ss_digestHeader s) (ss_digestData s) (ss_router s) (ss_writeCh s)
    (ss_window s) (ss_expStatSN s) (ss_objs s) (ss_tasks s) (ss_loops s) (ss_loggedIn s)
    (ss_recovering s) (ss_draining s) (ss_drainDone s) (ss_drained s) (ss_err s) (ss_cancelled s) v
    (ss_events s) (ss_spawned s) (ss_states s) (ss_cfg s).
Definition set_events (v : list AsyncEvent) (s : Session) : Session :=
  mkSession (ss_params s) (ss_digestHeader s) (ss_digestData s) (ss_router s) (ss_writeCh s)
    (ss_window s) (ss_expStatSN s) (ss_objs s) (ss_tasks s) (ss_loops s) (ss_loggedIn s)
    (ss_recovering s) (ss_draining s) (ss_drainDone s) (ss_drained s) (ss_err s) (ss_cancelled s)
    (ss_closed s) v (ss_spawned s) (ss_states s) (ss_cfg s).
Definition set_spawned (v : list spawn) (s : Session) : Session :=
  mkSession (ss_params s) (ss_digestHeader s) (ss_digestData s) (ss_router s) (ss_writeCh s)
    (ss_window s) (ss_expStatSN s) (ss_objs s) (ss_tasks s) (ss_loops s) (ss_loggedIn s)
    (ss_recovering s) (ss_draining s) (ss_drainDone s) (ss_drained s) (ss_err s) (ss_cancelled s)
    (ss_closed s) (ss_events s) v (ss_states s) (ss_cfg s).
Definition set_states (v : list SessionState) (s : Session) : Session :=
  mkSession (ss_params s) (ss_digestHeader s) (ss_digestData s) (ss_router s) (ss_writeCh s)
    (ss_window s) (ss_expStatSN s) (ss_objs s) (ss_tasks s) (ss_loops s) (ss_loggedIn s)
    (ss_recovering s) (ss_draining s) (ss_drainDone s) (ss_drained s) (ss_err s) (ss_cancelled s)
    (ss_closed s) (ss_events s) (ss_spawned s) v (ss_cfg s).

Definition NewSession (params : NegotiatedParams) (digestHeader digestData : bool) (cfg : sessionConfig)
    : Session :=
  {| ss_params := params; ss_digestHeader := digestHeader; ss_digestData := digestData;
     ss_router := NewRouter (sc_routerBufDepth cfg); ss_writeCh := make_chan 64;
     ss_window := newCmdWindow (np_CmdSN params) (np_CmdSN params) (np_CmdSN params);
     ss_expStatSN := np_ExpStatSN params; ss_objs := []; ss_tasks := ∅; ss_loops := [];
     ss_loggedIn := true; ss_recovering := false; ss_draining := false; ss_drainDone := false;
     ss_drained := false; ss_err := None; ss_cancelled := false; ss_closed := false;
     ss_events := []; ss_spawned := [];
     ss_states := if sc_stateChangeHook cfg then [SessionFullFeature] else []; ss_cfg := cfg |}.

(** ** The monad *)

Abbreviation SS := (SM Session).

Definition upd (f : Session -> Session) : SS () := SM_put f.

(** The session when its state-change hook, if it has one, has been called *)
Definition reported (state : SessionState) (s : Session) : Session :=
  set_states (if sc_stateChangeHook (ss_cfg s) then ss_states s ++ [state] else ss_states s) s.
Definition fireStateChange (state : SessionState) : SS () := upd (reported state).

(** A method of the task at address [id], on the session's write channel and
    ExpStatSN *)
Definition on_task {A} (id : nat) (m : TM A) : SS A := fun s =>
  match ss_objs s !! id with
  | None => Panics
  | Some t =>
    match m (mkTS t (ss_writeCh s) (ss_expStatSN s)) with
    | Done (a, ts) => Done (a, set_writeCh (ts_writeCh ts) (set_objs (<[id := ts_task ts]> (ss_objs s)) s))
    | Blocks => Blocks
    | Panics => Panics
    end
  end.

(** The task at address [id] *)
Definition task_at (id : nat) : SS task := on_task id get_task.

Definition window_update (expCmdSN maxCmdSN : Z) : SS () :=
  upd (fun s => set_window (update expCmdSN maxCmdSN (ss_window s)).1 s).

Definition updateStatSN (statSN : Z) : SS () :=
  upd (fun s =>
    let next := Incr statSN in
    if GreaterThan next (ss_expStatSN s) || (next =? ss_expStatSN s) then set_expStatSN next s else s).

(** [s.stampDigests(raw)] *)
Definition stamped (raw : RawPDU) : SS RawPDU :=
  SM_get (fun s => stampDigests (ss_digestHeader s) (ss_digestData s) raw).

(** What the scheduler and the caller's context decide at a blocking select: the
    context is done, and a select with both cases ready takes it *)
Record CtxSched := mkCtxSched { cx_done : bool; cx_pick : bool }.

(** [select { case s.writeCh <- raw: case <-ctx.Done(): ... }]; the flag is
    whether the PDU was sent. *)
Definition send_or_done (cx : CtxSched) (raw : RawPDU) : SS bool := fun s =>
  if cx_done cx && cx_pick cx then Done (false, s)
  else
    match send raw (ss_writeCh s) with
    | Done c => Done (true, set_writeCh c s)
    | Blocks => if cx_done cx then Done (false, s) else Blocks
    | Panics => Panics
    end.

(** [select { case s.writeCh <- raw: default: }] *)
Definition try_send (raw : RawPDU) : SS bool := fun s =>
  match send raw (ss_writeCh s) with
  | Done c => Done (true, set_writeCh c s)
  | Blocks => Done (false, s)
  | Panics => Panics
  end.

(** [s.window.acquire(ctx)] *)
Definition window_acquire (cx : CtxSched) : SS (res Z) := fun s =>
  match acquire_fast (ss_window s) with
  | Some (r, w) => Done (r, set_window w s)
  | None => if cx_done cx then Done (Err ErrCtx, s) else Blocks
  end.

Definition router_AllocateITT : SS Z := fun s =>
  let '(itt, r) := AllocateITT (ss_router s) in Done (itt, set_router r s).
Definition router_RegisterPersistent (itt : Z) : SS nat := fun s =>
  let '(ch, r) := RegisterPersistent itt (ss_router s) in Done (ch, set_router r s).
Definition router_Register : SS (Z * nat) := fun s =>
  let '(itt, ch, r) := Register (ss_router s) in Done ((itt, ch), set_router r s).
Definition router_Unregister (itt : Z) : SS () :=
  upd (fun s => set_router (Unregister itt (ss_router s)) s).

(** [delete(s.tasks, itt)] *)
Definition delete_task (itt : Z) : SS () := upd (fun s => set_tasks (delete itt (ss_tasks s)) s).

(** ** Tasks *)

(** [None] is the panic of [EncodeSAMLUN]. *)
Definition buildSCSICommandPDU (cmd : Command) (itt cmdSN expStatSN : Z) (immediateData : bytes)
    : option (res RawPDU) :=
  lun ← EncodeSAMLUN (cmd_LUN cmd);
  let scsiCmd := mkSCSICommand
    (mkHeader false 0 true 0 (uint32 (Z.of_nat (length immediateData))) lun itt)
    (cmd_Read cmd) (cmd_Write cmd) (cmd_TaskAttributes cmd) (cmd_ExpectedDataTransferLen cmd) cmdSN
    expStatSN (cmd_CDB cmd) immediateData in
  Some (bhs ← SCSICommand_MarshalBHS scsiCmd; Ok (newRawPDU bhs immediateData)).

Definition cleanupTask (itt : Z) : SS () :=
  _ ← router_Unregister itt;
  _ ← delete_task itt;
  upd (fun s =>
    if ss_draining s && bool_decide (ss_tasks s = ∅) && ss_drainDone s
    then set_drainDone false (set_drained true s) else s).

(** [tk.cancel(err); s.cleanupTask(tk.itt)] *)
Definition cancel_and_cleanup (id : nat) (err : error) : SS () :=
  _ ← on_task id (cancel err);
  tk ← task_at id;
  cleanupTask (tk_itt tk).

Definition set_Write (b : bool) (c : Command) : Command :=
  mkCommand (cmd_CDB c) (cmd_Read c) b (cmd_ExpectedDataTransferLen c) (cmd_LUN c)
    (cmd_TaskAttributes c) (cmd_Data c).

(** ** Submit *)

(** The cleanup of a submission that fails *)
Definition unsubmit (itt : Z) : SS () := _ ← router_Unregister itt; delete_task itt.

(** [&task{...}] and [s.tasks[itt] = tk] *)
Definition new_task (tk : task) : SS nat := fun s =>
  Done (length (ss_objs s), set_objs (ss_objs s ++ [tk]) s).

(** The immediate data of a write, read from the task's reader *)
Definition readImmediate (params : NegotiatedParams) (id : nat) : SS (res bytes) :=
  let immLen := Z.min (np_FirstBurstLength params) (np_MaxRecvDataSegmentLength params) in
  read ← on_task id (readData (Z.to_nat immLen));
  let '(data, err) := read in
  match err with
  | Some e =>
      if bool_decide (e = ErrUnexpectedEOF)
      then _ ← on_task id (upd_task (set_tk_bytesSent (uint32 (Z.of_nat (length data))))); mret (Ok data)
      else mret (Err e)
  | None => _ ← on_task id (upd_task (set_tk_bytesSent (uint32 (Z.of_nat (length data))))); mret (Ok data)
  end.

(** The second half of a submission: once the task is registered, its PDU and its
    unsolicited data are sent and its loop is started. *)
Definition submit_command (cx : CtxSched) (cmd : Command) (itt cmdSN : Z) (id pduCh : nat)
    (params : NegotiatedParams) (expStatSN : Z) : SS (res nat) :=
  let isWrite := bool_decide (is_Some (cmd_Data cmd)) in
  immediate ← (if isWrite && np_ImmediateData params then readImmediate params id else mret (Ok []));
  match immediate with
  | Err e => _ ← unsubmit itt; mret (Err (Wrapf "session: read immediate data: %w" [] e))
  | Ok immediateData =>
    match buildSCSICommandPDU cmd itt cmdSN expStatSN immediateData with
    | None => SM_panic
    | Some (Err e) =>
        _ ← unsubmit itt;
        mret (Err (Wrapf "session: encode SCSICommand (itt=0x%08x cmd_sn=%d): %w" [itt; cmdSN] e))
    | Some (Ok raw) =>
      raw ← stamped raw;
      sent ← send_or_done cx raw;
      if negb sent then _ ← unsubmit itt; mret (Err ErrCtx)
      else
        h ← SM_get ss_digestHeader;
        d ← SM_get ss_digestData;
        err ← (if isWrite && negb (np_InitialR2T params)
               then on_task id (sendUnsolicitedDataOut h d params) else mret None);
        match err with
        | Some e => _ ← unsubmit itt; mret (Err (Wrapf "session: unsolicited data: %w" [] e))
        | None => _ ← upd (fun s => set_loops (ss_loops s ++ [(id, pduCh)]) s); mret (Ok id)
        end
    end
  end.

(** The task of a command, entered in the table of tasks under its tag, with the
    parameters and ExpStatSN read under the same lock *)
Definition register_task (depth : Z) (cmd : Command) (itt cmdSN : Z) : SS (nat * NegotiatedParams * Z) :=
  params ← SM_get ss_params;
  expStatSN ← SM_get ss_expStatSN;
  cfg ← SM_get ss_cfg;
  id ← new_task (set_tk_snackTimeout (snackEnabled cfg)
         (set_tk_erl (np_ErrorRecoveryLevel params) (set_tk_reader (cmd_Data cmd)
           (set_tk_cmdSN cmdSN (set_tk_cmd cmd (set_tk_lun (cmd_LUN cmd)
             (newTask itt (cmd_Read cmd) (bool_decide (is_Some (cmd_Data cmd))) depth)))))));
  _ ← upd (fun s => set_tasks (<[itt := id]> (ss_tasks s)) s);
  mret (id, params, expStatSN).

(** [Submit] and [SubmitStreaming], which differ in the depth of the stream
    buffer; the result is the task whose result channel (and stream) the caller
    gets.  [cx] and [cx'] are the context at [acquire] and at the send.  This is the
    run of a caller whom nobody interrupts; [piece] of Invariant.v has its pieces,
    between which the other goroutines run. *)
Definition submit (cx cx' : CtxSched) (depth : Z) (cmd : Command) : SS (res nat) :=
  recovering ← SM_get ss_recovering;
  if (recovering : bool) then mret (Err ErrSessionRecovering) else
  draining ← SM_get ss_draining;
  if (draining : bool) then mret (Err ErrSessionDraining) else
  acquired ← window_acquire cx;
  match acquired with
  | Err e => mret (Err (Wrapf "session: acquire CmdSN (window full): %w" [] e))
  | Ok cmdSN =>
    itt ← router_AllocateITT;
    pduCh ← router_RegisterPersistent itt;
    let isWrite := bool_decide (is_Some (cmd_Data cmd)) in
    let cmd := if isWrite then set_Write true cmd else cmd in
    reg ← register_task depth cmd itt cmdSN;
    let '(id, params, expStatSN) := reg in
    submit_command cx' cmd itt cmdSN id pduCh params expStatSN
  end.

Definition Submit (cx cx' : CtxSched) (cmd : Command) : SS (res nat) := submit cx cx' 0 cmd.

Definition SubmitStreaming (cx cx' : CtxSched) (cmd : Command) : SS (res nat) :=
  cfg ← SM_get ss_cfg;
  let depth := sc_streamBufDepth cfg in
  submit cx cx' (if depth <=? 0 then Z.of_nat defaultChanBufSize else depth) cmd.

(** ** Task loops *)

Definition retrySameConnection (id : nat) : SS () :=
  tk ← task_at id;
  if tk_streaming tk then
    cancel_and_cleanup id (Errorf "session: streaming task not retriable" [])
  else
    params ← SM_get ss_params;
    _ ← on_task id (upd_task (fun t =>
      let t := set_tk_nextOffset 0 (set_tk_nextDataSN 0 t) in
      if tk_isRead t then set_tk_buf ((fun _ => []) <$> tk_buf t) t else t));
    immediate ←
      match tk_isWrite tk && np_ImmediateData params, tk_reader tk with
      | true, Some r =>
          match SeekStart r with
          | None => mret (Err ErrRetryNotPossible)
          | Some r =>
            _ ← on_task id (upd_task (fun t => set_tk_bytesSent 0 (set_tk_reader (Some r) t)));
            imm ← readImmediate params id;
            mret (match imm with
                  | Ok data => Ok data
                  | Err e => Err (Wrapf "session: same-connection retry read immediate data: %w" [] e)
                  end)
          end
      | _, _ => mret (Ok [])
      end;
    match immediate with
    | Err e => cancel_and_cleanup id e
    | Ok immediateData =>
      expStatSN ← SM_get ss_expStatSN;
      match buildSCSICommandPDU (tk_cmd tk) (tk_itt tk) (tk_cmdSN tk) expStatSN immediateData with
      | None => SM_panic
      | Some (Err e) => cancel_and_cleanup id (Wrapf "session: same-connection retry encode: %w" [] e)
      | Some (Ok raw) =>
        raw ← stamped raw;
        sent ← try_send raw;
        if (sent : bool) then mret ()
        else cancel_and_cleanup id (Errorf "session: same-connection retry write channel full" [])
      end
    end.

Definition errRejected (reason itt : Z) : error :=
  Errorf "session: target rejected PDU (reason=0x%02X, itt=0x%08x)" [reason; itt].

(** [p.Data = raw.DataSegment] *)
Definition DataIn_with_Data (data : bytes) (p : DataIn) : DataIn :=
  mkDataIn (DataIn_Hdr p) (DataIn_Acknowledge p) (DataIn_ResidualOverflow p) (DataIn_ResidualUnderflow p)
    (DataIn_HasStatus p) (DataIn_Status p) (DataIn_TargetTransferTag p) (DataIn_StatSN p)
    (DataIn_ExpCmdSN p) (DataIn_MaxCmdSN p) (DataIn_DataSN p) (DataIn_BufferOffset p)
    (DataIn_ResidualCount p) data.
Definition SCSIResponse_with_Data (data : bytes) (p : SCSIResponse) : SCSIResponse :=
  mkSCSIResponse (SCSIResponse_Hdr p) (SCSIResponse_BidiOverflow p) (SCSIResponse_BidiUnderflow p)
    (SCSIResponse_Overflow p) (SCSIResponse_Underflow p) (SCSIResponse_Response p) (SCSIResponse_Status p)
    (SCSIResponse_SNACKTag p) (SCSIResponse_StatSN p) (SCSIResponse_ExpCmdSN p) (SCSIResponse_MaxCmdSN p)
    (SCSIResponse_ExpDataSN p) (SCSIResponse_BidiResidualCount p) (SCSIResponse_ResidualCount p) data.

(** One PDU in [taskLoop]; the flag is whether the loop goes on. *)
Definition taskLoop_PDU (id : nat) (raw : RawPDU) : SS bool :=
  tk ← task_at id;
  match DecodeBHS (raw_BHS raw) with
  | Err e =>
      _ ← cancel_and_cleanup id (Wrapf "session: decode response PDU (itt=0x%08x): %w" [tk_itt tk] e);
      mret false
  | Ok (PDataIn p) =>
      let p := DataIn_with_Data (raw_DataSegment raw) p in
      _ ← window_update (DataIn_ExpCmdSN p) (DataIn_MaxCmdSN p);
      _ ← SM_when (DataIn_HasStatus p) (updateStatSN (DataIn_StatSN p));
      _ ← on_task id (handleDataIn p);
      if DataIn_HasStatus p then _ ← cleanupTask (tk_itt tk); mret false else mret true
  | Ok (PR2T p) =>
      _ ← window_update (R2T_ExpCmdSN p) (R2T_MaxCmdSN p);
      _ ← updateStatSN (R2T_StatSN p);
      h ← SM_get ss_digestHeader;
      d ← SM_get ss_digestData;
      params ← SM_get ss_params;
      err ← on_task id (handleR2T h d p params);
      match err with
      | Some e =>
          _ ← cancel_and_cleanup id (Wrapf "session: write data (itt=0x%08x): %w" [tk_itt tk] e);
          mret false
      | None => mret true
      end
  | Ok (PSCSIResponse p) =>
      let p := SCSIResponse_with_Data (raw_DataSegment raw) p in
      _ ← window_update (SCSIResponse_ExpCmdSN p) (SCSIResponse_MaxCmdSN p);
      _ ← updateStatSN (SCSIResponse_StatSN p);
      _ ← on_task id (handleSCSIResponse p);
      _ ← cleanupTask (tk_itt tk);
      mret false
  | Ok (PReject p) =>
      _ ← window_update (Reject_ExpCmdSN p) (Reject_MaxCmdSN p);
      _ ← updateStatSN (Reject_StatSN p);
      if tk_erl tk >=? 1 then _ ← retrySameConnection id; mret true
      else _ ← cancel_and_cleanup id (errRejected (Reject_Reason p) (tk_itt tk)); mret false
  | Ok _ => mret true
  end.

(** A turn of [taskLoop]: [tk.done] closed, the call's context done, or a PDU
    received; the scheduler picks among what is ready. *)
Inductive TurnSched := TakeDone | TakeCtx | TakePDU.

Definition receive (ch : nat) : SS (option RawPDU) := fun s =>
  match chan_recv ch (ss_router s) with
  | None => Blocks
  | Some (v, r) => Done (v, set_router r s)
  end.

Definition taskLoop_turn (sch : TurnSched) (id ch : nat) : SS bool :=
  tk ← task_at id;
  match sch with
  | TakeDone => if tk_done tk then mret false else SM_block
  | TakeCtx => _ ← cancel_and_cleanup id ErrCtx; mret false
  | TakePDU =>
      raw ← receive ch;
      match raw with
      | None => mret false
      | Some raw => taskLoop_PDU id raw
      end
  end.

Fixpoint taskLoop (schs : list TurnSched) (id ch : nat) : SS bool :=
  match schs with
  | [] => mret true
  | sch :: schs =>
      go ← taskLoop_turn sch id ch;
      if (go : bool) then taskLoop schs id ch else mret false
  end.
