(* ===== verification/Unsolicited.v ===== *)
(** Unsolicited PDUs, pings and asynchronous events of a session
    ([src/internal/session/session.go], [keepalive.go], [async.go]). *)
From S2P Require Import Prelude Errors Bhs PduTactics PduInitiator PduTarget Pdu GoIO Digest Framer.
From S2P Require Import Chan Serial Router Negotiation CmdWindow Config Types Task DataOut Session.
#[local] Open Scope string_scope.
#[local] Open Scope list_scope.
#[local] Open Scope Z_scope.

(** ** NOP-In and NOP-Out *)

(** The NOP-Outs of a session are immediate: CmdSN is carried, not advanced. *)
Definition nopOut (itt : Z) (lun : bytes) (ttt cmdSN expStatSN : Z) (data : bytes) : NOPOut :=
  mkNOPOut (mkHeader true 0 true 0 (uint32 (Z.of_nat (length data))) lun itt) ttt cmdSN expStatSN data.

Definition handleUnsolicitedNOPIn (raw : RawPDU) : SS () :=
  let nopin := NOPIn_UnmarshalBHS (raw_BHS raw) in
  _ ← window_update (NOPIn_ExpCmdSN nopin) (NOPIn_MaxCmdSN nopin);
  _ ← updateStatSN (NOPIn_StatSN nopin);
  if NOPIn_TargetTransferTag nopin =? 0xFFFFFFFF then mret ()
  else
    cmdSN ← SM_get (fun s => current (ss_window s));
    expStatSN ← SM_get ss_expStatSN;
    match NOPOut_MarshalBHS (nopOut 0xFFFFFFFF (LUN (NOPIn_Hdr nopin)) (NOPIn_TargetTransferTag nopin)
            cmdSN expStatSN (raw_DataSegment raw)) with
    | Err _ => mret ()
    | Ok bhs =>
        resp ← stamped (newRawPDU bhs (raw_DataSegment raw));
        _ ← try_send resp;
        mret ()
    end.

Definition SendExpStatSNConfirmation : SS (option error) :=
  cmdSN ← SM_get (fun s => current (ss_window s));
  expStatSN ← SM_get ss_expStatSN;
  match NOPOut_MarshalBHS (nopOut 0xFFFFFFFF (zeros 8) 0xFFFFFFFF cmdSN expStatSN []) with
  | Err e => mret (Some (Wrapf "encode ExpStatSN NOP-Out: %w" [] e))
  | Ok bhs =>
      raw ← stamped (newRawPDU bhs []);
      sent ← try_send raw;
      mret (if (sent : bool) then None else Some (Errorf "write channel full" []))
  end.

(** The part of [sendKeepalivePing] up to the wait: the ITT and the channel to
    wait on *)
Definition sendKeepalivePing_send (cx : CtxSched) : SS (res (Z * nat)) :=
  reg ← router_Register;
  let '(itt, respCh) := reg in
  cmdSN ← SM_get (fun s => current (ss_window s));
  expStatSN ← SM_get ss_expStatSN;
  match NOPOut_MarshalBHS (nopOut itt (zeros 8) 0xFFFFFFFF cmdSN expStatSN []) with
  | Err e => _ ← router_Unregister itt; mret (Err (Wrapf "encode NOP-Out: %w" [] e))
  | Ok bhs =>
      raw ← stamped (newRawPDU bhs []);
      sent ← send_or_done cx raw;
      if (sent : bool) then mret (Ok (itt, respCh))
      else _ ← router_Unregister itt; mret (Err ErrCtx)
  end.

(** How a wait for a one-shot response ends: a response, the timeout, or the
    context *)
Inductive WaitSched := WaitResponse | WaitTimeout | WaitCtx.

(** The select on the response channel: [Some] is the response.  A channel closed
    without one yields a nil PDU, whose use is a nil dereference. *)
Definition await_response (w : WaitSched) (itt : Z) (ch : nat) (timeout : error) : SS (res RawPDU) :=
  match w with
  | WaitResponse =>
      resp ← receive ch;
      match resp with Some raw => mret (Ok raw) | None => SM_panic end
  | WaitTimeout => _ ← router_Unregister itt; mret (Err timeout)
  | WaitCtx => _ ← router_Unregister itt; mret (Err ErrCtx)
  end.

Definition sendKeepalivePing_wait (w : WaitSched) (itt : Z) (respCh : nat) : SS (option error) :=
  resp ← await_response w itt respCh (Errorf "NOP-In response timeout after %v" []);
  match resp with
  | Err e => mret (Some e)
  | Ok raw =>
      let nopin := NOPIn_UnmarshalBHS (raw_BHS raw) in
      _ ← window_update (NOPIn_ExpCmdSN nopin) (NOPIn_MaxCmdSN nopin);
      _ ← updateStatSN (NOPIn_StatSN nopin);
      mret None
  end.

Definition cancel_session : SS () := upd (set_cancelled true).

(** [if s.err == nil { s.err = err }] *)
Definition set_first_err (e : error) : SS () :=
  upd (fun s => match ss_err s with None => set_err (Some e) s | Some _ => s end).

(** A tick of [keepaliveLoop], given the ping's outcome and whether the context
    is done; the flag is whether the loop goes on. *)
Definition keepalive_tick (ctxDone : bool) (ping : option error) : SS bool :=
  match ping with
  | None => mret true
  | Some e =>
      if ctxDone then mret false
      else
        _ ← set_first_err (Wrapf "session: keepalive: %w" [] e);
        _ ← cancel_session;
        mret false
  end.

(** ** Asynchronous messages *)

Definition dispatchAsyncEvent (evt : AsyncEvent) : SS () :=
  upd (fun s => if sc_asyncHandler (ss_cfg s) then set_events (ss_events s ++ [evt]) s else s).

Definition spawn_goroutine (g : spawn) : SS () := upd (fun s => set_spawned (ss_spawned s ++ [g]) s).

Definition triggerReconnect (cause : error) : SS () :=
  closed ← SM_get ss_closed;
  recovering ← SM_get ss_recovering;
  if (closed || recovering : bool) then mret ()
  else
    _ ← upd (set_recovering true);
    params ← SM_get ss_params;
    _ ← fireStateChange SessionReconnecting;
    spawn_goroutine (if np_ErrorRecoveryLevel params >=? 2 then SpawnReplaceConnection cause
                     else SpawnReconnect cause).

Definition handleAsyncMsg (raw : RawPDU) : SS () :=
  let async := AsyncMsg_UnmarshalBHS (raw_BHS raw) in
  _ ← window_update (AsyncMsg_ExpCmdSN async) (AsyncMsg_MaxCmdSN async);
  _ ← updateStatSN (AsyncMsg_StatSN async);
  let evt := mkAsyncEvent (AsyncMsg_AsyncEvent async) (AsyncMsg_AsyncVCode async)
               (AsyncMsg_Parameter1 async) (AsyncMsg_Parameter2 async) (AsyncMsg_Parameter3 async)
               (raw_DataSegment raw) in
  let code := AsyncMsg_AsyncEvent async in
  if code =? 1 then _ ← spawn_goroutine (SpawnLogout evt); dispatchAsyncEvent evt
  else if code =? 2 then
    let cause := Errorf "session: target reported connection drop (AsyncEvent 2)" [] in
    _ ← dispatchAsyncEvent evt;
    cfg ← SM_get ss_cfg;
    if reconnectEnabled cfg then triggerReconnect cause else set_first_err cause
  else if code =? 3 then
    _ ← dispatchAsyncEvent evt;
    _ ← set_first_err (Errorf "session: target reported session drop (AsyncEvent 3)" []);
    cancel_session
  else if code =? 4 then
    _ ← dispatchAsyncEvent evt;
    spawn_goroutine (SpawnRenegotiate
      (if AsyncMsg_Parameter3 async <=? 0 then 30 else AsyncMsg_Parameter3 async))
  else dispatchAsyncEvent evt.

(** ** Reject and dispatch *)

(** An unsolicited Reject carries the BHS of the PDU it rejects; the task of that
    ITT is retried or failed. *)
Definition handleUnsolicitedReject (raw : RawPDU) : SS () :=
  match DecodeBHS (raw_BHS raw) with
  | Ok (PReject reject) =>
      _ ← updateStatSN (Reject_StatSN reject);
      _ ← window_update (Reject_ExpCmdSN reject) (Reject_MaxCmdSN reject);
      if Nat.leb 20 (length (raw_DataSegment raw)) then
        let rejectedITT := get_be 4 16 (raw_DataSegment raw) in
        if rejectedITT =? 0xFFFFFFFF then mret ()
        else
          tasks ← SM_get ss_tasks;
          match tasks !! rejectedITT with
          | None => mret ()
          | Some id =>
              tk ← task_at id;
              if tk_erl tk >=? 1 then retrySameConnection id
              else
                _ ← on_task id (cancel (errRejected (Reject_Reason reject) rejectedITT));
                cleanupTask rejectedITT
          end
      else mret ()
  | Ok _ => SM_panic
  | Err _ => mret ()
  end.

Definition handleUnsolicited (raw : RawPDU) : SS () :=
  let opcode := Z.land (byte_at 0 (raw_BHS raw)) 0x3f in
  if opcode =? OpNOPIn then handleUnsolicitedNOPIn raw
  else if opcode =? OpAsyncMsg then handleAsyncMsg raw
  else if opcode =? OpReject then handleUnsolicitedReject raw
  else mret ().
