(* ===== verification/Lifecycle.v ===== *)
(** Task management, logout, renegotiation, drain and close
    ([src/internal/session/tmf.go], [logout.go], [async.go], [session.go]).

    An exchange of a request and its response is two operations, up to the wait
    and from it on; other goroutines run between them. *)
From S2P Require Import Prelude Errors Bhs PduTactics PduInitiator PduTarget Pdu GoIO Digest Framer.
From S2P Require Import Chan Serial Router Text Negotiation CmdWindow Config Types Task DataOut Session Unsolicited.
#[local] Open Scope string_scope.
#[local] Open Scope list_scope.
#[local] Open Scope Z_scope.

(** ** Task management functions *)

Definition tmfRequest (fn refTaskTag cmdSN expStatSN itt : Z) (lun : bytes) : TaskMgmtReq :=
  mkTaskMgmtReq (mkHeader true 0 true 0 0 lun itt) fn refTaskTag cmdSN expStatSN 0.

(** The last part of a request: it waits for room in the write channel, and is
    forgotten when the context ends first. *)
Definition send_request (cx : CtxSched) (itt : Z) (respCh : nat) (raw : RawPDU) : SS (res (Z * nat)) :=
  sent ← send_or_done cx raw;
  if (sent : bool) then mret (Ok (itt, respCh)) else _ ← router_Unregister itt; mret (Err ErrCtx).

(** The request is registered and built. *)
Definition tmf_request (fn refTaskTag lun : Z) : SS (res (Z * nat * RawPDU)) :=
  reg ← router_Register;
  let '(itt, respCh) := reg in
  cmdSN ← SM_get (fun s => current (ss_window s));
  expStatSN ← SM_get ss_expStatSN;
  match EncodeSAMLUN lun with
  | None => SM_panic
  | Some lun =>
    match TaskMgmtReq_MarshalBHS (tmfRequest fn refTaskTag cmdSN expStatSN itt lun) with
    | Err e => _ ← router_Unregister itt; mret (Err (Wrapf "session: encode TaskMgmtReq: %w" [] e))
    | Ok bhs => raw ← stamped (newRawPDU bhs []); mret (Ok (itt, respCh, raw))
    end
  end.

Definition sendTMF_send (cx : CtxSched) (fn refTaskTag lun : Z) : SS (res (Z * nat)) :=
  req ← tmf_request fn refTaskTag lun;
  match req with
  | Err e => mret (Err e)
  | Ok (itt, respCh, raw) => send_request cx itt respCh raw
  end.

Definition sendTMF_wait (w : WaitSched) (itt : Z) (respCh : nat) : SS (res TMFResult) :=
  resp ← await_response w itt respCh (Errorf "session: TMF response timeout after %v" []);
  match resp with
  | Err e => mret (Err e)
  | Ok raw =>
      let tmfResp := TaskMgmtResp_UnmarshalBHS (raw_BHS raw) in
      _ ← window_update (TaskMgmtResp_ExpCmdSN tmfResp) (TaskMgmtResp_MaxCmdSN tmfResp);
      _ ← updateStatSN (TaskMgmtResp_StatSN tmfResp);
      mret (Ok (mkTMFResult (TaskMgmtResp_Response tmfResp) None))
  end.

Definition cleanupAbortedTask (itt : Z) : SS () :=
  _ ← router_Unregister itt;
  tasks ← SM_get ss_tasks;
  match tasks !! itt with
  | None => mret ()
  | Some id => _ ← delete_task itt; on_task id (cancel ErrTaskAborted)
  end.

Fixpoint cleanup_each (itts : list Z) : SS () :=
  match itts with
  | [] => mret ()
  | itt :: itts => _ ← cleanupAbortedTask itt; cleanup_each itts
  end.

(** The ITTs of the tasks on [lun]; the order of a map iteration is not fixed,
    and the cleanups commute. *)
Definition tasks_on (lun : Z) (s : Session) : list Z :=
  map fst (filter (fun p => (tk_lun <$> ss_objs s !! p.2) = Some lun) (map_to_list (ss_tasks s))).

Definition cleanupTasksByLUN (lun : Z) : SS () := fun s => cleanup_each (tasks_on lun s) s.

(** What the exported functions do with the result *)
Definition after_TMF (onComplete : SS ()) (result : res TMFResult) : SS (res TMFResult) :=
  match result with
  | Err e => mret (Err e)
  | Ok r =>
      _ ← SM_when (tmf_Response r =? TMFRespComplete) onComplete;
      mret (Ok r)
  end.

Definition AbortTask_send (cx : CtxSched) (targetITT : Z) := sendTMF_send cx TMFAbortTask targetITT 0.
Definition AbortTask_wait (w : WaitSched) (itt : Z) (respCh : nat) (targetITT : Z) : SS (res TMFResult) :=
  result ← sendTMF_wait w itt respCh; after_TMF (cleanupAbortedTask targetITT) result.

Definition AbortTaskSet_send (cx : CtxSched) (lun : Z) := sendTMF_send cx TMFAbortTaskSet 0 lun.
Definition ClearTaskSet_send (cx : CtxSched) (lun : Z) := sendTMF_send cx TMFClearTaskSet 0 lun.
Definition LUNReset_send (cx : CtxSched) (lun : Z) := sendTMF_send cx TMFLogicalUnitReset 0 lun.
Definition TargetWarmReset_send (cx : CtxSched) := sendTMF_send cx TMFTargetWarmReset 0 0.
Definition TargetColdReset_send (cx : CtxSched) := sendTMF_send cx TMFTargetColdReset 0 0.

(** The rest of [AbortTaskSet], [ClearTaskSet] and [LUNReset] *)
Definition lunTMF_wait (w : WaitSched) (itt : Z) (respCh : nat) (lun : Z) : SS (res TMFResult) :=
  result ← sendTMF_wait w itt respCh; after_TMF (cleanupTasksByLUN lun) result.

(** ** Logout *)

Definition logout_request (cx : CtxSched) (reasonCode : Z) : SS (res (Z * nat * RawPDU)) :=
  acquired ← window_acquire cx;
  match acquired with
  | Err e => mret (Err (Wrapf "logout: acquire CmdSN: %w" [] e))
  | Ok cmdSN =>
    reg ← router_Register;
    let '(itt, respCh) := reg in
    expStatSN ← SM_get ss_expStatSN;
    match LogoutReq_MarshalBHS (mkLogoutReq (mkHeader false 0 true 0 0 (zeros 8) itt) reasonCode 0 cmdSN
            expStatSN) with
    | Err e => _ ← router_Unregister itt; mret (Err (Wrapf "logout: encode LogoutReq: %w" [] e))
    | Ok bhs => raw ← stamped (newRawPDU bhs []); mret (Ok (itt, respCh, raw))
    end
  end.

Definition logout_send (cx cx' : CtxSched) (reasonCode : Z) : SS (res (Z * nat)) :=
  req ← logout_request cx reasonCode;
  match req with
  | Err e => mret (Err e)
  | Ok (itt, respCh, raw) => send_request cx' itt respCh raw
  end.

(** Seconds: DefaultTime2Wait + DefaultTime2Retain, wrapping as the 32-bit sum
    does, or 30 when that is 0 or more than 30 *)
Definition logout_timeout (params : NegotiatedParams) : Z :=
  let t := uint32 (np_DefaultTime2Wait params + np_DefaultTime2Retain params) in
  if (t <=? 0) || (t >? 30) then 30 else t.

Definition logout_wait (w : WaitSched) (itt : Z) (respCh : nat) : SS (option error) :=
  params ← SM_get ss_params;
  resp ← await_response w itt respCh (Errorf "logout: response timeout after %v" [logout_timeout params]);
  match resp with
  | Err e => mret (Some e)
  | Ok raw =>
      let r := LogoutResp_UnmarshalBHS (raw_BHS raw) in
      _ ← window_update (LogoutResp_ExpCmdSN r) (LogoutResp_MaxCmdSN r);
      _ ← updateStatSN (LogoutResp_StatSN r);
      mret (if LogoutResp_Response r =? 0 then None
            else Some (Errorf "logout: target rejected with response %d" [LogoutResp_Response r]))
  end.

(** [Logout] after its logout exchange *)
Definition Logout_finish (err : option error) : SS (option error) :=
  match err with
  | Some e => mret (Some e)
  | None =>
      _ ← upd (set_loggedIn false);
      _ ← upd (fun s => set_window (close (ss_window s)) s);
      _ ← cancel_session;
      mret None
  end.

(** [logout], and [LogoutConnection]; [others] is what other goroutines do until the
    wait ends *)
Definition logout (cx cx' : CtxSched) (others : SS ()) (w : WaitSched) (reasonCode : Z) : SS (option error) :=
  sent ← logout_send cx cx' reasonCode;
  match sent with
  | Err e => mret (Some e)
  | Ok (itt, respCh) => _ ← others; logout_wait w itt respCh
  end.

(** The wait of [Logout]: it looks at the table at every tick, other goroutines act
    between the ticks, and the deadline comes after the last one. *)
Fixpoint logout_poll (ticks : list (SS ())) : SS (option error) :=
  pending ← SM_get (fun s => size (ss_tasks s));
  if Nat.eqb pending 0 then mret None
  else
    match ticks with
    | [] => mret (Some (Errorf "logout: timed out waiting for %d in-flight tasks" [Z.of_nat pending]))
    | others :: ticks => _ ← others; logout_poll ticks
    end.

Definition Logout (ticks : list (SS ())) (cx cx' : CtxSched) (others : SS ()) (w : WaitSched) : SS (option error) :=
  waited ← logout_poll ticks;
  match waited with
  | Some e => mret (Some e)
  | None => err ← logout cx cx' others w 0; Logout_finish err
  end.

(** ** Renegotiation *)

Definition renegotiate_send (cx cx' : CtxSched) : SS (res (Z * nat)) :=
  params ← SM_get ss_params;
  let data := EncodeTextKV
    [KV "MaxRecvDataSegmentLength" (FormatUint (np_MaxRecvDataSegmentLength params));
     KV "MaxBurstLength" (FormatUint (np_MaxBurstLength params));
     KV "FirstBurstLength" (FormatUint (np_FirstBurstLength params))] in
  acquired ← window_acquire cx;
  match acquired with
  | Err e => mret (Err (Wrapf "renegotiate: acquire CmdSN: %w" [] e))
  | Ok cmdSN =>
    reg ← router_Register;
    let '(itt, respCh) := reg in
    expStatSN ← SM_get ss_expStatSN;
    match TextReq_MarshalBHS (mkTextReq (mkHeader false 0 true 0 (uint32 (Z.of_nat (length data))) (zeros 8)
            itt) false 0xFFFFFFFF cmdSN expStatSN data) with
    | Err e => _ ← router_Unregister itt; mret (Err (Wrapf "renegotiate: encode TextReq: %w" [] e))
    | Ok bhs =>
        raw ← stamped (newRawPDU bhs data);
        sent ← send_or_done cx' raw;
        if (sent : bool) then mret (Ok (itt, respCh))
        else _ ← router_Unregister itt; mret (Err ErrCtx)
    end
  end.

(** One key of [applyRenegotiatedParams]; a value that is not a 32-bit number is
    ignored. *)
Definition applyRenegotiated (p : NegotiatedParams) (kv : KeyValue) : NegotiatedParams :=
  match ParseUint (kv_Value kv) 32 with
  | Err _ => p
  | Ok v =>
    if String.eqb (kv_Key kv) "MaxRecvDataSegmentLength" then set_MaxRecvDataSegmentLength v p else
    if String.eqb (kv_Key kv) "MaxBurstLength" then set_MaxBurstLength v p else
    if String.eqb (kv_Key kv) "FirstBurstLength" then set_FirstBurstLength v p else p
  end.

Definition applyRenegotiatedParams (kvs : list KeyValue) : SS () :=
  upd (fun s => set_params (fold_left applyRenegotiated kvs (ss_params s)) s).

Definition renegotiate_wait (w : WaitSched) (itt : Z) (respCh : nat) : SS (option error) :=
  resp ← await_response w itt respCh ErrCtx;
  match resp with
  | Err e => mret (Some e)
  | Ok raw =>
    match DecodeBHS (raw_BHS raw) with
    | Err e => mret (Some (Wrapf "renegotiate: decode TextResp: %w" [] e))
    | Ok (PTextResp textResp) =>
        _ ← window_update (TextResp_ExpCmdSN textResp) (TextResp_MaxCmdSN textResp);
        _ ← updateStatSN (TextResp_StatSN textResp);
        _ ← SM_when (Nat.ltb 0 (length (raw_DataSegment raw)))
              (applyRenegotiatedParams (DecodeTextKV (raw_DataSegment raw)));
        mret None
    | Ok _ => mret (Some (Errorf "renegotiate: unexpected PDU type %T" []))
    end
  end.

(** ** Drain and close *)

(** [Drain] up to its wait: [Some r] returns at once. *)
Definition Drain_start : SS (option (option error)) :=
  draining ← SM_get ss_draining;
  if (draining : bool) then mret (Some (Some ErrSessionDraining))
  else
    tasks ← SM_get ss_tasks;
    if bool_decide (tasks = ∅) then mret (Some None)
    else
      _ ← upd (fun s => set_drained false (set_drainDone true (set_draining true s)));
      mret None.

(** The wait of [Drain]: until the tasks are gone, or the context is done *)
Definition Drain_wait (ctxDone : bool) : SS (option error) :=
  drained ← SM_get ss_drained;
  if (drained : bool) then mret None
  else if ctxDone then
    _ ← upd (fun s => set_drainDone false (set_draining false s));
    mret (Some ErrCtx)
  else SM_block.

Definition errSessionClosed : error := Errorf "session: closed" [].

Fixpoint close_tasks (l : list (Z * nat)) : SS () :=
  match l with
  | [] => mret ()
  | (itt, id) :: l =>
      _ ← on_task id (cancel errSessionClosed);
      _ ← router_Unregister itt;
      _ ← delete_task itt;
      close_tasks l
  end.

(** [Close] up to the logout it may attempt: whether it does *)
Definition Close_start : SS bool :=
  wasLoggedIn ← SM_get ss_loggedIn;
  _ ← upd (set_loggedIn false);
  err ← SM_get ss_err;
  _ ← upd (set_closed true);
  if (wasLoggedIn : bool) && negb (bool_decide (is_Some err)) then
    tasks ← SM_get ss_tasks;
    recovering ← SM_get ss_recovering;
    mret (bool_decide (tasks = ∅) && negb recovering)
  else mret false.

(** The rest of [Close]; closing the connection ends the pumps, for which it waits. *)
Definition Close_finish : SS () :=
  _ ← upd (fun s => set_window (close (ss_window s)) s);
  _ ← cancel_session;
  _ ← (fun s => close_tasks (map_to_list (ss_tasks s)) s) : SS ();
  fireStateChange SessionClosed.

(** [Close], which does its work once; [logout] is the logout exchange it
    attempts. *)
Definition Close (logout : SS ()) : SS () :=
  closed ← SM_get ss_closed;
  if (closed : bool) then mret ()
  else
    graceful ← Close_start;
    _ ← SM_when graceful logout;
    Close_finish.
