(* ===== verification/TaskLoop.v ===== *)
(** From Submit to the result: how a session's commands complete
    ([src/internal/session/session.go], [datain.go]).

    [feed] is the read pump's [Dispatch] of a task's PDUs alternating with turns
    of its [taskLoop]. *)
From S2P Require Import Prelude Errors Bhs PduTactics PduInitiator PduTarget Pdu GoIO Digest Framer.
From S2P Require Import Chan Serial Router Negotiation CmdWindow Config Types Task Reassembly DataOut Session.
#[local] Open Scope string_scope.
#[local] Open Scope list_scope.
#[local] Open Scope Z_scope.

Definition session_dispatch (itt : Z) (raw : RawPDU) : SS () := fun s =>
  match Dispatch itt raw (ss_router s) with
  | Done (_, r) => Done ((), set_router r s)
  | Blocks => Blocks
  | Panics => Panics
  end.

Fixpoint feed (itt : Z) (id ch : nat) (raws : list RawPDU) : SS bool :=
  match raws with
  | [] => mret true
  | raw :: raws =>
      _ ← session_dispatch itt raw;
      go ← taskLoop_turn TakePDU id ch;
      if (go : bool) then feed itt id ch raws else mret false
  end.

(** ** Session lemmas *)

Lemma on_task_Done {A} id (m : TM A) s t a ts : ss_objs s !! id = Some t ->
  m (mkTS t (ss_writeCh s) (ss_expStatSN s)) = Done (a, ts) ->
  on_task id m s = Done (a, set_writeCh (ts_writeCh ts) (set_objs (<[id := ts_task ts]> (ss_objs s)) s)).
Proof. intros Ho Hm. unfold on_task. by rewrite Ho, Hm. Qed.

Lemma task_at_Done id s t : ss_objs s !! id = Some t -> task_at id s = Done (t, s).
Proof.
  intros Ho. unfold task_at. rewrite (on_task_Done id get_task s t t _ Ho eq_refl). cbn [ts_task ts_writeCh].
  rewrite list_insert_id by done. by destruct s.
Qed.

Lemma window_update_Done e m s :
  window_update e m s = Done ((), set_window (update e m (ss_window s)).1 s).
Proof. reflexivity. Qed.

(** ExpStatSN after a status with number [sn] *)
Definition next_expStatSN (sn e : Z) : Z :=
  if GreaterThan (Incr sn) e || (Incr sn =? e) then Incr sn else e.

Lemma updateStatSN_Done sn s :
  updateStatSN sn s = Done ((), set_expStatSN (next_expStatSN sn (ss_expStatSN s)) s).
Proof.
  unfold updateStatSN, upd, SM_put, next_expStatSN. destruct (_ || _); [done|]. by destruct s.
Qed.

(** The task loops started, the settings of the connection and the phase of the
    session are as before. *)
Definition same_conn (s s' : Session) : Prop :=
  ss_loops s' = ss_loops s /\ ss_digestHeader s' = ss_digestHeader s /\ ss_digestData s' = ss_digestData s /\
  ss_params s' = ss_params s /\ ss_recovering s' = ss_recovering s /\ ss_draining s' = ss_draining s.

#[export] Instance same_conn_PreOrder : PreOrder same_conn.
Proof.
  split; [by repeat split|]. unfold same_conn. intros s1 s2 s3 H H'. destruct_and!. split_and!; congruence.
Qed.

(** ... and the window and ExpStatSN after a PDU of the target that carried [e] and [x] *)
Definition answered_by (e x : Z) (s s' : Session) : Prop :=
  same_conn s s' /\ ss_window s' = (update e x (ss_window s)).1 /\ (u32 (ss_expStatSN s) -> u32 (ss_expStatSN s')).

Lemma next_expStatSN_width sn e : u32 e -> u32 (next_expStatSN sn e).
Proof. intros He. unfold next_expStatSN. destruct (_ || _); [apply Incr_width|done]. Qed.

(** What [cleanupTask] leaves of the two tables *)
Lemma cleanupTask_Done itt s : exists s', cleanupTask itt s = Done ((), s') /\
  ss_tasks s' = delete itt (ss_tasks s) /\ ss_router s' = Unregister itt (ss_router s) /\
  ss_objs s' = ss_objs s /\ ss_writeCh s' = ss_writeCh s /\ ss_expStatSN s' = ss_expStatSN s /\
  same_conn s s' /\ ss_window s' = ss_window s.
Proof.
  unfold cleanupTask, router_Unregister, delete_task, upd, SM_put, mbind, SM_bind. cbn beta iota.
  eexists. split; [reflexivity|]. by destruct (_ && _ && _).
Qed.

(** A waiting [taskLoop]'s end of its channel: registered, open and empty *)
Definition listening (itt : Z) (ch : nat) (r : Router) : Prop :=
  rt_pending r !! itt = Some (mkEntry ch true) /\
  exists cap, rt_chans r !! ch = Some (mkChan [] (S cap) false).

(** Dispatching a PDU to a listening task and receiving it there *)
Lemma dispatch_receive itt ch raw s : listening itt ch (ss_router s) ->
  exists r1, session_dispatch itt raw s = Done ((), set_router r1 s) /\
    receive ch (set_router r1 s) = Done (Some raw, s).
Proof.
  intros [Hp [cap Hc]]. destruct s as [params dh dd r wc w e objs tasks loops lg rc dr dd2 dn er ca cl ev sp cfg].
  destruct r as [pend next depth chans]. simpl in *.
  unfold session_dispatch, Dispatch, dispatchLookup, chan_send, receive, chan_recv. simpl. rewrite Hp. simpl.
  rewrite Hc. unfold send. simpl. eexists. split; [reflexivity|]. simpl.
  rewrite list_lookup_insert_eq by by eapply lookup_lt_Some. simpl.
  rewrite list_insert_insert_eq. rewrite list_insert_id by done. done.
Qed.

(** One PDU of a sequence: it is dispatched, received and handled *)
Lemma feed_turn itt id ch raw raws s t go s' : listening itt ch (ss_router s) -> ss_objs s !! id = Some t ->
  taskLoop_PDU id raw s = Done (go, s') ->
  feed itt id ch (raw :: raws) s = if go : bool then feed itt id ch raws s' else Done (false, s').
Proof.
  intros Hl Ho Hturn. destruct (dispatch_receive itt ch raw s Hl) as (r1 & Hd & Hrecv).
  cbn [feed]. rewrite (SM_bind_Done _ _ _ _ _ Hd).
  assert (Ht : taskLoop_turn TakePDU id ch (set_router r1 s) = Done (go, s')).
  { unfold taskLoop_turn. rewrite (SM_bind_Done _ _ _ _ _ (task_at_Done id (set_router r1 s) t Ho)).
    by rewrite (SM_bind_Done _ _ _ _ _ Hrecv). }
  rewrite (SM_bind_Done _ _ _ _ _ Ht). by destruct go.
Qed.

(** ** A read *)

Section read.
Context (parts : list bytes) (raw : nat -> RawPDU) (din : nat -> DataIn) (erl0 itt0 : Z).
#[local] Set Default Proof Using "All".
#[local] Abbreviation n := (length parts).

(** The [i]-th Data-In of the transfer, with the data segment of its PDU *)
#[local] Abbreviation pdu := (fun i => DataIn_with_Data (raw_DataSegment (raw i)) (din i)).

Hypothesis Hraw : forall i, (i < n)%nat -> DecodeBHS (raw_BHS (raw i)) = Ok (PDataIn (din i)).
Hypothesis Hn : Z.of_nat n < 2 ^ 32.
Hypothesis Htotal : Z.of_nat (length (concat parts)) < 2 ^ 32.
Hypothesis HSN : forall i, DataIn_DataSN (pdu i) = Z.of_nat i.
Hypothesis Hoff : forall i, (i < n)%nat -> DataIn_BufferOffset (pdu i) = Z.of_nat (length (prefix parts i)).
Hypothesis Hdata : forall i, (i < n)%nat -> parts !! i = Some (DataIn_Data (pdu i)).
Hypothesis Hstatus : forall i, (i < n)%nat -> DataIn_HasStatus (pdu i) = bool_decide (S i = n).

(** The task after the first [m] parts, received in order *)
Definition received (m : nat) (t : task) : Prop :=
  collected parts pdu erl0 itt0 (reverse (seq 0 m)) m t.

Lemma received_next m t c e : received m t -> (m < n)%nat -> ch_closed c = false ->
  exists t' c', handleDataIn (pdu m) (mkTS t c e) = Done ((), mkTS t' c' e) /\
    received (S m) t' /\ acked (DataIn_Acknowledge (pdu m)) c c'.
Proof.
  intros Hc Hm Hr.
  destruct (handleDataIn_collects parts pdu erl0 itt0 Hn Htotal HSN Hoff Hdata Hstatus
    (reverse (seq 0 m)) m m (mkTS t c e)) as (m' & t' & c' & Hrun & Hc' & _ & Hr'); try done.
  - by left.
  - by destruct Hc as (_ & _ & H & _).
  - exists t', c'. split; [exact Hrun|]. split; [|by apply Hr'].
    assert (Hseq : reverse (seq 0 (S m)) = m :: reverse (seq 0 m)) by by rewrite seq_S, reverse_snoc.
    unfold received. rewrite Hseq. destruct Hc' as (Hp & Hle & Hnot & Hall & Hgot).
    assert (m' = S m) as ->; [|by split].
    assert (Hin : forall j, j ∈ m :: reverse (seq 0 m) <-> (j < S m)%nat).
    { intros j. rewrite <- Hseq, elem_of_reverse, elem_of_seq. lia. }
    rewrite Hin in Hnot. destruct (decide (m' < S m)%nat); [lia|].
    destruct (decide (S m < m')%nat) as [Hlt|]; [|lia]. apply Hall, Hin in Hlt. lia.
Qed.

(** ExpStatSN and the command window after parts [m] to [m + k - 1]: the part with
    status has the StatSN, and every part a window. *)
Definition statSN_after (m k : nat) (e : Z) : Z :=
  if decide ((m + k)%nat = n) then next_expStatSN (DataIn_StatSN (pdu (n - 1)%nat)) e else e.
Definition window_after (m k : nat) (w : cmdWindow) : cmdWindow :=
  fold_left (fun w i => (update (DataIn_ExpCmdSN (pdu i)) (DataIn_MaxCmdSN (pdu i)) w).1) (seq m k) w.

(** A turn of the task loop on the next part *)
Lemma data_in_turn m id s t : ss_objs s !! id = Some t -> received m t -> (m < n)%nat ->
  ch_closed (ss_writeCh s) = false ->
  exists s' t', taskLoop_PDU id (raw m) s = Done (bool_decide (S m <> n), s') /\
    ss_objs s' = <[id := t']> (ss_objs s) /\ received (S m) t' /\
    acked (DataIn_Acknowledge (pdu m)) (ss_writeCh s) (ss_writeCh s') /\
    ss_router s' = (if decide (S m = n) then Unregister itt0 (ss_router s) else ss_router s) /\
    ss_tasks s' = (if decide (S m = n) then delete itt0 (ss_tasks s) else ss_tasks s) /\
    answered_by (DataIn_ExpCmdSN (pdu m)) (DataIn_MaxCmdSN (pdu m)) s s' /\
    ss_expStatSN s' = statSN_after m 1 (ss_expStatSN s).
Proof.
  intros Ho Hrec Hm Hr. unfold taskLoop_PDU.
  rewrite (SM_bind_Done _ _ _ _ _ (task_at_Done id s t Ho)), Hraw by done.
  rewrite (SM_bind_Done _ _ _ _ _ (window_update_Done _ _ s)).
  set (s1 := set_window _ s). rewrite Hstatus by done.
  assert (Hst : exists s2, SM_when (bool_decide (S m = n)) (updateStatSN (DataIn_StatSN (pdu m))) s1 = Done ((), s2) /\
    ss_objs s2 = ss_objs s /\ ss_writeCh s2 = ss_writeCh s /\ ss_router s2 = ss_router s /\ ss_tasks s2 = ss_tasks s /\
    answered_by (DataIn_ExpCmdSN (pdu m)) (DataIn_MaxCmdSN (pdu m)) s s2 /\
    ss_expStatSN s2 = statSN_after m 1 (ss_expStatSN s)).
  { unfold SM_when, statSN_after. rewrite Nat.add_1_r. destruct (decide (S m = n)) as [Hl|Hl].
    - rewrite bool_decide_true, updateStatSN_Done by done. replace (n - 1)%nat with m by lia.
      eexists. split; [reflexivity|]. do 4 (split; [done|]). split; [|done].
      split; [done|]. split; [done|]. apply next_expStatSN_width.
    - rewrite bool_decide_false by done. exists s1. split; [done|]. do 4 (split; [done|]). split; [|done].
      split; [done|]. by split. }
  destruct Hst as (s2 & Hst & E1 & E2 & E3 & E4 & E5 & E8). rewrite (SM_bind_Done _ _ _ _ _ Hst).
  destruct (received_next m t (ss_writeCh s2) (ss_expStatSN s2)) as (t' & c' & Hrun & Hrec' & Hr');
    [done|done|by rewrite E2|].
  assert (Ho2 : ss_objs s2 !! id = Some t) by by rewrite E1.
  rewrite (SM_bind_Done _ _ _ _ _ (on_task_Done id _ s2 t () _ Ho2 Hrun)).
  set (s3 := set_writeCh _ _). cbn [ts_task ts_writeCh] in s3.
  assert (Hitt : tk_itt t = itt0) by by destruct Hrec as [[[_ [? _]]] _].
  destruct (decide (S m = n)) as [Hlast|Hmore].
  - rewrite bool_decide_true by done. rewrite Hitt.
    destruct (cleanupTask_Done itt0 s3) as (s4 & Hcl & F1 & F2 & F3 & F4 & F5).
    rewrite (SM_bind_Done _ _ _ _ _ Hcl). exists s4, t'.
    rewrite bool_decide_false by tauto. split; [done|].
    rewrite F1, F2, F3, F4. subst s3. cbn. rewrite E1, E3, E4, <- E2. do 5 (split; [done|]).
    destruct E5 as (E5 & E6 & E7), F5 as (F5 & F6 & F7).
    split; [|rewrite F5; exact E8].
    split; [by transitivity s2|]. split; [exact (eq_trans F7 E6)|]. intros He. rewrite F5. exact (E7 He).
  - rewrite bool_decide_false by done. exists s3, t'. rewrite bool_decide_true by done.
    split; [done|]. subst s3. cbn. rewrite E1, E3, E4, <- E2. done.
Qed.

Lemma feed_rest k : forall m id ch s t, (m + k = n)%nat -> (0 < k)%nat ->
  ss_objs s !! id = Some t -> received m t -> ch_closed (ss_writeCh s) = false ->
  listening itt0 ch (ss_router s) ->
  exists s' t', feed itt0 id ch (map raw (seq m k)) s = Done (false, s') /\
    ss_objs s' = <[id := t']> (ss_objs s) /\ received n t' /\ ch_closed (ss_writeCh s') = false /\
    ss_router s' = Unregister itt0 (ss_router s) /\ ss_tasks s' = delete itt0 (ss_tasks s) /\
    ss_expStatSN s' = statSN_after m k (ss_expStatSN s) /\ ss_window s' = window_after m k (ss_window s).
Proof.
  induction k as [|k IH]; intros m id ch s t Hk Hpos Ho Hrec Hr Hl; [lia|].
  destruct (data_in_turn m id s t Ho Hrec) as (s1 & t1 & Hturn & E1 & Hrec1 & Hs1 & E2 & E3 & (_ & E4 & _) & E5); [lia|done|].
  assert (Hr1 : ch_closed (ss_writeCh s1) = false) by by rewrite (spared_closed _ _ (acked_spared _ _ _ Hs1)).
  cbn [map seq]. rewrite (feed_turn _ _ _ _ _ _ _ _ _ Hl Ho Hturn). destruct (decide (S m = n)) as [Hlast|Hmore].
  - rewrite bool_decide_false by tauto.
    assert (k = 0%nat) as -> by lia.
    exists s1, t1. split; [done|]. split; [done|].
    split; [by rewrite <- Hlast|]. by repeat split.
  - rewrite bool_decide_true by done.
    assert (Ho1 : ss_objs s1 !! id = Some t1).
    { rewrite E1. apply list_lookup_insert_eq. by eapply lookup_lt_Some. }
    destruct (IH (S m) id ch s1 t1) as (s' & t' & Hf & F1 & F2 & F3 & F4 & F5 & F6 & F7); try done; try lia.
    { by rewrite E2. }
    exists s', t'. split; [exact Hf|]. rewrite F1, E1, F4, F5, F6, F7, E2, E3, E4, E5, list_insert_insert_eq.
    split; [done|]. split; [exact F2|]. split; [done|]. split; [done|]. split; [done|]. split; [|done].
    unfold statSN_after. rewrite Nat.add_1_r, (decide_False (P := S m = n)) by done.
    by replace (S m + k)%nat with (m + S k)%nat by lia.
Qed.

(** The result of a task that has received everything *)
Lemma received_result t : received n t ->
  ch_buf (tk_resultCh t) = [transfer_result parts pdu] /\ tk_done t = false.
Proof.
  intros [Hp _]. unfold done_results in Hp. rewrite Nat.eqb_refl in Hp. destruct Hp as [[_ [_ H0]] _ _ _ _ H _].
  by rewrite H.
Qed.

End read.

(** ** Submission *)

(** A command the wire format can carry *)
Definition Command_ok (cmd : Command) : Prop :=
  0 <= cmd_LUN cmd <= 0xFFFF /\ in_width 3 (cmd_TaskAttributes cmd) /\
  u32 (cmd_ExpectedDataTransferLen cmd) /\ length (cmd_CDB cmd) = 16%nat /\ bytes_ok (cmd_CDB cmd).

(** A session that can take a command now, with its next CmdSN *)
Definition ready (sn : Z) (w' : cmdWindow) (s : Session) : Prop :=
  ss_recovering s = false /\ ss_draining s = false /\ acquire_fast (ss_window s) = Some (Ok sn, w') /\
  u32 sn /\ u32 (ss_expStatSN s) /\ 0 <= rt_nextITT (ss_router s) < reservedITT /\
  (0 < rt_persistentDepth (ss_router s))%nat.

Definition next_itt (s : Session) : Z := (AllocateITT (ss_router s)).1.
Definition next_ch (s : Session) : nat := length (rt_chans (ss_router s)).

(** The SCSI command request of a submission *)
Definition command_request (cmd : Command) (itt sn expStatSN : Z) (imm : bytes) : SCSICommand :=
  mkSCSICommand (mkHeader false 0 true 0 (uint32 (Z.of_nat (length imm)))
    (put_be 2 0 (uint16 (cmd_LUN cmd)) (zeros 8)) itt)
    (cmd_Read cmd) (cmd_Write cmd) (cmd_TaskAttributes cmd) (cmd_ExpectedDataTransferLen cmd) sn
    expStatSN (cmd_CDB cmd) imm.

(** The LUN on the wire is the command's. *)
Lemma LUN_roundtrip lun b : 0 <= lun <= 0xFFFF -> EncodeSAMLUN lun = Some b -> DecodeSAMLUN b = lun.
Proof.
  intros Hl. unfold EncodeSAMLUN. destruct (Z.gtb_spec lun 0xFFFF); [lia|]. intros [= <-].
  unfold DecodeSAMLUN. rewrite (proj2 (Nat.ltb_ge _ _)).
  - unfold get_be, put_be. rewrite sub_upd_same; [|by rewrite length_be_bytes|rewrite length_zeros; lia].
    rewrite be_val_bytes_id; [apply wrap_id; unfold in_width; lia|]. apply wrap_range. lia.
  - unfold put_be. rewrite (length_upd 8); rewrite ?length_be_bytes, ?length_zeros; simpl; lia.
Qed.

Lemma command_request_ok cmd itt sn e imm : Command_ok cmd -> u32 itt -> u32 sn -> u32 e ->
  SCSICommand_ok (command_request cmd itt sn e imm).
Proof.
  intros (Hl & Ha & Hx & Hc & Hb) Hitt Hsn He.
  split; [|by repeat (split; [done|])]. unfold Header_ok, command_request.
  cbn [SCSICommand_Hdr TotalAHSLength DataSegmentLen LUN InitiatorTaskTag].
  split; [done|]. split; [apply wrap_range; lia|]. split; [done|]. split; [|done].
  apply Forall_upd; [apply be_bytes_ok|apply zeros_ok].
Qed.

Lemma command_request_built cmd itt sn e imm : Command_ok cmd -> u32 itt -> u32 sn -> u32 e ->
  Z.of_nat (length imm) < 2 ^ 24 -> exists bhs,
  buildSCSICommandPDU cmd itt sn e imm = Some (Ok (newRawPDU bhs imm)) /\
  DecodeBHS bhs = Ok (PSCSICommand (SCSICommand_wire (command_request cmd itt sn e imm))) /\
  unstamped (newRawPDU bhs imm).
Proof.
  intros Hok Hitt Hsn He Himm. pose proof (command_request_ok cmd itt sn e imm Hok Hitt Hsn He) as Hp.
  destruct Hok as (Hl & _). unfold buildSCSICommandPDU, EncodeSAMLUN.
  rewrite (Z.gtb_ltb (cmd_LUN cmd)), (proj2 (Z.ltb_ge _ _)) by lia. cbn [mbind option_bind].
  fold (command_request cmd itt sn e imm).
  pose proof (SCSICommand_marshal_total (command_request cmd itt sn e imm)) as Ht. cbn in Ht.
  rewrite wrap_id in Ht by (unfold in_width; lia).
  rewrite (Z.gtb_ltb (Z.of_nat _)), (proj2 (Z.ltb_ge _ _)) in Ht by lia.
  destruct (SCSICommand_MarshalBHS _) as [bhs|] eqn:Hm; [|done]. exists bhs. split; [done|].
  split; [by apply (decode_encoded (PSCSICommand (command_request cmd itt sn e imm)))|].
  apply (unstamped_PDU (PSCSICommand (command_request cmd itt sn e imm))); try done.
  cbn. apply wrap_id. unfold in_width. lia.
Qed.

(** The task of a submission before any data is read *)
Definition submit_task (depth : Z) (cmd : Command) (sn : Z) (s : Session) : task :=
  let isWrite := bool_decide (is_Some (cmd_Data cmd)) in
  let cmd' := if isWrite then set_Write true cmd else cmd in
  set_tk_snackTimeout (snackEnabled (ss_cfg s))
    (set_tk_erl (np_ErrorRecoveryLevel (ss_params s)) (set_tk_reader (cmd_Data cmd')
      (set_tk_cmdSN sn (set_tk_cmd cmd' (set_tk_lun (cmd_LUN cmd')
        (newTask (next_itt s) (cmd_Read cmd') isWrite depth)))))).

(** The session once the task is registered *)
Definition registered (t : task) (w' : cmdWindow) (s : Session) : Session :=
  set_tasks (<[next_itt s := length (ss_objs s)]> (ss_tasks s))
    (set_objs (ss_objs s ++ [t])
      (set_router (RegisterPersistent (next_itt s) (AllocateITT (ss_router s)).2).2 (set_window w' s))).

(** The session after a successful submission that sent [raws] *)
Definition submitted (t : task) (w' : cmdWindow) (raws : list RawPDU) (s : Session) : Session :=
  set_loops (ss_loops s ++ [(length (ss_objs s), next_ch s)])
    (set_writeCh (sent_on raws (ss_writeCh s)) (registered t w' s)).

Lemma next_itt_width s : 0 <= rt_nextITT (ss_router s) < reservedITT -> u32 (next_itt s).
Proof.
  intros H. unfold next_itt, AllocateITT. destruct (allocITT_range (rt_nextITT (ss_router s))) as [H1 _]; [lia|].
  destruct (allocITT _) as [itt nx]. simpl in *. unfold in_width, reservedITT in *. lia.
Qed.

(** The command as it is submitted: a command with data writes *)
Definition submitted_command (cmd : Command) : Command :=
  if bool_decide (is_Some (cmd_Data cmd)) then set_Write true cmd else cmd.

Lemma submitted_command_ok cmd : Command_ok cmd -> Command_ok (submitted_command cmd).
Proof. unfold submitted_command. by destruct (bool_decide _). Qed.

Lemma submitted_command_Data cmd : cmd_Data (submitted_command cmd) = cmd_Data cmd.
Proof. unfold submitted_command. by destruct (bool_decide _). Qed.

(** Submission up to the registration of the task *)
Lemma submit_registers depth cx cx' cmd sn w' s : ready sn w' s ->
  submit cx cx' depth cmd s
  = submit_command cx' (submitted_command cmd) (next_itt s) sn (length (ss_objs s)) (next_ch s)
      (ss_params s) (ss_expStatSN s) (registered (submit_task depth cmd sn s) w' s).
Proof.
  intros (Hrec & Hdr & Hacq & _). unfold submit.
  rewrite (SM_bind_Done _ _ s (ss_recovering s) s), Hrec by done.
  rewrite (SM_bind_Done _ _ s (ss_draining s) s), Hdr by done.
  assert (Hw : window_acquire cx s = Done (Ok sn, set_window w' s)) by (unfold window_acquire; by rewrite Hacq).
  rewrite (SM_bind_Done _ _ _ _ _ Hw). set (s1 := set_window w' s).
  set (s2 := set_router (AllocateITT (ss_router s)).2 s1).
  assert (Ha : router_AllocateITT s1 = Done (next_itt s, s2)).
  { unfold router_AllocateITT, next_itt, s2, s1. simpl. by destruct (AllocateITT (ss_router s)). }
  rewrite (SM_bind_Done _ _ _ _ _ Ha).
  set (s3 := set_router (RegisterPersistent (next_itt s) (AllocateITT (ss_router s)).2).2 s1).
  assert (Hp : router_RegisterPersistent (next_itt s) s2 = Done (next_ch s, s3)).
  { unfold router_RegisterPersistent, s2, s3, s1, next_ch, RegisterPersistent, AllocateITT. simpl.
    by destruct (allocITT (rt_nextITT (ss_router s))). }
  rewrite (SM_bind_Done _ _ _ _ _ Hp).
  fold (submitted_command cmd). cbv zeta.
  assert (Hr : register_task depth (submitted_command cmd) (next_itt s) sn s3
    = Done ((length (ss_objs s), ss_params s, ss_expStatSN s), registered (submit_task depth cmd sn s) w' s)).
  { unfold register_task, submit_task. cbv zeta. fold (submitted_command cmd). rewrite submitted_command_Data. reflexivity. }
  by rewrite (SM_bind_Done _ _ _ _ _ Hr).
Qed.

(** The session once the command is on the write channel *)
Definition command_sent (t : task) (w' : cmdWindow) (raw : RawPDU) (s : Session) : Session :=
  set_writeCh (sent_on [raw] (ss_writeCh s)) (registered t w' s).

(** Submission up to the unsolicited data, whose outcome is [err] and [s7] *)
Lemma submit_gen depth cx cx' cmd sn w' s imm t1 k err s7 :
  ready sn w' s -> Command_ok cmd -> (cx_done cx' && cx_pick cx') = false ->
  room (S k) (ss_writeCh s) -> Z.of_nat (length imm) < 2 ^ 24 ->
  (if bool_decide (is_Some (cmd_Data cmd)) && np_ImmediateData (ss_params s)
   then readImmediate (ss_params s) (length (ss_objs s)) else mret (Ok []))
    (registered (submit_task depth cmd sn s) w' s) = Done (Ok imm, registered t1 w' s) ->
  (forall bhs, (if bool_decide (is_Some (cmd_Data cmd)) && negb (np_InitialR2T (ss_params s))
   then on_task (length (ss_objs s)) (sendUnsolicitedDataOut (ss_digestHeader s) (ss_digestData s) (ss_params s))
   else mret None)
    (command_sent t1 w' (stampDigests (ss_digestHeader s) (ss_digestData s) (newRawPDU bhs imm)) s)
   = Done (err, s7 (stampDigests (ss_digestHeader s) (ss_digestData s) (newRawPDU bhs imm)))) ->
  exists bhs,
    submit cx cx' depth cmd s
    = (match err with
       | Some e => _ ← unsubmit (next_itt s); mret (Err (Wrapf "session: unsolicited data: %w" [] e))
       | None => _ ← upd (fun s' => set_loops (ss_loops s' ++ [(length (ss_objs s), next_ch s)]) s');
                 mret (Ok (length (ss_objs s)))
       end) (s7 (stampDigests (ss_digestHeader s) (ss_digestData s) (newRawPDU bhs imm))) /\
    DecodeBHS bhs = Ok (PSCSICommand (SCSICommand_wire (command_request (submitted_command cmd)
      (next_itt s) sn (ss_expStatSN s) imm))) /\
    unstamped (newRawPDU bhs imm).
Proof.
  intros Hready Hok Hcx Hroom Himm24 Himm Hunsol. rewrite (submit_registers depth cx cx' cmd sn w' s Hready).
  destruct Hready as (_ & _ & _ & Hsn & He & Hnext & _).
  pose proof (next_itt_width s Hnext) as Hitt. pose proof (submitted_command_ok cmd Hok) as Hok'.
  destruct (command_request_built (submitted_command cmd) (next_itt s) sn (ss_expStatSN s) imm) as (bhs & Hb & Hd & Hu);
    try done.
  exists bhs. split; [|by split]. unfold submit_command. rewrite submitted_command_Data.
  rewrite (SM_bind_Done _ _ _ _ _ Himm), Hb. set (s5 := registered t1 w' s).
  rewrite (SM_bind_Done _ _ s5 (stampDigests (ss_digestHeader s) (ss_digestData s) (newRawPDU bhs imm)) s5) by done.
  set (raw := stampDigests _ _ _).
  assert (Hsend : send_or_done cx' raw s5 = Done (true, set_writeCh (sent_on [raw] (ss_writeCh s)) s5)).
  { unfold send_or_done. rewrite Hcx. change (ss_writeCh s5) with (ss_writeCh s).
    by destruct (send_sent_on raw k _ Hroom) as [-> _]. }
  rewrite (SM_bind_Done _ _ _ _ _ Hsend). cbn [negb]. set (s6 := set_writeCh _ s5).
  rewrite (SM_bind_Done _ _ s6 (ss_digestHeader s) s6), (SM_bind_Done _ _ s6 (ss_digestData s) s6) by done.
  rewrite (SM_bind_Done _ _ _ _ _ (Hunsol bhs)). fold raw. reflexivity.
Qed.

Lemma submit_ok depth cx cx' cmd sn w' s imm t1 k :
  ready sn w' s -> Command_ok cmd -> (cx_done cx' && cx_pick cx') = false ->
  room (S k) (ss_writeCh s) -> Z.of_nat (length imm) < 2 ^ 24 ->
  (cmd_Data cmd <> None -> np_InitialR2T (ss_params s) = true) ->
  (if bool_decide (is_Some (cmd_Data cmd)) && np_ImmediateData (ss_params s)
   then readImmediate (ss_params s) (length (ss_objs s)) else mret (Ok []))
    (registered (submit_task depth cmd sn s) w' s) = Done (Ok imm, registered t1 w' s) ->
  exists bhs,
    submit cx cx' depth cmd s
    = Done (Ok (length (ss_objs s)),
        submitted t1 w' [stampDigests (ss_digestHeader s) (ss_digestData s) (newRawPDU bhs imm)] s) /\
    DecodeBHS bhs = Ok (PSCSICommand (SCSICommand_wire (command_request (submitted_command cmd)
      (next_itt s) sn (ss_expStatSN s) imm))) /\
    unstamped (newRawPDU bhs imm).
Proof.
  intros Hready Hok Hcx Hroom Himm24 HR2T Himm.
  apply (submit_gen depth cx cx' cmd sn w' s imm t1 k None (fun raw => command_sent t1 w' raw s)); try done.
  intros bhs. destruct (cmd_Data cmd) eqn:E; [rewrite HR2T by done|]; by rewrite ?andb_false_r.
Qed.

Definition immLen (params : NegotiatedParams) : nat :=
  Z.to_nat (Z.min (np_FirstBurstLength params) (np_MaxRecvDataSegmentLength params)).

(** The task after its immediate data was read *)
Definition with_immediate (n : nat) (r : Reader) (t : task) : task :=
  set_tk_bytesSent (uint32 (Z.of_nat n)) (set_tk_reader (Some r) t).

Lemma on_task_last {A} (m : TM A) t w' s a t' :
  m (mkTS t (ss_writeCh s) (ss_expStatSN s)) = Done (a, mkTS t' (ss_writeCh s) (ss_expStatSN s)) ->
  on_task (length (ss_objs s)) m (registered t w' s) = Done (a, registered t' w' s).
Proof.
  intros Hm. unfold on_task. change (ss_objs (registered t w' s)) with (ss_objs s ++ [t]).
  rewrite lookup_app_r, Nat.sub_diag by lia. cbn [lookup list_lookup].
  change (ss_writeCh (registered t w' s)) with (ss_writeCh s).
  change (ss_expStatSN (registered t w' s)) with (ss_expStatSN s). rewrite Hm.
  cbn [ts_task ts_writeCh]. rewrite insert_app_r_alt, Nat.sub_diag by lia. done.
Qed.

(** Reading the immediate data: the first bytes of the reader, which must have some *)
Lemma readImmediate_ok t w' s r : (0 < immLen (ss_params s))%nat -> rd_bytes r <> [] -> rd_err r = EOF ->
  tk_reader t = Some r -> exists r', rd_bytes r' = drop (immLen (ss_params s)) (rd_bytes r) /\ rd_err r' = EOF /\
    readImmediate (ss_params s) (length (ss_objs s)) (registered t w' s)
    = Done (Ok (take (immLen (ss_params s)) (rd_bytes r)),
            registered (with_immediate (Nat.min (immLen (ss_params s)) (length (rd_bytes r))) r' t) w' s).
Proof.
  intros Hpos Hne Herr Hr. unfold readImmediate. fold (immLen (ss_params s)). set (L := immLen (ss_params s)) in *.
  destruct (decide (L <= length (rd_bytes r))%nat) as [Hle|Hgt].
  - destruct (ReadFull_enough L r Hle) as (r' & HR & Hb & He & _). exists r'.
    split; [done|]. split; [by rewrite He|].
    pose proof (on_task_last _ t w' s _ _ (readData_reader L r (mkTS t (ss_writeCh s) (ss_expStatSN s)) _ _ _ Hpos Hr HR))
      as Hread. cbn [ts_task] in Hread.
    rewrite (SM_bind_Done _ _ _ _ _ Hread).
    rewrite (SM_bind_Done _ _ _ () (registered (with_immediate (Nat.min L (length (rd_bytes r))) r'
      t) w' s)); [done|].
    apply on_task_last. rewrite length_take. done.
  - assert (HR : ReadFull L r = (rd_bytes r, Some ErrUnexpectedEOF, rd_with r [])).
    { rewrite ReadFull_short by lia. rewrite Herr, bool_decide_true by done.
      by rewrite bool_decide_false by done. }
    exists (rd_with r []). rewrite drop_ge, take_ge by lia. split; [done|]. split; [done|].
    pose proof (on_task_last _ t w' s _ _ (readData_reader L r (mkTS t (ss_writeCh s) (ss_expStatSN s)) _ _ _ Hpos Hr HR))
      as Hread. cbn [ts_task] in Hread.
    rewrite (SM_bind_Done _ _ _ _ _ Hread). rewrite bool_decide_true by done.
    rewrite (SM_bind_Done _ _ _ () (registered (with_immediate (Nat.min L (length (rd_bytes r))) (rd_with r [])
      t) w' s)); [done|].
    apply on_task_last. rewrite Nat.min_r by lia. done.
Qed.

(** A registered task listens on its channel. *)
Lemma submitted_listening t w' raws s : (0 < rt_persistentDepth (ss_router s))%nat ->
  listening (next_itt s) (next_ch s) (ss_router (submitted t w' raws s)).
Proof.
  intros Hd. unfold submitted, registered, listening, next_itt, next_ch, RegisterPersistent, AllocateITT.
  destruct (allocITT (rt_nextITT (ss_router s))) as [itt nx]. simpl. split; [apply lookup_insert_eq|].
  rewrite lookup_app_r, Nat.sub_diag by lia. simpl. exists (rt_persistentDepth (ss_router s) - 1)%nat.
  unfold make_chan. do 2 f_equal. lia.
Qed.

(** The task of a read has received nothing yet. *)
Lemma submitted_received parts raw din cmd sn s : cmd_Data cmd = None -> cmd_Read cmd = true ->
  (0 < length parts)%nat ->
  received parts raw din (np_ErrorRecoveryLevel (ss_params s)) (next_itt s) 0 (submit_task 0 cmd sn s).
Proof.
  intros Hnone Hread Hpos. assert (Hbd : bool_decide (is_Some (cmd_Data cmd)) = false) by by rewrite Hnone.
  unfold submit_task. rewrite Hbd. cbv zeta. rewrite Hnone, Hread.
  split; [|split; [lia|split; [apply not_elem_of_nil|split; [lia|constructor]]]].
  unfold done_results. rewrite (proj2 (Nat.eqb_neq 0 _)) by lia.
  split; try done. intros z d. unfold pending_of. simpl. rewrite lookup_empty.
  split; [done|]. intros (j & _ & _ & Hj & _). by apply not_elem_of_nil in Hj.
Qed.

(** A read: what Submit leaves, and what feeding the target's answer to its loop
    leaves *)
Lemma read_completes (s : Session) (cmd : Command) (cx cx' : CtxSched) (sn : Z) (w' : cmdWindow)
    (parts : list bytes) (raw : nat -> RawPDU) (din : nat -> DataIn) :
  let n := length parts in
  let pdu i := DataIn_with_Data (raw_DataSegment (raw i)) (din i) in
  ready sn w' s -> Command_ok cmd -> cmd_Data cmd = None -> cmd_Read cmd = true ->
  (cx_done cx' && cx_pick cx') = false -> room 1 (ss_writeCh s) ->
  (0 < n)%nat -> Z.of_nat n < 2 ^ 32 -> Z.of_nat (length (concat parts)) < 2 ^ 32 ->
  (forall i, (i < n)%nat -> DecodeBHS (raw_BHS (raw i)) = Ok (PDataIn (din i))) ->
  (forall i, DataIn_DataSN (pdu i) = Z.of_nat i) ->
  (forall i, (i < n)%nat -> DataIn_BufferOffset (pdu i) = Z.of_nat (length (prefix parts i))) ->
  (forall i, (i < n)%nat -> parts !! i = Some (DataIn_Data (pdu i))) ->
  (forall i, (i < n)%nat -> DataIn_HasStatus (pdu i) = bool_decide (S i = n)) ->
  let id := length (ss_objs s) in
  let ch := next_ch s in
  exists s1 s2 bhs t,
    Submit cx cx' cmd s = Done (Ok id, s1) /\ ss_loops s1 = ss_loops s ++ [(id, ch)] /\
    ss_writeCh s1 = sent_on [stampDigests (ss_digestHeader s) (ss_digestData s) (newRawPDU bhs [])] (ss_writeCh s) /\
    DecodeBHS bhs = Ok (PSCSICommand (SCSICommand_wire (command_request cmd (next_itt s) sn (ss_expStatSN s) []))) /\
    feed (next_itt s) id ch (map raw (seq 0 n)) s1 = Done (false, s2) /\
    ss_objs s2 !! id = Some t /\ ch_buf (tk_resultCh t) = [transfer_result parts pdu] /\
    ss_tasks s2 = delete (next_itt s) (ss_tasks s) /\ rt_pending (ss_router s2) !! next_itt s = None /\
    ss_expStatSN s2 = next_expStatSN (DataIn_StatSN (pdu (n - 1)%nat)) (ss_expStatSN s) /\
    ss_window s2 = fold_left (fun w i => (update (DataIn_ExpCmdSN (pdu i)) (DataIn_MaxCmdSN (pdu i)) w).1) (seq 0 n) w'.
Proof.
  intros n pdu Hready Hok Hnone Hread Hcx Hroom Hpos Hn Ht Hraw HSN Hoff Hdata Hst id ch.
  set (t0 := submit_task 0 cmd sn s).
  destruct (submit_ok 0 cx cx' cmd sn w' s [] t0 0 Hready Hok Hcx Hroom) as (bhs & Hsub & Hdec & _).
  { simpl. lia. } { by rewrite Hnone. } { by rewrite Hnone. }
  assert (Hbd : bool_decide (is_Some (cmd_Data cmd)) = false) by by rewrite Hnone.
  unfold submitted_command in Hdec. rewrite Hbd in Hdec.
  set (raw0 := stampDigests _ _ _) in Hsub. set (s1 := submitted t0 w' [raw0] s) in *.
  pose proof (submitted_received parts raw din cmd sn s Hnone Hread Hpos) as Hrec. fold t0 in Hrec.
  assert (Ho : ss_objs s1 !! length (ss_objs s) = Some t0).
  { change (ss_objs s1) with (ss_objs s ++ [t0]). by rewrite lookup_app_r, Nat.sub_diag by lia. }
  destruct (feed_rest parts raw din (np_ErrorRecoveryLevel (ss_params s)) (next_itt s) Hraw Hn Ht HSN Hoff Hdata Hst n 0
    (length (ss_objs s)) (next_ch s) s1 t0) as (s2 & t & Hfeed & E1 & Hrec' & _ & E2 & E3 & E4 & E5); try done.
  - by apply Hroom.
  - apply submitted_listening. by destruct Hready as (_ & _ & _ & _ & _ & _ & ?).
  - exists s1, s2, bhs, t.
    split; [exact Hsub|]. split; [done|]. split; [done|]. split; [exact Hdec|]. split; [exact Hfeed|].
    split; [rewrite E1; apply list_lookup_insert_eq; by eapply lookup_lt_Some|].
    split; [by apply (received_result parts raw din (np_ErrorRecoveryLevel (ss_params s)) (next_itt s)) in Hrec' as [-> _]|].
    rewrite E2, E3. split; [|split; [apply lookup_delete_eq|]].
    + change (ss_tasks s1) with (<[next_itt s := length (ss_objs s)]> (ss_tasks s)). apply delete_insert_eq.
    + split; [|exact E5]. rewrite E4. unfold statSN_after. by rewrite decide_True.
Qed.

(** ** Properties *)

(** C5.  A read completes: Submit of a read command sends one SCSI command PDU
    that decodes to that command with the session's next CmdSN and a new ITT; and
    when the target's Data-In PDUs for it arrive in order, the last with status,
    the task loop delivers exactly one Result, with the concatenated data and the
    status and residuals of the last PDU, ends, and the ITT is free again.  ExpStatSN
    is then what the StatSN of the last PDU, the only one with status, makes of it,
    and the command window what the windows of all of them, in order, do. *)
Theorem read_end_to_end (s : Session) (cmd : Command) (cx cx' : CtxSched) (sn : Z) (w' : cmdWindow)
    (parts : list bytes) (raw : nat -> RawPDU) (din : nat -> DataIn) :
  let n := length parts in
  let pdu i := DataIn_with_Data (raw_DataSegment (raw i)) (din i) in
  ready sn w' s -> Command_ok cmd -> cmd_Data cmd = None -> cmd_Read cmd = true ->
  (cx_done cx' && cx_pick cx') = false -> room 1 (ss_writeCh s) ->
  (0 < n)%nat -> Z.of_nat n < 2 ^ 32 -> Z.of_nat (length (concat parts)) < 2 ^ 32 ->
  (forall i, (i < n)%nat -> DecodeBHS (raw_BHS (raw i)) = Ok (PDataIn (din i))) ->
  (forall i, DataIn_DataSN (pdu i) = Z.of_nat i) ->
  (forall i, (i < n)%nat -> DataIn_BufferOffset (pdu i) = Z.of_nat (length (prefix parts i))) ->
  (forall i, (i < n)%nat -> parts !! i = Some (DataIn_Data (pdu i))) ->
  (forall i, (i < n)%nat -> DataIn_HasStatus (pdu i) = bool_decide (S i = n)) ->
  exists id ch s1 s2 bhs t,
    Submit cx cx' cmd s = Done (Ok id, s1) /\ ss_loops s1 = ss_loops s ++ [(id, ch)] /\
    ss_writeCh s1 = sent_on [stampDigests (ss_digestHeader s) (ss_digestData s) (newRawPDU bhs [])] (ss_writeCh s) /\
    DecodeBHS bhs = Ok (PSCSICommand (SCSICommand_wire (command_request cmd (next_itt s) sn (ss_expStatSN s) []))) /\
    feed (next_itt s) id ch (map raw (seq 0 n)) s1 = Done (false, s2) /\
    ss_objs s2 !! id = Some t /\ ch_buf (tk_resultCh t) = [transfer_result parts pdu] /\
    ss_tasks s2 = delete (next_itt s) (ss_tasks s) /\ rt_pending (ss_router s2) !! next_itt s = None /\
    ss_expStatSN s2 = next_expStatSN (DataIn_StatSN (pdu (n - 1)%nat)) (ss_expStatSN s) /\
    ss_window s2 = fold_left (fun w i => (update (DataIn_ExpCmdSN (pdu i)) (DataIn_MaxCmdSN (pdu i)) w).1) (seq 0 n) w'.
Proof.
  intros n pdu Hready Hok Hnone Hread Hcx Hroom Hpos Hn Ht Hraw HSN Hoff Hdata Hst.
  exists (length (ss_objs s)), (next_ch s). by apply (read_completes s cmd cx cx' sn w' parts raw din).
Qed.

(** A target's Data-In PDUs for [parts] and the ITT 0 *)
Definition target_din (parts : list bytes) (i : nat) : DataIn :=
  let data := nth i parts [] in
  mkDataIn (mkHeader false OpDataIn true 0 (Z.of_nat (length data)) (zeros 8) 0)
    false false false (bool_decide (S i = length parts)) 0 0xFFFFFFFF 1 2 9 (Z.of_nat i)
    (Z.of_nat (length (prefix parts i))) 0 data.
Definition target_raw (parts : list bytes) (i : nat) : RawPDU :=
  newRawPDU (match DataIn_MarshalBHS (target_din parts i) with Ok bhs => bhs | Err _ => [] end)
    (nth i parts []).

Definition test_session : Session := NewSession Defaults false false defaultConfig.
Definition test_read : Command := mkCommand (0x28 :: zeros 15) true false 4 3 0 None.

Lemma read_end_to_end_witness :
  let parts := [[1; 2; 3]; [4]] in
  let cx := mkCtxSched false false in
  exists s1 s2 t,
    Submit cx cx test_read test_session = Done (Ok 0%nat, s1) /\
    feed 0 0 0 (map (target_raw parts) [0; 1]%nat) s1 = Done (false, s2) /\
    ss_objs s2 !! 0%nat = Some t /\ length (ch_buf (tk_resultCh t)) = 1%nat /\ ss_expStatSN s2 = 2.
Proof.
  intros parts cx. set (din i := DataIn_wire (target_din parts i)).
  destruct (read_end_to_end test_session test_read cx cx 1 (mkCmdWindow 2 1 1 false) parts (target_raw parts) din)
    as (id & ch & s1 & s2 & bhs & t & H1 & H2 & _ & _ & H3 & H4 & H5 & _ & _ & H6 & _).
  all: try reflexivity; try (unfold in_width; simpl; lia).
  - unfold ready. repeat (split; [vm_compute; done|]). vm_compute. lia.
  - unfold Command_ok. repeat (split; [vm_compute; done|]). apply (bool_decide_unpack _). by vm_compute.
  - split; [reflexivity|]. apply Nat.leb_le. reflexivity.
  - intros i Hi. by do 2 (destruct i as [|i]; [vm_compute; reflexivity|]); simpl in Hi; lia.
  - intros i Hi. by do 2 (destruct i as [|i]; [reflexivity|]); simpl in Hi; lia.
  - assert (id = 0%nat /\ ch = 0%nat) as [-> ->].
    { assert (Hloops : ss_loops s1 = [(0, 0)]%nat).
      { assert (H1' := H1). vm_compute in H1'. injection H1' as _ <-. reflexivity. }
      rewrite Hloops in H2. injection H2 as -> ->. done. }
    exists s1, s2, t. split; [exact H1|]. split; [exact H3|]. split; [exact H4|]. split; [by rewrite H5|]. rewrite H6. reflexivity.
Defined.
