(* ===== verification/Tables.v ===== *)
(** What the methods of a task leave alone.

    [keeps m]: the method [m] of a task changes neither its ITT, LUN and command
    nor the identity of its result channel, whose results it can only add to, and
    it never reopens [done]. *)
From S2P Require Import Prelude Errors Bhs PduTactics PduInitiator PduTarget Pdu GoIO Digest Framer.
From S2P Require Import Chan Serial Router Negotiation CmdWindow Config Types Task DataOut Session Unsolicited TaskLoop.
#[local] Open Scope string_scope.
#[local] Open Scope list_scope.
#[local] Open Scope Z_scope.

(** ** Tasks *)

Record task_le (t t' : task) : Prop := mkTaskLe {
  tl_itt : tk_itt t' = tk_itt t;
  tl_lun : tk_lun t' = tk_lun t;
  tl_cmd : tk_cmd t' = tk_cmd t;
  tl_cap : ch_cap (tk_resultCh t') = ch_cap (tk_resultCh t);
  tl_closed : ch_closed (tk_resultCh t') = ch_closed (tk_resultCh t);
  tl_results : prefix (ch_buf (tk_resultCh t)) (ch_buf (tk_resultCh t'));
  tl_room : (length (ch_buf (tk_resultCh t)) <= ch_cap (tk_resultCh t))%nat ->
            (length (ch_buf (tk_resultCh t')) <= ch_cap (tk_resultCh t'))%nat;
  tl_done : tk_done t = true -> tk_done t' = true;
}.

#[export] Instance task_le_preorder : PreOrder task_le.
Proof.
  split; [by split|]. intros t1 t2 t3 [] []. split; try congruence; [by etrans|tauto..].
Qed.

Definition keeps {A} (m : TM A) : Prop :=
  forall s a s', m s = Done (a, s') -> task_le (ts_task s) (ts_task s').

Create HintDb keeps.

Lemma keeps_ret {A} (a : A) : keeps (mret a).
Proof. by intros s b s' [= _ <-]. Qed.
Lemma keeps_get {A} (f : TS -> A) : keeps (SM_get f).
Proof. by intros s b s' [= _ <-]. Qed.
Lemma keeps_panic {A} : keeps (A := A) SM_panic.
Proof. by intros s b s'. Qed.
Lemma keeps_block {A} : keeps (A := A) SM_block.
Proof. by intros s b s'. Qed.
Lemma keeps_bind {A B} (m : TM A) (f : A -> TM B) : keeps m -> (forall a, keeps (f a)) -> keeps (m ≫= f).
Proof.
  intros Hm Hf s b s' H. apply SM_bind_inv in H as (a & s1 & H1 & H2).
  transitivity (ts_task s1); [by eapply Hm|by eapply Hf].
Qed.
Lemma keeps_when b (m : TM ()) : keeps m -> keeps (SM_when b m).
Proof. intros H. destruct b; [done|apply keeps_ret]. Qed.
Lemma keeps_upd f : (forall t, task_le t (f t)) -> keeps (upd_task f).
Proof. intros H s a s' [= _ <-]. apply H. Qed.
Lemma keeps_get_task : keeps get_task.
Proof. apply keeps_get. Qed.
#[export] Hint Resolve keeps_get_task keeps_ret keeps_get keeps_panic keeps_block keeps_when : keeps.

(** Taking a method apart, up to its reads, updates and sends *)
Ltac keeps :=
  repeat first
    [ progress cbv zeta | apply keeps_bind; [|intros ?] | apply keeps_when | progress auto with keeps
    | match goal with |- keeps (match ?x with _ => _ end) => destruct x end
    | apply keeps_upd; intros ?; split; done ].

Lemma keeps_closeDone : keeps closeDone.
Proof. apply keeps_upd. by split. Qed.
Lemma keeps_closeReader err : keeps (closeReaderWithError err).
Proof. apply keeps_upd. intros t. destruct (tk_streaming t); by split. Qed.
#[export] Hint Resolve keeps_closeDone keeps_closeReader : keeps.

Lemma task_le_send r c t : send r (tk_resultCh t) = Done c -> task_le t (set_tk_resultCh c t).
Proof.
  unfold send. destruct (ch_closed _) eqn:E; [done|]. destruct (Nat.ltb_spec (length (ch_buf (tk_resultCh t))) (ch_cap (tk_resultCh t))); [|done].
  intros [= <-]. split; simpl; [done..|by eexists|rewrite length_app; simpl; lia|done].
Qed.

Lemma keeps_sendResult r : keeps (sendResult r).
Proof.
  intros s a s'. unfold sendResult, SM_chan. destruct (send _ _) eqn:E; [|done..].
  intros [= _ <-]. by eapply task_le_send.
Qed.
#[export] Hint Resolve keeps_sendResult : keeps.

Lemma keeps_cancel err : keeps (cancel err).
Proof.
  unfold cancel. keeps. intros s [] s'. destruct (send _ _) eqn:E; [|by intros [= <-]|done].
  intros [= <-]. by eapply task_le_send.
Qed.

Lemma keeps_sendRaw raw : keeps (sendRaw raw).
Proof. intros s a s'. unfold sendRaw, SM_chan. by destruct (send _ _); [intros [= _ <-]|..]. Qed.
Lemma keeps_sendSNACK ty b r e : keeps (sendSNACK ty b r e).
Proof.
  intros s a s'. unfold sendSNACK. destruct (SNACKReq_MarshalBHS _); [|by intros [= _ <-]].
  by destruct (send _ _); [intros [= _ <-]..|].
Qed.
Lemma keeps_sendDataACK din : keeps (sendDataACK din).
Proof.
  intros s a s'. unfold sendDataACK. destruct (SNACKReq_MarshalBHS _); [|by intros [= _ <-]].
  by destruct (send _ _); [intros [= _ <-]..|].
Qed.
#[export] Hint Resolve keeps_cancel keeps_sendRaw keeps_sendSNACK keeps_sendDataACK : keeps.

Lemma keeps_readData n : keeps (readData n).
Proof. unfold readData. keeps. Qed.
#[export] Hint Resolve keeps_readData : keeps.

Lemma keeps_burst_loop fuel h d ttt o len m sn sent : keeps (burst_loop fuel h d ttt o len m sn sent).
Proof. revert sn sent. induction fuel as [|fuel IH]; intros sn sent; [apply keeps_block|]. cbn [burst_loop]. keeps. Qed.
#[export] Hint Resolve keeps_burst_loop : keeps.

Lemma keeps_handleR2T h d r2t params : keeps (handleR2T h d r2t params).
Proof. unfold handleR2T, sendDataOutBurst. keeps. Qed.
Lemma keeps_unsolicited h d params : keeps (sendUnsolicitedDataOut h d params).
Proof. unfold sendUnsolicitedDataOut, sendDataOutBurst. keeps. Qed.

Lemma keeps_appendData data : keeps (appendData data).
Proof. unfold appendData. keeps. Qed.
Lemma keeps_stopTimer : keeps stopSnackTimer.
Proof. apply keeps_upd. intros t. destruct (tk_snack t); by split. Qed.
Lemma keeps_startTimer : keeps startSnackTimer.
Proof. apply keeps_upd. by split. Qed.
#[export] Hint Resolve keeps_handleR2T keeps_unsolicited keeps_appendData keeps_stopTimer keeps_startTimer : keeps.

Lemma keeps_acceptDataIn din : keeps (acceptDataIn din).
Proof. unfold acceptDataIn. keeps. Qed.
Lemma keeps_deliverStatus din : keeps (deliverStatus din).
Proof. unfold deliverStatus, bufReader. keeps. Qed.
#[export] Hint Resolve keeps_acceptDataIn keeps_deliverStatus : keeps.

Lemma keeps_drain_loop fuel : keeps (drain_loop fuel).
Proof. induction fuel as [|fuel IH]; [apply keeps_ret|]. cbn [drain_loop]. keeps. Qed.
#[export] Hint Resolve keeps_drain_loop : keeps.

Lemma keeps_handleDataIn din : keeps (handleDataIn din).
Proof. unfold handleDataIn, handleGap, drainPendingDataIn, resetSnackTimer. keeps. Qed.
Lemma keeps_handleSCSIResponse resp : keeps (handleSCSIResponse resp).
Proof. unfold handleSCSIResponse. keeps. Qed.
#[export] Hint Resolve keeps_handleDataIn keeps_handleSCSIResponse : keeps.
