(* ===== verification/Write.v ===== *)
(** Writes: Submit, R2Ts and the response
    ([src/internal/session/session.go], [dataout.go], [datain.go]). *)
From S2P Require Import Prelude Errors Bhs PduTactics PduInitiator PduTarget Pdu GoIO Digest Framer.
From S2P Require Import Chan Serial Router Negotiation CmdWindow Config Types Task DataOut Session TaskLoop.
#[local] Open Scope string_scope.
#[local] Open Scope list_scope.
#[local] Open Scope Z_scope.

(** ** Turns of the task loop *)

Lemma r2t_turn id s t raw r2t o data r k (m := Z.to_nat (np_MaxRecvDataSegmentLength (ss_params s))) :
  ss_objs s !! id = Some t -> DecodeBHS (raw_BHS raw) = Ok (PR2T r2t) ->
  0 < np_MaxRecvDataSegmentLength (ss_params s) < 2 ^ 24 -> u32 (np_MaxBurstLength (ss_params s)) ->
  0 <= o -> o + Z.of_nat (length data) < 2 ^ 32 -> R2T_BufferOffset r2t = o ->
  0 <= R2T_DesiredDataTransferLength r2t <= np_MaxBurstLength (ss_params s) ->
  (desired r2t <= length data)%nat ->
  tk_reader t = Some r -> rd_bytes r = data -> rd_err r = EOF ->
  room ((desired r2t + m - 1) / m + k) (ss_writeCh s) ->
  exists s' r' b,
    taskLoop_PDU id raw s = Done (true, s') /\
    ss_objs s' = <[id := set_tk_reader (Some r') t]> (ss_objs s) /\
    ss_writeCh s' = sent_on (map (raw_dataOut (ss_digestHeader s) (ss_digestData s)) b) (ss_writeCh s) /\
    ss_router s' = ss_router s /\ ss_tasks s' = ss_tasks s /\ ss_params s' = ss_params s /\
    ss_digestHeader s' = ss_digestHeader s /\ ss_digestData s' = ss_digestData s /\
    rd_bytes r' = drop (desired r2t) data /\ rd_err r' = EOF /\
    concat (map DataOut_Data b) = take (desired r2t) data /\ Forall (carries o data) b /\
    room k (ss_writeCh s').
Proof.
  intros Ho Hdec Hm Hmb Ho0 Hlen Hoff Hdes Htot Hr Hb Herr Hroom. unfold taskLoop_PDU.
  rewrite (SM_bind_Done _ _ _ _ _ (task_at_Done id s t Ho)), Hdec.
  rewrite (SM_bind_Done _ _ _ _ _ (window_update_Done _ _ s)). set (s1 := set_window _ s).
  rewrite (SM_bind_Done _ _ _ _ _ (updateStatSN_Done _ s1)). set (s2 := set_expStatSN _ s1).
  rewrite (SM_bind_Done _ _ s2 (ss_digestHeader s) s2), (SM_bind_Done _ _ s2 (ss_digestData s) s2),
    (SM_bind_Done _ _ s2 (ss_params s) s2) by done.
  destruct (handleR2T_ok (ss_digestHeader s) (ss_digestData s) (ss_params s) r2t o data r
    (mkTS t (ss_writeCh s2) (ss_expStatSN s2)) k) as (r' & b & HR & H1 & H2 & H3 & H4 & H5); try done.
  rewrite (SM_bind_Done _ _ _ _ _ (on_task_Done id _ s2 t None _ Ho HR)).
  eexists _, r', b. split; [reflexivity|]. by repeat (split; [done|]).
Qed.

Lemma response_turn id s t raw resp : ss_objs s !! id = Some t ->
  DecodeBHS (raw_BHS raw) = Ok (PSCSIResponse resp) -> (tk_isRead t = false \/ default [] (tk_buf t) = []) ->
  tk_streaming t = false ->
  tk_resultCh t = make_chan 1 ->
  exists s' t', taskLoop_PDU id raw s = Done (false, s') /\ ss_objs s' = <[id := t']> (ss_objs s) /\
    ch_buf (tk_resultCh t') = [mkResult (SCSIResponse_Status resp) (responseSense (raw_DataSegment raw)) None
      (SCSIResponse_Overflow resp) (SCSIResponse_Underflow resp) (SCSIResponse_ResidualCount resp) None] /\
    ss_writeCh s' = ss_writeCh s /\
    ss_router s' = Unregister (tk_itt t) (ss_router s) /\ ss_tasks s' = delete (tk_itt t) (ss_tasks s) /\
    answered_by (SCSIResponse_ExpCmdSN resp) (SCSIResponse_MaxCmdSN resp) s s'.
Proof.
  intros Ho Hdec Hread Hst Hch. unfold taskLoop_PDU.
  rewrite (SM_bind_Done _ _ _ _ _ (task_at_Done id s t Ho)), Hdec.
  rewrite (SM_bind_Done _ _ _ _ _ (window_update_Done _ _ s)). set (s1 := set_window _ s).
  rewrite (SM_bind_Done _ _ _ _ _ (updateStatSN_Done _ s1)). set (s2 := set_expStatSN _ s1).
  set (p := SCSIResponse_with_Data (raw_DataSegment raw) resp).
  set (res := mkResult _ _ _ _ _ _ _).
  assert (Hrun : handleSCSIResponse p (mkTS t (ss_writeCh s2) (ss_expStatSN s2))
    = Done ((), mkTS (set_tk_resultCh (mkChan [res] 1 false) t) (ss_writeCh s2) (ss_expStatSN s2))).
  { unfold handleSCSIResponse. rewrite (SM_bind_Done _ _ _ t (mkTS t (ss_writeCh s2) (ss_expStatSN s2))) by done.
    assert (Hsend : forall r, sendResult r (mkTS t (ss_writeCh s2) (ss_expStatSN s2))
      = Done ((), mkTS (set_tk_resultCh (mkChan [r] 1 false) t) (ss_writeCh s2) (ss_expStatSN s2))).
    { intros r. unfold sendResult, SM_chan. cbn [ts_task]. by rewrite Hch. }
    rewrite Hst. cbn [andb].
    destruct Hread as [->|Hbuf]; [apply Hsend|]. destruct (tk_isRead t), (tk_buf t) as [[|]|]; done || apply Hsend. }
  rewrite (SM_bind_Done _ _ _ _ _ (on_task_Done id _ s2 t () _ Ho Hrun)). set (s3 := set_writeCh _ _).
  destruct (cleanupTask_Done (tk_itt t) s3) as (s4 & Hcl & F1 & F2 & F3 & F4 & F5 & F6 & F7).
  rewrite (SM_bind_Done _ _ _ _ _ Hcl). eexists s4, _. split; [reflexivity|].
  rewrite F1, F2, F3, F4. split; [reflexivity|]. do 4 (split; [done|]). split; [exact F6|]. split; [exact F7|].
  intros He. rewrite F5. by apply next_expStatSN_width.
Qed.

(** ** A write *)

(** Raw PDUs that carry the R2Ts [rs] *)
Definition carry_r2ts (raws : list RawPDU) (rs : list R2T) : Prop :=
  Forall2 (fun raw r2t => DecodeBHS (raw_BHS raw) = Ok (PR2T r2t)) raws rs.

Lemma feed_r2ts itt id ch raws rs : forall s t r o data k (m := Z.to_nat (np_MaxRecvDataSegmentLength (ss_params s))) tail,
  carry_r2ts raws rs -> ss_objs s !! id = Some t -> listening itt ch (ss_router s) ->
  0 < np_MaxRecvDataSegmentLength (ss_params s) < 2 ^ 24 -> u32 (np_MaxBurstLength (ss_params s)) ->
  0 <= o -> o + Z.of_nat (length data) < 2 ^ 32 ->
  r2t_sequence (np_MaxBurstLength (ss_params s)) o rs -> (desired_total rs <= length data)%nat ->
  tk_reader t = Some r -> rd_bytes r = data -> rd_err r = EOF ->
  room (pieces_total m rs + k) (ss_writeCh s) ->
  exists s' r' b,
    feed itt id ch (raws ++ tail) s = feed itt id ch tail s' /\
    ss_objs s' = <[id := set_tk_reader (Some r') t]> (ss_objs s) /\
    ss_writeCh s' = sent_on (map (raw_dataOut (ss_digestHeader s) (ss_digestData s)) b) (ss_writeCh s) /\
    ss_router s' = ss_router s /\ ss_tasks s' = ss_tasks s /\
    rd_bytes r' = drop (desired_total rs) data /\
    concat (map DataOut_Data b) = take (desired_total rs) data /\ Forall (carries o data) b /\
    room k (ss_writeCh s').
Proof.
  revert raws. induction rs as [|r2t rs IH]; intros raws s t r o data k m tail Hraws Ho Hl Hm Hmb Ho0 Hlen Hseq Htot Hr Hb Herr Hroom.
  - apply Forall2_nil_inv_r in Hraws as ->. exists s, r, []. simpl. rewrite sent_on_nil, drop_0.
    split; [done|]. split; [|by repeat (split; [done|])].
    assert (set_tk_reader (Some r) t = t) as -> by (destruct t; simpl in *; by subst). by rewrite list_insert_id.
  - apply Forall2_cons_inv_r in Hraws as (raw & raws' & Hdec & Hraws & ->).
    destruct Hseq as (Hoff & Hdes & Hseq).
    change (desired_total (r2t :: rs)) with (desired r2t + desired_total rs)%nat in *.
    change (pieces_total m (r2t :: rs)) with ((desired r2t + m - 1) / m + pieces_total m rs)%nat in Hroom.
    rewrite <- Nat.add_assoc in Hroom.
    destruct (r2t_turn id s t raw r2t o data r (pieces_total m rs + k)) as
      (s1 & r1 & b & Hturn & E1 & E2 & E3 & E4 & E5 & E6 & E7 & Hb1 & He1 & Hd1 & Hc1 & Hroom1); try done; [lia|].
    cbn [app]. rewrite (feed_turn _ _ _ _ _ _ _ _ _ Hl Ho Hturn).
    assert (Hdl : Z.of_nat (desired r2t) = R2T_DesiredDataTransferLength r2t) by (unfold desired; lia).
    assert (Ho1 : ss_objs s1 !! id = Some (set_tk_reader (Some r1) t)).
    { rewrite E1. apply list_lookup_insert_eq. by eapply lookup_lt_Some. }
    destruct (IH raws' s1 (set_tk_reader (Some r1) t) r1 (o + R2T_DesiredDataTransferLength r2t)
      (drop (desired r2t) data) k tail) as (s' & r' & b' & Hf & F1 & F2 & F3 & F4 & Hb' & Hd' & Hc' & Hroom');
      rewrite ?E3, ?E5; try done; rewrite ?length_drop; try lia.
    exists s', r', (b ++ b'). split; [exact Hf|].
    rewrite F1, F2, F3, F4, E1, E2, E3, E4, E6, E7, list_insert_insert_eq, sent_on_app, map_app.
    split; [done|]. split; [done|]. split; [done|]. split; [done|].
    rewrite Hb', drop_drop. split; [done|]. rewrite map_app, concat_app, Hd1, Hd', take_take_drop.
    split; [done|]. split; [|by rewrite <- sent_on_app, <- E2, <- E6, <- E7, <- F2].
    apply Forall_app. split; [done|]. eapply Forall_impl; [exact Hc'|]. intros p.
    rewrite <- Hdl. apply carries_shift. lia.
Qed.

(** ** Properties *)

(** C6.  A write completes: Submit sends one SCSI command with the W bit, the
    session's next CmdSN and the first bytes of the data as immediate data; when
    the target asks for the rest with R2Ts in order, within MaxBurstLength, the
    Data-Outs and the immediate data together are exactly the caller's data and
    every Data-Out carries the bytes that belong at its BufferOffset; and the
    target's response is delivered as the one Result, after which the ITT is
    free again. *)
Theorem write_end_to_end (s : Session) (cmd : Command) (cx cx' : CtxSched) (sn : Z) (w' : cmdWindow)
    (r : Reader) (data : bytes) (raws : list RawPDU) (rs : list R2T) (rawR : RawPDU) (resp : SCSIResponse) :
  let params := ss_params s in
  let imm := take (immLen params) data in
  ready sn w' s -> Command_ok cmd -> cmd_Data cmd = Some r -> cmd_Read cmd = false ->
  rd_bytes r = data -> rd_err r = EOF -> data <> [] -> Z.of_nat (length data) < 2 ^ 32 ->
  np_ImmediateData params = true -> np_InitialR2T params = true -> 0 < np_FirstBurstLength params ->
  0 < np_MaxRecvDataSegmentLength params < 2 ^ 24 -> u32 (np_MaxBurstLength params) ->
  (cx_done cx' && cx_pick cx') = false ->
  carry_r2ts raws rs -> r2t_sequence (np_MaxBurstLength params) (Z.of_nat (length imm)) rs ->
  (desired_total rs = length data - length imm)%nat ->
  DecodeBHS (raw_BHS rawR) = Ok (PSCSIResponse resp) ->
  room (S (pieces_total (Z.to_nat (np_MaxRecvDataSegmentLength params)) rs)) (ss_writeCh s) ->
  exists id ch s1 s2 command bhs douts t,
    Submit cx cx' cmd s = Done (Ok id, s1) /\ ss_loops s1 = ss_loops s ++ [(id, ch)] /\
    command = stampDigests (ss_digestHeader s) (ss_digestData s) (newRawPDU bhs imm) /\
    DecodeBHS bhs = Ok (PSCSICommand (SCSICommand_wire
      (command_request (set_Write true cmd) (next_itt s) sn (ss_expStatSN s) imm))) /\
    feed (next_itt s) id ch (raws ++ [rawR]) s1 = Done (false, s2) /\
    ss_writeCh s2 = sent_on (command :: map (raw_dataOut (ss_digestHeader s) (ss_digestData s)) douts) (ss_writeCh s) /\
    imm ++ concat (map DataOut_Data douts) = data /\ Forall (carries 0 data) douts /\
    ss_objs s2 !! id = Some t /\
    ch_buf (tk_resultCh t) = [mkResult (SCSIResponse_Status resp) (responseSense (raw_DataSegment rawR)) None
      (SCSIResponse_Overflow resp) (SCSIResponse_Underflow resp) (SCSIResponse_ResidualCount resp) None] /\
    ss_tasks s2 = delete (next_itt s) (ss_tasks s) /\ rt_pending (ss_router s2) !! next_itt s = None.
Proof.
  intros params imm Hready Hok Hdata Hread Hb Herr Hne Hlen HID HR2T HFB Hm Hmb Hcx Hraws Hseq Htot Hdec Hroom.
  set (L := immLen params) in *. set (k := pieces_total _ rs) in Hroom.
  assert (HL : (0 < L)%nat) by (unfold L, immLen; lia).
  assert (Himm : (length imm <= length data)%nat /\ Z.of_nat (length imm) < 2 ^ 24 /\ length imm = Nat.min L (length data)).
  { unfold imm. rewrite length_take. fold L. split; [lia|]. split; [|lia]. unfold L, immLen. lia. }
  destruct Himm as (Hil & Hi24 & Himin).
  assert (Hbd : bool_decide (is_Some (cmd_Data cmd)) = true) by (rewrite Hdata; done).
  assert (Hr0 : tk_reader (submit_task 0 cmd sn s) = Some r).
  { unfold submit_task. rewrite Hbd. simpl. exact Hdata. }
  destruct (readImmediate_ok (submit_task 0 cmd sn s) w' s r) as (r1 & Hb1 & He1 & Hri);
    [exact HL|by rewrite Hb|done|done|].
  fold params L in Hb1, Hri. rewrite Hb in Hri, Hb1. fold imm in Hri.
  set (t1 := with_immediate _ r1 _) in Hri.
  destruct (submit_ok 0 cx cx' cmd sn w' s imm t1 k Hready Hok Hcx Hroom Hi24) as (bhs & Hsub & Hd & _); [done| |].
  { rewrite Hbd. fold params. rewrite HID. exact Hri. }
  unfold submitted_command in Hd. rewrite Hbd in Hd. set (command := stampDigests _ _ _) in Hsub. set (s1 := submitted t1 w' [command] s) in *.
  assert (Ho : ss_objs s1 !! length (ss_objs s) = Some t1).
  { change (ss_objs s1) with (ss_objs s ++ [t1]). by rewrite lookup_app_r, Nat.sub_diag by lia. }
  assert (Hl : listening (next_itt s) (next_ch s) (ss_router s1)).
  { apply submitted_listening. by destruct Hready as (_ & _ & _ & _ & _ & _ & ?). }
  destruct (send_sent_on command k _ Hroom) as [_ Hroom1].
  assert (Hdrop : drop L data = drop (length imm) data).
  { rewrite Himin. destruct (decide (L <= length data)%nat); [f_equal; lia|]. by rewrite !drop_ge by lia. }
  destruct (feed_r2ts (next_itt s) (length (ss_objs s)) (next_ch s) raws rs s1 t1 r1 (Z.of_nat (length imm))
    (drop (length imm) data) 0 [rawR]) as (s2 & r2 & douts & Hf & F1 & F2 & F3 & F4 & _ & Hdd & Hcc & _); try done;
    rewrite ?length_drop, ?Nat.add_0_r; try done; try lia; [by rewrite Hb1|].
  assert (Ho2 : ss_objs s2 !! length (ss_objs s) = Some (set_tk_reader (Some r2) t1)).
  { rewrite F1. apply list_lookup_insert_eq. by eapply lookup_lt_Some. }
  assert (Ht1 : tk_isRead t1 = false /\ tk_streaming t1 = false /\ tk_resultCh t1 = make_chan 1 /\ tk_itt t1 = next_itt s).
  { subst t1. unfold submit_task. rewrite Hbd. simpl. by rewrite Hread. }
  destruct Ht1 as (T1 & T2 & T3 & T4).
  destruct (response_turn (length (ss_objs s)) s2 (set_tk_reader (Some r2) t1) rawR resp Ho2 Hdec (or_introl T1) T2 T3)
    as (s3 & t3 & Hturn & G1 & G2 & G3 & G4 & G5 & _).
  assert (Hl2 : listening (next_itt s) (next_ch s) (ss_router s2)) by by rewrite F3.
  pose proof (feed_turn _ _ _ _ [] _ _ _ _ Hl2 Ho2 Hturn) as Hlast.
  exists (length (ss_objs s)), (next_ch s), s1, s3, command, bhs, douts, t3.
  split; [exact Hsub|]. split; [done|]. split; [done|]. split; [exact Hd|]. split; [by rewrite Hf, Hlast|].
  split; [rewrite G3, F2; exact (sent_on_app [command] _ (ss_writeCh s))|].
  split.
  { rewrite Hdd, Htot, (take_ge (drop _ _)) by (rewrite length_drop; lia).
    rewrite <- Hdrop. apply take_drop. }
  split; [eapply Forall_impl; [exact Hcc|]; intros p; by apply (carries_shift 0 (length imm) p data)|].
  split; [rewrite G1; apply list_lookup_insert_eq; by eapply lookup_lt_Some|]. split; [exact G2|].
  rewrite G4, G5, F3, F4. cbn [set_tk_reader tk_itt]. rewrite T4. split; [|apply lookup_delete_eq].
  change (ss_tasks s1) with (<[next_itt s := length (ss_objs s)]> (ss_tasks s)). apply delete_insert_eq.
Qed.

Definition marshalled (r : res bytes) : bytes := match r with Ok bhs => bhs | Err _ => [] end.

Definition test_params : NegotiatedParams := set_MaxRecvDataSegmentLength 4 Defaults.
Definition test_write (data : bytes) : Command :=
  mkCommand (0x2a :: zeros 15) false false (Z.of_nat (length data)) 3 0 (Some (NewReader data)).
Definition test_r2t : R2T := mkR2T (mkHeader false OpR2T true 0 0 (zeros 8) 0) 5 1 2 9 0 4 6.
Definition test_response : SCSIResponse :=
  mkSCSIResponse (mkHeader false OpSCSIResponse true 0 0 (zeros 8) 0) false false false false 0 0 0 1 2 9 0 0 0 [].

Lemma write_end_to_end_witness :
  let s := NewSession test_params false false defaultConfig in
  let cx := mkCtxSched false false in
  let data := [1; 2; 3; 4; 5; 6; 7; 8; 9; 10] in
  let raws := [newRawPDU (marshalled (R2T_MarshalBHS test_r2t)) [];
               newRawPDU (marshalled (SCSIResponse_MarshalBHS test_response)) []] in
  exists s1 s2 douts t,
    Submit cx cx (test_write data) s = Done (Ok 0%nat, s1) /\ feed 0 0 0 raws s1 = Done (false, s2) /\
    [1; 2; 3; 4] ++ concat (map DataOut_Data douts) = data /\ Forall (carries 0 data) douts /\
    ss_objs s2 !! 0%nat = Some t /\ length (ch_buf (tk_resultCh t)) = 1%nat.
Proof.
  intros s cx data raws.
  destruct (write_end_to_end s (test_write data) cx cx 1 (mkCmdWindow 2 1 1 false) (NewReader data) data
    [newRawPDU (marshalled (R2T_MarshalBHS test_r2t)) []] [test_r2t]
    (newRawPDU (marshalled (SCSIResponse_MarshalBHS test_response)) []) (SCSIResponse_wire test_response))
    as (id & ch & s1 & s2 & cmd & bhs & douts & t & H1 & H2 & _ & _ & H3 & _ & H4 & H5 & H6 & H7 & _).
  all: try reflexivity; try discriminate; try (unfold in_width; simpl; lia).
  - unfold ready. repeat (split; [vm_compute; done|]). vm_compute. lia.
  - unfold Command_ok. repeat (split; [vm_compute; done|]). apply (bool_decide_unpack _). by vm_compute.
  - constructor; [by vm_compute|constructor].
  - split; [reflexivity|]. apply Nat.leb_le. reflexivity.
  - assert (id = 0%nat /\ ch = 0%nat) as [-> ->].
    { assert (Hloops : ss_loops s1 = [(0, 0)]%nat).
      { assert (H1' := H1). vm_compute in H1'. injection H1' as _ <-. reflexivity. }
      rewrite Hloops in H2. injection H2 as -> ->. done. }
    exists s1, s2, douts, t. split; [exact H1|]. split; [exact H3|]. split; [exact H4|]. split; [exact H5|].
    split; [exact H6|]. by rewrite H7.
Defined.
