(* ===== verification/Hazards.v ===== *)
(** What a session does at the edges of the protocol: overtaken and repeated
    Data-In PDUs, Data-In and R2T for the wrong kind of task, status numbers,
    failed submissions, retries and aborts
    ([src/internal/session/session.go], [datain.go], [tmf.go]). *)
From S2P Require Import Prelude Errors Bhs PduTactics PduInitiator PduTarget Pdu GoIO Digest Framer.
From S2P Require Import Chan Serial Router Negotiation CmdWindow Config Types Task Reassembly DataOut Session.
From S2P Require Import Unsolicited Lifecycle TaskLoop Write.
#[local] Open Scope string_scope.
#[local] Open Scope list_scope.
#[local] Open Scope Z_scope.

(** ** Lemmas *)

Lemma handleDataIn_gap din s : 1 <= tk_erl (ts_task s) -> DataIn_DataSN din <> tk_nextDataSN (ts_task s) ->
  room 1 (ts_writeCh s) -> exists s',
  handleDataIn din s = Done ((), s') /\
  tk_resultCh (ts_task s') = tk_resultCh (ts_task s) /\ tk_done (ts_task s') = tk_done (ts_task s) /\
  tk_itt (ts_task s') = tk_itt (ts_task s) /\
  pending_of (ts_task s') !! DataIn_DataSN din = Some din.
Proof.
  intros He Hsn Hr. unfold handleDataIn. rewrite (SM_bind_Done _ _ s (ts_task s) s) by done.
  assert (Ht : exists t1, SM_when ((tk_erl (ts_task s) >=? 1) && tk_snackTimeout (ts_task s)) resetSnackTimer s
    = Done ((), mkTS t1 (ts_writeCh s) (ts_expStatSN s)) /\ tk_resultCh t1 = tk_resultCh (ts_task s) /\
      tk_done t1 = tk_done (ts_task s) /\ tk_itt t1 = tk_itt (ts_task s) /\ tk_erl t1 = tk_erl (ts_task s)).
  { unfold SM_when. destruct (_ && _); [by eexists|]. exists (ts_task s). split; [by destruct s|done]. }
  destruct Ht as (t1 & Ht & E1 & E2 & E3 & E4). rewrite (SM_bind_Done _ _ _ _ _ Ht).
  rewrite (proj2 (Z.eqb_neq _ _) Hsn). cbn [negb].
  set (s1 := mkTS t1 (ts_writeCh s) (ts_expStatSN s)). unfold handleGap.
  rewrite (SM_bind_Done _ _ s1 t1 s1) by done. rewrite E4, (proj2 (Z.geb_le _ _)) by lia.
  set (sn := mkSnackState _ _ _).
  set (s2 := mkTS (set_tk_snack (Some sn) t1) (ts_writeCh s) (ts_expStatSN s)).
  rewrite (SM_bind_Done _ _ s1 () s2) by done. rewrite (SM_bind_Done _ _ s2 (ts_expStatSN s) s2) by done.
  destruct (sendSNACK_ok SNACKTypeDataR2T (tk_nextDataSN t1) (uint32 (DataIn_DataSN din - tk_nextDataSN t1))
    (ts_expStatSN s) s2 Hr) as (c' & Hs & _).
  rewrite (SM_bind_Done _ _ _ _ _ Hs). eexists. split; [reflexivity|].
  split; [done|]. split; [done|]. split; [done|]. unfold pending_of. simpl. apply lookup_insert_eq.
Qed.

Lemma SM_bind_Panics {S A B} (m : SM S A) (f : A -> SM S B) s : m s = Panics -> (m ≫= f) s = Panics.
Proof. unfold mbind, SM_bind. by intros ->. Qed.

Lemma appendData_panics data s : tk_streaming (ts_task s) = false -> tk_buf (ts_task s) = None ->
  appendData data s = Panics.
Proof.
  intros H1 H2. unfold appendData. rewrite (SM_bind_Done _ _ s (ts_task s) s) by done. by rewrite H1, H2.
Qed.

(** ** Properties *)

(** C39.  With error recovery, a final Data-In that overtakes an earlier one loses
    the command: the PDU is put aside and the missing one asked for, but the task
    loop ends because the PDU carries status, and the ITT is given up.  No result
    is ever delivered, and the PDU sent again finds no task. *)
Theorem final_overtaken_is_lost (s : Session) (id : nat) (t : task) (raw : RawPDU) (din : DataIn) :
  ss_objs s !! id = Some t -> DecodeBHS (raw_BHS raw) = Ok (PDataIn din) -> DataIn_HasStatus din = true ->
  1 <= tk_erl t -> DataIn_DataSN din <> tk_nextDataSN t -> room 1 (ss_writeCh s) ->
  exists s' t', taskLoop_PDU id raw s = Done (false, s') /\ ss_objs s' !! id = Some t' /\
    tk_resultCh t' = tk_resultCh t /\ tk_done t' = tk_done t /\
    pending_of t' !! DataIn_DataSN din = Some (DataIn_with_Data (raw_DataSegment raw) din) /\
    ss_tasks s' = delete (tk_itt t) (ss_tasks s) /\
    (forall raw', Dispatch (tk_itt t) raw' (ss_router s') = Done (false, ss_router s')).
Proof.
  intros Ho Hdec Hst He Hsn Hr. unfold taskLoop_PDU.
  rewrite (SM_bind_Done _ _ _ _ _ (task_at_Done id s t Ho)), Hdec.
  rewrite (SM_bind_Done _ _ _ _ _ (window_update_Done _ _ s)). set (s1 := set_window _ s).
  set (p := DataIn_with_Data (raw_DataSegment raw) din).
  change (DataIn_HasStatus p) with (DataIn_HasStatus din). rewrite Hst. cbn [SM_when].
  rewrite (SM_bind_Done _ _ _ _ _ (updateStatSN_Done (DataIn_StatSN p) s1)). set (s2 := set_expStatSN _ s1).
  destruct (handleDataIn_gap p (mkTS t (ss_writeCh s2) (ss_expStatSN s2)) He Hsn Hr)
    as (ts & Hrun & E1 & E2 & E3 & E4). cbn [ts_task] in E1, E2, E3.
  rewrite (SM_bind_Done _ _ _ _ _ (on_task_Done id _ s2 t () ts Ho Hrun)). set (s3 := set_writeCh _ _).
  destruct (cleanupTask_Done (tk_itt t) s3) as (s4 & Hcl & F1 & F2 & F3 & _).
  rewrite (SM_bind_Done _ _ _ _ _ Hcl). exists s4, (ts_task ts). split; [done|].
  split; [rewrite F3; subst s3; cbn; apply list_lookup_insert_eq; by eapply lookup_lt_Some|].
  split; [done|]. split; [done|]. split; [done|]. split; [by rewrite F1|].
  intros raw'. rewrite F2. unfold Dispatch, dispatchLookup, Unregister. simpl. by rewrite lookup_delete_eq.
Qed.

(** A session whose table holds the one task [t] *)
Definition with_task (t : task) (s : Session) : Session :=
  set_objs [t] (set_tasks {[ tk_itt t := 0%nat ]} s).

Lemma final_overtaken_is_lost_witness :
  let s := with_task (fresh_read 1 true 0) test_session in
  let din := mkDataIn (mkHeader false OpDataIn true 0 1 (zeros 8) 0) false false false true 0 0xFFFFFFFF
               1 2 9 1 4 0 [] in
  let raw := newRawPDU (match DataIn_MarshalBHS din with Ok bhs => bhs | Err _ => [] end) [5] in
  exists s' t', taskLoop_PDU 0 raw s = Done (false, s') /\ ss_objs s' !! 0%nat = Some t' /\
    ch_buf (tk_resultCh t') = [] /\ ss_tasks s' = ∅.
Proof.
  intros s din raw.
  destruct (final_overtaken_is_lost s 0 (fresh_read 1 true 0) raw din) as (s' & t' & H1 & H2 & H3 & _ & _ & H4 & _).
  all: try reflexivity; try discriminate.
  - split; [reflexivity|]. apply Nat.leb_le. reflexivity.
  - exists s', t'. split; [exact H1|]. split; [exact H2|]. rewrite H3. split; [reflexivity|].
    rewrite H4. reflexivity.
Defined.

(** Without error recovery a Data-In out of sequence fails the command, but the
    task stays: every further one is another result. *)
Lemma handleDataIn_gap_erl0 din s : tk_erl (ts_task s) = 0 -> tk_streaming (ts_task s) = false ->
  DataIn_DataSN din <> tk_nextDataSN (ts_task s) ->
  handleDataIn din s = sendResult (errResult (errDataSNGap (tk_itt (ts_task s)) (DataIn_DataSN din)
    (tk_nextDataSN (ts_task s)))) s.
Proof.
  intros He Hst Hsn. unfold handleDataIn. rewrite (SM_bind_Done _ _ s (ts_task s) s) by done.
  rewrite He. cbn [Z.geb Z.compare andb SM_when]. rewrite (SM_bind_Done _ _ s () s) by done.
  rewrite (proj2 (Z.eqb_neq _ _) Hsn). cbn [negb]. unfold handleGap.
  rewrite (SM_bind_Done _ _ s (ts_task s) s) by done. rewrite He. cbn [Z.geb Z.compare].
  unfold closeReaderWithError, upd_task, SM_put, mbind, SM_bind. rewrite Hst. by destruct s as [[] ? ?].
Qed.

(** Without error recovery (ERL 0), each Data-In without status that is out
    of sequence sends an error result and the task goes on, so a caller that was
    promised one result gets another for the next such PDU; and when a result is
    still waiting the task loop blocks on it for good, with the PDUs queued for
    it. *)
Theorem gap_without_recovery (s : Session) (id : nat) (t : task) (raw : RawPDU) (din : DataIn) :
  ss_objs s !! id = Some t -> DecodeBHS (raw_BHS raw) = Ok (PDataIn din) -> DataIn_HasStatus din = false ->
  tk_erl t = 0 -> tk_streaming t = false -> DataIn_DataSN din <> tk_nextDataSN t ->
  ch_closed (tk_resultCh t) = false -> ch_cap (tk_resultCh t) = 1%nat ->
  (ch_buf (tk_resultCh t) = [] -> exists s' t', taskLoop_PDU id raw s = Done (true, s') /\
     ss_objs s' !! id = Some t' /\ ss_tasks s' = ss_tasks s /\
     ch_buf (tk_resultCh t') = [errResult (errDataSNGap (tk_itt t) (DataIn_DataSN din) (tk_nextDataSN t))]) /\
  (ch_buf (tk_resultCh t) <> [] -> taskLoop_PDU id raw s = Blocks).
Proof.
  intros Ho Hdec Hst He Hstream Hsn Hop Hcap.
  set (p := DataIn_with_Data (raw_DataSegment raw) din).
  set (s1 := set_window (update (DataIn_ExpCmdSN p) (DataIn_MaxCmdSN p) (ss_window s)).1 s).
  assert (Hrun : taskLoop_PDU id raw s = (_ ← on_task id (handleDataIn p); mret true) s1).
  { unfold taskLoop_PDU. rewrite (SM_bind_Done _ _ _ _ _ (task_at_Done id s t Ho)), Hdec. fold p.
    rewrite (SM_bind_Done _ _ _ _ _ (window_update_Done _ _ s)). fold s1.
    change (DataIn_HasStatus p) with (DataIn_HasStatus din). rewrite Hst. cbn [SM_when].
    by rewrite (SM_bind_Done _ _ s1 () s1). }
  rewrite Hrun. set (ts := mkTS t (ss_writeCh s1) (ss_expStatSN s1)).
  pose proof (handleDataIn_gap_erl0 p ts He Hstream Hsn) as Hh. cbn [ts_task] in Hh.
  split; intros Hbuf.
  - assert (Hsend : handleDataIn p ts = Done ((), mkTS (set_tk_resultCh (mkChan [errResult (errDataSNGap (tk_itt t)
      (DataIn_DataSN din) (tk_nextDataSN t))] 1 false) t) (ss_writeCh s1) (ss_expStatSN s1))).
    { rewrite Hh. unfold sendResult, SM_chan, send. change (ts_task ts) with t. rewrite Hop, Hbuf, Hcap. done. }
    assert (Ho1 : ss_objs s1 !! id = Some t) by done.
    rewrite (SM_bind_Done _ _ _ _ _ (on_task_Done id _ s1 t () _ Ho1 Hsend)). eexists _, _.
    split; [reflexivity|]. split; [apply list_lookup_insert_eq; by eapply lookup_lt_Some|]. done.
  - assert (Hsend : handleDataIn p ts = Blocks).
    { rewrite Hh. unfold sendResult, SM_chan, send. change (ts_task ts) with t. rewrite Hop, Hcap.
      destruct (ch_buf (tk_resultCh t)); [done|]. simpl. done. }
    unfold mbind, SM_bind, on_task. change (ss_objs s1) with (ss_objs s). rewrite Ho. fold ts. by rewrite Hsend.
Qed.

Lemma gap_without_recovery_witness :
  let t := fresh_read 0 true 0 in
  let s := with_task t test_session in
  let din := mkDataIn (mkHeader false OpDataIn false 0 1 (zeros 8) 0) false false false false 0 0xFFFFFFFF
               1 2 9 1 4 0 [] in
  let raw := newRawPDU (match DataIn_MarshalBHS din with Ok bhs => bhs | Err _ => [] end) [5] in
  exists s' t', taskLoop_PDU 0 raw s = Done (true, s') /\ ss_objs s' !! 0%nat = Some t' /\
    length (ch_buf (tk_resultCh t')) = 1%nat.
Proof.
  intros t s din raw.
  destruct (gap_without_recovery s 0 t raw din) as [H _]; try reflexivity; try discriminate.
  destruct (H eq_refl) as (s' & t' & H1 & H2 & _ & H3). exists s', t'.
  split; [exact H1|]. split; [exact H2|]. by rewrite H3.
Defined.

(** ** Data for the wrong direction *)

(** A target can crash the process: Data-In with data for a command that
    reads nothing, and an R2T for a command that writes nothing, are nil
    dereferences in the task loop, at any error recovery level. *)
Theorem wrong_direction_panics (s : Session) (id : nat) (t : task) (raw : RawPDU) :
  ss_objs s !! id = Some t ->
  (forall din, DecodeBHS (raw_BHS raw) = Ok (PDataIn din) -> raw_DataSegment raw <> [] ->
     tk_isRead t = false -> tk_streaming t = false -> tk_buf t = None ->
     DataIn_DataSN din = tk_nextDataSN t -> DataIn_BufferOffset din = tk_nextOffset t ->
     taskLoop_PDU id raw s = Panics) /\
  (forall r2t, DecodeBHS (raw_BHS raw) = Ok (PR2T r2t) -> tk_reader t = None ->
     0 < R2T_DesiredDataTransferLength r2t < 2 ^ 32 -> 0 < np_MaxBurstLength (ss_params s) ->
     0 < np_MaxRecvDataSegmentLength (ss_params s) -> taskLoop_PDU id raw s = Panics).
Proof.
  intros Ho. split.
  - intros din Hdec Hne Hr Hst Hb Hsn Hoff. unfold taskLoop_PDU.
    rewrite (SM_bind_Done _ _ _ _ _ (task_at_Done id s t Ho)), Hdec.
    rewrite (SM_bind_Done _ _ _ _ _ (window_update_Done _ _ s)).
    set (p := DataIn_with_Data (raw_DataSegment raw) din). set (s1 := set_window _ s).
    assert (Hs : exists s2, SM_when (DataIn_HasStatus p) (updateStatSN (DataIn_StatSN p)) s1 = Done ((), s2) /\
      ss_objs s2 = ss_objs s).
    { unfold SM_when. destruct (DataIn_HasStatus p); [rewrite updateStatSN_Done|]; by eexists. }
    destruct Hs as (s2 & Hs & Hobj). rewrite (SM_bind_Done _ _ _ _ _ Hs).
    assert (Hp : forall ts, ts_task ts = t -> handleDataIn p ts = Panics); [|unfold mbind, SM_bind, on_task].
    { intros ts Hts. unfold handleDataIn. rewrite (SM_bind_Done _ _ ts t ts) by (unfold get_task, SM_get; by rewrite Hts).
      assert (Ht : exists ts1, SM_when ((tk_erl t >=? 1) && tk_snackTimeout t) resetSnackTimer ts = Done ((), ts1) /\
        tk_streaming (ts_task ts1) = false /\ tk_buf (ts_task ts1) = None).
      { unfold SM_when. destruct (_ && _); [|by exists ts; rewrite Hts].
        eexists. split; [reflexivity|]. simpl. by rewrite Hts. }
      destruct Ht as (ts1 & Ht & E1 & E2). rewrite (SM_bind_Done _ _ _ _ _ Ht).
      change (DataIn_DataSN p) with (DataIn_DataSN din). change (DataIn_BufferOffset p) with (DataIn_BufferOffset din).
      rewrite Hsn, Hoff, !Z.eqb_refl. cbn [negb]. unfold acceptDataIn. change (DataIn_Data p) with (raw_DataSegment raw).
      rewrite bool_decide_false by done. cbn [negb SM_when].
      do 2 apply SM_bind_Panics. by apply appendData_panics. }
    rewrite Hobj, Ho. by rewrite Hp.
  - intros r2t Hdec Hnone Hdes Hmb Hm. unfold taskLoop_PDU.
    rewrite (SM_bind_Done _ _ _ _ _ (task_at_Done id s t Ho)), Hdec.
    rewrite (SM_bind_Done _ _ _ _ _ (window_update_Done _ _ s)). set (s1 := set_window _ s).
    rewrite (SM_bind_Done _ _ _ _ _ (updateStatSN_Done _ s1)). set (s2 := set_expStatSN _ s1).
    rewrite (SM_bind_Done _ _ s2 (ss_digestHeader s) s2), (SM_bind_Done _ _ s2 (ss_digestData s) s2),
      (SM_bind_Done _ _ s2 (ss_params s) s2) by done.
    unfold mbind, SM_bind, on_task. change (ss_objs s2) with (ss_objs s). rewrite Ho.
    unfold handleR2T, sendDataOutBurst, mbind, SM_bind, get_task, SM_get. cbn [ts_task]. rewrite Hnone.
    cbn [burst_loop]. set (L := Z.min _ _). rewrite (proj2 (Z.ltb_lt 0 L)) by (unfold L; lia).
    unfold readData, mbind, SM_bind, get_task, SM_get. cbn [ts_task]. rewrite Hnone.
    rewrite wrap_id by (unfold L, in_width; lia).
    destruct (Z.to_nat _) eqn:E; [unfold L in E; lia|done].
Qed.

Lemma wrong_direction_panics_witness :
  let t := set_tk_reader None (newTask 0 false false 0) in
  let s := with_task t test_session in
  let din := mkDataIn (mkHeader false OpDataIn false 0 1 (zeros 8) 0) false false false false 0 0xFFFFFFFF
               1 2 9 0 0 0 [] in
  taskLoop_PDU 0 (newRawPDU (match DataIn_MarshalBHS din with Ok bhs => bhs | Err _ => [] end) [5]) s = Panics.
Proof.
  intros t s din.
  destruct (wrong_direction_panics s 0 t
    (newRawPDU (match DataIn_MarshalBHS din with Ok bhs => bhs | Err _ => [] end) [5]) eq_refl) as [H _].
  apply (H (DataIn_wire din)); done.
Defined.

(** ** Status numbers *)

Lemma next_expStatSN_same e : u32 e -> next_expStatSN e e = Incr e.
Proof.
  intros He. unfold next_expStatSN.
  assert (GreaterThan (Incr e) e = true) as ->; [|done].
  apply GreaterThan_dist; [apply Incr_width|done|]. unfold dist, Incr, wrap in *.
  rewrite Zminus_mod_idemp_l. replace (e + 1 - e) with 1 by lia. by vm_compute.
Qed.

Lemma on_task_expStatSN {A} id (m : TM A) s a s' : on_task id m s = Done (a, s') -> ss_expStatSN s' = ss_expStatSN s.
Proof.
  unfold on_task. destruct (ss_objs s !! id); [|done]. destruct (m _) as [[a' ts]| |]; [|done..].
  by intros [= _ <-].
Qed.

Lemma cancel_and_cleanup_expStatSN id err s s' : cancel_and_cleanup id err s = Done ((), s') ->
  ss_expStatSN s' = ss_expStatSN s.
Proof.
  unfold cancel_and_cleanup, task_at. rewrite SM_bind_inv. intros ([] & s1 & H1 & H).
  apply SM_bind_inv in H as (t & s2 & H2 & H). apply on_task_expStatSN in H1, H2.
  destruct (cleanupTask_Done (tk_itt t) s2) as (s3 & Hc & _ & _ & _ & _ & E & _). rewrite Hc in H.
  injection H as <-. congruence.
Qed.

(** Status that was never sent is acknowledged: an R2T and an unsolicited
    NOP-In carry the next StatSN without using it, but both move ExpStatSN past
    it, so that the next request tells the target that the status with that
    number has arrived. *)
Theorem unsent_status_acknowledged (s : Session) :
  u32 (ss_expStatSN s) ->
  (forall raw s', NOPIn_StatSN (NOPIn_UnmarshalBHS (raw_BHS raw)) = ss_expStatSN s ->
     handleUnsolicitedNOPIn raw s = Done ((), s') -> ss_expStatSN s' = Incr (ss_expStatSN s)) /\
  (forall id raw r2t b s', DecodeBHS (raw_BHS raw) = Ok (PR2T r2t) -> R2T_StatSN r2t = ss_expStatSN s ->
     taskLoop_PDU id raw s = Done (b, s') -> ss_expStatSN s' = Incr (ss_expStatSN s)).
Proof.
  intros He. split.
  - intros raw s' Hsn. unfold handleUnsolicitedNOPIn.
    rewrite (SM_bind_Done _ _ _ _ _ (window_update_Done _ _ s)). set (s1 := set_window _ s).
    rewrite (SM_bind_Done _ _ _ _ _ (updateStatSN_Done _ s1)). change (ss_expStatSN s1) with (ss_expStatSN s).
    rewrite Hsn, next_expStatSN_same by done. set (s2 := set_expStatSN _ s1).
    destruct (_ =? 0xFFFFFFFF); [by intros [= <-]|].
    rewrite (SM_bind_Done _ _ s2 (current (ss_window s2)) s2), (SM_bind_Done _ _ s2 (ss_expStatSN s2) s2) by done.
    destruct (NOPOut_MarshalBHS _); [|by intros [= <-]].
    rewrite SM_bind_inv. intros (resp & s3 & [= _ <-] & H). apply SM_bind_inv in H as (b & s4 & Hsend & [= <-]). clear He.
    unfold try_send in Hsend. destruct (send _ _); [by injection Hsend as _ <-..|done].
  - intros id raw r2t b s' Hdec Hsn. unfold taskLoop_PDU, task_at. rewrite SM_bind_inv.
    intros (t & s0 & H0 & H). apply on_task_expStatSN in H0. rewrite Hdec in H. revert H.
    rewrite (SM_bind_Done _ _ _ _ _ (window_update_Done _ _ s0)). set (s1 := set_window _ s0).
    rewrite (SM_bind_Done _ _ _ _ _ (updateStatSN_Done _ s1)). change (ss_expStatSN s1) with (ss_expStatSN s0).
    rewrite H0, Hsn, next_expStatSN_same by done. set (s2 := set_expStatSN _ s1).
    rewrite (SM_bind_Done _ _ s2 (ss_digestHeader s0) s2), (SM_bind_Done _ _ s2 (ss_digestData s0) s2),
      (SM_bind_Done _ _ s2 (ss_params s0) s2) by done.
    rewrite SM_bind_inv. intros (err & s3 & H3 & H). apply on_task_expStatSN in H3.
    destruct err; [|by injection H as _ <-].
    apply SM_bind_inv in H as ([] & s4 & H4 & [= _ <-]). apply cancel_and_cleanup_expStatSN in H4. by rewrite H4, H3.
Qed.

Lemma unsent_status_acknowledged_witness :
  let nop := mkNOPIn (mkHeader false OpNOPIn true 0 0 (zeros 8) 0xFFFFFFFF) 0xFFFFFFFF 0 1 9 [] in
  let raw := newRawPDU (match NOPIn_MarshalBHS nop with Ok bhs => bhs | Err _ => [] end) [] in
  exists s', handleUnsolicitedNOPIn raw test_session = Done ((), s') /\ ss_expStatSN s' = 1.
Proof.
  intros nop raw.
  destruct (unsent_status_acknowledged test_session) as [H _]; [by vm_compute|].
  eexists. split; [reflexivity|]. by apply (H raw).
Defined.

(** ** Aborts *)

(** Aborting the last task leaves a Drain waiting: after a completed ABORT
    TASK the task has its ErrTaskAborted result and is gone from the table, but
    unlike a task that completes it does not release the Drain, which can then
    only end with its context. *)
Theorem abort_leaves_drain_waiting (s : Session) (itt : Z) (id : nat) (t : task) (r : TMFResult) :
  ss_tasks s = {[ itt := id ]} -> ss_objs s !! id = Some t -> tk_streaming t = false ->
  tk_resultCh t = make_chan 1 -> tmf_Response r = TMFRespComplete ->
  ss_draining s = true -> ss_drainDone s = true -> ss_drained s = false ->
  (exists s' t', after_TMF (cleanupAbortedTask itt) (Ok r) s = Done (Ok r, s') /\
     ss_tasks s' = ∅ /\ ss_objs s' !! id = Some t' /\ ch_buf (tk_resultCh t') = [errResult ErrTaskAborted] /\
     tk_done t' = true /\ rt_pending (ss_router s') !! itt = None /\
     Drain_wait false s' = Blocks /\ exists s'', Drain_wait true s' = Done (Some ErrCtx, s'')) /\
  (exists s', cleanupTask itt s = Done ((), s') /\ Drain_wait false s' = Done (None, s')).
Proof.
  intros Htasks Ho Hst Hch Hresp Hdr Hdd Hdn. split.
  - unfold after_TMF. rewrite Hresp. cbn [TMFRespComplete Z.eqb SM_when].
    set (s1 := set_router (Unregister itt (ss_router s)) s).
    set (s2 := set_tasks ∅ s1).
    set (t' := set_tk_done true (set_tk_resultCh (mkChan [errResult ErrTaskAborted] 1 false) t)).
    set (s3 := set_writeCh (ss_writeCh s) (set_objs (<[id := t']> (ss_objs s)) s2)).
    assert (Hc : cancel ErrTaskAborted (mkTS t (ss_writeCh s) (ss_expStatSN s))
                 = Done ((), mkTS t' (ss_writeCh s) (ss_expStatSN s))).
    { unfold cancel, closeReaderWithError, upd_task, SM_put, mbind, SM_bind. cbn [ts_task]. rewrite Hst.
      cbn [ts_task ts_writeCh ts_expStatSN]. by rewrite Hch. }
    assert (Hclean : cleanupAbortedTask itt s = Done ((), s3)).
    { unfold cleanupAbortedTask. rewrite (SM_bind_Done _ _ s () s1), (SM_bind_Done _ _ s1 (ss_tasks s) s1) by done.
      rewrite Htasks, lookup_singleton_eq.
      assert (Hd : delete_task itt s1 = Done ((), s2)).
      { unfold delete_task, upd, SM_put, s2. change (ss_tasks s1) with (ss_tasks s).
        by rewrite Htasks, delete_singleton_eq. }
      rewrite (SM_bind_Done _ _ _ _ _ Hd). by apply (on_task_Done id _ s2 t () _ Ho Hc). }
    rewrite (SM_bind_Done _ _ _ _ _ Hclean). exists s3, t'. split; [done|]. split; [done|].
    split; [apply list_lookup_insert_eq; by eapply lookup_lt_Some|]. split; [done|]. split; [done|].
    split; [apply lookup_delete_eq|]. unfold Drain_wait.
    rewrite !(SM_bind_Done _ _ s3 false s3) by (unfold SM_get; do 2 f_equal; exact Hdn). split; [done|]. by eexists.
  - unfold cleanupTask. set (s1 := set_tasks (delete itt (ss_tasks s)) (set_router (Unregister itt (ss_router s)) s)).
    exists (set_drainDone false (set_drained true s1)). split; [|done].
    unfold router_Unregister, delete_task, upd, SM_put, mbind, SM_bind. cbv beta iota.
    change (set_tasks _ _) with s1. rewrite bool_decide_true; [|by subst s1; simpl; rewrite Htasks, delete_singleton_eq].
    change (ss_draining s1) with (ss_draining s). change (ss_drainDone s1) with (ss_drainDone s). by rewrite Hdr, Hdd.
Qed.

Lemma abort_leaves_drain_waiting_witness :
  let t := fresh_read 0 true 5 in
  let s := set_drainDone true (set_draining true (with_task t test_session)) in
  exists s', after_TMF (cleanupAbortedTask 5) (Ok (mkTMFResult 0 None)) s = Done (Ok (mkTMFResult 0 None), s') /\
    ss_tasks s' = ∅ /\ Drain_wait false s' = Blocks.
Proof.
  intros t s.
  destruct (abort_leaves_drain_waiting s 5 0 t (mkTMFResult 0 None)) as [(s' & t' & H1 & H2 & _ & _ & _ & _ & H3 & _) _];
    try reflexivity.
  exists s'. split; [exact H1|]. split; [exact H2|exact H3].
Defined.

(** ** Failed submissions *)

Lemma readImmediate_empty t w' s r : (0 < immLen (ss_params s))%nat -> rd_bytes r = [] -> rd_err r = EOF ->
  tk_reader t = Some r ->
  readImmediate (ss_params s) (length (ss_objs s)) (registered t w' s)
  = Done (Err EOF, registered (set_tk_reader (Some (rd_with r [])) t) w' s).
Proof.
  intros Hpos Hb Herr Hr. unfold readImmediate. fold (immLen (ss_params s)).
  assert (HR : ReadFull (immLen (ss_params s)) r = ([], Some EOF, rd_with r [])).
  { rewrite ReadFull_short by (rewrite Hb; exact Hpos). by rewrite Herr, Hb. }
  pose proof (on_task_last _ t w' s _ _ (readData_reader _ r (mkTS t (ss_writeCh s) (ss_expStatSN s)) _ _ _ Hpos Hr HR))
    as Hread. cbn [ts_task] in Hread.
  by rewrite (SM_bind_Done _ _ _ _ _ Hread).
Qed.

(** A submission can fail after it has taken effect.  With ImmediateData, a
    write whose reader is empty fails with EOF: nothing is sent, but its CmdSN is
    used up, so the target waits for a command that never comes.  With
    InitialR2T=No, a write that fits into the immediate data but not the whole
    first burst is sent completely and then reported to the caller as failed. *)
Theorem failed_submission (s : Session) (cmd : Command) (cx cx' : CtxSched) (sn : Z) (w' : cmdWindow) (r : Reader) :
  let params := ss_params s in
  ready sn w' s -> Command_ok cmd -> cmd_Data cmd = Some r -> rd_err r = EOF ->
  np_ImmediateData params = true -> u32 (np_FirstBurstLength params) -> 0 < np_FirstBurstLength params ->
  0 < np_MaxRecvDataSegmentLength params < 2 ^ 24 ->
  (rd_bytes r = [] -> exists s', Submit cx cx' cmd s
      = Done (Err (Wrapf "session: read immediate data: %w" [] EOF), s') /\
     ss_writeCh s' = ss_writeCh s /\ ss_window s' = w' /\ ss_tasks s' = delete (next_itt s) (ss_tasks s)) /\
  (rd_bytes r <> [] -> (length (rd_bytes r) <= immLen params)%nat ->
   Z.of_nat (length (rd_bytes r)) < np_FirstBurstLength params -> np_InitialR2T params = false ->
   (cx_done cx' && cx_pick cx') = false -> room 1 (ss_writeCh s) ->
   exists s' bhs, Submit cx cx' cmd s
      = Done (Err (Wrapf "session: unsolicited data: %w" [] (Wrapf "session: read write data: %w" [] EOF)), s') /\
     ss_writeCh s' = sent_on [stampDigests (ss_digestHeader s) (ss_digestData s) (newRawPDU bhs (rd_bytes r))] (ss_writeCh s) /\
     DecodeBHS bhs = Ok (PSCSICommand (SCSICommand_wire
       (command_request (submitted_command cmd) (next_itt s) sn (ss_expStatSN s) (rd_bytes r)))) /\
     ss_tasks s' = delete (next_itt s) (ss_tasks s)).
Proof.
  intros params; subst params. intros Hready Hok Hdata Herr HID HF HF0 Hm.
  assert (Hbd : bool_decide (is_Some (cmd_Data cmd)) = true) by (rewrite Hdata; done).
  assert (Hr : tk_reader (submit_task 0 cmd sn s) = Some r) by (unfold submit_task; rewrite Hbd; exact Hdata).
  assert (HL : (0 < immLen (ss_params s))%nat) by (unfold immLen; lia).
  split.
  - intros Hb. unfold Submit. rewrite (submit_registers 0 cx cx' cmd sn w' s Hready).
    unfold submit_command. rewrite submitted_command_Data, Hbd. rewrite HID. cbn [andb].
    rewrite (SM_bind_Done _ _ _ _ _ (readImmediate_empty _ w' s r HL Hb Herr Hr)).
    eexists. split; [reflexivity|]. split; [done|]. split; [done|].
    cbn. apply delete_insert_eq.
  - intros Hne Hfit Hfirst HR2T Hcx Hroom.
    destruct (readImmediate_ok (submit_task 0 cmd sn s) w' s r HL Hne Herr Hr) as (r1 & Hb1 & He1 & Hri).
    rewrite take_ge in Hri by exact Hfit. rewrite drop_ge in Hb1 by exact Hfit.
    set (t1 := with_immediate _ r1 _) in Hri.
    assert (Hsent : tk_bytesSent t1 = Z.of_nat (length (rd_bytes r))).
    { subst t1. simpl. rewrite wrap_id by (unfold immLen, in_width in *; lia). lia. }
    set (t2 := set_tk_bytesSent (uint32 (tk_bytesSent t1 + 0)) (set_tk_reader (Some (rd_with r1 [])) t1)).
    destruct (submit_gen 0 cx cx' cmd sn w' s (rd_bytes r) t1 0 (Some (Wrapf "session: read write data: %w" [] EOF))
      (fun raw => command_sent t2 w' raw s)) as (bhs & Hsub & Hd & _); try done.
    + unfold immLen in Hfit. lia.
    + rewrite Hbd, HID. exact Hri.
    + intros bhs. rewrite Hbd, HR2T. cbn [andb negb]. set (raw := stampDigests _ _ _).
      assert (Ho : ss_objs (command_sent t1 w' raw s) !! length (ss_objs s) = Some t1).
      { change (ss_objs (command_sent t1 w' raw s)) with (ss_objs s ++ [t1]).
        by rewrite lookup_app_r, Nat.sub_diag by lia. }
      assert (Hun := sendUnsolicited_at_end (ss_digestHeader s) (ss_digestData s) (ss_params s) r1
        (mkTS t1 (ss_writeCh (command_sent t1 w' raw s)) (ss_expStatSN s))).
      cbn [ts_task] in Hun. rewrite Hsent in Hun.
      rewrite (on_task_Done _ _ (command_sent t1 w' raw s) t1 _ _ Ho (Hun HF ltac:(lia) ltac:(lia) eq_refl Hb1 He1)).
      cbn [ts_task ts_writeCh]. unfold command_sent, registered. cbn.
      rewrite insert_app_r_alt, Nat.sub_diag by lia. unfold t2. rewrite Hsent. reflexivity.
    + unfold Submit. rewrite Hsub. eexists _, bhs. split; [reflexivity|]. split; [done|]. split; [exact Hd|].
      cbn. apply delete_insert_eq.
Qed.

Lemma failed_submission_witness :
  let params := set_InitialR2T false test_params in
  let s := NewSession params false false defaultConfig in
  let cx := mkCtxSched false false in
  (exists s', Submit cx cx (test_write []) s = Done (Err (Wrapf "session: read immediate data: %w" [] EOF), s') /\
     ch_buf (ss_writeCh s') = [] /\ cw_cmdSN (ss_window s') = 2) /\
  (exists s' raw, Submit cx cx (test_write [1; 2; 3]) s
      = Done (Err (Wrapf "session: unsolicited data: %w" [] (Wrapf "session: read write data: %w" [] EOF)), s') /\
     ch_buf (ss_writeCh s') = [raw] /\ raw_DataSegment raw = [1; 2; 3] /\ ss_tasks s' = ∅).
Proof.
  intros params s cx.
  assert (Hready : ready 1 (mkCmdWindow 2 1 1 false) s).
  { unfold ready. repeat (split; [vm_compute; done|]). vm_compute. lia. }
  split.
  - destruct (failed_submission s (test_write []) cx cx 1 (mkCmdWindow 2 1 1 false) (NewReader []) Hready) as [H _].
    all: try reflexivity; try (unfold in_width; simpl; lia).
    + unfold Command_ok. repeat (split; [vm_compute; done|]). apply (bool_decide_unpack _). by vm_compute.
    + destruct (H eq_refl) as (s' & H1 & H2 & H3 & _). exists s'. by rewrite H1, H2, H3.
  - destruct (failed_submission s (test_write [1; 2; 3]) cx cx 1 (mkCmdWindow 2 1 1 false) (NewReader [1; 2; 3]) Hready)
      as [_ H].
    all: try reflexivity; try (unfold in_width; simpl; lia).
    + unfold Command_ok. repeat (split; [vm_compute; done|]). apply (bool_decide_unpack _). by vm_compute.
    + destruct H as (s' & bhs & H1 & H2 & _ & H3); try reflexivity; try discriminate.
      * apply Nat.leb_le. reflexivity.
      * split; [reflexivity|]. apply Nat.leb_le. reflexivity.
      * exists s'. eexists. split; [exact H1|]. rewrite H2, H3. by repeat split.
Defined.
