(* ===== verification/Recovery.v ===== *)
(** Connection recovery: session reinstatement (ERL 0) and connection
    replacement (ERL 2) ([src/internal/session/recovery.go], [connreplace.go]).

    [attemptLogin] is a dial and login attempt; the operations on the session take
    its outcome as an argument: an error, or the new parameters with the new
    connection's digest flags.  The order in which a map
    of tasks is walked is that of its list of entries.

    The recovering goroutine waits at many points: for the old pumps, for the backoff,
    for a dial and login, for the command window and the write channel when it sends a
    task's command again, for the responses to its requests.  What the other
    goroutines do to the session during such a wait is an argument, an [SS ()]; where
    the goroutine's own context may end meanwhile, an [SS CtxSched]. *)
From S2P Require Import Prelude Errors Bhs PduTactics PduInitiator PduTarget Pdu GoIO Digest Framer.
From S2P Require Import Chan Serial Router Negotiation CmdWindow Config Types Task DataOut Session Unsolicited Lifecycle.
From S2P Require Login.
#[local] Open Scope string_scope.
#[local] Open Scope list_scope.
#[local] Open Scope Z_scope.

(** A successful dial and login *)
Record NewConn := mkNewConn { nc_params : NegotiatedParams; nc_digestHeader : bool; nc_digestData : bool }.

(** A login on the connection a dial gives *)
Definition login_on (stale : bytes) (range : gmap string string -> list (string * string)) (rnd : Login.Randomness)
    (conn : res (Reader * Writer)) (opts : list Login.LoginOption) : res NewConn :=
  '(r, w) ← conn;
  '(params, cc) ← (Login.Login stale range rnd r w opts).1.1;
  Ok (mkNewConn params (Login.cc_digestHeader cc) (Login.cc_digestData cc)).

(** One reconnect attempt: a login with the old TSIH, and when the target answers
    it with status class 2, one for a fresh session on a second connection *)
Definition attemptLogin (stale : bytes) (range : gmap string string -> list (string * string))
    (rnd rnd2 : Login.Randomness) (tc tc2 : res (Reader * Writer)) (isid : bytes) (tsih : Z)
    (loginOpts : list Login.LoginOption) : res NewConn :=
  match tc with
  | Err err => Err err
  | Ok _ =>
    match login_on stale range rnd tc (Login.WithISID isid :: Login.WithTSIH tsih :: loginOpts) with
    | Ok c => Ok c
    | Err e =>
      match errors_As as_LoginError e with
      | Some le =>
          if le_StatusClass le =? 2 then login_on stale range rnd2 tc2 (Login.WithISID isid :: loginOpts)
          else Err e
      | None => Err e
      end
    end
  end.

(** The delay before attempt [n], in units of the base backoff *)
Definition backoff_factor (attempt : nat) : Z :=
  2 ^ Z.of_nat (Nat.min (attempt - 1) 30).

(** Replacing the session's internals by the new connection's *)
Definition installed (c : NewConn) (s : Session) : Session :=
  let p := nc_params c in
  set_loggedIn true (set_err None (set_expStatSN (np_ExpStatSN p)
    (set_window (newCmdWindow (np_CmdSN p) (np_CmdSN p) (np_CmdSN p)) (set_cancelled false
      (set_writeCh (make_chan 64) (set_digestData (nc_digestData c) (set_digestHeader (nc_digestHeader c)
        (set_params p s)))))))).
Definition install (c : NewConn) : SS () := upd (installed c).

Fixpoint close_channels (l : list (Z * nat)) : SS () :=
  match l with
  | [] => mret ()
  | (itt, _) :: l => _ ← upd (fun s => set_router (UnregisterAndClose itt (ss_router s)) s); close_channels l
  end.

Fixpoint cancel_all (err : error) (l : list (Z * nat)) : SS () :=
  match l with
  | [] => mret ()
  | (_, id) :: l => _ ← on_task id (cancel err); cancel_all err l
  end.

(** The waits for a task's command, in which others do nothing: [cx] is the context *)
Definition alone (cx : CtxSched) : nat -> SS CtxSched := fun _ => mret cx.

(** ** Retrying tasks after a reconnect *)

(** One iteration of [retryTasks]; [wa] and [ws] are the waits for the window and for
    the write channel. *)
Definition retryTask (wa ws : nat -> SS CtxSched) (id : nat) : SS () :=
  tk ← task_at id;
  if tk_streaming tk then
    on_task id (cancel (Errorf "session: streaming task not retriable after reconnect" []))
  else
    rewound ←
      match tk_isWrite tk, tk_reader tk with
      | true, Some r =>
          match SeekStart r with
          | None => mret false
          | Some r => _ ← on_task id (upd_task (fun t => set_tk_bytesSent 0 (set_tk_reader (Some r) t))); mret true
          end
      | _, _ => mret true
      end;
    if negb rewound then on_task id (cancel ErrRetryNotPossible)
    else
      cx ← wa id;
      acquired ← window_acquire cx;
      match acquired with
      | Err e => on_task id (cancel (Wrapf "session: retry acquire CmdSN: %w" [] e))
      | Ok cmdSN =>
        newITT ← router_AllocateITT;
        pduCh ← router_RegisterPersistent newITT;
        _ ← on_task id (upd_task (fun t =>
          let t := mkTask newITT (tk_lun t) (tk_cmd t) (tk_cmdSN t) (tk_buf t) (tk_resultCh t) (tk_done t) 0 0
                     (tk_isRead t) (tk_isWrite t) (tk_reader t) (tk_bytesSent t) (tk_streaming t)
                     (tk_dataReader t) (tk_erl t) (tk_snackTimeout t) (tk_snack t) in
          if tk_isRead t then set_tk_buf ((fun _ => []) <$> tk_buf t) t else t));
        params ← SM_get ss_params;
        immediate ← (if tk_isWrite tk && np_ImmediateData params && bool_decide (is_Some (tk_reader tk))
                     then readImmediate params id else mret (Ok []));
        match immediate with
        | Err e => on_task id (cancel (Wrapf "session: retry read immediate data: %w" [] e))
        | Ok immediateData =>
          expStatSN ← SM_get ss_expStatSN;
          match buildSCSICommandPDU (tk_cmd tk) newITT cmdSN expStatSN immediateData with
          | None => SM_panic
          | Some (Err e) => on_task id (cancel (Wrapf "session: retry encode SCSICommand: %w" [] e))
          | Some (Ok raw) =>
            _ ← upd (fun s => set_tasks (<[newITT := id]> (ss_tasks s)) s);
            raw ← stamped raw;
            cx ← ws id;
            sent ← send_or_done cx raw;
            if negb sent then on_task id (cancel ErrCtx)
            else
              params ← SM_get ss_params;
              h ← SM_get ss_digestHeader;
              d ← SM_get ss_digestData;
              err ← (if tk_isWrite tk && negb (np_InitialR2T params) && bool_decide (is_Some (tk_reader tk))
                     then on_task id (sendUnsolicitedDataOut h d params) else mret None);
              match err with
              | Some e => on_task id (cancel (Wrapf "session: retry unsolicited data: %w" [] e))
              | None => upd (fun s => set_loops (ss_loops s ++ [(id, pduCh)]) s)
              end
          end
        end
      end.

Fixpoint retryTasks (wa ws : nat -> SS CtxSched) (l : list (Z * nat)) : SS () :=
  match l with
  | [] => mret ()
  | (_, id) :: l => _ ← retryTask wa ws id; retryTasks wa ws l
  end.

(** ** Reconnecting *)

(** [select { case <-s.closed: s.recovering = false; return; default: }]; the flag
    is whether it returns. *)
Definition abort_if_closed : SS bool :=
  closed ← SM_get ss_closed;
  if (closed : bool) then _ ← upd (set_recovering false); mret true else mret false.

(** One turn of the reconnect loop: what other goroutines do to the session during
    the backoff and during the dial and login, and what these give *)
Record Attempt := mkAttempt { at_backoff : SS (); at_login : SS (); at_outcome : res NewConn }.

(** The reconnect loop: [None] when the session turns out closed; otherwise the
    first attempt that succeeds, or the last error *)
Fixpoint attempts (l : list Attempt) (lastErr : error) : SS (option (res NewConn)) :=
  match l with
  | [] => mret (Some (Err lastErr))
  | a :: l =>
      _ ← at_backoff a;
      aborted ← abort_if_closed;
      if (aborted : bool) then mret None
      else
        _ ← at_login a;
        match at_outcome a with
        | Ok c => mret (Some (Ok c))
        | Err e => attempts l e
        end
  end.

(** Steps 1 and 2 of [reconnect]: the old connection is given up, the tasks are
    taken from the session and their channels closed.  [others] is what other
    goroutines do while the old pumps stop; [None]: the session is closed. *)
Definition reconnect_start (others : SS ()) : SS (option (list (Z * nat))) :=
  aborted ← abort_if_closed;
  if (aborted : bool) then mret None
  else
    _ ← cancel_session;
    _ ← others;
    aborted ← abort_if_closed;
    if (aborted : bool) then mret None
    else
      snapshot ← SM_get (fun s => map_to_list (ss_tasks s));
      _ ← upd (set_tasks ∅);
      _ ← close_channels snapshot;
      mret (Some snapshot).

(** The rest of [reconnect], once the loop is over *)
Definition reconnect_finish (wa ws : nat -> SS CtxSched) (maxAttempts : nat) (snapshot : list (Z * nat))
    (outcome : res NewConn) : SS () :=
  match outcome with
  | Err lastErr =>
      _ ← upd (fun s => set_recovering false
        (set_err (Some (Wrapf "session: reconnect failed after %d attempts: %w" [Z.of_nat maxAttempts] lastErr)) s));
      cancel_all (Wrapf "session: reconnect failed: %w" [] lastErr) snapshot
  | Ok c =>
      _ ← install c;
      _ ← fireStateChange SessionFullFeature;
      _ ← retryTasks wa ws snapshot;
      upd (set_recovering false)
  end.

Definition reconnect (wa ws : nat -> SS CtxSched) (others : SS ()) (tries : list Attempt) (cause : error) : SS () :=
  cfg ← SM_get ss_cfg;
  let maxAttempts := Z.to_nat (sc_maxReconnectAttempts cfg) in
  snapshot ← reconnect_start others;
  match snapshot with
  | None => mret ()
  | Some snapshot =>
      outcome ← attempts (take maxAttempts tries) cause;
      match outcome with
      | None => mret ()
      | Some outcome => reconnect_finish wa ws maxAttempts snapshot outcome
      end
  end.

(** ** Replacing the connection *)

(** [replaceConnection] up to the logout of the old connection: the tasks to
    reassign, or the error that makes the caller fall back to [reconnect].  [others]
    is what other goroutines do while the old pumps stop, [dial] what they do during
    the dial and login, which gives [attempt]. *)
Definition replaceConnection_start (others dial : SS ()) (attempt : res NewConn) : SS (res (list (Z * nat))) :=
  _ ← cancel_session;
  _ ← others;
  snapshot ← SM_get (fun s => map_to_list (ss_tasks s));
  _ ← close_channels snapshot;
  _ ← dial;
  match attempt with
  | Err e => mret (Err e)
  | Ok c => _ ← install c; mret (Ok snapshot)
  end.

(** The reassignment of a task once the outcome of its TASK REASSIGN is known;
    [newITT] and its channel were registered before. *)
Definition reassign_finish (itt : Z) (id : nat) (newITT : Z) (newCh : nat) (result : res TMFResult) : SS () :=
  let complete := match result with Ok r => tmf_Response r =? TMFRespComplete | Err _ => false end in
  if complete then
    _ ← router_Unregister itt;
    _ ← on_task id (upd_task (fun t =>
      mkTask newITT (tk_lun t) (tk_cmd t) (tk_cmdSN t) (tk_buf t) (tk_resultCh t) (tk_done t)
        (tk_nextDataSN t) (tk_nextOffset t) (tk_isRead t) (tk_isWrite t) (tk_reader t) (tk_bytesSent t)
        (tk_streaming t) (tk_dataReader t) (tk_erl t) (tk_snackTimeout t) (tk_snack t)));
    upd (fun s => set_loops (ss_loops s ++ [(id, newCh)])
           (set_tasks (delete itt (<[newITT := id]> (ss_tasks s))) s))
  else
    _ ← router_Unregister newITT;
    _ ← router_Unregister itt;
    on_task id (cancel (match result with
      | Err e => Wrapf "session: task reassign failed: %s: %w" [] e
      | Ok r => Errorf "session: task reassign failed: %s: %w" [tmf_Response r]
      end)).

(** A request of the recovering goroutine and its response: the wait for the write
    channel, what other goroutines do while the response is awaited, and how that
    wait ends *)
Record Exchange := mkExchange { ex_send : SS CtxSched; ex_others : SS (); ex_wait : WaitSched }.

(** A registered request is sent and its response awaited. *)
Definition run_exchange {A} (x : Exchange) (wait : WaitSched -> Z -> nat -> SS (res A))
    (req : res (Z * nat * RawPDU)) : SS (res A) :=
  match req with
  | Err e => mret (Err e)
  | Ok (itt, ch, raw) =>
      cx ← ex_send x;
      sent ← send_request cx itt ch raw;
      match sent with
      | Err e => mret (Err e)
      | Ok (itt, ch) => _ ← ex_others x; wait (ex_wait x) itt ch
      end
  end.

(** The logout of the old connection on the new one, whose failure is ignored; [wa]
    is the wait for the window. *)
Definition replace_logout (wa : SS CtxSched) (x : Exchange) : SS () :=
  cx ← wa;
  req ← logout_request cx 2;
  _ ← run_exchange x (fun w itt ch => err ← logout_wait w itt ch; mret (match err with Some e => Err e | None => Ok () end)) req;
  mret ().

(** The reassignment of one task *)
Definition reassign (x : Exchange) (itt : Z) (id : nat) : SS () :=
  tk ← task_at id;
  newITT ← router_AllocateITT;
  newCh ← router_RegisterPersistent newITT;
  req ← tmf_request TMFTaskReassign itt (tk_lun tk);
  result ← run_exchange x sendTMF_wait req;
  reassign_finish itt id newITT newCh result.

Fixpoint reassign_all (xs : list Exchange) (l : list (Z * nat)) : SS () :=
  match l, xs with
  | (itt, id) :: l, x :: xs => _ ← reassign x itt id; reassign_all xs l
  | _ :: _, [] => SM_block
  | [], _ => mret ()
  end.

(** What the others do, and what the goroutine's contexts and requests meet, while a
    connection is replaced *)
Record Replacement := mkReplacement {
  rp_others : SS (); rp_dial : SS (); rp_attempt : res NewConn;
  rp_acquire : SS CtxSched; rp_logout : Exchange; rp_reassigns : list Exchange }.

Definition replaceConnection (rp : Replacement) : SS (res ()) :=
  start ← replaceConnection_start (rp_others rp) (rp_dial rp) (rp_attempt rp);
  match start with
  | Err e => mret (Err e)
  | Ok snapshot =>
      _ ← replace_logout (rp_acquire rp) (rp_logout rp);
      _ ← reassign_all (rp_reassigns rp) snapshot;
      _ ← upd (set_recovering false);
      mret (Ok ())
  end.

(** The goroutine [triggerReconnect] starts for ErrorRecoveryLevel 2 *)
Definition recover (rp : Replacement) (wa ws : nat -> SS CtxSched) (others : SS ()) (tries : list Attempt)
    (cause : error) : SS () :=
  replaced ← replaceConnection rp;
  _ ← match replaced with
      | Ok _ => mret ()
      | Err _ => reconnect wa ws others tries cause
      end;
  upd (set_recovering false).
