(* ===== verification/Reconnect.v ===== *)
(** What becomes of the commands in flight when a session reconnects or is closed
    ([src/internal/session/recovery.go], [session.go]). *)
From S2P Require Import Prelude Errors Bhs PduTactics PduInitiator PduTarget Pdu GoIO Digest Framer.
From S2P Require Import Chan Serial Router Negotiation CmdWindow Config Types Task Reassembly DataOut Session.
From S2P Require Import Unsolicited Lifecycle TaskLoop Tables Recovery.
#[local] Open Scope string_scope.
#[local] Open Scope list_scope.
#[local] Open Scope Z_scope.

(** ** Cancelling tasks *)

(** A task once it is cancelled *)
Definition cancelled (err : error) (t : task) : task :=
  let t := if tk_streaming t then set_tk_dataReader (cr_closeWithError err <$> tk_dataReader t) t else t in
  let c := tk_resultCh t in
  set_tk_done true
    (if Nat.ltb (length (ch_buf c)) (ch_cap c) then set_tk_resultCh (sent_on [errResult err] c) t else t).

Lemma cancel_Done err s : ch_closed (tk_resultCh (ts_task s)) = false ->
  cancel err s = Done ((), mkTS (cancelled err (ts_task s)) (ts_writeCh s) (ts_expStatSN s)).
Proof.
  intros Hc. unfold cancel, cancelled. set (t := if tk_streaming _ then _ else _).
  assert (Ht : tk_resultCh t = tk_resultCh (ts_task s)) by (subst t; by destruct (tk_streaming _)).
  rewrite (SM_bind_Done _ _ s () (mkTS t (ts_writeCh s) (ts_expStatSN s))) by done.
  rewrite (SM_bind_Done _ _ _ () (mkTS (if Nat.ltb (length (ch_buf (tk_resultCh t))) (ch_cap (tk_resultCh t))
    then set_tk_resultCh (sent_on [errResult err] (tk_resultCh t)) t else t) (ts_writeCh s) (ts_expStatSN s))).
  { done. }
  cbn [ts_task ts_writeCh ts_expStatSN]. unfold send, sent_on. rewrite Ht, Hc.
  by destruct (Nat.ltb _ _).
Qed.

(** The task of a waiting caller has an open result channel without a result. *)
Definition waiting (t : task) : Prop := tk_resultCh t = make_chan 1 /\ tk_done t = false.

Lemma cancelled_result err t : waiting t ->
  ch_buf (tk_resultCh (cancelled err t)) = [errResult err] /\ tk_done (cancelled err t) = true /\
  tk_itt (cancelled err t) = tk_itt t.
Proof.
  intros [Hr _]. unfold cancelled. destruct (tk_streaming t); simpl; by rewrite Hr.
Qed.

Definition open_results (objs : list task) : Prop :=
  Forall (fun t => ch_closed (tk_resultCh t) = false) objs.

Lemma open_results_insert id t objs : open_results objs -> ch_closed (tk_resultCh t) = false ->
  open_results (<[id := t]> objs).
Proof. intros H Ht. by apply Forall_insert. Qed.

Lemma cancelled_open err t : ch_closed (tk_resultCh (cancelled err t)) = ch_closed (tk_resultCh t).
Proof. unfold cancelled. destruct (tk_streaming t); simpl; by destruct (Nat.ltb _ _). Qed.

(** [s] with other task objects *)
Lemma on_task_cancel id err s t : ss_objs s !! id = Some t -> ch_closed (tk_resultCh t) = false ->
  on_task id (cancel err) s = Done ((), set_objs (<[id := cancelled err t]> (ss_objs s)) s).
Proof.
  intros Ho Hc. by rewrite (on_task_Done id _ s t _ _ Ho (cancel_Done err (mkTS t _ _) Hc)).
Qed.

(** Cancelling a list of tasks with distinct addresses *)
Lemma cancel_all_Done err l : forall s, open_results (ss_objs s) -> NoDup l.*2 ->
  Forall (fun id => is_Some (ss_objs s !! id)) l.*2 -> exists objs,
  cancel_all err l s = Done ((), set_objs objs s) /\
  (forall id t, id ∈ l.*2 -> ss_objs s !! id = Some t -> objs !! id = Some (cancelled err t)) /\
  (forall id, id ∉ l.*2 -> objs !! id = ss_objs s !! id).
Proof.
  induction l as [|[itt id] l IH]; intros s Hop Hnd Hin; cbn [cancel_all fmap list_fmap snd] in *.
  - exists (ss_objs s). split; [by destruct s|]. split; [|done]. by intros ? ? ?%not_elem_of_nil.
  - apply NoDup_cons in Hnd as [Hid Hnd]. apply Forall_cons in Hin as [[t Ht] Hin].
    pose proof (proj1 (Forall_lookup _ _) Hop id t Ht) as Hc.
    rewrite (SM_bind_Done _ _ _ _ _ (on_task_cancel id err s t Ht Hc)).
    set (s1 := set_objs _ s).
    destruct (IH s1) as (objs & H & Hcl & Hother).
    + apply open_results_insert; [done|]. by rewrite cancelled_open.
    + done.
    + eapply Forall_impl; [exact Hin|]. intros id' [t' Ht']. cbn.
      destruct (decide (id' = id)) as [->|]; [rewrite list_lookup_insert_eq by (by eapply lookup_lt_Some)|
        rewrite list_lookup_insert_ne by done]; eauto.
    + exists objs. rewrite H. split; [done|]. split.
      * intros id' t' [->|Hl]%elem_of_cons Ht'.
        -- simplify_eq. rewrite Hother by done. apply list_lookup_insert_eq. by eapply lookup_lt_Some.
        -- apply Hcl; [done|]. cbn. rewrite list_lookup_insert_ne; [done|]. by intros ->.
      * intros id' Hl. apply not_elem_of_cons in Hl as [Hne Hl]. rewrite Hother by done.
        cbn. by rewrite list_lookup_insert_ne.
Qed.

(** ** The snapshot of a reconnect *)

Definition unregister_all (l : list (Z * nat)) (r : Router) : Router :=
  fold_left (fun r '(itt, _) => UnregisterAndClose itt r) l r.

Lemma close_channels_Done l : forall s,
  close_channels l s = Done ((), set_router (unregister_all l (ss_router s)) s).
Proof.
  induction l as [|[itt id] l IH]; intros s; cbn [close_channels]; [by destruct s|].
  rewrite (SM_bind_Done _ _ s () (set_router (UnregisterAndClose itt (ss_router s)) s)) by done.
  by rewrite IH.
Qed.

(** A channel nobody can send on any more *)
Definition closed_chan (ch : nat) (r : Router) : Prop := exists cap, rt_chans r !! ch = Some (mkChan [] cap true).

Lemma UnregisterAndClose_frame itt r (r' := UnregisterAndClose itt r) :
  rt_nextITT r' = rt_nextITT r /\ rt_persistentDepth r' = rt_persistentDepth r /\
  length (rt_chans r') = length (rt_chans r) /\
  (forall j, rt_pending r' !! j = if decide (j = itt) then None else rt_pending r !! j) /\
  (forall ch, closed_chan ch r -> closed_chan ch r') /\
  (forall ch, rt_pending r !! itt = Some (mkEntry ch true) ->
     (exists cap, rt_chans r !! ch = Some (mkChan [] cap false)) -> closed_chan ch r').
Proof.
  subst r'. unfold UnregisterAndClose, Unregister, closed_chan. destruct r as [p nx dep cs]. cbn.
  assert (forall j, delete itt p !! j = if decide (j = itt) then None else p !! j) as Hp.
  { intros j. destruct (decide (j = itt)) as [->|]; [apply lookup_delete_eq|by apply lookup_delete_ne]. }
  destruct (p !! itt) as [[ch0 [|]]|] eqn:E; cbn; rewrite ?length_alter; (do 4 (split; [done|])).
  - split.
    + intros ch [cap Hc]. exists cap. destruct (decide (ch = ch0)) as [->|].
      * by rewrite list_lookup_alter_eq, Hc.
      * by rewrite list_lookup_alter_ne.
    + intros ch [= <-] [cap Hc]. exists cap. by rewrite list_lookup_alter_eq, Hc.
  - split; [done|]. by intros ch [= ].
  - by split.
Qed.

(** A registered, empty channel *)
Definition idle_chan (itt : Z) (ch : nat) (r : Router) : Prop :=
  rt_pending r !! itt = Some (mkEntry ch true) /\ exists cap, rt_chans r !! ch = Some (mkChan [] cap false).

Lemma unregister_all_closed ch l : forall r, closed_chan ch r -> closed_chan ch (unregister_all l r).
Proof.
  induction l as [|[itt id] l IH]; intros r Hr; [done|]. apply (IH (UnregisterAndClose itt r)).
  destruct (UnregisterAndClose_frame itt r) as (_ & _ & _ & _ & H & _). by apply H.
Qed.

Lemma UnregisterAndClose_idle itt ch j r : idle_chan itt ch r -> itt <> j ->
  idle_chan itt ch (UnregisterAndClose j r) \/ closed_chan ch (UnregisterAndClose j r).
Proof.
  intros [Hp [cap Hc]] Hne. destruct (rt_pending r !! j) as [[ch' p]|] eqn:Ej.
  - destruct (decide (ch' = ch /\ p = true)) as [[-> ->]|Hd].
    + right. destruct (UnregisterAndClose_frame j r) as (_ & _ & _ & _ & _ & H). apply H; [done|by exists cap].
    + left. split.
      * destruct (UnregisterAndClose_frame j r) as (_ & _ & _ & -> & _). by rewrite decide_False.
      * exists cap. unfold UnregisterAndClose, Unregister. rewrite Ej. destruct r as [pd nx dep cs]. cbn in *.
        destruct p; [|done]. cbn. rewrite list_lookup_alter_ne; [done|]. intros ->. by apply Hd.
  - left. split.
    + destruct (UnregisterAndClose_frame j r) as (_ & _ & _ & -> & _). by rewrite decide_False.
    + exists cap. unfold UnregisterAndClose, Unregister. by rewrite Ej.
Qed.

(** Every channel of the snapshot is closed. *)
Lemma unregister_all_closes itt ch l : forall r, idle_chan itt ch r -> itt ∈ l.*1 ->
  closed_chan ch (unregister_all l r).
Proof.
  induction l as [|[j id] l IH]; intros r Hi Hin; [by apply not_elem_of_nil in Hin|].
  change (closed_chan ch (unregister_all l (UnregisterAndClose j r))).
  destruct (decide (itt = j)) as [->|Hne].
  - apply unregister_all_closed. destruct Hi as [Hp Hc].
    destruct (UnregisterAndClose_frame j r) as (_ & _ & _ & _ & _ & H). by apply H.
  - apply elem_of_cons in Hin as [Heq|Hin]; [done|].
    destruct (UnregisterAndClose_idle itt ch j r Hi Hne) as [Hi'|Hc]; [by apply IH|by apply unregister_all_closed].
Qed.

Lemma unregister_all_frame l : forall r (r' := unregister_all l r),
  rt_nextITT r' = rt_nextITT r /\ rt_persistentDepth r' = rt_persistentDepth r /\
  length (rt_chans r') = length (rt_chans r) /\
  (forall j, j ∈ l.*1 -> rt_pending r' !! j = None) /\
  (forall j, rt_pending r !! j = None -> rt_pending r' !! j = None).
Proof.
  induction l as [|[itt id] l IH]; intros r r'; [by repeat split; try done; intros ? ?%not_elem_of_nil|].
  destruct (UnregisterAndClose_frame itt r) as (F1 & F2 & F3 & F4 & _).
  destruct (IH (UnregisterAndClose itt r)) as (H1 & H2 & H3 & H4 & H5).
  subst r'. cbn [unregister_all fold_left]. fold (unregister_all l (UnregisterAndClose itt r)).
  rewrite H1, H2, H3, F1, F2, F3. do 3 (split; [done|]). split.
  - intros j [->|Hj]%elem_of_cons; [|by apply H4]. apply H5. by rewrite F4, decide_True.
  - intros j Hj. apply H5. rewrite F4. by destruct (decide _).
Qed.

Lemma abort_if_closed_open s : ss_closed s = false -> abort_if_closed s = Done (false, s).
Proof. intros Hc. unfold abort_if_closed. by rewrite (SM_bind_Done _ _ s false s) by (unfold SM_get; by rewrite Hc). Qed.

Lemma abort_if_closed_closed s : ss_closed s = true ->
  abort_if_closed s = Done (true, set_recovering false s).
Proof. intros Hc. unfold abort_if_closed. by rewrite (SM_bind_Done _ _ s true s) by (unfold SM_get; by rewrite Hc). Qed.

(** The session once the old connection is given up *)
Definition gave_up (s : Session) : Session :=
  set_router (unregister_all (map_to_list (ss_tasks s)) (ss_router s)) (set_tasks ∅ (set_cancelled true s)).

Lemma reconnect_start_Done s : ss_closed s = false ->
  reconnect_start (mret ()) s = Done (Some (map_to_list (ss_tasks s)), gave_up s).
Proof.
  intros Hc. unfold reconnect_start.
  rewrite (SM_bind_Done _ _ _ _ _ (abort_if_closed_open s Hc)).
  set (s1 := set_cancelled true s). rewrite (SM_bind_Done _ _ s () s1) by done.
  rewrite (SM_bind_Done _ _ s1 () s1) by done.
  rewrite (SM_bind_Done _ _ _ _ _ (abort_if_closed_open s1 Hc)).
  rewrite (SM_bind_Done _ _ s1 (map_to_list (ss_tasks s)) s1) by done.
  rewrite (SM_bind_Done _ _ s1 () (set_tasks ∅ s1)) by done.
  by rewrite (SM_bind_Done _ _ _ _ _ (close_channels_Done _ (set_tasks ∅ s1))).
Qed.

(** Attempts during which nothing else happens to the session *)
Definition quiet (outcome : res NewConn) : Attempt := mkAttempt (mret ()) (mret ()) outcome.

Lemma attempts_quiet outcome l lastErr s : ss_closed s = false ->
  attempts (quiet outcome :: l) lastErr s =
  match outcome with Ok c => Done (Some (Ok c), s) | Err e => attempts l e s end.
Proof.
  intros Hc. cbn [attempts quiet at_backoff at_login at_outcome].
  rewrite (SM_bind_Done _ _ s () s) by done.
  rewrite (SM_bind_Done _ _ _ _ _ (abort_if_closed_open s Hc)).
  rewrite (SM_bind_Done _ _ s () s) by done. by destruct outcome.
Qed.

(** The last of [errs], [cause] if there is none *)
Definition last_error (errs : list error) (cause : error) : error := fold_left (fun _ e => e) errs cause.

Lemma attempts_fail errs : forall lastErr s, ss_closed s = false ->
  attempts (map (fun e => quiet (Err e)) errs) lastErr s = Done (Some (Err (last_error errs lastErr)), s).
Proof.
  induction errs as [|e errs IH]; intros lastErr s Hc; [done|].
  cbn [map]. by rewrite attempts_quiet, IH by done.
Qed.

(** Attempts, the first of which fail for [errs] *)
Lemma attempts_fail_then errs l : forall lastErr s, ss_closed s = false ->
  attempts (map (fun e => quiet (Err e)) errs ++ l) lastErr s = attempts l (last_error errs lastErr) s.
Proof.
  induction errs as [|e errs IH]; intros lastErr s Hc; [done|].
  cbn [map app]. by rewrite attempts_quiet, IH by done.
Qed.

(** Every in-flight task has an object, no two the same, and a waiting caller. *)
Definition in_flight_ok (s : Session) : Prop :=
  open_results (ss_objs s) /\ NoDup (map_to_list (ss_tasks s)).*2 /\
  forall itt id, ss_tasks s !! itt = Some id -> exists t, ss_objs s !! id = Some t /\ waiting t.

(** A session [Close] has torn down while it was recovering, up to its tasks *)
Definition torn_down (s : Session) : Session :=
  set_cancelled true (set_window (close (ss_window s)) (set_closed true (set_loggedIn false s))).

(** A recovering session is closed without a logout. *)
Lemma Close_start_recovering s : ss_recovering s = true ->
  Close_start s = Done (false, set_closed true (set_loggedIn false s)).
Proof.
  intros Hr. unfold Close_start. rewrite (SM_bind_Done _ _ s (ss_loggedIn s) s) by done.
  set (s0 := set_loggedIn false s). set (s1 := set_closed true s0).
  rewrite (SM_bind_Done _ _ s () s0), (SM_bind_Done _ _ s0 (ss_err s) s0), (SM_bind_Done _ _ s0 () s1) by done.
  destruct (_ && _); [|done].
  rewrite (SM_bind_Done _ _ s1 (ss_tasks s) s1), (SM_bind_Done _ _ s1 (ss_recovering s) s1) by done.
  rewrite Hr. cbn [negb]. by rewrite andb_false_r.
Qed.

Lemma Close_recovering logout s (s1 := torn_down s) : ss_closed s = false -> ss_recovering s = true ->
  Close logout s = (_ ← close_tasks (map_to_list (ss_tasks s)); fireStateChange SessionClosed) s1.
Proof.
  intros Hc Hr. unfold Close. rewrite (SM_bind_Done _ _ s false s) by (unfold SM_get; by rewrite Hc).
  by rewrite (SM_bind_Done _ _ _ _ _ (Close_start_recovering s Hr)).
Qed.

Lemma Close_no_tasks logout s : ss_closed s = false -> ss_recovering s = true -> ss_tasks s = ∅ ->
  Close logout s = Done ((), reported SessionClosed (torn_down s)).
Proof. intros Hc Hr Ht. by rewrite Close_recovering, Ht, map_to_list_empty. Qed.

(** A [Close] in the turns of the reconnect loop: before the dial of [a], or, with
    [Some e], during a dial and login that fail with [e], before the turn [a] *)
Definition closing (logout : SS ()) (dialing : option error) (a : Attempt) : list Attempt :=
  match dialing with
  | None => [mkAttempt (Close logout) (at_login a) (at_outcome a)]
  | Some e => [mkAttempt (mret ()) (Close logout) (Err e); mkAttempt (mret ()) (at_login a) (at_outcome a)]
  end.

(** The reconnect loop then ends without an outcome. *)
Lemma attempts_closing logout errs dialing a rest n lastErr s :
  ss_closed s = false -> ss_recovering s = true -> ss_tasks s = ∅ ->
  (length errs + length (closing logout dialing a) <= n)%nat ->
  attempts (take n (map (fun e => quiet (Err e)) errs ++ closing logout dialing a ++ rest)) lastErr s
  = Done (None, set_recovering false (reported SessionClosed (torn_down s))).
Proof.
  intros Hc Hr Ht Hn. rewrite take_app_ge by (rewrite length_map; lia). rewrite length_map, attempts_fail_then by done.
  rewrite take_app_ge by lia. destruct dialing as [e|]; cbn [closing app attempts at_backoff at_login at_outcome].
  - rewrite (SM_bind_Done _ _ s () s), (SM_bind_Done _ _ _ _ _ (abort_if_closed_open s Hc)) by done.
    rewrite (SM_bind_Done _ _ _ _ _ (Close_no_tasks logout s Hc Hr Ht)).
    set (s1 := reported _ _). rewrite (SM_bind_Done _ _ s1 () s1) by done.
    by rewrite (SM_bind_Done _ _ _ _ _ (abort_if_closed_closed s1 eq_refl)).
  - rewrite (SM_bind_Done _ _ _ _ _ (Close_no_tasks logout s Hc Hr Ht)).
    by rewrite (SM_bind_Done _ _ _ _ _ (abort_if_closed_closed (reported SessionClosed (torn_down s)) eq_refl)).
Qed.

(** The task loop of a task whose channel is closed ends without a result. *)
Lemma taskLoop_closed id ch t s : ss_objs s !! id = Some t -> closed_chan ch (ss_router s) ->
  taskLoop_turn TakePDU id ch s = Done (false, s).
Proof.
  intros Ho [cap Hc]. unfold taskLoop_turn. rewrite (SM_bind_Done _ _ _ _ _ (task_at_Done id s t Ho)).
  assert (Hrc : receive ch s = Done (None, s)); [|by rewrite (SM_bind_Done _ _ _ _ _ Hrc)].
  unfold receive, chan_recv. rewrite Hc. cbn. rewrite list_insert_id by done.
  by destruct s as [? ? ? []].
Qed.

(** The window of a new connection takes one command. *)
Lemma new_window_opens sn (w := newCmdWindow sn sn sn) : u32 sn ->
  acquire_fast w = Some (Ok sn, (allocSN w).2).
Proof.
  intros Hsn. unfold acquire_fast, windowOpen. cbn [cw_closed cw_maxCmdSN cw_expCmdSN cw_cmdSN w newCmdWindow].
  assert (LessThan sn sn = false) as ->.
  { apply not_true_iff_false. rewrite LessThan_dist, dist_refl by done. lia. }
  by rewrite (proj2 (InWindow_dist sn sn sn Hsn Hsn Hsn ltac:(rewrite dist_refl; lia))).
Qed.

(** ** Retrying a read *)

(** The task of a read that is submitted again under [itt] *)
Definition retried (itt : Z) (t : task) : task :=
  set_tk_buf ((fun _ => []) <$> tk_buf t)
    (mkTask itt (tk_lun t) (tk_cmd t) (tk_cmdSN t) (tk_buf t) (tk_resultCh t) (tk_done t) 0 0
       (tk_isRead t) (tk_isWrite t) (tk_reader t) (tk_bytesSent t) (tk_streaming t)
       (tk_dataReader t) (tk_erl t) (tk_snackTimeout t) (tk_snack t)).

(** The session with the task at [id] submitted again by [raw] *)
Definition resubmitted (id : nat) (t : task) (w' : cmdWindow) (raw : RawPDU) (s : Session) : Session :=
  set_loops (ss_loops s ++ [(id, next_ch s)])
    (set_writeCh (sent_on [raw] (ss_writeCh s))
      (set_tasks (<[next_itt s := id]> (ss_tasks s))
        (set_objs (<[id := retried (next_itt s) t]> (ss_objs s))
          (set_router (RegisterPersistent (next_itt s) (AllocateITT (ss_router s)).2).2 (set_window w' s))))).

Lemma next_itt_eq s s' : rt_nextITT (ss_router s') = rt_nextITT (ss_router s) -> next_itt s' = next_itt s.
Proof.
  unfold next_itt, AllocateITT. intros ->. by destruct (allocITT (rt_nextITT (ss_router s))).
Qed.

Lemma register_listening itt r : (0 < rt_persistentDepth r)%nat ->
  listening itt (length (rt_chans r)) (RegisterPersistent itt (AllocateITT r).2).2.
Proof.
  intros Hd. unfold listening, RegisterPersistent, AllocateITT. destruct (allocITT (rt_nextITT r)) as [i nx].
  cbn. split; [apply lookup_insert_eq|]. rewrite lookup_app_r, Nat.sub_diag by lia. cbn.
  exists (rt_persistentDepth r - 1)%nat. unfold make_chan. do 2 f_equal. lia.
Qed.

Lemma on_task_upd id f s t : ss_objs s !! id = Some t ->
  on_task id (upd_task f) s = Done ((), set_objs (<[id := f t]> (ss_objs s)) s).
Proof. intros Ho. by rewrite (on_task_Done id (upd_task f) s t () _ Ho eq_refl). Qed.

Lemma retryTask_read cx cx' id s t sn w' k : ss_objs s !! id = Some t ->
  tk_streaming t = false -> tk_isRead t = true -> tk_isWrite t = false ->
  acquire_fast (ss_window s) = Some (Ok sn, w') -> u32 sn -> u32 (ss_expStatSN s) ->
  0 <= rt_nextITT (ss_router s) < reservedITT -> Command_ok (tk_cmd t) ->
  (cx_done cx' && cx_pick cx') = false -> room (S k) (ss_writeCh s) -> exists bhs,
  retryTask (alone cx) (alone cx') id s = Done ((), resubmitted id t w'
    (stampDigests (ss_digestHeader s) (ss_digestData s) (newRawPDU bhs [])) s) /\
  DecodeBHS bhs = Ok (PSCSICommand (SCSICommand_wire (command_request (tk_cmd t) (next_itt s) sn (ss_expStatSN s) []))).
Proof.
  intros Ho Hstr Hrd Hwr Hacq Hsn He Hnext Hok Hcx Hroom.
  destruct (command_request_built (tk_cmd t) (next_itt s) sn (ss_expStatSN s) []) as (bhs & Hb & Hd & _);
    [done|by apply next_itt_width|done|done|by simpl; lia|].
  exists bhs. split; [|exact Hd]. unfold retryTask.
  rewrite (SM_bind_Done _ _ _ _ _ (task_at_Done id s t Ho)), Hstr, Hwr.
  rewrite (SM_bind_Done _ _ s true s) by done. cbn [negb].
  set (s1 := set_window w' s). rewrite (SM_bind_Done _ _ s cx s) by done.
  rewrite (SM_bind_Done _ _ s (Ok sn) s1) by (unfold window_acquire; by rewrite Hacq).
  set (s2 := set_router (AllocateITT (ss_router s)).2 s1).
  rewrite (SM_bind_Done _ _ s1 (next_itt s) s2)
    by (unfold router_AllocateITT, next_itt, s2; change (ss_router s1) with (ss_router s);
        by destruct (AllocateITT (ss_router s))).
  set (s3 := set_router (RegisterPersistent (next_itt s) (AllocateITT (ss_router s)).2).2 s2).
  rewrite (SM_bind_Done _ _ s2 (next_ch s) s3)
    by (unfold router_RegisterPersistent, next_ch; subst s3 s2 s1; unfold next_itt, AllocateITT; by destruct (allocITT (rt_nextITT (ss_router s)))).
  set (s4 := set_objs (<[id := retried (next_itt s) t]> (ss_objs s)) s3).
  match goal with |- context [on_task id (upd_task ?f)] =>
    assert (Hf : on_task id (upd_task f) s3 = Done ((), s4))
      by (rewrite (on_task_upd id _ s3 t Ho); subst s4; unfold retried; cbn [tk_isRead]; by rewrite Hrd) end.
  rewrite (SM_bind_Done _ _ _ _ _ Hf). clear Hf.
  rewrite (SM_bind_Done _ _ s4 (ss_params s) s4) by done. cbn [andb].
  rewrite (SM_bind_Done _ _ s4 (Ok []) s4) by done.
  rewrite (SM_bind_Done _ _ s4 (ss_expStatSN s) s4), Hb by done.
  set (s5 := set_tasks (<[next_itt s := id]> (ss_tasks s)) s4). rewrite (SM_bind_Done _ _ s4 () s5) by done.
  set (raw := stampDigests _ _ _). rewrite (SM_bind_Done _ _ s5 raw s5), (SM_bind_Done _ _ s5 cx' s5) by done.
  set (s6 := set_writeCh (sent_on [raw] (ss_writeCh s)) s5).
  assert (Hsend : send_or_done cx' raw s5 = Done (true, s6)).
  { unfold send_or_done. rewrite Hcx. change (ss_writeCh s5) with (ss_writeCh s).
    by destruct (send_sent_on raw k _ Hroom) as [-> _]. }
  rewrite (SM_bind_Done _ _ _ _ _ Hsend). cbn [negb andb]. rewrite (SM_bind_Done _ _ s6 (ss_params s) s6) by done.
  rewrite (SM_bind_Done _ _ s6 (ss_digestHeader s) s6), (SM_bind_Done _ _ s6 (ss_digestData s) s6) by done.
  rewrite (SM_bind_Done _ _ s6 None s6) by done. unfold upd, SM_put, resubmitted. cbv beta.
  change (ss_loops s6) with (ss_loops s). reflexivity.
Qed.

(** A read in progress: some data has arrived, nothing is put aside. *)
Definition reading (t : task) : Prop :=
  waiting t /\ tk_streaming t = false /\ tk_isRead t = true /\ tk_isWrite t = false /\
  is_Some (tk_buf t) /\ pending_of t = ∅ /\ Command_ok (tk_cmd t).

(** ** Reassigning a task to a new connection *)

(** The task management request is built, under an ITT of its own. *)
Lemma tmf_request_ok fn ref lun s (itt := (Register (ss_router s)).1.1) :
  0 <= rt_nextITT (ss_router s) < reservedITT -> in_width 7 fn -> u32 ref -> 0 <= lun <= 0xFFFF ->
  u32 (cw_cmdSN (ss_window s)) -> u32 (ss_expStatSN s) -> exists bhs,
  tmf_request fn ref lun s = Done (Ok ((Register (ss_router s)).1,
      stampDigests (ss_digestHeader s) (ss_digestData s) (newRawPDU bhs [])),
    set_router (Register (ss_router s)).2 s) /\
  DecodeBHS bhs = Ok (PTaskMgmtReq (TaskMgmtReq_wire
    (tmfRequest fn ref (cw_cmdSN (ss_window s)) (ss_expStatSN s) itt (put_be 2 0 (uint16 lun) (zeros 8))))).
Proof.
  intros Hnext Hfn Href Hl Hsn He.
  assert (Hitt : itt = rt_nextITT (ss_router s)).
  { subst itt. unfold Register, allocITT. rewrite (proj2 (Z.eqb_neq _ reservedITT)) by lia. done. }
  unfold tmf_request. set (ch := (Register (ss_router s)).1.2). set (r := (Register (ss_router s)).2).
  assert (E : Register (ss_router s) = (itt, ch, r)) by (subst itt ch r; by destruct (Register _) as [[] ?]).
  rewrite (SM_bind_Done _ _ s (itt, ch) (set_router r s)) by (unfold router_Register; by rewrite E).
  replace ((Register (ss_router s)).1) with (itt, ch) by by rewrite E. clearbody ch r itt.
  set (s1 := set_router r s).
  rewrite (SM_bind_Done _ _ s1 (cw_cmdSN (ss_window s)) s1), (SM_bind_Done _ _ s1 (ss_expStatSN s) s1) by done.
  unfold EncodeSAMLUN. rewrite (Z.gtb_ltb lun), (proj2 (Z.ltb_ge _ _)) by lia.
  set (req := tmfRequest _ _ _ _ _ _).
  pose proof (TaskMgmtReq_marshal_total req) as Hm. cbn in Hm.
  destruct (TaskMgmtReq_MarshalBHS req) as [bhs|] eqn:Hb; [|done]. exists bhs. split.
  - reflexivity.
  - apply (decode_encoded (PTaskMgmtReq req)); [|done].
    split; [|repeat (split; [done|]); done]. unfold Header_ok, req, tmfRequest.
    cbn [TaskMgmtReq_Hdr TotalAHSLength DataSegmentLen LUN InitiatorTaskTag].
    split; [done|]. split; [done|]. split; [done|]. split; [|rewrite Hitt; unfold reservedITT in *; unfold in_width; lia].
    apply Forall_upd; [apply be_bytes_ok|apply zeros_ok].
Qed.

(** A request is sent when there is room. *)
Lemma send_request_ok cx itt ch raw s k : (cx_done cx && cx_pick cx) = false -> room (S k) (ss_writeCh s) ->
  send_request cx itt ch raw s = Done (Ok (itt, ch), set_writeCh (sent_on [raw] (ss_writeCh s)) s).
Proof.
  intros Hcx Hroom. unfold send_request, send_or_done, mbind, SM_bind. rewrite Hcx.
  by destruct (send_sent_on raw k _ Hroom) as [-> _].
Qed.

(** A response is dispatched to a waiting one-shot request and received. *)
Lemma one_shot_exchange itt ch raw e s : rt_pending (ss_router s) !! itt = Some (mkEntry ch false) ->
  rt_chans (ss_router s) !! ch = Some (make_chan 1) -> exists r1,
  session_dispatch itt raw s = Done ((), set_router r1 s) /\
  await_response WaitResponse itt ch e (set_router r1 s) = Done (Ok raw, set_router (Unregister itt (ss_router s)) s).
Proof.
  intros Hp Hc. destruct (ss_router s) as [pend next depth chans] eqn:Er. cbn in Hp, Hc.
  exists (mkRouter (delete itt pend) next depth (<[ch := mkChan [raw] 1 false]> chans)). split.
  - unfold session_dispatch, Dispatch, dispatchLookup, chan_send. rewrite Er. cbn. rewrite Hp. cbn. by rewrite Hc.
  - unfold await_response, receive, chan_recv, mbind, SM_bind. cbn.
    rewrite list_lookup_insert_eq by by eapply lookup_lt_Some. cbn.
    by rewrite list_insert_insert_eq, list_insert_id by done.
Qed.

(** The answer to a task management request is dispatched and taken *)
Lemma tmf_answered itt ch raw s (tr := TaskMgmtResp_UnmarshalBHS (raw_BHS raw)) :
  rt_pending (ss_router s) !! itt = Some (mkEntry ch false) -> rt_chans (ss_router s) !! ch = Some (make_chan 1) ->
  exists s1, session_dispatch itt raw s = Done ((), s1) /\
  sendTMF_wait WaitResponse itt ch s1 = Done (Ok (mkTMFResult (TaskMgmtResp_Response tr) None),
    set_expStatSN (next_expStatSN (TaskMgmtResp_StatSN tr) (ss_expStatSN s))
      (set_window (update (TaskMgmtResp_ExpCmdSN tr) (TaskMgmtResp_MaxCmdSN tr) (ss_window s)).1
        (set_router (Unregister itt (ss_router s)) s))).
Proof.
  intros Hp Hc.
  destruct (one_shot_exchange itt ch raw (Errorf "session: TMF response timeout after %v" []) s Hp Hc) as (r1 & Hd & Hr).
  exists (set_router r1 s). split; [exact Hd|]. unfold sendTMF_wait. rewrite (SM_bind_Done _ _ _ _ _ Hr). fold tr.
  set (s2 := set_router _ s). rewrite (SM_bind_Done _ _ _ _ _ (window_update_Done _ _ s2)). set (s3 := set_window _ s2).
  by rewrite (SM_bind_Done _ _ _ _ _ (updateStatSN_Done _ s3)).
Qed.

(** A task once it is given to the new connection *)
Definition reassigned (itt : Z) (t : task) : task :=
  mkTask itt (tk_lun t) (tk_cmd t) (tk_cmdSN t) (tk_buf t) (tk_resultCh t) (tk_done t)
    (tk_nextDataSN t) (tk_nextOffset t) (tk_isRead t) (tk_isWrite t) (tk_reader t) (tk_bytesSent t)
    (tk_streaming t) (tk_dataReader t) (tk_erl t) (tk_snackTimeout t) (tk_snack t).

(** Where [reassign] registers its two ITTs *)
Definition reassign_router (r : Router) : Router :=
  (Register (RegisterPersistent (AllocateITT r).1 (AllocateITT r).2).2).2.

Lemma reassign_router_spec r (n := rt_nextITT r) (ch := length (rt_chans r)) : 0 <= n -> n + 2 < reservedITT ->
  (AllocateITT r).1 = n /\
  (Register (RegisterPersistent (AllocateITT r).1 (AllocateITT r).2).2).1 = (n + 1, S ch) /\
  rt_nextITT (RegisterPersistent (AllocateITT r).1 (AllocateITT r).2).2 = n + 1 /\
  reassign_router r = mkRouter (<[n + 1 := mkEntry (S ch) false]> (<[n := mkEntry ch true]> (rt_pending r))) (n + 2)
    (rt_persistentDepth r) ((rt_chans r ++ [make_chan (rt_persistentDepth r)]) ++ [make_chan 1]).
Proof.
  intros H0 Hn. unfold reassign_router, Register, RegisterPersistent, AllocateITT, allocITT. subst n ch.
  set (n := rt_nextITT r) in *. cbn zeta. unfold reservedITT in *.
  rewrite (proj2 (Z.eqb_neq n _)) by lia.
  rewrite wrap_id by (unfold in_width; lia). cbn [fst snd]. rewrite (proj2 (Z.eqb_neq (n + 1) _)) by lia.
  cbn [rt_nextITT rt_chans rt_pending rt_persistentDepth fst snd].
  rewrite (proj2 (Z.eqb_neq (n + 1) _)) by lia. rewrite wrap_id by (unfold in_width; lia).
  replace (n + 1 + 1) with (n + 2) by lia. rewrite (proj2 (Z.eqb_neq (n + 2) _)) by lia. cbn.
  rewrite length_app, Nat.add_1_r. done.
Qed.

(** ** Properties *)

(** C31.  When every attempt to reconnect fails, each command in flight is answered
    with the last error, the table of commands is empty, the error is the
    session's, and the session is no longer recovering. *)
Theorem reconnect_failure_reports (s : Session) (cx cx' : CtxSched) (errs : list error) (cause : error)
    (n := Z.to_nat (sc_maxReconnectAttempts (ss_cfg s))) :
  ss_closed s = false -> in_flight_ok s -> (n <= length errs)%nat ->
  exists s', reconnect (alone cx) (alone cx') (mret ()) (map (fun e => quiet (Err e)) errs) cause s = Done ((), s') /\
    let lastErr := last_error (take n errs) cause in
    (forall itt id, ss_tasks s !! itt = Some id -> exists t', ss_objs s' !! id = Some t' /\
       ch_buf (tk_resultCh t') = [errResult (Wrapf "session: reconnect failed: %w" [] lastErr)] /\
       tk_done t' = true) /\
    ss_tasks s' = ∅ /\ ss_recovering s' = false /\
    ss_err s' = Some (Wrapf "session: reconnect failed after %d attempts: %w" [Z.of_nat n] lastErr).
Proof.
  intros Hc (Hop & Hnd & Hin) Hn. unfold reconnect.
  rewrite (SM_bind_Done _ _ s (ss_cfg s) s) by done. cbv zeta. fold n.
  rewrite (SM_bind_Done _ _ _ _ _ (reconnect_start_Done s Hc)). cbv iota beta.
  rewrite firstn_map.
  rewrite (SM_bind_Done _ _ _ _ _ (attempts_fail (take n errs) cause (gave_up s) Hc)).
  cbv iota beta. set (lastErr := last_error _ _). unfold reconnect_finish.
  set (s1 := set_recovering false (set_err (Some (Wrapf "session: reconnect failed after %d attempts: %w"
    [Z.of_nat n] lastErr)) (gave_up s))).
  rewrite (SM_bind_Done _ _ _ () s1) by done.
  destruct (cancel_all_Done (Wrapf "session: reconnect failed: %w" [] lastErr) (map_to_list (ss_tasks s)) s1)
    as (objs & H & Hcl & _); [done|done| |].
  { apply Forall_forall. intros id Hid. apply list_elem_of_fmap in Hid as ([itt id'] & -> & Hel).
    apply elem_of_map_to_list in Hel. destruct (Hin _ _ Hel) as (t & Ht & _). by exists t. }
  exists (set_objs objs s1). split; [exact H|]. split; [|done].
  intros itt id Ht. destruct (Hin _ _ Ht) as (t & Ho & Hw). exists (cancelled (Wrapf "session: reconnect failed: %w" [] lastErr) t).
  split; [|by split; apply cancelled_result].
  apply Hcl; [|done]. apply list_elem_of_fmap. exists (itt, id). split; [done|]. by apply elem_of_map_to_list.
Qed.

(** C32.  A session closed while its reconnect has attempts left abandons the commands
    in flight.  After any number of failed attempts, [Close] comes in a backoff, or
    during a dial and login that fail without being the last: it finds the table of
    commands empty, so it answers none of them, and the reconnect loop, once it sees
    that the session is closed, returns without answering them either: their task
    loops end, no result is ever delivered, and [done] stays open.  A [Close] before
    the reconnect has taken the commands from the table answers the one in flight. *)
Theorem close_abandons (s : Session) (cx cx' : CtxSched) (logout : SS ()) (errs : list error) (dialing : option error)
    (a : Attempt) (rest : list Attempt) (cause : error) (itt : Z) (id ch : nat) (t : task) :
  ss_closed s = false -> ss_recovering s = true ->
  (length errs + length (closing logout dialing a) <= Z.to_nat (sc_maxReconnectAttempts (ss_cfg s)))%nat ->
  ss_tasks s !! itt = Some id -> ss_objs s !! id = Some t -> idle_chan itt ch (ss_router s) ->
  (exists s', reconnect (alone cx) (alone cx') (mret ())
       (map (fun e => quiet (Err e)) errs ++ closing logout dialing a ++ rest) cause s = Done ((), s') /\
     ss_objs s' = ss_objs s /\ ss_tasks s' = ∅ /\ ss_closed s' = true /\ ss_recovering s' = false /\
     taskLoop_turn TakePDU id ch s' = Done (false, s')) /\
  (waiting t -> ss_tasks s = {[ itt := id ]} -> exists s' t', Close logout s = Done ((), s') /\
     ss_objs s' !! id = Some t' /\ ch_buf (tk_resultCh t') = [errResult errSessionClosed] /\ tk_done t' = true).
Proof.
  intros Hc Hr Hn Ht Ho Hi. split.
  - unfold reconnect. rewrite (SM_bind_Done _ _ s (ss_cfg s) s) by done. cbv zeta.
    rewrite (SM_bind_Done _ _ _ _ _ (reconnect_start_Done s Hc)). cbv iota beta.
    rewrite (SM_bind_Done _ _ _ _ _ (attempts_closing logout errs dialing a rest _ cause (gave_up s) Hc Hr eq_refl Hn)).
    set (s2 := set_recovering false _). exists s2. repeat (split; [done|]).
    apply (taskLoop_closed id ch t); [done|].
    apply (unregister_all_closes itt); [done|]. apply list_elem_of_fmap. exists (itt, id).
    split; [done|]. by apply elem_of_map_to_list.
  - intros Hw Htab. rewrite Close_recovering, Htab, map_to_list_singleton by done.
    assert (Hct : exists s', close_tasks [(itt, id)] (torn_down s) = Done ((), s') /\
      ss_objs s' = <[id := cancelled errSessionClosed t]> (ss_objs s)).
    { cbn [close_tasks].
      rewrite (SM_bind_Done _ _ _ _ _ (on_task_cancel id errSessionClosed (torn_down s) t Ho ltac:(by destruct Hw as [-> _]))).
      eexists. by split; [reflexivity|]. }
    destruct Hct as (s' & Hct & Ho'). rewrite (SM_bind_Done _ _ _ _ _ Hct).
    exists (reported SessionClosed s'), (cancelled errSessionClosed t). split; [done|]. split.
    + change (ss_objs s' !! id = Some (cancelled errSessionClosed t)). rewrite Ho'.
      apply list_lookup_insert_eq. by eapply lookup_lt_Some.
    + by split; apply cancelled_result.
Qed.

(** C33.  A session closed, with no command in flight, during the dial or login of a
    reconnect's first attempt, which succeeds, comes back: the
    reconnect, which looks at [closed] only before the dial, installs the new
    connection, and the session, although closed, is logged in and takes commands
    again; a further [Close] does nothing.  The state-change hook hears that the
    session is closed, and then that it is in full feature phase. *)
Theorem closed_session_reconnects (s : Session) (cx cx' : CtxSched) (logout : SS ()) (c : NewConn)
    (tries : list Attempt) (cause : error) (p := nc_params c) :
  ss_closed s = false -> ss_recovering s = true -> 0 < sc_maxReconnectAttempts (ss_cfg s) ->
  ss_tasks s = ∅ -> ss_draining s = false -> u32 (np_CmdSN p) -> u32 (np_ExpStatSN p) ->
  0 <= rt_nextITT (ss_router s) < reservedITT -> (0 < rt_persistentDepth (ss_router s))%nat ->
  exists s', reconnect (alone cx) (alone cx') (mret ()) (mkAttempt (mret ()) (Close logout) (Ok c) :: tries) cause s = Done ((), s') /\
    ss_closed s' = true /\ ss_cancelled s' = false /\ ss_loggedIn s' = true /\
    (exists w', ready (np_CmdSN p) w' s') /\ Close logout s' = Done ((), s') /\
    (sc_stateChangeHook (ss_cfg s) = true -> ss_states s' = ss_states s ++ [SessionClosed; SessionFullFeature]).
Proof.
  intros Hc Hr Hn Ht Hd Hsn Hst Hnext Hdep. unfold reconnect.
  rewrite (SM_bind_Done _ _ s (ss_cfg s) s) by done. cbv zeta.
  rewrite (SM_bind_Done _ _ _ _ _ (reconnect_start_Done s Hc)). cbv iota beta.
  destruct (Z.to_nat (sc_maxReconnectAttempts (ss_cfg s))) as [|n] eqn:En; [lia|]. cbn [take].
  set (s1 := gave_up s).
  assert (Ha : attempts (mkAttempt (mret ()) (Close logout) (Ok c) :: take n tries) cause s1
    = Done (Some (Ok c), reported SessionClosed (torn_down s1))).
  { cbn [attempts at_backoff at_login at_outcome]. rewrite (SM_bind_Done _ _ s1 () s1) by done.
    rewrite (SM_bind_Done _ _ _ _ _ (abort_if_closed_open s1 Hc)).
    by rewrite (SM_bind_Done _ _ _ _ _ (Close_no_tasks logout s1 Hc Hr eq_refl)). }
  rewrite (SM_bind_Done _ _ _ _ _ Ha). cbv iota beta. unfold reconnect_finish. rewrite Ht, map_to_list_empty.
  set (s2 := reported SessionFullFeature (installed c (reported SessionClosed (torn_down s1)))).
  set (s3 := set_recovering false s2).
  rewrite (SM_bind_Done _ _ _ () (installed c (reported SessionClosed (torn_down s1)))) by done.
  rewrite (SM_bind_Done _ _ _ () s2) by done. cbn [retryTasks]. rewrite (SM_bind_Done _ _ s2 () s2) by done.
  exists s3. split; [done|]. do 3 (split; [done|]). split; [|split; [done|]].
  2: { intros Hh. cbn. rewrite Hh. by rewrite <- app_assoc. }
  exists (allocSN (newCmdWindow (np_CmdSN p) (np_CmdSN p) (np_CmdSN p))).2.
  unfold ready. split; [done|]. split; [done|]. split; [by apply new_window_opens|].
  split; [done|]. split; [done|]. subst s3 s2 s1. cbn. by rewrite Ht, map_to_list_empty.
Qed.

(** C8.  A read survives the loss of its connection, when it is the only command in
    flight, is not streaming and has put no Data-In aside.  Whatever part of the data
    had arrived, a reconnect whose first attempt succeeds and with which nothing else
    interferes submits the command again, with a new ITT and the new session's CmdSN,
    and when the target answers it in full and in order the caller gets exactly one
    result, with exactly the data of the new answer.  ([stale_data_delivered] is what
    happens to a read that has put a Data-In aside.) *)
Theorem read_survives_reconnect (s : Session) (cx cx' : CtxSched) (c : NewConn) (tries : list Attempt)
    (cause : error) (itt : Z) (id : nat) (t : task)
    (parts : list bytes) (raw : nat -> RawPDU) (din : nat -> DataIn) (p := nc_params c) :
  let n := length parts in
  let pdu i := DataIn_with_Data (raw_DataSegment (raw i)) (din i) in
  ss_closed s = false -> 0 < sc_maxReconnectAttempts (ss_cfg s) ->
  ss_tasks s = {[ itt := id ]} -> ss_objs s !! id = Some t -> reading t ->
  u32 (np_CmdSN p) -> u32 (np_ExpStatSN p) ->
  0 <= rt_nextITT (ss_router s) < reservedITT -> (0 < rt_persistentDepth (ss_router s))%nat ->
  (cx_done cx' && cx_pick cx') = false -> (0 < n)%nat -> Z.of_nat n < 2 ^ 32 ->
  Z.of_nat (length (concat parts)) < 2 ^ 32 ->
  (forall i, (i < n)%nat -> DecodeBHS (raw_BHS (raw i)) = Ok (PDataIn (din i))) ->
  (forall i, DataIn_DataSN (pdu i) = Z.of_nat i) ->
  (forall i, (i < n)%nat -> DataIn_BufferOffset (pdu i) = Z.of_nat (length (prefix parts i))) ->
  (forall i, (i < n)%nat -> parts !! i = Some (DataIn_Data (pdu i))) ->
  (forall i, (i < n)%nat -> DataIn_HasStatus (pdu i) = bool_decide (S i = n)) ->
  exists ch s1 s2 bhs t',
    reconnect (alone cx) (alone cx') (mret ()) (quiet (Ok c) :: tries) cause s = Done ((), s1) /\
    ss_loops s1 = ss_loops s ++ [(id, ch)] /\ ss_recovering s1 = false /\
    ch_buf (ss_writeCh s1) = [stampDigests (nc_digestHeader c) (nc_digestData c) (newRawPDU bhs [])] /\
    DecodeBHS bhs = Ok (PSCSICommand (SCSICommand_wire
      (command_request (tk_cmd t) (next_itt s) (np_CmdSN p) (np_ExpStatSN p) []))) /\
    feed (next_itt s) id ch (map raw (seq 0 n)) s1 = Done (false, s2) /\
    ss_objs s2 !! id = Some t' /\ ch_buf (tk_resultCh t') = [transfer_result parts pdu] /\
    ss_tasks s2 = ∅.
Proof.
  intros n pdu Hc Hmax Htab Ho ((Hres & Hdone) & Hstr & Hrd & Hwr & [b Hbuf] & Hpend & Hok) Hsn Hst Hnext Hdep Hcx
    Hn0 Hn32 Htot Hraw HSN Hoff Hdata Hstat.
  assert (Hfr := unregister_all_frame (map_to_list (ss_tasks s)) (ss_router s)).
  destruct Hfr as (F1 & F2 & F3 & _ & _).
  set (s0 := reported SessionFullFeature (installed c (gave_up s))).
  assert (Hitt : next_itt s0 = next_itt s).
  { by apply next_itt_eq. }
  assert (Hroom : room 1 (ss_writeCh s0)) by (split; [done|cbn; lia]).
  destruct (retryTask_read cx cx' id s0 t (np_CmdSN p) (allocSN (newCmdWindow (np_CmdSN p) (np_CmdSN p) (np_CmdSN p))).2
    0 Ho Hstr Hrd Hwr) as (bhs & Hretry & Hdec); [by apply new_window_opens|done|done|by cbn; rewrite F1|done|done|done|].
  set (raw0 := stampDigests _ _ _) in Hretry. set (s1 := resubmitted _ _ _ _ _) in Hretry.
  set (s2 := set_recovering false s1). rewrite Hitt in Hdec.
  assert (Hrec : reconnect (alone cx) (alone cx') (mret ()) (quiet (Ok c) :: tries) cause s = Done ((), s2)).
  { unfold reconnect. rewrite (SM_bind_Done _ _ s (ss_cfg s) s) by done. cbv zeta.
    rewrite (SM_bind_Done _ _ _ _ _ (reconnect_start_Done s Hc)). cbv iota beta.
    destruct (Z.to_nat (sc_maxReconnectAttempts (ss_cfg s))) as [|m] eqn:Em; [lia|]. cbn [take].
    rewrite (SM_bind_Done _ _ (gave_up s) (Some (Ok c)) (gave_up s)) by by rewrite attempts_quiet.
    unfold reconnect_finish. rewrite (SM_bind_Done _ _ _ () (installed c (gave_up s))) by done.
    rewrite (SM_bind_Done (fireStateChange SessionFullFeature) _ (installed c (gave_up s)) () s0 eq_refl).
    assert (Hall : retryTasks (alone cx) (alone cx') (map_to_list (ss_tasks s)) s0 = Done ((), s1)).
    { rewrite Htab, map_to_list_singleton. cbn [retryTasks]. rewrite (SM_bind_Done _ _ _ _ _ Hretry). reflexivity. }
    rewrite (SM_bind_Done _ _ _ _ _ Hall). reflexivity. }
  set (t1 := retried (next_itt s0) t).
  assert (Ho2 : ss_objs s2 !! id = Some t1) by (apply list_lookup_insert_eq; by eapply lookup_lt_Some).
  assert (Hrec1 : received parts raw din (tk_erl t) (next_itt s0) 0 t1).
  { split; [|split; [lia|split; [apply not_elem_of_nil|split; [lia|constructor]]]].
    unfold done_results. rewrite (proj2 (Nat.eqb_neq 0 _)) by (fold n; lia).
    split; try done; [by cbn; rewrite Hbuf|].
    intros z d. change (pending_of t1) with (pending_of t). rewrite Hpend, lookup_empty.
    split; [done|]. intros (j & _ & _ & Hj & _). by apply not_elem_of_nil in Hj. }
  assert (Hl : listening (next_itt s0) (next_ch s0) (ss_router s2)).
  { change (ss_router s2) with (RegisterPersistent (next_itt s0) (AllocateITT (ss_router s0)).2).2.
    apply register_listening. change (0 < rt_persistentDepth (unregister_all (map_to_list (ss_tasks s)) (ss_router s)))%nat.
    by rewrite F2. }
  destruct (feed_rest parts raw din (tk_erl t) (next_itt s0) Hraw ltac:(lia) Htot HSN Hoff Hdata Hstat n 0
    id (next_ch s0) s2 t1 eq_refl Hn0 Ho2 Hrec1 eq_refl Hl) as (s3 & t' & Hfeed & E1 & Hrec' & _ & E2 & E3 & _).
  exists (next_ch s0), s2, s3, bhs, t'. rewrite <- Hitt.
  split; [exact Hrec|]. split; [reflexivity|]. split; [reflexivity|]. split; [reflexivity|].
  rewrite Hitt. split; [exact Hdec|]. rewrite <- Hitt. split; [exact Hfeed|].
  split; [rewrite E1; apply list_lookup_insert_eq; exact (lookup_lt_Some _ _ _ Ho2)|].
  split.
  { by destruct (received_result parts raw din (tk_erl t) (next_itt s0) Hraw ltac:(lia) Htot HSN Hoff Hdata
      Hstat t' Hrec') as [-> _]. }
  rewrite E3. change (ss_tasks s2) with (<[next_itt s0 := id]> (∅ : gmap Z nat)).
  by rewrite delete_insert_eq, delete_empty.
Qed.

(** A reassigned task cannot be reached.  The TASK REASSIGN request names the
    task by its ITT, and no PDU mentions the new ITT that [replaceConnection] has
    allocated; but once the target has accepted, the task is known only by the new
    ITT, so that what the target goes on sending for the task it was asked to
    reassign is dispatched to nobody. *)
Theorem reassigned_task_unreachable (s : Session) (cx : CtxSched) (itt : Z) (id : nat) (t : task) (resp : RawPDU)
    (n := rt_nextITT (ss_router s)) (x := mkExchange (mret cx) (session_dispatch (n + 1) resp) WaitResponse) :
  ss_objs s !! id = Some t -> u32 itt -> itt <> n -> itt <> n + 1 -> 0 <= tk_lun t <= 0xFFFF ->
  0 <= n -> n + 2 < reservedITT -> (0 < rt_persistentDepth (ss_router s))%nat ->
  u32 (cw_cmdSN (ss_window s)) -> u32 (ss_expStatSN s) -> (cx_done cx && cx_pick cx) = false ->
  room 1 (ss_writeCh s) -> TaskMgmtResp_Response (TaskMgmtResp_UnmarshalBHS (raw_BHS resp)) = TMFRespComplete ->
  exists s' bhs req, reassign x itt id s = Done ((), s') /\
    ss_writeCh s' = sent_on [stampDigests (ss_digestHeader s) (ss_digestData s) (newRawPDU bhs [])] (ss_writeCh s) /\
    DecodeBHS bhs = Ok (PTaskMgmtReq req) /\ TaskMgmtReq_ReferencedTaskTag req = itt /\
    InitiatorTaskTag (TaskMgmtReq_Hdr req) = n + 1 /\
    ss_tasks s' = delete itt (<[n := id]> (ss_tasks s)) /\ ss_objs s' = <[id := reassigned n t]> (ss_objs s) /\
    listening n (length (rt_chans (ss_router s))) (ss_router s') /\
    (forall raw, Dispatch itt raw (ss_router s') = Done (false, ss_router s')).
Proof.
  intros Ho Hitt Hne1 Hne2 Hlun H0 Hn Hdep Hsn He Hcx Hroom Hresp.
  destruct (reassign_router_spec (ss_router s) H0 Hn) as (R1 & R2 & R3 & R4). fold n in R1, R2, R3, R4.
  set (ra := (RegisterPersistent (AllocateITT (ss_router s)).1 (AllocateITT (ss_router s)).2).2) in *.
  set (ch := length (rt_chans (ss_router s))) in *.
  set (s2 := set_router ra s).
  destruct (tmf_request_ok TMFTaskReassign itt (tk_lun t) s2) as (bhs & Hreq & Hdec); try done.
  { change (rt_nextITT (ss_router s2)) with (rt_nextITT ra). rewrite R3. lia. }
  change (ss_router s2) with ra in Hreq, Hdec. rewrite R2 in Hreq, Hdec. change (Register ra).2 with (reassign_router (ss_router s)) in Hreq.
  rewrite R4 in Hreq. set (r3 := mkRouter _ _ _ _) in Hreq. set (raw0 := stampDigests _ _ _) in Hreq.
  set (s3 := set_writeCh (sent_on [raw0] (ss_writeCh s)) (set_router r3 s2)).
  destruct (tmf_answered (n + 1) (S ch) resp s3) as (s4 & Hdisp & Hwait); [by apply lookup_insert_eq| |].
  { change (rt_chans (ss_router s3)) with ((rt_chans (ss_router s) ++ [make_chan (rt_persistentDepth (ss_router s))]) ++ [make_chan 1]).
    rewrite lookup_app_r by (rewrite length_app; cbn; lia). rewrite length_app. cbn.
    by replace (S ch - (length (rt_chans (ss_router s)) + 1))%nat with 0%nat by (subst ch; lia). }
  set (tr := TaskMgmtResp_UnmarshalBHS (raw_BHS resp)) in *. set (s6 := set_expStatSN _ _) in Hwait.
  assert (Hex : run_exchange x sendTMF_wait (Ok (n + 1, S ch, raw0)) (set_router r3 s2)
    = Done (Ok (mkTMFResult (TaskMgmtResp_Response tr) None), s6)).
  { cbn [run_exchange x ex_send ex_others ex_wait]. rewrite (SM_bind_Done _ _ (set_router r3 s2) cx (set_router r3 s2)) by done.
    rewrite (SM_bind_Done _ _ _ _ _ (send_request_ok cx (n + 1) (S ch) raw0 (set_router r3 s2) 0 Hcx Hroom)).
    by rewrite (SM_bind_Done _ _ _ _ _ Hdisp). }
  assert (Hre : reassign x itt id s = reassign_finish itt id n ch (Ok (mkTMFResult (TaskMgmtResp_Response tr) None)) s6).
  { unfold reassign. rewrite (SM_bind_Done _ _ _ _ _ (task_at_Done id s t Ho)).
    rewrite (SM_bind_Done _ _ s n (set_router (AllocateITT (ss_router s)).2 s))
      by (unfold router_AllocateITT; rewrite <- R1; by destruct (AllocateITT (ss_router s))).
    rewrite (SM_bind_Done _ _ _ ch s2)
      by (unfold router_RegisterPersistent, s2, ra; rewrite R1; unfold ch, AllocateITT; by destruct (allocITT (rt_nextITT (ss_router s)))).
    rewrite (SM_bind_Done _ _ _ _ _ Hreq). by rewrite (SM_bind_Done _ _ _ _ _ Hex). }
  set (s7 := set_router (Unregister itt (Unregister (n + 1) r3)) s6).
  set (s8 := set_objs (<[id := reassigned n t]> (ss_objs s)) s7).
  assert (Hfin : reassign_finish itt id n ch (Ok (mkTMFResult (TaskMgmtResp_Response tr) None)) s6
    = Done ((), set_loops (ss_loops s ++ [(id, ch)]) (set_tasks (delete itt (<[n := id]> (ss_tasks s))) s8))).
  { unfold reassign_finish. cbn [tmf_Response]. rewrite Hresp. cbv zeta. cbn [TMFRespComplete Z.eqb].
    rewrite (SM_bind_Done _ _ s6 () s7) by done.
    rewrite (SM_bind_Done _ _ _ _ _ (on_task_upd id (reassigned n) s7 t Ho)). reflexivity. }
  rewrite Hre, Hfin. eexists _, bhs, _. split; [reflexivity|]. split; [reflexivity|]. split; [exact Hdec|].
  split; [done|]. split; [done|]. split; [reflexivity|]. split; [reflexivity|].
  set (sf := set_loops _ _).
  change (ss_router sf) with (Unregister itt (Unregister (n + 1) r3)).
  split.
  - split.
    + cbn. rewrite lookup_delete_ne by done. rewrite lookup_delete_ne by lia.
      rewrite lookup_insert_ne by lia. apply lookup_insert_eq.
    + exists (rt_persistentDepth (ss_router s) - 1)%nat. cbn.
      rewrite lookup_app_l by (rewrite length_app; cbn; lia). rewrite lookup_app_r, Nat.sub_diag by lia. cbn.
      unfold make_chan. do 2 f_equal. lia.
  - intros raw. unfold Dispatch, dispatchLookup. cbn [Unregister rt_pending].
    rewrite lookup_delete_eq. reflexivity.
Qed.

(** ** Witnesses *)

(** A session in recovery with one read in flight, of which a byte has arrived *)
Definition test_reading : task :=
  set_tk_nextDataSN 1 (set_tk_nextOffset 1 (set_tk_buf (Some [9]) (submit_task 0 test_read 1 test_session))).
Definition test_lost : Session :=
  set_recovering true (set_tasks {[ 0 := 0%nat ]} (set_objs [test_reading]
    (set_router (RegisterPersistent 0 (AllocateITT (ss_router test_session)).2).2 test_session))).
Definition test_conn : NewConn := mkNewConn (set_CmdSN 7 (set_ExpStatSN 3 Defaults)) false false.

Lemma test_lost_in_flight : in_flight_ok test_lost.
Proof.
  split; [by repeat constructor|]. split.
  - change (ss_tasks test_lost) with ({[ 0 := 0%nat ]} : gmap Z nat). rewrite map_to_list_singleton.
    apply NoDup_singleton.
  - intros itt id H. change (({[ 0 := 0%nat ]} : gmap Z nat) !! itt = Some id) in H.
    apply lookup_singleton_Some in H as [<- <-]. by exists test_reading.
Qed.

Lemma reconnect_failure_reports_witness :
  let cx := mkCtxSched false false in
  exists s', reconnect (alone cx) (alone cx) (mret ()) (map (fun e => quiet (Err e)) [EOF; EOF; ErrCtx]) EOF test_lost = Done ((), s') /\
    ss_tasks s' = ∅ /\ exists t', ss_objs s' !! 0%nat = Some t' /\
    ch_buf (tk_resultCh t') = [errResult (Wrapf "session: reconnect failed: %w" [] ErrCtx)].
Proof.
  intros cx.
  destruct (reconnect_failure_reports test_lost cx cx [EOF; EOF; ErrCtx] EOF) as (s' & H1 & H2 & H3 & _).
  - reflexivity.
  - exact test_lost_in_flight.
  - apply Nat.leb_le. reflexivity.
  - exists s'. split; [exact H1|]. split; [exact H3|].
    destruct (H2 0 0%nat eq_refl) as (t' & Ht & Hr & _). exists t'. split; [exact Ht|exact Hr].
Defined.

Lemma close_abandons_witness :
  let cx := mkCtxSched false false in
  exists s' ch, reconnect (alone cx) (alone cx) (mret ())
    [quiet (Err EOF); mkAttempt (mret ()) (Close (mret ())) (Err ErrCtx); quiet (Ok test_conn)] EOF test_lost = Done ((), s') /\
    ss_closed s' = true /\ ss_objs s' = [test_reading] /\ taskLoop_turn TakePDU 0 ch s' = Done (false, s').
Proof.
  intros cx.
  destruct (close_abandons test_lost cx cx (mret ()) [EOF] (Some ErrCtx) (quiet (Ok test_conn)) [] EOF 0 0 0 test_reading)
    as [(s' & H1 & H2 & _ & H3 & _ & H4) _]; try reflexivity.
  - split; [reflexivity|]. exists 64%nat. reflexivity.
  - exists s', 0%nat. split; [exact H1|]. split; [exact H3|]. split; [exact H2|exact H4].
Defined.

Lemma closed_session_reconnects_witness :
  let cx := mkCtxSched false false in
  let s := set_tasks ∅ test_lost in
  exists s', reconnect (alone cx) (alone cx) (mret ()) [mkAttempt (mret ()) (Close (mret ())) (Ok test_conn)] EOF s = Done ((), s') /\
    ss_closed s' = true /\ ss_loggedIn s' = true /\ exists w', ready 7 w' s'.
Proof.
  intros cx s.
  destruct (closed_session_reconnects s cx cx (mret ()) test_conn [] EOF) as (s' & H1 & H2 & _ & H3 & H4 & _);
    try reflexivity; try (by apply (bool_decide_unpack _); vm_compute).
  exists s'. split; [exact H1|]. split; [exact H2|]. split; [exact H3|exact H4].
Defined.

(** A read at ErrorRecoveryLevel 1 that has put a Data-In of the lost connection
    aside *)
Definition stale_din : DataIn :=
  mkDataIn (mkHeader false OpDataIn true 0 1 (zeros 8) 0) false false false false 0 0xFFFFFFFF 1 2 9 2 2 0 [66].
Definition test_stale : task :=
  set_tk_snack (Some (mkSnackState {[ 2 := stale_din ]} true false)) (set_tk_erl 1 test_reading).
Definition test_lost_stale : Session := set_objs [test_stale] test_lost.
Definition test_parts : list bytes := [[1]; [2]; [3]; [4]].

Lemma read_survives_reconnect_witness :
  let cx := mkCtxSched false false in
  let parts := [[1; 2; 3]; [4]] in
  exists s1 s2 t, reconnect (alone cx) (alone cx) (mret ()) [quiet (Ok test_conn)] EOF test_lost = Done ((), s1) /\
    feed 1 0 1 (map (target_raw parts) [0; 1]%nat) s1 = Done (false, s2) /\
    ss_objs s2 !! 0%nat = Some t /\ length (ch_buf (tk_resultCh t)) = 1%nat /\ ss_tasks s2 = ∅.
Proof.
  intros cx parts. set (din i := DataIn_wire (target_din parts i)).
  destruct (read_survives_reconnect test_lost cx cx test_conn [] EOF 0 0 test_reading parts (target_raw parts) din)
    as (ch & s1 & s2 & bhs & t & H1 & H2 & _ & _ & _ & H3 & H4 & H5 & H6);
    try reflexivity; try (by apply (bool_decide_unpack _); vm_compute).
  - split; [by split|]. repeat (split; [reflexivity|]). split; [by exists [9]|]. split; [reflexivity|].
    unfold Command_ok. repeat (split; [vm_compute; done|]). apply (bool_decide_unpack _). by vm_compute.
  - intros i Hi. by do 2 (destruct i as [|i]; [vm_compute; reflexivity|]); simpl in Hi; lia.
  - intros i Hi. by do 2 (destruct i as [|i]; [reflexivity|]); simpl in Hi; lia.
  - assert (ch = 1%nat) as ->.
    { assert (Hloops : ss_loops s1 = [(0, 1)]%nat).
      { assert (H1' := H1). vm_compute in H1'. injection H1' as <-. reflexivity. }
      rewrite Hloops in H2. by injection H2 as ->. }
    exists s1, s2, t. split; [exact H1|]. split; [exact H3|]. split; [exact H4|]. split; [by rewrite H5|exact H6].
Defined.

(** A read that is retried keeps the Data-In PDUs it had put aside before the
    connection was lost, and delivers them as data of the new answer: a target
    that answers the retried command with the four bytes 1, 2, 3, 4 in order has
    its third byte replaced by the stale one, and the read reports success. *)
Theorem stale_data_delivered :
  let cx := mkCtxSched false false in
  exists s1 s2 t, reconnect (alone cx) (alone cx) (mret ()) [quiet (Ok test_conn)] EOF test_lost_stale = Done ((), s1) /\
    feed 1 0 1 (map (target_raw test_parts) (seq 0 4)) s1 = Done (false, s2) /\ ss_objs s2 !! 0%nat = Some t /\
    ch_buf (tk_resultCh t) = [mkResult 0 [] (Some (NewReader [1; 2; 66; 4])) false false 0 None] /\
    concat test_parts = [1; 2; 3; 4].
Proof.
  intros cx.
  set (s1 := match reconnect (alone cx) (alone cx) (mret ()) [quiet (Ok test_conn)] EOF test_lost_stale with
             | Done (_, s) => s | _ => test_lost_stale end).
  set (s2 := match feed 1 0 1 (map (target_raw test_parts) (seq 0 4)) s1 with Done (_, s) => s | _ => s1 end).
  set (t := match ss_objs s2 with t :: _ => t | [] => test_stale end).
  exists s1, s2, t. split; [by vm_compute|]. split; [by vm_compute|]. split; [by vm_compute|].
  by split; vm_compute.
Qed.

Definition test_tmfResp : TaskMgmtResp := mkTaskMgmtResp (mkHeader false OpTaskMgmtResp true 0 0 (zeros 8) 2) 0 1 2 9.

Lemma reassigned_task_unreachable_witness :
  let cx := mkCtxSched false false in
  let resp := newRawPDU (match TaskMgmtResp_MarshalBHS test_tmfResp with Ok bhs => bhs | Err _ => [] end) [] in
  exists s', reassign (mkExchange (mret cx) (session_dispatch 2 resp) WaitResponse) 0 0 test_lost = Done ((), s') /\
    ss_tasks s' !! 1 = Some 0%nat /\ ss_tasks s' !! 0 = None /\
    forall raw, Dispatch 0 raw (ss_router s') = Done (false, ss_router s').
Proof.
  intros cx resp.
  destruct (reassigned_task_unreachable test_lost cx 0 0 test_reading resp) as (s' & bhs & req & H1 & _ & _ & _ & _ & H2 & _ & _ & H3);
    try reflexivity; try (by apply (bool_decide_unpack _); vm_compute); try (by vm_compute).
  exists s'. split; [exact H1|]. rewrite H2. split; [reflexivity|]. split; [reflexivity|exact H3].
Defined.
