(* ===== verification/Loops.v ===== *)
(** The goroutines of a session: what the ends of its pumps do to it, the dispatch
    loop, the logout a target asks for, and the hooks that observe PDUs
    ([src/internal/session/session.go], [async.go], [metrics.go], [state.go]). *)
From S2P Require Import Prelude Errors Bhs PduTactics PduInitiator PduTarget Pdu GoIO Digest Framer.
From S2P Require Import Chan Serial Router Pump Negotiation CmdWindow Config Types Task DataOut Session.
From S2P Require Import Unsolicited Lifecycle TaskLoop.
#[local] Open Scope string_scope.
#[local] Open Scope list_scope.
#[local] Open Scope Z_scope.

(** ** Ends of the pumps *)

(** [readPumpLoop] once [ReadPump] has returned [err]; [ctxDone] is whether the
    connection's context is done. *)
Definition readPumpLoop_end (err : option error) (ctxDone : bool) : SS () :=
  match err with
  | None => mret ()
  | Some e =>
      if ctxDone then mret ()
      else
        match errors_As as_DigestError e with
        | Some _ => set_first_err (Wrapf "session: digest mismatch (connection fatal): %w" [] e)
        | None =>
            cfg ← SM_get ss_cfg;
            if reconnectEnabled cfg then triggerReconnect (Wrapf "session: read pump: %w" [] e)
            else set_first_err (Wrapf "session: read pump: %w" [] e)
        end
  end.

Definition writePumpLoop_end (err : option error) (ctxDone : bool) : SS () :=
  match err with
  | Some e => if ctxDone then mret () else set_first_err (Wrapf "session: write pump: %w" [] e)
  | None => mret ()
  end.

(** [dispatchLoop] on the unsolicited PDUs it receives *)
Fixpoint dispatchLoop (raws : list RawPDU) : SS () :=
  match raws with
  | [] => mret ()
  | raw :: raws => _ ← handleUnsolicited raw; dispatchLoop raws
  end.

(** ** Logout on the target's request *)

(** The deadline in seconds; [Parameter3] 0 means 30 *)
Definition logout_deadline (evt : AsyncEvent) : Z :=
  if ae_Parameter3 evt <=? 0 then 30 else ae_Parameter3 evt.

(** [others]: what other goroutines do during the wait of DefaultTime2Wait;
    [exchange] and [again]: the logout exchanges of the handler and of [Close] *)
Definition handleTargetRequestedLogout (evt : AsyncEvent) (others exchange again : SS ()) : SS () :=
  params ← SM_get ss_params;
  let wait := np_DefaultTime2Wait params in
  closed ← (if (0 <? wait) && (wait <? logout_deadline evt)
            then _ ← others; SM_get ss_closed
            else mret false);
  if (closed : bool) then mret ()
  else
    _ ← exchange;
    Close again.

(** ** Hooks *)

Inductive PDUDirection := PDUSend | PDUReceive.
Definition PDUDirection_String (d : PDUDirection) : string :=
  match d with PDUSend => "send" | PDUReceive => "receive" end.

Inductive MetricEventType :=
  MetricPDUSent | MetricPDUReceived | MetricCommandComplete | MetricBytesIn | MetricBytesOut.
Definition MetricEventType_String (t : MetricEventType) : string :=
  match t with
  | MetricPDUSent => "pdu_sent" | MetricPDUReceived => "pdu_received"
  | MetricCommandComplete => "command_complete" | MetricBytesIn => "bytes_in" | MetricBytesOut => "bytes_out"
  end.
#[export] Instance MetricEventType_eq_dec : EqDecision MetricEventType.
Proof. solve_decision. Defined.

Record MetricEvent := mkMetricEvent {
  me_Type : MetricEventType;
  me_OpCode : Z;
  me_Bytes : Z;
  me_Latency : Z;
}.

(** A call of the bridge: the calls of the PDU hook and of the metrics hook *)
Definition pduHookBridge (cfg : sessionConfig) (dir : Z) (raw : RawPDU)
    : list (PDUDirection * RawPDU) * list MetricEvent :=
  (if sc_pduHook cfg then [(if dir =? HookReceive then PDUReceive else PDUSend, raw)] else [],
   if sc_metricsHook cfg then
     let opcode := Z.land (byte_at 0 (raw_BHS raw)) 0x3f in
     let dsLen := bhs_dsLen (raw_BHS raw) in
     if dir =? HookSend then
       mkMetricEvent MetricPDUSent opcode 0 0 ::
       (if dsLen >? 0 then [mkMetricEvent MetricBytesOut 0 dsLen 0] else [])
     else
       mkMetricEvent MetricPDUReceived opcode 0 0 ::
       (if dsLen >? 0 then [mkMetricEvent MetricBytesIn 0 dsLen 0] else [])
   else []).

(** The hook calls of a run of the pumps, in the order of its PDUs *)
Definition observed (cfg : sessionConfig) (log : list (Z * RawPDU)) : list MetricEvent :=
  concat (map (fun '(dir, raw) => (pduHookBridge cfg dir raw).2) log).

(** ** Specification: totals *)

(** How many PDUs, and how many bytes, events of a type report *)
Definition count_events (ty : MetricEventType) (l : list MetricEvent) : nat :=
  length (filter (fun e => me_Type e = ty) l).
Definition total_bytes (ty : MetricEventType) (l : list MetricEvent) : Z :=
  foldr Z.add 0 (map me_Bytes (filter (fun e => me_Type e = ty) l)).

(** A PDU whose BHS says how long its data segment is *)
Definition well_framed (raw : RawPDU) : Prop :=
  Z.of_nat (length (raw_DataSegment raw)) = bhs_dsLen (raw_BHS raw).

(** The PDUs of a log in one direction *)
Definition in_direction (dir : Z) (log : list (Z * RawPDU)) : list RawPDU :=
  map snd (filter (fun e => e.1 = dir) log).
Definition data_bytes (l : list RawPDU) : Z :=
  foldr Z.add 0 (map (fun raw => Z.of_nat (length (raw_DataSegment raw))) l).


(** ** Lemmas *)

Lemma observed_cons cfg dir raw log :
  observed cfg ((dir, raw) :: log) = (pduHookBridge cfg dir raw).2 ++ observed cfg log.
Proof. done. Qed.

Lemma count_events_app ty l l' : count_events ty (l ++ l') = (count_events ty l + count_events ty l')%nat.
Proof. unfold count_events. by rewrite filter_app, length_app. Qed.

Lemma total_bytes_app ty l l' : total_bytes ty (l ++ l') = total_bytes ty l + total_bytes ty l'.
Proof.
  unfold total_bytes. rewrite filter_app, map_app, foldr_app.
  induction (map me_Bytes (filter _ l)) as [|b bs IH]; [done|]. cbn [foldr]. rewrite IH. lia.
Qed.

(** ** Properties *)

(** The metrics add up.  For every interleaving of the PDUs a session sends and
    receives, the hook reports each PDU once, in its direction, and the bytes it
    reports are the bytes of their data segments. *)
Theorem metrics_account (cfg : sessionConfig) (log : list (Z * RawPDU)) :
  sc_metricsHook cfg = true ->
  Forall (fun e => (e.1 = HookSend \/ e.1 = HookReceive) /\ well_framed e.2) log ->
  let events := observed cfg log in
  (count_events MetricPDUSent events = length (in_direction HookSend log) /\
   count_events MetricPDUReceived events = length (in_direction HookReceive log)) /\
  total_bytes MetricBytesOut events = data_bytes (in_direction HookSend log) /\
  total_bytes MetricBytesIn events = data_bytes (in_direction HookReceive log) /\
  count_events MetricCommandComplete events = O.
Proof.
  intros Hcfg H. induction H as [|[dir raw] log [Hdir Hraw] H IH]; [done|].
  cbv zeta in *. cbn [fst snd] in *. rewrite observed_cons, !count_events_app, !total_bytes_app.
  destruct IH as ((-> & ->) & -> & -> & ->). unfold pduHookBridge. rewrite Hcfg.
  unfold well_framed in Hraw. rewrite <- Hraw. unfold in_direction, data_bytes.
  destruct Hdir as [-> | ->]; cbn [fst snd HookSend HookReceive Z.eqb];
    rewrite ?filter_cons_True, ?filter_cons_False by done; cbn [map length foldr snd];
    destruct (Z.gtb_spec (Z.of_nat (length (raw_DataSegment raw))) 0);
    unfold count_events, total_bytes;
    repeat first [rewrite filter_cons_True by done | rewrite filter_cons_False by done];
    rewrite ?filter_nil; cbn; repeat split; lia.
Qed.

Definition test_hooks : sessionConfig := WithMetricsHook true defaultConfig.
Definition test_log : list (Z * RawPDU) :=
  let bhs n := 0x01 :: zeros 6 ++ [n] ++ zeros 40 in
  [(HookSend, newRawPDU (bhs 2) [5; 6]); (HookReceive, newRawPDU (bhs 0) []); (HookReceive, newRawPDU (bhs 1) [7])].

Lemma metrics_account_witness :
  total_bytes MetricBytesOut (observed test_hooks test_log) = 2 /\
  count_events MetricPDUReceived (observed test_hooks test_log) = 2%nat.
Proof.
  destruct (metrics_account test_hooks test_log) as [[_ H1] [H2 _]].
  - reflexivity.
  - repeat (constructor; [split; [by left + by right|by vm_compute]|]). constructor.
  - rewrite H2, H1. split; reflexivity.
Defined.

(** What stays as it was when a connection is lost without a recovery *)
Definition unattended (s s' : Session) : Prop :=
  ss_objs s' = ss_objs s /\ ss_tasks s' = ss_tasks s /\ ss_spawned s' = ss_spawned s /\
  ss_router s' = ss_router s /\ ss_states s' = ss_states s /\ is_Some (ss_err s').

(** A recovery is started: the hook hears of it, and the goroutine of the session's
    error recovery level runs. *)
Definition recovers (cause : error) (s s' : Session) : Prop :=
  ss_recovering s' = true /\ ss_states s' = ss_states (reported SessionReconnecting s) /\
  ss_spawned s' = ss_spawned s ++ [if np_ErrorRecoveryLevel (ss_params s) >=? 2
                                   then SpawnReplaceConnection cause else SpawnReconnect cause].

(** A session that a recovery can be started of *)
Definition recoverable (s : Session) : Prop :=
  reconnectEnabled (ss_cfg s) = true /\ ss_closed s = false /\ ss_recovering s = false.

Lemma triggerReconnect_recovers cause s : recoverable s -> exists s', triggerReconnect cause s = Done ((), s') /\ recovers cause s s'.
Proof.
  intros (_ & Hc & Hrec). unfold triggerReconnect.
  rewrite (SM_bind_Done _ _ s (ss_closed s) s), (SM_bind_Done _ _ s (ss_recovering s) s), Hc, Hrec by done. cbn [orb].
  set (s1 := set_recovering true s).
  rewrite (SM_bind_Done _ _ s () s1), (SM_bind_Done _ _ s1 (ss_params s) s1) by done.
  rewrite (SM_bind_Done _ _ s1 () (reported SessionReconnecting s1)) by done.
  eexists. split; [reflexivity|]. by repeat split.
Qed.

Lemma set_first_err_unattended e s : exists s', set_first_err e s = Done ((), s') /\ unattended s s'.
Proof. unfold set_first_err, upd, SM_put, unattended. by destruct (ss_err s) eqn:E; eexists. Qed.

(** What an AsyncMsg does before its event is looked at, and the call of the handler *)
Definition counted (s s' : Session) : Prop :=
  ss_objs s' = ss_objs s /\ ss_tasks s' = ss_tasks s /\ ss_spawned s' = ss_spawned s /\ ss_router s' = ss_router s /\
  ss_states s' = ss_states s /\ ss_params s' = ss_params s /\ ss_cfg s' = ss_cfg s /\ ss_closed s' = ss_closed s /\
  ss_recovering s' = ss_recovering s.

Lemma handleAsyncMsg_event raw s (async := AsyncMsg_UnmarshalBHS (raw_BHS raw)) (code := AsyncMsg_AsyncEvent async) :
  exists s', counted s s' /\
  (code = 2 -> handleAsyncMsg raw s =
     (let cause := Errorf "session: target reported connection drop (AsyncEvent 2)" [] in
      if reconnectEnabled (ss_cfg s) then triggerReconnect cause else set_first_err cause) s') /\
  (code = 3 -> handleAsyncMsg raw s =
     (_ ← set_first_err (Errorf "session: target reported session drop (AsyncEvent 3)" []); cancel_session) s').
Proof.
  set (s1 := set_window (update (AsyncMsg_ExpCmdSN async) (AsyncMsg_MaxCmdSN async) (ss_window s)).1 s).
  set (s2 := set_expStatSN (next_expStatSN (AsyncMsg_StatSN async) (ss_expStatSN s1)) s1).
  set (evt := mkAsyncEvent code (AsyncMsg_AsyncVCode async) (AsyncMsg_Parameter1 async) (AsyncMsg_Parameter2 async)
    (AsyncMsg_Parameter3 async) (raw_DataSegment raw)).
  assert (Hd : exists s3, dispatchAsyncEvent evt s2 = Done ((), s3) /\ counted s s3).
  { unfold dispatchAsyncEvent, upd, SM_put. destruct (sc_asyncHandler _); eexists; (split; [reflexivity|]); by repeat split. }
  destruct Hd as (s3 & Hd & Hc). exists s3. split; [exact Hc|]. unfold handleAsyncMsg. fold async.
  rewrite (SM_bind_Done _ _ _ _ _ (window_update_Done _ _ s)). fold s1.
  rewrite (SM_bind_Done _ _ _ _ _ (updateStatSN_Done _ s1)). fold s2. cbv zeta. fold code. fold evt.
  split; intros ->; cbn [Z.eqb Pos.eqb]; rewrite (SM_bind_Done _ _ _ _ _ Hd); [|done].
  rewrite (SM_bind_Done _ _ s3 (ss_cfg s) s3); [done|]. destruct Hc as (_ & _ & _ & _ & _ & _ & <- & _). done.
Qed.

Lemma counted_recovers cause s s1 s' : counted s s1 -> recovers cause s1 s' -> recovers cause s s'.
Proof.
  intros (_ & _ & E3 & _ & E5 & E6 & E7 & _) (H1 & H2 & H3). split; [done|]. rewrite H2, H3, E3, E6. split; [|done].
  unfold reported. rewrite E7. destruct (sc_stateChangeHook _); cbn; by rewrite E5.
Qed.

Lemma counted_unattended s s1 s' : counted s s1 -> unattended s1 s' -> unattended s s'.
Proof. intros (E1 & E2 & E3 & E4 & E5 & _) (H1 & H2 & H3 & H4 & H5 & H6). unfold unattended. split_and!; congruence. Qed.


(** A session that has been logged out at the target's request is logged out
    again: the logout exchange leaves the session logged in, so that the [Close]
    that follows attempts a second one, which the target, having dropped the
    session, need not answer. *)
Theorem logged_out_twice (s s1 : Session) (w : WaitSched) (itt : Z) (ch : nat) (again : SS ()) :
  ss_loggedIn s = true -> ss_err s = None -> ss_closed s = false -> ss_tasks s = ∅ -> ss_recovering s = false ->
  logout_wait w itt ch s = Done (None, s1) ->
  Close again s1 = (_ ← again; Close_finish) (set_closed true (set_loggedIn false s1)).
Proof.
  intros Hl He Hc Ht Hr H.
  assert (Hs1 : ss_loggedIn s1 = true /\ ss_err s1 = None /\ ss_closed s1 = false /\ ss_tasks s1 = ∅ /\ ss_recovering s1 = false).
  { unfold logout_wait in H. rewrite (SM_bind_Done _ _ s (ss_params s) s) in H by done.
    apply SM_bind_inv in H as (resp & s2 & H2 & H).
    assert (E2 : ss_loggedIn s2 = ss_loggedIn s /\ ss_err s2 = ss_err s /\ ss_closed s2 = ss_closed s /\
      ss_tasks s2 = ss_tasks s /\ ss_recovering s2 = ss_recovering s).
    { unfold await_response in H2. destruct w.
      - apply SM_bind_inv in H2 as (v & s3 & H3 & H2). unfold receive in H3.
        destruct (chan_recv _ _) as [[v' r]|]; [|done]. injection H3 as <- <-.
        destruct v'; [|done]. by injection H2 as _ <-.
      - by injection H2 as _ <-.
      - by injection H2 as _ <-. }
    rewrite Hl, He, Hc, Ht, Hr in E2. destruct resp as [raw|e]; [|done].
    rewrite (SM_bind_Done _ _ _ _ _ (window_update_Done _ _ s2)) in H. set (s3 := set_window _ s2) in H.
    rewrite (SM_bind_Done _ _ _ _ _ (updateStatSN_Done _ s3)) in H.
    injection H as _ <-. exact E2. }
  destruct Hs1 as (L1 & L2 & L3 & L4 & L5). unfold Close.
  rewrite (SM_bind_Done _ _ s1 false s1) by (unfold SM_get; by rewrite L3).
  set (s2 := set_loggedIn false s1). set (s3 := set_closed true s2).
  assert (Hst : Close_start s1 = Done (true, s3)).
  { unfold Close_start. rewrite (SM_bind_Done _ _ s1 true s1) by (unfold SM_get; by rewrite L1).
    rewrite (SM_bind_Done _ _ s1 () s2) by done. rewrite (SM_bind_Done _ _ s2 (ss_err s1) s2) by done.
    rewrite (SM_bind_Done _ _ s2 () s3) by done. rewrite L2. cbn [andb negb].
    rewrite bool_decide_false by (by intros [? ?]). cbn [negb].
    rewrite (SM_bind_Done _ _ s3 (ss_tasks s1) s3), (SM_bind_Done _ _ s3 (ss_recovering s1) s3) by done.
    rewrite L4, L5, bool_decide_true by done. reflexivity. }
  by rewrite (SM_bind_Done _ _ _ _ _ Hst).
Qed.

(** A session [Dial] has made *)
Definition test_dialled : Session :=
  NewSession Defaults false false (WithReconnectInfo "127.0.0.1:3260" [] defaultConfig).

(** An AsyncMsg of event 2 *)
Definition test_drop : RawPDU :=
  newRawPDU (match AsyncMsg_MarshalBHS (mkAsyncMsg (mkHeader false OpAsyncMsg true 0 0 (zeros 8) 0xFFFFFFFF) 1 2 9 2 0 0 0 0 [])
             with Ok bhs => bhs | Err _ => [] end) [].


Definition test_logoutResp : RawPDU :=
  newRawPDU (match LogoutResp_MarshalBHS (mkLogoutResp (mkHeader false OpLogoutResp true 0 0 (zeros 8) 0) 0 1 2 9 2 20)
             with Ok bhs => bhs | Err _ => [] end) [].
(** A session whose logout request, with the ITT 0, has been answered *)
Definition test_logged_out : Session :=
  set_router (mkRouter ∅ 1 64 [mkChan [test_logoutResp] 1 false]) test_session.

Lemma logged_out_twice_witness :
  exists s1, logout_wait WaitResponse 0 0 test_logged_out = Done (None, s1) /\
    Close SM_block s1 = Blocks.
Proof.
  set (s1 := match logout_wait WaitResponse 0 0 test_logged_out with Done (_, s) => s | _ => test_session end).
  exists s1. assert (H : logout_wait WaitResponse 0 0 test_logged_out = Done (None, s1)) by by vm_compute.
  split; [exact H|].
  rewrite (logged_out_twice test_logged_out s1 WaitResponse 0 0 SM_block eq_refl eq_refl eq_refl eq_refl eq_refl H).
  reflexivity.
Defined.
