(* ===== verification/States.v ===== *)
(** What the state-change hook hears ([src/internal/session/state.go]): the lifecycle
    of a session is reported when the session is made, when a recovery starts, when
    [reconnect] has succeeded, and when the session has been closed.

    [silent] operations report nothing, and the rest of an operation can be left to
    them: the hint database [silent] takes an operation apart. *)
From S2P Require Import Prelude Errors Bhs PduTactics PduInitiator PduTarget Pdu GoIO Digest Framer.
From S2P Require Import Chan Serial Router Pump Negotiation CmdWindow Config Types Task DataOut Session.
From S2P Require Import Unsolicited Lifecycle TaskLoop Recovery Reconnect Loops.
#[local] Open Scope string_scope.
#[local] Open Scope list_scope.
#[local] Open Scope Z_scope.

(** ** Operations that report nothing *)

Definition silent {A} (m : SS A) : Prop := forall s a s', m s = Done (a, s') ->
  ss_states s' = ss_states s /\ ss_cfg s' = ss_cfg s.

Create HintDb silent.

Lemma silent_ret {A} (a : A) : silent (mret a).
Proof. by intros s a' s' [= _ <-]. Qed.
Lemma silent_get {A} (f : Session -> A) : silent (SM_get f).
Proof. by intros s a s' [= _ <-]. Qed.
Lemma silent_panic {A} : silent (SM_panic (A := A)).
Proof. done. Qed.
Lemma silent_block {A} : silent (SM_block (A := A)).
Proof. done. Qed.
Lemma silent_bind {A B} (m : SS A) (f : A -> SS B) : silent m -> (forall a, silent (f a)) -> silent (m ≫= f).
Proof.
  intros Hm Hf s b s' (a & s1 & H1 & H2)%SM_bind_inv. apply Hm in H1 as [E1 E2]. apply Hf in H2 as [E3 E4].
  split; congruence.
Qed.
Lemma silent_upd f : (forall s, ss_states (f s) = ss_states s /\ ss_cfg (f s) = ss_cfg s) -> silent (upd f).
Proof. intros Hf s a s' [= _ <-]. apply Hf. Qed.
Lemma silent_on_task {A} id (m : TM A) : silent (on_task id m).
Proof.
  intros s a s' H. unfold on_task in H. destruct (ss_objs s !! id) as [t|]; [|done].
  destruct (m _) as [[a' ts]| |]; [|done..]. by injection H as _ <-.
Qed.
#[export] Hint Resolve silent_ret silent_get silent_panic silent_block silent_on_task : silent.

(** Taking an operation apart *)
Ltac silent :=
  repeat first
    [ progress cbv zeta | solve [auto with silent]
    | match goal with |- silent (_ ≫= _) => apply silent_bind; [|intros ?] end
    | match goal with |- silent (match ?x with _ => _ end) => destruct x end
    | match goal with |- silent (upd _) => apply silent_upd; intros ?; repeat case_match; done end ].

Lemma silent_receive ch : silent (receive ch).
Proof. intros s a s' H. unfold receive in H. destruct (chan_recv _ _) as [[v r]|]; [|done]. by injection H as _ <-. Qed.
Lemma silent_send_or_done cx raw : silent (send_or_done cx raw).
Proof.
  intros s a s' H. unfold send_or_done in H. destruct (_ && _); [by injection H as _ <-|].
  destruct (send _ _); [by injection H as _ <-| |done]. destruct (cx_done cx); [by injection H as _ <-|done].
Qed.
Lemma silent_window_acquire cx : silent (window_acquire cx).
Proof.
  intros s a s' H. unfold window_acquire in H. destruct (acquire_fast _) as [[r w]|]; [by injection H as _ <-|].
  destruct (cx_done cx); [by injection H as _ <-|done].
Qed.
Lemma silent_AllocateITT : silent router_AllocateITT.
Proof. intros s a s' H. unfold router_AllocateITT in H. destruct (AllocateITT _). by injection H as _ <-. Qed.
Lemma silent_RegisterPersistent itt : silent (router_RegisterPersistent itt).
Proof. intros s a s' H. unfold router_RegisterPersistent in H. destruct (RegisterPersistent _ _). by injection H as _ <-. Qed.
Lemma silent_Register : silent router_Register.
Proof. intros s a s' H. unfold router_Register in H. destruct (Register _) as [[? ?] ?]. by injection H as _ <-. Qed.
Lemma silent_Unregister itt : silent (router_Unregister itt).
Proof. unfold router_Unregister. silent. Qed.
Lemma silent_window_update e m : silent (window_update e m).
Proof. unfold window_update. silent. Qed.
Lemma silent_updateStatSN sn : silent (updateStatSN sn).
Proof. apply silent_upd. intros s. cbv zeta. by destruct (_ || _). Qed.
Lemma silent_task_at id : silent (task_at id).
Proof. apply silent_on_task. Qed.
Lemma silent_stamped raw : silent (stamped raw).
Proof. apply silent_get. Qed.
#[export] Hint Resolve silent_receive silent_send_or_done silent_window_acquire silent_AllocateITT
  silent_RegisterPersistent silent_Register silent_Unregister silent_window_update silent_updateStatSN
  silent_task_at silent_stamped : silent.

Lemma silent_await_response w itt ch e : silent (await_response w itt ch e).
Proof. unfold await_response. silent. Qed.
#[export] Hint Resolve silent_await_response : silent.
Lemma silent_send_request cx itt ch raw : silent (send_request cx itt ch raw).
Proof. unfold send_request. silent. Qed.
Lemma silent_logout_request cx r : silent (logout_request cx r).
Proof. unfold logout_request. silent. Qed.
Lemma silent_logout_wait w itt ch : silent (logout_wait w itt ch).
Proof. unfold logout_wait. silent. Qed.
Lemma silent_tmf_request fn ref lun : silent (tmf_request fn ref lun).
Proof. unfold tmf_request. silent. Qed.
Lemma silent_sendTMF_wait w itt ch : silent (sendTMF_wait w itt ch).
Proof. unfold sendTMF_wait. silent. Qed.
#[export] Hint Resolve silent_send_request silent_logout_request silent_logout_wait silent_tmf_request
  silent_sendTMF_wait : silent.

Lemma silent_close_channels l : silent (close_channels l).
Proof. induction l as [|[itt id] l IH]; cbn [close_channels]; silent. Qed.
Lemma silent_reassign_finish itt id newITT newCh r : silent (reassign_finish itt id newITT newCh r).
Proof. unfold reassign_finish. silent. Qed.
(** Others report nothing while the recovering goroutine waits in an exchange. *)
Definition silent_exchange (x : Exchange) : Prop := silent (ex_send x) /\ silent (ex_others x).

Lemma silent_run_exchange {A} x (wait : WaitSched -> Z -> nat -> SS (res A)) req : silent_exchange x ->
  (forall w itt ch, silent (wait w itt ch)) -> silent (run_exchange x wait req).
Proof. intros [H1 H2] Hw. unfold run_exchange. silent. Qed.
Lemma silent_reassign x itt id : silent_exchange x -> silent (reassign x itt id).
Proof.
  intros Hx. unfold reassign.
  silent; [apply silent_run_exchange; [done|apply silent_sendTMF_wait]|apply silent_reassign_finish].
Qed.
Lemma silent_reassign_all l : forall xs, Forall silent_exchange xs -> silent (reassign_all xs l).
Proof.
  induction l as [|[itt id] l IH]; intros [|x xs] Hxs; cbn [reassign_all]; try apply silent_ret; [apply silent_block|].
  apply Forall_cons_1 in Hxs as [Hx Hxs]. apply silent_bind; [by apply silent_reassign|]. intros _. by apply IH.
Qed.
Lemma silent_replace_logout wa x : silent wa -> silent_exchange x -> silent (replace_logout wa x).
Proof.
  intros Hwa Hx. unfold replace_logout. silent. apply silent_run_exchange; [done|]. intros w itt ch. silent.
Qed.
#[export] Hint Resolve silent_close_channels : silent.

(** ... and in a replacement *)
Definition silent_replacement (rp : Replacement) : Prop :=
  silent (rp_others rp) /\ silent (rp_dial rp) /\ silent (rp_acquire rp) /\ silent_exchange (rp_logout rp) /\
  Forall silent_exchange (rp_reassigns rp).

Lemma silent_replaceConnection_start others dial attempt : silent others -> silent dial ->
  silent (replaceConnection_start others dial attempt).
Proof. intros Ho Hd. unfold replaceConnection_start, cancel_session, install. silent. Qed.

(** ** The replacement of a connection *)

(** A replaced connection is not reported.  The recovery that a read error starts
    tells the state-change hook that the session is reconnecting, also at
    ErrorRecoveryLevel 2; but when [replaceConnection] has given the session a new
    connection and the session takes commands again, nothing is reported, unless
    other goroutines do, so that the last state the hook has heard of remains
    [SessionReconnecting]. *)
Theorem replacement_unreported (s s1 s' : Session) (cause : error) (rp : Replacement) :
  ss_closed s = false -> ss_recovering s = false -> sc_stateChangeHook (ss_cfg s) = true ->
  silent_replacement rp ->
  triggerReconnect cause s = Done ((), s1) -> replaceConnection rp s1 = Done (Ok (), s') ->
  ss_recovering s1 = true /\ ss_recovering s' = false /\ last (ss_states s') = Some SessionReconnecting.
Proof.
  intros Hc Hr Hh (Ho & Hd & Hwa & Hlg & Hxs) Htr Hrep.
  assert (Hs1 : ss_recovering s1 = true /\ ss_states s1 = ss_states s ++ [SessionReconnecting]).
  { unfold triggerReconnect in Htr.
    rewrite (SM_bind_Done _ _ s (ss_closed s) s), (SM_bind_Done _ _ s (ss_recovering s) s), Hc, Hr in Htr by done.
    cbn in Htr. injection Htr as <-. cbn. by rewrite Hh. }
  destruct Hs1 as [Hr1 Hst1]. split; [done|]. unfold replaceConnection in Hrep.
  apply SM_bind_inv in Hrep as (start & s2 & H2 & Hrep). apply (silent_replaceConnection_start _ _ _ Ho Hd) in H2 as [E2 _].
  destruct start as [snapshot|e]; [|by injection Hrep].
  apply SM_bind_inv in Hrep as (u1 & s3 & H3 & Hrep). apply (silent_replace_logout _ _ Hwa Hlg) in H3 as [E3 _].
  apply SM_bind_inv in Hrep as (u2 & s4 & H4 & Hrep). apply (silent_reassign_all _ _ Hxs) in H4 as [E4 _].
  injection Hrep as <-. split; [done|]. cbn. by rewrite E4, E3, E2, Hst1, last_snoc.
Qed.

(** A session at ErrorRecoveryLevel 2 that loses its connection, with no command in
    flight; the target does not answer the logout of the old connection. *)
Definition test_erl2 : Session :=
  NewSession (mkParams false false 1 true true 8192 262144 65536 2 20 1 true true 2 "" 1 (zeros 6) 1 0)
    false false (WithStateChangeHook true defaultConfig).

Definition test_replacement : Replacement :=
  let cx := mkCtxSched false false in
  mkReplacement (mret ()) (mret ()) (Ok (mkNewConn (ss_params test_erl2) false false)) (mret cx)
    (mkExchange (mret cx) (mret ()) WaitTimeout) [].

Lemma replacement_unreported_witness : exists s1 s',
  triggerReconnect EOF test_erl2 = Done ((), s1) /\
  replaceConnection test_replacement s1 = Done (Ok (), s') /\
  ss_recovering s' = false /\ last (ss_states s') = Some SessionReconnecting.
Proof.
  eexists _, _. split; [reflexivity|]. split; [vm_compute; reflexivity|].
  eapply (replacement_unreported test_erl2 _ _ EOF test_replacement); [done|done|done| |reflexivity|vm_compute; reflexivity].
  repeat (split; [apply silent_ret|]). split; [split; apply silent_ret|apply List.Forall_nil].
Defined.
