(* ===== verification/Capture.v ===== *)
(** Recording the PDUs of a session for tests
    ([src/test/pducapture/capture.go]), by way of the PDU hook of the public interface
    ([src/options.go]). *)
From S2P Require Import Prelude Errors Bhs PduTactics PduInitiator PduTarget Pdu GoIO Digest Framer.
From S2P Require Import Chan Serial Router Pump Config Types Task Session Loops.
#[local] Open Scope list_scope.
#[local] Open Scope Z_scope.

(** What the public hook gets of a PDU: the header and the data segment, without
    additional header segments and digests *)
Definition hook_data (raw : RawPDU) : bytes := raw_BHS raw ++ raw_DataSegment raw.

#[export] Instance PDUDirection_eq_dec : EqDecision PDUDirection.
Proof. solve_decision. Defined.

Record CapturedPDU := mkCapturedPDU {
  cp_Direction : PDUDirection;
  cp_Decoded : PDU;
  cp_Raw : bytes;
  cp_Seq : Z;   (* an int *)
}.

Record Recorder := mkRecorder { rc_pdus : list CapturedPDU; rc_seq : Z }.
Definition newRecorder : Recorder := mkRecorder [] 0.

Definition Hook (dir : PDUDirection) (data : bytes) (r : Recorder) : Recorder :=
  if Nat.ltb (length data) BHSLength then r
  else
    match DecodeBHS (take BHSLength data) with
    | Err _ => r
    | Ok decoded => mkRecorder (rc_pdus r ++ [mkCapturedPDU dir decoded data (rc_seq r)])
                      (to_signed 64 (uint64 (rc_seq r + 1)))
    end.

Definition All (r : Recorder) : list CapturedPDU := rc_pdus r.
Definition Filter (opcode : Z) (dir : PDUDirection) (r : Recorder) : list CapturedPDU :=
  filter (fun p => Opcode (cp_Decoded p) = opcode /\ cp_Direction p = dir) (rc_pdus r).
Definition Sent (opcode : Z) (r : Recorder) : list CapturedPDU := Filter opcode PDUSend r.
Definition Received (opcode : Z) (r : Recorder) : list CapturedPDU := Filter opcode PDUReceive r.

(** The recorder after the calls of the hook *)
Fixpoint record_all (calls : list (PDUDirection * RawPDU)) (r : Recorder) : Recorder :=
  match calls with
  | [] => r
  | (dir, raw) :: calls => record_all calls (Hook dir (hook_data raw) r)
  end.

(** A PDU as it is recorded with number [seq] *)
Definition captured (call : PDUDirection * RawPDU) (seq : Z) : option CapturedPDU :=
  match DecodeBHS (raw_BHS call.2) with
  | Ok p => Some (mkCapturedPDU call.1 p (hook_data call.2) seq)
  | Err _ => None
  end.

Fixpoint captured_all (calls : list (PDUDirection * RawPDU)) (seq : Z) : list CapturedPDU :=
  match calls with
  | [] => []
  | call :: calls =>
      match captured call seq with
      | Some c => c :: captured_all calls (seq + 1)
      | None => captured_all calls seq
      end
  end.

Lemma Hook_captured dir raw r : length (raw_BHS raw) = BHSLength -> 0 <= rc_seq r < 2 ^ 63 - 1 ->
  Hook dir (hook_data raw) r =
  match captured (dir, raw) (rc_seq r) with
  | Some c => mkRecorder (rc_pdus r ++ [c]) (rc_seq r + 1)
  | None => r
  end.
Proof.
  intros Hl Hs. unfold Hook, captured, hook_data. cbn [fst snd].
  rewrite length_app, Hl, (proj2 (Nat.ltb_ge _ _)) by lia. rewrite take_app_length' by done.
  destruct (DecodeBHS (raw_BHS raw)); [|done]. f_equal. rewrite wrap_id by (unfold in_width; lia).
  unfold to_signed. by rewrite (proj2 (Z.ltb_lt _ _)) by lia.
Qed.

Lemma record_all_captured calls : forall r, Forall (fun c => length (raw_BHS c.2) = BHSLength) calls ->
  0 <= rc_seq r -> rc_seq r + Z.of_nat (length calls) < 2 ^ 63 ->
  All (record_all calls r) = All r ++ captured_all calls (rc_seq r).
Proof.
  induction calls as [|[dir raw] calls IH]; intros r Hl Hs Hb; [by rewrite app_nil_r|].
  apply Forall_cons_1 in Hl as [Hl1 Hl]. cbn [length] in Hb. cbn [record_all captured_all].
  rewrite Hook_captured by (done || lia). destruct (captured (dir, raw) (rc_seq r)) as [c|].
  - rewrite IH; [|done|cbn; lia|cbn; lia]. cbn. by rewrite <- app_assoc.
  - rewrite IH by (done || lia). done.
Qed.

(** The numbers count on from the first. *)
Lemma captured_all_seq calls : forall seq i c, captured_all calls seq !! i = Some c -> cp_Seq c = seq + Z.of_nat i.
Proof.
  induction calls as [|call calls IH]; intros seq i c H; [done|]. cbn [captured_all] in H.
  destruct (captured call seq) as [c0|] eqn:E; [|by apply IH]. destruct i as [|i].
  - injection H as <-. unfold captured in E. destruct (DecodeBHS _); [|done]. injection E as <-. cbn. lia.
  - apply IH in H. lia.
Qed.

(** ** Properties *)

(** A test sees what was on the wire.  When the hook has been called with the PDUs of
    a session, the recorder has exactly those whose header can be decoded, in their
    order, each with its direction, its decoded header and its bytes, numbered from 0;
    [Sent] and [Received] are the ones of a direction and an opcode; and every PDU that
    the library encodes is among those that are recorded. *)
Theorem capture_complete (calls : list (PDUDirection * RawPDU)) (opcode : Z) :
  let r := record_all calls newRecorder in
  Forall (fun c => length (raw_BHS c.2) = BHSLength) calls -> Z.of_nat (length calls) < 2 ^ 63 ->
  All r = captured_all calls 0 /\
  (forall i c, All r !! i = Some c -> cp_Seq c = Z.of_nat i) /\
  (forall c, c ∈ Sent opcode r <-> c ∈ All r /\ Opcode (cp_Decoded c) = opcode /\ cp_Direction c = PDUSend) /\
  (forall c, c ∈ Received opcode r <-> c ∈ All r /\ Opcode (cp_Decoded c) = opcode /\ cp_Direction c = PDUReceive) /\
  (forall p dir raw seq, PDU_ok p -> MarshalBHS p = Ok (raw_BHS raw) ->
     captured (dir, raw) seq = Some (mkCapturedPDU dir (PDU_wire p) (hook_data raw) seq)).
Proof.
  intros r Hl Hb. pose proof (record_all_captured calls newRecorder Hl (Z.le_refl 0) Hb) as Hall. split; [exact Hall|].
  split; [intros i c Hi; unfold r in Hi; rewrite Hall in Hi; by apply captured_all_seq in Hi|].
  split; [intros c; unfold Sent, Filter, All; rewrite list_elem_of_filter; tauto|].
  split; [intros c; unfold Received, Filter, All; rewrite list_elem_of_filter; tauto|].
  intros p dir raw seq Hp Hm. unfold captured. cbn [fst snd]. by rewrite (decode_encoded p _ Hp Hm).
Qed.

(** A recorded command, and a header that no PDU has, which is not recorded *)
Lemma capture_complete_witness :
  let cmd := newRawPDU (OpSCSICommand :: 0x80 :: zeros 46) [] in
  let calls := [(PDUSend, cmd); (PDUReceive, newRawPDU (0x1e :: zeros 47) []); (PDUSend, cmd)] in
  let r := record_all calls newRecorder in
  All r = captured_all calls 0 /\ map cp_Seq (Sent OpSCSICommand r) = [0; 1] /\ Received OpSCSICommand r = [].
Proof.
  intros cmd calls r. split; [|split; vm_compute; reflexivity].
  destruct (capture_complete calls OpSCSICommand) as [H _]; [by repeat constructor|done|exact H].
Defined.
