(* ===== verification/Parse.v ===== *)
(** Parsing of byte slices the way the response parsers of [src/internal/scsi] do
    it, and the messages of [fmt.Sprintf] their errors are shown with.

    A parser returns a value or an error, or panics when it indexes or slices out
    of range: [PR A] is [option (res A)], with [None] for the panic.  The lemmas
    [at_ok], [slice_ok] and [slice_be_ok] discharge the accesses that the length
    tests before them make safe. *)
From S2P Require Import Prelude Errors Text.
From Stdlib Require Import Ascii.
#[local] Open Scope string_scope.
#[local] Open Scope list_scope.
#[local] Open Scope Z_scope.

(** ** Parsers *)

Definition PR (A : Type) : Type := option (res A).

#[export] Instance PR_ret : MRet PR := fun A a => Some (Ok a).
#[export] Instance PR_bind : MBind PR := fun A B f m =>
  match m with
  | None => None
  | Some (Err e) => Some (Err e)
  | Some (Ok a) => f a
  end.

Definition fail {A} (e : error) : PR A := Some (Err e).
Definition panic {A} : PR A := None.

(** [if !ok { return nil, err }] *)
Definition check (ok : bool) (e : error) : PR () := if ok then mret () else fail e.

(** [data[i]] *)
Definition at_ (i : nat) (data : bytes) : PR Z :=
  match data !! i with Some b => mret b | None => panic end.

(** [data[a:b]] *)
Definition slice (a b : nat) (data : bytes) : PR bytes :=
  if Nat.leb a b && Nat.leb b (length data) then mret (sub a (b - a) data) else panic.

(** [binary.BigEndian.Uint32(data[a:a+4])] and its 16 and 64-bit versions *)
Definition slice_be (n a : nat) (data : bytes) : PR Z :=
  d ← slice a (a + n) data; mret (be_val d).

(** The parser returns: it does not panic. *)
Definition returns {A} (m : PR A) : Prop := m <> None.

(** ** Messages *)

Definition hex_digit (n : Z) : Z := if n <? 10 then 48 + n else 55 + n.
(** [%0nX] of a number of at most [n] hexadecimal digits *)
Fixpoint format_hex (n : nat) (v : Z) : bytes :=
  match n with
  | O => []
  | S n => format_hex n (v / 16) ++ [hex_digit (v mod 16)]
  end.

(** [fmt.Sprintf] for the verbs [%d] and [%02X] of unsigned arguments *)
Fixpoint Sprintf (fmt : string) (args : list Z) : string :=
  match fmt, args with
  | String "%" (String "d" fmt'), a :: args => FormatUint a +:+ Sprintf fmt' args
  | String "%" (String "0" (String "2" (String "X" fmt'))), a :: args =>
      of_bytes (format_hex 2 a) +:+ Sprintf fmt' args
  | String c fmt', _ => String c (Sprintf fmt' args)
  | EmptyString, _ => EmptyString
  end.

(** [err.Error()] of a plain error *)
Definition error_text (e : error) : string :=
  match e with Errorf fmt args => Sprintf fmt args | _ => "" end.

Example Sprintf_ex : Sprintf "need %d (0x%02X)" [18; 113] = "need 18 (0x71)".
Proof. reflexivity. Qed.

(** ** Lemmas *)

Lemma PR_bind_Ok {A B} (m : PR A) (f : A -> PR B) a : m = Some (Ok a) -> m ≫= f = f a.
Proof. by intros ->. Qed.

Lemma PR_bind_Err {A B} (m : PR A) (f : A -> PR B) e : m = Some (Err e) -> m ≫= f = Some (Err e).
Proof. by intros ->. Qed.

Lemma at_ok i data : (i < length data)%nat -> at_ i data = Some (Ok (byte_at i data)).
Proof.
  intros Hi. unfold at_. rewrite byte_at_lookup.
  by destruct (lookup_lt_is_Some_2 data i Hi) as [b ->].
Qed.

Lemma slice_ok a b data : (a <= b <= length data)%nat -> slice a b data = Some (Ok (sub a (b - a) data)).
Proof.
  intros [H1 H2]. unfold slice. by rewrite (proj2 (Nat.leb_le _ _) H1), (proj2 (Nat.leb_le _ _) H2).
Qed.

Lemma slice_panics a b data : (b < a \/ length data < b)%nat -> slice a b data = None.
Proof.
  intros H. unfold slice. destruct (Nat.leb_spec a b); [|done].
  destruct (Nat.leb_spec b (length data)); [lia|done].
Qed.

Lemma slice_be_ok n a data : (a + n <= length data)%nat -> slice_be n a data = Some (Ok (get_be n a data)).
Proof.
  intros H. unfold slice_be. rewrite slice_ok by lia. unfold get_be.
  replace (a + n - a)%nat with n by lia. done.
Qed.

Lemma returns_bind {A B} (m : PR A) (f : A -> PR B) :
  returns m -> (forall a, m = Some (Ok a) -> returns (f a)) -> returns (m ≫= f).
Proof. intros H1 H2. destruct m as [[a|e]|]; [by apply H2|done|done]. Qed.

Lemma returns_check b e : returns (check b e).
Proof. by destruct b. Qed.

Lemma check_Ok b e u : check b e = Some (Ok u) -> b = true.
Proof. by destruct b. Qed.

Lemma returns_ret {A} (a : A) : returns (mret a : PR A).
Proof. done. Qed.

Lemma returns_at i data : (i < length data)%nat -> returns (at_ i data).
Proof. intros. by rewrite at_ok. Qed.

Lemma returns_slice a b data : (a <= b <= length data)%nat -> returns (slice a b data).
Proof. intros. by rewrite slice_ok. Qed.

Lemma returns_slice_be n a data : (a + n <= length data)%nat -> returns (slice_be n a data).
Proof. intros. by rewrite slice_be_ok. Qed.

Create HintDb parse.
#[export] Hint Resolve returns_check returns_ret returns_at returns_slice returns_slice_be : parse.

(** Walks through a parser whose accesses follow from the length tests it has made *)
Ltac returns :=
  repeat first
    [ progress intros
    | match goal with H : check _ _ = Some (Ok _) |- _ => apply check_Ok in H end
    | match goal with H : Nat.leb _ _ = true |- _ => apply Nat.leb_le in H end
    | match goal with H : Nat.ltb _ _ = true |- _ => apply Nat.ltb_lt in H end
    | match goal with H : negb (Nat.ltb _ _) = true |- _ => apply negb_true_iff, Nat.ltb_ge in H end
    | match goal with |- returns (Some _) => discriminate end
    | match goal with |- returns (if ?b then _ else _) => destruct b eqn:? end
    | apply returns_check | apply returns_ret
    | apply returns_at; lia | apply returns_slice; lia | apply returns_slice_be; lia
    | apply returns_bind ].

(** The same for their values *)
Ltac access :=
  repeat first
    [ rewrite at_ok by lia | rewrite slice_ok by lia | rewrite slice_be_ok by lia
    | rewrite PR_bind_Ok with (a := tt) by done ];
  unfold mbind, PR_bind, mret, PR_ret; cbn beta iota.
