(* ===== verification/Sense.v ===== *)
(** Sense data ([src/internal/scsi/sense.go]) and the status of a command
    ([opcode.go]). *)
From S2P Require Import Prelude Errors Text GoIO Chan Types Parse.
#[local] Open Scope string_scope.
#[local] Open Scope list_scope.
#[local] Open Scope Z_scope.

Definition StatusGood : Z := 0x00.
Definition StatusCheckCondition : Z := 0x02.
Definition StatusConditionMet : Z := 0x04.
Definition StatusBusy : Z := 0x08.
Definition StatusReservationConflict : Z := 0x18.
Definition StatusTaskSetFull : Z := 0x28.
Definition StatusACAActive : Z := 0x30.
Definition StatusTaskAborted : Z := 0x40.

Definition SenseNoSense : Z := 0x00.
Definition SenseRecoveredError : Z := 0x01.
Definition SenseNotReady : Z := 0x02.
Definition SenseMediumError : Z := 0x03.
Definition SenseHardwareError : Z := 0x04.
Definition SenseIllegalRequest : Z := 0x05.
Definition SenseUnitAttention : Z := 0x06.
Definition SenseDataProtect : Z := 0x07.
Definition SenseBlankCheck : Z := 0x08.
Definition SenseVendorSpecific : Z := 0x09.
Definition SenseCopyAborted : Z := 0x0A.
Definition SenseAbortedCommand : Z := 0x0B.
Definition SenseVolumeOverflow : Z := 0x0D.
Definition SenseMiscompare : Z := 0x0E.

Definition senseKeyNames : list string :=
  ["NO SENSE"; "RECOVERED ERROR"; "NOT READY"; "MEDIUM ERROR"; "HARDWARE ERROR"; "ILLEGAL REQUEST"; "UNIT ATTENTION"; "DATA PROTECT"; "BLANK CHECK";
   "VENDOR SPECIFIC"; "COPY ABORTED"; "ABORTED COMMAND"; ""; "VOLUME OVERFLOW"; "MISCOMPARE"; ""].

(** [SenseKey.String] *)
Definition SenseKey_String (sk : Z) : string :=
  match senseKeyNames !! Z.to_nat sk with
  | Some name => if String.eqb name "" then Sprintf "UNKNOWN SENSE KEY (0x%02X)" [sk] else name
  | None => Sprintf "UNKNOWN SENSE KEY (0x%02X)" [sk]
  end.

Definition ascTable : list (Z * string) :=
  [(0x0000, "No additional sense information");
   (0x0001, "Filemark detected");
   (0x0002, "End-of-partition/medium detected");
   (0x0004, "Beginning-of-partition/medium detected");
   (0x0005, "End-of-data detected");
   (0x0100, "No index/sector signal");
   (0x0200, "No seek complete");
   (0x0300, "Peripheral device write fault");
   (0x0400, "Not ready, cause not reportable");
   (0x0401, "Not ready, becoming ready");
   (0x0402, "Not ready, initializing command required");
   (0x0403, "Not ready, manual intervention required");
   (0x0404, "Not ready, format in progress");
   (0x0407, "Not ready, operation in progress");
   (0x0408, "Not ready, long write in progress");
   (0x0409, "Not ready, self-test in progress");
   (0x0411, "Not ready, notify (enable spinup) required");
   (0x0500, "Logical unit does not respond to selection");
   (0x0600, "No reference position found");
   (0x0700, "Multiple peripheral devices selected");
   (0x0800, "Logical unit communication failure");
   (0x0801, "Logical unit communication time-out");
   (0x0802, "Logical unit communication parity error");
   (0x0803, "Logical unit communication CRC error (ultra-DMA/32)");
   (0x0900, "Track following error");
   (0x0a00, "Error log overflow");
   (0x0b00, "Warning");
   (0x0b01, "Warning, specified temperature exceeded");
   (0x0c00, "Write error");
   (0x0c02, "Write error, auto reallocation failed");
   (0x1000, "ID CRC or ECC error");
   (0x1100, "Unrecovered read error");
   (0x1101, "Read retries exhausted");
   (0x1104, "Unrecovered read error, auto reallocate failed");
   (0x1200, "Address mark not found for ID field");
   (0x1400, "Recorded entity not found");
   (0x1500, "Random positioning error");
   (0x1600, "Data synchronization mark error");
   (0x1700, "Recovered data with no error correction applied");
   (0x1800, "Recovered data with retries");
   (0x1900, "Defect list error");
   (0x1a00, "Parameter list length error");
   (0x2000, "Invalid command operation code");
   (0x2100, "Logical block address out of range");
   (0x2400, "Invalid field in CDB");
   (0x2500, "Logical unit not supported");
   (0x2600, "Invalid field in parameter list");
   (0x2700, "Write protected");
   (0x2800, "Not ready to ready change, medium may have changed");
   (0x2900, "Power on, reset, or bus device reset occurred");
   (0x2901, "Power on occurred");
   (0x2902, "SCSI bus reset occurred");
   (0x2903, "Bus device reset function occurred");
   (0x2904, "Device internal reset");
   (0x2a00, "Parameters changed");
   (0x2a01, "Mode parameters changed");
   (0x2a02, "Log parameters changed");
   (0x2a03, "Reservations preempted");
   (0x2a04, "Reservations released");
   (0x2a05, "Registrations preempted");
   (0x2c00, "Command sequence error");
   (0x2f00, "Commands cleared by another initiator");
   (0x3000, "Incompatible medium installed");
   (0x3003, "Cleaning cartridge installed");
   (0x3100, "Medium format corrupted");
   (0x3200, "No defect spare location available");
   (0x3500, "Enclosure failure");
   (0x3700, "Rounded parameter");
   (0x3900, "Saving parameters not supported");
   (0x3a00, "Medium not present");
   (0x3b00, "Sequential positioning error");
   (0x3d00, "Invalid bits in identify message");
   (0x3e00, "Logical unit has not self-configured yet");
   (0x3f00, "Target operating conditions have changed");
   (0x3f01, "Microcode has been changed");
   (0x3f02, "Changed operating definition");
   (0x3f03, "Inquiry data has changed");
   (0x4000, "RAM failure");
   (0x4100, "Data path failure");
   (0x4200, "Power-on or self-test failure");
   (0x4300, "Message error");
   (0x4400, "Internal target failure");
   (0x4500, "Select or reselect failure");
   (0x4700, "SCSI parity error");
   (0x4800, "Initiator detected error message received");
   (0x4900, "Invalid message error");
   (0x4e00, "Overlapped commands attempted");
   (0x5300, "Media load or eject failed");
   (0x5500, "System resource failure");
   (0x5d00, "Failure prediction threshold exceeded");
   (0x5e00, "Low power condition on")].

Definition ascLookup (asc ascq : Z) : string :=
  let key := Z.lor (Z.shiftl asc 8) ascq in
  match find (fun e => e.1 =? key) ascTable with Some (_, desc) => desc | None => "" end.

(** [SenseData.String] *)
Definition SenseData_String (sd : SenseData) : string :=
  let desc := ascLookup (sd_ASC sd) (sd_ASCQ sd) in
  if String.eqb desc ""
  then SenseKey_String (sd_Key sd) +:+ Sprintf ": UNKNOWN (0x%02X/0x%02X)" [sd_ASC sd; sd_ASCQ sd]
  else SenseKey_String (sd_Key sd) +:+ ": " +:+ desc.

(** ** Parsing *)

(** The assignments of [parseDescriptors] *)
Definition set_Information (valid : bool) (info : Z) (sd : SenseData) : SenseData :=
  mkSenseData (sd_ResponseCode sd) (sd_Key sd) (sd_ASC sd) (sd_ASCQ sd) info valid (sd_Filemark sd)
    (sd_EOM sd) (sd_ILI sd) (sd_Raw sd).
Definition set_Stream (flags : Z) (sd : SenseData) : SenseData :=
  mkSenseData (sd_ResponseCode sd) (sd_Key sd) (sd_ASC sd) (sd_ASCQ sd) (sd_Information sd) (sd_Valid sd)
    (has_bit flags 0x80) (has_bit flags 0x40) (has_bit flags 0x20) (sd_Raw sd).

(** The switch on a descriptor's type *)
Definition parseDescriptor (pos : nat) (descType descLen : Z) (data : bytes) (sd : SenseData) : PR SenseData :=
  if descType =? 0x00 then
    if descLen >=? 10 then
      valid ← at_ (pos + 2) data;
      info ← slice_be 8 (pos + 4) data;
      mret (set_Information (has_bit valid 0x80) info sd)
    else mret sd
  else if descType =? 0x04 then
    if descLen >=? 2 then
      flags ← at_ (pos + 3) data;
      mret (set_Stream flags sd)
    else mret sd
  else mret sd.

(** The loop over the descriptors; each is at least two bytes long, so the length
    of the data is enough fuel. *)
Fixpoint parseDescriptors_loop (fuel : nat) (pos descEnd : nat) (data : bytes) (sd : SenseData)
    : PR SenseData :=
  if Nat.leb (pos + 2) descEnd then
    match fuel with
    | O => panic
    | S fuel =>
      descType ← at_ pos data;
      descLen ← at_ (pos + 1) data;
      let descDataEnd := (pos + 2 + Z.to_nat descLen)%nat in
      if Nat.ltb descEnd descDataEnd then mret sd
      else
        sd ← parseDescriptor pos descType descLen data sd;
        parseDescriptors_loop fuel descDataEnd descEnd data sd
    end
  else mret sd.

Definition parseDescriptors (sd : SenseData) (data : bytes) : PR SenseData :=
  if Nat.ltb (length data) 8 then mret sd
  else
    addlLen ← at_ 7 data;
    let descEnd := Nat.min (8 + Z.to_nat addlLen) (length data) in
    parseDescriptors_loop (length data) 8 descEnd data sd.

Definition ParseSense (data : bytes) : PR SenseData :=
  let len := Z.of_nat (length data) in
  _ ← check (negb (Nat.ltb (length data) 2)) (Errorf "scsi: sense data too short (%d bytes)" [len]);
  b0 ← at_ 0 data;
  let responseCode := Z.land b0 0x7f in
  if (responseCode =? 0x70) || (responseCode =? 0x71) then
    _ ← check (negb (Nat.ltb (length data) 18))
          (Errorf "scsi: fixed-format sense data too short (%d bytes, need 18)" [len]);
    b2 ← at_ 2 data;
    info ← slice_be 4 3 data;
    asc ← at_ 12 data;
    ascq ← at_ 13 data;
    mret (mkSenseData responseCode (Z.land b2 0x0f) asc ascq info (has_bit b0 0x80) (has_bit b2 0x80)
            (has_bit b2 0x40) (has_bit b2 0x20) data)
  else if (responseCode =? 0x72) || (responseCode =? 0x73) then
    _ ← check (negb (Nat.ltb (length data) 8))
          (Errorf "scsi: descriptor-format sense data too short (%d bytes, need 8)" [len]);
    b1 ← at_ 1 data;
    asc ← at_ 2 data;
    ascq ← at_ 3 data;
    parseDescriptors (mkSenseData responseCode (Z.land b1 0x0f) asc ascq 0 false false false false data) data
  else fail (Errorf "scsi: unknown sense response code 0x%02X" [responseCode]).

(** ** Results *)

Definition IsSenseKey (err : error) (key : Z) : bool :=
  match errors_As as_CommandError err with
  | Some ce => match ce_Sense ce with Some sd => sd_Key sd =? key | None => false end
  | None => false
  end.

(** [io.ReadAll] of a result's data *)
Definition readAll (r : Reader) : PR bytes :=
  match ReadAll r with (bs, None) => mret bs | (_, Some e) => fail e end.

Definition checkResult (result : Result) : PR bytes :=
  match rs_Err result with
  | Some e => fail e
  | None =>
    if negb (rs_Status result =? StatusGood) then
      if Nat.ltb 0 (length (rs_SenseData result)) then
        match ParseSense (rs_SenseData result) with
        | None => panic
        | Some (Ok sd) => fail (ECommand (mkCommandError (rs_Status result) (Some sd)))
        | Some (Err _) => fail (ECommand (mkCommandError (rs_Status result) None))
        end
      else fail (ECommand (mkCommandError (rs_Status result) None))
    else
      match rs_Data result with
      | None => mret []
      | Some r => readAll r
      end
  end.

(** ** Specification: what a device encodes *)

(** Sense data descriptors (SPC-4 4.5.2); [extra] is what a descriptor longer than
    its fields carries. *)
Inductive descriptor :=
  | DInformation (valid : bool) (info : Z) (extra : bytes)
  | DStream (filemark eom ili : bool) (extra : bytes)
  | DOther (type : Z) (payload : bytes).

Definition descriptor_ok (d : descriptor) : Prop :=
  match d with
  | DInformation _ info extra => u64 info /\ (length extra <= 245)%nat
  | DStream _ _ _ extra => (length extra <= 253)%nat
  | DOther type payload => type <> 0 /\ type <> 4 /\ (length payload <= 255)%nat
  end.

Definition descriptor_payload (d : descriptor) : bytes :=
  match d with
  | DInformation valid info extra => [flag valid 0x80; 0] ++ be_bytes 8 info ++ extra
  | DStream filemark eom ili extra =>
      [0; Z.lor (flag filemark 0x80) (Z.lor (flag eom 0x40) (flag ili 0x20))] ++ extra
  | DOther _ payload => payload
  end.
Definition descriptor_type (d : descriptor) : Z :=
  match d with DInformation _ _ _ => 0 | DStream _ _ _ _ => 4 | DOther type _ => type end.
Definition descriptor_bytes (d : descriptor) : bytes :=
  [descriptor_type d; Z.of_nat (length (descriptor_payload d))] ++ descriptor_payload d.

(** What a descriptor says about the sense data *)
Definition apply_descriptor (sd : SenseData) (d : descriptor) : SenseData :=
  match d with
  | DInformation valid info _ => set_Information valid info sd
  | DStream filemark eom ili _ =>
      mkSenseData (sd_ResponseCode sd) (sd_Key sd) (sd_ASC sd) (sd_ASCQ sd) (sd_Information sd)
        (sd_Valid sd) filemark eom ili (sd_Raw sd)
  | DOther _ _ => sd
  end.

Definition descriptors_bytes (ds : list descriptor) : bytes := concat (map descriptor_bytes ds).

(** Fixed-format sense data (SPC-4 4.5.3) and descriptor-format sense data; [mid]
    and [rest] are the bytes the initiator does not read. *)
Inductive sense :=
  | FixedSense (deferred valid filemark eom ili : bool) (segment key info : Z) (mid : bytes) (asc ascq : Z)
      (rest : bytes)
  | DescriptorSense (deferred : bool) (key asc ascq : Z) (ds : list descriptor) (rest : bytes).

Definition sense_ok (s : sense) : Prop :=
  match s with
  | FixedSense _ _ _ _ _ _ key info mid _ _ rest =>
      in_width 4 key /\ u32 info /\ length mid = 5%nat /\ (4 <= length rest)%nat
  | DescriptorSense _ key _ _ ds _ =>
      in_width 4 key /\ Forall descriptor_ok ds /\ (length (descriptors_bytes ds) <= 255)%nat
  end.

Definition sense_bytes (s : sense) : bytes :=
  match s with
  | FixedSense deferred valid filemark eom ili segment key info mid asc ascq rest =>
      [Z.lor (flag valid 0x80) (if deferred then 0x71 else 0x70); segment;
       Z.lor (flag filemark 0x80) (Z.lor (flag eom 0x40) (Z.lor (flag ili 0x20) key))]
      ++ be_bytes 4 info ++ mid ++ [asc; ascq] ++ rest
  | DescriptorSense deferred key asc ascq ds rest =>
      [if deferred then 0x73 else 0x72; key; asc; ascq; 0; 0; 0; Z.of_nat (length (descriptors_bytes ds))]
      ++ descriptors_bytes ds ++ rest
  end.

Definition sense_data (s : sense) : SenseData :=
  match s with
  | FixedSense deferred valid filemark eom ili _ key info _ asc ascq _ =>
      mkSenseData (if deferred then 0x71 else 0x70) key asc ascq info valid filemark eom ili (sense_bytes s)
  | DescriptorSense deferred key asc ascq ds _ =>
      fold_left apply_descriptor ds
        (mkSenseData (if deferred then 0x73 else 0x72) key asc ascq 0 false false false false (sense_bytes s))
  end.

(** The lengths and response codes [ParseSense] accepts *)
Definition sense_acceptable (data : bytes) : bool :=
  let code := Z.land (byte_at 0 data) 0x7f in
  if (code =? 0x70) || (code =? 0x71) then Nat.leb 18 (length data)
  else ((code =? 0x72) || (code =? 0x73)) && Nat.leb 8 (length data).

(** ** Lemmas *)

Lemma parseDescriptor_returns pos t l data sd : (pos + 2 + Z.to_nat l <= length data)%nat ->
  returns (parseDescriptor pos t l data sd).
Proof.
  intros Hl. unfold parseDescriptor.
  destruct (t =? 0); [destruct (Z.geb_spec l 10)|destruct (t =? 4); [destruct (Z.geb_spec l 2)|]]; returns.
Qed.

Lemma parseDescriptor_no_error pos t l data sd e : parseDescriptor pos t l data sd <> Some (Err e).
Proof.
  unfold parseDescriptor, at_, slice_be, slice. repeat case_match; try done;
    unfold mbind, PR_bind, mret, PR_ret; repeat case_match; simplify_eq; done.
Qed.

(** The loop ends within the fuel, stays within the data and does not fail. *)
Lemma parseDescriptors_loop_ok fuel : forall pos descEnd data sd,
  (length data <= fuel + pos)%nat -> (descEnd <= length data)%nat ->
  exists sd', parseDescriptors_loop fuel pos descEnd data sd = Some (Ok sd').
Proof.
  induction fuel as [|fuel IH]; intros pos descEnd data sd Hf He; cbn [parseDescriptors_loop];
    (destruct (Nat.leb_spec (pos + 2) descEnd) as [Hp|Hp]; [|by eauto]); [lia|].
  rewrite (PR_bind_Ok _ _ _ (at_ok pos data ltac:(lia))), (PR_bind_Ok _ _ _ (at_ok (pos + 1) data ltac:(lia))).
  destruct (Nat.ltb_spec descEnd (pos + 2 + Z.to_nat (byte_at (pos + 1) data))); [by eauto|].
  destruct (parseDescriptor pos (byte_at pos data) (byte_at (pos + 1) data) data sd) as [[sd1|e]|] eqn:E.
  - rewrite (PR_bind_Ok _ _ sd1) by done. apply IH; lia.
  - by apply parseDescriptor_no_error in E.
  - by destruct (parseDescriptor_returns pos (byte_at pos data) (byte_at (pos + 1) data) data sd ltac:(lia)).
Qed.

Lemma parseDescriptors_ok sd data : (8 <= length data)%nat ->
  exists sd', parseDescriptors sd data = Some (Ok sd').
Proof.
  intros H. unfold parseDescriptors. destruct (Nat.ltb_spec (length data) 8); [lia|].
  rewrite (PR_bind_Ok _ _ _ (at_ok 7 data ltac:(lia))). apply parseDescriptors_loop_ok; lia.
Qed.

Lemma byte_at_shift i pre l : byte_at (length pre + i) (pre ++ l) = byte_at i l.
Proof. unfold byte_at. rewrite sub_app_r by lia. do 4 f_equal. lia. Qed.

Lemma get_be_shift n i pre l : get_be n (length pre + i) (pre ++ l) = get_be n i l.
Proof. unfold get_be. rewrite sub_app_r by lia. do 2 f_equal. lia. Qed.

Lemma byte_at_pos i k pre l : i = (length pre + k)%nat -> byte_at i (pre ++ l) = byte_at k l.
Proof. intros ->. apply byte_at_shift. Qed.

Lemma get_be_pos n i k pre l : i = (length pre + k)%nat -> get_be n i (pre ++ l) = get_be n k l.
Proof. intros ->. apply get_be_shift. Qed.

Lemma parseDescriptor_bytes d pre post sd : descriptor_ok d ->
  parseDescriptor (length pre) (descriptor_type d) (Z.of_nat (length (descriptor_payload d)))
    (pre ++ descriptor_bytes d ++ post) sd = Some (Ok (apply_descriptor sd d)).
Proof.
  intros Hd. unfold parseDescriptor, descriptor_bytes. destruct d as [valid info extra|filemark eom ili extra|t payload].
  - destruct Hd as [Hi He]. cbn [descriptor_type descriptor_payload descriptor_bytes].
    cbn [Z.eqb]. rewrite !length_app, length_be_bytes. cbn [length].
    destruct (Z.geb_spec (Z.of_nat (2 + (8 + length extra))) 10); [|lia].
    rewrite at_ok, (PR_bind_Ok _ _ _ eq_refl), slice_be_ok, (PR_bind_Ok _ _ _ eq_refl).
    2-3: repeat (rewrite ?length_app, ?length_be_bytes; cbn [length]); lia.
    rewrite byte_at_shift, get_be_shift. rewrite <- !app_assoc. cbn [app].
    change (byte_at 2 (?a :: ?b :: ?c :: ?l)) with c.
    replace (get_be 8 4 _) with info.
    2: { unfold get_be. change (sub 4 8 (?a :: ?b :: ?c :: ?e :: ?l)) with (sub 0 8 l).
         rewrite sub_app_l by (rewrite length_be_bytes; lia).
         rewrite sub_all by apply length_be_bytes. by rewrite be_val_bytes_id. }
    by destruct valid.
  - cbn [descriptor_type descriptor_payload descriptor_bytes] in *. cbn [Z.eqb].
    rewrite length_app. cbn [length].
    destruct (Z.geb_spec (Z.of_nat (2 + length extra)) 2); [|lia].
    rewrite at_ok, (PR_bind_Ok _ _ _ eq_refl).
    2: repeat (rewrite ?length_app; cbn [length]); lia.
    rewrite byte_at_shift. cbn [app]. change (byte_at 3 (?a :: ?b :: ?c :: ?e :: ?l)) with e.
    by destruct filemark, eom, ili.
  - destruct Hd as (H0 & H4 & _). cbn [descriptor_type descriptor_payload].
    by rewrite (proj2 (Z.eqb_neq _ _) H0), (proj2 (Z.eqb_neq _ _) H4).
Qed.

Lemma length_descriptor_bytes d : length (descriptor_bytes d) = (2 + length (descriptor_payload d))%nat.
Proof. done. Qed.

Lemma parseDescriptors_loop_bytes ds : forall fuel pre rest sd, Forall descriptor_ok ds ->
  (length ds <= fuel)%nat ->
  parseDescriptors_loop fuel (length pre) (length pre + length (descriptors_bytes ds))
    (pre ++ descriptors_bytes ds ++ rest) sd = Some (Ok (fold_left apply_descriptor ds sd)).
Proof.
  induction ds as [|d ds IH]; intros fuel pre rest sd Hds Hf; simpl in Hf.
  - unfold descriptors_bytes. cbn [map concat length]. destruct fuel; cbn [parseDescriptors_loop];
      (destruct (Nat.leb_spec (length pre + 2) (length pre + 0)); [lia|done]).
  - apply Forall_cons in Hds as [Hd Hds].
    unfold descriptors_bytes. cbn [map concat]. fold (descriptors_bytes ds).
    rewrite length_app, length_descriptor_bytes, <- app_assoc.
    destruct fuel as [|fuel]; [lia|]. cbn [parseDescriptors_loop].
    destruct (Nat.leb_spec (length pre + 2)
      (length pre + (2 + length (descriptor_payload d) + length (descriptors_bytes ds)))); [|lia].
    set (data := pre ++ _).
    assert (Hlen : length data = (length pre + (2 + length (descriptor_payload d)
      + (length (descriptors_bytes ds) + length rest)))%nat).
    { subst data. by rewrite !length_app, length_descriptor_bytes. }
    rewrite (PR_bind_Ok _ _ _ (at_ok (length pre) data ltac:(lia))),
      (PR_bind_Ok _ _ _ (at_ok (length pre + 1) data ltac:(lia))).
    replace (byte_at (length pre) data) with (descriptor_type d)
      by (subst data; rewrite <- (Nat.add_0_r (length pre)), byte_at_shift; done).
    replace (byte_at (length pre + 1) data) with (Z.of_nat (length (descriptor_payload d)))
      by (subst data; rewrite byte_at_shift; done).
    rewrite Nat2Z.id. destruct (Nat.ltb_spec
      (length pre + (2 + length (descriptor_payload d) + length (descriptors_bytes ds)))
      (length pre + 2 + length (descriptor_payload d))); [lia|].
    subst data. rewrite parseDescriptor_bytes, (PR_bind_Ok _ _ _ eq_refl) by done.
    specialize (IH fuel (pre ++ descriptor_bytes d) rest (apply_descriptor sd d) Hds ltac:(lia)).
    rewrite length_app, length_descriptor_bytes, <- app_assoc in IH.
    cbn [fold_left]. rewrite <- IH. f_equal; lia.
Qed.

Lemma length_descriptors_bytes ds : (2 * length ds <= length (descriptors_bytes ds))%nat.
Proof.
  induction ds as [|d ds IH]; [done|]. unfold descriptors_bytes in *. cbn [map concat].
  rewrite length_app, length_descriptor_bytes. cbn [length]. lia.
Qed.

Lemma parseDescriptors_bytes hd ds rest sd : length hd = 7%nat -> Forall descriptor_ok ds ->
  (length (descriptors_bytes ds) <= 255)%nat ->
  parseDescriptors sd (hd ++ Z.of_nat (length (descriptors_bytes ds)) :: descriptors_bytes ds ++ rest)
  = Some (Ok (fold_left apply_descriptor ds sd)).
Proof.
  intros Hhd Hds Hl. set (pre := hd ++ [Z.of_nat (length (descriptors_bytes ds))]).
  replace (hd ++ _) with (pre ++ descriptors_bytes ds ++ rest) by (subst pre; by rewrite <- app_assoc).
  assert (Hpre : length pre = 8%nat) by (subst pre; rewrite length_app; simpl; lia).
  unfold parseDescriptors. rewrite (proj2 (Nat.ltb_ge _ _)) by (rewrite length_app; lia).
  rewrite at_ok, (PR_bind_Ok _ _ _ eq_refl) by (rewrite length_app; lia).
  replace (byte_at 7 _) with (Z.of_nat (length (descriptors_bytes ds))).
  2: { subst pre. rewrite <- app_assoc, <- (Nat.add_0_r 7), <- Hhd, byte_at_shift. done. }
  rewrite Nat2Z.id, !length_app, Nat.min_l by lia.
  rewrite <- Hpre. apply parseDescriptors_loop_bytes; [done|].
  pose proof (length_descriptors_bytes ds). lia.
Qed.

Lemma land_code a c : Z.land c 0x80 = 0 -> Z.land (Z.lor (flag a 0x80) c) 0x7f = Z.land c 0x7f.
Proof. intros _. rewrite Z.land_lor_distr_l. by destruct a. Qed.

(** The bytes of sense data are accepted by the parser's tests. *)
Lemma in_width4_bits key : in_width 4 key ->
  Z.land key 0x0f = key /\ has_bit key 0x80 = false /\ has_bit key 0x40 = false /\ has_bit key 0x20 = false.
Proof.
  intros H. assert (E : Z.land key 0x0f = key) by by apply (land_ones_id 4).
  unfold has_bit. rewrite <- E. by rewrite <- !Z.land_assoc, !Z.land_0_r.
Qed.

Lemma stream_bits f1 f2 f3 key : in_width 4 key ->
  let b := Z.lor (flag f1 0x80) (Z.lor (flag f2 0x40) (Z.lor (flag f3 0x20) key)) in
  Z.land b 0x0f = key /\ has_bit b 0x80 = f1 /\ has_bit b 0x40 = f2 /\ has_bit b 0x20 = f3.
Proof.
  intros Hk. destruct (in_width4_bits key Hk) as (E & E1 & E2 & E3). cbv zeta.
  rewrite !Z.land_lor_distr_l, !has_bit_lor, E, E1, E2, E3. by destruct f1, f2, f3.
Qed.

Lemma ParseSense_fixed deferred valid fm eom ili seg key info mid asc ascq rest :
  let s := FixedSense deferred valid fm eom ili seg key info mid asc ascq rest in
  sense_ok s -> ParseSense (sense_bytes s) = Some (Ok (sense_data s)).
Proof.
  intros s (Hk & Hi & Hm & Hr). subst s. unfold sense_data. set (data := sense_bytes _).
  assert (Hlen : (18 <= length data)%nat).
  { subst data. unfold sense_bytes. rewrite !length_app, length_be_bytes. simpl. lia. }
  destruct (stream_bits fm eom ili key Hk) as (E & E1 & E2 & E3).
  assert (Hasc : byte_at 12 data = asc /\ byte_at 13 data = ascq).
  { subst data. unfold sense_bytes. rewrite app_assoc, (app_assoc _ mid).
    set (pre := (_ ++ be_bytes 4 info) ++ mid).
    assert (Hpre : length pre = 12%nat) by (subst pre; rewrite !length_app, length_be_bytes, Hm; done).
    split; [apply (byte_at_pos _ 0)|apply (byte_at_pos _ 1)]; lia. }
  assert (Hinfo : get_be 4 3 data = info).
  { subst data. unfold sense_bytes. rewrite (get_be_pos _ _ 0) by done. unfold get_be. rewrite sub_app_l by (rewrite length_be_bytes; lia).
    rewrite sub_all by apply length_be_bytes. by rewrite be_val_bytes_id. }
  unfold ParseSense. rewrite (proj2 (Nat.ltb_ge _ 2)) by lia. rewrite (PR_bind_Ok _ _ tt) by done.
  rewrite (PR_bind_Ok _ _ _ (at_ok 0 data ltac:(lia))). cbv beta zeta.
  change (byte_at 0 data) with (Z.lor (flag valid 0x80) (if deferred then 0x71 else 0x70)).
  rewrite (proj2 (Nat.ltb_ge _ 18)) by lia.
  replace (Z.land (Z.lor _ _) 0x7f) with (if deferred then 0x71 else 0x70) by by destruct deferred, valid.
  replace (((if deferred then 0x71 else 0x70) =? 0x70) || ((if deferred then 0x71 else 0x70) =? 0x71))
    with true by by destruct deferred.
  rewrite (PR_bind_Ok _ _ tt) by done. access. rewrite Hinfo.
  destruct Hasc as [-> ->].
  change (byte_at 2 data) with (Z.lor (flag fm 0x80) (Z.lor (flag eom 0x40) (Z.lor (flag ili 0x20) key))).
  rewrite E, E1, E2, E3. by destruct deferred, valid.
Qed.

Lemma ParseSense_descriptor deferred key asc ascq ds rest :
  let s := DescriptorSense deferred key asc ascq ds rest in
  sense_ok s -> ParseSense (sense_bytes s) = Some (Ok (sense_data s)).
Proof.
  intros s (Hk & Hds & Hl). subst s. unfold sense_data. set (data := sense_bytes _).
  assert (Hlen : (8 <= length data)%nat) by (subst data; unfold sense_bytes; rewrite length_app; simpl; lia).
  unfold ParseSense. rewrite (proj2 (Nat.ltb_ge _ 2)) by lia. rewrite (PR_bind_Ok _ _ tt) by done.
  rewrite (PR_bind_Ok _ _ _ (at_ok 0 data ltac:(lia))). cbv beta zeta.
  change (byte_at 0 data) with (if deferred then 0x73 else 0x72).
  rewrite (proj2 (Nat.ltb_ge _ 8)) by lia.
  replace (Z.land (if deferred then 0x73 else 0x72) 0x7f) with (if deferred then 0x73 else 0x72)
    by by destruct deferred.
  replace (_ || _) with false by by destruct deferred.
  replace (_ || _) with true by by destruct deferred.
  rewrite (PR_bind_Ok _ _ tt) by done. access.
  change (byte_at 1 data) with key. change (byte_at 2 data) with asc. change (byte_at 3 data) with ascq.
  destruct (in_width4_bits key Hk) as (-> & _).
  apply (parseDescriptors_bytes [_; _; _; _; _; _; _]); done.
Qed.

(** [ParseSense] never panics. *)
Lemma ParseSense_result (data : bytes) :
  exists r, ParseSense data = Some r /\ is_Ok r = sense_acceptable data.
Proof.
  unfold ParseSense, sense_acceptable. destruct (Nat.ltb_spec (length data) 2) as [H2|H2].
  - exists (Err (Errorf "scsi: sense data too short (%d bytes)" [Z.of_nat (length data)])).
    split; [done|]. destruct (Nat.leb_spec 18 (length data)), (Nat.leb_spec 8 (length data)); try lia.
    rewrite andb_false_r. by case_match.
  - rewrite (PR_bind_Ok _ _ tt), (PR_bind_Ok _ _ _ (at_ok 0 data ltac:(lia))) by done. cbv beta zeta.
    set (code := Z.land (byte_at 0 data) 0x7f). destruct (_ || _).
    + destruct (Nat.leb_spec 18 (length data)) as [H|H].
      * rewrite (proj2 (Nat.ltb_ge _ 18)) by lia. access. by eexists.
      * rewrite (proj2 (Nat.ltb_lt _ 18)) by lia. by eexists.
    + destruct (_ || _); [|by eexists]. destruct (Nat.leb_spec 8 (length data)) as [H|H].
      * rewrite (proj2 (Nat.ltb_ge _ 8)) by lia. access.
        destruct (parseDescriptors_ok (mkSenseData code (Z.land (byte_at 1 data) 0x0f) (byte_at 2 data)
          (byte_at 3 data) 0 false false false false data) data H) as [sd ->]. by eexists.
      * rewrite (proj2 (Nat.ltb_lt _ 8)) by lia. by eexists.
Qed.

Lemma ParseSense_returns data : returns (ParseSense data).
Proof. by destruct (ParseSense_result data) as (r & -> & _). Qed.

(** ** Properties *)

(** C27.  [ParseSense] reads what a device encodes: fixed-format sense data gives
    its key, codes, information and flags wherever the vendor bytes are, and
    descriptor-format sense data gives its key and codes with the fields of its
    information and stream descriptors, the last of a kind winning, descriptors of
    other types and bytes after the additional length being skipped. *)
Theorem ParseSense_encoded (s : sense) : sense_ok s ->
  ParseSense (sense_bytes s) = Some (Ok (sense_data s)).
Proof. destruct s; [apply ParseSense_fixed|apply ParseSense_descriptor]. Qed.

Lemma ParseSense_encoded_witness :
  let s := DescriptorSense false 5 0x24 0
    [DOther 2 [0; 0; 1; 2; 3; 0]; DStream true false true []; DInformation true 1234567890123 []] [9; 9] in
  sense_ok s /\ ParseSense (sense_bytes s)
    = Some (Ok (mkSenseData 0x72 5 0x24 0 1234567890123 true true false true (sense_bytes s))).
Proof.
  intros s. assert (H : sense_ok s).
  { split; [unfold in_width; lia|]. split; [|apply Nat.leb_le; reflexivity].
    repeat constructor; simpl; unfold in_width; lia. }
  split; [exact H|]. exact (ParseSense_encoded s H).
Defined.

(** C28.  [ParseSense] returns on every input, without running over the end of the
    data however its length fields are set, and it succeeds exactly on data of a
    known response code that is long enough for its format. *)
Theorem ParseSense_total (data : bytes) :
  exists r, ParseSense data = Some r /\ is_Ok r = sense_acceptable data.
Proof. apply ParseSense_result. Qed.
