(* ===== verification/Cdb.v ===== *)
(** Command descriptor blocks: the command builders of [src/internal/scsi]
    ([commands.go], [readwrite.go], [capacity.go], [inquiry.go], [modesense.go],
    [provisioning.go], [reservations.go]).

    [request] and [decode_cdb] are the specification: the requests of SPC-4 and
    SBC-3 with their fields, and how a device reads them from a CDB. *)
From S2P Require Import Prelude Errors Bhs PduTactics GoIO Chan Types.
#[local] Open Scope string_scope.
#[local] Open Scope list_scope.
#[local] Open Scope Z_scope.

Definition OpTestUnitReady : Z := 0x00.
Definition OpRequestSense : Z := 0x03.
Definition OpInquiry : Z := 0x12.
Definition OpModeSelect6 : Z := 0x15.
Definition OpModeSense6 : Z := 0x1A.
Definition OpStartStopUnit : Z := 0x1B.
Definition OpReadCapacity10 : Z := 0x25.
Definition OpRead10 : Z := 0x28.
Definition OpWrite10 : Z := 0x2A.
Definition OpVerify10 : Z := 0x2F.
Definition OpSynchronizeCache10 : Z := 0x35.
Definition OpWriteSame10 : Z := 0x41.
Definition OpUnmap : Z := 0x42.
Definition OpModeSelect10 : Z := 0x55.
Definition OpModeSense10 : Z := 0x5A.
Definition OpPersistReserveIn : Z := 0x5E.
Definition OpPersistReserveOut : Z := 0x5F.
Definition OpRead16 : Z := 0x88.
Definition OpCompareAndWrite : Z := 0x89.
Definition OpWrite16 : Z := 0x8A.
Definition OpVerify16 : Z := 0x8F.
Definition OpSynchronizeCache16 : Z := 0x91.
Definition OpWriteSame16 : Z := 0x93.
Definition OpServiceActionIn16 : Z := 0x9E.
Definition OpReportLuns : Z := 0xA0.

Definition PRInReadKeys : Z := 0x00.
Definition PRInReadReservation : Z := 0x01.
Definition PRInReportCapabilities : Z := 0x02.
Definition PRInReadFullStatus : Z := 0x03.
Definition PROutRegister : Z := 0x00.
Definition PROutReserve : Z := 0x01.
Definition PROutRelease : Z := 0x02.
Definition PROutClear : Z := 0x03.
Definition PROutPreempt : Z := 0x04.
Definition PROutPreemptAndAbort : Z := 0x05.
Definition PROutRegisterAndIgnore : Z := 0x06.
Definition PROutRegisterAndMove : Z := 0x07.

(** ** Options *)

Record options := mkOptions {
  o_fua : bool; o_dpo : bool; o_immed : bool; o_anchor : bool; o_unmap : bool; o_ndob : bool; o_dbd : bool;
  o_bytchk : Z; o_pageControl : Z;
}.

Definition Option_ : Type := options -> options.

Definition WithFUA : Option_ := fun o => mkOptions true (o_dpo o) (o_immed o) (o_anchor o) (o_unmap o)
  (o_ndob o) (o_dbd o) (o_bytchk o) (o_pageControl o).
Definition WithDPO : Option_ := fun o => mkOptions (o_fua o) true (o_immed o) (o_anchor o) (o_unmap o)
  (o_ndob o) (o_dbd o) (o_bytchk o) (o_pageControl o).
Definition WithImmed : Option_ := fun o => mkOptions (o_fua o) (o_dpo o) true (o_anchor o) (o_unmap o)
  (o_ndob o) (o_dbd o) (o_bytchk o) (o_pageControl o).
Definition WithAnchor : Option_ := fun o => mkOptions (o_fua o) (o_dpo o) (o_immed o) true (o_unmap o)
  (o_ndob o) (o_dbd o) (o_bytchk o) (o_pageControl o).
Definition WithUnmap : Option_ := fun o => mkOptions (o_fua o) (o_dpo o) (o_immed o) (o_anchor o) true
  (o_ndob o) (o_dbd o) (o_bytchk o) (o_pageControl o).
Definition WithNDOB : Option_ := fun o => mkOptions (o_fua o) (o_dpo o) (o_immed o) (o_anchor o) (o_unmap o)
  true (o_dbd o) (o_bytchk o) (o_pageControl o).
Definition WithBytchk (v : Z) : Option_ := fun o => mkOptions (o_fua o) (o_dpo o) (o_immed o) (o_anchor o)
  (o_unmap o) (o_ndob o) (o_dbd o) v (o_pageControl o).
Definition WithDBD : Option_ := fun o => mkOptions (o_fua o) (o_dpo o) (o_immed o) (o_anchor o) (o_unmap o)
  (o_ndob o) true (o_bytchk o) (o_pageControl o).
Definition WithPageControl (pc : Z) : Option_ := fun o => mkOptions (o_fua o) (o_dpo o) (o_immed o)
  (o_anchor o) (o_unmap o) (o_ndob o) (o_dbd o) (o_bytchk o) (Z.land pc 0x03).

Definition applyOptions (opts : list Option_) : options :=
  fold_left (fun o f => f o) opts (mkOptions false false false false false false false 0 0).

(** ** Commands *)

(** [var cmd session.Command] with the fields a builder sets *)
Definition no_data (cdb : bytes) (lun : Z) : Command := mkCommand cdb false false 0 lun 0 None.
Definition data_in (cdb : bytes) (expected lun : Z) : Command := mkCommand cdb true false expected lun 0 None.
Definition data_out (cdb : bytes) (data : Reader) (expected lun : Z) : Command :=
  mkCommand cdb false true expected lun 0 (Some data).

(** [cmd.CDB[i] = v] *)
Definition cdb_set (i : nat) (v : Z) (cdb : bytes) : bytes := upd i [v] cdb.
Definition cdb0 (op : Z) : bytes := cdb_set 0 op (zeros 16).

Definition TestUnitReady (lun : Z) : Command := no_data (cdb0 OpTestUnitReady) lun.

Definition RequestSense (lun allocLen : Z) : Command :=
  data_in (cdb_set 4 allocLen (cdb0 OpRequestSense)) allocLen lun.

Definition ReportLuns (allocLen : Z) : Command := data_in (put_be 4 6 allocLen (cdb0 OpReportLuns)) allocLen 0.

Definition Verify10 (lun lba blocks : Z) (opts : list Option_) : Command :=
  let cfg := applyOptions opts in
  let cdb := cdb_set 1 (uint8 (Z.shiftl (Z.land (o_bytchk cfg) 0x03) 1)) (cdb0 OpVerify10) in
  no_data (put_be 2 7 blocks (put_be 4 2 lba cdb)) lun.

Definition Verify16 (lun lba blocks : Z) (opts : list Option_) : Command :=
  let cfg := applyOptions opts in
  let cdb := cdb_set 1 (uint8 (Z.shiftl (Z.land (o_bytchk cfg) 0x03) 1)) (cdb0 OpVerify16) in
  no_data (put_be 4 10 blocks (put_be 8 2 lba cdb)) lun.

Definition CompareAndWrite (lun lba blocks blockSize : Z) (data : Reader) : Command :=
  data_out (cdb_set 13 blocks (put_be 8 2 lba (cdb0 OpCompareAndWrite))) data
    (uint32 (uint32 (2 * blocks) * blockSize)) lun.

Definition StartStopUnit (lun powerCondition : Z) (start loadEject : bool) (opts : list Option_) : Command :=
  let cfg := applyOptions opts in
  let cdb := or_byte 1 (flag (o_immed cfg) 0x01) (cdb0 OpStartStopUnit) in
  let cdb := cdb_set 4 (uint8 (Z.shiftl (Z.land powerCondition 0x0f) 4)) cdb in
  let cdb := or_byte 4 (flag loadEject 0x02) cdb in
  no_data (or_byte 4 (flag start 0x01) cdb) lun.

(** The flags of the read and write commands *)
Definition rw_flags (o : options) (cdb : bytes) : bytes :=
  or_byte 1 (flag (o_fua o) 0x08) (or_byte 1 (flag (o_dpo o) 0x10) cdb).

Definition Read10 (lun lba blocks blockSize : Z) (opts : list Option_) : Command :=
  data_in (put_be 2 7 blocks (put_be 4 2 lba (rw_flags (applyOptions opts) (cdb0 OpRead10))))
    (uint32 (blocks * blockSize)) lun.

Definition Read16 (lun lba blocks blockSize : Z) (opts : list Option_) : Command :=
  data_in (put_be 4 10 blocks (put_be 8 2 lba (rw_flags (applyOptions opts) (cdb0 OpRead16))))
    (uint32 (blocks * blockSize)) lun.

Definition Write10 (lun lba blocks blockSize : Z) (data : Reader) (opts : list Option_) : Command :=
  data_out (put_be 2 7 blocks (put_be 4 2 lba (rw_flags (applyOptions opts) (cdb0 OpWrite10)))) data
    (uint32 (blocks * blockSize)) lun.

Definition Write16 (lun lba blocks blockSize : Z) (data : Reader) (opts : list Option_) : Command :=
  data_out (put_be 4 10 blocks (put_be 8 2 lba (rw_flags (applyOptions opts) (cdb0 OpWrite16)))) data
    (uint32 (blocks * blockSize)) lun.

Definition ReadCapacity10 (lun : Z) : Command := data_in (cdb0 OpReadCapacity10) 8 lun.

Definition ReadCapacity16 (lun allocLen : Z) : Command :=
  data_in (put_be 4 10 allocLen (cdb_set 1 0x10 (cdb0 OpServiceActionIn16))) allocLen lun.

Definition Inquiry (lun allocLen : Z) : Command := data_in (put_be 2 3 allocLen (cdb0 OpInquiry)) allocLen lun.

Definition InquiryVPD (lun pageCode allocLen : Z) : Command :=
  data_in (put_be 2 3 allocLen (cdb_set 2 pageCode (cdb_set 1 0x01 (cdb0 OpInquiry)))) allocLen lun.

(** Bytes 1 to 3 of the MODE SENSE commands *)
Definition mode_page (o : options) (pageCode subpageCode : Z) (cdb : bytes) : bytes :=
  let cdb := cdb_set 1 (if o_dbd o then 0x08 else byte_at 1 cdb) cdb in
  let cdb := cdb_set 2 (Z.lor (uint8 (Z.shiftl (o_pageControl o) 6)) (Z.land pageCode 0x3f)) cdb in
  cdb_set 3 subpageCode cdb.

Definition ModeSense6 (lun pageCode subpageCode allocLen : Z) (opts : list Option_) : Command :=
  data_in (cdb_set 4 allocLen (mode_page (applyOptions opts) pageCode subpageCode (cdb0 OpModeSense6)))
    allocLen lun.

Definition ModeSense10 (lun pageCode subpageCode allocLen : Z) (opts : list Option_) : Command :=
  data_in (put_be 2 7 allocLen (mode_page (applyOptions opts) pageCode subpageCode (cdb0 OpModeSense10)))
    allocLen lun.

Definition ModeSelect6 (lun : Z) (data : bytes) : Command :=
  let len := Z.of_nat (length data) in
  data_out (cdb_set 4 (uint8 len) (cdb_set 1 0x10 (cdb0 OpModeSelect6))) (NewReader data) (uint32 len) lun.

Definition ModeSelect10 (lun : Z) (data : bytes) : Command :=
  let len := Z.of_nat (length data) in
  data_out (put_be 2 7 (uint16 len) (cdb_set 1 0x10 (cdb0 OpModeSelect10))) (NewReader data) (uint32 len) lun.

Definition SynchronizeCache10 (lun lba blocks : Z) (opts : list Option_) : Command :=
  let cfg := applyOptions opts in
  let cdb := or_byte 1 (flag (o_immed cfg) 0x02) (cdb0 OpSynchronizeCache10) in
  no_data (put_be 2 7 blocks (put_be 4 2 lba cdb)) lun.

Definition SynchronizeCache16 (lun lba blocks : Z) (opts : list Option_) : Command :=
  let cfg := applyOptions opts in
  let cdb := or_byte 1 (flag (o_immed cfg) 0x02) (cdb0 OpSynchronizeCache16) in
  no_data (put_be 4 10 blocks (put_be 8 2 lba cdb)) lun.

(** The flags of WRITE SAME, and its data-out unless NDOB is set *)
Definition same_flags (o : options) (cdb : bytes) : bytes :=
  or_byte 1 (flag (o_ndob o) 0x01) (or_byte 1 (flag (o_anchor o) 0x04) (or_byte 1 (flag (o_unmap o) 0x08) cdb)).
Definition same_command (o : options) (cdb : bytes) (data : Reader) (blockSize lun : Z) : Command :=
  if o_ndob o then no_data cdb lun else data_out cdb data blockSize lun.

Definition WriteSame10 (lun lba blocks blockSize : Z) (data : Reader) (opts : list Option_) : Command :=
  let cfg := applyOptions opts in
  same_command cfg (put_be 2 7 blocks (put_be 4 2 lba (same_flags cfg (cdb0 OpWriteSame10)))) data blockSize lun.

Definition WriteSame16 (lun lba blocks blockSize : Z) (data : Reader) (opts : list Option_) : Command :=
  let cfg := applyOptions opts in
  same_command cfg (put_be 4 10 blocks (put_be 8 2 lba (same_flags cfg (cdb0 OpWriteSame16)))) data blockSize lun.

Record UnmapBlockDescriptor := mkUnmap { ub_LBA : Z; ub_BlockCount : Z }.

(** One descriptor of the parameter list *)
Definition unmap_descriptor (d : UnmapBlockDescriptor) : bytes :=
  be_bytes 8 (ub_LBA d) ++ be_bytes 4 (ub_BlockCount d) ++ zeros 4.

(** The parameter list of [Unmap] *)
Definition unmap_params (descriptors : list UnmapBlockDescriptor) : bytes :=
  let bdDataLen := (length descriptors * 16)%nat in
  let paramListLen := (8 + bdDataLen)%nat in
  be_bytes 2 (uint16 (Z.of_nat paramListLen - 2)) ++ be_bytes 2 (uint16 (Z.of_nat bdDataLen)) ++ zeros 4
  ++ concat (map unmap_descriptor descriptors).

Definition Unmap (lun : Z) (descriptors : list UnmapBlockDescriptor) (opts : list Option_) : Command :=
  let cfg := applyOptions opts in
  let paramListLen := Z.of_nat (8 + length descriptors * 16) in
  let cdb := or_byte 1 (flag (o_anchor cfg) 0x01) (cdb0 OpUnmap) in
  data_out (put_be 2 7 (uint16 paramListLen) cdb) (NewReader (unmap_params descriptors)) (uint32 paramListLen)
    lun.

Definition PersistReserveIn (lun serviceAction allocLen : Z) : Command :=
  data_in (put_be 2 7 allocLen (cdb_set 1 (Z.land serviceAction 0x1f) (cdb0 OpPersistReserveIn))) allocLen lun.

(** The parameter list of [PersistReserveOut] *)
Definition reserve_params (key saKey : Z) : bytes := be_bytes 8 key ++ be_bytes 8 saKey ++ zeros 8.

Definition PersistReserveOut (lun serviceAction scopeType key saKey : Z) : Command :=
  let cdb := cdb_set 2 scopeType (cdb_set 1 (Z.land serviceAction 0x1f) (cdb0 OpPersistReserveOut)) in
  data_out (put_be 4 5 24 cdb) (NewReader (reserve_params key saKey)) 24 lun.

(** ** Specification: the requests a device reads *)

(** [wide] is whether the CDB has 16 bytes where the request has a short form of 6
    or 10. *)
Inductive request :=
  | ReqTestUnitReady
  | ReqRequestSense (alloc : Z)
  | ReqInquiry (evpd : bool) (page alloc : Z)
  | ReqReportLuns (alloc : Z)
  | ReqReadCapacity10
  | ReqReadCapacity16 (alloc : Z)
  | ReqRead (wide dpo fua : bool) (lba blocks : Z)
  | ReqWrite (wide dpo fua : bool) (lba blocks : Z)
  | ReqVerify (wide : bool) (bytchk lba blocks : Z)
  | ReqCompareAndWrite (lba blocks : Z)
  | ReqSynchronizeCache (wide immed : bool) (lba blocks : Z)
  | ReqWriteSame (wide anchor unmap pbdata ndob : bool) (lba blocks : Z)
  | ReqUnmap (anchor : bool) (len : Z)
  | ReqStartStop (immed : bool) (power : Z) (loej start : bool)
  | ReqModeSense (wide dbd : bool) (pc page subpage alloc : Z)
  | ReqModeSelect (wide pf : bool) (len : Z)
  | ReqPersistIn (action alloc : Z)
  | ReqPersistOut (action scopeType len : Z).

#[export] Instance request_eq_dec : EqDecision request.
Proof. solve_decision. Defined.

(** The CDB formats of SPC-4 (clause 6) and SBC-3 (clause 5) *)
Definition decode_cdb (cdb : bytes) : option request :=
  let op := byte_at 0 cdb in
  let b1 := byte_at 1 cdb in
  let lba10 := get_be 4 2 cdb in
  let lba16 := get_be 8 2 cdb in
  let len10 := get_be 2 7 cdb in
  let len16 := get_be 4 10 cdb in
  let bit m := has_bit b1 m in
  let page wide alloc := ReqModeSense wide (bit 0x08) (Z.shiftr (byte_at 2 cdb) 6) (Z.land (byte_at 2 cdb) 0x3f)
                           (byte_at 3 cdb) alloc in
  if op =? 0x00 then Some ReqTestUnitReady
  else if op =? 0x03 then Some (ReqRequestSense (byte_at 4 cdb))
  else if op =? 0x12 then Some (ReqInquiry (bit 0x01) (byte_at 2 cdb) (get_be 2 3 cdb))
  else if op =? 0x15 then Some (ReqModeSelect false (bit 0x10) (byte_at 4 cdb))
  else if op =? 0x1a then Some (page false (byte_at 4 cdb))
  else if op =? 0x1b then
    let b4 := byte_at 4 cdb in
    Some (ReqStartStop (bit 0x01) (Z.shiftr b4 4) (has_bit b4 0x02) (has_bit b4 0x01))
  else if op =? 0x25 then Some ReqReadCapacity10
  else if op =? 0x28 then Some (ReqRead false (bit 0x10) (bit 0x08) lba10 len10)
  else if op =? 0x2a then Some (ReqWrite false (bit 0x10) (bit 0x08) lba10 len10)
  else if op =? 0x2f then Some (ReqVerify false (Z.land (Z.shiftr b1 1) 3) lba10 len10)
  else if op =? 0x35 then Some (ReqSynchronizeCache false (bit 0x02) lba10 len10)
  else if op =? 0x41 then
    Some (ReqWriteSame false (bit 0x10) (bit 0x08) (bit 0x04) false lba10 len10)
  else if op =? 0x42 then Some (ReqUnmap (bit 0x01) len10)
  else if op =? 0x55 then Some (ReqModeSelect true (bit 0x10) len10)
  else if op =? 0x5a then Some (page true len10)
  else if op =? 0x5e then Some (ReqPersistIn (Z.land b1 0x1f) len10)
  else if op =? 0x5f then Some (ReqPersistOut (Z.land b1 0x1f) (byte_at 2 cdb) (get_be 4 5 cdb))
  else if op =? 0x88 then Some (ReqRead true (bit 0x10) (bit 0x08) lba16 len16)
  else if op =? 0x89 then Some (ReqCompareAndWrite lba16 (byte_at 13 cdb))
  else if op =? 0x8a then Some (ReqWrite true (bit 0x10) (bit 0x08) lba16 len16)
  else if op =? 0x8f then Some (ReqVerify true (Z.land (Z.shiftr b1 1) 3) lba16 len16)
  else if op =? 0x91 then Some (ReqSynchronizeCache true (bit 0x02) lba16 len16)
  else if op =? 0x93 then
    Some (ReqWriteSame true (bit 0x10) (bit 0x08) (bit 0x04) (bit 0x01) lba16 len16)
  else if op =? 0x9e then
    if Z.land b1 0x1f =? 0x10 then Some (ReqReadCapacity16 len16) else None
  else if op =? 0xa0 then Some (ReqReportLuns (get_be 4 6 cdb))
  else None.

(** ** The builders as one function *)

(** A call of a builder, with its arguments *)
Inductive call :=
  | CTestUnitReady (lun : Z)
  | CRequestSense (lun allocLen : Z)
  | CReportLuns (allocLen : Z)
  | CInquiry (lun allocLen : Z)
  | CInquiryVPD (lun pageCode allocLen : Z)
  | CReadCapacity10 (lun : Z)
  | CReadCapacity16 (lun allocLen : Z)
  | CRead10 (lun lba blocks blockSize : Z) (opts : list Option_)
  | CRead16 (lun lba blocks blockSize : Z) (opts : list Option_)
  | CWrite10 (lun lba blocks blockSize : Z) (data : Reader) (opts : list Option_)
  | CWrite16 (lun lba blocks blockSize : Z) (data : Reader) (opts : list Option_)
  | CVerify10 (lun lba blocks : Z) (opts : list Option_)
  | CVerify16 (lun lba blocks : Z) (opts : list Option_)
  | CCompareAndWrite (lun lba blocks blockSize : Z) (data : Reader)
  | CStartStopUnit (lun powerCondition : Z) (start loadEject : bool) (opts : list Option_)
  | CModeSense6 (lun pageCode subpageCode allocLen : Z) (opts : list Option_)
  | CModeSense10 (lun pageCode subpageCode allocLen : Z) (opts : list Option_)
  | CModeSelect6 (lun : Z) (data : bytes)
  | CModeSelect10 (lun : Z) (data : bytes)
  | CSynchronizeCache10 (lun lba blocks : Z) (opts : list Option_)
  | CSynchronizeCache16 (lun lba blocks : Z) (opts : list Option_)
  | CWriteSame10 (lun lba blocks blockSize : Z) (data : Reader) (opts : list Option_)
  | CWriteSame16 (lun lba blocks blockSize : Z) (data : Reader) (opts : list Option_)
  | CUnmap (lun : Z) (descriptors : list UnmapBlockDescriptor) (opts : list Option_)
  | CPersistReserveIn (lun serviceAction allocLen : Z)
  | CPersistReserveOut (lun serviceAction scopeType key saKey : Z).

Definition build (c : call) : Command :=
  match c with
  | CTestUnitReady lun => TestUnitReady lun
  | CRequestSense lun allocLen => RequestSense lun allocLen
  | CReportLuns allocLen => ReportLuns allocLen
  | CInquiry lun allocLen => Inquiry lun allocLen
  | CInquiryVPD lun pageCode allocLen => InquiryVPD lun pageCode allocLen
  | CReadCapacity10 lun => ReadCapacity10 lun
  | CReadCapacity16 lun allocLen => ReadCapacity16 lun allocLen
  | CRead10 lun lba blocks blockSize opts => Read10 lun lba blocks blockSize opts
  | CRead16 lun lba blocks blockSize opts => Read16 lun lba blocks blockSize opts
  | CWrite10 lun lba blocks blockSize data opts => Write10 lun lba blocks blockSize data opts
  | CWrite16 lun lba blocks blockSize data opts => Write16 lun lba blocks blockSize data opts
  | CVerify10 lun lba blocks opts => Verify10 lun lba blocks opts
  | CVerify16 lun lba blocks opts => Verify16 lun lba blocks opts
  | CCompareAndWrite lun lba blocks blockSize data => CompareAndWrite lun lba blocks blockSize data
  | CStartStopUnit lun powerCondition start loadEject opts =>
      StartStopUnit lun powerCondition start loadEject opts
  | CModeSense6 lun pageCode subpageCode allocLen opts => ModeSense6 lun pageCode subpageCode allocLen opts
  | CModeSense10 lun pageCode subpageCode allocLen opts => ModeSense10 lun pageCode subpageCode allocLen opts
  | CModeSelect6 lun data => ModeSelect6 lun data
  | CModeSelect10 lun data => ModeSelect10 lun data
  | CSynchronizeCache10 lun lba blocks opts => SynchronizeCache10 lun lba blocks opts
  | CSynchronizeCache16 lun lba blocks opts => SynchronizeCache16 lun lba blocks opts
  | CWriteSame10 lun lba blocks blockSize data opts => WriteSame10 lun lba blocks blockSize data opts
  | CWriteSame16 lun lba blocks blockSize data opts => WriteSame16 lun lba blocks blockSize data opts
  | CUnmap lun descriptors opts => Unmap lun descriptors opts
  | CPersistReserveIn lun serviceAction allocLen => PersistReserveIn lun serviceAction allocLen
  | CPersistReserveOut lun serviceAction scopeType key saKey =>
      PersistReserveOut lun serviceAction scopeType key saKey
  end.

(** The types of the arguments: LBAs and block counts have the widths of the
    builder's parameters. *)
Definition call_ok (c : call) : Prop :=
  match c with
  | CTestUnitReady _ | CReadCapacity10 _ | CStartStopUnit _ _ _ _ _ | CModeSelect6 _ _ | CModeSelect10 _ _
  | CUnmap _ _ _ => True
  | CRequestSense _ a => u8 a
  | CReportLuns a | CReadCapacity16 _ a => u32 a
  | CInquiry _ a | CPersistReserveIn _ _ a => u16 a
  | CInquiryVPD _ p a => u8 p /\ u16 a
  | CRead10 _ lba n _ _ | CWrite10 _ lba n _ _ _ | CVerify10 _ lba n _ | CSynchronizeCache10 _ lba n _
  | CWriteSame10 _ lba n _ _ _ => u32 lba /\ u16 n
  | CRead16 _ lba n _ _ | CWrite16 _ lba n _ _ _ | CVerify16 _ lba n _ | CSynchronizeCache16 _ lba n _
  | CWriteSame16 _ lba n _ _ _ => u64 lba /\ u32 n
  | CCompareAndWrite _ lba n _ _ => u64 lba /\ u8 n
  | CModeSense6 _ _ sub a opts => u8 sub /\ u8 a /\ in_width 2 (o_pageControl (applyOptions opts))
  | CModeSense10 _ _ sub a opts => u8 sub /\ u16 a /\ in_width 2 (o_pageControl (applyOptions opts))
  | CPersistReserveOut _ _ st _ _ => u8 st
  end.

(** What a caller means by a call *)
Definition request_of (c : call) : request :=
  match c with
  | CTestUnitReady _ => ReqTestUnitReady
  | CRequestSense _ a => ReqRequestSense a
  | CReportLuns a => ReqReportLuns a
  | CInquiry _ a => ReqInquiry false 0 a
  | CInquiryVPD _ p a => ReqInquiry true p a
  | CReadCapacity10 _ => ReqReadCapacity10
  | CReadCapacity16 _ a => ReqReadCapacity16 a
  | CRead10 _ lba n _ opts => let o := applyOptions opts in ReqRead false (o_dpo o) (o_fua o) lba n
  | CRead16 _ lba n _ opts => let o := applyOptions opts in ReqRead true (o_dpo o) (o_fua o) lba n
  | CWrite10 _ lba n _ _ opts => let o := applyOptions opts in ReqWrite false (o_dpo o) (o_fua o) lba n
  | CWrite16 _ lba n _ _ opts => let o := applyOptions opts in ReqWrite true (o_dpo o) (o_fua o) lba n
  | CVerify10 _ lba n opts => ReqVerify false (Z.land (o_bytchk (applyOptions opts)) 3) lba n
  | CVerify16 _ lba n opts => ReqVerify true (Z.land (o_bytchk (applyOptions opts)) 3) lba n
  | CCompareAndWrite _ lba n _ _ => ReqCompareAndWrite lba n
  | CStartStopUnit _ power start loej opts =>
      ReqStartStop (o_immed (applyOptions opts)) (Z.land power 0x0f) loej start
  | CModeSense6 _ page sub a opts =>
      let o := applyOptions opts in ReqModeSense false (o_dbd o) (o_pageControl o) (Z.land page 0x3f) sub a
  | CModeSense10 _ page sub a opts =>
      let o := applyOptions opts in ReqModeSense true (o_dbd o) (o_pageControl o) (Z.land page 0x3f) sub a
  | CModeSelect6 _ data => ReqModeSelect false true (Z.of_nat (length data))
  | CModeSelect10 _ data => ReqModeSelect true true (Z.of_nat (length data))
  | CSynchronizeCache10 _ lba n opts => ReqSynchronizeCache false (o_immed (applyOptions opts)) lba n
  | CSynchronizeCache16 _ lba n opts => ReqSynchronizeCache true (o_immed (applyOptions opts)) lba n
  | CWriteSame10 _ lba n _ _ opts =>
      let o := applyOptions opts in ReqWriteSame false (o_anchor o) (o_unmap o) false (o_ndob o) lba n
  | CWriteSame16 _ lba n _ _ opts =>
      let o := applyOptions opts in ReqWriteSame true (o_anchor o) (o_unmap o) false (o_ndob o) lba n
  | CUnmap _ ds opts => ReqUnmap (o_anchor (applyOptions opts)) (8 + 16 * Z.of_nat (length ds))
  | CPersistReserveIn _ sa a => ReqPersistIn (Z.land sa 0x1f) a
  | CPersistReserveOut _ sa st _ _ => ReqPersistOut (Z.land sa 0x1f) st 24
  end.

(** The calls whose CDB says what they mean: parameter lists that fit their length
    field, no ANCHOR in WRITE SAME, and no NDOB in its 10-byte form *)
Definition expressible (c : call) : Prop :=
  match c with
  | CModeSelect6 _ data => (length data < 256)%nat
  | CModeSelect10 _ data => Z.of_nat (length data) < 2 ^ 16
  | CUnmap _ ds _ => 8 + 16 * Z.of_nat (length ds) < 2 ^ 16
  | CWriteSame10 _ _ _ _ _ opts => o_anchor (applyOptions opts) = false /\ o_ndob (applyOptions opts) = false
  | CWriteSame16 _ _ _ _ _ opts => o_anchor (applyOptions opts) = false
  | _ => True
  end.

(** ** Lemmas *)

(** The low field of an or of a shifted field and flags below it *)
Lemma shifted_field a k n : 0 <= n -> in_width k a -> 0 <= k -> k + n <= 8 ->
  Z.shiftr (uint8 (Z.shiftl a n)) n = a.
Proof.
  intros Hn Ha Hk Hkn. rewrite wrap_id.
  - by rewrite Z.shiftr_shiftl_l, Z.sub_diag, Z.shiftl_0_r by lia.
  - unfold in_width in *. rewrite Z.shiftl_mul_pow2 by done. split; [nia|].
    eapply Z.lt_le_trans; [apply Z.mul_lt_mono_pos_r, Ha; lia|].
    rewrite <- Z.pow_add_r by lia. apply Z.pow_le_mono_r; lia.
Qed.

Lemma page_byte pc page : in_width 2 pc ->
  let b := Z.lor (uint8 (Z.shiftl pc 6)) (Z.land page 0x3f) in
  Z.shiftr b 6 = pc /\ Z.land b 0x3f = Z.land page 0x3f.
Proof.
  intros Hp. cbv zeta. split.
  - rewrite Z.shiftr_lor, (shifted_field pc 2 6) by (done || lia).
    rewrite Z.shiftr_land. change (Z.shiftr 0x3f 6) with 0. by rewrite Z.land_0_r, Z.lor_0_r.
  - assert (Hpc : Z.land (uint8 (Z.shiftl pc 6)) 0x3f = 0).
    { assert (pc = 0 \/ pc = 1 \/ pc = 2 \/ pc = 3) as [->|[->|[->| ->]]] by (unfold in_width in Hp; lia);
        reflexivity. }
    by rewrite Z.land_lor_distr_l, Hpc, <- Z.land_assoc.
Qed.

Lemma power_byte p f g :
  let b := Z.lor (Z.lor (uint8 (Z.shiftl (Z.land p 0x0f) 4)) (flag f 0x02)) (flag g 0x01) in
  Z.shiftr b 4 = Z.land p 0x0f /\ has_bit b 0x02 = f /\ has_bit b 0x01 = g.
Proof.
  assert (Hp : in_width 4 (Z.land p 0x0f)) by (apply (land_ones_width 4); lia).
  assert (H0 : Z.land (uint8 (Z.shiftl (Z.land p 0x0f) 4)) 0x0f = 0).
  { rewrite wrap_id; [apply land_shiftl_low; [lia|by vm_compute]|].
    apply (in_width_mono 8); [lia|]. unfold in_width in *. rewrite Z.shiftl_mul_pow2 by done. lia. }
  assert (Hb : forall m, Z.land 0x0f m = m ->
    has_bit (uint8 (Z.shiftl (Z.land p 0x0f) 4)) m = false).
  { intros m Hm. unfold has_bit. rewrite <- Hm, Z.land_assoc, H0. by rewrite Z.land_0_l. }
  cbv zeta. rewrite !Z.shiftr_lor, (shifted_field _ 4 4), !has_bit_lor, !Hb by (done || lia).
  split; [|by destruct f, g].
  destruct f, g; cbn [flag]; by rewrite ?Z.shiftr_0_l, ?Z.lor_0_r.
Qed.

Lemma bytchk_byte v :
  Z.land (Z.shiftr (uint8 (Z.shiftl (Z.land v 3) 1)) 1) 3 = Z.land v 3.
Proof.
  rewrite (shifted_field _ 2 1), <- Z.land_assoc by first [apply (land_ones_width 2); lia|lia]. done.
Qed.

(** Reads the fields of a computed CDB back *)
Ltac cdb_field :=
  lazymatch goal with
  | |- get_be _ _ _ = _ => apply get_be_eq; [reflexivity | width]
  | |- has_bit _ _ = _ => first [ flag_bits | idtac ]
  | |- _ => first [ reflexivity | apply bytchk_byte | by rewrite <- Z.land_assoc | eassumption | idtac ]
  end.
Ltac cdb :=
  unfold decode_cdb; cbv beta zeta; change_bytes; cbn [Z.eqb Pos.eqb];
  f_equal; f_equal; cdb_field.

Lemma StartStopUnit_decodes c lun power start loej opts : c = CStartStopUnit lun power start loej opts ->
  decode_cdb (cmd_CDB (build c)) = Some (request_of c).
Proof.
  intros ->. cbn [build request_of]. unfold StartStopUnit, no_data. set (o := applyOptions opts).
  cbn [cmd_CDB]. destruct (power_byte power loej start) as (H1 & H2 & H3). by cdb.
Qed.

Lemma ModeSense_decodes (wide : bool) c lun page sub a opts : u8 sub -> in_width 2 (o_pageControl (applyOptions opts)) ->
  (if wide then u16 a else u8 a) ->
  c = (if wide then CModeSense10 else CModeSense6) lun page sub a opts ->
  decode_cdb (cmd_CDB (build c)) = Some (request_of c).
Proof.
  intros Hs Hp Ha ->. set (o := applyOptions opts) in *. destruct (page_byte (o_pageControl o) page Hp) as [H1 H2].
  destruct wide; cbn [build request_of]; unfold ModeSense10, ModeSense6, data_in; fold o; cbn [cmd_CDB];
    unfold mode_page; destruct (o_dbd o); by cdb.
Qed.

(** WRITE SAME as the builders make it: bit 2 of byte 1, where the code puts ANCHOR,
    is PBDATA, and the 10-byte form has no NDOB. *)
Lemma WriteSame_decodes (wide : bool) cdb o data bs lun lba n (p m : nat) op :
  (if wide then u64 lba /\ u32 n else u32 lba /\ u16 n) ->
  (op, p, m) = (if wide then (OpWriteSame16, 8, 4) else (OpWriteSame10, 4, 2))%nat ->
  cdb = put_be m (if wide then 10 else 7) n (put_be p 2 lba (same_flags o (cdb0 op))) ->
  decode_cdb (cmd_CDB (same_command o cdb data bs lun))
  = Some (ReqWriteSame wide false (o_unmap o) (o_anchor o) (wide && o_ndob o) lba n).
Proof.
  intros Hok Hop ->. unfold same_command.
  replace (cmd_CDB _) with (put_be m (if wide then 10 else 7) n (put_be p 2 lba (same_flags o (cdb0 op))))
    by by destruct (o_ndob o).
  destruct wide; injection Hop as -> -> ->; destruct Hok; unfold same_flags;
    destruct (o_anchor o), (o_unmap o), (o_ndob o); cdb.
Qed.

Lemma ModeSelect_decodes (wide : bool) c lun data :
  Z.of_nat (length data) < (if wide then 2 ^ 16 else 2 ^ 8) ->
  c = (if wide then CModeSelect10 else CModeSelect6) lun data ->
  decode_cdb (cmd_CDB (build c)) = Some (request_of c).
Proof.
  intros Hl ->. destruct wide; cbn [build request_of]; unfold ModeSelect10, ModeSelect6, data_out; cbn [cmd_CDB];
    rewrite wrap_id by (unfold in_width; lia); cdb.
Qed.

Lemma Unmap_decodes lun ds opts : 8 + 16 * Z.of_nat (length ds) < 2 ^ 16 ->
  decode_cdb (cmd_CDB (Unmap lun ds opts))
  = Some (ReqUnmap (o_anchor (applyOptions opts)) (8 + 16 * Z.of_nat (length ds))).
Proof.
  intros Hl. unfold Unmap, data_out. cbn [cmd_CDB].
  replace (Z.of_nat (8 + length ds * 16)) with (8 + 16 * Z.of_nat (length ds)) by lia.
  rewrite wrap_id by (unfold in_width; lia). cdb.
Qed.

Lemma build_decodes c : call_ok c -> expressible c -> decode_cdb (cmd_CDB (build c)) = Some (request_of c).
Proof.
  destruct c; intros Hok Hex; unfold call_ok, expressible in *;
    repeat match goal with H : _ /\ _ |- _ => destruct H end;
    try solve [cbn [build request_of]; cdb].
  - by eapply StartStopUnit_decodes.
  - by apply (ModeSense_decodes false _ lun pageCode subpageCode allocLen opts).
  - by apply (ModeSense_decodes true _ lun pageCode subpageCode allocLen opts).
  - apply (ModeSelect_decodes false _ lun data); [lia|done].
  - by apply (ModeSelect_decodes true _ lun data).
  - cbn [build request_of]. unfold WriteSame10. rewrite (WriteSame_decodes false _ _ _ _ _ lba blocks 4 2 OpWriteSame10) by done.
    cbn [andb]. congruence.
  - cbn [build request_of]. unfold WriteSame16. rewrite (WriteSame_decodes true _ _ _ _ _ lba blocks 8 4 OpWriteSame16) by done.
    cbn [andb]. congruence.
  - by apply Unmap_decodes.
Qed.

(** The data a device transfers for a request, with blocks of [bs] bytes: [true] to
    the initiator.  VERIFY takes data to compare when BYTCHK is not 0: one block when
    it is 3, the blocks otherwise. *)
Definition transfer (bs : Z) (r : request) : option (bool * Z) :=
  match r with
  | ReqTestUnitReady | ReqSynchronizeCache _ _ _ _ | ReqStartStop _ _ _ _ => None
  | ReqVerify _ bytchk _ n =>
      if bytchk =? 0 then None else Some (false, if bytchk =? 3 then bs else n * bs)
  | ReqRequestSense a | ReqInquiry _ _ a | ReqReportLuns a | ReqReadCapacity16 a | ReqModeSense _ _ _ _ _ a
  | ReqPersistIn _ a => Some (true, a)
  | ReqReadCapacity10 => Some (true, 8)
  | ReqRead _ _ _ _ n => Some (true, n * bs)
  | ReqWrite _ _ _ _ n => Some (false, n * bs)
  | ReqCompareAndWrite _ n => Some (false, 2 * n * bs)
  | ReqWriteSame _ _ _ _ ndob _ _ => if ndob then None else Some (false, bs)
  | ReqUnmap _ len | ReqModeSelect _ _ len | ReqPersistOut _ _ len => Some (false, len)
  end.

(** The block size a call is made with *)
Definition call_blockSize (c : call) : Z :=
  match c with
  | CRead10 _ _ _ bs _ | CRead16 _ _ _ bs _ | CWrite10 _ _ _ bs _ _ | CWrite16 _ _ _ bs _ _
  | CCompareAndWrite _ _ _ bs _ | CWriteSame10 _ _ _ bs _ _ | CWriteSame16 _ _ _ bs _ _ => bs
  | _ => 0
  end.

(** A VERIFY that compares: the builder takes no data, which the caller is to add to
    the command. *)
Definition compares (c : call) : bool :=
  match c with
  | CVerify10 _ _ _ opts | CVerify16 _ _ _ opts => negb (Z.land (o_bytchk (applyOptions opts)) 3 =? 0)
  | _ => false
  end.

(** A command announces a transfer *)
Definition announces (cmd : Command) (t : option (bool * Z)) : Prop :=
  match t with
  | None => cmd_Read cmd = false /\ cmd_Write cmd = false /\ cmd_ExpectedDataTransferLen cmd = 0
  | Some (dir, len) =>
      cmd_Read cmd = dir /\ cmd_Write cmd = negb dir /\ bool_decide (is_Some (cmd_Data cmd)) = negb dir /\
      cmd_ExpectedDataTransferLen cmd = uint32 len
  end.

(** ** Properties *)

(** C26.  A device reads from the CDB of every builder the request its caller means,
    with its addresses, counts, lengths and flags, for the arguments the CDB can
    express, which leaves out ANCHOR in WRITE SAME, NDOB in its 10-byte form, and
    parameter lists of MODE SELECT and UNMAP longer than their length field.  The
    command announces the direction of the request's transfer and its length modulo
    2^32; except that a VERIFY that compares announces none, though its device
    expects data. *)
Theorem build_spec (c : call) : call_ok c -> expressible c -> u32 (call_blockSize c) ->
  decode_cdb (cmd_CDB (build c)) = Some (request_of c) /\ length (cmd_CDB (build c)) = 16%nat /\
  (if compares c
   then announces (build c) None /\ forall bs, exists len, transfer bs (request_of c) = Some (false, len)
   else announces (build c) (transfer (call_blockSize c) (request_of c))).
Proof.
  intros Hok Hex Hbs. split; [by apply build_decodes|]. split.
  - destruct c; try done; cbn [build]; unfold WriteSame10, WriteSame16, same_command; by case_match.
  - destruct c; unfold call_ok in Hok; cbn [build request_of transfer call_blockSize announces compares]; try done.
    all: try match goal with |- context [negb (?x =? 0)] => by destruct (x =? 0); cbn [negb]; [|split; [|eauto]] end.
    all: try (repeat (split; [done|]); symmetry; apply wrap_id; cbn; width).
    + repeat (split; [done|]).
      change (uint32 (uint32 (2 * blocks) * blockSize) = uint32 (2 * blocks * blockSize)).
      unfold wrap. by rewrite Z.mul_mod_idemp_l.
    + unfold WriteSame10, same_command. destruct (o_ndob _); [done|].
      repeat (split; [done|]). symmetry. by apply wrap_id.
    + unfold WriteSame16, same_command. destruct (o_ndob _); [done|].
      repeat (split; [done|]). symmetry. by apply wrap_id.
    + repeat (split; [done|]). cbn [Unmap data_out cmd_ExpectedDataTransferLen]. unfold Unmap. cbn [cmd_ExpectedDataTransferLen data_out]. f_equal. lia.
Qed.

Lemma build_spec_witness :
  let c := CRead16 5 0x123456789a 8 512 [WithFUA] in
  decode_cdb (cmd_CDB (build c)) = Some (ReqRead true false true 0x123456789a 8) /\
  cmd_Read (build c) = true /\ cmd_ExpectedDataTransferLen (build c) = 4096.
Proof.
  intros c. destruct (build_spec c) as (H1 & _ & H2).
  - split; unfold in_width; lia.
  - exact I.
  - unfold in_width. simpl. lia.
  - split; [exact H1|]. destruct H2 as (H2 & _ & _ & H3). split; [exact H2|exact H3].
Defined.

(** WRITE SAME with the ANCHOR option asks a device for something else: the
    builders set bit 2 of byte 1, which SBC-3 calls PBDATA, and never bit 4, which
    is ANCHOR; and the 10-byte form with NDOB announces no data although its CDB
    cannot say so. *)
Theorem WriteSame_anchor (lun lba n bs : Z) (data : Reader) (opts : list Option_) :
  let o := applyOptions opts in
  u32 lba -> u16 n ->
  decode_cdb (cmd_CDB (WriteSame16 lun lba n bs data opts))
    = Some (ReqWriteSame true false (o_unmap o) (o_anchor o) (o_ndob o) lba n) /\
  decode_cdb (cmd_CDB (WriteSame10 lun lba n bs data opts))
    = Some (ReqWriteSame false false (o_unmap o) (o_anchor o) false lba n) /\
  cmd_Write (WriteSame10 lun lba n bs data opts) = negb (o_ndob o).
Proof.
  intros o Hl Hn. split; [|split].
  - unfold WriteSame16. fold o. rewrite (WriteSame_decodes true _ o data bs lun lba n 8 4 OpWriteSame16);
      [by destruct (o_ndob o)| |done|done].
    split; [by apply (in_width_mono 32 64)|by apply (in_width_mono 16 32)].
  - unfold WriteSame10. fold o. by rewrite (WriteSame_decodes false _ o data bs lun lba n 4 2 OpWriteSame10).
  - unfold WriteSame10, same_command. fold o. by destruct (o_ndob o).
Qed.

Lemma WriteSame_anchor_witness :
  decode_cdb (cmd_CDB (WriteSame16 0 1 2 512 (NewReader []) [WithAnchor; WithUnmap]))
  = Some (ReqWriteSame true false true true false 1 2).
Proof.
  destruct (WriteSame_anchor 0 1 2 512 (NewReader []) [WithAnchor; WithUnmap]) as [H _];
    [unfold in_width; lia..|]. exact H.
Defined.

(** ** UNMAP *)

(** What a device reads from the parameter list of UNMAP (SBC-3 5.28) *)
Definition decode_unmap (p : bytes) : list UnmapBlockDescriptor :=
  map (fun i => mkUnmap (get_be 8 (8 + 16 * i) p) (get_be 4 (16 + 16 * i) p))
    (seq 0 (Z.to_nat (get_be 2 2 p / 16))).

Definition unmap_ok (d : UnmapBlockDescriptor) : Prop := u64 (ub_LBA d) /\ u32 (ub_BlockCount d).

Lemma length_unmap_descriptors ds : length (concat (map unmap_descriptor ds)) = (16 * length ds)%nat.
Proof.
  induction ds as [|d ds IH]; [done|]. cbn [map concat length]. rewrite length_app, IH.
  unfold unmap_descriptor. rewrite !length_app, !length_be_bytes, length_zeros. lia.
Qed.

Lemma get_be_app n a k pre l : a = (length pre + k)%nat -> get_be n a (pre ++ l) = get_be n k l.
Proof. intros ->. unfold get_be. rewrite sub_app_r by lia. do 2 f_equal. lia. Qed.

Lemma get_be_here n l v : in_width (8 * Z.of_nat n) v -> get_be n 0 (be_bytes n v ++ l) = v.
Proof.
  intros Hv. apply get_be_eq; [|done]. rewrite sub_app_l by (rewrite length_be_bytes; lia).
  apply sub_all, length_be_bytes.
Qed.

(** The [i]-th descriptor of the list *)
Lemma unmap_nth ds : forall i d, Forall unmap_ok ds -> ds !! i = Some d ->
  mkUnmap (get_be 8 (16 * i) (concat (map unmap_descriptor ds)))
          (get_be 4 (8 + 16 * i) (concat (map unmap_descriptor ds))) = d.
Proof.
  induction ds as [|d0 ds IH]; intros i d Hok Hi; [done|]. apply Forall_cons in Hok as [[Hl Hb] Hok].
  assert (H16 : length (unmap_descriptor d0) = 16%nat)
    by (unfold unmap_descriptor; by rewrite !length_app, !length_be_bytes).
  cbn [map concat]. destruct i as [|i].
  - injection Hi as <-. unfold unmap_descriptor. destruct d0 as [lba cnt]. cbn [ub_LBA ub_BlockCount] in *.
    rewrite <- !app_assoc. f_equal; [by rewrite get_be_here|].
    rewrite (get_be_app 4 _ 0) by (rewrite length_be_bytes; lia). by rewrite get_be_here.
  - rewrite (get_be_app 8 _ (16 * i)), (get_be_app 4 _ (8 + 16 * i)) by lia. by apply IH.
Qed.

(** A device unmaps the ranges the caller lists, in order, from the parameter
    list of [Unmap], up to the 16-bit length of the format: of [n] descriptors it
    reads the first [n mod 4096], so a list of 4096 ranges deallocates nothing. *)
Theorem Unmap_roundtrip (ds : list UnmapBlockDescriptor) (lun : Z) (opts : list Option_) :
  Forall unmap_ok ds ->
  exists r, cmd_Data (Unmap lun ds opts) = Some r /\ length (rd_bytes r) = (8 + 16 * length ds)%nat /\
    decode_unmap (rd_bytes r) = take (length ds mod 4096) ds.
Proof.
  intros Hok. exists (NewReader (unmap_params ds)). split; [done|].
  unfold rd_bytes, NewReader. cbn [rd_chunks concat]. rewrite app_nil_r. unfold unmap_params. split.
  - rewrite !length_app, !length_be_bytes, length_zeros, length_unmap_descriptors. lia.
  - set (l := concat _). unfold decode_unmap.
    rewrite (get_be_app 2 2 0) by (by rewrite length_be_bytes).
    rewrite get_be_here by (apply wrap_range; lia).
    replace (Z.to_nat (uint16 (Z.of_nat (length ds * 16)) / 16)) with (length ds mod 4096)%nat.
    2: { unfold wrap. change (2 ^ 16) with (4096 * 16).
         rewrite Nat2Z.inj_mul, Z.mul_mod_distr_r, Z.div_mul by lia.
         rewrite <- (Nat2Z.id (_ mod _)). f_equal. by rewrite Nat2Z.inj_mod. }
    set (n := (length ds mod 4096)%nat). assert (Hn : (n <= length ds)%nat) by (apply Nat.Div0.mod_le).
    apply list_eq. intros i. rewrite list_lookup_fmap.
    destruct (decide (i < n)%nat) as [Hi|Hi].
    + rewrite lookup_take_lt by done. rewrite lookup_seq_lt by done. cbn [fmap option_fmap option_map].
      destruct (lookup_lt_is_Some_2 ds i ltac:(lia)) as [d Hd]. rewrite Hd. f_equal.
      rewrite !app_assoc.
      rewrite (get_be_app 8 _ (16 * i)), (get_be_app 4 _ (8 + 16 * i))
        by (rewrite !length_app, !length_be_bytes, length_zeros; lia).
      by apply unmap_nth.
    + rewrite lookup_seq_ge, lookup_take_ge by lia. done.
Qed.

Lemma Unmap_roundtrip_witness :
  let ds := [mkUnmap 0x1122334455 7; mkUnmap 9 0xffffffff] in
  exists r, cmd_Data (Unmap 3 ds []) = Some r /\ decode_unmap (rd_bytes r) = ds.
Proof.
  intros ds. destruct (Unmap_roundtrip ds 3 []) as (r & H1 & _ & H2).
  - repeat constructor; simpl; lia.
  - exists r. split; [exact H1|exact H2].
Defined.
