(* ===== verification/Responses.v ===== *)
(** Parsers of the responses to SCSI commands ([src/internal/scsi]: [commands.go],
    [capacity.go], [inquiry.go], [vpd.go], [modesense.go], [reservations.go]). *)
From S2P Require Import Prelude Errors Bhs Text GoIO Chan Types Parse Sense.
#[local] Open Scope string_scope.
#[local] Open Scope list_scope.
#[local] Open Scope Z_scope.

(** [if len(data) < n { return nil, fmt.Errorf(...) }] *)
Definition need (n : nat) (fmt : string) (data : bytes) : PR () :=
  check (negb (Nat.ltb (length data) n)) (Errorf fmt [Z.of_nat (length data)]).

(** ** Lists of 8-byte entries *)

(** The loops of [ParseReportLuns] and [ParsePersistReserveInKeys] over entries [i]
    to [n], in 32-bit arithmetic.  An iteration that does not stop has 8 more bytes
    of data, so one more than the entries in the data is enough fuel. *)
Fixpoint entries_loop {A} (fuel : nat) (read : bytes -> A) (i n : Z) (data : bytes) : PR (list A) :=
  if i <? n then
    match fuel with
    | O => panic
    | S fuel =>
      let offset := uint32 (8 + uint32 (i * 8)) in
      let offset' := uint32 (offset + 8) in
      if offset' >? uint32 (Z.of_nat (length data)) then mret []
      else
        entry ← slice (Z.to_nat offset) (Z.to_nat offset') data;
        rest ← entries_loop fuel read (uint32 (i + 1)) n data;
        mret (read entry :: rest)
    end
  else mret [].

Definition entries {A} (read : bytes -> A) (n : Z) (data : bytes) : PR (list A) :=
  entries_loop (S (length data / 8)) read 0 n data.

Definition ParseReportLuns (result : Result) : PR (list Z) :=
  data ← checkResult result;
  _ ← need 8 "scsi: REPORT LUNS response too short (%d bytes, need 8)" data;
  listLen ← slice_be 4 0 data;
  entries DecodeSAMLUN (listLen / 8) data.

Record PRKeysResponse := mkPRKeys { prk_Generation : Z; prk_Keys : list Z }.

Definition ParsePersistReserveInKeys (result : Result) : PR PRKeysResponse :=
  data ← checkResult result;
  _ ← need 8 "scsi: PR IN READ KEYS response too short (%d bytes, need 8)" data;
  generation ← slice_be 4 0 data;
  additionalLen ← slice_be 4 4 data;
  keys ← entries be_val (additionalLen / 8) data;
  mret (mkPRKeys generation keys).

Record PRReservation := mkPRReservation { prr_Key : Z; prr_ScopeType : Z }.

Definition ParsePersistReserveInReservation (result : Result) : PR (option PRReservation) :=
  data ← checkResult result;
  _ ← need 8 "scsi: PR IN READ RESERVATION response too short (%d bytes, need 8)" data;
  additionalLen ← slice_be 4 4 data;
  if additionalLen =? 0 then mret None
  else
    _ ← need 24 "scsi: PR IN READ RESERVATION response too short for descriptor (%d bytes, need 24)" data;
    key ← slice_be 8 8 data;
    scopeType ← at_ 21 data;
    mret (Some (mkPRReservation key scopeType)).

(** ** Capacity and inquiry *)

Record ReadCapacity10Response := mkRC10 { rc10_LastLBA : Z; rc10_BlockSize : Z }.

Record ReadCapacity16Response := mkRC16 {
  rc16_LastLBA : Z;
  rc16_BlockSize : Z;
  rc16_ProtectionEnabled : bool;
  rc16_ProtectionType : Z;
  rc16_LogicalBlocksPerPhysicalBlock : Z;
  rc16_LowestAlignedLBA : Z;
  rc16_Raw : bytes;
}.

Definition ParseReadCapacity10 (result : Result) : PR ReadCapacity10Response :=
  data ← checkResult result;
  _ ← need 8 "scsi: READ CAPACITY (10) response too short (%d bytes, need 8)" data;
  lastLBA ← slice_be 4 0 data;
  blockSize ← slice_be 4 4 data;
  mret (mkRC10 lastLBA blockSize).

Definition ParseReadCapacity16 (result : Result) : PR ReadCapacity16Response :=
  data ← checkResult result;
  _ ← need 32 "scsi: READ CAPACITY (16) response too short (%d bytes, need 32)" data;
  lastLBA ← slice_be 8 0 data;
  blockSize ← slice_be 4 8 data;
  b12 ← at_ 12 data;
  b13 ← at_ 13 data;
  aligned ← slice_be 2 14 data;
  mret (mkRC16 lastLBA blockSize (has_bit b12 0x01) (Z.land (Z.shiftr b12 1) 0x07) (Z.land b13 0x0f)
          (Z.land aligned 0x3fff) data).

(** [strings.TrimRight(string(b), " ")] *)
Fixpoint trim_spaces (l : bytes) : bytes :=
  match l with
  | [] => []
  | b :: l' => if b =? 32 then trim_spaces l' else l
  end.
Definition TrimRight (l : bytes) : string := of_bytes (reverse (trim_spaces (reverse l))).

Record InquiryResponse := mkInquiry {
  iq_PeripheralDeviceType : Z;
  iq_PeripheralQualifier : Z;
  iq_Vendor : string;
  iq_Product : string;
  iq_Revision : string;
  iq_AdditionalLength : Z;
  iq_Raw : bytes;
}.

Definition ParseInquiry (result : Result) : PR InquiryResponse :=
  data ← checkResult result;
  _ ← need 36 "scsi: INQUIRY response too short (%d bytes, need 36)" data;
  b0 ← at_ 0 data;
  b4 ← at_ 4 data;
  vendor ← slice 8 16 data;
  product ← slice 16 32 data;
  revision ← slice 32 36 data;
  mret (mkInquiry (Z.land b0 0x1f) (Z.land (Z.shiftr b0 5) 0x07) (TrimRight vendor) (TrimRight product)
          (TrimRight revision) b4 data).

(** ** Vital product data *)

Definition ParseVPDSupportedPages (result : Result) : PR bytes :=
  data ← checkResult result;
  _ ← need 4 "scsi: VPD supported pages response too short (%d bytes, need 4)" data;
  pageLen ← at_ 3 data;
  slice 4 (Nat.min (4 + Z.to_nat pageLen) (length data)) data.

Definition ParseVPDSerialNumber (result : Result) : PR string :=
  data ← checkResult result;
  _ ← need 4 "scsi: VPD serial number response too short (%d bytes, need 4)" data;
  pageLen ← at_ 3 data;
  serial ← slice 4 (Nat.min (4 + Z.to_nat pageLen) (length data)) data;
  mret (TrimRight serial).

Record Designator := mkDesignator {
  ds_CodeSet : Z;
  ds_ProtocolID : Z;
  ds_Type : Z;
  ds_Association : Z;
  ds_Identifier : bytes;
}.

(** The descriptors from [offset] to [end_]; each takes four bytes at least. *)
Fixpoint designators_loop (fuel : nat) (offset end_ : nat) (data : bytes) : PR (list Designator) :=
  if Nat.leb (offset + 4) end_ then
    match fuel with
    | O => panic
    | S fuel =>
      idLen ← at_ (offset + 3) data;
      let next := (offset + 4 + Z.to_nat idLen)%nat in
      if Nat.ltb end_ next then
        fail (Errorf "scsi: VPD 0x83 descriptor at offset %d: identifier length %d exceeds remaining data"
                [Z.of_nat offset; idLen])
      else
        b0 ← at_ offset data;
        b1 ← at_ (offset + 1) data;
        identifier ← slice (offset + 4) next data;
        rest ← designators_loop fuel next end_ data;
        mret (mkDesignator (Z.land b0 0x0f) (Z.land (Z.shiftr b0 4) 0x0f) (Z.land b1 0x0f)
                (Z.land (Z.shiftr b1 4) 0x03) identifier :: rest)
    end
  else mret [].

Definition ParseVPDDeviceIdentification (result : Result) : PR (list Designator) :=
  data ← checkResult result;
  _ ← need 4 "scsi: VPD device identification response too short (%d bytes, need 4)" data;
  pageLen ← slice_be 2 2 data;
  designators_loop (length data) 4 (Nat.min (4 + Z.to_nat pageLen) (length data)) data.

Record BlockLimits := mkBlockLimits {
  bl_MaxCompareAndWriteLength : Z;
  bl_OptimalTransferLengthGranularity : Z;
  bl_MaxTransferLength : Z;
  bl_OptimalTransferLength : Z;
  bl_MaxUnmapLBACount : Z;
  bl_MaxUnmapBlockDescCount : Z;
  bl_OptimalUnmapGranularity : Z;
  bl_Raw : bytes;
}.

Definition ParseVPDBlockLimits (result : Result) : PR BlockLimits :=
  data ← checkResult result;
  _ ← need 32 "scsi: VPD block limits response too short (%d bytes, need 32)" data;
  caw ← at_ 5 data;
  gran ← slice_be 2 6 data;
  maxT ← slice_be 4 8 data;
  optT ← slice_be 4 12 data;
  maxL ← slice_be 4 20 data;
  maxD ← slice_be 4 24 data;
  optU ← slice_be 4 28 data;
  mret (mkBlockLimits caw gran maxT optT maxL maxD optU data).

Record BlockCharacteristics := mkBlockChar {
  bc_MediumRotationRate : Z;
  bc_NominalFormFactor : Z;
  bc_Raw : bytes;
}.

Definition ParseVPDBlockCharacteristics (result : Result) : PR BlockCharacteristics :=
  data ← checkResult result;
  _ ← need 8 "scsi: VPD block characteristics response too short (%d bytes, need 8)" data;
  rate ← slice_be 2 4 data;
  form ← at_ 7 data;
  mret (mkBlockChar rate (Z.land form 0x0f) data).

Record LogicalBlockProvisioning := mkLBP {
  lbp_ThresholdExponent : Z;
  lbp_LBPU : bool;
  lbp_LBPWS : bool;
  lbp_LBPWS10 : bool;
  lbp_ProvisioningType : Z;
  lbp_Raw : bytes;
}.

Definition ParseVPDLogicalBlockProvisioning (result : Result) : PR LogicalBlockProvisioning :=
  data ← checkResult result;
  _ ← need 8 "scsi: VPD logical block provisioning response too short (%d bytes, need 8)" data;
  b4 ← at_ 4 data;
  b5 ← at_ 5 data;
  b6 ← at_ 6 data;
  mret (mkLBP b4 (has_bit b5 0x80) (has_bit b5 0x40) (has_bit b5 0x20) (Z.land b6 0x07) data).

(** ** Mode sense *)

Record ModeSense6Response := mkMS6 {
  ms6_ModeDataLength : Z;
  ms6_MediumType : Z;
  ms6_DeviceSpecific : Z;
  ms6_BlockDescriptorLength : Z;
  ms6_BlockDescriptors : bytes;
  ms6_Pages : bytes;
  ms6_Raw : bytes;
}.

(** The bounds are computed in 16 bits, from the length modulo 2^16. *)
Definition ParseModeSense6 (result : Result) : PR ModeSense6Response :=
  data ← checkResult result;
  _ ← need 4 "scsi: MODE SENSE (6) response too short (%d bytes, need 4)" data;
  b0 ← at_ 0 data;
  b1 ← at_ 1 data;
  b2 ← at_ 2 data;
  bdl ← at_ 3 data;
  let len := uint16 (Z.of_nat (length data)) in
  let bdEnd := uint16 (4 + bdl) in
  let bdEnd := if bdEnd >? len then len else bdEnd in
  bds ← slice 4 (Z.to_nat bdEnd) data;
  pages ← (if bdEnd <? Z.of_nat (length data) then slice (Z.to_nat bdEnd) (length data) data else mret []);
  mret (mkMS6 b0 b1 b2 bdl bds pages data).

Record ModeSense10Response := mkMS10 {
  ms10_ModeDataLength : Z;
  ms10_MediumType : Z;
  ms10_DeviceSpecific : Z;
  ms10_LongLBA : bool;
  ms10_BlockDescriptorLength : Z;
  ms10_BlockDescriptors : bytes;
  ms10_Pages : bytes;
  ms10_Raw : bytes;
}.

Definition ParseModeSense10 (result : Result) : PR ModeSense10Response :=
  data ← checkResult result;
  _ ← need 8 "scsi: MODE SENSE (10) response too short (%d bytes, need 8)" data;
  bdl ← slice_be 2 6 data;
  len0 ← slice_be 2 0 data;
  b2 ← at_ 2 data;
  b3 ← at_ 3 data;
  b4 ← at_ 4 data;
  let len := uint32 (Z.of_nat (length data)) in
  let bdEnd := uint32 (8 + bdl) in
  let bdEnd := if bdEnd >? len then len else bdEnd in
  bds ← slice 8 (Z.to_nat bdEnd) data;
  pages ← (if bdEnd <? len then slice (Z.to_nat bdEnd) (length data) data else mret []);
  mret (mkMS10 len0 b2 b3 (has_bit b4 0x01) bdl bds pages data).

(** ** Lemmas *)

Lemma readAll_ok r : readAll r = match rd_err r with EOF => Some (Ok (rd_bytes r)) | e => Some (Err e) end.
Proof. unfold readAll, ReadAll. by destruct (rd_err r). Qed.

Lemma checkResult_returns result : returns (checkResult result).
Proof.
  unfold checkResult. destruct (rs_Err result); [done|]. destruct (negb _).
  - destruct (Nat.ltb _ _); [|done]. destruct (ParseSense_result (rs_SenseData result)) as (r & -> & _).
    by destruct r.
  - destruct (rs_Data result) as [r|]; [|done]. rewrite readAll_ok. by destruct (rd_err r).
Qed.

Lemma need_Ok n fmt data u : need n fmt data = Some (Ok u) -> (n <= length data)%nat.
Proof.
  unfold need. intros H%check_Ok. apply negb_true_iff in H. by apply Nat.ltb_ge in H.
Qed.

Lemma need_ok n fmt data : (n <= length data)%nat -> need n fmt data = Some (Ok ()).
Proof. intros H. unfold need. by rewrite (proj2 (Nat.ltb_ge _ _) H). Qed.

Lemma entries_loop_ok {A} (read : bytes -> A) n data : 0 <= n < 2 ^ 32 ->
  (8 <= length data)%nat -> Z.of_nat (length data) < 2 ^ 32 - 16 ->
  forall fuel i, (i <= (length data - 8) / 8)%nat -> (length data / 8 <= fuel + i)%nat ->
  entries_loop fuel read (Z.of_nat i) n data
  = Some (Ok (map (fun k => read (sub (8 + 8 * k) 8 data))
      (seq i (Nat.min (Z.to_nat n - i) ((length data - 8) / 8 - i))))).
Proof.
  intros Hn H8 Hl. set (m := ((length data - 8) / 8)%nat).
  assert (Hm : (8 * m <= length data - 8 < 8 * m + 8)%nat).
  { subst m. pose proof (Nat.div_mod_eq (length data - 8) 8).
    pose proof (Nat.mod_upper_bound (length data - 8) 8 ltac:(lia)). lia. }
  assert (Hd : (length data / 8 = S m)%nat).
  { symmetry. apply (Nat.div_unique _ _ _ (length data - 8 - 8 * m)); lia. }
  rewrite Hd. induction fuel as [|fuel IH]; intros i Hi Hf; [lia|]. cbn [entries_loop].
  destruct (Z.ltb_spec (Z.of_nat i) n) as [Hin|Hin].
  2: { by replace (Z.to_nat n - i)%nat with 0%nat by lia. }
  rewrite (wrap_id 32 (Z.of_nat i * 8)) by (unfold in_width; lia).
  rewrite (wrap_id 32 (8 + _)), (wrap_id 32 (_ + 8)), (wrap_id 32 (Z.of_nat (length data))),
    (wrap_id 32 (Z.of_nat i + 1)) by (unfold in_width; lia).
  destruct (Z.gtb_spec (8 + Z.of_nat i * 8 + 8) (Z.of_nat (length data))) as [Hg|Hg].
  - by replace (m - i)%nat with 0%nat by lia; rewrite Nat.min_0_r.
  - rewrite slice_ok by lia. rewrite (PR_bind_Ok _ _ _ eq_refl).
    replace (Z.of_nat i + 1) with (Z.of_nat (S i)) by lia. rewrite IH by lia.
    rewrite (PR_bind_Ok _ _ _ eq_refl).
    destruct (Nat.min (Z.to_nat n - i) (m - i)) as [|k] eqn:E; [lia|].
    replace (Nat.min (Z.to_nat n - S i) (m - S i)) with k by lia. cbn [seq map].
    unfold mret, PR_ret. do 5 f_equal; lia.
Qed.

Lemma entries_ok {A} (read : bytes -> A) n data : 0 <= n < 2 ^ 32 ->
  (8 <= length data)%nat -> Z.of_nat (length data) < 2 ^ 32 - 16 ->
  entries read n data = Some (Ok (map (fun k => read (sub (8 + 8 * k) 8 data))
    (seq 0 (Nat.min (Z.to_nat n) ((length data - 8) / 8))))).
Proof.
  intros Hn H8 Hl. unfold entries. change 0 with (Z.of_nat 0).
  rewrite entries_loop_ok by (done || lia). by rewrite !Nat.sub_0_r.
Qed.

Lemma designators_returns fuel : forall offset end_ data, (length data <= fuel + offset)%nat ->
  (end_ <= length data)%nat -> returns (designators_loop fuel offset end_ data).
Proof.
  induction fuel as [|fuel IH]; intros offset end_ data Hf He; cbn [designators_loop];
    (destruct (Nat.leb_spec (offset + 4) end_); [|done]); [lia|].
  apply returns_bind; [apply returns_at; lia|]. intros idLen _.
  destruct (Nat.ltb_spec end_ (offset + 4 + Z.to_nat idLen)); [done|].
  returns. apply IH; lia.
Qed.

(** The type of a response's data: bytes, fewer than fill 32 bits of offsets *)
Definition response_ok (result : Result) : Prop :=
  forall data, checkResult result = Some (Ok data) ->
  bytes_ok data /\ Z.of_nat (length data) < 2 ^ 32 - 16.

Ltac response :=
  apply returns_bind; [apply checkResult_returns|];
  let data := fresh "data" in let Hd := fresh "Hd" in intros data Hd;
  apply returns_bind; [apply returns_check|];
  let u := fresh "u" in let Hu := fresh "Hu" in intros u Hu; apply need_Ok in Hu.

Lemma returns_entries {A} (read : bytes -> A) a data : bytes_ok data -> (8 <= length data)%nat ->
  Z.of_nat (length data) < 2 ^ 32 - 16 -> (a + 4 <= length data)%nat ->
  returns (entries read (get_be 4 a data / 8) data).
Proof.
  intros Hb H8 Hl Ha. pose proof (get_be_width 4 a data Hb Ha) as Hw. rewrite entries_ok; [done| |done|done].
  change (8 * Z.of_nat 4) with 32 in Hw. unfold in_width in Hw. split; [apply Z.div_pos; lia|].
  apply Z.div_lt_upper_bound; lia.
Qed.

Lemma lists_return result : response_ok result ->
  returns (ParseReportLuns result) /\ returns (ParsePersistReserveInKeys result).
Proof.
  intros Hok. split; response; destruct (Hok _ Hd) as [Hb Hl].
  - rewrite (PR_bind_Ok _ _ _ (slice_be_ok 4 0 data ltac:(lia))). apply returns_entries; done || lia.
  - rewrite (PR_bind_Ok _ _ _ (slice_be_ok 4 0 data ltac:(lia))), (PR_bind_Ok _ _ _ (slice_be_ok 4 4 data ltac:(lia))).
    apply returns_bind; [apply returns_entries; done || lia|done].
Qed.

(** A parser whose accesses are covered by its length tests *)
Ltac parser :=
  response;
  repeat first [ progress intros
               | match goal with H : need _ _ _ = Some (Ok _) |- _ => apply need_Ok in H end
               | match goal with |- context [need ?n ?f ?d] => unfold need end
               | progress returns ].

Lemma fixed_parsers_return result :
  returns (ParsePersistReserveInReservation result) /\ returns (ParseReadCapacity10 result) /\
  returns (ParseReadCapacity16 result) /\ returns (ParseInquiry result) /\
  returns (ParseVPDSupportedPages result) /\ returns (ParseVPDSerialNumber result) /\
  returns (ParseVPDBlockLimits result) /\ returns (ParseVPDBlockCharacteristics result) /\
  returns (ParseVPDLogicalBlockProvisioning result).
Proof. repeat split; parser. Qed.

Lemma designation_returns result : returns (ParseVPDDeviceIdentification result).
Proof.
  response. apply returns_bind; [apply returns_slice_be; lia|]. intros pageLen _.
  apply designators_returns; lia.
Qed.

(** The block descriptors and the pages of MODE SENSE, cut at [bdEnd] *)
Lemma mode_sense_cut {A} (n : nat) (bdEnd : Z) data (k : bytes -> bytes -> PR A) b :
  (n <= Z.to_nat bdEnd <= length data)%nat -> 0 <= bdEnd -> b = (bdEnd <? Z.of_nat (length data)) ->
  (bds ← slice n (Z.to_nat bdEnd) data;
   pages ← (if b then slice (Z.to_nat bdEnd) (length data) data else mret []);
   k bds pages)
  = k (sub n (Z.to_nat bdEnd - n) data) (drop (Z.to_nat bdEnd) data).
Proof.
  intros H1 H0 ->. rewrite (PR_bind_Ok _ _ _ (slice_ok n (Z.to_nat bdEnd) data ltac:(lia))).
  destruct (Z.ltb_spec bdEnd (Z.of_nat (length data))).
  - rewrite (PR_bind_Ok _ _ _ (slice_ok (Z.to_nat bdEnd) (length data) data ltac:(lia))).
    unfold sub at 2. by rewrite take_ge by (rewrite length_drop; lia).
  - rewrite drop_ge by lia. done.
Qed.

Lemma sub_drop_split (a b : nat) (data : bytes) : (a <= b)%nat ->
  sub a (b - a) data ++ drop b data = drop a data.
Proof.
  intros H. unfold sub. rewrite <- (take_drop (b - a) (drop a data)) at 2. rewrite drop_drop.
  do 2 f_equal. lia.
Qed.

(** MODE SENSE (6): the bounds are taken modulo 2^16. *)
Lemma ParseModeSense6_ok result data : checkResult result = Some (Ok data) -> bytes_ok data ->
  (4 <= length data)%nat ->
  let len := Z.of_nat (length data) mod 2 ^ 16 in
  if len <? 4 then ParseModeSense6 result = None
  else exists r, ParseModeSense6 result = Some (Ok r) /\
    ms6_BlockDescriptors r ++ ms6_Pages r = drop 4 data /\
    Z.of_nat (length (ms6_BlockDescriptors r)) = Z.min (byte_at 3 data) (len - 4) /\
    ms6_ModeDataLength r = byte_at 0 data /\ ms6_MediumType r = byte_at 1 data /\
    ms6_DeviceSpecific r = byte_at 2 data /\ ms6_BlockDescriptorLength r = byte_at 3 data /\ ms6_Raw r = data.
Proof.
  intros Hc Hb H4. cbv zeta. unfold ParseModeSense6.
  rewrite (PR_bind_Ok _ _ _ Hc), (PR_bind_Ok _ _ _ (need_ok _ _ _ H4)).
  rewrite (PR_bind_Ok _ _ _ (at_ok 0 data ltac:(lia))), (PR_bind_Ok _ _ _ (at_ok 1 data ltac:(lia))),
    (PR_bind_Ok _ _ _ (at_ok 2 data ltac:(lia))), (PR_bind_Ok _ _ _ (at_ok 3 data ltac:(lia))).
  change (uint16 (Z.of_nat (length data))) with (Z.of_nat (length data) mod 2 ^ 16).
  pose proof (byte_at_width 3 data Hb) as H3. set (bdl := byte_at 3 data) in *.
  rewrite (wrap_id 16 (4 + bdl)) by (unfold in_width in *; lia).
  pose proof (Z.mod_pos_bound (Z.of_nat (length data)) (2 ^ 16) ltac:(lia)) as Hm.
  pose proof (Z.mod_le (Z.of_nat (length data)) (2 ^ 16) ltac:(lia) ltac:(lia)) as Hle.
  set (len := Z.of_nat (length data) mod 2 ^ 16) in *.
  unfold in_width in H3. set (bdEnd := if 4 + bdl >? len then len else 4 + bdl).
  assert (E : bdEnd = Z.min (4 + bdl) len) by (subst bdEnd; destruct (Z.gtb_spec (4 + bdl) len); lia).
  destruct (Z.ltb_spec len 4) as [H|H].
  - rewrite (slice_panics 4 (Z.to_nat bdEnd) data); [done|]. lia.
  - rewrite mode_sense_cut by (lia || done). eexists. split; [done|]. cbn.
    split; [apply sub_drop_split; lia|]. rewrite length_sub by lia. repeat split. lia.
Qed.

Lemma ParseModeSense10_ok result data : checkResult result = Some (Ok data) -> bytes_ok data ->
  (8 <= length data)%nat -> Z.of_nat (length data) < 2 ^ 32 ->
  exists r, ParseModeSense10 result = Some (Ok r) /\
    ms10_BlockDescriptors r ++ ms10_Pages r = drop 8 data /\
    Z.of_nat (length (ms10_BlockDescriptors r)) = Z.min (get_be 2 6 data) (Z.of_nat (length data) - 8) /\
    ms10_LongLBA r = has_bit (byte_at 4 data) 0x01 /\ ms10_BlockDescriptorLength r = get_be 2 6 data.
Proof.
  intros Hc Hb H8 Hl. unfold ParseModeSense10.
  rewrite (PR_bind_Ok _ _ _ Hc), (PR_bind_Ok _ _ _ (need_ok _ _ _ H8)).
  rewrite (PR_bind_Ok _ _ _ (slice_be_ok 2 6 data ltac:(lia))), (PR_bind_Ok _ _ _ (slice_be_ok 2 0 data ltac:(lia))),
    (PR_bind_Ok _ _ _ (at_ok 2 data ltac:(lia))), (PR_bind_Ok _ _ _ (at_ok 3 data ltac:(lia))),
    (PR_bind_Ok _ _ _ (at_ok 4 data ltac:(lia))).
  pose proof (get_be_width 2 6 data Hb ltac:(lia)) as Hw. set (bdl := get_be 2 6 data) in *.
  change (8 * Z.of_nat 2) with 16 in Hw. unfold in_width in Hw.
  rewrite (wrap_id 32 (8 + bdl)), (wrap_id 32 (Z.of_nat (length data))) by (unfold in_width; lia).
  set (len := Z.of_nat (length data)). set (bdEnd := if 8 + bdl >? len then len else 8 + bdl).
  assert (E : bdEnd = Z.min (8 + bdl) len) by (subst bdEnd; destruct (Z.gtb_spec (8 + bdl) len); lia).
  rewrite mode_sense_cut by (lia || done). eexists. split; [done|]. cbn.
  split; [apply sub_drop_split; lia|]. rewrite length_sub by lia. repeat split. lia.
Qed.

(** ** Specification: what a device encodes *)

(** REPORT LUNS (SPC-4 6.33): the list length, and 8 bytes per LUN *)
Definition luns_bytes (luns : list bytes) : bytes :=
  be_bytes 4 (8 * Z.of_nat (length luns)) ++ zeros 4 ++ concat luns.

(** Designation descriptors (SPC-4 7.8.4); [flags] are the bits of byte 1 besides
    the type and the association. *)
Definition designator_bytes (flags : bool) (d : Designator) : bytes :=
  [Z.lor (Z.shiftl (ds_ProtocolID d) 4) (ds_CodeSet d);
   Z.lor (flag flags 0x80) (Z.lor (Z.shiftl (ds_Association d) 4) (ds_Type d)); 0;
   Z.of_nat (length (ds_Identifier d))] ++ ds_Identifier d.
Definition designator_ok (d : Designator) : Prop :=
  in_width 4 (ds_CodeSet d) /\ in_width 4 (ds_ProtocolID d) /\ in_width 4 (ds_Type d) /\
  in_width 2 (ds_Association d) /\ (length (ds_Identifier d) <= 255)%nat.

Definition designators_bytes (flags : bool) (ds : list Designator) : bytes :=
  concat (map (designator_bytes flags) ds).

(** Page 0x83 *)
Definition page83_bytes (flags : bool) (ds : list Designator) : bytes :=
  [0; 0x83] ++ be_bytes 2 (Z.of_nat (length (designators_bytes flags ds))) ++ designators_bytes flags ds.

Lemma designator_fields flags d : designator_ok d ->
  let b0 := Z.lor (Z.shiftl (ds_ProtocolID d) 4) (ds_CodeSet d) in
  let b1 := Z.lor (flag flags 0x80) (Z.lor (Z.shiftl (ds_Association d) 4) (ds_Type d)) in
  Z.land b0 0x0f = ds_CodeSet d /\ Z.land (Z.shiftr b0 4) 0x0f = ds_ProtocolID d /\
  Z.land b1 0x0f = ds_Type d /\ Z.land (Z.shiftr b1 4) 0x03 = ds_Association d.
Proof.
  intros (H1 & H2 & H3 & H4 & _). cbv zeta.
  assert (L : forall a b, in_width 4 b -> Z.land (Z.lor (Z.shiftl a 4) b) 0x0f = b).
  { intros a b Hb. rewrite Z.land_lor_distr_l, land_shiftl_low by (lia || done).
    rewrite Z.lor_0_l. by apply (land_ones_id 4). }
  assert (R : forall a b, in_width 4 b -> Z.shiftr (Z.lor (Z.shiftl a 4) b) 4 = a).
  { intros a b Hb. rewrite Z.shiftr_lor, Z.shiftr_shiftl_l, Z.sub_diag, Z.shiftl_0_r by lia.
    rewrite (Z.shiftr_div_pow2 b) by lia. rewrite Z.div_small by done. apply Z.lor_0_r. }
  rewrite L, R by done. split; [done|]. split; [by apply (land_ones_id 4)|].
  split.
  - rewrite Z.land_lor_distr_l, L by done. by destruct flags.
  - rewrite Z.shiftr_lor, R, Z.land_lor_distr_l by done.
    replace (Z.land (Z.shiftr (flag flags 0x80) 4) 0x03) with 0 by by destruct flags.
    rewrite Z.lor_0_l. by apply (land_ones_id 2).
Qed.

Lemma length_designator_bytes flags d : length (designator_bytes flags d) = (4 + length (ds_Identifier d))%nat.
Proof. done. Qed.

Lemma designators_loop_bytes flags ds : forall fuel pre rest, Forall designator_ok ds ->
  (length ds <= fuel)%nat ->
  designators_loop fuel (length pre) (length pre + length (designators_bytes flags ds))
    (pre ++ designators_bytes flags ds ++ rest) = Some (Ok ds).
Proof.
  induction ds as [|d ds IH]; intros fuel pre rest Hds Hf; simpl in Hf.
  - unfold designators_bytes. cbn [map concat length]. destruct fuel; cbn [designators_loop];
      (destruct (Nat.leb_spec (length pre + 4) (length pre + 0)); [lia|done]).
  - apply Forall_cons in Hds as [Hd Hds]. destruct (designator_fields flags d Hd) as (F1 & F2 & F3 & F4).
    unfold designators_bytes. cbn [map concat]. fold (designators_bytes flags ds).
    rewrite length_app, length_designator_bytes, <- app_assoc.
    destruct fuel as [|fuel]; [lia|]. cbn [designators_loop].
    destruct (Nat.leb_spec (length pre + 4)
      (length pre + (4 + length (ds_Identifier d) + length (designators_bytes flags ds)))); [|lia].
    set (data := pre ++ _).
    assert (Hlen : length data = (length pre + (4 + length (ds_Identifier d)
      + (length (designators_bytes flags ds) + length rest)))%nat)
      by (subst data; by rewrite !length_app, length_designator_bytes).
    rewrite (PR_bind_Ok _ _ _ (at_ok (length pre + 3) data ltac:(lia))).
    replace (byte_at (length pre + 3) data) with (Z.of_nat (length (ds_Identifier d)))
      by (subst data; rewrite byte_at_shift; done).
    rewrite Nat2Z.id. rewrite (proj2 (Nat.ltb_ge _ _)) by lia.
    rewrite (PR_bind_Ok _ _ _ (at_ok (length pre) data ltac:(lia))),
      (PR_bind_Ok _ _ _ (at_ok (length pre + 1) data ltac:(lia))),
      (PR_bind_Ok _ _ _ (slice_ok (length pre + 4) (length pre + 4 + length (ds_Identifier d)) data ltac:(lia))).
    specialize (IH fuel (pre ++ designator_bytes flags d) rest Hds ltac:(lia)).
    rewrite length_app, length_designator_bytes, <- app_assoc in IH.
    replace (length pre + 4 + length (ds_Identifier d))%nat
      with (length pre + (4 + length (ds_Identifier d)))%nat by lia.
    replace (length pre + (4 + length (ds_Identifier d) + length (designators_bytes flags ds)))%nat
      with (length pre + (4 + length (ds_Identifier d)) + length (designators_bytes flags ds))%nat by lia.
    fold data in IH. rewrite (PR_bind_Ok _ _ _ IH). unfold mret, PR_ret. do 3 f_equal.
    replace (byte_at (length pre) data) with (Z.lor (Z.shiftl (ds_ProtocolID d) 4) (ds_CodeSet d))
      by (subst data; rewrite <- (Nat.add_0_r (length pre)), byte_at_shift; done).
    replace (byte_at (length pre + 1) data)
      with (Z.lor (flag flags 0x80) (Z.lor (Z.shiftl (ds_Association d) 4) (ds_Type d)))
      by (subst data; rewrite byte_at_shift; done).
    rewrite F1, F2, F3, F4. destruct d as [cs pid ty assoc ident]. cbn [ds_Identifier] in *. f_equal.
    subst data. rewrite sub_app_r by lia.
    replace (length pre + 4 - length pre)%nat with 4%nat by lia.
    replace (length pre + (4 + length ident) - (length pre + 4))%nat with (length ident) by lia.
    unfold designator_bytes. cbn [ds_Identifier]. rewrite <- app_assoc, sub_app_r by (simpl; lia).
    cbn [length Nat.sub]. rewrite sub_app_l by lia. by apply sub_all.
Qed.

Lemma length_designators_bytes flags ds : (4 * length ds <= length (designators_bytes flags ds))%nat.
Proof.
  induction ds as [|d ds IH]; [done|]. unfold designators_bytes in *. cbn [map concat].
  rewrite length_app, length_designator_bytes. cbn [length]. lia.
Qed.

(** The result of a command that ended with GOOD status *)
Definition good (data : bytes) : Result := mkResult 0 [] (Some (NewReader data)) false false 0 None.

Lemma checkResult_good data : checkResult (good data) = Some (Ok data).
Proof. unfold checkResult, good, readAll, ReadAll, rd_bytes. cbn. by rewrite app_nil_r. Qed.

(** ** Properties *)

(** C29.  No response of a target makes a response parser run over the end of its
    data, whatever its length fields say, with one exception: MODE SENSE (6)
    computes its bounds modulo 2^16 and panics exactly on a response whose length
    is up to 3 more than a multiple of 2^16. *)
Theorem parsers_return (result : Result) : response_ok result ->
  (returns (ParseReportLuns result) /\ returns (ParsePersistReserveInKeys result)) /\
  (returns (ParsePersistReserveInReservation result) /\ returns (ParseReadCapacity10 result) /\
   returns (ParseReadCapacity16 result) /\ returns (ParseInquiry result) /\
   returns (ParseVPDSupportedPages result) /\ returns (ParseVPDSerialNumber result) /\
   returns (ParseVPDBlockLimits result) /\ returns (ParseVPDBlockCharacteristics result) /\
   returns (ParseVPDLogicalBlockProvisioning result)) /\
  returns (ParseVPDDeviceIdentification result) /\ returns (ParseModeSense10 result) /\
  (ParseModeSense6 result = None <->
   exists data, checkResult result = Some (Ok data) /\ (4 <= length data)%nat /\
     Z.of_nat (length data) mod 2 ^ 16 < 4).
Proof.
  intros Hok. split; [by apply lists_return|]. split; [apply fixed_parsers_return|].
  split; [apply designation_returns|].
  destruct (checkResult result) as [[data|e]|] eqn:Hc.
  - destruct (Hok data Hc) as [Hb Hl]. split.
    + destruct (decide (8 <= length data)%nat) as [H8|H8].
      * by destruct (ParseModeSense10_ok result data Hc Hb H8 ltac:(lia)) as (r & -> & _).
      * unfold ParseModeSense10, need. rewrite (PR_bind_Ok _ _ _ Hc).
        by rewrite (proj2 (Nat.ltb_lt _ _)) by lia.
    + destruct (decide (4 <= length data)%nat) as [H4|H4].
      * pose proof (ParseModeSense6_ok result data Hc Hb H4) as H. cbv zeta in H.
        destruct (Z.ltb_spec (Z.of_nat (length data) mod 2 ^ 16) 4) as [Hm|Hm].
        -- split; [by eauto|done].
        -- destruct H as (r & -> & _). split; [done|]. intros (d & [= <-] & _ & ?). lia.
      * unfold ParseModeSense6, need. rewrite (PR_bind_Ok _ _ _ Hc).
        rewrite (proj2 (Nat.ltb_lt _ _)) by lia. split; [done|]. intros (d & [= <-] & ? & _). lia.
  - split; [unfold ParseModeSense10; by rewrite (PR_bind_Err _ _ _ Hc)|].
    unfold ParseModeSense6. rewrite (PR_bind_Err _ _ _ Hc). split; [done|]. by intros (d & ? & _).
  - by destruct (checkResult_returns result).
Qed.

Lemma parsers_return_witness :
  response_ok (good [0; 0; 0; 200; 1]) /\ returns (ParseVPDSupportedPages (good [0; 0; 0; 200; 1])).
Proof.
  assert (H : response_ok (good [0; 0; 0; 200; 1])).
  { intros data Hd. rewrite checkResult_good in Hd. injection Hd as <-. split; [|done].
    repeat constructor; unfold in_width; lia. }
  split; [exact H|]. destruct (parsers_return _ H) as (_ & (_ & _ & _ & _ & H1 & _) & _). exact H1.
Defined.

Lemma length_concat8 (luns : list bytes) : Forall (fun l => length l = 8%nat) luns ->
  length (concat luns) = (8 * length luns)%nat.
Proof. induction 1 as [|l luns Hl _ IH]; [done|]. cbn [concat]. rewrite length_app, Hl, IH. simpl. lia. Qed.

Lemma sub_concat8 (luns : list bytes) : Forall (fun l => length l = 8%nat) luns ->
  forall k l, luns !! k = Some l -> sub (8 * k) 8 (concat luns) = l.
Proof.
  induction 1 as [|l0 luns Hl Hf IH]; intros k l Hk; [done|]. cbn [concat]. destruct k as [|k].
  - injection Hk as <-. rewrite sub_app_l by lia. by apply sub_all.
  - rewrite sub_app_r by lia. rewrite Hl. replace (8 * S k - 8)%nat with (8 * k)%nat by lia. by apply IH.
Qed.


Lemma sub_take (a n m : nat) (l : bytes) : (a + n <= m)%nat -> sub a n (take m l) = sub a n l.
Proof. intros H. unfold sub. rewrite skipn_firstn_comm, take_take. f_equal. lia. Qed.

(** A LUN field with single-level addressing: the last six bytes are zero. *)
Definition single_level (f : bytes) : Prop :=
  exists hi lo, f = [hi; lo; 0; 0; 0; 0; 0; 0] /\ u8 hi /\ u8 lo.

Lemma single_level_roundtrip f : single_level f -> EncodeSAMLUN (DecodeSAMLUN f) = Some f.
Proof.
  intros (hi & lo & -> & Hh & Hl). unfold DecodeSAMLUN. cbn [length Nat.ltb Nat.leb].
  replace (get_be 2 0 _) with (lo + 256 * hi) by (unfold get_be, be_val; cbn; lia).
  unfold EncodeSAMLUN. destruct (Z.gtb_spec (lo + 256 * hi) 0xFFFF); [unfold in_width in *; lia|].
  rewrite wrap_id by (unfold in_width in *; lia). f_equal. unfold put_be, upd, be_bytes. cbn.
  unfold in_width in *. repeat f_equal; Z.div_mod_to_equations; lia.
Qed.

(** [ParseReportLuns] returns the LUNs a target lists, in order: of a response
    cut off at the allocation length, the LUNs that are in it whole.  Each number it
    returns for a LUN with single-level addressing, of whatever address method,
    addresses that LUN in a command again. *)
Theorem ReportLuns_roundtrip (fields : list bytes) (alloc : nat) :
  Forall single_level fields -> 8 + 8 * Z.of_nat (length fields) < 2 ^ 32 - 16 -> (8 <= alloc)%nat ->
  exists luns, ParseReportLuns (good (take alloc (luns_bytes fields))) = Some (Ok luns) /\
    map EncodeSAMLUN luns = map Some (take ((alloc - 8) / 8) fields).
Proof.
  intros Hf Hl Ha. set (n := length fields). set (data := take alloc (luns_bytes fields)).
  assert (H8 : Forall (fun l => length l = 8%nat) fields).
  { eapply Forall_impl; [exact Hf|]. by intros f (hi & lo & -> & _). }
  assert (Hfull : length (luns_bytes fields) = (8 + 8 * n)%nat).
  { unfold luns_bytes. rewrite !length_app, length_be_bytes, length_zeros, length_concat8 by done. subst n. lia. }
  assert (Hlen : length data = Nat.min alloc (8 + 8 * n)) by (subst data; by rewrite length_take, Hfull).
  unfold ParseReportLuns. rewrite (PR_bind_Ok _ _ _ (checkResult_good data)).
  rewrite (PR_bind_Ok _ _ _ (need_ok 8 _ data ltac:(lia))), (PR_bind_Ok _ _ _ (slice_be_ok 4 0 data ltac:(lia))).
  replace (get_be 4 0 data) with (8 * Z.of_nat n).
  2: { subst data. unfold get_be. rewrite sub_take by lia. unfold luns_bytes.
       rewrite sub_app_l by (rewrite length_be_bytes; lia). rewrite sub_all by apply length_be_bytes.
       rewrite be_val_bytes_id; [done|]. unfold in_width. change (8 * Z.of_nat 4) with 32. lia. }
  rewrite (Z.mul_comm 8), Z.div_mul, entries_ok by lia.
  replace (Nat.min (Z.to_nat (Z.of_nat n)) ((length data - 8) / 8)) with (Nat.min n ((alloc - 8) / 8)).
  2: { rewrite Nat2Z.id, Hlen. destruct (Nat.min_spec alloc (8 + 8 * n)) as [[? ->]|[? ->]]; [done|].
       replace (8 + 8 * n - 8)%nat with (n * 8)%nat by lia. rewrite Nat.div_mul by lia.
       assert (n <= (alloc - 8) / 8)%nat by (apply Nat.div_le_lower_bound; lia). lia. }
  eexists. split; [done|]. rewrite map_map. apply list_eq. intros i. rewrite !list_lookup_fmap.
  pose proof (Nat.Div0.mul_div_le (alloc - 8) 8) as Hdiv.
  destruct (decide (i < Nat.min n ((alloc - 8) / 8))%nat) as [Hi|Hi].
  - rewrite lookup_seq_lt by done. rewrite lookup_take_lt by lia.
    destruct (lookup_lt_is_Some_2 fields i ltac:(lia)) as [f Hfi]. rewrite Hfi.
    cbn [fmap option_fmap option_map]. f_equal. rewrite Nat.add_0_l.
    subst data. rewrite sub_take by lia. unfold luns_bytes.
    rewrite app_assoc, sub_app_r by (rewrite length_app, length_be_bytes, length_zeros; lia).
    rewrite length_app, length_be_bytes, length_zeros. replace (8 + 8 * i - (4 + 4))%nat with (8 * i)%nat by lia.
    rewrite (sub_concat8 fields H8 i f Hfi). apply single_level_roundtrip.
    eapply Forall_lookup_1; [exact Hf|exact Hfi].
  - rewrite lookup_seq_ge by lia. destruct (decide (n <= i)%nat).
    + rewrite (lookup_ge_None_2 (take _ _)); [done|]. rewrite length_take. fold n. lia.
    + rewrite lookup_take_ge by lia. done.
Qed.

Lemma ReportLuns_roundtrip_witness :
  let fields := [[0; 0; 0; 0; 0; 0; 0; 0]; [0; 5; 0; 0; 0; 0; 0; 0]; [0x41; 0; 0; 0; 0; 0; 0; 0]] in
  exists luns, ParseReportLuns (good (take 30 (luns_bytes fields))) = Some (Ok luns) /\
    map EncodeSAMLUN luns = map Some (take 2 fields).
Proof.
  intros fields. apply (ReportLuns_roundtrip fields 30).
  - unfold fields. repeat constructor; unfold single_level; do 2 eexists; (split; [reflexivity|]);
      unfold in_width; lia.
  - simpl. lia.
  - lia.
Defined.

(** [ParseVPDDeviceIdentification] returns the designators a device puts into
    page 0x83, with their types, associations and identifiers of any length, and
    ignores what follows the page. *)
Theorem DeviceIdentification_roundtrip (flags : bool) (ds : list Designator) (rest : bytes) :
  Forall designator_ok ds -> Z.of_nat (length (designators_bytes flags ds)) < 2 ^ 16 ->
  ParseVPDDeviceIdentification (good (page83_bytes flags ds ++ rest)) = Some (Ok ds).
Proof.
  intros Hds Hl. unfold ParseVPDDeviceIdentification. set (data := page83_bytes flags ds ++ rest).
  set (pre := [0; 0x83] ++ be_bytes 2 (Z.of_nat (length (designators_bytes flags ds)))).
  assert (Hpre : length pre = 4%nat) by (subst pre; by rewrite length_app, length_be_bytes).
  assert (Hdata : data = pre ++ designators_bytes flags ds ++ rest)
    by (subst data pre; unfold page83_bytes; by rewrite <- !app_assoc).
  assert (Hlen : length data = (4 + (length (designators_bytes flags ds) + length rest))%nat)
    by (rewrite Hdata, !length_app, Hpre; lia).
  rewrite (PR_bind_Ok _ _ _ (checkResult_good data)), (PR_bind_Ok _ _ _ (need_ok 4 _ data ltac:(lia))),
    (PR_bind_Ok _ _ _ (slice_be_ok 2 2 data ltac:(lia))).
  replace (get_be 2 2 data) with (Z.of_nat (length (designators_bytes flags ds))).
  2: { rewrite Hdata. subst pre. rewrite <- app_assoc. rewrite (get_be_pos 2 2 0) by done.
       unfold get_be. rewrite sub_app_l by (rewrite length_be_bytes; lia).
       rewrite sub_all by apply length_be_bytes. rewrite be_val_bytes_id; [done|].
       unfold in_width. change (8 * Z.of_nat 2) with 16. lia. }
  rewrite Nat2Z.id, Nat.min_l by lia. rewrite Hdata at 2. rewrite <- Hpre.
  apply designators_loop_bytes; [done|]. pose proof (length_designators_bytes flags ds). lia.
Qed.

Lemma DeviceIdentification_roundtrip_witness :
  let ds := [mkDesignator 1 0 3 0 [0x60; 1; 2; 3; 4; 5; 6; 7]; mkDesignator 2 5 4 1 [1]] in
  ParseVPDDeviceIdentification (good (page83_bytes true ds ++ [7; 7])) = Some (Ok ds).
Proof.
  intros ds. apply (DeviceIdentification_roundtrip true ds [7; 7]).
  - repeat constructor; simpl; unfold in_width; lia.
  - simpl. lia.
Defined.
