(* ===== verification/Discovery.v ===== *)
(** SendTargets discovery ([src/internal/session/discovery.go]).

    [portal_text] and [targets_kvs] are the specification: how a target writes its
    portals and target list. *)
From S2P Require Import Prelude Errors Bhs PduTactics PduInitiator PduTarget Pdu Text Parse Sense GoIO Digest Framer.
From S2P Require Import Chan Serial Router Negotiation CmdWindow Config Types Task Session Unsolicited TaskLoop.
#[local] Open Scope string_scope.
#[local] Open Scope list_scope.
#[local] Open Scope Z_scope.

(** ** Strings *)

(** The bytes before and after the last [sep] ([strings.LastIndex]) *)
Fixpoint cut_last (sep : Z) (l : bytes) : option (bytes * bytes) :=
  match l with
  | [] => None
  | b :: l =>
    match cut_last sep l with
    | Some (before, after) => Some (b :: before, after)
    | None => if b =? sep then Some ([], l) else None
    end
  end.

(** [strconv.Atoi] *)
Definition Atoi (l : bytes) : option Z :=
  let '(neg, digits) :=
    match l with
    | c :: l' => if c =? 43 then (false, l') else if c =? 45 then (true, l') else (false, l)
    | [] => (false, l)
    end in
  match digits with
  | [] => None
  | _ =>
    match parse_digits digits 0 with
    | None => None
    | Some v =>
        let v := if neg : bool then - v else v in
        if (- 2 ^ 63 <=? v) && (v <? 2 ^ 63) then Some v else None
    end
  end.

(** ** Portals *)

Definition set_GroupTag (v : Z) (p : Portal) : Portal := mkPortal (po_Address p) (po_Port p) v.
Definition set_Port (v : Z) (p : Portal) : Portal := mkPortal (po_Address p) v (po_GroupTag p).
Definition set_Address (v : bytes) (p : Portal) : Portal := mkPortal (of_bytes v) (po_Port p) (po_GroupTag p).

(** The part after the group tag: an address with a port or without *)
Definition parseAddrPort (addrPort : bytes) (p : Portal) : Portal :=
  match addrPort with
  | 91 :: inner =>
    let '(addr, rest, found) := cut 93 inner in
    if negb found then set_Address addrPort p
    else
      let p := set_Address addr p in
      match rest with
      | 58 :: port => match Atoi port with Some v => set_Port v p | None => p end
      | _ => p
      end
  | _ =>
    match cut_last 58 addrPort with
    | Some (addr, port) =>
        match Atoi port with
        | Some v => set_Address addr (set_Port v p)
        | None => set_Address addrPort p
        end
    | None => set_Address addrPort p
    end
  end.

Definition parsePortal (str : string) : Portal :=
  let s := to_bytes str in
  let p := mkPortal "" 3260 1 in
  match cut_last 44 s with
  | Some (before, after) =>
      parseAddrPort before (match Atoi after with Some tag => set_GroupTag tag p | None => p end)
  | None => parseAddrPort s p
  end.

(** ** Targets *)

(** [current.Portals = append(current.Portals, p)]: [current] is the last target. *)
Definition add_portal (p : Portal) (targets : list DiscoveryTarget) : list DiscoveryTarget :=
  match reverse targets with
  | [] => targets
  | t :: ts => reverse (mkDiscoveryTarget (dt_Name t) (dt_Portals t ++ [p]) :: ts)
  end.

Definition add_key (targets : list DiscoveryTarget) (kv : KeyValue) : list DiscoveryTarget :=
  if String.eqb (kv_Key kv) "TargetName" then targets ++ [mkDiscoveryTarget (kv_Value kv) []]
  else if String.eqb (kv_Key kv) "TargetAddress" then add_portal (parsePortal (kv_Value kv)) targets
  else targets.

Definition parseSendTargetsResponse (data : bytes) : list DiscoveryTarget :=
  fold_left add_key (DecodeTextKV data) [].

(** ** SendTargets *)

Definition textRequest (itt ttt cmdSN expStatSN : Z) (data : bytes) : TextReq :=
  mkTextReq (mkHeader false 0 true 0 (uint32 (Z.of_nat (length data))) (zeros 8) itt) false ttt cmdSN
    expStatSN data.

Definition sendTargetsData : bytes := EncodeTextKV [KV "SendTargets" "All"].

(** [SendTargets] up to its loop: the ITT and the channel of the exchange.  The
    [defer] of [Unregister] runs on the error paths here and in [SendTargets_end]. *)
Definition SendTargets_start (cx cx' : CtxSched) : SS (res (Z * nat)) :=
  acquired ← window_acquire cx;
  match acquired with
  | Err e => mret (Err (Wrapf "session: SendTargets: acquire CmdSN: %w" [] e))
  | Ok cmdSN =>
    itt ← router_AllocateITT;
    pduCh ← router_RegisterPersistent itt;
    expStatSN ← SM_get ss_expStatSN;
    match TextReq_MarshalBHS (textRequest itt 0xFFFFFFFF cmdSN expStatSN sendTargetsData) with
    | Err e => _ ← router_Unregister itt; mret (Err (Wrapf "session: SendTargets: encode TextReq: %w" [] e))
    | Ok bhs =>
        raw ← stamped (newRawPDU bhs sendTargetsData);
        sent ← send_or_done cx' raw;
        if (sent : bool) then mret (Ok (itt, pduCh))
        else _ ← router_Unregister itt; mret (Err ErrCtx)
    end
  end.

(** What the scheduler decides in an iteration of the loop *)
Record TargetsSched := mkTargetsSched { ts_wait : WaitSched; ts_acquire : CtxSched; ts_send : CtxSched }.

(** An iteration of the loop: the data so far, and whether another response is to
    come *)
Definition SendTargets_turn (sch : TargetsSched) (itt : Z) (pduCh : nat) (accumulated : bytes)
    : SS (res (bytes * bool)) :=
  match ts_wait sch with
  | WaitTimeout => mret (Err (Errorf "session: SendTargets: timeout waiting for TextResp" []))
  | WaitCtx => mret (Err ErrCtx)
  | WaitResponse =>
    received ← receive pduCh;
    match received with
    | None => SM_panic
    | Some respRaw =>
      match DecodeBHS (raw_BHS respRaw) with
      | Err e => mret (Err (Wrapf "session: SendTargets: decode TextResp: %w" [] e))
      | Ok (PTextResp textResp) =>
          _ ← window_update (TextResp_ExpCmdSN textResp) (TextResp_MaxCmdSN textResp);
          _ ← updateStatSN (TextResp_StatSN textResp);
          let accumulated := accumulated ++ raw_DataSegment respRaw in
          if negb (TextResp_Continue textResp) then mret (Ok (accumulated, false))
          else
            acquired ← window_acquire (ts_acquire sch);
            match acquired with
            | Err e => mret (Err (Wrapf "session: SendTargets continuation: acquire CmdSN: %w" [] e))
            | Ok contCmdSN =>
              expStatSN ← SM_get ss_expStatSN;
              match TextReq_MarshalBHS
                      (textRequest itt (TextResp_TargetTransferTag textResp) contCmdSN expStatSN []) with
              | Err e => mret (Err (Wrapf "session: SendTargets continuation: encode TextReq: %w" [] e))
              | Ok contBHS =>
                  sent ← send_or_done (ts_send sch) (newRawPDU contBHS []);
                  mret (if (sent : bool) then Ok (accumulated, true) else Err ErrCtx)
              end
            end
      | Ok _ => mret (Err (Errorf "session: SendTargets: unexpected PDU type %T" []))
      end
    end
  end.

(** The end of [SendTargets]: the deferred [Unregister], and the targets *)
Definition SendTargets_end (itt : Z) (result : res bytes) : SS (res (list DiscoveryTarget)) :=
  _ ← router_Unregister itt;
  mret (parseSendTargetsResponse <$> result).

Fixpoint SendTargets_loop (schs : list TargetsSched) (itt : Z) (pduCh : nat) (accumulated : bytes)
    : SS (res (list DiscoveryTarget)) :=
  match schs with
  | [] => SM_block
  | sch :: schs =>
      turn ← SendTargets_turn sch itt pduCh accumulated;
      match turn with
      | Err e => SendTargets_end itt (Err e)
      | Ok (accumulated, false) => SendTargets_end itt (Ok accumulated)
      | Ok (accumulated, true) => SendTargets_loop schs itt pduCh accumulated
      end
  end.

Example parsePortal_v6 : parsePortal "[2001:db8::1]:860,3" = mkPortal "2001:db8::1" 860 3.
Proof. reflexivity. Qed.
Example parsePortal_default : parsePortal "storage.example.com" = mkPortal "storage.example.com" 3260 1.
Proof. reflexivity. Qed.

(** ** Specification *)

(** The address and port of a portal *)
Definition host_port (showPort : bool) (p : Portal) : bytes :=
  (if bool_decide (58 ∈ to_bytes (po_Address p)) then [91] ++ to_bytes (po_Address p) ++ [93]
   else to_bytes (po_Address p))
  ++ (if showPort then 58 :: to_bytes (FormatUint (po_Port p)) else []).

(** How a target writes a portal (RFC 7143 13.8): an address with colons in
    brackets; the port and the group tag can be left out when they are the
    defaults. *)
Definition portal_text (showPort showTag : bool) (p : Portal) : string :=
  of_bytes (host_port showPort p ++ (if showTag then 44 :: to_bytes (FormatUint (po_GroupTag p)) else [])).

Definition portal_ok (showPort showTag : bool) (p : Portal) : Prop :=
  (0 ∉ to_bytes (po_Address p)) /\ (44 ∉ to_bytes (po_Address p)) /\ (93 ∉ to_bytes (po_Address p)) /\ head (to_bytes (po_Address p)) <> Some 91 /\
  u16 (po_Port p) /\ u16 (po_GroupTag p) /\
  (showPort = false -> po_Port p = 3260) /\ (showTag = false -> po_GroupTag p = 1).

(** ** Lemmas *)

Lemma cut_last_None sep l : sep ∉ l -> cut_last sep l = None.
Proof.
  induction l as [|b l IH]; [done|]. intros [Hb Hl]%not_elem_of_cons. cbn [cut_last]. rewrite IH by done.
  by rewrite (proj2 (Z.eqb_neq b sep)) by congruence.
Qed.

Lemma cut_last_app sep before after : sep ∉ after -> cut_last sep (before ++ sep :: after) = Some (before, after).
Proof.
  intros Ha. induction before as [|b before IH]; cbn [app cut_last].
  - by rewrite cut_last_None, Z.eqb_refl.
  - by rewrite IH.
Qed.

Lemma format_digits_range fuel n : 0 <= n -> Forall (fun c => 48 <= c <= 57) (format_digits fuel n).
Proof.
  revert n; induction fuel as [|fuel IH]; intros n Hn; cbn [format_digits]; [constructor|].
  apply Forall_app_2; [case_match; [constructor|]; apply IH; by apply Z.div_pos|].
  constructor; [|constructor]. pose proof (Z.mod_pos_bound n 10 ltac:(lia)). lia.
Qed.

Lemma FormatUint_digits n : 0 <= n -> to_bytes (FormatUint n) = format_digits 20 n /\
  Forall (fun c => 48 <= c <= 57) (to_bytes (FormatUint n)).
Proof.
  intros Hn. unfold FormatUint. rewrite to_of_bytes by apply format_digits_ok.
  split; [done|by apply format_digits_range].
Qed.

Lemma not_in_digits c n : 0 <= n -> (c < 48 \/ 57 < c) -> c ∉ to_bytes (FormatUint n).
Proof.
  intros Hn Hc Hin. destruct (FormatUint_digits n Hn) as [_ Hd].
  rewrite Forall_forall in Hd. specialize (Hd c Hin). lia.
Qed.

Lemma Atoi_FormatUint n : 0 <= n < 2 ^ 63 -> Atoi (to_bytes (FormatUint n)) = Some n.
Proof.
  intros Hn. destruct (FormatUint_digits n ltac:(lia)) as [E Hd]. rewrite E in *.
  pose proof (format_digits_nonempty 19 n) as Hne.
  pose proof (parse_format_digits 20 n) as Hp.
  unfold Atoi. destruct (format_digits 20 n) as [|c l] eqn:El; [done|]. apply Forall_cons in Hd as [Hc _].
  rewrite (proj2 (Z.eqb_neq c 43)), (proj2 (Z.eqb_neq c 45)) by lia.
  rewrite Hp by (change (10 ^ Z.of_nat 20) with 100000000000000000000; lia).
  by rewrite (proj2 (Z.leb_le _ _)), (proj2 (Z.ltb_lt _ _)) by lia.
Qed.

Lemma parseAddrPort_text showPort showTag p tag : portal_ok showPort showTag p ->
  parseAddrPort (host_port showPort p) (mkPortal "" 3260 tag) = mkPortal (po_Address p) (po_Port p) tag.
Proof.
  intros (_ & _ & Hb & Hh & Hp & _ & Hdp & _). unfold host_port.
  assert (Hport : Atoi (to_bytes (FormatUint (po_Port p))) = Some (po_Port p))
    by (apply Atoi_FormatUint; unfold in_width in Hp; lia).
  assert (Hcolon : 58 ∉ to_bytes (FormatUint (po_Port p)))
    by (apply not_in_digits; unfold in_width in Hp; lia).
  destruct p as [addr port gt]. cbn [po_Address po_Port] in *. set (a := to_bytes addr) in *.
  assert (Ha : of_bytes a = addr) by apply of_to_bytes.
  destruct (bool_decide_reflect (58 ∈ a)) as [H58|H58].
  - cbn [app]. unfold parseAddrPort. rewrite <- app_assoc.
    change (([93] ++ ?l)) with (93 :: l). rewrite cut_app by done. cbn [negb].
    destruct showPort.
    + rewrite Hport. unfold set_Port, set_Address. cbn. by rewrite Ha.
    + rewrite Hdp by done. unfold set_Address. cbn. by rewrite Ha.
  - assert (E : forall l p0, (l = [] \/ exists l', l = 58 :: l') ->
      parseAddrPort (a ++ l) p0 = match cut_last 58 (a ++ l) with
        | Some (addr, port) =>
            match Atoi port with
            | Some v => set_Address addr (set_Port v p0)
            | None => set_Address (a ++ l) p0
            end
        | None => set_Address (a ++ l) p0
        end).
    { intros l p0 Hl. destruct a as [|c a'].
      - destruct Hl as [->|[l' ->]]; done.
      - cbn [app]. simpl in Hh. unfold parseAddrPort.
        assert (c <> 91) as Hc by congruence.
        destruct c as [|c|c]; [done| |done].
        do 7 (destruct c as [c|c|]; try done). }
    rewrite E by (destruct showPort; eauto). destruct showPort.
    + rewrite cut_last_app by done. rewrite Hport. unfold set_Port, set_Address. cbn. by rewrite Ha.
    + rewrite app_nil_r, cut_last_None by done. rewrite Hdp by done. unfold set_Address. cbn. by rewrite Ha.
Qed.

Lemma host_port_bytes showPort p : bytes_ok (host_port showPort p).
Proof.
  pose proof (to_bytes_ok (po_Address p)). unfold host_port.
  apply Forall_app_2.
  - destruct (bool_decide _); [|done]. repeat (apply Forall_app_2 || constructor); try done; by vm_compute.
  - destruct showPort; [|constructor]. constructor; [by vm_compute|apply to_bytes_ok].
Qed.

Lemma host_port_free c showPort showTag p : portal_ok showPort showTag p -> c = 0 \/ c = 44 ->
  c ∉ host_port showPort p.
Proof.
  intros (H0 & H44 & _ & _ & Hp & _) Hc. unfold host_port. apply not_elem_of_app. split.
  - assert (c ∉ to_bytes (po_Address p)) by by destruct Hc; subst.
    destruct (bool_decide _); [|done]. rewrite !not_elem_of_app. split; [|split; [done|]].
    all: intros ->%list_elem_of_singleton; lia.
  - destruct showPort; [|apply not_elem_of_nil]. apply not_elem_of_cons. split; [lia|].
    apply not_in_digits; unfold in_width in Hp; lia.
Qed.

Lemma portal_text_bytes showPort showTag p : to_bytes (portal_text showPort showTag p)
  = host_port showPort p ++ (if showTag then 44 :: to_bytes (FormatUint (po_GroupTag p)) else []).
Proof.
  apply to_of_bytes. apply Forall_app_2; [apply host_port_bytes|].
  destruct showTag; [|constructor]. constructor; [by vm_compute|apply to_bytes_ok].
Qed.

Lemma parsePortal_text showPort showTag p : portal_ok showPort showTag p ->
  parsePortal (portal_text showPort showTag p) = p.
Proof.
  intros Hok. unfold parsePortal. rewrite portal_text_bytes.
  pose proof (host_port_free 44 showPort showTag p Hok (or_intror eq_refl)) as Hfree.
  assert (Hg : u16 (po_GroupTag p) /\ (showTag = false -> po_GroupTag p = 1)) by (by destruct Hok as (?&?&?&?&?&?&?&?)).
  destruct Hg as [Hg Hdef]. unfold in_width in Hg. destruct showTag.
  - rewrite cut_last_app by (apply not_in_digits; lia). rewrite Atoi_FormatUint by lia.
    unfold set_GroupTag. cbn [po_Address po_Port]. rewrite (parseAddrPort_text showPort true) by done.
    by destruct p.
  - rewrite app_nil_r, cut_last_None by done. rewrite (parseAddrPort_text showPort false) by done.
    specialize (Hdef eq_refl). destruct p; cbn in *; congruence.
Qed.

(** ** Target lists *)

(** A target's answer to SendTargets: names, each followed by its addresses, with
    a choice per address of what it leaves out *)
Definition portal_kv (p : bool * bool * Portal) : KeyValue :=
  let '(showPort, showTag, p) := p in KV "TargetAddress" (portal_text showPort showTag p).
Definition target_kvs (t : string * list (bool * bool * Portal)) : list KeyValue :=
  KV "TargetName" t.1 :: map portal_kv t.2.
Definition targets_text (ts : list (string * list (bool * bool * Portal))) : bytes :=
  EncodeTextKV (concat (map target_kvs ts)).

Definition target_ok (t : string * list (bool * bool * Portal)) : Prop :=
  (0 ∉ to_bytes t.1) /\ Forall (fun p => portal_ok p.1.1 p.1.2 p.2) t.2.
Definition target_of (t : string * list (bool * bool * Portal)) : DiscoveryTarget :=
  mkDiscoveryTarget t.1 (map snd t.2).

Lemma add_portal_last p ts name ps :
  add_portal p (ts ++ [mkDiscoveryTarget name ps]) = ts ++ [mkDiscoveryTarget name (ps ++ [p])].
Proof.
  unfold add_portal. rewrite reverse_app, reverse_singleton. cbn [app dt_Name dt_Portals].
  by rewrite reverse_cons, reverse_involutive.
Qed.

Lemma add_portals ps : forall ts name ps0, Forall (fun p => portal_ok p.1.1 p.1.2 p.2) ps ->
  fold_left add_key (map portal_kv ps) (ts ++ [mkDiscoveryTarget name ps0])
  = ts ++ [mkDiscoveryTarget name (ps0 ++ map snd ps)].
Proof.
  induction ps as [|[[sp st] p] ps IH]; intros ts name ps0 Hok; cbn [map fold_left]; [by rewrite app_nil_r|].
  apply Forall_cons in Hok as [Hp Hok]. unfold add_key at 2. cbn [kv_Key kv_Value portal_kv String.eqb Ascii.eqb Bool.eqb].
  rewrite parsePortal_text by done. rewrite add_portal_last, IH by done. cbn [snd]. by rewrite <- app_assoc.
Qed.

Lemma add_targets ts : forall acc, Forall target_ok ts ->
  fold_left add_key (concat (map target_kvs ts)) acc = acc ++ map target_of ts.
Proof.
  induction ts as [|[name ps] ts IH]; intros acc Hok; cbn [map concat fold_left]; [by rewrite app_nil_r|].
  apply Forall_cons in Hok as [[_ Hp] Hok]. unfold target_kvs at 1. cbn [fst snd app fold_left].
  rewrite fold_left_app. unfold add_key at 3. cbn [kv_Key kv_Value String.eqb Ascii.eqb Bool.eqb].
  rewrite (add_portals ps acc name []) by done. rewrite IH by done. by rewrite <- app_assoc.
Qed.

Lemma targets_safe ts : Forall target_ok ts -> Forall text_safe (concat (map target_kvs ts)).
Proof.
  induction 1 as [|[name ps] ts [Hn Hp] _ IH]; cbn [map concat]; [constructor|].
  apply Forall_app_2; [|done]. unfold target_kvs. cbn [fst snd] in *. constructor.
  - split; [|split]; [apply (bool_decide_unpack _); by vm_compute..|done].
  - apply Forall_fmap. eapply Forall_impl; [exact Hp|]. intros [[sp st] p] Hok. cbn in Hok |- *.
    split; [|split]; [apply (bool_decide_unpack _); by vm_compute..|]. cbn [kv_Value portal_kv].
    rewrite portal_text_bytes. apply not_elem_of_app. split; [eapply host_port_free; eauto|].
    destruct st; [|apply not_elem_of_nil]. apply not_elem_of_cons. split; [lia|].
    destruct Hok as (_ & _ & _ & _ & _ & Hg & _). apply not_in_digits; unfold in_width in Hg; lia.
Qed.

Lemma parseSendTargets_text ts : Forall target_ok ts ->
  parseSendTargetsResponse (targets_text ts) = map target_of ts.
Proof.
  intros Hok. unfold parseSendTargetsResponse, targets_text.
  rewrite <- (app_nil_r (EncodeTextKV _)), DecodeTextKV_app by by apply targets_safe.
  change (DecodeTextKV []) with (DecodeTextKV (zeros 0)). rewrite DecodeTextKV_zeros, app_nil_r.
  by rewrite add_targets.
Qed.

(** ** The exchange *)

(** The read pump's dispatch of the responses alternating with the turns of
    [SendTargets] *)
Fixpoint exchange (itt : Z) (ch : nat) (l : list (RawPDU * TargetsSched)) (accumulated : bytes)
    : SS (res (list DiscoveryTarget)) :=
  match l with
  | [] => SM_block
  | (raw, sch) :: l =>
      _ ← session_dispatch itt raw;
      turn ← SendTargets_turn sch itt ch accumulated;
      match turn with
      | Err e => SendTargets_end itt (Err e)
      | Ok (accumulated, false) => SendTargets_end itt (Ok accumulated)
      | Ok (accumulated, true) => exchange itt ch l accumulated
      end
  end.

(** Responses of which all but the last continue, with the command window open for
    each continuation *)
Fixpoint continues (w : cmdWindow) (rs : list TextResp) : Prop :=
  match rs with
  | [] => False
  | r :: rs =>
      let w1 := (update (TextResp_ExpCmdSN r) (TextResp_MaxCmdSN r) w).1 in
      if TextResp_Continue r
      then exists sn w2, acquire_fast w1 = Some (Ok sn, w2) /\ u32 sn /\ continues w2 rs
      else rs = []
  end.

(** The continuation request for a response *)
Definition continuation (itt : Z) (raw : RawPDU) (r : TextResp) : Prop :=
  exists bhs sn e, raw = newRawPDU bhs [] /\
    DecodeBHS bhs = Ok (PTextReq (TextReq_wire (textRequest itt (TextResp_TargetTransferTag r) sn e []))).

Definition sch_ok (sch : TargetsSched) : Prop :=
  ts_wait sch = WaitResponse /\ cx_done (ts_send sch) && cx_pick (ts_send sch) = false.

Lemma textRequest_built itt ttt sn e data : u32 itt -> u32 ttt -> u32 sn -> u32 e ->
  Z.of_nat (length data) < 2 ^ 24 -> exists bhs,
  TextReq_MarshalBHS (textRequest itt ttt sn e data) = Ok bhs /\
  DecodeBHS bhs = Ok (PTextReq (TextReq_wire (textRequest itt ttt sn e data))).
Proof.
  intros Hi Ht Hs He Hd. pose proof (TextReq_marshal_total (textRequest itt ttt sn e data)) as Hm. cbn in Hm.
  rewrite wrap_id in Hm by (unfold in_width; lia).
  rewrite (Z.gtb_ltb (Z.of_nat _)), (proj2 (Z.ltb_ge _ _)) in Hm by lia.
  destruct (TextReq_MarshalBHS _) as [bhs|] eqn:E; [|done]. exists bhs. split; [done|].
  apply (decode_encoded (PTextReq (textRequest itt ttt sn e data))); [|done].
  split; [|by repeat (split; [done|])]. unfold Header_ok, textRequest.
  cbn [TextReq_Hdr TotalAHSLength DataSegmentLen LUN InitiatorTaskTag].
  split; [done|]. split; [apply wrap_range; lia|]. split; [done|]. split; [apply zeros_ok|done].
Qed.

(** A session after the bookkeeping of a text response *)
Definition after_text (r : TextResp) (s : Session) : Session :=
  set_expStatSN (next_expStatSN (TextResp_StatSN r) (ss_expStatSN s))
    (set_window (update (TextResp_ExpCmdSN r) (TextResp_MaxCmdSN r) (ss_window s)).1 s).

(** A turn up to the decision to continue *)
Lemma turn_received sch itt ch acc s1 s raw r : ts_wait sch = WaitResponse ->
  receive ch s1 = Done (Some raw, s) -> DecodeBHS (raw_BHS raw) = Ok (PTextResp r) ->
  SendTargets_turn sch itt ch acc s1 =
  (if negb (TextResp_Continue r) then mret (Ok (acc ++ raw_DataSegment raw, false))
   else
     acquired ← window_acquire (ts_acquire sch);
     match acquired with
     | Err e => mret (Err (Wrapf "session: SendTargets continuation: acquire CmdSN: %w" [] e))
     | Ok contCmdSN =>
       expStatSN ← SM_get ss_expStatSN;
       match TextReq_MarshalBHS (textRequest itt (TextResp_TargetTransferTag r) contCmdSN expStatSN []) with
       | Err e => mret (Err (Wrapf "session: SendTargets continuation: encode TextReq: %w" [] e))
       | Ok contBHS =>
           sent ← send_or_done (ts_send sch) (newRawPDU contBHS []);
           mret (if (sent : bool) then Ok (acc ++ raw_DataSegment raw, true) else Err ErrCtx)
       end
     end) (after_text r s).
Proof.
  intros Hw Hr Hd. unfold SendTargets_turn. rewrite Hw, (SM_bind_Done _ _ _ _ _ Hr), Hd.
  rewrite (SM_bind_Done _ _ _ _ _ (window_update_Done _ _ s)).
  rewrite (SM_bind_Done _ _ _ _ _ (updateStatSN_Done _ _)). reflexivity.
Qed.

Lemma turn_last sch itt ch acc s1 s raw r : ts_wait sch = WaitResponse ->
  receive ch s1 = Done (Some raw, s) -> DecodeBHS (raw_BHS raw) = Ok (PTextResp r) ->
  TextResp_Continue r = false ->
  SendTargets_turn sch itt ch acc s1 = Done (Ok (acc ++ raw_DataSegment raw, false), after_text r s).
Proof. intros Hw Hr Hd Hc. rewrite (turn_received sch itt ch acc s1 s raw r Hw Hr Hd), Hc. done. Qed.

Lemma turn_continue sch itt ch acc s1 s raw r sn w2 k : sch_ok sch ->
  receive ch s1 = Done (Some raw, s) -> DecodeBHS (raw_BHS raw) = Ok (PTextResp r) ->
  TextResp_Continue r = true -> u32 itt -> u32 (TextResp_TargetTransferTag r) -> u32 sn ->
  u32 (ss_expStatSN s) -> room (S k) (ss_writeCh s) ->
  acquire_fast (update (TextResp_ExpCmdSN r) (TextResp_MaxCmdSN r) (ss_window s)).1 = Some (Ok sn, w2) ->
  exists cont, continuation itt cont r /\
  SendTargets_turn sch itt ch acc s1
  = Done (Ok (acc ++ raw_DataSegment raw, true),
          set_writeCh (sent_on [cont] (ss_writeCh s)) (set_window w2 (after_text r s))).
Proof.
  intros [Hw Hcx] Hr Hd Hc Hi Ht Hsn He Hroom Hacq.
  rewrite (turn_received sch itt ch acc s1 s raw r Hw Hr Hd), Hc. cbn [negb].
  assert (Hwa : window_acquire (ts_acquire sch) (after_text r s) = Done (Ok sn, set_window w2 (after_text r s))).
  { unfold window_acquire. change (ss_window (after_text r s)) with
      (update (TextResp_ExpCmdSN r) (TextResp_MaxCmdSN r) (ss_window s)).1. by rewrite Hacq. }
  rewrite (SM_bind_Done _ _ _ _ _ Hwa). set (s2 := set_window w2 (after_text r s)).
  rewrite (SM_bind_Done _ _ s2 (ss_expStatSN s2) s2) by done.
  destruct (textRequest_built itt (TextResp_TargetTransferTag r) sn (ss_expStatSN s2) [] Hi Ht Hsn
    (next_expStatSN_width _ _ He) ltac:(simpl; lia)) as (bhs & Hm & Hdec).
  rewrite Hm. exists (newRawPDU bhs []). split; [by exists bhs, sn, (ss_expStatSN s2)|].
  assert (Hs : send_or_done (ts_send sch) (newRawPDU bhs []) s2
    = Done (true, set_writeCh (sent_on [newRawPDU bhs []] (ss_writeCh s)) s2)).
  { unfold send_or_done. rewrite Hcx. change (ss_writeCh s2) with (ss_writeCh s).
    by destruct (send_sent_on (newRawPDU bhs []) k _ Hroom) as [-> _]. }
  by rewrite (SM_bind_Done _ _ _ _ _ Hs).
Qed.

Lemma exchange_ok itt ch : u32 itt -> forall rs raws schs s acc,
  listening itt ch (ss_router s) -> continues (ss_window s) rs -> u32 (ss_expStatSN s) ->
  room (length rs) (ss_writeCh s) ->
  Forall2 (fun raw r => DecodeBHS (raw_BHS raw) = Ok (PTextResp r) /\ u32 (TextResp_TargetTransferTag r)) raws rs ->
  Forall2 (fun _ sch => sch_ok sch) raws schs ->
  exists s2 conts,
    exchange itt ch (zip raws schs) acc s
    = Done (Ok (parseSendTargetsResponse (acc ++ concat (map raw_DataSegment raws))), s2) /\
    ss_writeCh s2 = sent_on conts (ss_writeCh s) /\
    Forall2 (continuation itt) conts (List.filter TextResp_Continue rs) /\
    rt_pending (ss_router s2) !! itt = None.
Proof.
  intros Hi. induction rs as [|r rs IH]; intros raws schs s acc Hlis Hc He Hroom Hd Hsch; [done|].
  inversion Hd as [|raw r' raws' rs' [Hdec Httt] Hd']; subst. inversion Hsch as [|x sch y schs' Hok Hsch']; subst.
  destruct (dispatch_receive itt ch raw s Hlis) as (r1 & H1 & H2).
  cbn [zip zip_with exchange List.filter continues map concat] in *.
  rewrite (SM_bind_Done _ _ _ _ _ H1). destruct (TextResp_Continue r) eqn:Hcr.
  - destruct Hc as (sn & w2 & Hacq & Hsn & Hc).
    destruct (turn_continue sch itt ch acc _ s raw r sn w2 (length rs) Hok H2 Hdec Hcr Hi Httt Hsn He Hroom Hacq)
      as (cont & Hcont & Hturn).
    rewrite (SM_bind_Done _ _ _ _ _ Hturn). set (s3 := set_writeCh _ _).
    destruct (IH raws' schs' s3 (acc ++ raw_DataSegment raw)) as (s2 & conts & Hx & Hw & Hf & Hp); try done.
    + apply next_expStatSN_width, He.
    + by destruct (send_sent_on cont (length rs) _ Hroom).
    + exists s2, (cont :: conts). rewrite Hx, <- app_assoc. split; [done|]. split; [|split; [by constructor|done]].
      rewrite Hw. change (ss_writeCh s3) with (sent_on [cont] (ss_writeCh s)). by rewrite sent_on_app.
  - subst rs. inversion Hd'; subst. inversion Hsch'; subst.
    rewrite (SM_bind_Done _ _ _ _ _ (turn_last sch itt ch acc _ s raw r (proj1 Hok) H2 Hdec Hcr)).
    eexists _, []. split; [cbn [map concat]; rewrite app_nil_r; reflexivity|].
    cbn [router_Unregister]. split; [by rewrite sent_on_nil|]. split; [constructor|].
    cbn. apply lookup_delete_eq.
Qed.

Lemma SendTargets_start_ok cx cx' sn w' s k : ready sn w' s -> cx_done cx' && cx_pick cx' = false ->
  room (S k) (ss_writeCh s) -> exists bhs s1,
  SendTargets_start cx cx' s = Done (Ok (next_itt s, next_ch s), s1) /\
  DecodeBHS bhs = Ok (PTextReq (TextReq_wire
    (textRequest (next_itt s) 0xFFFFFFFF sn (ss_expStatSN s) sendTargetsData))) /\
  ss_writeCh s1 = sent_on [stampDigests (ss_digestHeader s) (ss_digestData s) (newRawPDU bhs sendTargetsData)]
    (ss_writeCh s) /\
  listening (next_itt s) (next_ch s) (ss_router s1) /\ ss_window s1 = w' /\ ss_expStatSN s1 = ss_expStatSN s.
Proof.
  intros (_ & _ & Hacq & Hsn & He & Hnext & Hdepth) Hcx Hroom. pose proof (next_itt_width s Hnext) as Hitt.
  destruct (textRequest_built (next_itt s) 0xFFFFFFFF sn (ss_expStatSN s) sendTargetsData Hitt
    ltac:(by vm_compute) Hsn He ltac:(by vm_compute)) as (bhs & Hm & Hdec).
  set (raw := stampDigests (ss_digestHeader s) (ss_digestData s) (newRawPDU bhs sendTargetsData)).
  exists bhs. unfold SendTargets_start.
  assert (Hw : window_acquire cx s = Done (Ok sn, set_window w' s)) by (unfold window_acquire; by rewrite Hacq).
  rewrite (SM_bind_Done _ _ _ _ _ Hw).
  set (s2 := set_router (AllocateITT (ss_router s)).2 (set_window w' s)).
  assert (Ha : router_AllocateITT (set_window w' s) = Done (next_itt s, s2))
    by (unfold router_AllocateITT, next_itt, s2; simpl; by destruct (AllocateITT (ss_router s))).
  rewrite (SM_bind_Done _ _ _ _ _ Ha).
  set (s3 := set_router (RegisterPersistent (next_itt s) (AllocateITT (ss_router s)).2).2 (set_window w' s)).
  assert (Hp : router_RegisterPersistent (next_itt s) s2 = Done (next_ch s, s3)).
  { unfold router_RegisterPersistent, s2, s3, next_ch, RegisterPersistent, AllocateITT. simpl.
    by destruct (allocITT (rt_nextITT (ss_router s))). }
  rewrite (SM_bind_Done _ _ _ _ _ Hp), (SM_bind_Done _ _ s3 (ss_expStatSN s) s3) by done.
  rewrite Hm, (SM_bind_Done _ _ s3 raw s3) by done.
  assert (Hs : send_or_done cx' raw s3 = Done (true, set_writeCh (sent_on [raw] (ss_writeCh s)) s3)).
  { unfold send_or_done. rewrite Hcx. change (ss_writeCh s3) with (ss_writeCh s).
    by destruct (send_sent_on raw k _ Hroom) as [-> _]. }
  rewrite (SM_bind_Done _ _ _ _ _ Hs). eexists. split; [reflexivity|]. split; [exact Hdec|]. split; [done|].
  split; [|done]. exact (submitted_listening (submit_task 0 (mkCommand [] false false 0 0 0 None) sn s) w' [] s Hdepth).
Qed.

(** ** Properties *)

(** C30.  Discovery returns the target list of the target: SendTargets sends its
    request, asks for the rest with the target's transfer tag as long as responses
    carry the C bit, and parses the answer to exactly the targets, in order, with
    their portals (IPv4, names and bracketed IPv6; ports and group tags given or
    left out), wherever the responses cut the text; its tag is released.  The
    continuation requests go out without digests, also on a connection that
    negotiated them: only the first request is stamped. *)
Theorem discovery_end_to_end (s : Session) (cx cx' : CtxSched) (sn : Z) (w' : cmdWindow)
    (ts : list (string * list (bool * bool * Portal))) (raws : list RawPDU) (rs : list TextResp)
    (schs : list TargetsSched) :
  ready sn w' s -> cx_done cx' && cx_pick cx' = false -> room (S (length rs)) (ss_writeCh s) ->
  Forall target_ok ts -> concat (map raw_DataSegment raws) = targets_text ts -> continues w' rs ->
  Forall2 (fun raw r => DecodeBHS (raw_BHS raw) = Ok (PTextResp r) /\ u32 (TextResp_TargetTransferTag r)) raws rs ->
  Forall2 (fun _ sch => sch_ok sch) raws schs ->
  exists bhs s1 s2 conts,
    SendTargets_start cx cx' s = Done (Ok (next_itt s, next_ch s), s1) /\
    DecodeBHS bhs = Ok (PTextReq (TextReq_wire
      (textRequest (next_itt s) 0xFFFFFFFF sn (ss_expStatSN s) sendTargetsData))) /\
    exchange (next_itt s) (next_ch s) (zip raws schs) [] s1 = Done (Ok (map target_of ts), s2) /\
    ss_writeCh s2 = sent_on
      (stampDigests (ss_digestHeader s) (ss_digestData s) (newRawPDU bhs sendTargetsData) :: conts) (ss_writeCh s) /\
    Forall2 (continuation (next_itt s)) conts (List.filter TextResp_Continue rs) /\
    Forall (fun raw => raw_HasHDigest raw = false /\ raw_HasDDigest raw = false) conts /\
    rt_pending (ss_router s2) !! next_itt s = None.
Proof.
  intros Hready Hcx Hroom Hts Htext Hc Hd Hsch.
  destruct (SendTargets_start_ok cx cx' sn w' s (length rs) Hready Hcx Hroom)
    as (bhs & s1 & Hstart & Hdec & Hw1 & Hlis & Hwin & He1).
  destruct Hready as (_ & _ & _ & _ & He & Hnext & _).
  destruct (exchange_ok (next_itt s) (next_ch s) (next_itt_width s Hnext) rs raws schs s1 [] Hlis)
    as (s2 & conts & Hx & Hw2 & Hconts & Hp); try done.
  - by rewrite Hwin.
  - by rewrite He1.
  - rewrite Hw1. by destruct (send_sent_on (stampDigests (ss_digestHeader s) (ss_digestData s)
      (newRawPDU bhs sendTargetsData)) _ _ Hroom).
  - exists bhs, s1, s2, conts. split; [done|]. split; [done|]. split.
    { rewrite Hx. cbn [app]. by rewrite Htext, parseSendTargets_text. }
    split; [rewrite Hw2, Hw1, sent_on_app; done|]. split; [done|]. split; [|done].
    clear - Hconts. induction Hconts as [|raw r conts rs' (b & sn & e & -> & _) _ IH]; constructor; done.
Qed.

(** Two responses, the first cut inside a name *)
Definition test_targets : list (string * list (bool * bool * Portal)) :=
  [("iqn.2026-03.com.example:a", [(true, true, mkPortal "192.168.1.5" 3260 1);
                                  (true, true, mkPortal "2001:db8::7" 860 2)]);
   ("iqn.2026-03.com.example:b", [(false, false, mkPortal "storage.local" 3260 1)])].
Definition test_textResp (cont : bool) (maxCmdSN : Z) (data : bytes) : TextResp :=
  mkTextResp (mkHeader false OpTextResp (negb cont) 0 (Z.of_nat (length data)) (zeros 8) 0) cont 0x55 1 2 maxCmdSN data.
Definition test_textRaw (cont : bool) (maxCmdSN : Z) (data : bytes) : RawPDU :=
  newRawPDU (match TextResp_MarshalBHS (test_textResp cont maxCmdSN data) with Ok bhs => bhs | Err _ => [] end) data.

Lemma discovery_end_to_end_witness :
  let s := NewSession Defaults true true defaultConfig in
  let cx := mkCtxSched false false in
  let text := targets_text test_targets in
  let raws := [test_textRaw true 5 (take 20 text); test_textRaw false 5 (drop 20 text)] in
  exists s1 s2, SendTargets_start cx cx s = Done (Ok (0, 0%nat), s1) /\
    exchange 0 0 (zip raws (replicate 2 (mkTargetsSched WaitResponse cx cx))) [] s1
    = Done (Ok (map target_of test_targets), s2).
Proof.
  intros s cx text raws.
  destruct (discovery_end_to_end s cx cx 1 (mkCmdWindow 2 1 1 false) test_targets raws
    [TextResp_wire (test_textResp true 5 (take 20 text)); TextResp_wire (test_textResp false 5 (drop 20 text))]
    (replicate 2 (mkTargetsSched WaitResponse cx cx))) as (bhs & s1 & s2 & conts & H1 & _ & H2 & _).
  - unfold ready. repeat (split; [vm_compute; done|]). vm_compute. lia.
  - reflexivity.
  - split; [reflexivity|]. apply Nat.leb_le. reflexivity.
  - apply (bool_decide_unpack _). by vm_compute.
  - cbn [map raws concat]. rewrite app_nil_r. apply take_drop.
  - cbn. eexists _, _. split; [reflexivity|]. split; [by vm_compute|done].
  - repeat constructor; by vm_compute.
  - repeat constructor.
  - exists s1, s2. split; [exact H1|exact H2].
Defined.
