(* ===== verification/ApiTypes.v ===== *)
(** The public types and errors of the package ([src/types.go], [errors.go],
    [sense.go]) and the addresses of [Dial] ([uiscsi.go]). *)
From S2P Require Import Prelude Errors Bhs Text GoIO Chan Types Parse Sense Responses.
From S2P Require Loops.
#[local] Open Scope string_scope.
#[local] Open Scope list_scope.
#[local] Open Scope Z_scope.

(** ** LUNs and device types *)

Definition DecodeLUN (raw : Z) : Z :=
  let method := Z.land (Z.shiftr raw 62) 0x03 in
  if method =? 0x00 then Z.land (Z.shiftr raw 48) 0xFF
  else if method =? 0x01 then Z.land (Z.shiftr raw 48) 0x3FFF
  else Z.land (Z.shiftr raw 48) 0xFFFF.

Definition deviceTypeNames : list string :=
  ["disk"; "tape"; "printer"; "processor"; "worm"; "cd/dvd"; "scanner"; "optical"; "media changer";
   "communications"; ""; ""; "storage"; "enclosure"; "disk"; "osd"; ""; "osd"; ""; ""; ""; ""; ""; ""; ""; "";
   ""; ""; ""; ""; "wlun"; "unknown"].

Definition DeviceTypeName (code : Z) : string :=
  match deviceTypeNames !! Z.to_nat code with
  | None => "unknown"
  | Some name => if String.eqb name "" then "unknown" else name
  end.

(** ** Public values *)

Record Portal := mkPortal { pt_Address : string; pt_Port : Z; pt_GroupTag : Z }.
Record Target := mkTarget { tg_Name : string; tg_Portals : list Portal }.
Record RawResult := mkRawResult { rr_Status : Z; rr_Data : bytes; rr_SenseData : bytes }.
Record InquiryData := mkInquiryData {
  id_DeviceType : Z; id_VendorID : string; id_ProductID : string; id_Revision : string }.
Record Capacity := mkCapacity { cp_LBA : Z; cp_BlockSize : Z; cp_LogicalBlocks : Z }.
Record SenseInfo := mkSenseInfo {
  si_Key : Z; si_ASC : Z; si_ASCQ : Z; si_Description : string; si_Filemark : bool; si_EOM : bool;
  si_ILI : bool; si_Information : Z; si_InformationValid : bool }.
Record TMFResult := mkTMFResult { tr_Response : Z }.
Record AsyncEvent := mkAsyncEvent {
  ev_EventCode : Z; ev_VendorCode : Z; ev_Parameter1 : Z; ev_Parameter2 : Z; ev_Parameter3 : Z; ev_Data : bytes }.
Record MetricEvent := mkMetricEvent {
  mv_Type : Loops.MetricEventType; mv_OpCode : Z; mv_Bytes : Z; mv_Latency : Z }.
Record UnmapBlockDescriptor := mkUnmapBlockDescriptor { ud_LBA : Z; ud_Blocks : Z }.

(** ** Conversions *)

Definition convertTarget (dt : DiscoveryTarget) : Target :=
  mkTarget (dt_Name dt) (map (fun p => mkPortal (po_Address p) (po_Port p) (po_GroupTag p)) (dt_Portals dt)).
Definition convertInquiry (r : InquiryResponse) : InquiryData :=
  mkInquiryData (iq_PeripheralDeviceType r) (iq_Vendor r) (iq_Product r) (iq_Revision r).
Definition convertCapacity16 (r : ReadCapacity16Response) : Capacity :=
  mkCapacity (rc16_LastLBA r) (rc16_BlockSize r) (uint64 (rc16_LastLBA r + 1)).
Definition convertCapacity10 (r : ReadCapacity10Response) : Capacity :=
  mkCapacity (rc10_LastLBA r) (rc10_BlockSize r) (uint64 (rc10_LastLBA r + 1)).
Definition convertSense (sd : SenseData) : SenseInfo :=
  mkSenseInfo (sd_Key sd) (sd_ASC sd) (sd_ASCQ sd) (SenseData_String sd) (sd_Filemark sd) (sd_EOM sd)
    (sd_ILI sd) (sd_Information sd) (sd_Valid sd).
Definition convertTMFResult (r : Types.TMFResult) : TMFResult := mkTMFResult (Types.tmf_Response r).
Definition convertAsyncEvent (ae : Types.AsyncEvent) : AsyncEvent :=
  mkAsyncEvent (ae_EventCode ae) (ae_VendorCode ae) (ae_Parameter1 ae) (ae_Parameter2 ae) (ae_Parameter3 ae)
    (ae_Data ae).
Definition convertMetricEvent (me : Loops.MetricEvent) : MetricEvent :=
  mkMetricEvent (Loops.me_Type me) (uint8 (Loops.me_OpCode me)) (Loops.me_Bytes me) (Loops.me_Latency me).

(** ** Errors *)

Definition SCSIError_Error (e : SCSIError) : string :=
  if String.eqb (se_Message e) "" then Sprintf "scsi: status 0x%02X" [se_Status e]
  else Sprintf "scsi: status 0x%02X: " [se_Status e] +:+ se_Message e.
Definition TransportError_Error (op : string) (err : error) : string :=
  "iscsi " +:+ op +:+ ": " +:+ error_text err.
Definition AuthError_Error (e : AuthError) : string :=
  "iscsi auth: " +:+ ae_Message e +:+ Sprintf " (class=%d detail=%d)" [ae_StatusClass e; ae_StatusDetail e].

(** [&SCSIError{Status: ..., SenseKey: ...}] from parsed sense data *)
Definition sense_error (status : Z) (sd : SenseData) : SCSIError :=
  mkSCSIError status (sd_Key sd) (sd_ASC sd) (sd_ASCQ sd) (SenseData_String sd).

Definition wrapSCSIError (err : error) : error :=
  match errors_As as_CommandError err with
  | None => err
  | Some ce =>
      ESCSI (match ce_Sense ce with
             | Some sd => sense_error (ce_Status ce) sd
             | None => mkSCSIError (ce_Status ce) 0 0 0 ""
             end)
  end.

Definition wrapTransportError (op : string) (err : error) : error := ETransport op err.

Definition wrapAuthError (err : error) : error :=
  match errors_As as_LoginError err with
  | Some le => EAuth (mkAuthError (le_StatusClass le) (le_StatusDetail le) (le_Message le))
  | None => ETransport "login" err
  end.

(** The error of a status that is not GOOD *)
Definition status_SCSIError (status : Z) (senseData : bytes) : PR SCSIError :=
  if Nat.ltb 0 (length senseData) then
    match ParseSense senseData with
    | None => panic
    | Some (Ok sd) => mret (sense_error status sd)
    | Some (Err parseErr) =>
        mret (mkSCSIError status 0 0 0 ("sense data present but unparseable: " +:+ error_text parseErr))
    end
  else mret (mkSCSIError status 0 0 0 "").

(** The error is the result: [Ok] is nil. *)
Definition CheckStatus (status : Z) (senseData : bytes) : PR () :=
  if status =? 0 then mret ()
  else se ← status_SCSIError status senseData; fail (ESCSI se).

Definition ParseSenseData (raw : bytes) : PR (option SenseInfo) :=
  if Nat.eqb (length raw) 0 then mret None
  else sd ← ParseSense raw; mret (Some (convertSense sd)).

(** ** Addresses *)

(** The position of the last byte [sep] *)
Fixpoint last_index (sep : Z) (l : bytes) : option nat :=
  match l with
  | [] => None
  | b :: l =>
    match last_index sep l with
    | Some i => Some (S i)
    | None => if b =? sep then Some O else None
    end
  end.
Definition index (sep : Z) (l : bytes) : option nat := fst <$> list_find (fun b => b = sep) l.
Definition contains (sep : Z) (l : bytes) : bool := bool_decide (is_Some (index sep l)).

(** [net.SplitHostPort]: host and port, or [None] for its error *)
Definition SplitHostPort (hostport : bytes) : option (bytes * bytes) :=
  match last_index 58 hostport with
  | None => None
  | Some i =>
    let port := drop (S i) hostport in
    if match hostport with b :: _ => b =? 91 | [] => false end then
      match index 93 hostport with
      | None => None
      | Some end_ =>
        if Nat.eqb (S end_) i then
          if contains 91 (drop 1 hostport) || contains 93 (drop (S end_) hostport) then None
          else Some (sub 1 (end_ - 1) hostport, port)
        else None
      end
    else
      let host := take i hostport in
      if contains 58 host || contains 91 hostport || contains 93 hostport then None else Some (host, port)
  end.

(** [net.JoinHostPort] *)
Definition JoinHostPort (host port : bytes) : bytes :=
  if contains 58 host then [91] ++ host ++ [93; 58] ++ port else host ++ [58] ++ port.

Definition normalizePortal (addr : bytes) : bytes :=
  match SplitHostPort addr with
  | None => JoinHostPort addr (to_bytes "3260")
  | Some _ => addr
  end.

(** ** Lemmas *)

Lemma status_SCSIError_returns status senseData : returns (status_SCSIError status senseData).
Proof.
  unfold status_SCSIError. destruct (Nat.ltb _ _); [|done]. pose proof (ParseSense_returns senseData) as H.
  by destruct (ParseSense senseData) as [[]|].
Qed.

Lemma last_index_none sep l : sep ∉ l -> last_index sep l = None.
Proof.
  induction l as [|b l IH]; intros H; [done|]. apply not_elem_of_cons in H as [Hb H]. cbn.
  rewrite IH by done. by rewrite (proj2 (Z.eqb_neq b sep)).
Qed.

Lemma last_index_last sep l p : sep ∉ p -> last_index sep (l ++ sep :: p) = Some (length l).
Proof.
  intros H. induction l as [|b l IH]; cbn; [|by rewrite IH].
  by rewrite last_index_none, Z.eqb_refl.
Qed.

Lemma contains_elem sep l : contains sep l = true <-> sep ∈ l.
Proof.
  unfold contains, index. rewrite bool_decide_eq_true. rewrite fmap_is_Some. split.
  - intros [[i x] H]. apply list_find_Some in H as (H & -> & _). by eapply list_elem_of_lookup_2.
  - intros H. by apply (list_find_elem_of _ _ sep).
Qed.

Lemma contains_false sep l : sep ∉ l -> contains sep l = false.
Proof. intros H. apply not_true_iff_false. by rewrite contains_elem. Qed.

Lemma contains_absent sep l : contains sep l = false -> sep ∉ l.
Proof. intros H Hin. apply contains_elem in Hin. congruence. Qed.

Lemma index_first sep l p : sep ∉ l -> index sep (l ++ sep :: p) = Some (length l).
Proof.
  intros H. unfold index.
  assert (list_find (fun b => b = sep) (l ++ sep :: p) = Some (length l, sep)) as ->; [|done].
  apply list_find_Some. split; [by rewrite list_lookup_middle|]. split; [done|].
  intros j y Hj Hlt ->. apply H. rewrite lookup_app_l in Hj by done.
  by eapply list_elem_of_lookup_2.
Qed.

(** ** Specification: the addresses a caller may give *)

Inductive address :=
  | Host (host : bytes) | HostPort (host port : bytes)
  | V6 (addr : bytes) | V6Port (addr port : bytes)   (* [addr]:port *)
  | V6Bracketed (addr : bytes).                       (* [addr] *)

Definition address_text (a : address) : bytes :=
  match a with
  | Host host => host
  | HostPort host port => host ++ [58] ++ port
  | V6 addr => addr
  | V6Port addr port => [91] ++ addr ++ [93; 58] ++ port
  | V6Bracketed addr => [91] ++ addr ++ [93]
  end.

(** No colon and no bracket *)
Definition plain (l : bytes) : Prop := (58 ∉ l) /\ (91 ∉ l) /\ (93 ∉ l).
(** An IPv6 address: at least two colons, no brackets *)
Definition v6 (l : bytes) : Prop := (91 ∉ l) /\ (93 ∉ l) /\ exists a b c, l = a ++ 58 :: b ++ 58 :: c /\ (58 ∉ c).

Definition address_ok (a : address) : Prop :=
  match a with
  | Host host => plain host
  | HostPort host port => plain host /\ plain port
  | V6 addr | V6Bracketed addr => v6 addr
  | V6Port addr port => v6 addr /\ plain port
  end.

(** The host and the port that are dialled, if the address is valid *)
Definition dialled (a : address) : option (bytes * bytes) :=
  match a with
  | Host host => Some (host, to_bytes "3260")
  | HostPort host port => Some (host, port)
  | V6 addr => Some (addr, to_bytes "3260")
  | V6Port addr port => Some (addr, port)
  | V6Bracketed _ => None
  end.

Ltac not_in :=
  rewrite ?not_elem_of_app, ?not_elem_of_cons; repeat split; first [done | apply not_elem_of_nil | tauto].

Lemma drop_after l (sep : Z) p : drop (S (length l)) (l ++ sep :: p) = p.
Proof. rewrite (cons_middle sep), app_assoc, drop_app_length' by (rewrite length_app; cbn; lia). done. Qed.

(** The port follows the last colon; without brackets, the host precedes it. *)
Lemma SplitHostPort_plain host port : 91 ∉ host -> 93 ∉ host -> plain port ->
  SplitHostPort (host ++ [58] ++ port) = if contains 58 host then None else Some (host, port).
Proof.
  intros H2 H3 (P1 & P2 & P3). unfold SplitHostPort. cbn [app]. rewrite last_index_last by done.
  rewrite take_app_length, drop_after.
  assert (match host ++ 58 :: port with b :: _ => b =? 91 | [] => false end = false) as ->.
  { destruct host as [|b host]; [done|]. cbn. apply Z.eqb_neq. intros ->. apply H2. left. }
  rewrite (contains_false 91), (contains_false 93) by not_in. by rewrite !orb_false_r.
Qed.

Lemma SplitHostPort_bracketed addr port : 91 ∉ addr -> 93 ∉ addr -> plain port ->
  SplitHostPort ([91] ++ addr ++ [93; 58] ++ port) = Some (addr, port).
Proof.
  intros H2 H3 (P1 & P2 & P3). unfold SplitHostPort.
  replace ([91] ++ addr ++ [93; 58] ++ port) with ((91 :: addr ++ [93]) ++ 58 :: port)
    by (cbn; by rewrite <- app_assoc).
  rewrite last_index_last by done. rewrite drop_after. cbn [app]. rewrite Z.eqb_refl.
  replace (91 :: (addr ++ [93]) ++ 58 :: port) with ((91 :: addr) ++ 93 :: 58 :: port)
    by (cbn; by rewrite <- app_assoc).
  rewrite index_first by not_in. cbn [length]. rewrite length_app. cbn [length].
  rewrite (proj2 (Nat.eqb_eq _ _)) by lia. cbn [app drop]. rewrite drop_0.
  rewrite (contains_false 91), drop_after, (contains_false 93) by not_in. cbn [orb].
  replace (S (length addr) - 1)%nat with (length addr) by lia.
  assert (sub 1 (length addr) (91 :: addr ++ 93 :: 58 :: port) = addr) as ->; [|done].
  unfold sub. cbn [drop]. by rewrite drop_0, take_app_length.
Qed.

Lemma SplitHostPort_no_port host : 58 ∉ host -> SplitHostPort host = None.
Proof. intros H. unfold SplitHostPort. by rewrite last_index_none. Qed.

Lemma v6_contains l : v6 l -> contains 58 l = true /\ SplitHostPort l = None.
Proof.
  intros (H2 & H3 & a & b & c & -> & Hc). split.
  - apply contains_elem. apply elem_of_app. right. left.
  - replace (a ++ 58 :: b ++ 58 :: c) with ((a ++ 58 :: b) ++ [58] ++ c) by by rewrite <- app_assoc.
    rewrite not_elem_of_app, not_elem_of_cons, not_elem_of_app, not_elem_of_cons in H2, H3.
    rewrite SplitHostPort_plain; [|not_in|not_in|split; [done|tauto]].
    assert (contains 58 (a ++ 58 :: b) = true) as ->; [|done].
    apply contains_elem, elem_of_app. right. left.
Qed.

(** The entries that the list parsers return were read from the data. *)
Lemma entries_loop_Forall {A} (P : A -> Prop) (read : bytes -> A) n data :
  (forall b, bytes_ok b -> P (read b)) -> bytes_ok data ->
  forall fuel i l, entries_loop fuel read i n data = Some (Ok l) -> Forall P l.
Proof.
  intros Hread Hb. induction fuel as [|fuel IH]; intros i l; cbn [entries_loop].
  - destruct (_ <? _); [done|]. intros [= <-]. constructor.
  - destruct (_ <? _); [|intros [= <-]; constructor].
    destruct (_ >? _); [intros [= <-]; constructor|].
    unfold slice, mbind, PR_bind, mret, PR_ret. destruct (_ && _); [|done].
    destruct (entries_loop fuel _ _ _ _) as [[l'|]|] eqn:E; [|done|done].
    intros [= <-]. constructor; [|by eapply IH].
    apply Hread. by apply Forall_sub.
Qed.

Lemma DecodeSAMLUN_u16 b : bytes_ok b -> u16 (DecodeSAMLUN b).
Proof.
  intros Hb. unfold DecodeSAMLUN. destruct (Nat.ltb_spec (length b) 2); [unfold in_width; lia|].
  by apply (get_be_width 2).
Qed.

(** [DecodeLUN] in terms of the first two bytes *)
Lemma DecodeLUN_fields hi lo rest : u8 hi -> u8 lo -> in_width 48 rest ->
  DecodeLUN ((hi * 256 + lo) * 2 ^ 48 + rest)
  = if hi / 64 =? 0 then lo else if hi / 64 =? 1 then hi mod 64 * 256 + lo else hi * 256 + lo.
Proof.
  unfold in_width. intros Hh Hl Hr. unfold DecodeLUN.
  change 0x03 with (Z.ones 2). change 0xFFFF with (Z.ones 16). change 0xFF with (Z.ones 8).
  change 0x3FFF with (Z.ones 14). rewrite !Z.shiftr_div_pow2, !Z.land_ones by lia.
  assert (E : ((hi * 256 + lo) * 2 ^ 48 + rest) / 2 ^ 48 = hi * 256 + lo).
  { rewrite Z.div_add_l by lia. rewrite (Z.div_small rest) by lia. lia. }
  assert (E2 : ((hi * 256 + lo) * 2 ^ 48 + rest) / 2 ^ 62 = hi / 64).
  { change (2 ^ 62) with (2 ^ 48 * 2 ^ 14). rewrite <- Z.div_div, E by lia. Z.div_mod_to_equations. lia. }
  rewrite E, E2, (Z.mod_small (hi / 64)) by (Z.div_mod_to_equations; lia).
  destruct (Z.eqb_spec (hi / 64) 0); [Z.div_mod_to_equations; lia|].
  destruct (Z.eqb_spec (hi / 64) 1); Z.div_mod_to_equations; lia.
Qed.

Lemma DecodeLUN_small z : u16 z -> DecodeLUN z = 0.
Proof.
  intros Hz. unfold in_width in Hz. replace z with ((0 * 256 + 0) * 2 ^ 48 + z) by lia.
  by rewrite DecodeLUN_fields by (unfold in_width; lia).
Qed.

(** ** Properties *)

(** [DecodeLUN] reads the LUN number of a SAM LUN's eight bytes, by its address
    method; but a LUN that [ReportLuns] returns is a number already, and
    [DecodeLUN] makes LUN 0 of every one of them. *)
Theorem DecodeLUN_reported :
  (forall hi lo rest, u8 hi -> u8 lo -> in_width 48 rest ->
    DecodeLUN ((hi * 256 + lo) * 2 ^ 48 + rest)
    = if hi / 64 =? 0 then lo else if hi / 64 =? 1 then hi mod 64 * 256 + lo else hi * 256 + lo) /\
  (forall result luns, response_ok result -> ParseReportLuns result = Some (Ok luns) ->
    Forall (fun lun => DecodeLUN lun = 0) luns).
Proof.
  split; [apply DecodeLUN_fields|]. intros result luns Hok H. unfold ParseReportLuns in H.
  destruct (checkResult result) as [[data|]|] eqn:Hc; [|done|done].
  destruct (Hok data Hc) as [Hb _]. rewrite (PR_bind_Ok _ _ _ eq_refl) in H.
  destruct (need _ _ _) as [[]|]; [|done|done]. rewrite (PR_bind_Ok _ _ _ eq_refl) in H.
  destruct (slice_be 4 0 data) as [[n|]|]; [|done|done]. rewrite (PR_bind_Ok _ _ _ eq_refl) in H.
  eapply entries_loop_Forall; [|exact Hb|exact H]. intros b Hbb. by apply DecodeLUN_small, DecodeSAMLUN_u16.
Qed.

(** [Dial] connects to the host and port its caller means, with the port 3260
    when none is given, for names, IPv4 addresses, bare IPv6 addresses, and
    bracketed ones with a port.  A bracketed IPv6 address without a port is the
    exception: it is bracketed once more, and no host can be read back. *)
Theorem normalizePortal_dials (a : address) : address_ok a ->
  SplitHostPort (normalizePortal (address_text a)) = dialled a.
Proof.
  assert (Hport : plain (to_bytes "3260")) by (repeat split; apply contains_absent; reflexivity).
  unfold normalizePortal, JoinHostPort. destruct a as [h|h p|v|v p|v]; cbn [address_ok address_text dialled].
  - intros (H1 & H2 & H3). rewrite (SplitHostPort_no_port h), contains_false by done.
    by rewrite SplitHostPort_plain, contains_false.
  - intros [(H1 & H2 & H3) Hp]. rewrite SplitHostPort_plain, contains_false by done.
    by rewrite SplitHostPort_plain, contains_false.
  - intros Hv. destruct (v6_contains v Hv) as [-> ->]. destruct Hv as (H2 & H3 & _).
    by apply SplitHostPort_bracketed.
  - intros [(H2 & H3 & _) Hp]. by rewrite !SplitHostPort_bracketed.
  - intros Hv. destruct (v6_contains v Hv) as [Hc _]. pose proof Hv as (H2 & H3 & x & y & z & Hvz & Hz).
    assert (H1 : SplitHostPort ([91] ++ v ++ [93]) = None).
    { unfold SplitHostPort. replace ([91] ++ v ++ [93]) with ((91 :: x ++ 58 :: y) ++ 58 :: z ++ [93])
        by (rewrite Hvz; cbn; by rewrite <- !app_assoc; cbn; rewrite <- !app_assoc).
      rewrite last_index_last by not_in. cbn [app]. rewrite Z.eqb_refl.
      replace (91 :: (x ++ 58 :: y) ++ 58 :: z ++ [93]) with ((91 :: v) ++ 93 :: [])
        by (rewrite Hvz; cbn; by rewrite <- !app_assoc; cbn; rewrite <- !app_assoc).
      rewrite index_first by not_in. rewrite (proj2 (Nat.eqb_neq _ _)); [done|].
      rewrite Hvz. cbn. rewrite !length_app. cbn. rewrite length_app. cbn. lia. }
    rewrite H1. assert (contains 58 ([91] ++ v ++ [93]) = true) as ->.
    { apply contains_elem in Hc. apply contains_elem. apply elem_of_app. right. apply elem_of_app. by left. }
    unfold SplitHostPort.
    replace ([91] ++ ([91] ++ v ++ [93]) ++ [93; 58] ++ to_bytes "3260")
      with ((91 :: 91 :: v ++ [93; 93]) ++ 58 :: to_bytes "3260") by (cbn; by rewrite <- !app_assoc).
    rewrite last_index_last by apply Hport. cbn [app]. rewrite Z.eqb_refl.
    replace (91 :: 91 :: (v ++ [93; 93]) ++ 58 :: to_bytes "3260") with ((91 :: 91 :: v) ++ 93 :: 93 :: 58 :: to_bytes "3260")
      by (cbn; by rewrite <- !app_assoc).
    rewrite index_first by not_in. rewrite (proj2 (Nat.eqb_neq _ _)); [done|].
    cbn. rewrite length_app. cbn. lia.
Qed.

Lemma normalizePortal_dials_witness :
  let a := V6Port (to_bytes "fe80::1") (to_bytes "3260") in
  address_ok a /\ SplitHostPort (normalizePortal (address_text a)) = dialled a.
Proof.
  intros a. assert (H : address_ok a).
  { split; [|repeat split; apply contains_absent; reflexivity].
    split; [apply contains_absent; reflexivity|]. split; [apply contains_absent; reflexivity|].
    exists (to_bytes "fe80"), [], (to_bytes "1"). split; [reflexivity|]. apply contains_absent. reflexivity. }
  split; [exact H|]. exact (normalizePortal_dials a H).
Defined.
