(* ===== verification/Api.v ===== *)
(** The calls of a session ([src/session.go], [scsi_ops.go], [raw_ops.go],
    [tmf_ops.go], [protocol_ops.go], [StreamResult] of [types.go]).

    A call submits a command, waits while the other goroutines of the session act,
    and interprets the result; [Call] says what happens during it.  A method that
    issues two commands takes two of them. *)
From S2P Require Import Prelude Errors Bhs PduTactics PduInitiator PduTarget Pdu GoIO Digest Framer.
From S2P Require Import Chan Serial Router Text Negotiation CmdWindow Config Types Task Reassembly DataOut Session.
From S2P Require Import Unsolicited Lifecycle TaskLoop Parse Sense Responses ApiTypes.
From S2P Require Cdb.
#[local] Open Scope string_scope.
#[local] Open Scope list_scope.
#[local] Open Scope Z_scope.

(** ** Fallible operations on a session *)

(** A parser's value, its error as [wrap] changes it; its panic is the caller's *)
Definition parsed {A} (wrap : error -> error) (m : PR A) : SS (res A) :=
  match m with
  | None => SM_panic
  | Some (Ok a) => mret (Ok a)
  | Some (Err e) => mret (Err (wrap e))
  end.

(** [_, err := m; return err] *)
Definition only_err {A} (m : SS (res A)) : SS (option error) :=
  r ← m; mret (match r with Ok _ => None | Err e => Some e end).

(** ** Submitting and waiting *)

(** The contexts at the waits of [Submit], what the other goroutines do until the
    wait for the result ends, and whether the context ends it *)
Record Call := mkCall { ca_acquire : CtxSched; ca_send : CtxSched; ca_others : SS (); ca_done : bool }.

(** [<-resultCh] of the task at [id]; a closed channel gives [Result{}]. *)
Definition receive_result (id : nat) : SS Result := fun s =>
  match ss_objs s !! id with
  | None => Panics
  | Some t =>
    match recv (tk_resultCh t) with
    | None => Blocks
    | Some (r, c) =>
        Done (default (mkResult 0 [] None false false 0 None) r,
              set_objs (<[id := set_tk_resultCh c t]> (ss_objs s)) s)
    end
  end.

Definition submitAndWait (c : Call) (cmd : Command) : SS (res Result) :=
  submitted ← Submit (ca_acquire c) (ca_send c) cmd;
  match submitted with
  | Err e => mret (Err (wrapTransportError "submit" e))
  | Ok id =>
      _ ← ca_others c;
      if ca_done c then mret (Err ErrCtx)
      else result ← receive_result id; mret (Ok result)
  end.

(** [submitAndCheck] from the result on *)
Definition check_result (result : Result) : PR bytes :=
  match rs_Err result with
  | Some e => fail (wrapTransportError "command" e)
  | None =>
    if negb (rs_Status result =? 0) then
      se ← status_SCSIError (rs_Status result) (rs_SenseData result); fail (ESCSI se)
    else if rs_Overflow result then
      fail (ESCSI (mkSCSIError (rs_Status result) 0 0 0
        (Sprintf "residual overflow: %d bytes" [rs_ResidualCount result])))
    else
      match rs_Data result with
      | Some r => readAll r
      | None => mret []
      end
  end.

Definition submitAndCheck (c : Call) (cmd : Command) : SS (res bytes) :=
  result ⇐ submitAndWait c cmd; parsed id (check_result result).

(** ** SCSIOps *)

Definition ReadBlocks (c : Call) (lun lba blocks blockSize : Z) : SS (res bytes) :=
  submitAndCheck c (Cdb.Read16 lun lba blocks blockSize []).

Definition WriteBlocks (c : Call) (lun lba blocks blockSize : Z) (data : bytes) : SS (option error) :=
  only_err (submitAndCheck c (Cdb.Write16 lun lba blocks blockSize (NewReader data) [])).

Definition Inquiry (c : Call) (lun : Z) : SS (res InquiryData) :=
  result ⇐ submitAndWait c (Cdb.Inquiry lun 255);
  resp ⇐ parsed wrapSCSIError (ParseInquiry result);
  mret (Ok (convertInquiry resp)).

Definition ReadCapacity (c c10 : Call) (lun : Z) : SS (res Capacity) :=
  result ⇐ submitAndWait c (Cdb.ReadCapacity16 lun 32);
  match ParseReadCapacity16 result with
  | None => SM_panic
  | Some (Ok resp16) => mret (Ok (convertCapacity16 resp16))
  | Some (Err _) =>
      result10 ⇐ submitAndWait c10 (Cdb.ReadCapacity10 lun);
      resp10 ⇐ parsed wrapSCSIError (ParseReadCapacity10 result10);
      mret (Ok (convertCapacity10 resp10))
  end.

Definition TestUnitReady (c : Call) (lun : Z) : SS (option error) :=
  only_err (submitAndCheck c (Cdb.TestUnitReady lun)).

Definition RequestSense (c : Call) (lun : Z) : SS (res (option SenseInfo)) :=
  data ⇐ submitAndCheck c (Cdb.RequestSense lun 252);
  if Nat.eqb (length data) 0 then mret (Ok None)
  else sd ⇐ parsed id (ParseSense data); mret (Ok (Some (convertSense sd))).

Definition ReportLuns (c : Call) : SS (res (list Z)) :=
  result ⇐ submitAndWait c (Cdb.ReportLuns 1024);
  parsed wrapSCSIError (ParseReportLuns result).

Definition ModeSense6 (c : Call) (lun pageCode subPageCode : Z) : SS (res bytes) :=
  submitAndCheck c (Cdb.ModeSense6 lun pageCode subPageCode 255 []).
Definition ModeSense10 (c : Call) (lun pageCode subPageCode : Z) : SS (res bytes) :=
  submitAndCheck c (Cdb.ModeSense10 lun pageCode subPageCode 1024 []).
Definition ModeSelect6 (c : Call) (lun : Z) (data : bytes) : SS (option error) :=
  only_err (submitAndCheck c (Cdb.ModeSelect6 lun data)).
Definition ModeSelect10 (c : Call) (lun : Z) (data : bytes) : SS (option error) :=
  only_err (submitAndCheck c (Cdb.ModeSelect10 lun data)).

Definition SynchronizeCache (c : Call) (lun : Z) : SS (option error) :=
  only_err (submitAndCheck c (Cdb.SynchronizeCache16 lun 0 0 [])).
Definition Verify (c : Call) (lun lba blocks : Z) : SS (option error) :=
  only_err (submitAndCheck c (Cdb.Verify16 lun lba blocks [])).
Definition WriteSame (c : Call) (lun lba blocks blockSize : Z) (data : bytes) : SS (option error) :=
  only_err (submitAndCheck c (Cdb.WriteSame16 lun lba blocks blockSize (NewReader data) [])).
Definition Unmap (c : Call) (lun : Z) (descriptors : list UnmapBlockDescriptor) : SS (option error) :=
  only_err (submitAndCheck c
    (Cdb.Unmap lun (map (fun d => Cdb.mkUnmap (ud_LBA d) (ud_Blocks d)) descriptors) [])).
Definition CompareAndWrite (c : Call) (lun lba blocks blockSize : Z) (data : bytes) : SS (option error) :=
  only_err (submitAndCheck c (Cdb.CompareAndWrite lun lba blocks blockSize (NewReader data))).
Definition StartStopUnit (c : Call) (lun powerCondition : Z) (start loadEject : bool) : SS (option error) :=
  only_err (submitAndCheck c (Cdb.StartStopUnit lun powerCondition start loadEject [])).
Definition PersistReserveIn (c : Call) (lun serviceAction : Z) : SS (res bytes) :=
  submitAndCheck c (Cdb.PersistReserveIn lun serviceAction 1024).
Definition PersistReserveOut (c : Call) (lun serviceAction scopeType key saKey : Z) : SS (option error) :=
  only_err (submitAndCheck c (Cdb.PersistReserveOut lun serviceAction scopeType key saKey)).

(** ** RawOps *)

Record executeConfig := mkExecuteConfig { ec_dataInLen : Z; ec_dataOut : option Reader; ec_dataOutLen : Z }.
Definition ExecuteOption : Type := executeConfig -> executeConfig.
Definition WithDataIn (allocLen : Z) : ExecuteOption := fun c =>
  mkExecuteConfig allocLen (ec_dataOut c) (ec_dataOutLen c).
Definition WithDataOut (r : Reader) (len : Z) : ExecuteOption := fun c =>
  mkExecuteConfig (ec_dataInLen c) (Some r) len.

(** The command of [execute] and [streamExecute] *)
Definition raw_command (lun : Z) (cdb : bytes) (opts : list ExecuteOption) : res Command :=
  let cfg := fold_left (fun c o => o c) opts (mkExecuteConfig 0 None 0) in
  if Nat.eqb (length cdb) 0 then Err (Errorf "iscsi execute: empty CDB" [])
  else if Nat.ltb 16 (length cdb) then
    Err (Errorf "iscsi execute: CDB length %d exceeds maximum 16 bytes (AHS Extended CDB not yet supported)"
           [Z.of_nat (length cdb)])
  else
    let isRead := 0 <? ec_dataInLen cfg in
    let len := if isRead then ec_dataInLen cfg else 0 in
    Ok (mkCommand (Prelude.upd 0 cdb (zeros 16)) isRead (bool_decide (is_Some (ec_dataOut cfg)))
          (match ec_dataOut cfg with Some _ => ec_dataOutLen cfg | None => len end) lun 0 (ec_dataOut cfg)).

Definition execute (c : Call) (lun : Z) (cdb : bytes) (opts : list ExecuteOption) : SS (res RawResult) :=
  match raw_command lun cdb opts with
  | Err e => mret (Err e)
  | Ok cmd =>
    result ⇐ submitAndWait c cmd;
    match rs_Err result with
    | Some e => mret (Err (wrapTransportError "execute" e))
    | None =>
      match rs_Data result with
      | None => mret (Ok (mkRawResult (rs_Status result) [] (rs_SenseData result)))
      | Some r =>
          data ⇐ parsed (wrapTransportError "read") (readAll r);
          mret (Ok (mkRawResult (rs_Status result) data (rs_SenseData result)))
      end
    end
  end.

(** The task whose result channel [Wait] receives from, and whether [Data] is not
    nil: it is the task's stream then. *)
Record StreamResult := mkStreamResult { sr_task : nat; sr_hasData : bool }.

Definition streamExecute (cx cx' : CtxSched) (lun : Z) (cdb : bytes) (opts : list ExecuteOption)
    : SS (res StreamResult) :=
  match raw_command lun cdb opts with
  | Err e => mret (Err e)
  | Ok cmd =>
    submitted ← SubmitStreaming cx cx' cmd;
    match submitted with
    | Err e => mret (Err (wrapTransportError "submit" e))
    | Ok id => tk ← task_at id; mret (Ok (mkStreamResult id (bool_decide (is_Some (tk_dataReader tk)))))
    end
  end.

(** Status and sense data *)
Definition Wait (sr : StreamResult) : SS (res (Z * bytes)) :=
  r ← receive_result (sr_task sr);
  mret (match rs_Err r with
        | Some e => Err e
        | None => Ok (rs_Status r, rs_SenseData r)
        end).

Definition WaitResidual (sr : StreamResult) : SS (res (Z * bytes * Z * bool)) :=
  r ← receive_result (sr_task sr);
  mret (match rs_Err r with
        | Some e => Err e
        | None => Ok (rs_Status r, rs_SenseData r, rs_ResidualCount r, rs_Underflow r)
        end).

(** ** TMFOps and ProtocolOps *)

(** The context at the send, the other goroutines, the end of the wait *)
Record Request := mkRequest { rq_send : CtxSched; rq_others : SS (); rq_wait : WaitSched }.

(** A task management method of the session, as [TMFOps] returns its result *)
Definition tmf (q : Request) (request : CtxSched -> SS (res (Z * nat)))
    (wait : WaitSched -> Z -> nat -> SS (res Types.TMFResult)) : SS (res TMFResult) :=
  result ← (sent ⇐ request (rq_send q); _ ← rq_others q; wait (rq_wait q) sent.1 sent.2);
  mret (match result with
        | Err e => Err (wrapTransportError "tmf" e)
        | Ok r => Ok (convertTMFResult r)
        end).

Definition AbortTask (q : Request) (taskTag : Z) : SS (res TMFResult) :=
  tmf q (fun cx => AbortTask_send cx taskTag) (fun w itt ch => AbortTask_wait w itt ch taskTag).
Definition AbortTaskSet (q : Request) (lun : Z) : SS (res TMFResult) :=
  tmf q (fun cx => AbortTaskSet_send cx lun) (fun w itt ch => lunTMF_wait w itt ch lun).
Definition ClearTaskSet (q : Request) (lun : Z) : SS (res TMFResult) :=
  tmf q (fun cx => ClearTaskSet_send cx lun) (fun w itt ch => lunTMF_wait w itt ch lun).
Definition LUNReset (q : Request) (lun : Z) : SS (res TMFResult) :=
  tmf q (fun cx => LUNReset_send cx lun) (fun w itt ch => lunTMF_wait w itt ch lun).
Definition TargetWarmReset (q : Request) : SS (res TMFResult) := tmf q TargetWarmReset_send sendTMF_wait.
Definition TargetColdReset (q : Request) : SS (res TMFResult) := tmf q TargetColdReset_send sendTMF_wait.

Definition SendExpStatSNConfirmation : SS (option error) := Unsolicited.SendExpStatSNConfirmation.
Definition Logout := Lifecycle.Logout.

(** ** Specification *)

(** An error but for the message of a SCSI error *)
Definition forget_message (e : error) : error :=
  match e with
  | ESCSI se => ESCSI (mkSCSIError (se_Status se) (se_SenseKey se) (se_ASC se) (se_ASCQ se) "")
  | _ => e
  end.

Definition map_error {A} (f : error -> error) (m : PR A) : PR A :=
  match m with
  | Some (Err e) => Some (Err (f e))
  | _ => m
  end.

(** The three ways from a command's result to its data: of the methods that return
    data, of those that parse it, and of a caller of [Execute] who applies
    [CheckStatus] *)
Definition typed_data (r : Result) : PR bytes := check_result r.
Definition parsed_data (r : Result) : PR bytes := map_error wrapSCSIError (checkResult r).
Definition raw_data (r : Result) : PR bytes :=
  _ ← CheckStatus (rs_Status r) (rs_SenseData r);
  match rs_Data r with
  | Some rd => readAll rd
  | None => mret []
  end.

(** A command ended with a status, with its data in memory *)
Definition completed (r : Result) : Prop :=
  rs_Err r = None /\ (forall rd, rs_Data r = Some rd -> rd_err rd = EOF).

(** Its status is the device's verdict: no residual overflow hides behind GOOD. *)
Definition no_overflow (r : Result) : Prop := rs_Status r = 0 -> rs_Overflow r = false.

(** ** Lemmas *)

Lemma checkResult_error status sense : status <> 0 ->
  forall r, rs_Err r = None -> rs_Status r = status -> rs_SenseData r = sense ->
  (exists se m, status_SCSIError status sense = Some (Ok se) /\ checkResult r = Some (Err m) /\
    forget_message (wrapSCSIError m) = forget_message (ESCSI se) /\
    (sense = [] \/ sense_acceptable sense = true -> wrapSCSIError m = ESCSI se)).
Proof.
  intros Hs r He <- <-. unfold status_SCSIError, checkResult. rewrite He.
  change StatusGood with 0. rewrite (proj2 (Z.eqb_neq (rs_Status r) 0) Hs). cbn [negb].
  destruct (Nat.ltb_spec 0 (length (rs_SenseData r))) as [Hl|Hl].
  - destruct (ParseSense_result (rs_SenseData r)) as (p & -> & Hp). destruct p as [sd|e]; eexists _, _.
    + repeat (split; [reflexivity|]). done.
    + repeat (split; [reflexivity|]). intros [Hn|Ha]; [rewrite Hn in Hl; simpl in Hl; lia|]. rewrite Ha in Hp. done.
  - eexists _, _. repeat (split; [reflexivity|]). done.
Qed.

Lemma completed_data r : completed r ->
  match rs_Data r with Some rd => readAll rd | None => mret [] end
  = Some (Ok (match rs_Data r with Some rd => rd_bytes rd | None => [] end)).
Proof. intros [_ H]. destruct (rs_Data r) as [rd|]; [|done]. by rewrite readAll_ok, (H rd). Qed.

(** ** Properties *)

(** C17.  The three interpretations of a command's outcome agree: [CheckStatus]
    after [Execute] gives the data or the SCSI error of the typed methods, and the
    methods that parse their data give it too, up to the message when sense data is
    there but does not parse.  They part ways on a residual overflow with GOOD
    status, an error of status 0 for the first kind of method only. *)
Theorem status_errors_agree (r : Result) : completed r ->
  (no_overflow r ->
   raw_data r = typed_data r /\ map_error forget_message (parsed_data r) = map_error forget_message (typed_data r) /\
   (rs_SenseData r = [] \/ sense_acceptable (rs_SenseData r) = true -> parsed_data r = typed_data r)) /\
  (rs_Status r = 0 -> rs_Overflow r = true -> exists data,
   raw_data r = Some (Ok data) /\ parsed_data r = Some (Ok data) /\
   typed_data r = Some (Err (ESCSI (mkSCSIError 0 0 0 0
     (Sprintf "residual overflow: %d bytes" [rs_ResidualCount r]))))).
Proof.
  intros Hc. pose proof (completed_data r Hc) as Hd. destruct Hc as [He Hrd].
  destruct (decide (rs_Status r = 0)) as [Hs|Hs]; split.
  - intros Hn. unfold typed_data, check_result, raw_data, CheckStatus, parsed_data, checkResult.
    rewrite He, (Hn Hs), Hs. cbn [Z.eqb negb]. change (negb (0 =? StatusGood)) with false.
    change ((mret () : PR ()) ≫= fun _ => ?k) with k. cbv iota. rewrite Hd. by repeat split.
  - intros _ Ho. unfold typed_data, check_result, raw_data, CheckStatus, parsed_data, checkResult.
    rewrite He, Ho, Hs. cbn [Z.eqb negb]. change (negb (0 =? StatusGood)) with false. cbv iota.
    change ((mret () : PR ()) ≫= fun _ => ?k) with k. cbv iota. rewrite Hd. by eexists.
  - intros _. destruct (checkResult_error _ _ Hs r He eq_refl eq_refl) as (se & m & H1 & H2 & H3 & H4).
    unfold typed_data, check_result, raw_data, CheckStatus, parsed_data.
    rewrite He, H1, H2, (proj2 (Z.eqb_neq (rs_Status r) 0) Hs). cbn. split; [done|].
    split; [by rewrite H3|]. intros Ha. by rewrite H4.
  - done.
Qed.

Lemma status_errors_agree_witness :
  let r := mkResult 2 [0x72; 0x05; 0x24; 0x00; 0; 0; 0; 0] (Some (NewReader [])) false false 0 None in
  completed r /\ no_overflow r /\ parsed_data r = typed_data r /\
  typed_data r = Some (Err (ESCSI (mkSCSIError 2 5 0x24 0 "ILLEGAL REQUEST: Invalid field in CDB"))).
Proof.
  intros r. assert (Hc : completed r) by (split; [done|by intros rd [= <-]]).
  assert (Hn : no_overflow r) by done. split; [exact Hc|]. split; [exact Hn|].
  split; [|vm_compute; reflexivity].
  destruct (status_errors_agree r Hc) as [H _]. destruct (H Hn) as (_ & _ & H3). apply H3. right. reflexivity.
Defined.

(** ** Reading blocks *)

(** What the target sends while the caller waits for the next command *)
Definition target_sends (raws : list RawPDU) (s : Session) : SS () :=
  _ ← feed (next_itt s) (length (ss_objs s)) (next_ch s) raws; mret ().

(** The caller's view of the transfer of [parts] ended by [last] *)
Definition read_outcome (parts : list bytes) (last : DataIn) : res bytes :=
  if negb (DataIn_Status last =? 0) then Err (ESCSI (mkSCSIError (DataIn_Status last) 0 0 0 ""))
  else if DataIn_ResidualOverflow last then
    Err (ESCSI (mkSCSIError 0 0 0 0 (Sprintf "residual overflow: %d bytes" [DataIn_ResidualCount last])))
  else Ok (concat parts).

Lemma check_transfer parts pdu :
  check_result (transfer_result parts pdu) = Some (read_outcome parts (pdu (length parts - 1)%nat)).
Proof.
  unfold check_result, transfer_result, read_outcome, status_SCSIError. cbn.
  destruct (Z.eqb_spec (DataIn_Status (pdu (length parts - 1)%nat)) 0) as [->|]; [|done]. cbn.
  destruct (DataIn_ResidualOverflow _); [done|]. by rewrite app_nil_r.
Qed.

Lemma Read16_ok lun lba blocks bs : 0 <= lun <= 0xFFFF -> Command_ok (Cdb.Read16 lun lba blocks bs []).
Proof.
  intros Hl. split; [done|]. split; [by vm_compute|]. split; [by apply wrap_range|].
  split; [reflexivity|]. unfold Cdb.Read16, Cdb.data_in, put_be. cbn [cmd_CDB].
  repeat (apply Forall_upd; [apply be_bytes_ok|]). apply (bool_decide_unpack _). by vm_compute.
Qed.

(** Waiting for the result of a task that has one *)
Lemma receive_result_Done id s t r : ss_objs s !! id = Some t -> ch_buf (tk_resultCh t) = [r] ->
  exists s', receive_result id s = Done (r, s') /\ ss_tasks s' = ss_tasks s /\ ss_router s' = ss_router s.
Proof.
  intros Ho Hb. unfold receive_result, recv. rewrite Ho, Hb. by eexists.
Qed.

(** A call whose command gets its result *)
Lemma submitAndWait_Done c cmd id s s1 s2 t r : Submit (ca_acquire c) (ca_send c) cmd s = Done (Ok id, s1) ->
  ca_done c = false -> ca_others c s1 = Done ((), s2) ->
  ss_objs s2 !! id = Some t -> ch_buf (tk_resultCh t) = [r] ->
  exists s3, submitAndWait c cmd s = Done (Ok r, s3) /\ ss_tasks s3 = ss_tasks s2 /\ ss_router s3 = ss_router s2.
Proof.
  intros Hsub Hd Hoth Ho Hb. destruct (receive_result_Done id s2 t r Ho Hb) as (s3 & Hr & E).
  exists s3. split; [|exact E]. unfold submitAndWait. rewrite (SM_bind_Done _ _ _ _ _ Hsub).
  rewrite (SM_bind_Done _ _ _ _ _ Hoth), Hd. by rewrite (SM_bind_Done _ _ _ _ _ Hr).
Qed.

(** C7.  [ReadBlocks] end to end: on a session that can take a command it sends one
    READ(16) command that a device decodes to the blocks asked for, with the length
    [blocks * blockSize] modulo 2^32; and when the target answers with the data in
    Data-In PDUs in order, it returns exactly that data, or the SCSI error of the
    status or the residual overflow, and leaves no task behind. *)
Theorem ReadBlocks_end_to_end (s : Session) (lun lba blocks bs : Z) (cx cx' : CtxSched) (sn : Z)
    (w' : cmdWindow) (parts : list bytes) (raw : nat -> RawPDU) (din : nat -> DataIn) :
  let n := length parts in
  let pdu i := DataIn_with_Data (raw_DataSegment (raw i)) (din i) in
  ready sn w' s -> 0 <= lun <= 0xFFFF -> u64 lba -> u32 blocks ->
  (cx_done cx' && cx_pick cx') = false -> room 1 (ss_writeCh s) ->
  (0 < n)%nat -> Z.of_nat n < 2 ^ 32 -> Z.of_nat (length (concat parts)) < 2 ^ 32 ->
  (forall i, (i < n)%nat -> DecodeBHS (raw_BHS (raw i)) = Ok (PDataIn (din i))) ->
  (forall i, DataIn_DataSN (pdu i) = Z.of_nat i) ->
  (forall i, (i < n)%nat -> DataIn_BufferOffset (pdu i) = Z.of_nat (length (prefix parts i))) ->
  (forall i, (i < n)%nat -> parts !! i = Some (DataIn_Data (pdu i))) ->
  (forall i, (i < n)%nat -> DataIn_HasStatus (pdu i) = bool_decide (S i = n)) ->
  exists s1 s' bhs p,
    Submit cx cx' (Cdb.Read16 lun lba blocks bs []) s = Done (Ok (length (ss_objs s)), s1) /\
    ss_writeCh s1 = sent_on [stampDigests (ss_digestHeader s) (ss_digestData s) (newRawPDU bhs [])] (ss_writeCh s) /\
    DecodeBHS bhs = Ok (PSCSICommand p) /\
    Cdb.decode_cdb (SCSICommand_CDB p) = Some (Cdb.ReqRead true false false lba blocks) /\
    SCSICommand_ExpectedDataTransferLength p = uint32 (blocks * bs) /\ SCSICommand_CmdSN p = sn /\
    ReadBlocks (mkCall cx cx' (target_sends (map raw (seq 0 n)) s) false) lun lba blocks bs s
    = Done (read_outcome parts (pdu (n - 1)%nat), s') /\
    ss_tasks s' = delete (next_itt s) (ss_tasks s) /\ rt_pending (ss_router s') !! next_itt s = None.
Proof.
  intros n pdu Hready Hlun Hlba Hblocks Hcx Hroom Hpos Hn Ht Hraw HSN Hoff Hdata Hst.
  destruct (read_completes s (Cdb.Read16 lun lba blocks bs []) cx cx' sn w' parts raw din)
    as (s1 & s2 & bhs & t & Hsub & _ & Hw & Hdec & Hfeed & Ho & Hres & Htasks & Hp & _); try done.
  { by apply Read16_ok. }
  destruct (submitAndWait_Done (mkCall cx cx' (target_sends (map raw (seq 0 n)) s) false)
    (Cdb.Read16 lun lba blocks bs []) _ s s1 s2 t (transfer_result parts pdu) Hsub eq_refl) as (s3 & Hwait & E1 & E2);
    [exact (SM_bind_Done _ (fun _ => mret ()) _ _ _ Hfeed)|exact Ho|exact Hres|].
  exists s1, s3, bhs, (SCSICommand_wire (command_request (Cdb.Read16 lun lba blocks bs []) (next_itt s) sn (ss_expStatSN s) [])).
  split; [exact Hsub|]. split; [exact Hw|]. split; [exact Hdec|].
  split; [exact (Cdb.build_decodes (Cdb.CRead16 lun lba blocks bs []) (conj Hlba Hblocks) I)|].
  split; [reflexivity|]. split; [reflexivity|]. split; [|by rewrite E1, E2].
  unfold ReadBlocks, submitAndCheck. rewrite (try_Done _ _ _ _ _ Hwait), check_transfer.
  by destruct (read_outcome _ _).
Qed.

Lemma ReadBlocks_end_to_end_witness :
  let parts := [[1; 2; 3]; [4]] in
  let s := test_session in
  let c := mkCall (mkCtxSched false false) (mkCtxSched false false)
             (target_sends (map (target_raw parts) [0; 1]%nat) s) false in
  exists s', ReadBlocks c 5 1000 1 4 s = Done (Ok [1; 2; 3; 4], s') /\ ss_tasks s' = delete 0 (ss_tasks s).
Proof.
  intros parts s c. set (din i := DataIn_wire (target_din parts i)).
  destruct (ReadBlocks_end_to_end s 5 1000 1 4 (mkCtxSched false false) (mkCtxSched false false) 1
    (mkCmdWindow 2 1 1 false) parts (target_raw parts) din) as (s1 & s' & bhs & p & _ & _ & _ & _ & _ & _ & H & Ht & _).
  all: try reflexivity; try (unfold in_width; simpl; lia).
  - unfold ready. repeat (split; [vm_compute; done|]). vm_compute. lia.
  - split; [reflexivity|]. apply Nat.leb_le. reflexivity.
  - intros i Hi. by do 2 (destruct i as [|i]; [vm_compute; reflexivity|]); simpl in Hi; lia.
  - intros i Hi. by do 2 (destruct i as [|i]; [reflexivity|]); simpl in Hi; lia.
  - exists s'. split; [exact H|exact Ht].
Defined.

(** ** Capacity *)

(** A device's answers to READ CAPACITY (16) and (10): the short form cannot say
    more than 2^32 - 1, which means that the device is larger. *)
Definition capacity16_data (lastLBA blockSize : Z) : bytes := be_bytes 8 lastLBA ++ be_bytes 4 blockSize ++ zeros 20.
Definition capacity10_data (lastLBA blockSize : Z) : bytes :=
  be_bytes 4 (Z.min lastLBA 0xFFFFFFFF) ++ be_bytes 4 blockSize.

Lemma get_be_at n pre v rest : in_width (8 * Z.of_nat n) v ->
  get_be n (length pre) (pre ++ be_bytes n v ++ rest) = v.
Proof.
  intros Hv. unfold get_be. rewrite sub_app_r, Nat.sub_diag, sub_app_l by (rewrite ?length_be_bytes; lia).
  rewrite sub_all by apply length_be_bytes. by apply be_val_bytes_id.
Qed.

Lemma capacity16_parsed L b : u64 L -> u32 b -> exists r,
  ParseReadCapacity16 (good (capacity16_data L b)) = Some (Ok r) /\ rc16_LastLBA r = L /\ rc16_BlockSize r = b.
Proof.
  intros HL Hb. set (data := capacity16_data L b).
  assert (Hl : length data = 32%nat).
  { unfold data, capacity16_data. by rewrite !length_app, !length_be_bytes, length_zeros. }
  unfold ParseReadCapacity16. rewrite (PR_bind_Ok _ _ _ (checkResult_good data)).
  rewrite (PR_bind_Ok _ _ _ (need_ok 32 _ data ltac:(lia))). access.
  eexists. split; [reflexivity|]. cbn [rc16_LastLBA rc16_BlockSize]. split.
  - exact (get_be_at 8 [] L _ HL).
  - pose proof (get_be_at 4 (be_bytes 8 L) b (zeros 20) Hb) as H. by rewrite length_be_bytes in H.
Qed.

Lemma capacity10_parsed L b : u64 L -> u32 b -> exists r,
  ParseReadCapacity10 (good (capacity10_data L b)) = Some (Ok r) /\
  rc10_LastLBA r = Z.min L 0xFFFFFFFF /\ rc10_BlockSize r = b.
Proof.
  intros HL Hb. set (data := capacity10_data L b).
  assert (Hl : length data = 8%nat) by (unfold data, capacity10_data; by rewrite !length_app, !length_be_bytes).
  unfold ParseReadCapacity10. rewrite (PR_bind_Ok _ _ _ (checkResult_good data)).
  rewrite (PR_bind_Ok _ _ _ (need_ok 8 _ data ltac:(lia))). access.
  eexists. split; [reflexivity|]. cbn [rc10_LastLBA rc10_BlockSize]. split.
  - apply (get_be_at 4 []). unfold in_width in *. lia.
  - pose proof (get_be_at 4 (be_bytes 4 (Z.min L 0xFFFFFFFF)) b [] Hb) as H.
    by rewrite length_be_bytes, app_nil_r in H.
Qed.

Definition refused (r : Result) : Prop := rs_Err r <> None \/ rs_Status r <> 0.

Lemma refused_error r : refused r -> exists e, checkResult r = Some (Err e).
Proof.
  intros Hr. destruct (rs_Err r) as [e|] eqn:E; [unfold checkResult; rewrite E; by eexists|].
  destruct Hr as [Hr|Hs]; [congruence|].
  destruct (checkResult_error _ _ Hs r E eq_refl eq_refl) as (se & m & _ & H & _). by eexists.
Qed.

(** C34.  [ReadCapacity] returns the device's capacity from READ CAPACITY (16), the
    number of blocks being one more than the last LBA, modulo 2^64.  When that
    command is refused, for whatever reason, it asks for READ CAPACITY (10), and
    then a device of more than 2^32 blocks appears as one of exactly 2^32. *)
Theorem ReadCapacity_spec (c c10 : Call) (lun L b : Z) (s s1 : Session) (r16 : Result) :
  u64 L -> u32 b -> submitAndWait c (Cdb.ReadCapacity16 lun 32) s = Done (Ok r16, s1) ->
  (r16 = good (capacity16_data L b) ->
   ReadCapacity c c10 lun s = Done (Ok (mkCapacity L b (uint64 (L + 1))), s1)) /\
  (forall s2, refused r16 ->
   submitAndWait c10 (Cdb.ReadCapacity10 lun) s1 = Done (Ok (good (capacity10_data L b)), s2) ->
   ReadCapacity c c10 lun s
   = Done (Ok (mkCapacity (Z.min L 0xFFFFFFFF) b (Z.min (L + 1) (2 ^ 32))), s2)).
Proof.
  intros HL Hb Hs1. unfold ReadCapacity. rewrite (try_Done _ _ _ _ _ Hs1). split.
  - intros ->. destruct (capacity16_parsed L b HL Hb) as (r & -> & E1 & E2).
    unfold convertCapacity16. by rewrite E1, E2.
  - intros s2 Hr Hs2. destruct (refused_error r16 Hr) as [e He].
    assert (ParseReadCapacity16 r16 = Some (Err e)) as -> by exact (PR_bind_Err _ _ _ He).
    rewrite (try_Done _ _ _ _ _ Hs2). destruct (capacity10_parsed L b HL Hb) as (r & -> & E1 & E2).
    unfold try_, convertCapacity10, mbind, SM_bind, parsed, mret, SM_ret. rewrite E1, E2.
    rewrite wrap_id; [|unfold in_width in *; lia]. do 4 f_equal. lia.
Qed.

Lemma ReadCapacity_spec_witness :
  let cx := mkCtxSched false false in
  let s := test_session in
  let L := 5000000000 in
  let dataIn status data cmdWin := newRawPDU
    (match DataIn_MarshalBHS (mkDataIn (mkHeader false OpDataIn true 0 (Z.of_nat (length data)) (zeros 8) 0)
       false false false true status 0xFFFFFFFF 1 2 cmdWin 0 0 0 data) with Ok bhs => bhs | Err _ => [] end) data in
  let answer itt id ch raw : SS () := _ ← feed itt id ch [raw]; mret () in
  let c := mkCall cx cx (answer 0 0%nat 0%nat (dataIn 2 [] 9)) false in
  let c10 := mkCall cx cx (answer 1 1%nat 1%nat (dataIn 0 (capacity10_data L 512) 9)) false in
  exists s2, ReadCapacity c c10 0 s = Done (Ok (mkCapacity 0xFFFFFFFF 512 (2 ^ 32)), s2).
Proof.
  intros cx s L dataIn answer c c10.
  set (r16 := mkResult 2 [] (Some (NewReader [])) false false 0 None).
  destruct (submitAndWait c (Cdb.ReadCapacity16 0 32) s) as [[r s1]| |] eqn:E1; [|by vm_compute in E1..].
  assert (Hr : r = Ok r16) by (vm_compute in E1; by injection E1 as <- _). subst r.
  destruct (submitAndWait c10 (Cdb.ReadCapacity10 0) s1) as [[r s2]| |] eqn:E2;
    [|by vm_compute in E1; injection E1 as <-; vm_compute in E2..].
  assert (Hr : r = Ok (good (capacity10_data L 512))).
  { clear - E1 E2. vm_compute in E1. injection E1 as <-. vm_compute in E2. injection E2 as <- _. reflexivity. }
  subst r.
  exists s2. apply (ReadCapacity_spec c c10 0 L 512 s s1 r16); [|..].
  - unfold in_width, L. lia.
  - unfold in_width. lia.
  - exact E1.
  - right. discriminate.
  - exact E2.
Defined.

(** ** LUNs beyond 16 bits *)

Lemma buildSCSICommandPDU_large cmd itt sn e imm : 0xFFFF < cmd_LUN cmd ->
  buildSCSICommandPDU cmd itt sn e imm = None.
Proof.
  intros H. unfold buildSCSICommandPDU, EncodeSAMLUN.
  by rewrite (Z.gtb_ltb (cmd_LUN cmd)), (proj2 (Z.ltb_lt _ _)) by lia.
Qed.

(** The data of a command: none, or a reader with something in it that does not fail *)
Definition has_data (d : option Reader) : Prop :=
  match d with Some r => rd_bytes r <> [] /\ rd_err r = EOF | None => True end.

Lemma immediate_read cmd depth sn w' s : has_data (cmd_Data cmd) -> exists imm s1,
  (if bool_decide (is_Some (cmd_Data cmd)) && np_ImmediateData (ss_params s)
   then readImmediate (ss_params s) (length (ss_objs s)) else mret (Ok []))
    (registered (submit_task depth cmd sn s) w' s) = Done (Ok imm, s1).
Proof.
  intros Hd. set (t := submit_task depth cmd sn s).
  assert (Hr : tk_reader t = cmd_Data cmd) by apply submitted_command_Data.
  destruct (cmd_Data cmd) as [r|]; [|by eexists _, _]. rewrite bool_decide_true by eauto. cbn [andb].
  destruct (np_ImmediateData (ss_params s)); [|by eexists _, _].
  destruct (decide (0 < immLen (ss_params s))%nat) as [Hp|Hz].
  - destruct (readImmediate_ok t w' s r Hp (proj1 Hd) (proj2 Hd) Hr) as (r' & _ & _ & H). eauto.
  - unfold readImmediate. fold (immLen (ss_params s)). replace (immLen (ss_params s)) with 0%nat by lia.
    assert (H0 : on_task (length (ss_objs s)) (readData 0) (registered t w' s) = Done (([], None), registered t w' s))
      by (by apply on_task_last).
    rewrite (SM_bind_Done _ _ _ _ _ H0). cbv iota beta.
    assert (H1 : on_task (length (ss_objs s)) (upd_task (set_tk_bytesSent (uint32 (Z.of_nat (length (@nil Z)))))) (registered t w' s)
      = Done ((), registered (set_tk_bytesSent (uint32 0) t) w' s)) by (by apply on_task_last).
    rewrite (SM_bind_Done _ _ _ _ _ H1). by eexists _, _.
Qed.

Lemma submit_large cx cx' depth cmd sn w' s : ready sn w' s -> has_data (cmd_Data cmd) -> 0xFFFF < cmd_LUN cmd ->
  submit cx cx' depth cmd s = Panics.
Proof.
  intros Hr Hd Hl. rewrite (submit_registers depth cx cx' cmd sn w' s Hr). unfold submit_command.
  rewrite submitted_command_Data. destruct (immediate_read cmd depth sn w' s Hd) as (imm & s1 & H).
  rewrite (SM_bind_Done _ _ _ _ _ H). rewrite buildSCSICommandPDU_large; [done|].
  unfold submitted_command. by destruct (bool_decide _).
Qed.

Lemma submitAndWait_large c cmd sn w' s : ready sn w' s -> has_data (cmd_Data cmd) -> 0xFFFF < cmd_LUN cmd ->
  submitAndWait c cmd s = Panics.
Proof.
  intros Hr Hd Hl. unfold submitAndWait, mbind at 1, SM_bind at 1, Submit. by rewrite (submit_large _ _ _ _ _ _ _ Hr Hd Hl).
Qed.

Lemma sendTMF_large cx fn ref lun s : 0xFFFF < lun -> sendTMF_send cx fn ref lun s = Panics.
Proof.
  intros H. unfold sendTMF_send, tmf_request, router_Register, mbind, SM_bind, SM_get, EncodeSAMLUN.
  destruct (Register _) as [[itt ch] r]. cbv beta iota.
  by rewrite (Z.gtb_ltb lun), (proj2 (Z.ltb_lt _ _)) by lia.
Qed.

Lemma try_Panics {A B} (m : SS (res A)) (f : A -> SS (res B)) s : m s = Panics -> try_ m f s = Panics.
Proof. intros H. unfold try_, mbind, SM_bind. by rewrite H. Qed.

Lemma only_err_Panics {A} (m : SS (res A)) s : m s = Panics -> only_err m s = Panics.
Proof. intros H. unfold only_err, mbind, SM_bind. by rewrite H. Qed.

(** C35.  Every method that takes a LUN takes a 64-bit one, but only 16 bits can be
    encoded: with a larger one a session that can take a command panics in the
    caller's goroutine instead of returning an error.  These are the typed methods
    of [SCSIOps], [Execute] and [StreamExecute] for every command they accept, and
    the task management functions of a LUN.  (The data of a write, where it is the
    caller's, is not empty: with immediate data an empty reader is refused first.) *)
Theorem large_LUN_panics (c c10 : Call) (q : Request) (lun : Z) (sn : Z) (w' : cmdWindow) (s : Session) :
  ready sn w' s -> 0xFFFF < lun ->
  (* reads *)
  (forall lba blocks bs, ReadBlocks c lun lba blocks bs s = Panics) /\
  Inquiry c lun s = Panics /\ ReadCapacity c c10 lun s = Panics /\ RequestSense c lun s = Panics /\
  (forall page sub, ModeSense6 c lun page sub s = Panics /\ ModeSense10 c lun page sub s = Panics) /\
  (forall sa, PersistReserveIn c lun sa s = Panics) /\
  (* no data *)
  TestUnitReady c lun s = Panics /\ SynchronizeCache c lun s = Panics /\
  (forall lba blocks, Verify c lun lba blocks s = Panics) /\
  (forall power start loej, StartStopUnit c lun power start loej s = Panics) /\
  (* writes *)
  (forall lba blocks bs data, data <> [] -> WriteBlocks c lun lba blocks bs data s = Panics /\
     WriteSame c lun lba blocks bs data s = Panics /\ CompareAndWrite c lun lba blocks bs data s = Panics /\
     ModeSelect6 c lun data s = Panics /\ ModeSelect10 c lun data s = Panics) /\
  (forall ds, Unmap c lun ds s = Panics) /\
  (forall sa st key saKey, PersistReserveOut c lun sa st key saKey s = Panics) /\
  (* raw commands *)
  (forall cdb opts cmd, raw_command lun cdb opts = Ok cmd -> has_data (cmd_Data cmd) ->
     execute c lun cdb opts s = Panics /\ streamExecute (ca_acquire c) (ca_send c) lun cdb opts s = Panics) /\
  (* task management *)
  AbortTaskSet q lun s = Panics /\ ClearTaskSet q lun s = Panics /\ LUNReset q lun s = Panics.
Proof.
  intros Hr Hl.
  assert (H : forall cmd, has_data (cmd_Data cmd) -> cmd_LUN cmd = lun -> submitAndWait c cmd s = Panics).
  { intros cmd Hd <-. by eapply submitAndWait_large. }
  assert (Hc : forall cmd, has_data (cmd_Data cmd) -> cmd_LUN cmd = lun -> submitAndCheck c cmd s = Panics).
  { intros cmd Hd Hc. by apply try_Panics, H. }
  assert (He : forall cmd, has_data (cmd_Data cmd) -> cmd_LUN cmd = lun -> only_err (submitAndCheck c cmd) s = Panics).
  { intros cmd Hd Hc'. by apply only_err_Panics, Hc. }
  assert (Ht : forall request wait, request (rq_send q) s = Panics -> tmf q request wait s = Panics).
  { intros request wait Hq. unfold tmf, mbind at 1, SM_bind at 1. by rewrite try_Panics. }
  split; [intros; by apply Hc|]. split; [by apply try_Panics, H|]. split; [by apply try_Panics, H|].
  split; [by apply try_Panics, Hc|]. split; [intros; split; by apply Hc|]. split; [intros; by apply Hc|].
  do 2 (split; [by apply He|]). do 2 (split; [intros; by apply He|]). split; [|split; [|split; [|split; [|split; [|split]]]]].
  - intros lba blocks bs data Hd. assert (Hrd : has_data (Some (NewReader data))) by (split; [cbn; by rewrite app_nil_r|done]).
    repeat (split; [by apply He|]). by apply He.
  - intros ds. by apply He.
  - intros. by apply He.
  - intros cdb opts cmd Hcmd Hd. unfold execute, streamExecute. rewrite Hcmd.
    assert (Hlun : cmd_LUN cmd = lun).
    { unfold raw_command in Hcmd. cbv zeta in Hcmd. repeat case_match; try done; by injection Hcmd as <-. }
    split; [by apply try_Panics, H|]. unfold mbind at 1, SM_bind at 1, SubmitStreaming, mbind at 1, SM_bind at 1, SM_get.
    cbv zeta. rewrite (submit_large _ _ _ cmd sn w' s Hr Hd); [done|by rewrite Hlun].
  - apply Ht, (sendTMF_large (rq_send q) TMFAbortTaskSet 0 lun s Hl).
  - apply Ht, (sendTMF_large (rq_send q) TMFClearTaskSet 0 lun s Hl).
  - apply Ht, (sendTMF_large (rq_send q) TMFLogicalUnitReset 0 lun s Hl).
Qed.

Lemma large_LUN_panics_witness :
  let cx := mkCtxSched false false in
  let c := mkCall cx cx (mret ()) false in
  let lun := 0x4000000000000000 in
  ready 1 (mkCmdWindow 2 1 1 false) test_session /\ Inquiry c lun test_session = Panics /\
  WriteBlocks c lun 0 1 4 [1; 2; 3; 4] test_session = Panics.
Proof.
  intros cx c lun. assert (Hr : ready 1 (mkCmdWindow 2 1 1 false) test_session).
  { unfold ready. repeat (split; [vm_compute; done|]). vm_compute. lia. }
  split; [exact Hr|].
  destruct (large_LUN_panics c c (mkRequest cx (mret ()) WaitResponse) lun 1 _ test_session Hr)
    as (_ & H & _ & _ & _ & _ & _ & _ & _ & _ & H' & _); [unfold lun; lia|].
  split; [exact H|]. by destruct (H' 0 1 4 [1; 2; 3; 4]) as [Hw _].
Defined.

(** A second [Wait] or [WaitResidual] never returns. *)
Lemma Wait_once sr s a s' : Wait sr s = Done (a, s') ->
  (forall t, ss_objs s !! sr_task sr = Some t -> length (ch_buf (tk_resultCh t)) = 1%nat /\ ch_closed (tk_resultCh t) = false) ->
  Wait sr s' = Blocks /\ WaitResidual sr s' = Blocks.
Proof.
  intros H Ht. unfold Wait, WaitResidual, mbind, SM_bind in *. unfold receive_result at 1 in H.
  destruct (ss_objs s !! sr_task sr) as [t|] eqn:Ho; [|done]. destruct (Ht t eq_refl) as [H1 H2]. unfold recv in H.
  destruct (ch_buf (tk_resultCh t)) as [|r [|]] eqn:Eb; try done. cbn in H. injection H as _ <-.
  unfold receive_result. change (ss_objs (set_objs ?o s)) with o.
  rewrite list_lookup_insert_eq by by eapply lookup_lt_Some.
  unfold recv. cbn. by rewrite H2.
Qed.
