(* ===== verification/Dial.v ===== *)
(** Dialling and discovery ([src/uiscsi.go], [Discover] of
    [src/internal/session/discovery.go], [Dial] of
    [src/internal/transport/conn.go]).

    A connection is what the target will send and what the initiator writes; the
    network is the function [dialContext] of the timeout and the address.  The
    goroutines of a new session are not started here: the operations of the other
    files are their steps. *)
From S2P Require Import Prelude Errors Bhs PduTactics PduInitiator PduTarget Pdu GoIO Digest Framer.
From S2P Require Import Chan Serial Router Text Negotiation Chap CmdWindow Types Task DataOut Session.
From S2P Require Import Unsolicited Lifecycle TaskLoop Discovery ApiTypes.
From S2P Require Config Options Login.
#[local] Open Scope string_scope.
#[local] Open Scope list_scope.
#[local] Open Scope Z_scope.

(** The method [SendTargets]: [others] is what other goroutines do before an
    iteration's wait ends. *)
Fixpoint SendTargets_run (turns : list (SS () * TargetsSched)) (itt : Z) (pduCh : nat) (accumulated : bytes)
    : SS (res (list DiscoveryTarget)) :=
  match turns with
  | [] => SM_block
  | (others, sch) :: turns =>
      _ ← others;
      turn ← SendTargets_turn sch itt pduCh accumulated;
      match turn with
      | Err e => SendTargets_end itt (Err e)
      | Ok (accumulated, false) => SendTargets_end itt (Ok accumulated)
      | Ok (accumulated, true) => SendTargets_run turns itt pduCh accumulated
      end
  end.

Definition SendTargets (cx cx' : CtxSched) (turns : list (SS () * TargetsSched)) : SS (res (list DiscoveryTarget)) :=
  sent ← SendTargets_start cx cx';
  match sent with
  | Err e => mret (Err e)
  | Ok (itt, pduCh) => SendTargets_run turns itt pduCh []
  end.

(** What happens during the session of a [Discover] *)
Record DiscoverRun := mkDiscoverRun {
  dr_acquire : CtxSched; dr_send : CtxSched; dr_turns : list (SS () * TargetsSched);
  dr_logout : SS (option error); (* [sess.Logout(ctx)] *)
  dr_close : SS ();              (* the logout [Close] may attempt *)
}.

(** [Discover] on the session it has opened *)
Definition discover_session (x : DiscoverRun) : SS (res (list DiscoveryTarget)) :=
  targets ← SendTargets (dr_acquire x) (dr_send x) (dr_turns x);
  match targets with
  | Err stErr => _ ← Close (dr_close x); mret (Err (Wrapf "discover: SendTargets: %w" [] stErr))
  | Ok targets => _ ← dr_logout x; _ ← Close (dr_close x); mret (Ok targets)
  end.

(** The error of a failed login: an authentication failure has status class 2. *)
Definition login_failure (err : error) : error :=
  match errors_As as_LoginError err with
  | Some le => if le_StatusClass le =? 2 then wrapAuthError err else wrapTransportError "login" err
  | None => wrapTransportError "login" err
  end.

Section dial.
Context (dialContext : Z -> bytes -> res (Reader * Writer)).
Context (stale : bytes) (range : gmap string string -> list (string * string)) (rnd : Login.Randomness).

(** [transport.Dial]: only a positive timeout is set *)
Definition transport_Dial (addr : bytes) (timeout : Z) : res (Reader * Writer) :=
  dialContext (if 0 <? timeout then timeout else 0) addr.

Definition Dial (addr : bytes) (opts : list Options.Option_) : res Session :=
  let addr := normalizePortal addr in
  let cfg := Options.dialOptions opts in
  match transport_Dial addr (Options.dc_dialTimeout cfg) with
  | Err err => Err (wrapTransportError "dial" err)
  | Ok (r, w) =>
    match (Login.Login stale range rnd r w (Options.dc_loginOpts cfg)).1.1 with
    | Err err => Err (login_failure err)
    | Ok (params, conn) =>
        Ok (NewSession params (Login.cc_digestHeader conn) (Login.cc_digestData conn)
              (Config.sessionOptions (Options.allSessionOpts (of_bytes addr) cfg)))
    end
  end.

(** [session.Discover] *)
Definition session_Discover (addr : bytes) (opts : list Login.LoginOption) (x : DiscoverRun)
    : outcome (res (list DiscoveryTarget)) :=
  match transport_Dial addr 0 with
  | Err err => Done (Err (Wrapf "discover: dial %s: %w" [] err))
  | Ok (r, w) =>
    match (Login.Login stale range rnd r w (Login.WithSessionType "Discovery" :: opts)).1.1 with
    | Err loginErr => Done (Err (Wrapf "discover: login: %w" [] loginErr))
    | Ok (params, conn) =>
      match discover_session x (NewSession params (Login.cc_digestHeader conn) (Login.cc_digestData conn)
                                  Config.defaultConfig) with
      | Done (r, _) => Done r
      | Blocks => Blocks
      | Panics => Panics
      end
    end
  end.

(** [uiscsi.Discover] *)
Definition Discover (addr : bytes) (opts : list Options.Option_) (x : DiscoverRun) : outcome (res (list Target)) :=
  let addr := normalizePortal addr in
  let cfg := Options.dialOptions opts in
  match session_Discover addr (Options.dc_loginOpts cfg) x with
  | Done (Err err) => Done (Err (wrapTransportError "discover" err))
  | Done (Ok targets) => Done (Ok (map convertTarget targets))
  | Blocks => Blocks
  | Panics => Panics
  end.

(** ** Specification *)

(** The error of a response with a status class that is not 0 *)
Definition rejection (p : LoginResp) : error :=
  let message := Login.statusMessage (LoginResp_StatusClass p) (LoginResp_StatusDetail p) in
  if LoginResp_StatusClass p =? 2
  then EAuth (mkAuthError (LoginResp_StatusClass p) (LoginResp_StatusDetail p) message)
  else ETransport "login" (ELogin (mkLoginError (LoginResp_StatusClass p) (LoginResp_StatusDetail p) message ReasonNone)).

(** A new session: logged in, without tasks, for commands from CmdSN 1 on, set to
    reconnect to where it was dialled *)
Definition fresh (addr : bytes) (settings : list Options.setting) (s : Session) : Prop :=
  ready 1 (mkCmdWindow 2 1 1 false) s /\ ss_loggedIn s = true /\ ss_tasks s = ∅ /\ ss_objs s = [] /\
  ss_cfg s = Options.dial_session (of_bytes addr) settings.

(** ** Lemmas *)

Lemma login_failure_status p : login_failure (Login.status_error p) = rejection p.
Proof.
  unfold login_failure, Login.status_error, rejection, wrapAuthError, errors_As. cbn.
  by destruct (LoginResp_StatusClass p =? 2).
Qed.

Lemma ParseUint_plain s bits e : ParseUint s bits = Err e -> e = Errorf "strconv.ParseUint" [].
Proof.
  unfold ParseUint. destruct (to_bytes s) as [|b l]; [congruence|].
  destruct (parse_digits _ _); [|congruence]. destruct (_ <? _); congruence.
Qed.

Lemma parseValue_plain what s e : parseValue what s = Err e -> errors_As as_LoginError e = None.
Proof.
  unfold parseValue. destruct (ParseUint s 32) eqn:E; [done|]. apply ParseUint_plain in E as ->. by intros [= <-].
Qed.

Lemma resolveKey_plain def iv tv e : resolveKey def iv tv = Err e -> errors_As as_LoginError e = None.
Proof.
  pose proof (parseValue_plain errInvalidInitiator iv) as Hi.
  pose proof (parseValue_plain errInvalidTarget tv) as Ht. unfold resolveKey.
  destruct (parseValue errInvalidInitiator iv) as [i|ei], (parseValue errInvalidTarget tv) as [t|et],
    (kd_Type def); cbn [mbind result_bind]; intros H;
    first [ discriminate H | injection H as <-; first [by apply Hi|by apply Ht]
          | match type of H with (if ?b then _ else _) = _ => destruct b end; discriminate H
          | match type of H with context [listSelect ?a ?b] => destruct (listSelect a b) end;
            [discriminate H|by injection H as <-] ].
Qed.

Lemma resolveAll_plain im kvs e : Login.resolveAll im kvs = Err e -> errors_As as_LoginError e = None.
Proof.
  induction kvs as [|kv kvs IH]; [done|]. cbn [Login.resolveAll]. destruct (findKeyDef _); [|done].
  destruct (resolveKey _ _ _) eqn:E.
  - destruct (Login.resolveAll im kvs); [done|]. intros [= <-]. by apply IH.
  - intros [= <-]. rewrite errors_As_Wrapf by done. by eapply resolveKey_plain.
Qed.

(** A failed negotiation is no authentication failure. *)
Lemma resolve_failure keys data e : Login.resolveResponse keys data = Err e ->
  login_failure e = ETransport "login" e.
Proof.
  unfold Login.resolveResponse. destruct (Login.resolveAll _ _) eqn:E; cbn.
  - destruct (_ !! _); [|done]. by destruct (Login.replaceFirst _ _ _).
  - intros [= <-]. unfold login_failure. by rewrite (resolveAll_plain _ _ _ E).
Qed.

Lemma NewSession_ready params dh dd cfg : np_CmdSN params = 1 -> u32 (np_ExpStatSN params) ->
  ready 1 (mkCmdWindow 2 1 1 false) (NewSession params dh dd cfg).
Proof.
  intros Hc He. unfold ready. cbn [NewSession ss_recovering ss_draining ss_window ss_expStatSN ss_router].
  rewrite Hc. refine (conj eq_refl (conj eq_refl (conj eq_refl (conj _ (conj He (conj _ _)))))).
  - unfold in_width. lia.
  - by vm_compute.
  - unfold NewRouter. destruct (Z.leb_spec (Config.sc_routerBufDepth cfg) 0); cbn; [unfold DefaultRouterBufDepth|]; lia.
Qed.

(** ** Properties *)

(** C20.  [Dial] without CHAP, from the bytes of the target's two login responses:
    a rejection with status class 2 is returned as the [AuthError] of that status,
    one of another class as a [TransportError] of the login, and so is a failed
    negotiation; otherwise the result is a session with the negotiated parameters
    and digests and all of the caller's settings, that can take its first command,
    with CmdSN 1, at once. *)
Theorem dial_outcome (addr : bytes) (settings : list Options.setting) (isid : bytes) (r : Reader) (w : Writer)
    (p1 p2 : LoginResp) (rest : bytes) :
  let cfg := Options.dial_login settings in
  let opts := map Options.option_of settings in
  (forall t, dialContext t (normalizePortal addr) = Ok (r, w)) ->
  Login.lc_chapUser cfg = "" -> Login.chooseISID cfg rnd = Ok isid -> length isid = 6%nat -> bytes_ok isid ->
  u16 (Login.lc_tsih cfg) -> w_fails w = [] ->
  (Z.of_nat (length (EncodeTextKV (Login.firstKeys cfg "None"))) <= 0xFFFFFF)%Z ->
  (Z.of_nat (length (EncodeTextKV (Login.buildInitiatorKeys cfg))) <= 0xFFFFFF)%Z ->
  Login.resp_ok p1 -> Login.resp_ok p2 -> rd_bytes r = Login.resp_wire p1 ++ Login.resp_wire p2 ++ rest ->
  if negb (LoginResp_StatusClass p1 =? 0) then Dial addr opts = Err (rejection p1)
  else if negb (LoginResp_StatusClass p2 =? 0) then Dial addr opts = Err (rejection p2)
  else
    match Login.resolveResponse (Login.buildInitiatorKeys cfg) (LoginResp_Data p2) with
    | Err e => Dial addr opts = Err (ETransport "login" e)
    | Ok kvs =>
        let np := set_TargetName (Login.lc_targetName cfg)
                    (set_TSIH (LoginResp_TSIH p2) (applyNegotiatedKeys Defaults kvs)) in
        exists s, Dial addr opts = Ok s /\ fresh (normalizePortal addr) settings s /\
          ss_params s = set_ISID isid (set_ExpStatSN (uint32 (LoginResp_StatSN p2 + 1)) (set_CmdSN 1 np)) /\
          ss_digestHeader s = np_HeaderDigest np /\ ss_digestData s = np_DataDigest np
    end.
Proof.
  intros cfg opts Hnet Hu Hisid Hil Hib Hts Hw Hk1 Hk2 Hp1 Hp2 Hr.
  destruct (Login.Login_None stale range rnd r w (Options.dc_loginOpts (Options.dialOptions opts)) isid p1 p2 rest
    Hu Hisid Hil Hib Hts Hw Hk1 Hk2 Hp1 Hp2 Hr) as [Hlogin _].
  unfold Dial, transport_Dial. rewrite Hnet, Hlogin.
  destruct (negb (LoginResp_StatusClass p1 =? 0)); [by rewrite login_failure_status|].
  destruct (negb (LoginResp_StatusClass p2 =? 0)); [by rewrite login_failure_status|].
  change (Login.applyOptions (Options.dc_loginOpts (Options.dialOptions opts))) with cfg.
  destruct (Login.resolveResponse (Login.buildInitiatorKeys cfg) (LoginResp_Data p2)) as [kvs|e] eqn:E.
  - cbn [mbind result_bind]. eexists. split; [reflexivity|]. split; [|by repeat split].
    split; [|by repeat split]. apply NewSession_ready; [done|]. by apply wrap_range.
  - cbn [mbind result_bind]. by rewrite (resolve_failure _ _ _ E).
Qed.

End dial.

(** A target that answers every connection with [stream] *)
Definition answering (stream : bytes) : Z -> bytes -> res (Reader * Writer) :=
  fun _ _ => Ok (NewReader stream, mkWriter [] []).

Lemma dial_outcome_witness :
  let hdr n := mkHeader false OpLoginResp false 0 n (zeros 8) 0 in
  let p1 := mkLoginResp (hdr 0) true false 0 1 0 0 (zeros 6) 0 4 1 1 2 1 [] in
  let p2 := mkLoginResp (hdr 0) true false 1 3 0 0 (zeros 6) 9 5 1 1 0 0 [] in
  let rnd := Login.mkRandomness (Ok [1; 2; 3; 4; 5]) (Ok 0) (Ok []) in
  Dial (answering (Login.resp_wire p1 ++ Login.resp_wire p2)) [] map_to_list rnd (to_bytes "10.0.0.7")
    [Options.WithTarget "iqn.x"] = Err (EAuth (mkAuthError 2 1 "authentication failure")).
Proof.
  intros hdr p1 p2 rnd.
  pose proof (dial_outcome (answering (Login.resp_wire p1 ++ Login.resp_wire p2)) [] map_to_list rnd
    (to_bytes "10.0.0.7") [Options.Target "iqn.x"] [0x40; 1; 2; 3; 4; 5]
    (NewReader (Login.resp_wire p1 ++ Login.resp_wire p2)) (mkWriter [] []) p1 p2 []) as H.
  cbv zeta in H. change (negb (LoginResp_StatusClass p1 =? 0)) with true in H. cbv iota in H.
  apply H; try (vm_compute; repeat split; try discriminate; repeat constructor; discriminate).
Defined.
