(* ===== verification/Invariant.v ===== *)
(** The invariant of a session's tables and objects, over every interleaving of its
    operations ([src/internal/session/session.go], [tmf.go], [logout.go],
    [async.go], [keepalive.go]).

    A [piece] is what an operation does under one lock, with one channel operation, or
    to a task its goroutine owns; every operation is made of pieces ([in_pieces], a
    hint database that takes operations apart), and the pieces of different goroutines
    interleave freely.  A recovery is one step, at whose waits the others take
    theirs. *)
From S2P Require Import Prelude Errors Bhs PduTactics PduInitiator PduTarget Pdu GoIO Digest Framer.
From S2P Require Import Chan Serial Router Text Negotiation CmdWindow Config Types Task DataOut Session.
From S2P Require Import Unsolicited Lifecycle TaskLoop Tables Recovery Loops Discovery Api.
#[local] Open Scope string_scope.
#[local] Open Scope list_scope.
#[local] Open Scope Z_scope.

(** ** The invariant *)

(** The channel of a result: open, with room for one *)
Definition result_ok (t : task) : Prop :=
  ch_closed (tk_resultCh t) = false /\ ch_cap (tk_resultCh t) = 1%nat /\ (length (ch_buf (tk_resultCh t)) <= 1)%nat.

(** The task [id] has the tag [itt]. *)
Definition tagged (objs : list task) (itt : Z) (id : nat) : Prop :=
  exists t, objs !! id = Some t /\ tk_itt t = itt.

(** An entry of the table: a tag that is not the reserved one, of the task that has it *)
Definition entry_ok (lost : list nat) (objs : list task) (itt : Z) (id : nat) : Prop :=
  0 <= itt < reservedITT /\ (id ∉ lost) /\ tagged objs itt id.

(** A recovery in progress knows more: of the tasks [lost], that they are not in the
    table, and of [tags], which task has which tag. *)
Record session_ok (lost : list nat) (tags : list (Z * nat)) (s : Session) : Prop := mkSessionOk {
  so_table : map_Forall (entry_ok lost (ss_objs s)) (ss_tasks s);
  so_results : Forall result_ok (ss_objs s);
  so_next : u32 (rt_nextITT (ss_router s));
  so_drain : ss_drainDone s = true -> ss_draining s = true;
  so_lost : Forall (fun id => (id < length (ss_objs s))%nat) lost;
  so_tags : Forall (fun e => tagged (ss_objs s) e.1 e.2) tags;
}.

Definition preserves {A} (m : SS A) : Prop :=
  forall lost tags s a s', session_ok lost tags s -> m s = Done (a, s') -> session_ok lost tags s'.

(** ** Pieces *)

(** An update of fields the invariant does not speak of, but that only an active
    drain is waited for *)
Definition frame (f : Session -> Session) : Prop := forall s,
  ss_objs (f s) = ss_objs s /\ ss_tasks (f s) = ss_tasks s /\ ss_router (f s) = ss_router s /\
  ((ss_drainDone s = true -> ss_draining s = true) -> ss_drainDone (f s) = true -> ss_draining (f s) = true).

(** The pieces operations are made of: what happens under one lock, or with one
    channel operation, or to a task by its owner.  Their arguments are whatever the
    goroutine has read before, however long ago: a window or write channel of a
    connection that is gone, parameters that have changed, a task nobody waits for.
    So any other piece may come between two pieces of an operation. *)
Inductive piece (s s' : Session) : Prop :=
  | PieceFields f : frame f -> s' = f s -> piece s s'
  | PieceTask id t t' : ss_objs s !! id = Some t -> task_le t t' ->
      s' = set_objs (<[id := t']> (ss_objs s)) s -> piece s s'
  | PieceResult id r : receive_result id s = Done (r, s') -> piece s s'
  | PieceAllocate itt : router_AllocateITT s = Done (itt, s') -> piece s s'
  | PieceRegister reg : router_Register s = Done (reg, s') -> piece s s'
  | PieceListen itt ch : router_RegisterPersistent itt s = Done (ch, s') -> piece s s'
  | PieceUnregister itt u : router_Unregister itt s = Done (u, s') -> piece s s'
  | PieceReceive ch r : receive ch s = Done (r, s') -> piece s s'
  | PieceDispatch itt raw u : session_dispatch itt raw s = Done (u, s') -> piece s s'
  | PieceEnter depth cmd itt sn r : 0 <= itt < reservedITT -> register_task depth cmd itt sn s = Done (r, s') -> piece s s'
  | PieceForget itt u : delete_task itt s = Done (u, s') -> piece s s'.

Lemma allocITT_ok next : u32 next -> 0 <= (allocITT next).1 < reservedITT /\ u32 (allocITT next).2.
Proof.
  unfold allocITT, reservedITT. intros H. cbv zeta. cbn [fst snd]. split.
  - unfold in_width in H. destruct (Z.eqb_spec next 0xFFFFFFFF); lia.
  - destruct (uint32 _ =? 0xFFFFFFFF); [unfold in_width; lia|apply wrap_range; lia].
Qed.

(** *** The invariant of a piece *)

Lemma session_ok_frame lo tg f s : frame f -> session_ok lo tg s -> session_ok lo tg (f s).
Proof. intros Hf [H1 H2 H3 H4 H5 H6]. destruct (Hf s) as (E1 & E2 & E3 & E4). split; rewrite ?E1, ?E2, ?E3; auto. Qed.

(** A task method that keeps the task's identity and the bounds of its channel *)
Lemma result_ok_le t t' : task_le t t' -> result_ok t -> result_ok t'.
Proof. intros [] (H1 & H2 & H3). unfold result_ok. rewrite tl_closed, tl_cap. rewrite tl_cap, H2 in tl_room. auto. Qed.

Lemma tagged_insert objs id t t' itt i : objs !! id = Some t -> tk_itt t' = tk_itt t ->
  tagged objs itt i -> tagged (<[id := t']> objs) itt i.
Proof.
  intros Ho Ht (u & Hu & Hitt). destruct (decide (i = id)) as [->|Hne].
  - exists t'. rewrite list_lookup_insert_eq by by eapply lookup_lt_Some. split; [done|]. congruence.
  - exists u. by rewrite list_lookup_insert_ne.
Qed.

(** Replacing a task by one with the same tag *)
Lemma session_ok_insert lo tg s id t t' : session_ok lo tg s -> ss_objs s !! id = Some t -> tk_itt t' = tk_itt t ->
  result_ok t' -> session_ok lo tg (set_objs (<[id := t']> (ss_objs s)) s).
Proof.
  intros [H1 H2 H3 H4 H5 H6] Ho Ht Hr. split; cbn; [|by apply Forall_insert|done|done|by rewrite length_insert|].
  - intros itt i Hi. destruct (H1 itt i Hi) as (Hi1 & Hi2 & Hi3). split; [done|]. split; [done|]. by eapply tagged_insert.
  - eapply Forall_impl; [exact H6|]. intros [itt i]. by apply tagged_insert with (t := t).
Qed.

Lemma session_ok_router lo tg f s : (forall r, u32 (rt_nextITT r) -> u32 (rt_nextITT (f r))) ->
  session_ok lo tg s -> session_ok lo tg (set_router (f (ss_router s)) s).
Proof. intros Hf [H1 H2 H3 H4 H5 H6]. split; cbn; auto. Qed.

(** Registering a task under a tag just allocated *)
Lemma session_ok_register lo tg s t itt : session_ok lo tg s -> tk_itt t = itt -> result_ok t -> 0 <= itt < reservedITT ->
  session_ok lo tg (set_tasks (<[itt := length (ss_objs s)]> (ss_tasks s)) (set_objs (ss_objs s ++ [t]) s)).
Proof.
  intros [H1 H2 H3 H4 H5 H6] <- Hr Hi.
  assert (Happ : forall itt id, tagged (ss_objs s) itt id -> tagged (ss_objs s ++ [t]) itt id).
  { intros itt id (u & Hu & E). exists u. split; [|done]. by apply lookup_app_l_Some. }
  split; cbn; [|by apply Forall_app_2; [|constructor]|done|done| |].
  - apply map_Forall_insert_2.
    + split; [done|]. split; [|exists t; by rewrite lookup_app_r, Nat.sub_diag by lia].
      intros Hl. apply (proj1 (Forall_forall _ _) H5) in Hl. lia.
    + intros itt id Hid. destruct (H1 itt id Hid) as (Hr' & Hl & Ht). split; [done|]. split; [done|]. by apply Happ.
  - eapply Forall_impl; [exact H5|]. intros id Hid. rewrite length_app. cbn in *. lia.
  - eapply Forall_impl; [exact H6|]. intros [itt id]. apply Happ.
Qed.

Lemma newTask_result_ok itt isRead isWrite depth : result_ok (newTask itt isRead isWrite depth).
Proof. unfold newTask, result_ok. destruct isRead; cbn; (split; [done|split; [done|lia]]). Qed.

(** A piece touches the counter of tags only to allocate one. *)
Lemma piece_next s s' : piece s s' -> u32 (rt_nextITT (ss_router s)) -> u32 (rt_nextITT (ss_router s')).
Proof.
  intros [f Hf ->|id t t' _ _ ->|id r H|itt H|reg H|itt ch H|itt u H|ch r H|itt raw u H|depth cmd itt sn r _ H|itt u H] Hn.
  - by destruct (Hf s) as (_ & _ & -> & _).
  - done.
  - unfold receive_result in H. destruct (ss_objs s !! id); [|done]. destruct (recv _) as [[? ?]|]; [|done]. by injection H as _ <-.
  - unfold router_AllocateITT, AllocateITT in H. pose proof (allocITT_ok _ Hn) as [_ Hx].
    destruct (allocITT _). by injection H as _ <-.
  - unfold router_Register, Register in H. pose proof (allocITT_ok _ Hn) as [_ Hx]. destruct (allocITT _). by injection H as _ <-.
  - by injection H as _ <-.
  - by injection H as _ <-.
  - unfold receive, chan_recv in H. destruct (rt_chans (ss_router s) !! ch) as [c|]; [|done]. cbn in H.
    destruct (recv c) as [[v c']|]; [|done]. by injection H as _ <-.
  - unfold session_dispatch, Dispatch, dispatchLookup, chan_send in H.
    destruct (rt_pending (ss_router s) !! itt) as [[ch p]|]; [|by injection H as _ <-].
    destruct p; cbn in H; destruct (rt_chans (ss_router s) !! ch); try done; destruct (send _ _); try done; by injection H as _ <-.
  - by injection H as _ <-.
  - by injection H as _ <-.
Qed.

Lemma piece_ok lo tg s s' : piece s s' -> session_ok lo tg s -> session_ok lo tg s'.
Proof.
  intros Hp Hs. pose proof (piece_next _ _ Hp (so_next _ _ _ Hs)) as Hn.
  destruct Hp as [f Hf ->|id t t' Ho Ht ->|id r H|itt H|reg H|itt ch H|itt u H|ch r H|itt raw u H|depth cmd itt sn r Hi H|itt u H].
  - by apply session_ok_frame.
  - eapply session_ok_insert; [done|done|by destruct Ht|]. eapply result_ok_le; [done|].
    exact (Forall_lookup_1 _ _ _ _ (so_results _ _ _ Hs) Ho).
  - unfold receive_result in H. destruct (ss_objs s !! id) as [t|] eqn:Ho; [|done].
    pose proof (Forall_lookup_1 _ _ _ _ (so_results _ _ _ Hs) Ho) as (R1 & R2 & R3). unfold recv in H.
    destruct (ch_buf (tk_resultCh t)) as [|v l] eqn:E; [by rewrite R1 in H|]. injection H as _ <-.
    apply (session_ok_insert _ _ _ _ _ _ Hs Ho); [done|]. split; [done|]. split; [done|]. cbn in *. lia.
  - unfold router_AllocateITT in H. destruct (AllocateITT _). injection H as _ <-. destruct Hs. by split.
  - unfold router_Register in H. destruct (Register _) as [[? ?] ?]. injection H as _ <-. destruct Hs. by split.
  - injection H as _ <-. destruct Hs. by split.
  - injection H as _ <-. destruct Hs. by split.
  - unfold receive in H. destruct (chan_recv _ _) as [[? ?]|]; [|done]. injection H as _ <-. destruct Hs. by split.
  - unfold session_dispatch in H. destruct (Dispatch _ _ _) as [[? ?]| |]; [|done..]. injection H as _ <-. destruct Hs. by split.
  - unfold register_task, mbind, SM_bind, SM_get, new_task, upd, SM_put, mret, SM_ret in H. cbv beta iota zeta in H.
    injection H as _ <-. refine (session_ok_register lo tg s _ itt Hs _ _ Hi); [reflexivity|].
    exact (newTask_result_ok itt (cmd_Read cmd) (bool_decide (is_Some (cmd_Data cmd))) depth).
  - injection H as _ <-. destruct Hs. split; try done. by apply map_Forall_delete.
Qed.

Lemma pieces_ok lo tg s s' : rtc piece s s' -> session_ok lo tg s -> session_ok lo tg s'.
Proof. induction 1 as [|? ? ? Hp _ IH]; [done|]. intros Hs. by eapply IH, piece_ok. Qed.

(** *** Operations made of pieces *)

Definition in_pieces {A} (m : SS A) : Prop :=
  forall s a s', u32 (rt_nextITT (ss_router s)) -> m s = Done (a, s') -> rtc piece s s'.

Create HintDb pieces.

Lemma pieces_next s s' : rtc piece s s' -> u32 (rt_nextITT (ss_router s)) -> u32 (rt_nextITT (ss_router s')).
Proof. induction 1 as [|? ? ? Hp _ IH]; [done|]. intros Hs. by eapply IH, piece_next. Qed.

Lemma preserves_pieces {A} (m : SS A) : in_pieces m -> preserves m.
Proof. intros Hm lo tg s a s' Hs H. eapply pieces_ok; [|done]. eapply Hm, H. by eapply so_next. Qed.

Lemma pieces_one {A} (m : SS A) : (forall s a s', m s = Done (a, s') -> piece s s') -> in_pieces m.
Proof. intros Hm s a s' _ H. apply rtc_once. by eapply Hm. Qed.

Lemma pieces_ret {A} (a : A) : in_pieces (mret a).
Proof. intros s b s' _ [= _ <-]. apply rtc_refl. Qed.
Lemma pieces_get {A} (f : Session -> A) : in_pieces (SM_get f).
Proof. intros s b s' _ [= _ <-]. apply rtc_refl. Qed.
Lemma pieces_panic {A} : in_pieces (A := A) SM_panic.
Proof. by intros s b s'. Qed.
Lemma pieces_block {A} : in_pieces (A := A) SM_block.
Proof. by intros s b s'. Qed.
Lemma pieces_bind {A B} (m : SS A) (f : A -> SS B) : in_pieces m -> (forall a, in_pieces (f a)) -> in_pieces (m ≫= f).
Proof.
  intros Hm Hf s b s' Hn H. apply SM_bind_inv in H as (a & s1 & H1 & H2). apply Hm in H1; [|done].
  etrans; [exact H1|]. eapply Hf, H2. by eapply pieces_next.
Qed.
Lemma pieces_when b (m : SS ()) : in_pieces m -> in_pieces (SM_when b m).
Proof. intros H. destruct b; [done|apply pieces_ret]. Qed.

Lemma pieces_fields f : frame f -> in_pieces (upd f).
Proof. intros Hf. apply pieces_one. intros s a s' [= _ <-]. by eapply PieceFields. Qed.

(** A method of a task is a change of the task and its sends. *)
Lemma pieces_on_task {A} id (m : TM A) : keeps m -> in_pieces (on_task id m).
Proof.
  intros Hm s a s' _ H. unfold on_task in H. destruct (ss_objs s !! id) as [t|] eqn:Ho; [|done].
  destruct (m _) as [[b ts]| |] eqn:Em; [|done|done]. injection H as _ <-. apply Hm in Em.
  eapply rtc_l; [by eapply PieceTask|]. apply rtc_once.
  by apply (PieceFields _ _ (set_writeCh (ts_writeCh ts))).
Qed.
Lemma pieces_task_at id : in_pieces (task_at id).
Proof. apply pieces_on_task. auto with keeps. Qed.

#[export] Hint Resolve pieces_ret pieces_get pieces_panic pieces_block pieces_when pieces_task_at : pieces.
#[export] Hint Extern 3 (in_pieces (on_task _ _)) => apply pieces_on_task; first
  [ solve [auto with keeps] | solve [keeps]
  | apply keeps_upd; intros ?; cbv zeta; repeat case_match; split; done ] : pieces.

Ltac frame := intros ?; cbv zeta; try case_match; repeat split; first [done|exact (fun H => H)].

(** Taking an operation apart, up to what the lemmas above it say *)
Ltac pieces :=
  repeat first
    [ progress cbv zeta | solve [auto with pieces]
    | match goal with |- in_pieces (_ ≫= _) => apply pieces_bind; [|intros ?] end | apply pieces_when
    | match goal with |- in_pieces (match ?x with _ => _ end) => destruct x end
    | match goal with |- in_pieces (upd _) => apply pieces_fields; solve [frame] end ].

Lemma pieces_Unregister itt : in_pieces (router_Unregister itt).
Proof. apply pieces_one. intros s u s' H. by eapply PieceUnregister. Qed.
Lemma pieces_Register : in_pieces router_Register.
Proof. apply pieces_one. intros s u s' H. by eapply PieceRegister. Qed.
Lemma pieces_AllocateITT : in_pieces router_AllocateITT.
Proof. apply pieces_one. intros s u s' H. by eapply PieceAllocate. Qed.
Lemma pieces_RegisterPersistent itt : in_pieces (router_RegisterPersistent itt).
Proof. apply pieces_one. intros s u s' H. by eapply PieceListen. Qed.
Lemma pieces_delete_task itt : in_pieces (delete_task itt).
Proof. apply pieces_one. intros s u s' H. by eapply PieceForget. Qed.
Lemma pieces_receive ch : in_pieces (receive ch).
Proof. apply pieces_one. intros s u s' H. by eapply PieceReceive. Qed.
Lemma pieces_dispatch itt raw : in_pieces (session_dispatch itt raw).
Proof. apply pieces_one. intros s u s' H. by eapply PieceDispatch. Qed.
Lemma pieces_receive_result id : in_pieces (receive_result id).
Proof. apply pieces_one. intros s u s' H. by eapply PieceResult. Qed.
Lemma pieces_register_task depth cmd itt sn : 0 <= itt < reservedITT -> in_pieces (register_task depth cmd itt sn).
Proof. intros Hi. apply pieces_one. intros s u s' H. by eapply PieceEnter. Qed.
#[export] Hint Resolve pieces_Unregister pieces_Register pieces_AllocateITT pieces_RegisterPersistent
  pieces_delete_task pieces_receive pieces_dispatch pieces_receive_result : pieces.

(** The tag allocated is not the reserved one. *)
Lemma AllocateITT_range s itt s' : u32 (rt_nextITT (ss_router s)) -> router_AllocateITT s = Done (itt, s') ->
  0 <= itt < reservedITT.
Proof.
  intros Hn H. unfold router_AllocateITT, AllocateITT in H. pose proof (allocITT_ok _ Hn) as [Hi _].
  destruct (allocITT _). by injection H as <- _.
Qed.
Lemma pieces_AllocateITT_bind {B} (f : Z -> SS B) :
  (forall itt, 0 <= itt < reservedITT -> in_pieces (f itt)) -> in_pieces (router_AllocateITT ≫= f).
Proof.
  intros Hf s b s' Hn H. apply SM_bind_inv in H as (itt & s1 & E & H). pose proof (AllocateITT_range _ _ _ Hn E) as Hi.
  apply pieces_AllocateITT in E; [|done]. etrans; [exact E|]. eapply (Hf itt Hi), H. by eapply pieces_next.
Qed.

Lemma pieces_window_update e m : in_pieces (window_update e m).
Proof. apply pieces_fields. frame. Qed.
Lemma pieces_updateStatSN sn : in_pieces (updateStatSN sn).
Proof. apply pieces_fields. intros s. cbv zeta. by destruct (_ || _). Qed.
Lemma pieces_stamped raw : in_pieces (stamped raw).
Proof. apply pieces_get. Qed.
Lemma pieces_set {A} (m : SS A) : (forall s a s', m s = Done (a, s') ->
    s' = s \/ (exists w, s' = set_window w s) \/ exists c, s' = set_writeCh c s) -> in_pieces m.
Proof.
  intros Hm s a s' _ H. destruct (Hm s a s' H) as [->|[[w ->]|[c ->]]]; [apply rtc_refl|apply rtc_once..].
  - by apply (PieceFields _ _ (set_window w)).
  - by apply (PieceFields _ _ (set_writeCh c)).
Qed.
Lemma pieces_window_acquire cx : in_pieces (window_acquire cx).
Proof.
  apply pieces_set. intros s a s'. unfold window_acquire. destruct (acquire_fast _) as [[r w]|].
  - intros [= _ <-]. eauto.
  - destruct (cx_done cx); [|done]. intros [= _ <-]. by left.
Qed.
Lemma pieces_send_or_done cx raw : in_pieces (send_or_done cx raw).
Proof.
  apply pieces_set. intros s a s'. unfold send_or_done. destruct (_ && _); [intros [= _ <-]; by left|].
  destruct (send _ _) as [c| |]; [|destruct (cx_done cx); [|done]|done]; intros [= _ <-]; eauto.
Qed.
Lemma pieces_try_send raw : in_pieces (try_send raw).
Proof.
  apply pieces_set. intros s a s'. unfold try_send. destruct (send _ _) as [c| |]; [| |done]; intros [= _ <-]; eauto.
Qed.
#[export] Hint Resolve pieces_window_update pieces_updateStatSN pieces_stamped
  pieces_window_acquire pieces_send_or_done pieces_try_send : pieces.

(** ** Operations *)

Lemma pieces_cleanupTask itt : in_pieces (cleanupTask itt).
Proof.
  unfold cleanupTask. pieces.
Qed.
#[export] Hint Resolve pieces_cleanupTask : pieces.

Lemma pieces_cancel_and_cleanup id err : in_pieces (cancel_and_cleanup id err).
Proof. unfold cancel_and_cleanup. pieces. Qed.
Lemma pieces_unsubmit itt : in_pieces (unsubmit itt).
Proof. unfold unsubmit. pieces. Qed.
Lemma keeps_upd_sent n : keeps (upd_task (set_tk_bytesSent n)).
Proof. apply keeps_upd. by split. Qed.
#[export] Hint Resolve keeps_upd_sent : keeps.
Lemma pieces_readImmediate params id : in_pieces (readImmediate params id).
Proof. unfold readImmediate. pieces. Qed.
#[export] Hint Resolve pieces_cancel_and_cleanup pieces_unsubmit pieces_readImmediate : pieces.

Lemma pieces_submit_command cx cmd itt sn id ch params e : in_pieces (submit_command cx cmd itt sn id ch params e).
Proof. unfold submit_command. pieces. Qed.

Lemma pieces_submit cx cx' depth cmd : in_pieces (submit cx cx' depth cmd).
Proof.
  unfold submit. apply pieces_bind; [auto with pieces|intros rec]. destruct rec; [auto with pieces|].
  apply pieces_bind; [auto with pieces|intros dr]. destruct dr; [auto with pieces|].
  apply pieces_bind; [auto with pieces|intros acq]. destruct acq as [sn|]; [|auto with pieces].
  apply pieces_AllocateITT_bind. intros itt Hi. pieces; [by apply pieces_register_task|apply pieces_submit_command].
Qed.
#[export] Hint Resolve pieces_submit_command pieces_submit : pieces.

Lemma pieces_Submit cx cx' cmd : in_pieces (Submit cx cx' cmd).
Proof. apply pieces_submit. Qed.
Lemma pieces_SubmitStreaming cx cx' cmd : in_pieces (SubmitStreaming cx cx' cmd).
Proof. unfold SubmitStreaming. pieces. Qed.

Lemma pieces_retrySameConnection id : in_pieces (retrySameConnection id).
Proof. unfold retrySameConnection. pieces. Qed.
#[export] Hint Resolve pieces_retrySameConnection : pieces.

Lemma pieces_taskLoop_PDU id raw : in_pieces (taskLoop_PDU id raw).
Proof. unfold taskLoop_PDU. pieces. Qed.
#[export] Hint Resolve pieces_taskLoop_PDU : pieces.

Lemma pieces_taskLoop_turn sch id ch : in_pieces (taskLoop_turn sch id ch).
Proof. unfold taskLoop_turn. pieces. Qed.

(** Unsolicited PDUs *)
Lemma pieces_set_first_err e : in_pieces (set_first_err e).
Proof. apply pieces_fields. frame. Qed.
Lemma pieces_cancel_session : in_pieces cancel_session.
Proof. apply pieces_fields. frame. Qed.
Lemma pieces_spawn g : in_pieces (spawn_goroutine g).
Proof. apply pieces_fields. frame. Qed.
Lemma pieces_event evt : in_pieces (dispatchAsyncEvent evt).
Proof. apply pieces_fields. frame. Qed.
Lemma pieces_fireStateChange st : in_pieces (fireStateChange st).
Proof. apply pieces_fields. frame. Qed.
#[export] Hint Resolve pieces_set_first_err pieces_cancel_session pieces_spawn pieces_event
  pieces_fireStateChange : pieces.

Lemma pieces_triggerReconnect cause : in_pieces (triggerReconnect cause).
Proof. unfold triggerReconnect. pieces. Qed.
Lemma pieces_NOPIn raw : in_pieces (handleUnsolicitedNOPIn raw).
Proof. unfold handleUnsolicitedNOPIn. pieces. Qed.
#[export] Hint Resolve pieces_triggerReconnect pieces_NOPIn : pieces.
Lemma pieces_AsyncMsg raw : in_pieces (handleAsyncMsg raw).
Proof. unfold handleAsyncMsg. pieces. Qed.
Lemma pieces_Reject raw : in_pieces (handleUnsolicitedReject raw).
Proof. unfold handleUnsolicitedReject. pieces. Qed.
#[export] Hint Resolve pieces_AsyncMsg pieces_Reject : pieces.
Lemma pieces_handleUnsolicited raw : in_pieces (handleUnsolicited raw).
Proof. unfold handleUnsolicited. pieces. Qed.

Lemma pieces_confirmation : in_pieces Unsolicited.SendExpStatSNConfirmation.
Proof. unfold Unsolicited.SendExpStatSNConfirmation. pieces. Qed.
Lemma pieces_ping_send cx : in_pieces (sendKeepalivePing_send cx).
Proof. unfold sendKeepalivePing_send. pieces. Qed.
Lemma pieces_await w itt ch e : in_pieces (await_response w itt ch e).
Proof. unfold await_response. pieces. Qed.
#[export] Hint Resolve pieces_await : pieces.
Lemma pieces_ping_wait w itt ch : in_pieces (sendKeepalivePing_wait w itt ch).
Proof. unfold sendKeepalivePing_wait. pieces. Qed.
Lemma pieces_keepalive_tick ctxDone ping : in_pieces (keepalive_tick ctxDone ping).
Proof. unfold keepalive_tick. pieces. Qed.

(** Task management, logout, renegotiation, drain and close *)
Lemma pieces_TMF_send cx fn ref lun : in_pieces (sendTMF_send cx fn ref lun).
Proof. unfold sendTMF_send, tmf_request, send_request. pieces. Qed.
Lemma pieces_TMF_wait w itt ch : in_pieces (sendTMF_wait w itt ch).
Proof. unfold sendTMF_wait. pieces. Qed.
Lemma pieces_cleanupAbortedTask itt : in_pieces (cleanupAbortedTask itt).
Proof. unfold cleanupAbortedTask. pieces. Qed.
#[export] Hint Resolve pieces_TMF_wait pieces_cleanupAbortedTask : pieces.
Lemma pieces_cleanup_each itts : in_pieces (cleanup_each itts).
Proof. induction itts as [|itt itts IH]; cbn [cleanup_each]; pieces. Qed.
#[export] Hint Resolve pieces_cleanup_each : pieces.
Lemma pieces_cleanupTasksByLUN lun : in_pieces (cleanupTasksByLUN lun).
Proof. intros s. by apply pieces_cleanup_each. Qed.
#[export] Hint Resolve pieces_cleanupTasksByLUN : pieces.
Lemma pieces_AbortTask_wait w itt ch target : in_pieces (AbortTask_wait w itt ch target).
Proof. unfold AbortTask_wait, after_TMF. pieces. Qed.
Lemma pieces_lunTMF_wait w itt ch lun : in_pieces (lunTMF_wait w itt ch lun).
Proof. unfold lunTMF_wait, after_TMF. pieces. Qed.
Lemma pieces_logout_send cx cx' reason : in_pieces (logout_send cx cx' reason).
Proof. unfold logout_send, logout_request, send_request. pieces. Qed.
Lemma pieces_logout_wait w itt ch : in_pieces (logout_wait w itt ch).
Proof. unfold logout_wait. pieces. Qed.
Lemma pieces_Logout_finish err : in_pieces (Logout_finish err).
Proof. unfold Logout_finish. pieces. Qed.
Lemma pieces_renegotiate_send cx cx' : in_pieces (renegotiate_send cx cx').
Proof. unfold renegotiate_send. pieces. Qed.
Lemma pieces_renegotiate_wait w itt ch : in_pieces (renegotiate_wait w itt ch).
Proof. unfold renegotiate_wait, applyRenegotiatedParams. pieces. Qed.

Lemma pieces_Drain_start : in_pieces Drain_start.
Proof. unfold Drain_start. pieces. Qed.
Lemma pieces_Drain_wait ctxDone : in_pieces (Drain_wait ctxDone).
Proof. unfold Drain_wait. pieces. Qed.
Lemma pieces_Close_start : in_pieces Close_start.
Proof. unfold Close_start. pieces. Qed.
Lemma pieces_close_tasks l : in_pieces (close_tasks l).
Proof. induction l as [|[itt id] l IH]; cbn [close_tasks]; pieces. Qed.
#[export] Hint Resolve pieces_close_tasks : pieces.
Lemma pieces_Close_finish : in_pieces Close_finish.
Proof. unfold Close_finish. pieces. intros s. by apply pieces_close_tasks. Qed.

Lemma pieces_readPumpLoop_end err ctxDone : in_pieces (readPumpLoop_end err ctxDone).
Proof. unfold readPumpLoop_end. pieces. Qed.
Lemma pieces_writePumpLoop_end err ctxDone : in_pieces (writePumpLoop_end err ctxDone).
Proof. unfold writePumpLoop_end. pieces. Qed.
Lemma pieces_SendTargets_start cx cx' : in_pieces (SendTargets_start cx cx').
Proof. unfold SendTargets_start. pieces. Qed.
Lemma pieces_SendTargets_turn sch itt ch acc : in_pieces (SendTargets_turn sch itt ch acc).
Proof. unfold SendTargets_turn. pieces. Qed.
Lemma pieces_snackTimer id : in_pieces (on_task id snackTimerFires).
Proof. apply pieces_on_task. unfold snackTimerFires. keeps. Qed.

(** ** Interleavings *)

(** A step of a goroutine other than a recovering one: one of the operations as a whole,
    as its goroutine runs it when nobody interferes, or one of the pieces, so that
    anything may come between those of an operation *)
Inductive step (s s' : Session) : Prop :=
  | StepPiece : piece s s' -> step s s'
  (* callers *)
  | StepSubmit cx cx' cmd r : Submit cx cx' cmd s = Done (r, s') -> step s s'
  | StepSubmitStreaming cx cx' cmd r : SubmitStreaming cx cx' cmd s = Done (r, s') -> step s s'
  | StepResult id r : receive_result id s = Done (r, s') -> step s s'
  | StepTMF cx fn ref lun r : sendTMF_send cx fn ref lun s = Done (r, s') -> step s s'
  | StepAbortTask w itt ch target r : AbortTask_wait w itt ch target s = Done (r, s') -> step s s'
  | StepLunTMF w itt ch lun r : lunTMF_wait w itt ch lun s = Done (r, s') -> step s s'
  | StepReset w itt ch r : sendTMF_wait w itt ch s = Done (r, s') -> step s s'
  | StepLogout cx cx' reason r : logout_send cx cx' reason s = Done (r, s') -> step s s'
  | StepLogoutWait w itt ch r : logout_wait w itt ch s = Done (r, s') -> step s s'
  | StepLogoutEnd err r : Logout_finish err s = Done (r, s') -> step s s'
  | StepTargets cx cx' r : SendTargets_start cx cx' s = Done (r, s') -> step s s'
  | StepTargetsTurn sch itt ch acc r : SendTargets_turn sch itt ch acc s = Done (r, s') -> step s s'
  | StepConfirm r : Unsolicited.SendExpStatSNConfirmation s = Done (r, s') -> step s s'
  | StepDrain r : Drain_start s = Done (r, s') -> step s s'
  | StepDrainWait ctxDone r : Drain_wait ctxDone s = Done (r, s') -> step s s'
  | StepClose r : Close_start s = Done (r, s') -> step s s'
  | StepCloseEnd r : Close_finish s = Done (r, s') -> step s s'
  (* the session's goroutines *)
  | StepTurn sch id ch r : taskLoop_turn sch id ch s = Done (r, s') -> step s s'
  | StepDispatch itt raw r : session_dispatch itt raw s = Done (r, s') -> step s s'
  | StepWrite c : s' = set_writeCh c s -> step s s'
  | StepUnsolicited raw r : handleUnsolicited raw s = Done (r, s') -> step s s'
  | StepSnackTimer id r : on_task id snackTimerFires s = Done (r, s') -> step s s'
  | StepPing cx r : sendKeepalivePing_send cx s = Done (r, s') -> step s s'
  | StepPingWait w itt ch r : sendKeepalivePing_wait w itt ch s = Done (r, s') -> step s s'
  | StepKeepalive ctxDone ping r : keepalive_tick ctxDone ping s = Done (r, s') -> step s s'
  | StepRenegotiate cx cx' r : renegotiate_send cx cx' s = Done (r, s') -> step s s'
  | StepRenegotiateWait w itt ch r : renegotiate_wait w itt ch s = Done (r, s') -> step s s'
  | StepReadEnd err ctxDone r : readPumpLoop_end err ctxDone s = Done (r, s') -> step s s'
  | StepWriteEnd err ctxDone r : writePumpLoop_end err ctxDone s = Done (r, s') -> step s s'.

(** The whole operations are made of pieces. *)
Lemma step_pieces s s' : step s s' -> u32 (rt_nextITT (ss_router s)) -> rtc piece s s'.
Proof.
  intros [] Hn; [by apply rtc_once|..];
    try match goal with H : _ = Done _ |- _ => refine ((_ : in_pieces _) _ _ _ Hn H) end;
    eauto using pieces_Submit, pieces_SubmitStreaming, pieces_receive_result, pieces_TMF_send,
      pieces_AbortTask_wait, pieces_lunTMF_wait, pieces_TMF_wait, pieces_logout_send,
      pieces_logout_wait, pieces_Logout_finish, pieces_SendTargets_start, pieces_SendTargets_turn,
      pieces_confirmation, pieces_Drain_start, pieces_Drain_wait, pieces_Close_start,
      pieces_Close_finish, pieces_taskLoop_turn.
  all: eauto using pieces_dispatch, pieces_handleUnsolicited, pieces_snackTimer, pieces_ping_send,
    pieces_ping_wait, pieces_keepalive_tick, pieces_renegotiate_send, pieces_renegotiate_wait,
    pieces_readPumpLoop_end, pieces_writePumpLoop_end.
  subst s'. apply rtc_once. by apply (PieceFields _ _ (set_writeCh c)).
Qed.

Lemma step_session_ok lo tg s s' : step s s' -> session_ok lo tg s -> session_ok lo tg s'.
Proof. intros Hst Hs. eapply pieces_ok; [|exact Hs]. apply step_pieces; [done|]. by eapply so_next. Qed.

(** ** Recovery *)

Create HintDb preserves.

Lemma preserves_ret {A} (a : A) : preserves (mret a).
Proof. by intros lo tg s b s' H [= _ <-]. Qed.
Lemma preserves_bind {A B} (m : SS A) (f : A -> SS B) :
  preserves m -> (forall a, preserves (f a)) -> preserves (m ≫= f).
Proof. intros Hm Hf lo tg s b s' Hs H. apply SM_bind_inv in H as (a & s1 & H1 & H2). by eapply Hf, H2; eapply Hm, H1. Qed.
#[export] Hint Extern 4 (preserves _) => apply preserves_pieces; solve [auto with pieces] : preserves.

(** Taking an operation of a recovery apart *)
Ltac preserves :=
  repeat first
    [ progress cbv zeta | solve [auto with preserves]
    | match goal with |- preserves (_ ≫= _) => apply preserves_bind; [|intros ?] end
    | match goal with |- preserves (match ?x with _ => _ end) => destruct x end
    | match goal with |- preserves (upd _) => apply preserves_pieces, pieces_fields; solve [frame] end ].

(** What other goroutines do while a recovery waits *)
Definition interleaves {A} (m : SS A) : Prop := forall s a s', m s = Done (a, s') -> rtc step s s'.

Lemma preserves_interleaves {A} (m : SS A) : interleaves m -> preserves m.
Proof.
  intros Hm lo tg s u s' Hs H. apply Hm in H. clear Hm. induction H as [|? ? ? Hst _ IH]; [done|].
  by eapply IH, step_session_ok.
Qed.
#[export] Hint Extern 2 (preserves _) => apply preserves_interleaves; assumption : preserves.

Lemma session_ok_weaken lo tg lo' tg' s : lo' ⊆ lo -> tg' ⊆ tg -> session_ok lo tg s -> session_ok lo' tg' s.
Proof.
  intros Hl Ht [H1 H2 H3 H4 H5 H6]. split; try done.
  - intros itt id Hid. destruct (H1 itt id Hid) as (Hr & Hn & Hg). split; [done|]. split; [|done]. by intros ?%Hl.
  - apply Forall_forall. intros id ?%Hl. by apply (proj1 (Forall_forall _ _) H5).
  - apply Forall_forall. intros e ?%Ht. by apply (proj1 (Forall_forall _ _) H6).
Qed.

(** Different tags name different tasks. *)
Lemma table_NoDup lo tg s : session_ok lo tg s -> NoDup (map_to_list (ss_tasks s)).*2.
Proof.
  intros Hs. apply NoDup_fmap_2_strong; [|apply NoDup_map_to_list].
  intros [itt id] [itt' id'] Hi%elem_of_map_to_list Hi'%elem_of_map_to_list [= <-].
  destruct (so_table _ _ _ Hs itt id Hi) as (_ & _ & t & Ht & <-).
  destruct (so_table _ _ _ Hs itt' id Hi') as (_ & _ & t' & Ht' & <-). congruence.
Qed.

Lemma table_tags lo tg s : session_ok lo tg s -> Forall (fun e => tagged (ss_objs s) e.1 e.2) (map_to_list (ss_tasks s)).
Proof. intros Hs. apply Forall_forall. intros [itt id] Hi%elem_of_map_to_list. by destruct (so_table _ _ _ Hs itt id Hi) as (_ & _ & ?). Qed.

Lemma preserves_abort_if_closed : preserves abort_if_closed.
Proof. unfold abort_if_closed. preserves. Qed.
Lemma preserves_close_channels l : preserves (close_channels l).
Proof.
  induction l as [|[itt id] l IH]; cbn [close_channels]; [apply preserves_ret|].
  apply preserves_bind; [|done]. intros lo tg s u s' Hs [= _ <-].
  apply (session_ok_router lo tg (UnregisterAndClose itt)); [|done].
  intros r Hr. unfold UnregisterAndClose. by destruct (rt_pending r !! itt) as [[? []]|].
Qed.
Lemma preserves_cancel_all err l : preserves (cancel_all err l).
Proof. induction l as [|[itt id] l IH]; cbn [cancel_all]; preserves. Qed.
Lemma preserves_install c : preserves (install c).
Proof. apply preserves_pieces, pieces_fields. frame. Qed.
#[export] Hint Resolve preserves_abort_if_closed preserves_close_channels preserves_cancel_all preserves_install : preserves.

(** The tasks taken from the table are named by no entry. *)
Lemma reconnect_start_ok others s r s' : preserves others -> session_ok [] [] s ->
  reconnect_start others s = Done (r, s') ->
  match r with
  | Some snapshot => session_ok snapshot.*2 [] s' /\ NoDup snapshot.*2
  | None => session_ok [] [] s'
  end.
Proof.
  intros Ho Hs H. unfold reconnect_start in H.
  apply SM_bind_inv in H as (b & s1 & E1 & H). apply (preserves_abort_if_closed [] []) in E1; [|done].
  destruct b; [by injection H as <- <-|].
  apply SM_bind_inv in H as (u & s2 & E2 & H). apply (preserves_pieces _ pieces_cancel_session [] []) in E2; [|done].
  apply SM_bind_inv in H as (u' & s3 & E3 & H). apply (Ho [] []) in E3; [|done].
  apply SM_bind_inv in H as (b & s4 & E4 & H). apply (preserves_abort_if_closed [] []) in E4; [|done].
  destruct b; [by injection H as <- <-|]. cbn in H.
  apply SM_bind_inv in H as (l & s5 & [= <- <-] & H). apply SM_bind_inv in H as (u2 & s6 & [= _ <-] & H).
  apply SM_bind_inv in H as (u3 & s7 & E7 & [= <- <-]).
  split; [|by eapply table_NoDup]. eapply preserves_close_channels; [|exact E7].
  pose proof (table_tags _ _ _ E4) as Ht. destruct E4 as [H1 H2 H3 H4 H5 H6]. split; try done.
  apply Forall_fmap. eapply Forall_impl; [exact Ht|]. intros [itt id] (t & Ho' & _). by eapply lookup_lt_Some.
Qed.

(** From one knowledge of the recovery to another *)
Definition leads {A} (lo : list nat) (tg : list (Z * nat)) (lo' : list nat) (tg' : list (Z * nat)) (m : SS A) : Prop :=
  forall s a s', session_ok lo tg s -> m s = Done (a, s') -> session_ok lo' tg' s'.

Lemma leads_preserves {A} lo tg lo' tg' (m : SS A) : preserves m -> lo' ⊆ lo -> tg' ⊆ tg -> leads lo tg lo' tg' m.
Proof. intros Hm Hl Ht s a s' Hs H. eapply session_ok_weaken; [done|done|]. by eapply Hm, H. Qed.
Lemma leads_bind {A B} lo tg lo1 tg1 lo2 tg2 (m : SS A) (f : A -> SS B) :
  leads lo tg lo1 tg1 m -> (forall a, leads lo1 tg1 lo2 tg2 (f a)) -> leads lo tg lo2 tg2 (m ≫= f).
Proof. intros Hm Hf s b s' Hs H. apply SM_bind_inv in H as (a & s1 & H1 & H2). by eapply Hf, H2; eapply Hm, H1. Qed.

Lemma preserves_AllocateITT_range lo tg s itt s' : session_ok lo tg s -> router_AllocateITT s = Done (itt, s') ->
  0 <= itt < reservedITT /\ session_ok lo tg s'.
Proof.
  intros Hs E. split; [eapply AllocateITT_range, E; by eapply so_next|].
  by eapply (preserves_pieces _ pieces_AllocateITT), E.
Qed.

Lemma leads_AllocateITT {B} lo tg lo' tg' (f : Z -> SS B) :
  (forall itt, 0 <= itt < reservedITT -> leads lo tg lo' tg' (f itt)) -> leads lo tg lo' tg' (router_AllocateITT ≫= f).
Proof.
  intros Hf s b s' Hs H. apply SM_bind_inv in H as (itt & s1 & E & H).
  destruct (preserves_AllocateITT_range _ _ _ _ _ Hs E) as [Hi Hs1]. by eapply Hf, H.
Qed.

Ltac subseteq := first [done|by apply list_subseteq_cons|apply list_subseteq_nil].

(** The operations of a recovery up to the step that uses what it knows *)
Ltac leads :=
  repeat first
    [ progress cbv zeta
    | solve [apply leads_preserves; [solve [preserves]|subseteq|subseteq]]
    | apply leads_AllocateITT; intros ? ?
    | match goal with |- leads ?lo ?tg _ _ (_ ≫= _) =>
        apply (leads_bind lo tg lo tg); [apply leads_preserves; [solve [preserves]|done|done]|intros ?] end
    | match goal with |- leads _ _ _ _ (match ?x with _ => _ end) => destruct x end ].

(** A task that no entry names gets another tag. *)
Lemma leads_retag id lost itt f : (forall t, tk_itt (f t) = itt /\ tk_resultCh (f t) = tk_resultCh t) ->
  leads (id :: lost) [] (id :: lost) [(itt, id)] (on_task id (upd_task f)).
Proof.
  intros Hf s u s' [H1 H2 H3 H4 H5 H6] H. unfold on_task in H. destruct (ss_objs s !! id) as [t|] eqn:Ho; [|done].
  injection H as _ <-. destruct (Hf t) as [Hi Hr].
  pose proof (Forall_lookup_1 _ _ _ _ H2 Ho) as Hres. split; cbn; [| |done|done|by rewrite length_insert|].
  - intros k i Hk. destruct (H1 k i Hk) as (Hr1 & Hn & t' & Ho' & Ht'). split; [done|]. split; [done|].
    exists t'. apply not_elem_of_cons in Hn as [Hn _]. by rewrite list_lookup_insert_ne.
  - apply Forall_insert; [done|]. unfold result_ok in *. by rewrite Hr.
  - constructor; [|constructor]. exists (f t). split; [|done]. apply list_lookup_insert_eq. by eapply lookup_lt_Some.
Qed.

(** It is put into the table. *)
Lemma leads_insert id lost itt : 0 <= itt < reservedITT -> (id ∉ lost) ->
  leads (id :: lost) [(itt, id)] lost [] (upd (fun s => set_tasks (<[itt := id]> (ss_tasks s)) s)).
Proof.
  intros Hi Hid s u s' Hs [= _ <-].
  destruct (session_ok_weaken _ _ lost [] s ltac:(by apply list_subseteq_cons) ltac:(apply list_subseteq_nil) Hs) as [H1 H2 H3 H4 H5 H6].
  split; cbn; try done. apply map_Forall_insert_2; [|done]. split; [done|]. split; [done|].
  pose proof (so_tags _ _ _ Hs) as Ht. by apply Forall_cons in Ht as [Ht _].
Qed.

(** The waits of the goroutine that retries a task *)
Definition waits_ok (w : nat -> SS CtxSched) : Prop := forall id, interleaves (w id).

Lemma leads_retryTask wa ws id lost : waits_ok wa -> waits_ok ws -> (id ∉ lost) ->
  leads (id :: lost) [] lost [] (retryTask wa ws id).
Proof.
  intros Hwa Hws Hid. pose proof (Hwa id). pose proof (Hws id). unfold retryTask. leads.
  match goal with _ : 0 <= ?itt < reservedITT |- _ => apply (leads_bind _ _ (id :: lost) [(itt, id)]) end.
  { apply leads_retag. intros t. cbn [tk_isRead]. by destruct (tk_isRead t). }
  intros _. leads. all: eapply leads_bind; [by apply leads_insert|intros _]; leads.
Qed.

Lemma leads_retryTasks wa ws l : waits_ok wa -> waits_ok ws -> NoDup l.*2 -> leads l.*2 [] [] [] (retryTasks wa ws l).
Proof.
  intros Hwa Hws. induction l as [|[itt id] l IH]; cbn [retryTasks fmap list_fmap snd]; [intros _; leads|].
  intros [Hid Hnd]%NoDup_cons. eapply leads_bind; [by apply leads_retryTask|intros _]. by apply IH.
Qed.

Definition attempt_ok (a : Attempt) : Prop := interleaves (at_backoff a) /\ interleaves (at_login a).

Lemma preserves_attempts l : Forall attempt_ok l -> forall e, preserves (attempts l e).
Proof.
  induction 1 as [|a l [H1 H2] _ IH]; intros e; cbn [attempts]; [preserves|].
  pose proof (preserves_interleaves _ H1). pose proof (preserves_interleaves _ H2).
  apply preserves_bind; [done|intros _]. apply preserves_bind; [apply preserves_abort_if_closed|intros closed].
  destruct closed; [apply preserves_ret|]. apply preserves_bind; [done|intros _].
  destruct (at_outcome a); [apply preserves_ret|apply IH].
Qed.

Lemma leads_finish wa ws n l outcome : waits_ok wa -> waits_ok ws -> NoDup l.*2 ->
  leads l.*2 [] [] [] (reconnect_finish wa ws n l outcome).
Proof.
  intros Hwa Hws Hnd. unfold reconnect_finish. destruct outcome as [c|e]; leads.
  eapply leads_bind; [by apply leads_retryTasks|intros _]. leads.
Qed.

Lemma preserves_reconnect wa ws others tries cause s u s' : waits_ok wa -> waits_ok ws -> interleaves others ->
  Forall attempt_ok tries ->
  session_ok [] [] s -> reconnect wa ws others tries cause s = Done (u, s') -> session_ok [] [] s'.
Proof.
  intros Hwa Hws Ho Ht Hs H. unfold reconnect in H. apply SM_bind_inv in H as (cfg & s0 & [= <- <-] & H).
  apply SM_bind_inv in H as (r & s1 & H1 & H). apply reconnect_start_ok in H1; [|by apply preserves_interleaves|done].
  destruct r as [l|]; [|by injection H as _ <-]. destruct H1 as [Hs1 Hnd].
  apply SM_bind_inv in H as (o & s2 & H2 & H).
  apply (preserves_attempts _ (Forall_take _ _ _ Ht) _ l.*2 []) in H2; [|done].
  destruct o as [outcome|]; [by eapply leads_finish, H|]. injection H as _ <-.
  eapply session_ok_weaken; [apply list_subseteq_nil|done|exact H2].
Qed.

(** The tasks stay in the table while the connection is replaced. *)
Lemma replaceConnection_start_ok others dial attempt s r s' : preserves others -> preserves dial -> session_ok [] [] s ->
  replaceConnection_start others dial attempt s = Done (r, s') ->
  match r with
  | Ok snapshot => session_ok [] snapshot s' /\ NoDup snapshot.*2
  | Err _ => session_ok [] [] s'
  end.
Proof.
  intros Ho Hd Hs H. unfold replaceConnection_start in H.
  apply SM_bind_inv in H as (u & s0 & E0 & H). apply (preserves_pieces _ pieces_cancel_session [] []) in E0; [|done].
  apply SM_bind_inv in H as (u1 & s1 & E1 & H). apply (Ho [] []) in E1; [|done].
  apply SM_bind_inv in H as (l & s2 & [= <- <-] & H). apply SM_bind_inv in H as (u2 & s3 & E3 & H).
  assert (Hl : session_ok [] (map_to_list (ss_tasks s1)) s1).
  { pose proof (table_tags _ _ _ E1) as Ht. by destruct E1. }
  apply (preserves_close_channels _ [] (map_to_list (ss_tasks s1))) in E3; [|done].
  apply SM_bind_inv in H as (u4 & s4 & E4 & H). apply (Hd [] (map_to_list (ss_tasks s1))) in E4; [|done].
  destruct attempt as [c|e]; [|injection H as <- <-; by eapply session_ok_weaken; [..|exact E4]; subseteq].
  apply SM_bind_inv in H as (u3 & s5 & E5 & [= <- <-]). split; [by eapply preserves_install, E5|by eapply table_NoDup].
Qed.

Lemma session_ok_ext lo tg s s' : ss_objs s' = ss_objs s -> ss_tasks s' = ss_tasks s -> ss_router s' = ss_router s ->
  ss_drainDone s' = ss_drainDone s -> ss_draining s' = ss_draining s -> session_ok lo tg s -> session_ok lo tg s'.
Proof. intros E1 E2 E3 E4 E5 [H1 H2 H3 H4 H5 H6]. split; by rewrite ?E1, ?E2, ?E3, ?E4, ?E5. Qed.

(** A task gets another tag in the table. *)
Lemma session_ok_move s itt new id t t' tg : 0 <= new < reservedITT -> (id ∉ tg.*2) ->
  session_ok [] ((itt, id) :: tg) s -> ss_objs s !! id = Some t -> tk_itt t' = new -> tk_resultCh t' = tk_resultCh t ->
  session_ok [] tg (set_tasks (delete itt (<[new := id]> (ss_tasks s))) (set_objs (<[id := t']> (ss_objs s)) s)).
Proof.
  intros Hn Hid [H1 H2 H3 H4 H5 H6] Ho Ht Hr. apply Forall_cons in H6 as [(u & Hu & Hi) H6]. cbn in Hu, Hi.
  assert (u = t) as -> by congruence. clear Hu.
  pose proof (Forall_lookup_1 _ _ _ _ H2 Ho) as Hres. assert (id < length (ss_objs s))%nat by by eapply lookup_lt_Some.
  split; cbn; [| |done|done|done|].
  - intros k i Hk. apply lookup_delete_Some in Hk as [Hk1 Hk].
    destruct (decide (k = new)) as [->|Hkn].
    + rewrite lookup_insert_eq in Hk. injection Hk as <-. split; [done|]. split; [apply not_elem_of_nil|].
      exists t'. split; [|done]. by apply list_lookup_insert_eq.
    + rewrite lookup_insert_ne in Hk by done. destruct (H1 k i Hk) as (Hr1 & Hn1 & u & Hu' & Hi'). split; [done|]. split; [done|].
      exists u. split; [|done]. rewrite list_lookup_insert_ne; [done|]. intros ->. congruence.
  - apply Forall_insert; [done|]. unfold result_ok in *. by rewrite Hr.
  - apply Forall_forall. intros [k i] Hki. destruct (proj1 (Forall_forall _ _) H6 _ Hki) as (u & Hu' & Hi').
    exists u. split; [|done]. rewrite list_lookup_insert_ne; [done|]. cbn. intros ->. apply Hid. exact (list_elem_of_fmap_2 snd _ _ Hki).
Qed.

Lemma leads_reassign_finish itt id new ch result tg : 0 <= new < reservedITT -> (id ∉ tg.*2) ->
  leads [] ((itt, id) :: tg) [] tg (reassign_finish itt id new ch result).
Proof.
  intros Hn Hid. unfold reassign_finish. cbv zeta. destruct (match result with Ok _ => _ | Err _ => _ end); [|leads].
  eapply leads_bind; [apply leads_preserves; [solve [preserves]|done|done]|intros _].
  intros s u s' Hs H. apply SM_bind_inv in H as (u1 & s1 & E1 & [= _ <-]).
  unfold on_task in E1. destruct (ss_objs s !! id) as [t|] eqn:Ho; [|done]. injection E1 as _ <-.
  refine (session_ok_ext _ _ _ _ _ _ _ _ _ (session_ok_move s itt new id t _ tg Hn Hid Hs Ho _ _)); reflexivity.
Qed.

(** The waits of an exchange *)
Definition exchange_ok (x : Exchange) : Prop := interleaves (ex_send x) /\ interleaves (ex_others x).

Lemma preserves_exchange {A} x (wait : WaitSched -> Z -> nat -> SS (res A)) req : exchange_ok x ->
  (forall w itt ch, preserves (wait w itt ch)) -> preserves (run_exchange x wait req).
Proof.
  intros [Hs Ho] Hw. unfold run_exchange. destruct req as [[[itt ch] raw]|e]; [|apply preserves_ret].
  apply preserves_bind; [by apply preserves_interleaves|intros cx].
  apply preserves_bind; [apply preserves_pieces; unfold send_request; pieces|intros [[itt' ch']|e]; [|apply preserves_ret]].
  apply preserves_bind; [by apply preserves_interleaves|done].
Qed.

Lemma leads_reassign x itt id tg : exchange_ok x -> (id ∉ tg.*2) -> leads [] ((itt, id) :: tg) [] tg (reassign x itt id).
Proof.
  intros Hx Hid. unfold reassign. leads.
  eapply leads_bind; [apply leads_preserves; [|done|done]|intros req].
  { apply preserves_pieces. unfold tmf_request. pieces. }
  eapply leads_bind; [apply leads_preserves; [|done|done]|intros result; by apply leads_reassign_finish].
  apply preserves_exchange; [done|]. intros w i ch. apply preserves_pieces, pieces_TMF_wait.
Qed.

Lemma leads_reassign_all l : forall xs, Forall exchange_ok xs -> NoDup l.*2 -> leads [] l [] [] (reassign_all xs l).
Proof.
  induction l as [|[itt id] l IH]; intros [|x xs] Hxs Hnd; cbn [reassign_all].
  1, 2: by leads.
  { intros s u s' _ H. discriminate H. }
  apply Forall_cons in Hxs as [Hx Hxs]. apply NoDup_cons in Hnd as [Hid Hnd].
  eapply leads_bind; [by apply leads_reassign|intros _]. by apply IH.
Qed.

Lemma preserves_replace_logout wa x : interleaves wa -> exchange_ok x -> preserves (replace_logout wa x).
Proof.
  intros Hwa Hx. unfold replace_logout. apply preserves_bind; [by apply preserves_interleaves|intros cx].
  apply preserves_bind; [apply preserves_pieces; unfold logout_request; pieces|intros req].
  apply preserves_bind; [|intros _; apply preserves_ret]. apply preserves_exchange; [done|]. intros w itt ch.
  apply preserves_pieces, pieces_bind; [apply pieces_logout_wait|intros e; apply pieces_ret].
Qed.

(** The waits of a replacement *)
Record replacement_ok (rp : Replacement) : Prop := mkReplacementOk {
  ro_others : interleaves (rp_others rp); ro_dial : interleaves (rp_dial rp); ro_acquire : interleaves (rp_acquire rp);
  ro_logout : exchange_ok (rp_logout rp); ro_reassigns : Forall exchange_ok (rp_reassigns rp) }.

Lemma preserves_recover rp wa ws others tries cause s u s' : replacement_ok rp -> waits_ok wa -> waits_ok ws ->
  interleaves others -> Forall attempt_ok tries ->
  session_ok [] [] s -> recover rp wa ws others tries cause s = Done (u, s') -> session_ok [] [] s'.
Proof.
  intros [Hot Hdl Hac Hlg Hxs] Hwa Hws Ho Ht Hs H. unfold recover in H. apply SM_bind_inv in H as (replaced & s1 & H1 & H).
  apply SM_bind_inv in H as (u1 & s2 & H2 & [= _ <-]). apply (session_ok_frame [] [] (set_recovering false)); [frame|].
  assert (Hs1 : session_ok [] [] s1).
  { unfold replaceConnection in H1. apply SM_bind_inv in H1 as (start & s3 & H3 & H1).
    apply replaceConnection_start_ok in H3; [|by apply preserves_interleaves..|done].
    destruct start as [l|e]; [|by injection H1 as _ <-].
    destruct H3 as [Hs3 Hnd]. apply SM_bind_inv in H1 as (u2 & s4 & H4 & H1).
    apply (preserves_replace_logout _ _ Hac Hlg [] l) in H4; [|done]. apply SM_bind_inv in H1 as (u3 & s5 & H5 & H1).
    apply (leads_reassign_all _ _ Hxs Hnd) in H5; [|done]. apply SM_bind_inv in H1 as (u4 & s6 & [= _ <-] & [= _ <-]).
    by apply (session_ok_frame [] [] (set_recovering false)); [frame|]. }
  destruct replaced as [v|e]; [by injection H2 as _ <-|by eapply (preserves_reconnect wa ws), H2].
Qed.

(** A step of the session: of one of its goroutines, or a whole recovery with what
    the others do at each of its waits *)
Inductive session_step (s s' : Session) : Prop :=
  | StepOne : step s s' -> session_step s s'
  | StepReconnect wa ws others tries cause u : waits_ok wa -> waits_ok ws -> interleaves others -> Forall attempt_ok tries ->
      reconnect wa ws others tries cause s = Done (u, s') -> session_step s s'
  | StepRecover rp wa ws others tries cause u : replacement_ok rp -> waits_ok wa -> waits_ok ws ->
      interleaves others -> Forall attempt_ok tries ->
      recover rp wa ws others tries cause s = Done (u, s') -> session_step s s'.

Lemma session_step_ok s s' : session_step s s' -> session_ok [] [] s -> session_ok [] [] s'.
Proof.
  intros [Hst|wa ws o tr c u Hwa Hws Ho Ht H|rp wa ws o tr c u Hr Hwa Hws Ho Ht H] Hs.
  - by eapply step_session_ok.
  - by eapply (preserves_reconnect wa ws), H.
  - by eapply (preserves_recover rp wa ws), H.
Qed.

Lemma NewSession_ok params dh dd cfg : session_ok [] [] (NewSession params dh dd cfg).
Proof. split; [apply map_Forall_empty|constructor|unfold in_width; cbn; lia|done|constructor|constructor]. Qed.

(** ** Properties *)

(** C3.  The tables of a session stay well formed in every interleaving of its
    callers, its task loops, its pumps and timers, piece by piece, and through any
    number of reconnects and connection replacements, with whatever pieces the others
    take at each of their waits: for the old pumps, the backoff, a dial and login, the
    window, the write channel, a response.  For every target, a tag in the task table
    is never the reserved one and names a task that has it, so
    different tags name different tasks; every task's result channel is open and
    holds at most the one result it has room for, so a received result is one that
    was sent; and a waiting [Drain] has the session draining.  (Between two of its
    waits a recovery is not interrupted, and only one runs at a time.) *)
Theorem session_invariant (params : NegotiatedParams) (dh dd : bool) (cfg : sessionConfig) (s : Session) :
  rtc session_step (NewSession params dh dd cfg) s ->
  (forall itt id, ss_tasks s !! itt = Some id ->
     0 <= itt < 0xFFFFFFFF /\ exists t, ss_objs s !! id = Some t /\ tk_itt t = itt) /\
  (forall itt itt' id, ss_tasks s !! itt = Some id -> ss_tasks s !! itt' = Some id -> itt = itt') /\
  (forall id t, ss_objs s !! id = Some t ->
     ch_closed (tk_resultCh t) = false /\ ch_cap (tk_resultCh t) = 1%nat /\ (length (ch_buf (tk_resultCh t)) <= 1)%nat) /\
  (ss_drainDone s = true -> ss_draining s = true).
Proof.
  intros H. assert (Hs : session_ok [] [] s).
  { revert H. generalize (NewSession_ok params dh dd cfg). generalize (NewSession params dh dd cfg).
    intros s0 Hs0 H. induction H as [|? ? ? Hst _ IH]; [done|]. by eapply IH, session_step_ok. }
  destruct Hs as [H1 H2 _ H4 _ _].
  assert (H1' : forall itt id, ss_tasks s !! itt = Some id -> 0 <= itt < 0xFFFFFFFF /\ tagged (ss_objs s) itt id).
  { intros itt id Hi. by destruct (H1 _ _ Hi) as (? & _ & ?). }
  split; [exact H1'|]. split; [|split; [|exact H4]].
  - intros itt itt' id Hi Hi'. destruct (H1' _ _ Hi) as (_ & t & Ht & <-).
    destruct (H1' _ _ Hi') as (_ & t' & Ht' & <-). congruence.
  - intros id t Ho. exact (Forall_lookup_1 _ _ _ _ H2 Ho).
Qed.

(** A read is submitted, the connection is lost, and the read is sent again. *)
Lemma session_invariant_witness :
  exists s, rtc session_step (NewSession Defaults false false defaultConfig) s /\ ss_tasks s !! 1 = Some 0%nat /\
    exists t, ss_objs s !! 0%nat = Some t /\ tk_itt t = 1.
Proof.
  pose (cx := mkCtxSched false false).
  destruct (Submit cx cx test_read (NewSession Defaults false false defaultConfig)) as [[r s1]| |] eqn:E; [|by vm_compute in E..].
  destruct (reconnect (alone cx) (alone cx) (mret ()) [mkAttempt (mret ()) (mret ()) (Ok (mkNewConn Defaults false false))] EOF s1)
    as [[u s]| |] eqn:E2; [|by vm_compute in E; injection E as _ <-; vm_compute in E2..].
  assert (Hi : forall A (a : A), interleaves (mret a)) by (intros A a s0 u0 s0' [= _ <-]; apply rtc_refl).
  assert (H : rtc session_step (NewSession Defaults false false defaultConfig) s).
  { eapply rtc_l; [apply StepOne; by eapply StepSubmit|]. apply rtc_once. eapply StepReconnect; [intros id; apply Hi..|apply Hi| |exact E2].
    constructor; [split; apply Hi|constructor]. }
  assert (Ht : ss_tasks s !! 1 = Some 0%nat).
  { vm_compute in E. injection E as _ <-. vm_compute in E2. injection E2 as _ <-. reflexivity. }
  exists s. split; [exact H|]. split; [exact Ht|].
  destruct (session_invariant _ _ _ _ s H) as (H1 & _). destruct (H1 1 0%nat Ht) as (_ & Hx). exact Hx.
Defined.
