(* ===== verification/Target.v ===== *)
(** The target of the repository ([src/test/target.go]): an in-process iSCSI
    target whose handlers answer the PDUs of an initiator.

    [TargetState] is what a connection's serving goroutine works on: the
    connection ([TargetConn]), the target's command sequencing ([SessionState]),
    the call counter of [HandleSCSIFunc], and the target's settings.  A handler is
    an operation of [TT], which can fail, block and panic; a read blocks while the
    initiator has not sent the whole PDU, and [ErrWouldBlock] is how the bytes
    received so far end.  [MockTarget] is the table of handlers, which is filled
    before the target serves. *)
From S2P Require Import Prelude Errors Bhs PduTactics PduInitiator PduTarget Pdu GoIO Digest Framer.
From S2P Require Import Chan Text.
#[local] Open Scope string_scope.
#[local] Open Scope list_scope.
#[local] Open Scope Z_scope.

(** ** Command sequencing *)

Record SessionState := mkSessionState {
  st_expCmdSN : Z;
  st_maxCmdSNDelta : Z;   (* an int32 *)
  st_initialized : bool;
}.

Definition NewSessionState : SessionState := mkSessionState 0 10 false.

(** [ss.Update]: the ExpCmdSN and MaxCmdSN for the response *)
Definition Update (cmdSN : Z) (immediate : bool) (ss : SessionState) : Z * Z * SessionState :=
  let ss := if negb (st_initialized ss) then mkSessionState cmdSN (st_maxCmdSNDelta ss) true else ss in
  let ss := if negb immediate
            then mkSessionState (uint32 (cmdSN + 1)) (st_maxCmdSNDelta ss) (st_initialized ss) else ss in
  (st_expCmdSN ss, uint32 (st_expCmdSN ss + st_maxCmdSNDelta ss), ss).

Definition SetMaxCmdSNDelta (delta : Z) (ss : SessionState) : SessionState :=
  mkSessionState (st_expCmdSN ss) delta (st_initialized ss).

(** ** State *)

(** A nil pointer, [None], echoes what the initiator proposes. *)
Record NegotiationConfig := mkNegotiationConfig {
  nc_ImmediateData : option bool;
  nc_InitialR2T : option bool;
  nc_FirstBurstLength : option Z;
  nc_MaxBurstLength : option Z;
  nc_MaxRecvDataSegmentLength : option Z;
  nc_ErrorRecoveryLevel : option Z;
}.

Definition boolToYesNo (v : bool) : string := if v then "Yes" else "No".

Record TargetConn := mkTargetConn {
  tc_r : Reader;      (* nc, receiving *)
  tc_w : Writer;      (* nc, sending *)
  tc_statSN : Z;
}.

Record TargetState := mkTargetState {
  tg_conn : TargetConn;
  tg_session : SessionState;
  tg_count : Z;       (* the calls of the [HandleSCSIFunc] handler, an atomic.Int32 *)
  tg_negotiationConfig : NegotiationConfig;
  tg_strict : bool;
}.

Definition set_conn (c : TargetConn) (st : TargetState) : TargetState :=
  mkTargetState c (tg_session st) (tg_count st) (tg_negotiationConfig st) (tg_strict st).
Definition set_session (ss : SessionState) (st : TargetState) : TargetState :=
  mkTargetState (tg_conn st) ss (tg_count st) (tg_negotiationConfig st) (tg_strict st).
Definition set_count (n : Z) (st : TargetState) : TargetState :=
  mkTargetState (tg_conn st) (tg_session st) n (tg_negotiationConfig st) (tg_strict st).

Definition SetStrictMode (strict : bool) (st : TargetState) : TargetState :=
  mkTargetState (tg_conn st) (tg_session st) (tg_count st) (tg_negotiationConfig st) strict.
Definition SetNegotiationConfig (cfg : NegotiationConfig) (st : TargetState) : TargetState :=
  mkTargetState (tg_conn st) (tg_session st) (tg_count st) cfg (tg_strict st).

Abbreviation TT := (SM TargetState).

(** A handler returns nil or an error, which closes the connection. *)
Definition PDUHandler : Type := RawPDU -> PDU -> TT (res ()).

Record MockTarget := mkMockTarget { mt_handlers : gmap Z PDUHandler }.

Definition Handle (opcode : Z) (h : PDUHandler) (mt : MockTarget) : MockTarget :=
  mkMockTarget (<[opcode := h]> (mt_handlers mt)).

(** A new target, and the connection of its accept loop *)
Definition NewMockTarget : MockTarget := mkMockTarget ∅.
Definition newTargetConn (r : Reader) : TargetConn := mkTargetConn r (mkWriter [] []) 1.

(** ** The connection *)

(** How the bytes received so far end *)
Definition ErrWouldBlock : error := Errorf "no more data yet" [].

(** The connection's reader when [bs] has been received *)
Definition net_reader (bs : bytes) : Reader := mkReader [bs] ErrWouldBlock None.

Definition BuildRawPDU (p : PDU) : res RawPDU :=
  bhs ← MarshalBHS p;
  Ok (newRawPDU bhs (DataSegment p)).

(** [tc.SendRaw(raw)]; the pooled buffer of [WriteRawPDU] has no effect on what is
    written. *)
Definition SendRaw (raw : RawPDU) : TT (res ()) := fun st =>
  let c := tg_conn st in
  let '(err, w) := w_Write (WriteRawPDU None raw []) (tc_w c) in
  Done (match err with Some e => Err e | None => Ok () end,
        set_conn (mkTargetConn (tc_r c) w (tc_statSN c)) st).

Definition SendPDU (p : PDU) : TT (res ()) := raw ⇐ SM_of (BuildRawPDU p); SendRaw raw.

Definition NextStatSN : TT Z := fun st =>
  let c := tg_conn st in
  let n := uint32 (tc_statSN c + 1) in
  Done (uint32 (n - 1), set_conn (mkTargetConn (tc_r c) (tc_w c) n) st).

Definition StatSN : TT Z := SM_get (fun st => tc_statSN (tg_conn st)).

(** [mt.session.Update(cmdSN, immediate)] *)
Definition session_Update (cmdSN : Z) (immediate : bool) : TT (Z * Z) := fun st =>
  let '(e, m, ss) := Update cmdSN immediate (tg_session st) in Done ((e, m), set_session ss st).
Definition ExpCmdSN : TT Z := SM_get (fun st => st_expCmdSN (tg_session st)).

Definition attachDataSegment (p : PDU) (data : bytes) : PDU :=
  if Nat.eqb (length data) 0 then p
  else
    match p with
    | PLoginReq v => PLoginReq (mkLoginReq (LoginReq_Hdr v) (LoginReq_Transit v) (LoginReq_Continue v)
        (LoginReq_CSG v) (LoginReq_NSG v) (LoginReq_VersionMax v) (LoginReq_VersionMin v) (LoginReq_ISID v)
        (LoginReq_TSIH v) (LoginReq_CID v) (LoginReq_CmdSN v) (LoginReq_ExpStatSN v) data)
    | PTextReq v => PTextReq (mkTextReq (TextReq_Hdr v) (TextReq_Continue v) (TextReq_TargetTransferTag v)
        (TextReq_CmdSN v) (TextReq_ExpStatSN v) data)
    | PSCSICommand v => PSCSICommand (mkSCSICommand (SCSICommand_Hdr v) (SCSICommand_Read v) (SCSICommand_Write v)
        (SCSICommand_Attr v) (SCSICommand_ExpectedDataTransferLength v) (SCSICommand_CmdSN v)
        (SCSICommand_ExpStatSN v) (SCSICommand_CDB v) data)
    | PDataOut v => PDataOut (mkDataOut (DataOut_Hdr v) (DataOut_TargetTransferTag v) (DataOut_ExpStatSN v)
        (DataOut_DataSN v) (DataOut_BufferOffset v) data)
    | PNOPOut v => PNOPOut (mkNOPOut (NOPOut_Hdr v) (NOPOut_TargetTransferTag v) (NOPOut_CmdSN v)
        (NOPOut_ExpStatSN v) data)
    | p => p
    end.

Definition result_error {A} (r : res A) : option error := match r with Ok _ => None | Err e => Some e end.

(** [transport.ReadRawPDU(tc.nc, false, false, 0)] *)
Definition conn_ReadRawPDU : TT (res RawPDU) := fun st =>
  let c := tg_conn st in
  let '(raw, r) := ReadRawPDU None false false (tc_r c) in
  if bool_decide (result_error raw = Some ErrWouldBlock) then Blocks
  else Done (raw, set_conn (mkTargetConn r (tc_w c) (tc_statSN c)) st).

Definition ReadPDU : TT (res (PDU * RawPDU)) :=
  raw ⇐ conn_ReadRawPDU;
  decoded ⇐ SM_of (DecodeBHS (raw_BHS raw));
  mret (Ok (attachDataSegment decoded (raw_DataSegment raw), raw)).

(** ** Serving *)

(** An iteration of [serveConn]; an error ends the loop. *)
Definition serveConn_turn (mt : MockTarget) : TT (res ()) :=
  raw ⇐ conn_ReadRawPDU;
  decoded ⇐ SM_of (DecodeBHS (raw_BHS raw));
  let decoded := attachDataSegment decoded (raw_DataSegment raw) in
  match mt_handlers mt !! Opcode decoded with
  | None =>
      strict ← SM_get tg_strict;
      mret (if (strict : bool) then Err (Errorf "mock target: unhandled opcode" [Opcode decoded]) else Ok ())
  | Some handler => handler raw decoded
  end.

Fixpoint serveConn (turns : nat) (mt : MockTarget) : TT (res ()) :=
  match turns with
  | O => mret (Ok ())
  | S turns => _ ⇐ serveConn_turn mt; serveConn turns mt
  end.

(** ** Handlers

    A handler's type assertion panics on a PDU of another type. *)

Definition as_LoginReq (p : PDU) : TT LoginReq := match p with PLoginReq v => mret v | _ => SM_panic end.
Definition as_TextReq (p : PDU) : TT TextReq := match p with PTextReq v => mret v | _ => SM_panic end.
Definition as_SCSICommand (p : PDU) : TT SCSICommand := match p with PSCSICommand v => mret v | _ => SM_panic end.
Definition as_LogoutReq (p : PDU) : TT LogoutReq := match p with PLogoutReq v => mret v | _ => SM_panic end.
Definition as_NOPOut (p : PDU) : TT NOPOut := match p with PNOPOut v => mret v | _ => SM_panic end.
Definition as_TaskMgmtReq (p : PDU) : TT TaskMgmtReq := match p with PTaskMgmtReq v => mret v | _ => SM_panic end.

(** [pdu.Header{Final: true, InitiatorTaskTag: itt, DataSegmentLen: dsl}] *)
Definition reply_header (final : bool) (itt dsl : Z) : Header := mkHeader false 0 final 0 dsl (zeros 8) itt.

Definition len32 (data : bytes) : Z := uint32 (Z.of_nat (length data)).

(** The answer to one key of an operational negotiation *)
Definition answerKey (negCfg : NegotiationConfig) (kv : KeyValue) : KeyValue :=
  let key := kv_Key kv in
  let choose {A} (show : A -> string) (v : option A) (otherwise : string) :=
    KV key (match v with Some v => show v | None => otherwise end) in
  if String.eqb key "HeaderDigest" || String.eqb key "DataDigest" then KV key "None"
  else if String.eqb key "ImmediateData" then choose boolToYesNo (nc_ImmediateData negCfg) (kv_Value kv)
  else if String.eqb key "InitialR2T" then choose boolToYesNo (nc_InitialR2T negCfg) (kv_Value kv)
  else if String.eqb key "FirstBurstLength" then choose FormatUint (nc_FirstBurstLength negCfg) (kv_Value kv)
  else if String.eqb key "MaxBurstLength" then choose FormatUint (nc_MaxBurstLength negCfg) (kv_Value kv)
  else if String.eqb key "MaxRecvDataSegmentLength"
       then choose FormatUint (nc_MaxRecvDataSegmentLength negCfg) "8192"
  else if String.eqb key "ErrorRecoveryLevel" then choose FormatUint (nc_ErrorRecoveryLevel negCfg) (kv_Value kv)
  else KV key (kv_Value kv).

(** A login response of [HandleLogin] *)
Definition login_reply (req : LoginReq) (dsl : Z) (transit : bool) (csg nsg tsih statSN : Z) (data : bytes)
    : LoginResp :=
  mkLoginResp (reply_header true (InitiatorTaskTag (LoginReq_Hdr req)) dsl) transit false csg nsg 0 0
    (LoginReq_ISID req) tsih statSN (LoginReq_CmdSN req) (uint32 (LoginReq_CmdSN req + 10)) 0 0 data.

Definition handleLogin : PDUHandler := fun _ decoded =>
  req ← as_LoginReq decoded;
  let kvs := DecodeTextKV (LoginReq_Data req) in
  _ ← session_Update (LoginReq_CmdSN req) false;
  if LoginReq_CSG req =? 0 then
    let respKVs := omap (fun kv => if String.eqb (kv_Key kv) "AuthMethod"
                                   then Some (KV "AuthMethod" "None") else None) kvs in
    let data := EncodeTextKV respKVs in
    statSN ← NextStatSN;
    if LoginReq_Transit req && (LoginReq_NSG req =? 1) then
      SendPDU (PLoginResp (login_reply req (len32 data) true 0 1 0 statSN data))
    else if LoginReq_Transit req && (LoginReq_NSG req =? 3) then
      SendPDU (PLoginResp (login_reply req 0 true 0 3 1 statSN data))
    else SendPDU (PLoginResp (login_reply req 0 false 0 0 0 statSN data))
  else if LoginReq_CSG req =? 1 then
    negCfg ← SM_get tg_negotiationConfig;
    let data := EncodeTextKV (map (answerKey negCfg) kvs) in
    statSN ← NextStatSN;
    SendPDU (PLoginResp (login_reply req (len32 data) true 1 3 1 statSN data))
  else mret (Ok ()).

Definition HandleLogin (mt : MockTarget) : MockTarget := Handle OpLoginReq handleLogin mt.

Definition HandleText (mt : MockTarget) : MockTarget :=
  Handle OpTextReq (fun _ decoded =>
    req ← as_TextReq decoded;
    '(expCmdSN, maxCmdSN) ← session_Update (TextReq_CmdSN req) (Immediate (TextReq_Hdr req));
    statSN ← NextStatSN;
    SendPDU (PTextResp (mkTextResp
      (reply_header true (InitiatorTaskTag (TextReq_Hdr req)) (DataSegmentLen (TextReq_Hdr req)))
      false 0xFFFFFFFF statSN expCmdSN maxCmdSN (TextReq_Data req)))) mt.

(** A SCSI response without data to a command *)
Definition scsi_reply (cmd : SCSICommand) (dsl status statSN expCmdSN maxCmdSN : Z) (data : bytes) : SCSIResponse :=
  mkSCSIResponse (reply_header true (InitiatorTaskTag (SCSICommand_Hdr cmd)) dsl) false false false false 0 status
    0 statSN expCmdSN maxCmdSN 0 0 0 data.

(** [cmd.CmdSN + 1] and [cmd.CmdSN + 10] *)
Definition after1 (cmdSN : Z) : Z := uint32 (cmdSN + 1).
Definition after10 (cmdSN : Z) : Z := uint32 (cmdSN + 10).

(** [SendPDU] of the one Data-In with which [HandleSCSIRead] answers *)
Definition sendDataIn (cmd : SCSICommand) (statSN : Z) (data : bytes) : TT (res ()) :=
  let sendLen := SCSICommand_ExpectedDataTransferLength cmd in
  let sendLen := if sendLen >? Z.of_nat (length data) then Z.of_nat (length data) else sendLen in
  SendPDU (PDataIn (mkDataIn (reply_header true (InitiatorTaskTag (SCSICommand_Hdr cmd)) (uint32 sendLen))
    false false false true 0 0 statSN (after1 (SCSICommand_CmdSN cmd)) (after10 (SCSICommand_CmdSN cmd)) 0 0 0
    (take (Z.to_nat sendLen) data))).

Definition sendGood (cmd : SCSICommand) (statSN : Z) : TT (res ()) :=
  SendPDU (PSCSIResponse (scsi_reply cmd 0 0 statSN (after1 (SCSICommand_CmdSN cmd))
    (after10 (SCSICommand_CmdSN cmd)) [])).

Definition HandleSCSIRead (data : bytes) (mt : MockTarget) : MockTarget :=
  Handle OpSCSICommand (fun _ decoded =>
    cmd ← as_SCSICommand decoded;
    statSN ← NextStatSN;
    if SCSICommand_Read cmd then sendDataIn cmd statSN data
    else if SCSICommand_Write cmd then sendGood cmd statSN
    else
      let cdbOp := byte_at 0 (SCSICommand_CDB cmd) in
      if (cdbOp =? 0x12) || ((cdbOp =? 0x25) || (cdbOp =? 0x9e)) || (cdbOp =? 0xa0)
      then sendDataIn cmd statSN data
      else sendGood cmd statSN) mt.

Definition HandleSCSIWrite (mt : MockTarget) : MockTarget :=
  Handle OpSCSICommand (fun _ decoded =>
    cmd ← as_SCSICommand decoded;
    statSN ← NextStatSN;
    sendGood cmd statSN) mt.

(** [h] gets the number of the call, from 0.  The counter is that of the one handler a
    test installs. *)
Definition HandleSCSIFunc (h : SCSICommand -> Z -> TT (res ())) (mt : MockTarget) : MockTarget :=
  Handle OpSCSICommand (fun _ decoded =>
    cmd ← as_SCSICommand decoded;
    n ← SM_get tg_count;
    _ ← SM_put (set_count (to_signed 32 (uint32 (n + 1))));
    h cmd n) mt.

Definition HandleLogout (mt : MockTarget) : MockTarget :=
  Handle OpLogoutReq (fun _ decoded =>
    req ← as_LogoutReq decoded;
    statSN ← NextStatSN;
    SendPDU (PLogoutResp (mkLogoutResp (reply_header true (InitiatorTaskTag (LogoutReq_Hdr req)) 0) 0 statSN
      (after1 (LogoutReq_CmdSN req)) (after10 (LogoutReq_CmdSN req)) 0 0))) mt.

(** The header announces no data: an echo of [req.Data] is sent behind a data
    segment length of 0. *)
Definition HandleNOPOut (mt : MockTarget) : MockTarget :=
  Handle OpNOPOut (fun _ decoded =>
    req ← as_NOPOut decoded;
    statSN ← NextStatSN;
    SendPDU (PNOPIn (mkNOPIn (reply_header true (InitiatorTaskTag (NOPOut_Hdr req)) 0) 0xFFFFFFFF statSN
      (after1 (NOPOut_CmdSN req)) (after10 (NOPOut_CmdSN req)) (NOPOut_Data req)))) mt.

Definition HandleTMF (mt : MockTarget) : MockTarget :=
  Handle OpTaskMgmtReq (fun _ decoded =>
    req ← as_TaskMgmtReq decoded;
    statSN ← NextStatSN;
    SendPDU (PTaskMgmtResp (mkTaskMgmtResp (reply_header true (InitiatorTaskTag (TaskMgmtReq_Hdr req)) 0) 0 statSN
      (TaskMgmtReq_CmdSN req) (after10 (TaskMgmtReq_CmdSN req))))) mt.

(** [SenseLength] and the sense data *)
Definition sense_segment (senseData : bytes) : bytes :=
  be_bytes 2 (uint16 (Z.of_nat (length senseData))) ++ senseData.

Definition HandleSCSIError (status : Z) (senseData : bytes) (mt : MockTarget) : MockTarget :=
  Handle OpSCSICommand (fun _ decoded =>
    cmd ← as_SCSICommand decoded;
    statSN ← NextStatSN;
    let dataSegment := sense_segment senseData in
    SendPDU (PSCSIResponse (scsi_reply cmd (len32 dataSegment) status statSN (after1 (SCSICommand_CmdSN cmd))
      (after10 (SCSICommand_CmdSN cmd)) dataSegment))) mt.

Definition HandleSCSIWithStatus (status : Z) (senseData : bytes) (mt : MockTarget) : MockTarget :=
  Handle OpSCSICommand (fun _ decoded =>
    cmd ← as_SCSICommand decoded;
    statSN ← NextStatSN;
    '(expCmdSN, maxCmdSN) ← session_Update (SCSICommand_CmdSN cmd) (Immediate (SCSICommand_Hdr cmd));
    let dataSegment := if Nat.ltb 0 (length senseData) then sense_segment senseData else [] in
    SendPDU (PSCSIResponse (scsi_reply cmd (len32 dataSegment) status statSN expCmdSN maxCmdSN dataSegment))) mt.

Definition HandleDiscovery (targets : list KeyValue) (mt : MockTarget) : MockTarget :=
  Handle OpTextReq (fun _ decoded =>
    req ← as_TextReq decoded;
    let data := EncodeTextKV targets in
    statSN ← NextStatSN;
    SendPDU (PTextResp (mkTextResp (reply_header true (InitiatorTaskTag (TextReq_Hdr req)) (len32 data))
      false 0xFFFFFFFF statSN (after1 (TextReq_CmdSN req)) (after10 (TextReq_CmdSN req)) data))) mt.

(** ** Longer exchanges *)

(** The loop of [HandleSCSIReadMultiPDU].  With a positive [pduSize] every iteration
    sends at least one byte, so that [fuel] beyond the length is enough; with
    [pduSize = 0] the loop of the source does not end, and [SM_block] stands for that.
    A negative [pduSize], with which the source panics, is not considered. *)
Fixpoint readMulti_loop (fuel : nat) (cmd : SCSICommand) (data : bytes) (pduSize sendLen expCmdSN maxCmdSN : Z)
    (offset dataSN : Z) : TT (res ()) :=
  match fuel with
  | O => SM_block
  | S fuel =>
    if offset <? sendLen then
      let chunk := if offset + pduSize >? sendLen then sendLen - offset else pduSize in
      let isFinal := offset + chunk >=? sendLen in
      statSN ← (if isFinal then NextStatSN else mret 0);
      _ ⇐ SendPDU (PDataIn (mkDataIn
             (reply_header isFinal (InitiatorTaskTag (SCSICommand_Hdr cmd)) (uint32 chunk))
             false false false isFinal 0 0 statSN expCmdSN maxCmdSN dataSN offset 0
             (sub (Z.to_nat offset) (Z.to_nat (uint32 (offset + uint32 chunk) - offset)) data)));
      readMulti_loop fuel cmd data pduSize sendLen expCmdSN maxCmdSN (uint32 (offset + uint32 chunk))
        (uint32 (dataSN + 1))
    else mret (Ok ())
  end.

Definition HandleSCSIReadMultiPDU (data : bytes) (pduSize : Z) (mt : MockTarget) : MockTarget :=
  Handle OpSCSICommand (fun _ decoded =>
    cmd ← as_SCSICommand decoded;
    '(expCmdSN, maxCmdSN) ← session_Update (SCSICommand_CmdSN cmd) (Immediate (SCSICommand_Hdr cmd));
    let edtl := SCSICommand_ExpectedDataTransferLength cmd in
    let sendLen := if edtl >? Z.of_nat (length data) then Z.of_nat (length data) else edtl in
    readMulti_loop (S (length data)) cmd data pduSize sendLen expCmdSN maxCmdSN 0 0) mt.

(** The loop of [SendR2TSequence]; every iteration with a positive burst takes
    something off [remaining]. *)
Fixpoint r2t_loop (fuel : nat) (itt burstLen baseTTT expCmdSN maxCmdSN : Z) (offset remaining r2tsn : Z)
    : TT (res (list Z)) :=
  match fuel with
  | O => SM_block
  | S fuel =>
    if remaining >? 0 then
      let desired := if burstLen >? remaining then remaining else burstLen in
      let ttt := uint32 (baseTTT + r2tsn) in
      statSN ← StatSN;
      _ ⇐ SendPDU (PR2T (mkR2T (reply_header true itt 0) ttt statSN expCmdSN maxCmdSN r2tsn offset desired));
      ttts ⇐ r2t_loop fuel itt burstLen baseTTT expCmdSN maxCmdSN (uint32 (offset + desired))
               (uint32 (remaining - desired)) (uint32 (r2tsn + 1));
      mret (Ok (ttt :: ttts))
    else mret (Ok [])
  end.

Definition SendR2TSequence (itt startOffset totalLen burstLen baseTTT : Z) : TT (res (list Z)) :=
  expCmdSN ← ExpCmdSN;
  let maxCmdSN := uint32 (expCmdSN + 10) in
  r2t_loop (S (Z.to_nat totalLen)) itt burstLen baseTTT expCmdSN maxCmdSN startOffset totalLen 0.

(** The loop of [ReadDataOutPDUs]: an iteration reads a PDU, which has at least 48
    bytes, so [fuel] beyond the bytes received is enough. *)
Fixpoint readDataOut_loop (fuel : nat) (result : list DataOut) : TT (res (list DataOut)) :=
  match fuel with
  | O => SM_block
  | S fuel =>
      p ⇐ ReadPDU;
      match p.1 with
      | PDataOut dout =>
          let result := result ++ [dout] in
          if Final (DataOut_Hdr dout) then mret (Ok result) else readDataOut_loop fuel result
      | _ => readDataOut_loop fuel result
      end
  end.

Definition ReadDataOutPDUs : TT (res (list DataOut)) := fun st =>
  readDataOut_loop (S (length (rd_bytes (tc_r (tg_conn st))))) [] st.

Record AsyncParams := mkAsyncParams {
  ap_Parameter1 : Z; ap_Parameter2 : Z; ap_Parameter3 : Z; ap_AsyncVCode : Z; ap_SenseData : bytes;
}.

Definition SendAsyncMsg (event : Z) (params : AsyncParams) : TT (res ()) :=
  statSN ← NextStatSN;
  expCmdSN ← ExpCmdSN;
  let sense := ap_SenseData params in
  SendPDU (PAsyncMsg (mkAsyncMsg
    (reply_header true 0xFFFFFFFF (if Nat.ltb 0 (length sense) then len32 sense else 0))
    statSN expCmdSN (uint32 (expCmdSN + 10)) event (ap_AsyncVCode params) (ap_Parameter1 params)
    (ap_Parameter2 params) (ap_Parameter3 params) sense)).

(** ** Canned answers *)

Definition BuildLoginResp (req : LoginReq) (keys : list KeyValue) (transit : bool) (csg nsg : Z) : LoginResp :=
  let data := EncodeTextKV keys in
  login_reply req (len32 data) transit csg nsg 1 1 data.

Definition pad (s : string) (length : nat) : bytes := upd 0 (take length (to_bytes s)) (replicate length 32).

Definition BuildInquiryData (vendor product revision : string) : bytes :=
  let data := zeros 96 in
  let data := upd 0 [0x00; 0x00; 0x06; 0x02; 91] data in
  let data := upd 8 (pad vendor 8) data in
  let data := upd 16 (pad product 16) data in
  upd 32 (pad revision 4) data.

Definition BuildReadCapacity16Data (lastLBA blockSize : Z) : bytes :=
  put_be 4 8 blockSize (put_be 8 0 lastLBA (zeros 32)).

(** [binary.BigEndian.PutUint64(data[8+i*8:16+i*8], lun)] for the LUNs from the [i]-th on *)
Fixpoint put_luns (i : nat) (luns : list Z) (data : bytes) : bytes :=
  match luns with
  | [] => data
  | lun :: luns => put_luns (S i) luns (put_be 8 (8 + i * 8) lun data)
  end.

Definition BuildReportLunsData (luns : list Z) : bytes :=
  let listLen := (length luns * 8)%nat in
  put_luns 0 luns (put_be 4 0 (uint32 (Z.of_nat listLen)) (zeros (8 + listLen))).
