(* ===== verification/Serving.v ===== *)
(** What the target of the repository sends ([src/test/target.go]): sending and
    receiving a PDU, and the Data-In sequence of [HandleSCSIReadMultiPDU]. *)
From S2P Require Import Prelude Errors Bhs PduTactics PduInitiator PduTarget Pdu GoIO Digest Framer.
From S2P Require Import Chan Router Pump Text Task DataOut Target.
#[local] Open Scope string_scope.
#[local] Open Scope list_scope.
#[local] Open Scope Z_scope.

(** ** Sending *)

(** A PDU whose header says what it carries, without additional header segments *)
Definition sendable (p : PDU) : Prop :=
  PDU_ok p /\ TotalAHSLength (PDU_Hdr p) = 0 /\
  DataSegmentLen (PDU_Hdr p) = Z.of_nat (length (DataSegment p)) /\ DataSegmentLen (PDU_Hdr p) < 2 ^ 24.

Lemma reply_header_ok final itt dsl : u32 itt -> u32 dsl -> Header_ok (reply_header final itt dsl).
Proof. intros Hi Hd. split; [done|]. split; [done|]. split; [done|]. split; [apply zeros_ok|done]. Qed.

(** The PDU as [BuildRawPDU] gives it *)
Definition raw_of (p : PDU) : RawPDU :=
  match BuildRawPDU p with Ok raw => raw | Err _ => newRawPDU [] [] end.

(** The connection after [bs] was written *)
Definition wrote (bs : bytes) (st : TargetState) : TargetState :=
  set_conn (mkTargetConn (tc_r (tg_conn st)) (mkWriter (w_out (tc_w (tg_conn st)) ++ bs) [])
    (tc_statSN (tg_conn st))) st.

(** A connection that takes every write *)
Definition writable (st : TargetState) : Prop := w_fails (tc_w (tg_conn st)) = [].

Lemma wrote_app a b st : wrote b (wrote a st) = wrote (a ++ b) st.
Proof. unfold wrote, set_conn. simpl. by rewrite app_assoc. Qed.

Lemma wrote_nil st : writable st -> wrote [] st = st.
Proof. destruct st as [[r [out f] sn] ss n cfg strict]. unfold writable, wrote, set_conn. simpl. intros ->. by rewrite app_nil_r. Qed.

Lemma BuildRawPDU_ok p : sendable p -> exists bhs, MarshalBHS p = Ok bhs /\
  BuildRawPDU p = Ok (raw_of p) /\ raw_of p = newRawPDU bhs (DataSegment p).
Proof.
  intros (Hok & _ & _ & Hl). pose proof (pdu_elim_total p) as Ht.
  rewrite Z.gtb_ltb, (proj2 (Z.ltb_ge _ _)) in Ht by lia. unfold raw_of, BuildRawPDU.
  destruct (MarshalBHS p) as [bhs|]; [|done]. exists bhs. by split.
Qed.

(** What the receiver makes of it *)
Lemma raw_of_decodes p : sendable p ->
  unstamped (raw_of p) /\ DecodeBHS (raw_BHS (raw_of p)) = Ok (PDU_wire p) /\
  raw_DataSegment (raw_of p) = DataSegment p.
Proof.
  intros Hp. destruct (BuildRawPDU_ok p Hp) as (bhs & Hm & _ & ->). destruct Hp as (Hok & Ha & Hd & _).
  split; [by apply (unstamped_PDU p)|]. split; [by apply decode_encoded|done].
Qed.

(** The header's ITT is where the read pump looks for it. *)
Lemma decode_itt bhs q : DecodeBHS bhs = Ok q -> InitiatorTaskTag (PDU_Hdr q) = get_be 4 16 bhs.
Proof.
  unfold DecodeBHS. destruct (decodeOpcodeByte (byte_at 0 bhs)) as [op imm] eqn:E.
  repeat (match goal with |- context [op =? ?k] => destruct (op =? k) end;
    [intros [= <-]; transitivity (InitiatorTaskTag (unmarshalHeader bhs));
       [reflexivity|unfold unmarshalHeader; by rewrite E]|]).
  intros H. discriminate H.
Qed.

Lemma raw_of_itt p : sendable p -> InitiatorTaskTag (PDU_Hdr (PDU_wire p)) = raw_itt (raw_of p).
Proof. intros Hp. destruct (raw_of_decodes p Hp) as (_ & Hd & _). by apply decode_itt in Hd. Qed.

Lemma SendPDU_Done p st : sendable p -> writable st ->
  SendPDU p st = Done (Ok (), wrote (WriteRawPDU None (raw_of p) []) st).
Proof.
  intros Hp Hw. unfold SendPDU. destruct (BuildRawPDU_ok p Hp) as (bhs & _ & Hb & _). rewrite Hb.
  rewrite (try_Done _ _ st (raw_of p) st) by done. unfold SendRaw, w_Write. by rewrite Hw.
Qed.

(** ** Receiving *)

(** The target with [bs] received *)
Definition holding (bs : bytes) (st : TargetState) : Prop :=
  rd_bytes (tc_r (tg_conn st)) = bs /\ rd_err (tc_r (tg_conn st)) = ErrWouldBlock.

Definition set_tc_r (r : Reader) (st : TargetState) : TargetState :=
  set_conn (mkTargetConn r (tc_w (tg_conn st)) (tc_statSN (tg_conn st))) st.

Lemma conn_ReadRawPDU_Done p rest st : unstamped p -> holding (WriteRawPDU None p [] ++ rest) st ->
  exists r', conn_ReadRawPDU st = Done (Ok p, set_tc_r r' st) /\ holding rest (set_tc_r r' st).
Proof.
  intros Hp [Hb He].
  pose proof (stampDigests_framed false false p Hp) as Hf. rewrite stampDigests_off in Hf.
  pose proof (verifyDigests_stamped false false p Hp) as Hv. cbv zeta in Hv. rewrite stampDigests_off in Hv.
  destruct (ReadRawPDU_framed None false false p [] _ rest Hf Hb) as (r' & Hr & Hb' & He').
  exists r'. unfold conn_ReadRawPDU. rewrite Hr, Hv, bool_decide_false by done.
  split; [done|]. split; [done|]. by rewrite <- He.
Qed.

Lemma conn_ReadRawPDU_Blocks st : holding [] st -> conn_ReadRawPDU st = Blocks.
Proof.
  intros [Hb He]. unfold conn_ReadRawPDU, ReadRawPDU.
  rewrite ReadFull_short by (rewrite Hb; cbn; unfold BHSLength; lia).
  rewrite He. cbn [result_error]. rewrite (bool_decide_false (ErrWouldBlock = EOF)) by done. cbn [andb].
  by rewrite bool_decide_true.
Qed.

(** A turn of the serving loop on a whole PDU runs its handler. *)
Lemma serveConn_turn_handles mt p q rest st (h : PDUHandler) : unstamped p -> DecodeBHS (raw_BHS p) = Ok q ->
  mt_handlers mt !! Opcode (attachDataSegment q (raw_DataSegment p)) = Some h ->
  holding (WriteRawPDU None p [] ++ rest) st ->
  exists r', holding rest (set_tc_r r' st) /\
    serveConn_turn mt st = h p (attachDataSegment q (raw_DataSegment p)) (set_tc_r r' st).
Proof.
  intros Hp Hq Hh Hb. destruct (conn_ReadRawPDU_Done p rest st Hp Hb) as (r' & Hr & Hb').
  exists r'. split; [done|]. unfold serveConn_turn. rewrite (try_Done _ _ _ _ _ Hr), Hq.
  rewrite (try_Done _ _ _ q (set_tc_r r' st)) by done. cbv beta zeta.
  match goal with |- match ?l with _ => _ end _ = _ => by assert (l = Some h) as -> by exact Hh end.
Qed.

Lemma serveConn_turn_Blocks mt st : holding [] st -> serveConn_turn mt st = Blocks.
Proof.
  intros H. unfold serveConn_turn, try_, mbind, SM_bind. by rewrite conn_ReadRawPDU_Blocks.
Qed.

(** ** The Data-In sequence of [HandleSCSIReadMultiPDU] *)

Section data_in.
Context (cmd : SCSICommand) (data : bytes) (m : nat) (e x sn : Z).

#[local] Abbreviation L := (Z.to_nat (SCSICommand_ExpectedDataTransferLength cmd)).
#[local] Abbreviation t := (Nat.min L (length data)).
#[local] Abbreviation n := (burst_count data L m).
#[local] Abbreviation part := (piece data L m).

(** The parts of the data, and the Data-In of part [i]: [e] and [x] are ExpCmdSN and
    MaxCmdSN, [sn] is the StatSN of the last *)
Definition served_parts : list bytes := map part (seq 0 n).
Definition served_din (i : nat) : DataIn :=
  let last := bool_decide (S i = n) in
  mkDataIn (reply_header last (InitiatorTaskTag (SCSICommand_Hdr cmd)) (Z.of_nat (length (part i))))
    false false false last 0 0 (if last then sn else 0) e x (Z.of_nat i) (Z.of_nat (i * m)) 0 (part i).

Hypothesis Hm : (0 < m)%nat.
Hypothesis Hm24 : Z.of_nat m < 2 ^ 24.
Hypothesis Hedtl : u32 (SCSICommand_ExpectedDataTransferLength cmd).
Hypothesis Hitt : u32 (InitiatorTaskTag (SCSICommand_Hdr cmd)).
Hypothesis He : u32 e.
Hypothesis Hx : u32 x.
Hypothesis Hsn : u32 sn.

Lemma served_count_bound : (n <= t)%nat.
Proof using Hm. clear Hm24. unfold burst_count. pose proof (Nat.Div0.mul_div_le (t + m - 1) m). nia. Qed.

Lemma served_t_bound : Z.of_nat t < 2 ^ 32.
Proof using Hedtl. clear Hm Hm24. unfold in_width in Hedtl. lia. Qed.

Lemma served_before i : (i < n)%nat -> (i * m < t)%nat.
Proof using Hm. clear Hm24. unfold burst_count. intros Hi. pose proof (Nat.Div0.mul_div_le (t + m - 1) m). nia. Qed.

Lemma served_within i : (i * m < t)%nat -> (i < n)%nat.
Proof using Hm. clear Hm24. intros Hi. unfold burst_count. apply Nat.div_le_lower_bound; lia. Qed.

Lemma length_part i : length (part i) = Nat.min m (t - i * m).
Proof using Type. clear. unfold piece, sub. rewrite length_take, length_drop. lia. Qed.

Lemma served_sendable i : (i < n)%nat -> sendable (PDataIn (served_din i)).
Proof using Hm Hm24 Hedtl Hitt He Hx Hsn.
  intros Hi. pose proof (served_before i Hi). pose proof served_t_bound. pose proof served_count_bound.
  pose proof (length_part i) as Hl.
  assert (u32 (Z.of_nat (length (part i)))) by (unfold in_width; lia).
  split; [|split; [done|split; [done|cbn; lia]]].
  split; [by apply reply_header_ok|]. unfold served_din. cbn.
  assert (u32 (Z.of_nat i) /\ u32 (Z.of_nat (i * m))) as [? ?] by (unfold in_width; lia).
  repeat (split; [first [done|by destruct (bool_decide _)]|]). done.
Qed.

(** The last part ends the data. *)
Lemma served_last i : (i < n)%nat ->
  if decide (S i = n) then (i * m + length (part i) = t)%nat
  else length (part i) = m /\ (S i * m < t)%nat.
Proof using Hm.
  clear Hm24. intros Hi. pose proof (served_before i Hi). rewrite length_part. destruct (decide (S i = n)) as [Hl|Hl].
  - destruct (decide (t <= S i * m)%nat); [lia|].
    pose proof (served_within (S i) ltac:(lia)). lia.
  - pose proof (served_before (S i) ltac:(lia)). lia.
Qed.

Definition served_pdus (i k : nat) : list RawPDU := map (fun i => raw_of (PDataIn (served_din i))) (seq i k).

Definition set_statSN (v : Z) (st : TargetState) : TargetState :=
  set_conn (mkTargetConn (tc_r (tg_conn st)) (tc_w (tg_conn st)) v) st.

Lemma NextStatSN_Done st : tc_statSN (tg_conn st) = sn ->
  NextStatSN st = Done (sn, set_statSN (uint32 (sn + 1)) st).
Proof using Hsn.
  clear Hm Hm24 Hedtl Hitt He Hx. intros H. unfold NextStatSN. rewrite H. cbv zeta. do 2 f_equal. unfold in_width, wrap in *.
  rewrite Zminus_mod_idemp_l. replace (sn + 1 - 1) with sn by lia. by rewrite Z.mod_small.
Qed.

(** The loop sends the Data-Ins from the [i]-th on. *)
Lemma readMulti_loop_ok k : forall fuel i st, (i + k = n)%nat -> (k < fuel)%nat -> writable st ->
  (k <> 0%nat -> tc_statSN (tg_conn st) = sn) ->
  readMulti_loop fuel cmd data (Z.of_nat m) (Z.of_nat t) e x (Z.of_nat (Nat.min (i * m) t)) (Z.of_nat i) st
  = Done (Ok (), wrote (wires None (served_pdus i k)) (if k is O then st else set_statSN (uint32 (sn + 1)) st)).
Proof using Hm Hm24 Hedtl Hitt He Hx Hsn.
  induction k as [|k IH]; intros [|fuel] i st Hk Hf Hw Hst; try lia; cbn [readMulti_loop].
  - assert (t <= n * m)%nat by (destruct (decide (t <= n * m)%nat) as [|Hlt]; [done|pose proof (served_within n); lia]).
    rewrite Nat.add_0_r in Hk. subst i. rewrite Nat.min_r, Z.ltb_irrefl by done. by rewrite wrote_nil.
  - assert (Hi : (i < n)%nat) by lia. pose proof (served_before i Hi). pose proof (served_last i Hi) as Hl.
    pose proof served_t_bound. pose proof served_count_bound. pose proof (length_part i) as Hlen.
    set (P := length (part i)) in *.
    assert (Ho : Nat.min (i * m) t = (i * m)%nat) by lia. rewrite Ho, (proj2 (Z.ltb_lt _ _)) by lia.
    assert (Hchunk : (if Z.of_nat (i * m) + Z.of_nat m >? Z.of_nat t then Z.of_nat t - Z.of_nat (i * m) else Z.of_nat m)
      = Z.of_nat P) by (destruct (Z.gtb_spec (Z.of_nat (i * m) + Z.of_nat m) (Z.of_nat t)); lia).
    rewrite Hchunk. cbv zeta.
    assert (Hfin : (Z.of_nat (i * m) + Z.of_nat P >=? Z.of_nat t) = bool_decide (S i = n)).
    { rewrite Z.geb_leb. destruct (decide (S i = n)) as [E|E].
      - rewrite bool_decide_true by done. apply Z.leb_le. lia.
      - rewrite bool_decide_false by done. apply Z.leb_gt. lia. }
    rewrite Hfin, (wrap_id 32 (Z.of_nat P)) by (unfold in_width; lia).
    rewrite (wrap_id 32 (_ + _)), (wrap_id 32 (_ + 1)) by (unfold in_width; lia).
    set (st1 := if bool_decide (S i = n) then set_statSN (uint32 (sn + 1)) st else st).
    assert (Hs : (if bool_decide (S i = n) then NextStatSN else mret 0) st
      = Done (if bool_decide (S i = n) then sn else 0, st1)).
    { subst st1. destruct (bool_decide _); [by apply NextStatSN_Done, Hst|done]. }
    rewrite (SM_bind_Done _ _ _ _ _ Hs).
    assert (Hsub : sub (Z.to_nat (Z.of_nat (i * m))) (Z.to_nat (Z.of_nat (i * m) + Z.of_nat P - Z.of_nat (i * m))) data
      = part i) by (unfold piece; f_equal; lia).
    rewrite Hsub. fold (served_din i).
    assert (Hw1 : writable st1) by (subst st1; by destruct (bool_decide _)).
    rewrite (try_Done _ _ _ _ _ (SendPDU_Done _ st1 (served_sendable i Hi) Hw1)).
    replace (Z.of_nat (i * m) + Z.of_nat P) with (Z.of_nat (Nat.min (S i * m) t)) by (destruct (decide (S i = n)); lia).
    replace (Z.of_nat i + 1) with (Z.of_nat (S i)) by lia.
    rewrite IH; [|lia|lia|done| ].
    + set (A := WriteRawPDU _ _ _).
      change (wires None (served_pdus i (S k))) with (A ++ wires None (served_pdus (S i) k)). rewrite <- wrote_app.
      subst st1. destruct k; [by rewrite bool_decide_true by lia|by rewrite bool_decide_false by lia].
    + intros Hk0. subst st1. rewrite bool_decide_false by lia. by apply Hst.
Qed.

(** The parts are the data that the command asks for. *)
Lemma length_served_parts : length served_parts = n.
Proof. unfold served_parts. by rewrite length_map, length_seq. Qed.

Lemma served_parts_lookup i : (i < n)%nat -> served_parts !! i = Some (part i).
Proof. intros Hi. unfold served_parts. by rewrite list_lookup_fmap, lookup_seq_lt. Qed.

Lemma concat_served_parts : concat served_parts = take L data.
Proof using Hm.
  clear Hm24. unfold served_parts. rewrite (concat_pieces data L m Hm 0) by lia. simpl. rewrite drop_0.
  destruct (decide (L <= length data)%nat); [f_equal; lia|]. by rewrite !take_ge by lia.
Qed.

Lemma length_served_prefix i : (i < n)%nat -> length (concat (take i served_parts)) = (i * m)%nat.
Proof using Hm.
  clear Hm24. intros Hi. pose proof (served_before i Hi). unfold served_parts.
  rewrite firstn_map, take_seq, Nat.min_l by lia. apply (length_pieces data L m Hm). lia.
Qed.

End data_in.

(** ** The answer to a command *)

Lemma Update_width cmdSN imm ss : u32 (st_expCmdSN ss) -> u32 cmdSN ->
  u32 (Update cmdSN imm ss).1.1 /\ u32 (Update cmdSN imm ss).1.2.
Proof.
  intros He Hc. unfold Update. cbv zeta. split; [|apply wrap_range; lia].
  destruct (st_initialized ss), imm; cbn; first [done|apply wrap_range; lia].
Qed.

(** What [HandleSCSIReadMultiPDU] sends: the Data-Ins of the whole transfer; for a
    command that transfers nothing, no PDU at all. *)
Definition served_answer (cmd : SCSICommand) (data : bytes) (m : nat) (st : TargetState) : list RawPDU :=
  let '(e, x, _) := Update (SCSICommand_CmdSN cmd) (Immediate (SCSICommand_Hdr cmd)) (tg_session st) in
  served_pdus cmd data m e x (tc_statSN (tg_conn st)) 0
    (burst_count data (Z.to_nat (SCSICommand_ExpectedDataTransferLength cmd)) m).

Definition counters_ok (st : TargetState) : Prop :=
  u32 (st_expCmdSN (tg_session st)) /\ u32 (tc_statSN (tg_conn st)).

Lemma Update_expCmdSN cmdSN imm ss : (Update cmdSN imm ss).1.1 = st_expCmdSN (Update cmdSN imm ss).2.
Proof. unfold Update. cbv zeta. by destruct (st_initialized ss), imm. Qed.

(** The window keeps its size, and a command that is not immediate opens it behind
    its own number. *)
Lemma Update_delta cmdSN imm ss : st_maxCmdSNDelta (Update cmdSN imm ss).2 = st_maxCmdSNDelta ss.
Proof. unfold Update. cbv zeta. by destruct (st_initialized ss), imm. Qed.

Lemma Update_next cmdSN ss : (Update cmdSN false ss).1 =
  (uint32 (cmdSN + 1), uint32 (uint32 (cmdSN + 1) + st_maxCmdSNDelta ss)).
Proof. unfold Update. cbv zeta. by destruct (st_initialized ss). Qed.

(** A target that has answered *)
Definition answered_ok (st st' : TargetState) : Prop :=
  counters_ok st' /\ st_maxCmdSNDelta (tg_session st') = st_maxCmdSNDelta (tg_session st).

Lemma HandleSCSIReadMultiPDU_answers cmd data m mt raw st : (0 < m)%nat -> Z.of_nat m < 2 ^ 24 ->
  SCSICommand_ok cmd -> counters_ok st -> writable st ->
  exists (h : PDUHandler) st', mt_handlers (HandleSCSIReadMultiPDU data (Z.of_nat m) mt) !! OpSCSICommand = Some h /\
    h raw (PSCSICommand cmd) st = Done (Ok (), wrote (wires None (served_answer cmd data m st)) st') /\
    tc_r (tg_conn st') = tc_r (tg_conn st) /\ tc_w (tg_conn st') = tc_w (tg_conn st) /\ answered_ok st st'.
Proof.
  intros Hm Hm24 ((_ & _ & _ & _ & Hitt) & Hok) [He Hsn] Hw. unfold served_answer.
  destruct (Update_width (SCSICommand_CmdSN cmd) (Immediate (SCSICommand_Hdr cmd)) (tg_session st)) as [Hwe Hwx];
    [done|by apply Hok|].
  pose proof (Update_expCmdSN (SCSICommand_CmdSN cmd) (Immediate (SCSICommand_Hdr cmd)) (tg_session st)) as Hss.
  pose proof (Update_delta (SCSICommand_CmdSN cmd) (Immediate (SCSICommand_Hdr cmd)) (tg_session st)) as Hde.
  destruct (Update _ _ _) as [[e x] ss] eqn:Eu. cbn [fst snd] in Hwe, Hwx, Hss, Hde.
  eexists _, _. split; [apply lookup_insert_eq|].
  unfold session_Update, as_SCSICommand, mbind, SM_bind, mret, SM_ret. rewrite Eu.
  set (edtl := SCSICommand_ExpectedDataTransferLength cmd).
  assert (Hedtl : u32 edtl) by (unfold SCSICommand_ok in Hok; tauto).
  assert (Hlen : (if edtl >? Z.of_nat (length data) then Z.of_nat (length data) else edtl)
    = Z.of_nat (Nat.min (Z.to_nat edtl) (length data))).
  { unfold in_width in Hedtl. destruct (Z.gtb_spec edtl (Z.of_nat (length data))); lia. }
  cbv zeta. rewrite Hlen.
  pose proof (readMulti_loop_ok cmd data m e x (tc_statSN (tg_conn st)) Hm Hm24 Hedtl Hitt Hwe Hwx Hsn
    (burst_count data (Z.to_nat edtl) m) (S (length data)) 0 (set_session ss st)) as Hrun.
  pose proof (served_count_bound cmd data m Hm) as Hb.
  fold edtl in Hb, Hrun. cbn [Nat.mul Nat.min] in Hrun. split; [apply Hrun; try done; lia|].
  split; [by destruct (burst_count _ _ _)|]. split; [by destruct (burst_count _ _ _)|].
  destruct (burst_count _ _ _); (split; [|exact Hde]);
    (split; cbn; [by rewrite <- Hss|first [done|apply wrap_range; lia]]).
Qed.
