(* ===== verification/Fair.v ===== *)
(** Fair schedules of actors that take turns.

    An actor's turn on a state is done, blocks or panics; a schedule is a list of
    actors, and the scheduler passes over an actor that blocks.  [run_rounds] is
    the liveness argument: when every turn either blocks or takes something off
    what is left, and what is left to do always has an actor that can do it, then
    a schedule of enough rounds in which everybody has a turn leaves nothing. *)
From S2P Require Import Prelude Chan.

Section schedule.
Context {A S : Type} (step : A -> S -> outcome S).

Fixpoint run (actors : list A) (s : S) : outcome S :=
  match actors with
  | [] => Done s
  | a :: actors =>
    match step a s with
    | Done s => run actors s
    | Blocks => run actors s
    | Panics => Panics
    end
  end.

Lemma run_app l l' s s' : run l s = Done s' -> run (l ++ l') s = run l' s'.
Proof.
  revert s. induction l as [|a l IH]; intros s; simpl; [by intros [= ->]|].
  destruct (step a s) as [s1| |]; [apply IH..|done].
Qed.

(** [inv g s]: [s] is at the stage [g], from which [left g] turns are to come;
    [enabled g a]: the actor [a] has one of them now; [ok] are the actors the
    schedules consist of. *)
Context {G : Type} (inv : G -> S -> Prop) (left : G -> nat) (enabled : G -> A -> Prop) (ok : A -> Prop).
Hypothesis Hstep : forall g s a, inv g s -> ok a ->
  (step a s = Blocks /\ ~ enabled g a) \/
  (exists g' s', step a s = Done s' /\ inv g' s' /\ (1 + left g' = left g)%nat).

Lemma fair_run_inv l : forall g s, Forall ok l -> inv g s -> exists g' s',
  run l s = Done s' /\ inv g' s' /\ (left g' <= left g)%nat /\
  (Exists (enabled g) l -> (left g' < left g)%nat).
Proof using Hstep.
  induction l as [|a l IH]; intros g s Hok Hs.
  { exists g, s. split; [done|]. split; [done|]. split; [lia|]. by intros H%Exists_nil. }
  apply Forall_cons in Hok as [Ha Hl]. cbn [run].
  destruct (Hstep g s a Hs Ha) as [[-> Hn]|(g1 & s1 & -> & Hs1 & Hleft)].
  - destruct (IH g s Hl Hs) as (g' & s' & Hr & Hs' & Hle & Hlt). exists g', s'.
    split; [done|]. split; [done|]. split; [done|]. intros [H|H]%Exists_cons; [done|by apply Hlt].
  - destruct (IH g1 s1 Hl Hs1) as (g' & s' & Hr & Hs' & Hle & _). exists g', s'.
    split; [done|]. split; [done|]. split; [lia|]. intros _. lia.
Qed.

(** Every round has an actor for what is left. *)
Lemma run_rounds (round : list A -> Prop) rounds : forall g s,
  (forall g s l, inv g s -> round l -> (0 < left g)%nat -> Exists (enabled g) l) ->
  Forall round rounds -> Forall (Forall ok) rounds -> inv g s ->
  exists g' s', run (concat rounds) s = Done s' /\ inv g' s' /\ (left g' <= left g - length rounds)%nat.
Proof using Hstep.
  intros g s Hround. revert g s. induction rounds as [|l rounds IH]; intros g s Hr Hok Hs.
  { exists g, s. split; [done|]. split; [done|]. simpl. lia. }
  apply Forall_cons in Hr as [Hl Hr]. apply Forall_cons in Hok as [Ho Hok].
  destruct (fair_run_inv l g s Ho Hs) as (g1 & s1 & Hrun & Hs1 & Hle & Hlt).
  destruct (IH g1 s1 Hr Hok Hs1) as (g' & s' & Hrun' & Hs' & Hle').
  exists g', s'. cbn [concat length]. split; [by rewrite (run_app _ _ _ _ Hrun)|]. split; [done|].
  destruct (decide (left g = 0)%nat); [lia|]. specialize (Hlt (Hround g s l Hs Hl ltac:(lia))). lia.
Qed.

End schedule.
