(* ===== verification/System.v ===== *)
(** The whole system: a session with its goroutines, the two byte streams of its
    connection, and the target that serves it ([src/internal/session/session.go],
    [src/internal/transport/pump.go], [src/test/target.go]).

    [turn] is one turn of one of the goroutines: the write pump, the read pump, the
    dispatch loop and the task loops of the session, and the serving loop of the
    target.  The streams are unbounded queues of bytes.  The connection's context
    is not done and no hooks are installed; TCP delivers what was written. *)
From S2P Require Import Prelude Errors Bhs PduTactics PduInitiator PduTarget Pdu GoIO Digest Framer.
From S2P Require Import Chan Serial Router Pump Text Negotiation CmdWindow Config Types Task Reassembly.
From S2P Require Import DataOut Session Unsolicited Lifecycle TaskLoop Loops Target Serving Fair.
#[local] Open Scope string_scope.
#[local] Open Scope list_scope.
#[local] Open Scope Z_scope.

(** ** State *)

Record System := mkSystem {
  sy_session : Session;
  sy_unsolCh : Chan RawPDU;
  sy_dropCounter : Z;
  sy_ended : list nat;      (* the task loops of [ss_loops] that have returned *)
  sy_writing : bool;        (* the pumps and the serving loop that have not *)
  sy_reading : bool;
  sy_serving : bool;
  sy_out : bytes;           (* in flight to the target *)
  sy_in : bytes;            (* in flight to the initiator *)
  sy_target : TargetState;
}.

Definition set_session (v : Session) (sy : System) : System :=
  mkSystem v (sy_unsolCh sy) (sy_dropCounter sy) (sy_ended sy) (sy_writing sy) (sy_reading sy) (sy_serving sy)
    (sy_out sy) (sy_in sy) (sy_target sy).
Definition set_ended (v : list nat) (sy : System) : System :=
  mkSystem (sy_session sy) (sy_unsolCh sy) (sy_dropCounter sy) v (sy_writing sy) (sy_reading sy) (sy_serving sy)
    (sy_out sy) (sy_in sy) (sy_target sy).

(** [startPumps] on a new connection, to a target that has accepted it *)
Definition start (s : Session) (st : TargetState) : System :=
  mkSystem s (make_chan 64) 0 [] true true true [] [] st.

(** ** Turns *)

(** An operation of the session *)
Definition on_session {A} (op : SS A) (sy : System) : outcome (A * System) :=
  match op (sy_session sy) with
  | Done (a, s) => Done (a, set_session s sy)
  | Blocks => Blocks
  | Panics => Panics
  end.

(** What a goroutine's turn leaves, without its value *)
Definition forget {A} (o : outcome (A * System)) : outcome System :=
  match o with Done (_, sy) => Done sy | Blocks => Blocks | Panics => Panics end.

(** [writePumpLoop] *)
Definition write_turn (stale : bytes) (sy : System) : outcome System :=
  let s := sy_session sy in
  if negb (sy_writing sy) then Blocks else
  match writePump_turn false None (quiet stale) (mkWS (mkWriter [] []) (ss_writeCh s) []) with
  | Continue st =>
      Done (mkSystem (set_writeCh (wp_ch st) s) (sy_unsolCh sy) (sy_dropCounter sy) (sy_ended sy) true
              (sy_reading sy) (sy_serving sy) (sy_out sy ++ w_out (wp_w st)) (sy_in sy) (sy_target sy))
  | Return err st =>
      forget (on_session (writePumpLoop_end err false)
        (mkSystem (set_writeCh (wp_ch st) s) (sy_unsolCh sy) (sy_dropCounter sy) (sy_ended sy) false
          (sy_reading sy) (sy_serving sy) (sy_out sy ++ w_out (wp_w st)) (sy_in sy) (sy_target sy)))
  | Stuck _ => Blocks
  | Panic => Panics
  end.

(** The connection's reader at the initiator: after what is in flight, the target
    has more to say as long as it serves. *)
Definition initiator_reader (sy : System) : Reader :=
  mkReader [sy_in sy] (if sy_serving sy then ErrWouldBlock else EOF) None.

(** [readPumpLoop].  A turn that blocks, in the read or in handing a PDU on, is
    taken again from its start: nobody else reads the stream. *)
Definition read_turn (sy : System) : outcome System :=
  let s := sy_session sy in
  if negb (sy_reading sy) then Blocks else
  let after (st : ReadState) (reading : bool) :=
    mkSystem (set_router (rp_router st) s) (rp_unsolicited st) (rp_drops st) (sy_ended sy) (sy_writing sy)
      reading (sy_serving sy) (sy_out sy) (rd_bytes (rp_r st)) (sy_target sy) in
  match readPump_turn false (ss_digestHeader s) (ss_digestData s) None (quiet [])
          (mkRS (initiator_reader sy) (ss_router s) (sy_unsolCh sy) (sy_dropCounter sy) []) with
  | Continue st => Done (after st true)
  | Return err st =>
      if bool_decide (err = Some ErrWouldBlock) then Blocks
      else forget (on_session (readPumpLoop_end err false) (after st false))
  | Stuck _ => Blocks
  | Panic => Panics
  end.

(** [dispatchLoop] *)
Definition unsol_turn (sy : System) : outcome System :=
  match recv (sy_unsolCh sy) with
  | Some (Some raw, ch) =>
      forget (on_session (handleUnsolicited raw)
        (mkSystem (sy_session sy) ch (sy_dropCounter sy) (sy_ended sy) (sy_writing sy) (sy_reading sy)
          (sy_serving sy) (sy_out sy) (sy_in sy) (sy_target sy)))
  | _ => Blocks
  end.

(** A turn of the [i]-th task loop *)
Definition task_turn (sch : TurnSched) (i : nat) (sy : System) : outcome System :=
  match (if decide (i ∈ sy_ended sy) then None else ss_loops (sy_session sy) !! i) with
  | None => Blocks
  | Some (id, ch) =>
    match on_session (taskLoop_turn sch id ch) sy with
    | Done (go, sy) => Done (if (go : bool) then sy else set_ended (i :: sy_ended sy) sy)
    | Blocks => Blocks
    | Panics => Panics
    end
  end.

(** The target's connection with what is in flight to it, and nothing written *)
Definition receiving (bs : bytes) (st : TargetState) : TargetState :=
  set_conn (mkTargetConn (net_reader bs) (mkWriter [] []) (tc_statSN (tg_conn st))) st.

(** [serveConn]; an error closes the connection. *)
Definition target_turn (mt : MockTarget) (sy : System) : outcome System :=
  if negb (sy_serving sy) then Blocks else
  match serveConn_turn mt (receiving (sy_out sy) (sy_target sy)) with
  | Done (r, st) =>
      Done (mkSystem (sy_session sy) (sy_unsolCh sy) (sy_dropCounter sy) (sy_ended sy) (sy_writing sy)
              (sy_reading sy) (is_Ok r) (rd_bytes (tc_r (tg_conn st)))
              (sy_in sy ++ w_out (tc_w (tg_conn st))) st)
  | Blocks => Blocks
  | Panics => Panics
  end.

Inductive actor :=
  | WritePumpTurn (stale : bytes)
  | ReadPumpTurn
  | DispatchTurn
  | TaskTurn (sch : TurnSched) (i : nat)
  | TargetTurn.

Definition turn (mt : MockTarget) (a : actor) : System -> outcome System :=
  match a with
  | WritePumpTurn stale => write_turn stale
  | ReadPumpTurn => read_turn
  | DispatchTurn => unsol_turn
  | TaskTurn sch i => task_turn sch i
  | TargetTurn => target_turn mt
  end.

(** Everybody but the caller, who does not cancel *)
Definition undisturbed (a : actor) : Prop := match a with TaskTurn TakeCtx _ => False | _ => True end.

(** A round in which the pumps, the target and the [i]-th task loop have a turn *)
Definition fair_round (i : nat) (l : list actor) : Prop :=
  (exists stale, WritePumpTurn stale ∈ l) /\ ReadPumpTurn ∈ l /\ TargetTurn ∈ l /\ TaskTurn TakePDU i ∈ l.

Definition up (sy : System) : Prop := sy_writing sy = true /\ sy_reading sy = true /\ sy_serving sy = true.
Definition no_digests (s : Session) : Prop := ss_digestHeader s = false /\ ss_digestData s = false.
Definition nothing_in {A} (c : Chan A) : Prop := ch_buf c = [] /\ ch_closed c = false.

(** A connection at rest: nothing queued or in flight, and no task loop running *)
Record idle (sy : System) : Prop := mkIdle {
  id_writeCh : nothing_in (ss_writeCh (sy_session sy)) /\ room 1 (ss_writeCh (sy_session sy));
  id_unsolCh : nothing_in (sy_unsolCh sy);
  id_loops : forall i, (i < length (ss_loops (sy_session sy)))%nat -> i ∈ sy_ended sy;
  id_later : forall i, (length (ss_loops (sy_session sy)) <= i)%nat -> i ∉ sy_ended sy;
  id_up : up sy;
  id_streams : sy_out sy = [] /\ sy_in sy = [];
  id_digests : no_digests (sy_session sy);
  id_target : counters_ok (sy_target sy);
}.
