(* ===== verification/Exchange.v ===== *)
(** One command on a connection at rest, served by the target in one turn: the whole
    exchange, in every schedule of the session's goroutines and the target
    ([src/internal/session/session.go], [src/test/target.go]).

    [Conversation] is what the exchange needs to know of a command and its answer;
    [served] is that in every fair schedule the task consumes all of the answer. *)
From S2P Require Import Prelude Errors Bhs PduTactics PduInitiator PduTarget Pdu GoIO Digest Framer.
From S2P Require Import Chan Serial Router Pump Text Negotiation CmdWindow Config Types Task Reassembly.
From S2P Require Import DataOut Session Unsolicited Lifecycle TaskLoop Loops Target Serving Fair System.
#[local] Open Scope string_scope.
#[local] Open Scope list_scope.
#[local] Open Scope Z_scope.

(** How far the exchange is: the command is queued; it is on the wire; the target
    has answered, the read pump has taken [i] PDUs of the answer off the wire and the
    task loop [j] of them off its channel. *)
Inductive stage := Queued | OnWire | Answered (i j : nat).

Definition consumed (g : stage) : nat := match g with Answered _ j => j | _ => 0 end.

(** The command [cv_raw0] for the tag [cv_itt], which the target answers with [cv_n]
    PDUs; [cv_state i] is the task that has consumed [i] of them, and [cv_target]
    are the states in which the target gives this answer; all of it carries the
    ExpCmdSN [cv_exp] and the MaxCmdSN [cv_max]. *)
Class Conversation (mt : MockTarget) := {
  cv_itt : Z;
  cv_raw0 : RawPDU;
  cv_n : nat;
  cv_raw : nat -> RawPDU;
  cv_state : nat -> task -> Prop;
  cv_target : TargetState -> Prop;
  cv_exp : Z;
  cv_max : Z;
  cv_itt_ok : cv_itt <> reservedITT;
  cv_some : (0 < cv_n)%nat;
  cv_command : unstamped cv_raw0;
  cv_answer : forall i, (i < cv_n)%nat -> unstamped (cv_raw i) /\ raw_itt (cv_raw i) = cv_itt;
  cv_running : forall i t, (i < cv_n)%nat -> cv_state i t -> tk_done t = false;
  cv_answers : forall st, counters_ok st -> cv_target st -> exists st',
    serveConn_turn mt (receiving (WriteRawPDU None cv_raw0 []) st) = Done (Ok (), st') /\
    rd_bytes (tc_r (tg_conn st')) = [] /\
    w_out (tc_w (tg_conn st')) = wires None (map cv_raw (seq 0 cv_n)) /\ answered_ok st st';
  cv_consume : forall id i s t, ss_objs s !! id = Some t -> cv_state i t -> (i < cv_n)%nat ->
    ch_closed (ss_writeCh s) = false ->
    exists s' t', taskLoop_PDU id (cv_raw i) s = Done (bool_decide (S i <> cv_n), s') /\
      ss_objs s' = <[id := t']> (ss_objs s) /\ cv_state (S i) t' /\ ss_writeCh s' = ss_writeCh s /\
      ss_router s' = (if decide (S i = cv_n) then Unregister cv_itt (ss_router s) else ss_router s) /\
      ss_tasks s' = (if decide (S i = cv_n) then delete cv_itt (ss_tasks s) else ss_tasks s) /\
      answered_by cv_exp cv_max s s';
}.

Section exchange.
#[local] Set Default Proof Using "All".
Context (mt : MockTarget) `{cv : !Conversation mt} (id ch li : nat) (s1 : Session) (d : Z).

#[local] Abbreviation itt := cv_itt.
#[local] Abbreviation n := cv_n.
#[local] Abbreviation raw0 := cv_raw0.
#[local] Abbreviation raw := cv_raw.
#[local] Abbreviation tasks0 := (ss_tasks s1).
Definition pdus (i k : nat) : list RawPDU := map cv_raw (seq i k).

Definition left (g : stage) : nat :=
  match g with Queued => 2 + 2 * n | OnWire => 1 + 2 * n | Answered i j => (n - i) + (n - j) end.

(** The task's PDUs are dispatched to the channel, which holds what the loop has
    not consumed. *)
Definition waiting (pending : list RawPDU) (sy : System) : Prop :=
  let r := ss_router (sy_session sy) in
  rt_pending r !! itt = Some (mkEntry ch true) /\
  (exists cap, rt_chans r !! ch = Some (mkChan pending (S cap) false)) /\
  ss_tasks (sy_session sy) = tasks0 /\ (li ∉ sy_ended sy).

(** The task is gone and its loop has returned. *)
Definition gone (sy : System) : Prop :=
  rt_pending (ss_router (sy_session sy)) !! itt = None /\
  ss_tasks (sy_session sy) = delete itt tasks0 /\ li ∈ sy_ended sy.

(** The window when [k] PDUs of the answer have been consumed *)
Definition window_after (k : nat) : cmdWindow := Nat.iter k (fun w => (update cv_exp cv_max w).1) (ss_window s1).

(** What the exchange leaves of the session [s1] in which the command was queued,
    when [k] PDUs of the answer have been consumed *)
Record since (k : nat) (s : Session) : Prop := mkSince {
  si_conn : same_conn s1 s;
  si_window : ss_window s = window_after k;
  si_exp : u32 (ss_expStatSN s1) -> u32 (ss_expStatSN s);
  si_router : rt_nextITT (ss_router s) = rt_nextITT (ss_router s1) /\
    rt_persistentDepth (ss_router s) = rt_persistentDepth (ss_router s1);
  si_objs : forall k', k' <> id -> ss_objs s !! k' = ss_objs s1 !! k';
}.

Record at_stage (g : stage) (sy : System) : Prop := mkAtStage {
  as_loop : ss_loops (sy_session sy) !! li = Some (id, ch);
  as_others : forall i, i <> li -> (i < length (ss_loops (sy_session sy)))%nat -> i ∈ sy_ended sy;
  as_later : forall i, (length (ss_loops (sy_session sy)) <= i)%nat -> i ∉ sy_ended sy;
  as_up : up sy;
  as_unsol : nothing_in (sy_unsolCh sy);
  as_digests : no_digests (sy_session sy);
  as_since : since (consumed g) (sy_session sy);
  as_task : exists t, ss_objs (sy_session sy) !! id = Some t /\ cv_state (consumed g) t;
  as_writeCh : exists cap, ss_writeCh (sy_session sy) =
    mkChan (match g with Queued => [raw0] | _ => [] end) (S cap) false;
  as_out : sy_out sy = match g with OnWire => WriteRawPDU None raw0 [] | _ => [] end;
  as_in : sy_in sy = match g with Answered i _ => wires None (pdus i (n - i)) | _ => [] end;
  as_target : (counters_ok (sy_target sy) /\ st_maxCmdSNDelta (tg_session (sy_target sy)) = d) /\
    match g with
    | Answered _ _ => True
    | _ => cv_target (sy_target sy)
    end;
  as_chan : match g with
    | Answered i j => (j <= i <= n)%nat /\ (if decide (j = n) then gone sy else waiting (pdus j (i - j)) sy)
    | _ => waiting [] sy
    end;
}.

(** ** Turns at a stage *)

Lemma write_stage stale g sy : at_stage g sy ->
  match g with
  | Queued => exists sy', write_turn stale sy = Done sy' /\ at_stage OnWire sy'
  | _ => write_turn stale sy = Blocks
  end.
Proof.
  intros Hs. pose proof (as_writeCh g sy Hs) as [cap Hc]. pose proof (as_up g sy Hs) as (Hw & _).
  unfold write_turn. rewrite Hw, Hc. destruct g as [| |i j]; [|done..].
  pose proof cv_command as Hu. eexists. split; [reflexivity|]. destruct Hs. split; try done.
  { split; [done|by destruct as_up0]. } { by destruct as_since0. } { by exists cap. }
  cbn. rewrite as_out0. cbn. apply WriteRawPDU_stale. by apply unstamped_BHS.
Qed.

Lemma unsol_stage g sy : at_stage g sy -> unsol_turn sy = Blocks.
Proof.
  intros Hs. destruct (as_unsol g sy Hs) as [Hb Hc]. unfold unsol_turn, recv. by rewrite Hb, Hc.
Qed.

Lemma target_stage g sy : at_stage g sy ->
  match g with
  | OnWire => exists sy', target_turn mt sy = Done sy' /\ at_stage (Answered 0 0) sy'
  | _ => target_turn mt sy = Blocks
  end.
Proof.
  intros Hs. pose proof (as_out g sy Hs) as Ho. pose proof (as_up g sy Hs) as (_ & _ & Hup3).
  unfold target_turn. rewrite Hup3, Ho. cbn [negb].
  assert (Hblock : serveConn_turn mt (receiving [] (sy_target sy)) = Blocks).
  { by apply serveConn_turn_Blocks. }
  destruct g as [| |i j]; [by rewrite Hblock| |by rewrite Hblock].
  destruct (as_target OnWire sy Hs) as [[Hcnt Hd] Ht].
  pose proof cv_some as Hpos.
  destruct (cv_answers (sy_target sy) Hcnt Ht) as (st' & Hrun & Er & Ew & [Hcnt' Hd']).
  rewrite Hrun. eexists. split; [reflexivity|].
  destruct Hs. split; try done; cbn.
  - split; [by destruct as_up0|]. by split; [by destruct as_up0 as (_ & ? & _)|].
  - by rewrite as_in0, Ew, Nat.sub_0_r.
  - split; [|done]. split; [done|]. by rewrite Hd'.
  - split; [lia|]. rewrite decide_False by lia. exact as_chan0.
Qed.

(** The PDUs still on the wire *)
Lemma pdus_cons i : (i < n)%nat -> wires None (pdus i (n - i)) = WriteRawPDU None (raw i) [] ++ wires None (pdus (S i) (n - S i)).
Proof. intros Hi. replace (n - i)%nat with (S (n - S i)) by lia. reflexivity. Qed.

Lemma pdus_snoc i j : (j <= i)%nat -> pdus j (i - j) ++ [raw i] = pdus j (S i - j).
Proof.
  intros Hj. unfold pdus. replace (S i - j)%nat with (S (i - j)) by lia.
  rewrite seq_S, map_app. by replace (j + (i - j))%nat with i by lia.
Qed.

(** The read pump finds no whole PDU. *)
Lemma read_nothing sy : sy_in sy = [] -> sy_serving sy = true -> read_turn sy = Blocks.
Proof.
  intros Hi Hs. unfold read_turn, initiator_reader. rewrite Hi, Hs. destruct (negb _); [done|].
  rewrite readPump_turn_eof by done. by rewrite bool_decide_true.
Qed.

(** It hands a PDU on, when the channel of the task has room. *)
Lemma read_hands_on sy i rest pend cap : (i < n)%nat -> sy_reading sy = true ->
  ss_digestHeader (sy_session sy) = false -> ss_digestData (sy_session sy) = false ->
  sy_in sy = WriteRawPDU None (raw i) [] ++ rest ->
  rt_pending (ss_router (sy_session sy)) !! itt = Some (mkEntry ch true) ->
  rt_chans (ss_router (sy_session sy)) !! ch = Some (mkChan pend (S cap) false) ->
  read_turn sy = (if decide (length pend < S cap)%nat then
    Done (mkSystem (set_router (mkRouter (rt_pending (ss_router (sy_session sy)))
             (rt_nextITT (ss_router (sy_session sy))) (rt_persistentDepth (ss_router (sy_session sy)))
             (<[ch := mkChan (pend ++ [raw i]) (S cap) false]> (rt_chans (ss_router (sy_session sy)))))
             (sy_session sy)) (sy_unsolCh sy) (sy_dropCounter sy) (sy_ended sy) (sy_writing sy) true
            (sy_serving sy) (sy_out sy) rest (sy_target sy))
    else Blocks).
Proof.
  intros Hi Hr Hh Hd Hin Hp Hc. destruct (cv_answer i Hi) as (Hu & Hi0).
  pose proof (stampDigests_framed false false _ Hu) as Hf. rewrite stampDigests_off in Hf.
  pose proof (verifyDigests_stamped false false _ Hu) as Hv. cbv zeta in Hv. rewrite stampDigests_off in Hv.
  destruct (ReadRawPDU_framed None false false (raw i) [] (initiator_reader sy) rest Hf) as (r' & Hres & Hrest & _).
  { unfold initiator_reader, rd_bytes. cbn [rd_chunks concat]. by rewrite app_nil_r. }
  unfold read_turn, readPump_turn. rewrite Hr, Hh, Hd. cbn [negb quiet ctx_top rp_r]. rewrite Hres, Hv.
  unfold dispatchRaw. cbn [rp_router]. rewrite Hi0, (proj2 (Z.eqb_neq _ _) cv_itt_ok).
  unfold Dispatch, dispatchLookup. rewrite Hp. cbn [re_persistent]. unfold chan_send. cbn [re_ch]. rewrite Hc.
  unfold send. cbn [ch_closed ch_buf ch_cap]. destruct (Nat.ltb_spec (length pend) (S cap)) as [Hl|Hl].
  - rewrite decide_True by done. cbn. by rewrite Hrest.
  - by rewrite decide_False by lia.
Qed.

Lemma read_stage g sy : at_stage g sy ->
  match g with
  | Answered i j =>
      (read_turn sy = Blocks /\ (i = n \/ j < i)%nat) \/
      (exists sy', read_turn sy = Done sy' /\ at_stage (Answered (S i) j) sy' /\ (i < n)%nat)
  | _ => read_turn sy = Blocks
  end.
Proof.
  intros Hs. pose proof (as_in g sy Hs) as Hin. pose proof (as_up g sy Hs) as (_ & Hr & Hsv).
  destruct g as [| |i j]; [by apply read_nothing..|].
  destruct (as_chan _ _ Hs) as [Hij Hch]. destruct (decide (i = n)) as [->|Hi].
  { left. split; [|by left]. apply read_nothing; [|done]. rewrite Hin. by rewrite Nat.sub_diag. }
  rewrite decide_False in Hch by lia. destruct Hch as (Hp & (cap & Hc) & Ht & Hli).
  destruct (as_digests _ _ Hs) as [Hdh Hdd]. rewrite pdus_cons in Hin by lia.
  pose proof (read_hands_on sy i _ _ cap ltac:(lia) Hr Hdh Hdd Hin Hp Hc) as Hrun.
  destruct (decide (length (pdus j (i - j)) < S cap)%nat) as [Hl|Hl].
  - right. eexists. split; [exact Hrun|]. split; [|lia]. destruct Hs. split; try done.
    { split; [by destruct as_up0|]. by split. } { by destruct as_since0. }
    split; [lia|]. rewrite decide_False by lia. split; [done|]. split; [|done]. exists cap.
    cbn. rewrite list_lookup_insert_eq by by eapply lookup_lt_Some. by rewrite pdus_snoc by lia.
  - left. split; [done|right]. unfold pdus in Hl. rewrite length_map, length_seq in Hl. lia.
Qed.

(** A task loop with nothing to take waits. *)
Lemma task_waits sch sy : ss_loops (sy_session sy) !! li = Some (id, ch) -> waiting [] sy ->
  (exists t, ss_objs (sy_session sy) !! id = Some t /\ tk_done t = false) -> sch <> TakeCtx ->
  task_turn sch li sy = Blocks.
Proof.
  intros Hl (_ & (cap & Hc) & _ & Hli) (t & Ho & Hd) Hsch. unfold task_turn. rewrite decide_False by done. rewrite Hl.
  unfold on_session, taskLoop_turn. rewrite (SM_bind_Done _ _ _ _ _ (task_at_Done id _ t Ho)).
  destruct sch; [by rewrite Hd|done|]. unfold mbind, SM_bind, receive, chan_recv. cbn. by rewrite Hc.
Qed.

(** The loops of other tasks have returned. *)
Lemma others_wait g sy sch k : at_stage g sy -> k <> li -> task_turn sch k sy = Blocks.
Proof.
  intros Hs Hk. unfold task_turn. destruct (decide _) as [|He]; [done|].
  rewrite lookup_ge_None_2; [done|]. destruct (decide (length (ss_loops (sy_session sy)) <= k)%nat); [done|].
  destruct He. apply (as_others g sy Hs); [done|lia].
Qed.

(** The loop takes the next PDU off its channel. *)
Lemma task_consumes i j sy : at_stage (Answered i j) sy -> (j < i)%nat ->
  exists sy', task_turn TakePDU li sy = Done sy' /\ at_stage (Answered i (S j)) sy'.
Proof.
  intros Hs Hj. destruct (as_chan _ _ Hs) as [Hij Hch]. rewrite decide_False in Hch by lia.
  destruct Hch as (Hp & (cap & Hc) & Ht & Hli). destruct (as_task _ _ Hs) as (t & Ho & Hrec).
  destruct (as_writeCh _ _ Hs) as [cap' Hw]. cbn [consumed] in Hrec.
  set (s := sy_session sy) in *.
  set (r1 := mkRouter (rt_pending (ss_router s)) (rt_nextITT (ss_router s)) (rt_persistentDepth (ss_router s))
    (<[ch := mkChan (pdus (S j) (i - S j)) (S cap) false]> (rt_chans (ss_router s)))).
  assert (Hrecv : receive ch s = Done (Some (raw j), set_router r1 s)).
  { unfold receive, chan_recv. cbn. rewrite Hc. cbn. unfold recv. cbn [ch_buf].
    replace (i - j)%nat with (S (i - S j)) by lia. reflexivity. }
  destruct (cv_consume id j (set_router r1 s) t Ho Hrec) as (s' & t' & Hturn & E1 & Hrec' & E2 & E3 & E4 & E5); [lia|by cbn; rewrite Hw|].
  assert (Hop : taskLoop_turn TakePDU id ch s = Done (bool_decide (S j <> n), s')).
  { unfold taskLoop_turn. rewrite (SM_bind_Done _ _ _ _ _ (task_at_Done id s t Ho)).
    by rewrite (SM_bind_Done _ _ _ _ _ Hrecv). }
  assert (Hsince : since (S j) s').
  { destruct (as_since _ _ Hs) as [C1 C2 C3 [C4 C5] C6]. destruct E5 as (E5 & E6 & E7).
    split.
    - transitivity (set_router r1 s); [exact C1|exact E5].
    - rewrite E6. change (ss_window (set_router r1 s)) with (ss_window s). unfold s. by rewrite C2.
    - intros He. apply E7, C3, He.
    - rewrite E3. by destruct (decide _).
    - intros k Hk. rewrite E1, list_lookup_insert_ne by done. by apply C6. }
  destruct E5 as ((F1 & F2 & F3 & _) & _).
  cbn [set_router ss_loops ss_digestHeader ss_digestData] in F1, F2, F3.
  assert (Hlen : (li < length (ss_loops s))%nat) by (eapply lookup_lt_Some; exact (as_loop _ _ Hs)).
  unfold task_turn. fold s. rewrite decide_False by done. rewrite (as_loop _ _ Hs : ss_loops s !! li = _).
  unfold on_session. fold s. rewrite Hop. eexists. split; [reflexivity|].
  assert (Ht' : exists t, ss_objs s' !! id = Some t /\ cv_state (S j) t).
  { exists t'. split; [|done]. rewrite E1. apply list_lookup_insert_eq. by eapply lookup_lt_Some. }
  assert (Hw' : exists cap, ss_writeCh s' = mkChan [] (S cap) false) by (exists cap'; by rewrite E2).
  assert (Hdig : no_digests s') by (unfold no_digests; rewrite F2, F3; exact (as_digests _ _ Hs)).
  destruct Hs. fold s in as_loop0, as_others0, as_later0. rewrite <- F1 in as_loop0, as_others0, as_later0.
  destruct (decide (S j = n)) as [Hlast|Hmore].
  - rewrite bool_decide_false by tauto. split; try done; cbn.
    + intros k Hk Hkl. apply elem_of_cons. right. by apply as_others0.
    + intros k Hkl. apply not_elem_of_cons. rewrite F1 in Hkl. split; [lia|]. apply as_later0. by rewrite F1.
    + split; [lia|]. rewrite decide_True by done. split; [|split].
      * cbn. rewrite E3. apply lookup_delete_eq.
      * cbn. rewrite E4. change (ss_tasks (set_router r1 s)) with (ss_tasks s). by rewrite Ht.
      * apply elem_of_cons. by left.
  - rewrite bool_decide_true by done. split; try done; cbn.
    split; [lia|]. rewrite decide_False by done. unfold waiting. cbn. rewrite E3, E4. split; [exact Hp|].
    split; [|split; [exact Ht|exact Hli]]. exists cap. cbn. apply list_lookup_insert_eq. by eapply lookup_lt_Some.
Qed.

Lemma task_stage sch k g sy : at_stage g sy -> sch <> TakeCtx ->
  (task_turn sch k sy = Blocks /\
   ~ (sch = TakePDU /\ k = li /\ match g with Answered i j => (j < i)%nat | _ => False end)) \/
  (exists i j sy', g = Answered i j /\ (j < i <= n)%nat /\ task_turn sch k sy = Done sy' /\
     at_stage (Answered i (S j)) sy').
Proof.
  intros Hs Hsch. destruct (decide (k = li)) as [->|Hk]; [|left; split; [by eapply others_wait|tauto]].
  destruct (as_task g sy Hs) as (t & Ho & Hrec). pose proof cv_some as Hpos.
  pose proof (fun H => cv_running _ _ H Hrec) as Hd.
  assert (Hwait : (consumed g < n)%nat -> waiting [] sy -> task_turn sch li sy = Blocks).
  { intros Hc Hw. apply task_waits; [exact (as_loop g sy Hs)|done|exists t; auto|done]. }
  pose proof (as_chan g sy Hs) as Hch. destruct g as [| |i j]; [left; split; [by apply Hwait|tauto]..|].
  cbn [consumed] in Hd, Hwait.
  destruct Hch as [Hij Hch]. destruct (decide (j = n)) as [Hj|Hj].
  { left. split; [|intros (_ & _ & ?); lia]. unfold task_turn. by rewrite decide_True by apply Hch. }
  destruct (decide (i = j)) as [->|Hne].
  { rewrite Nat.sub_diag in Hch. left. split; [apply Hwait; [lia|done]|intros (_ & _ & ?); lia]. }
  destruct sch; [|done|].
  - left. split; [|by intros (? & _)]. destruct Hch as (_ & _ & _ & Hli).
    unfold task_turn. rewrite decide_False by done. rewrite (as_loop _ sy Hs).
    unfold on_session, taskLoop_turn. rewrite (SM_bind_Done _ _ _ _ _ (task_at_Done id _ t Ho)). by rewrite Hd by lia.
  - right. destruct (task_consumes i j sy Hs) as (sy' & Hrun & Hs'); [lia|]. exists i, j, sy'.
    split; [done|]. split; [lia|done].
Qed.

(** The actors whose turn takes the exchange on *)
Definition enabled (g : stage) (a : actor) : Prop :=
  match g, a with
  | Queued, WritePumpTurn _ => True
  | OnWire, TargetTurn => True
  | Answered i j, TaskTurn TakePDU k => k = li /\ (j < i)%nat
  | Answered i j, ReadPumpTurn => i = j /\ (i < n)%nat
  | _, _ => False
  end.

Lemma turn_stage g sy a : at_stage g sy -> undisturbed a ->
  (turn mt a sy = Blocks /\ ~ enabled g a) \/
  (exists g' sy', turn mt a sy = Done sy' /\ at_stage g' sy' /\ (1 + left g' = left g)%nat).
Proof.
  intros Hs Hu. destruct a as [stale| | |sch k|]; cbn [turn].
  - pose proof (write_stage stale g sy Hs) as H. destruct g; [right|left; split; [exact H|by intros []]..].
    destruct H as (sy' & Hr & Hs'). by exists OnWire, sy'.
  - pose proof (read_stage g sy Hs) as H. destruct g as [| |i j]; [left; split; [exact H|by intros []]..|].
    destruct H as [[Hr Hij]|(sy' & Hr & Hs' & Hi)]; [left|right].
    + split; [exact Hr|]. intros [-> ?]. lia.
    + exists (Answered (S i) j), sy'. split; [exact Hr|]. split; [exact Hs'|]. cbn. lia.
  - left. split; [by eapply unsol_stage|]. by destruct g; intros [].
  - destruct (task_stage sch k g sy Hs) as [[Hr Hne]|(i & j & sy' & -> & Hij & Hr & Hs')];
      [by intros ->|left|right].
    + split; [exact Hr|]. intros He. apply Hne. by destruct g, sch.
    + exists (Answered i (S j)), sy'. split; [exact Hr|]. split; [exact Hs'|]. cbn. lia.
  - pose proof (target_stage g sy Hs) as H. destruct g; [left; split; [exact H|by intros []]| |left; split; [exact H|by intros []]].
    right. destruct H as (sy' & Hr & Hs'). exists (Answered 0 0), sy'. split; [exact Hr|].
    split; [exact Hs'|]. cbn. lia.
Qed.

(** Until everything is consumed, every fair round has an enabled actor. *)
Lemma round_enabled g sy l : at_stage g sy -> fair_round li l -> (0 < left g)%nat -> Exists (enabled g) l.
Proof.
  intros Hs ((stale & Hw) & Hr & Ht & Hk) Hg. pose proof (as_chan g sy Hs) as Hij. apply Exists_exists. destruct g as [| |i j].
  - by exists (WritePumpTurn stale).
  - by exists TargetTurn.
  - cbn in Hg. destruct (decide (j < i)%nat); [by exists (TaskTurn TakePDU li)|].
    exists ReadPumpTurn. split; [done|]. cbn. lia.
Qed.

(** Enough rounds, and the read is complete. *)
Lemma served rounds sy : at_stage Queued sy -> Forall (fair_round li) rounds -> Forall (Forall undisturbed) rounds ->
  (2 * n + 2 <= length rounds)%nat ->
  exists sy', run (turn mt) (concat rounds) sy = Done sy' /\ at_stage (Answered n n) sy'.
Proof.
  intros Hs Hr Hu Hlen.
  destruct (run_rounds (turn mt) at_stage left enabled undisturbed) with (round := fair_round li) (rounds := rounds)
    (g := Queued) (s := sy) as (g & sy' & Hrun & Hs' & Hleft); try done.
  - intros g s a. apply turn_stage.
  - intros g s l. apply round_enabled.
  - exists sy'. split; [done|]. cbn in Hleft. pose proof (as_chan g sy' Hs') as Hch.
    destruct g as [| |i j]; cbn in Hleft; [lia..|]. by replace n with i at 1 by lia; replace n with j at 1 by lia.
Qed.

End exchange.

(** A command queued on a connection at rest *)
Lemma queued_stage mt `{cv : !Conversation mt} sy id ch t s1 (d := st_maxCmdSNDelta (tg_session (sy_target sy))) : let s := sy_session sy in
  idle sy -> cv_target (sy_target sy) -> ss_loops s1 = ss_loops s ++ [(id, ch)] ->
  ss_writeCh s1 = sent_on [cv_raw0] (ss_writeCh s) -> no_digests s1 ->
  ss_objs s1 !! id = Some t -> cv_state 0 t -> listening cv_itt ch (ss_router s1) ->
  at_stage mt id ch (length (ss_loops s)) s1 d Queued (System.set_session s1 sy).
Proof.
  intros s [[W1 W2] U L1 L2 Hup Hst D T] Htgt Hl Hw Hd. fold s in W1, W2, L1, L2.
  assert (Hlen : length (ss_loops s1) = S (length (ss_loops s))) by (rewrite Hl, length_app; cbn; lia).
  assert (Hloop : ss_loops s1 !! length (ss_loops s) = Some (id, ch)) by by rewrite Hl, lookup_app_r, Nat.sub_diag by lia.
  assert (Hout : forall i, i <> length (ss_loops s) -> (i < length (ss_loops s1))%nat -> i ∈ sy_ended sy).
  { intros i Hi Hil. apply L1. lia. }
  assert (Hin : forall i, (length (ss_loops s1) <= i)%nat -> i ∉ sy_ended sy) by (intros i Hil; apply L2; lia).
  assert (Hch : exists cap, ss_writeCh s1 = mkChan [cv_raw0] (S cap) false).
  { rewrite Hw. clear -W1 W2. destruct W1 as [Hb Hc], W2 as [_ Hr], (ss_writeCh s) as [buf [|cap] cl]; cbn in *; [lia|].
    exists cap. unfold sent_on. cbn. by subst. }
  intros Ho Hrec [Hl1 Hl2]. split; try done; cbn [System.set_session sy_session].
  - by exists t.
  - by destruct Hst.
  - by destruct Hst.
  - split; [exact Hl1|]. split; [exact Hl2|]. split; [done|]. by apply L2.
Qed.

(** What is left when everything is consumed *)
Lemma at_rest mt `{cv : !Conversation mt} id ch li s1 d sy :
  at_stage mt id ch li s1 d (Answered cv_n cv_n) sy -> gone mt li s1 sy /\ idle sy.
Proof.
  intros Hs. destruct (as_chan _ _ _ _ _ _ _ _ Hs) as [_ Hg]. rewrite decide_True in Hg by done. split; [done|].
  destruct Hg as (_ & _ & Hli). destruct (as_writeCh _ _ _ _ _ _ _ _ Hs) as [cap Hw]. destruct Hs. split; try done.
  - rewrite Hw. split; [done|]. split; [done|]. cbn. lia.
  - intros i Hi. destruct (decide (i = li)) as [->|]; [done|by apply as_others0].
  - split; [done|]. rewrite as_in0. by rewrite Nat.sub_diag.
  - apply as_target0.
Qed.

(** The exchange of a command that was queued as [s1], from rest to rest *)
Lemma exchange_completes mt `{cv : !Conversation mt} sy id ch t s1 rounds : let s := sy_session sy in
  idle sy -> cv_target (sy_target sy) -> ss_loops s1 = ss_loops s ++ [(id, ch)] ->
  ss_writeCh s1 = sent_on [cv_raw0] (ss_writeCh s) -> no_digests s1 ->
  ss_objs s1 !! id = Some t -> cv_state 0 t -> listening cv_itt ch (ss_router s1) ->
  Forall (fair_round (length (ss_loops s))) rounds -> Forall (Forall undisturbed) rounds ->
  (2 * cv_n + 2 <= length rounds)%nat ->
  exists sy' t', run (turn mt) (concat rounds) (System.set_session s1 sy) = Done sy' /\
    ss_objs (sy_session sy') !! id = Some t' /\ cv_state cv_n t' /\
    ss_tasks (sy_session sy') = delete cv_itt (ss_tasks s1) /\
    rt_pending (ss_router (sy_session sy')) !! cv_itt = None /\ idle sy' /\
    since mt id s1 cv_n (sy_session sy') /\
    st_maxCmdSNDelta (tg_session (sy_target sy')) = st_maxCmdSNDelta (tg_session (sy_target sy)).
Proof.
  intros s Hidle Htgt Hl Hw Hd Ho Hst Hch Hr Hu Hlen.
  pose proof (queued_stage mt sy id ch t s1 Hidle Htgt Hl Hw Hd Ho Hst Hch) as Hq.
  destruct (served mt id ch _ _ _ rounds _ Hq Hr Hu Hlen) as (sy' & Hrun & Hs').
  destruct (as_task _ _ _ _ _ _ _ _ Hs') as (t' & Ho' & Hst'). destruct (at_rest _ _ _ _ _ _ _ Hs') as ((G1 & G2 & _) & Hid).
  exists sy', t'. split_and!; try done; [exact (as_since _ _ _ _ _ _ _ _ Hs')|apply (as_target _ _ _ _ _ _ _ _ Hs')].
Qed.

(** ** Submitting on a connection at rest *)

Lemma next_itt_unreserved s : 0 <= rt_nextITT (ss_router s) < reservedITT -> next_itt s <> reservedITT.
Proof.
  intros H. unfold next_itt, AllocateITT. pose proof (allocITT_range (rt_nextITT (ss_router s))) as [H1 _]; [lia|].
  destruct (allocITT _) as [itt nx]. cbn in *. lia.
Qed.

(** The command that is queued, whose immediate data is [imm] and leaves the task [t1] *)
Lemma submit_queued sy cmd cx cx' sn w' imm t1 : let s := sy_session sy in
  idle sy -> ready sn w' s -> Command_ok cmd -> (cx_done cx' && cx_pick cx') = false ->
  Z.of_nat (length imm) < 2 ^ 24 -> (cmd_Data cmd <> None -> np_InitialR2T (ss_params s) = true) ->
  (if bool_decide (is_Some (cmd_Data cmd)) && np_ImmediateData (ss_params s)
   then readImmediate (ss_params s) (length (ss_objs s)) else mret (Ok []))
    (registered (submit_task 0 cmd sn s) w' s) = Done (Ok imm, registered t1 w' s) ->
  let p := SCSICommand_wire (command_request (submitted_command cmd) (next_itt s) sn (ss_expStatSN s) imm) in
  exists raw0, let s1 := submitted t1 w' [raw0] s in
    on_session (Submit cx cx' cmd) sy = Done (Ok (length (ss_objs s)), System.set_session s1 sy) /\
    SCSICommand_ok p /\ InitiatorTaskTag (SCSICommand_Hdr p) <> reservedITT /\
    unstamped raw0 /\ DecodeBHS (raw_BHS raw0) = Ok (PSCSICommand p) /\ raw_DataSegment raw0 = imm /\
    no_digests s1 /\ ss_objs s1 !! length (ss_objs s) = Some t1 /\
    listening (next_itt s) (next_ch s) (ss_router s1).
Proof.
  intros s Hidle Hready Hok Hcx Himm24 HR2T Himm p. pose proof (submitted_command_ok cmd Hok) as Hok'.
  destruct (submit_ok 0 cx cx' cmd sn w' s imm t1 0 Hready Hok Hcx) as (bhs & Hsub & Hdec & Hun);
    [by destruct (id_writeCh sy Hidle)|done|done|done|].
  destruct (id_digests sy Hidle) as [D1 D2]. fold s in D1, D2. rewrite D1, D2, stampDigests_off in Hsub.
  pose proof Hready as (_ & _ & _ & Hsn & He & Hnext & Hdep).
  exists (newRawPDU bhs imm). unfold on_session. fold s. change (Submit cx cx' cmd s) with (submit cx cx' 0 cmd s).
  rewrite Hsub. split; [done|]. split; [|split; [by apply next_itt_unreserved|]].
  - by apply (command_request_ok (submitted_command cmd) _ sn _ imm Hok' (next_itt_width s Hnext)).
  - split; [done|]. split; [done|]. split; [done|]. split; [by split|]. split; [|by apply submitted_listening].
    cbn. by rewrite lookup_app_r, Nat.sub_diag by lia.
Qed.

(** ** Ready for the next command *)

(** The window when no command is outstanding: the target expects [sn] next and takes
    [d] commands after it. *)
Definition window_at (sn d : Z) : cmdWindow := mkCmdWindow sn sn (uint32 (sn + d)) false.
Definition spare (d : Z) : Prop := 0 <= d < 2 ^ 31 - 1.

(** A session that can take a command, now and after every answer *)
Record steady (sy : System) : Prop := mkSteady {
  sd_window : exists sn d, ss_window (sy_session sy) = window_at sn d /\ u32 sn /\ spare d;
  sd_phase : ss_recovering (sy_session sy) = false /\ ss_draining (sy_session sy) = false;
  sd_exp : u32 (ss_expStatSN (sy_session sy));
  sd_router : 0 <= rt_nextITT (ss_router (sy_session sy)) < reservedITT /\
    (0 < rt_persistentDepth (ss_router (sy_session sy)))%nat;
  sd_target : spare (st_maxCmdSNDelta (tg_session (sy_target sy)));
}.

Lemma window_at_acquire sn d : u32 sn -> spare d ->
  acquire_fast (window_at sn d) = Some (Ok sn, mkCmdWindow (Incr sn) sn (uint32 (sn + d)) false).
Proof.
  intros Hsn Hd. unfold spare in Hd. unfold acquire_fast, windowOpen. cbn [window_at cw_closed cw_maxCmdSN cw_expCmdSN cw_cmdSN].
  destruct (LessThan_offset sn d 0 Hsn) as [H _]; [lia|lia|]. rewrite Z.add_0_r, (wrap_id 32 sn) in H by done.
  rewrite H, (proj2 (Z.ltb_ge _ _)) by lia. unfold InWindow. by rewrite Z.eqb_refl.
Qed.

Lemma steady_ready sy : steady sy -> exists sn w', ready sn w' (sy_session sy).
Proof.
  intros [(sn & d & Hw & Hsn & Hd) [H1 H2] He [Hr1 Hr2] _]. exists sn, (mkCmdWindow (Incr sn) sn (uint32 (sn + d)) false). unfold ready. rewrite Hw.
  split; [done|]. split; [done|]. split; [by apply window_at_acquire|]. by repeat (split; [done|]).
Qed.

(** The first PDU of an answer moves the window behind the command, the others
    change nothing. *)
Lemma update_moves sn d d' : u32 sn -> spare d -> spare d' ->
  update (Incr sn) (uint32 (Incr sn + d')) (mkCmdWindow (Incr sn) sn (uint32 (sn + d)) false) =
  (window_at (Incr sn) d', true).
Proof.
  intros Hsn Hd Hd'. unfold spare in *.
  assert (Hx : uint32 (Incr sn + d') = uint32 (sn + (1 + d'))).
  { unfold Incr, wrap. rewrite Zplus_mod_idemp_l. f_equal. lia. }
  assert (He : uint32 (Incr sn - 1) = uint32 (sn + 0)).
  { unfold Incr, wrap. rewrite Zminus_mod_idemp_l. f_equal. lia. }
  unfold update. cbn [cw_cmdSN cw_expCmdSN cw_maxCmdSN cw_closed].
  destruct (LessThan_offset sn (1 + d') 0 Hsn) as [H _]; [lia|lia|].
  rewrite Hx, He, H, (proj2 (Z.ltb_ge _ _)) by lia.
  destruct (LessThan_offset sn 1 0 Hsn) as [_ H1]; [lia|lia|]. rewrite Z.add_0_r, (wrap_id 32 sn) in H1 by done.
  change (uint32 (sn + 1)) with (Incr sn) in H1. rewrite H1. cbn [Z.ltb Z.compare cw_maxCmdSN cw_cmdSN cw_expCmdSN cw_closed].
  unfold window_at. rewrite Hx. destruct (Z.eqb_spec (uint32 (sn + (1 + d'))) (uint32 (sn + d))) as [->|]; done.
Qed.

Lemma update_stays sn d : u32 sn -> spare d -> (update sn (uint32 (sn + d)) (window_at sn d)).1 = window_at sn d.
Proof.
  intros Hsn Hd. unfold update. destruct (LessThan _ _); [done|]. cbn [window_at cw_expCmdSN cw_maxCmdSN].
  unfold GreaterThan. rewrite Z.eqb_refl. cbn [negb andb cw_maxCmdSN]. by rewrite Z.eqb_refl.
Qed.

Lemma window_moves sn d d' k : u32 sn -> spare d -> spare d' -> (0 < k)%nat ->
  Nat.iter k (fun w => (update (Incr sn) (uint32 (Incr sn + d')) w).1)
    (mkCmdWindow (Incr sn) sn (uint32 (sn + d)) false) = window_at (Incr sn) d'.
Proof.
  intros Hsn Hd Hd' Hk. destruct k as [|k]; [lia|]. clear Hk. induction k as [|k IH].
  - cbn [Nat.iter nat_rect]. by rewrite update_moves.
  - rewrite Nat.iter_succ, IH. apply update_stays; [apply Incr_width|done].
Qed.

(** After the exchange of a command with CmdSN [sn] the session is as ready as it
    was. *)
Lemma exchange_steady mt `{cv : !Conversation mt} sy sy' id t1 raws sn w' d' : let s := sy_session sy in
  steady sy -> ready sn w' s -> cv_exp = uint32 (sn + 1) -> cv_max = uint32 (uint32 (sn + 1) + d') -> spare d' ->
  since mt id (submitted t1 w' raws s) cv_n (sy_session sy') ->
  st_maxCmdSNDelta (tg_session (sy_target sy')) = st_maxCmdSNDelta (tg_session (sy_target sy)) -> steady sy'.
Proof.
  intros s [(sn' & d & Hw & Hsn & Hd) [P1 P2] He [Hr1 Hr2] Ht] (_ & _ & Hacq & _) He' Hx' Hd' [C1 C2 C3 [C4 C5] _] Htd.
  fold s in Hw, P1, P2, He, Hr1, Hr2. rewrite Hw, window_at_acquire in Hacq by done. injection Hacq as <- <-.
  destruct C1 as (_ & _ & _ & _ & F1 & F2). split.
  - exists (Incr sn'), d'. split; [|split; [apply Incr_width|done]]. rewrite C2. unfold window_after. rewrite He', Hx'.
    by apply window_moves, cv_some.
  - by rewrite F1, F2.
  - by apply C3.
  - pose proof (allocITT_range (rt_nextITT (ss_router s))) as [_ H]; [lia|].
    assert (Hn : rt_nextITT (ss_router (submitted t1 (mkCmdWindow (Incr sn') sn' (uint32 (sn' + d)) false) raws s))
      = (allocITT (rt_nextITT (ss_router s))).2).
    { unfold submitted, registered, AllocateITT. cbn [ss_router set_loops set_writeCh set_tasks set_objs set_router].
      by destruct (allocITT _). }
    rewrite C4, C5, Hn. split; [exact H|]. unfold submitted, registered, AllocateITT. by destruct (allocITT _).
  - by rewrite Htd.
Qed.

(** The tables of the session after the exchange: one task and one loop more *)
Lemma exchange_tables mt `{cv : !Conversation mt} sy sy' t t1 raws w' : let s := sy_session sy in
  let s' := sy_session sy' in
  since mt (length (ss_objs s)) (submitted t1 w' raws s) cv_n s' -> ss_objs s' !! length (ss_objs s) = Some t ->
  ss_params s' = ss_params s /\ length (ss_loops s') = S (length (ss_loops s)) /\
  length (ss_objs s') = S (length (ss_objs s)) /\
  (forall k, (k < length (ss_objs s))%nat -> ss_objs s' !! k = ss_objs s !! k).
Proof.
  intros s s' [C1 _ _ _ C6] Ho. destruct C1 as (F1 & _ & _ & F2 & _). split; [exact F2|].
  split; [rewrite F1; cbn; rewrite length_app; cbn; lia|]. cbn in C6. split.
  - apply Nat.le_antisymm; [|by apply lookup_lt_Some in Ho]. apply lookup_ge_None_1. rewrite C6 by lia.
    apply lookup_ge_None_2. rewrite length_app. cbn. lia.
  - intros k Hk. rewrite C6 by lia. by rewrite lookup_app_l.
Qed.

(** ** A concrete system *)

(** A session just logged in, the target it is connected to, and a schedule that
    takes everybody in turn, the task loop first *)
Definition test_system : System :=
  start test_session (mkTargetState (newTargetConn (net_reader [])) NewSessionState 0
    (mkNegotiationConfig None None None None None None) false).
Definition test_round : list actor :=
  [TaskTurn TakePDU 0; DispatchTurn; TaskTurn TakeDone 1; TargetTurn; ReadPumpTurn; WritePumpTurn [1; 2]].

Lemma test_system_idle : idle test_system.
Proof.
  split; first [done|by split; [done|split; [done|cbn; lia]]|cbn; intros i Hi; lia
    |intros i Hi; apply not_elem_of_nil|split; unfold in_width; cbn; lia].
Qed.

Lemma test_system_ready : ready 1 (mkCmdWindow 2 1 1 false) (sy_session test_system).
Proof. unfold ready. repeat (split; [vm_compute; done|]). vm_compute. lia. Qed.

Lemma test_rounds k : Forall (fair_round 0) (replicate k test_round) /\ Forall (Forall undisturbed) (replicate k test_round).
Proof.
  split; apply Forall_replicate; [|by repeat constructor].
  split; [exists [1; 2]|split; [|split]]; apply list_elem_of_In; simpl; tauto.
Qed.
