(* ===== verification/Served.v ===== *)
(** What a target that serves commands promises to the callers of a session
    ([src/internal/session/session.go], [src/test/target.go]), and a caller who has
    one command after the other carried out.

    [Serves] is the interface: on a connection at rest the commands it accepts
    complete with its answer, and leave the connection at rest and the session ready
    for the next command.  [all_served] is proved against the interface, for any
    number of commands. *)
From S2P Require Import Prelude Errors Bhs PduTactics PduInitiator PduTarget Pdu GoIO Digest Framer.
From S2P Require Import Chan Serial Router Pump Text Negotiation CmdWindow Config Types Task Reassembly.
From S2P Require Import DataOut Session Unsolicited Lifecycle TaskLoop Loops Target Serving Fair System Exchange.
#[local] Open Scope string_scope.
#[local] Open Scope list_scope.
#[local] Open Scope Z_scope.

(** A command, what its context does while it is submitted, and the rounds of turns
    that are taken before the next one *)
Record Work := mkWork {
  wk_cmd : Command;
  wk_cx : CtxSched;
  wk_cx' : CtxSched;
  wk_rounds : list (list actor);
}.

(** The caller is not cancelled, and everybody has a turn in [k] rounds; the task loop
    is the [i]-th of the session. *)
Record work_ok (i k : nat) (w : Work) : Prop := mkWorkOk {
  wo_ctx : (cx_done (wk_cx' w) && cx_pick (wk_cx' w)) = false;
  wo_fair : Forall (fair_round i) (wk_rounds w);
  wo_undisturbed : Forall (Forall undisturbed) (wk_rounds w);
  wo_enough : (k <= length (wk_rounds w))%nat;
}.

(** A session that has taken one command more and kept its parameters and the tasks
    of the commands before *)
Definition one_more (s s' : Session) : Prop :=
  ss_params s' = ss_params s /\ length (ss_loops s') = S (length (ss_loops s)) /\
  length (ss_objs s') = S (length (ss_objs s)) /\
  (forall k, (k < length (ss_objs s))%nat -> ss_objs s' !! k = ss_objs s !! k).

(** The target [mt] answers the commands that it [accepts] with [answer], when there
    are [needed] rounds of turns. *)
Class Serves (mt : MockTarget) (accepts : NegotiatedParams -> Command -> Prop) (answer : Command -> Result)
    (needed : Command -> nat) : Prop :=
  serves : forall (sy : System) (w : Work) (s := sy_session sy), idle sy -> steady sy ->
    Command_ok (wk_cmd w) -> accepts (ss_params s) (wk_cmd w) -> work_ok (length (ss_loops s)) (needed (wk_cmd w)) w ->
    exists sy1 sy' t, on_session (Submit (wk_cx w) (wk_cx' w) (wk_cmd w)) sy = Done (Ok (length (ss_objs s)), sy1) /\
      run (turn mt) (concat (wk_rounds w)) sy1 = Done sy' /\
      ss_objs (sy_session sy') !! length (ss_objs s) = Some t /\ ch_buf (tk_resultCh t) = [answer (wk_cmd w)] /\
      one_more s (sy_session sy') /\ idle sy' /\ steady sy'.

(** ** One command after the other *)

Definition run_turns (mt : MockTarget) (l : list actor) : SM System () := fun sy =>
  match run (turn mt) l sy with Done sy => Done ((), sy) | Blocks => Blocks | Panics => Panics end.

Fixpoint all_run (mt : MockTarget) (works : list Work) : SM System (list (res nat)) :=
  match works with
  | [] => mret []
  | w :: works =>
      r ← on_session (Submit (wk_cx w) (wk_cx' w) (wk_cmd w));
      _ ← run_turns mt (concat (wk_rounds w));
      rs ← all_run mt works;
      mret (r :: rs)
  end.

(** The work on the commands of a list, the first of which is the [i]-th of its session *)
Definition works_ok (needed : Command -> nat) (i : nat) (works : list Work) : Prop :=
  forall k w, works !! k = Some w -> work_ok (i + k) (needed (wk_cmd w)) w.

Lemma works_ok_cons needed i w works : works_ok needed i (w :: works) ->
  work_ok i (needed (wk_cmd w)) w /\ works_ok needed (S i) works.
Proof.
  intros H. split; [rewrite <- (Nat.add_0_r i); by apply (H O)|].
  intros k w' Hk. rewrite Nat.add_succ_comm. by apply (H (S k)).
Qed.

Section all_served.
Context (mt : MockTarget) (accepts : NegotiatedParams -> Command -> Prop) (answer : Command -> Result).
Context (needed : Command -> nat) `{Hserves : !Serves mt accepts answer needed}.

Lemma all_served works : forall sy (s := sy_session sy), idle sy -> steady sy ->
  Forall (fun w => Command_ok (wk_cmd w) /\ accepts (ss_params s) (wk_cmd w)) works ->
  works_ok needed (length (ss_loops s)) works ->
  exists sy', all_run mt works sy = Done (map Ok (seq (length (ss_objs s)) (length works)), sy') /\
    (forall k w, works !! k = Some w -> exists t, ss_objs (sy_session sy') !! (length (ss_objs s) + k)%nat = Some t /\
       ch_buf (tk_resultCh t) = [answer (wk_cmd w)]) /\
    (forall k, (k < length (ss_objs s))%nat -> ss_objs (sy_session sy') !! k = ss_objs s !! k) /\
    idle sy' /\ steady sy'.
Proof using Hserves.
  induction works as [|w works IH]; intros sy s Hid Hst Hacc Hok.
  { exists sy. by split_and!. }
  apply Forall_cons_1 in Hacc as [[Hcmd Hw] Hacc]. apply works_ok_cons in Hok as [Hwo Hok].
  destruct (serves sy w Hid Hst Hcmd Hw Hwo) as (sy1 & sy2 & t & Hsub & Hrun & Ho & Hres & (Hp & Hl & Hn & Hkept) & Hid2 & Hst2).
  fold s in Hsub, Ho, Hp, Hl, Hn, Hkept.
  destruct (IH sy2) as (sy' & Hall & Hanswers & Hkept' & Hid' & Hst'); [done|done|by rewrite Hp|by rewrite Hl|].
  rewrite Hn in Hall, Hanswers, Hkept'. exists sy'. split_and!; [| | |done|done].
  - cbn [all_run]. rewrite (SM_bind_Done _ _ _ _ _ Hsub).
    assert (Hturns : run_turns mt (concat (wk_rounds w)) sy1 = Done ((), sy2)) by (unfold run_turns; by rewrite Hrun).
    rewrite (SM_bind_Done _ _ _ _ _ Hturns), (SM_bind_Done _ _ _ _ _ Hall). done.
  - intros [|k] w' Hk.
    + injection Hk as <-. rewrite Nat.add_0_r. exists t. split; [|done]. rewrite Hkept' by lia. done.
    + rewrite <- Nat.add_succ_comm. by apply Hanswers.
  - intros k Hk. rewrite Hkept' by lia. by apply Hkept.
Qed.

End all_served.
