(* ===== verification/ServedRead.v ===== *)
(** A read served by the target: the multi-PDU answer of the target as a
    [Conversation] ([src/internal/session/session.go], [src/test/target.go]). *)
From S2P Require Import Prelude Errors Bhs PduTactics PduInitiator PduTarget Pdu GoIO Digest Framer.
From S2P Require Import Chan Serial Router Pump Text Negotiation CmdWindow Config Types Task Reassembly.
From S2P Require Import DataOut Session Unsolicited Lifecycle TaskLoop Loops Target Serving Fair System Exchange Served.
#[local] Open Scope string_scope.
#[local] Open Scope list_scope.
#[local] Open Scope Z_scope.

Section served_read.
#[local] Set Default Proof Using "All".
Context (mt0 : MockTarget) (cmd : SCSICommand) (data : bytes) (m : nat) (raw0 : RawPDU) (tgt : TargetState).
Context (e x : Z) (ss : SessionState) (erl0 : Z).

#[local] Abbreviation itt := (InitiatorTaskTag (SCSICommand_Hdr cmd)).
#[local] Abbreviation sn := (tc_statSN (tg_conn tgt)).
#[local] Abbreviation n := (burst_count data (Z.to_nat (SCSICommand_ExpectedDataTransferLength cmd)) m).
#[local] Abbreviation dins := (served_din cmd data m e x sn).
#[local] Abbreviation parts := (served_parts cmd data m).
#[local] Abbreviation raw := (fun i => raw_of (PDataIn (dins i))).
#[local] Abbreviation din := (fun i => DataIn_wire (dins i)).
#[local] Abbreviation mt := (HandleSCSIReadMultiPDU data (Z.of_nat m) mt0).

Hypothesis Hm : (0 < m)%nat.
Hypothesis Hm24 : Z.of_nat m < 2 ^ 24.
Hypothesis Hcmd : SCSICommand_ok cmd.
Hypothesis Hitt : itt <> reservedITT.
Hypothesis Htgt : counters_ok tgt.
Hypothesis Hup : Update (SCSICommand_CmdSN cmd) (Immediate (SCSICommand_Hdr cmd)) (tg_session tgt) = (e, x, ss).
Hypothesis Hraw0 : unstamped raw0 /\ DecodeBHS (raw_BHS raw0) = Ok (PSCSICommand cmd) /\ raw_DataSegment raw0 = [].
Hypothesis Hn : (0 < n)%nat.

(** ** The Data-Ins as the session takes them *)

Lemma update_widths : u32 e /\ u32 x.
Proof.
  destruct Hcmd as (_ & _ & _ & Hsn & _), Htgt as [He _].
  pose proof (Update_width (SCSICommand_CmdSN cmd) (Immediate (SCSICommand_Hdr cmd)) (tg_session tgt) He Hsn) as H.
  by rewrite Hup in H.
Qed.

Lemma dins_sendable i : (i < n)%nat -> sendable (PDataIn (dins i)).
Proof.
  destruct update_widths as [He Hx], Htgt as [_ Hs], Hcmd as ((_ & _ & _ & _ & Hi) & _ & Hedtl & _).
  by apply served_sendable.
Qed.

Lemma raw_decodes i : (i < n)%nat ->
  DecodeBHS (raw_BHS (raw i)) = Ok (PDataIn (din i)) /\ raw_DataSegment (raw i) = DataIn_Data (dins i) /\
  unstamped (raw i) /\ raw_itt (raw i) = itt.
Proof.
  intros Hi. destruct (raw_of_decodes _ (dins_sendable i Hi)) as (Hu & Hd & Hs).
  split; [exact Hd|]. split; [exact Hs|]. split; [exact Hu|].
  symmetry. exact (raw_of_itt _ (dins_sendable i Hi)).
Qed.

Lemma n_bounds : Z.of_nat (length parts) < 2 ^ 32 /\ Z.of_nat (length (concat parts)) < 2 ^ 32.
Proof.
  assert (Hedtl : u32 (SCSICommand_ExpectedDataTransferLength cmd)) by (unfold SCSICommand_ok in Hcmd; tauto).
  pose proof (served_count_bound cmd data m Hm). pose proof (served_t_bound cmd data Hedtl).
  rewrite length_served_parts, concat_served_parts, length_take by done. lia.
Qed.

(** A Data-In consumed by the task loop *)
Lemma consume id i s t : ss_objs s !! id = Some t -> received parts raw din erl0 itt i t -> (i < n)%nat ->
  ch_closed (ss_writeCh s) = false ->
  exists s' t', taskLoop_PDU id (raw i) s = Done (bool_decide (S i <> n), s') /\
    ss_objs s' = <[id := t']> (ss_objs s) /\ received parts raw din erl0 itt (S i) t' /\
    ss_writeCh s' = ss_writeCh s /\
    ss_router s' = (if decide (S i = n) then Unregister itt (ss_router s) else ss_router s) /\
    ss_tasks s' = (if decide (S i = n) then delete itt (ss_tasks s) else ss_tasks s) /\
    answered_by e x s s'.
Proof.
  intros Ho Hrec Hi Hc. destruct n_bounds as [Hn32 Ht32]. pose proof (length_served_parts cmd data m) as Hlen.
  rewrite <- Hlen in Hi |- *.
  destruct (data_in_turn parts raw din erl0 itt) with (m := i) (id := id) (s := s) (t := t)
    as (s' & t' & H1 & H2 & H3 & H4 & H5 & H6 & H7 & _); try done.
  - intros j Hj. rewrite Hlen in Hj. by apply raw_decodes.
  - intros j Hj. rewrite Hlen in Hj. unfold prefix. by rewrite length_served_prefix.
  - intros j Hj. rewrite Hlen in Hj. rewrite served_parts_lookup by done.
    destruct (raw_decodes j Hj) as (_ & -> & _). done.
  - intros j Hj. cbn. by rewrite Hlen.
  - exists s', t'. by repeat (split; [done|]).
Qed.

(** The target's turn on the command *)
Lemma answers st : counters_ok st -> tg_session st = tg_session tgt /\ tc_statSN (tg_conn st) = sn ->
  exists st', serveConn_turn mt (receiving (WriteRawPDU None raw0 []) st) = Done (Ok (), st') /\
    rd_bytes (tc_r (tg_conn st')) = [] /\ w_out (tc_w (tg_conn st')) = wires None (map raw (seq 0 n)) /\
    answered_ok st st'.
Proof.
  intros Hcnt [E1 E2]. destruct Hraw0 as (Hu & Hd & Hdata). set (st0 := receiving _ st).
  destruct (HandleSCSIReadMultiPDU_answers cmd data m mt0 raw0 st0 Hm Hm24 Hcmd Hcnt eq_refl) as (h & _ & Hh & _).
  destruct (serveConn_turn_handles mt raw0 (PSCSICommand cmd) [] st0 h Hu Hd) as (r' & [Hrest _] & Hturn);
    [by rewrite Hdata|by split|].
  rewrite Hdata in Hturn. cbn [attachDataSegment length Nat.eqb] in Hturn.
  destruct (HandleSCSIReadMultiPDU_answers cmd data m mt0 raw0 (set_tc_r r' st0) Hm Hm24 Hcmd Hcnt eq_refl)
    as (h' & st' & Hh' & Hrun & Er & Ew & Hcnt').
  rewrite Hh in Hh'. injection Hh' as <-. rewrite Hturn, Hrun. eexists. split; [reflexivity|].
  assert (Hans : served_answer cmd data m (set_tc_r r' st0) = map raw (seq 0 n)).
  { unfold served_answer. change (tg_session (set_tc_r r' st0)) with (tg_session st).
    change (tc_statSN (tg_conn (set_tc_r r' st0))) with (tc_statSN (tg_conn st)). by rewrite E1, E2, Hup. }
  rewrite Hans. cbn. by rewrite Er, Ew.
Qed.

Lemma answer_ok i : (i < n)%nat -> unstamped (raw i) /\ raw_itt (raw i) = itt.
Proof. intros Hi. by destruct (raw_decodes i Hi) as (_ & _ & ? & ?). Qed.

Lemma received_running i t : received parts raw din erl0 itt i t -> tk_done t = false.
Proof. intros [[[_ [_ H]] _] _]. exact H. Qed.

Definition read_conversation : Conversation mt := {|
  cv_itt := itt; cv_raw0 := raw0; cv_n := n; cv_raw := raw;
  cv_state := received parts raw din erl0 itt; cv_exp := e; cv_max := x;
  cv_target := fun st => tg_session st = tg_session tgt /\ tc_statSN (tg_conn st) = sn;
  cv_itt_ok := Hitt; cv_some := Hn; cv_command := proj1 Hraw0; cv_answer := answer_ok;
  cv_running := fun i t _ => received_running i t;
  cv_answers := answers; cv_consume := consume |}.

(** The result of the task that has consumed everything *)
Lemma read_result t : received parts raw din erl0 itt n t ->
  ch_buf (tk_resultCh t) = [mkResult 0 [] (Some (NewReader
    (take (Z.to_nat (SCSICommand_ExpectedDataTransferLength cmd)) data))) false false 0 None].
Proof.
  intros Hrec. destruct n_bounds as [Hn32 Ht32]. pose proof (length_served_parts cmd data m) as Hlen.
  assert (Hrec' : received parts raw din erl0 itt (length parts) t) by by rewrite Hlen.
  apply received_result in Hrec' as [-> _]; try done.
  - unfold transfer_result. by rewrite concat_served_parts.
  - intros j Hj. rewrite Hlen in Hj. by apply raw_decodes.
  - intros j Hj. rewrite Hlen in Hj. unfold prefix. by rewrite length_served_prefix.
  - intros j Hj. rewrite Hlen in Hj. rewrite served_parts_lookup by done.
    destruct (raw_decodes j Hj) as (_ & -> & _). done.
  - intros j Hj. cbn. by rewrite Hlen.
Qed.

End served_read.

(** ** Properties *)

(** The whole of a read *)
Lemma served_read (sy : System) (mt0 : MockTarget) (cmd : Command) (cx cx' : CtxSched) (sn : Z)
    (w' : cmdWindow) (data : bytes) (m : nat) (rounds : list (list actor)) :
  let s := sy_session sy in
  let edtl := Z.to_nat (cmd_ExpectedDataTransferLen cmd) in
  let n := ((Nat.min edtl (length data) + m - 1) / m)%nat in
  idle sy -> ready sn w' s -> Command_ok cmd -> cmd_Data cmd = None -> cmd_Read cmd = true ->
  (cx_done cx' && cx_pick cx') = false ->
  (0 < m)%nat -> Z.of_nat m < 2 ^ 24 -> (0 < edtl)%nat -> data <> [] ->
  Forall (fair_round (length (ss_loops s))) rounds -> Forall (Forall undisturbed) rounds ->
  (2 * n + 2 <= length rounds)%nat ->
  exists sy1 sy' t, on_session (Submit cx cx' cmd) sy = Done (Ok (length (ss_objs s)), sy1) /\
    run (turn (HandleSCSIReadMultiPDU data (Z.of_nat m) mt0)) (concat rounds) sy1 = Done sy' /\
    ss_objs (sy_session sy') !! length (ss_objs s) = Some t /\
    ch_buf (tk_resultCh t) = [mkResult 0 [] (Some (NewReader (take edtl data))) false false 0 None] /\
    ss_tasks (sy_session sy') = delete (next_itt s) (ss_tasks s) /\
    rt_pending (ss_router (sy_session sy')) !! next_itt s = None /\ idle sy' /\
    one_more s (sy_session sy') /\ (steady sy -> steady sy').
Proof.
  intros s edtl n Hidle Hready Hok Hnone Hread Hcx Hm Hm24 Hedtl Hdata Hr Hu Hlen.
  assert (Hbd : bool_decide (is_Some (cmd_Data cmd)) = false) by by rewrite Hnone.
  destruct (submit_queued sy cmd cx cx' sn w' [] (submit_task 0 cmd sn s) Hidle Hready Hok Hcx)
    as (raw0 & Hsub & Hpok & Hitt & Hun & Hdec & Hseg & Hdig & Ho & Hl); [simpl; lia|by rewrite Hnone|by rewrite Hbd|].
  unfold submitted_command in *. rewrite Hbd in *. fold s in Hsub, Hpok, Hitt, Hdec, Hdig, Ho, Hl.
  set (p := SCSICommand_wire _) in *.
  destruct (Update (SCSICommand_CmdSN p) (Immediate (SCSICommand_Hdr p)) (tg_session (sy_target sy))) as [[e x] ss] eqn:Eu.
  assert (Hn : (0 < burst_count data (Z.to_nat (SCSICommand_ExpectedDataTransferLength p)) m)%nat).
  { apply Nat.div_str_pos. assert (length data <> 0%nat) by by destruct data.
    change (SCSICommand_ExpectedDataTransferLength p) with (cmd_ExpectedDataTransferLen cmd). lia. }
  pose (cv := read_conversation mt0 p data m raw0 (sy_target sy) e x ss (np_ErrorRecoveryLevel (ss_params s))
    Hm Hm24 Hpok Hitt (id_target sy Hidle) Eu (conj Hun (conj Hdec Hseg)) Hn).
  destruct (exchange_completes _ (cv := cv) sy (length (ss_objs s)) (next_ch s) (submit_task 0 cmd sn s)
    (submitted (submit_task 0 cmd sn s) w' [raw0] s) rounds Hidle (conj eq_refl eq_refl) eq_refl eq_refl Hdig Ho)
    as (sy' & t & Hrun & Ho' & Hst & Htasks & Hpend & Hid' & Hsince & Hdelta); [|exact Hl|exact Hr|exact Hu|exact Hlen|].
  { apply submitted_received; [done..|]. by rewrite length_served_parts. }
  eexists _, sy', t. split; [exact Hsub|]. split; [exact Hrun|]. split; [exact Ho'|]. split.
  - by rewrite (read_result mt0 p data m raw0 (sy_target sy) e x ss _ Hm Hm24 Hpok Hitt (id_target sy Hidle) Eu
      (conj Hun (conj Hdec Hseg)) Hn t Hst).
  - split; [rewrite Htasks; apply delete_insert_eq|]. split; [done|]. split; [done|].
    split; [by eapply (exchange_tables _ (cv := cv))|]. intros Hsteady.
    pose proof (Update_next sn (tg_session (sy_target sy))) as Hnext.
    change sn with (SCSICommand_CmdSN p) in Hnext at 1. change false with (Immediate (SCSICommand_Hdr p)) in Hnext.
    rewrite Eu in Hnext. injection Hnext as He Hx.
    exact (exchange_steady _ (cv := cv) sy sy' _ _ _ sn w' _ Hsteady Hready He Hx (sd_target sy Hsteady) Hsince Hdelta).
Qed.

(** The reads are served, one after the other. *)
#[export] Instance HandleSCSIReadMultiPDU_serves data m mt0 : (0 < m)%nat -> Z.of_nat m < 2 ^ 24 -> data <> [] ->
  Serves (HandleSCSIReadMultiPDU data (Z.of_nat m) mt0)
    (fun _ cmd => cmd_Data cmd = None /\ cmd_Read cmd = true /\ 0 < cmd_ExpectedDataTransferLen cmd)
    (fun cmd => mkResult 0 [] (Some (NewReader (take (Z.to_nat (cmd_ExpectedDataTransferLen cmd)) data))) false false 0 None)
    (fun cmd => 2 * ((Nat.min (Z.to_nat (cmd_ExpectedDataTransferLen cmd)) (length data) + m - 1) / m) + 2)%nat.
Proof.
  intros Hm Hm24 Hdata sy w s Hid Hst Hcmd (Hnone & Hread & Hlen) [Hcx Hr Hu Henough].
  destruct (steady_ready sy Hst) as (sn & w' & Hready).
  destruct (served_read sy mt0 (wk_cmd w) (wk_cx w) (wk_cx' w) sn w' data m (wk_rounds w))
    as (sy1 & sy' & t & H1 & H2 & H3 & H4 & _ & _ & H5 & H6 & H7); try done; [lia|].
  exists sy1, sy', t. split_and!; try done; [apply H6..|by apply H7].
Qed.

(** C2.  Every read served by the target completes, however the goroutines are
    scheduled.  On a connection at rest, whose target answers with
    [HandleSCSIReadMultiPDU], let a read be submitted; then in every sequence of
    turns of the write pump, the read pump, the dispatch loop, the task loops and
    the target, with turns blocked or taken in any order and any number of times,
    once each of the four it takes has had [2n + 2] rounds for [n] Data-Ins, the
    caller's one Result holds exactly the bytes asked for, nothing panicked, the
    ITT is free, and the connection is at rest again. *)
Theorem served_read_completes (sy : System) (mt0 : MockTarget) (cmd : Command) (cx cx' : CtxSched) (sn : Z)
    (w' : cmdWindow) (data : bytes) (m : nat) (rounds : list (list actor)) :
  let s := sy_session sy in
  let edtl := Z.to_nat (cmd_ExpectedDataTransferLen cmd) in
  let n := ((Nat.min edtl (length data) + m - 1) / m)%nat in
  idle sy -> ready sn w' s -> Command_ok cmd -> cmd_Data cmd = None -> cmd_Read cmd = true ->
  (cx_done cx' && cx_pick cx') = false ->
  (0 < m)%nat -> Z.of_nat m < 2 ^ 24 -> (0 < edtl)%nat -> data <> [] ->
  Forall (fair_round (length (ss_loops s))) rounds -> Forall (Forall undisturbed) rounds ->
  (2 * n + 2 <= length rounds)%nat ->
  exists sy1 sy' t, on_session (Submit cx cx' cmd) sy = Done (Ok (length (ss_objs s)), sy1) /\
    run (turn (HandleSCSIReadMultiPDU data (Z.of_nat m) mt0)) (concat rounds) sy1 = Done sy' /\
    ss_objs (sy_session sy') !! length (ss_objs s) = Some t /\
    ch_buf (tk_resultCh t) = [mkResult 0 [] (Some (NewReader (take edtl data))) false false 0 None] /\
    ss_tasks (sy_session sy') = delete (next_itt s) (ss_tasks s) /\
    rt_pending (ss_router (sy_session sy')) !! next_itt s = None /\ idle sy'.
Proof.
  intros s edtl n. intros. destruct (served_read sy mt0 cmd cx cx' sn w' data m rounds) as (sy1 & sy' & t & H'); try done.
  exists sy1, sy', t. destruct_and!. by split_and!.
Qed.

(** The target of the witness *)
Definition test_target (data : bytes) (m : Z) : MockTarget := HandleSCSIReadMultiPDU data m NewMockTarget.

Lemma served_read_completes_witness :
  let cmd := mkCommand (0x28 :: zeros 15) true false 5 3 0 None in
  exists sy1 sy' t, on_session (Submit (mkCtxSched false false) (mkCtxSched false false) cmd) test_system = Done (Ok 0%nat, sy1) /\
    run (turn (test_target [1; 2; 3; 4; 5; 6; 7] 2)) (concat (replicate 8 test_round)) sy1 = Done sy' /\
    ss_objs (sy_session sy') !! 0%nat = Some t /\
    ch_buf (tk_resultCh t) = [mkResult 0 [] (Some (NewReader [1; 2; 3; 4; 5])) false false 0 None].
Proof.
  intros cmd.
  destruct (served_read_completes test_system NewMockTarget cmd (mkCtxSched false false) (mkCtxSched false false) 1
    (mkCmdWindow 2 1 1 false) [1; 2; 3; 4; 5; 6; 7] 2 (replicate 8 test_round)) as (sy1 & sy' & t & H1 & H2 & H3 & H4 & _).
  - exact test_system_idle.
  - exact test_system_ready.
  - unfold Command_ok. repeat (split; [vm_compute; done|]). apply (bool_decide_unpack _). by vm_compute.
  - done.
  - done.
  - done.
  - lia.
  - lia.
  - apply Nat.ltb_lt. reflexivity.
  - done.
  - apply test_rounds.
  - apply test_rounds.
  - apply Nat.leb_le. reflexivity.
  - exists sy1, sy', t. by repeat (split; [done|]).
Defined.
