(* ===== verification/ServedLogin.v ===== *)
(** A login served by the target, and what follows it
    ([src/internal/login/login.go], [src/test/target.go]). *)
From S2P Require Import Prelude Errors Bhs PduTactics PduInitiator PduTarget Pdu GoIO Digest Framer.
From S2P Require Import Chan Serial Router Pump Text Negotiation CmdWindow Config Types Task DataOut Session TaskLoop.
From S2P Require Import Target Serving Fair System Exchange Served ServedRead.
From S2P Require Import Reassembly Unsolicited Lifecycle Loops ApiTypes.
From S2P Require Options Login Dial.
#[local] Open Scope string_scope.
#[local] Open Scope list_scope.
#[local] Open Scope Z_scope.

(** ** Responses *)

Lemma resp_sendable p : Login.resp_ok p -> sendable (PLoginResp p).
Proof. intros (Hok & Ha & Hd & Hl). split; [done|]. split; [done|]. split; [done|]. cbn. lia. Qed.

(** The target writes a response as the initiator reads it. *)
Lemma resp_written p : Login.resp_ok p -> WriteRawPDU None (raw_of (PLoginResp p)) [] = Login.resp_wire p.
Proof.
  intros Hp. destruct (Login.resp_wire_layout p Hp) as (bhs & Hm & _ & Hu & Hw).
  destruct (BuildRawPDU_ok _ (resp_sendable p Hp)) as (bhs' & Hm' & _ & ->).
  assert (bhs' = bhs) as ->.
  { change (LoginResp_MarshalBHS p = Ok bhs') in Hm'. congruence. }
  rewrite Hw. apply WriteRawPDU_layout. apply Hu.
Qed.

Lemma login_reply_ok req transit csg nsg tsih sn data : Login.resp_ok (login_reply req (len32 data) transit csg nsg tsih sn data)
  <-> LoginResp_ok (login_reply req (len32 data) transit csg nsg tsih sn data) /\ Z.of_nat (length data) <= 0xFFFFFF.
Proof.
  unfold Login.resp_ok, login_reply, len32. cbn. split; [tauto|]. intros [H1 H2].
  split; [done|]. split; [done|]. split; [|done]. apply wrap_id. unfold in_width. lia.
Qed.

(** A login request as the target has it *)
Definition login_arrived (req req' : LoginReq) : Prop :=
  InitiatorTaskTag (LoginReq_Hdr req') = InitiatorTaskTag (LoginReq_Hdr req) /\
  LoginReq_Data req' = LoginReq_Data req /\ LoginReq_CSG req' = LoginReq_CSG req /\
  LoginReq_NSG req' = LoginReq_NSG req /\ LoginReq_Transit req' = LoginReq_Transit req /\
  LoginReq_ISID req' = LoginReq_ISID req /\ LoginReq_CmdSN req' = LoginReq_CmdSN req.

Lemma attach_login req : exists req',
  attachDataSegment (PLoginReq (LoginReq_wire req)) (LoginReq_Data req) = PLoginReq req' /\ login_arrived req req'.
Proof.
  unfold attachDataSegment. destruct (LoginReq_Data req) as [|b l] eqn:E.
  - eexists. split; [reflexivity|]. by repeat split.
  - eexists. split; [reflexivity|]. by repeat split.
Qed.

Lemma arrived_reply req req' dsl transit csg nsg tsih sn data : login_arrived req req' ->
  login_reply req' dsl transit csg nsg tsih sn data = login_reply req dsl transit csg nsg tsih sn data.
Proof. intros (E1 & _ & _ & _ & _ & E2 & E3). unfold login_reply. by rewrite E1, E2, E3. Qed.

(** ** A turn of the target on a login request *)

Lemma login_turn mt req rest st : LoginReq_ok req -> TotalAHSLength (LoginReq_Hdr req) = 0 ->
  DataSegmentLen (LoginReq_Hdr req) = Z.of_nat (length (LoginReq_Data req)) ->
  Z.of_nat (length (LoginReq_Data req)) <= 0xFFFFFF ->
  mt_handlers mt !! OpLoginReq = Some handleLogin -> holding (Login.req_wire req ++ rest) st ->
  exists raw req' r', login_arrived req req' /\ holding rest (set_tc_r r' st) /\
    serveConn_turn mt st = handleLogin raw (PLoginReq req') (set_tc_r r' st).
Proof.
  intros Hok Ha Hd Hl Hh Hb.
  destruct (Login.req_wire_layout req Hok Ha Hd Hl) as (bhs & Hm & _ & _ & Hu & Hw & _).
  set (raw := newRawPDU bhs (LoginReq_Data req)) in *.
  assert (Hdec : DecodeBHS (raw_BHS raw) = Ok (PLoginReq (LoginReq_wire req))).
  { exact (decode_encoded (PLoginReq req) bhs Hok Hm). }
  destruct (attach_login req) as (req' & Hatt & Harr).
  destruct (serveConn_turn_handles mt raw (PLoginReq (LoginReq_wire req)) rest st handleLogin Hu Hdec)
    as (r' & Hrest & Hturn).
  - change (raw_DataSegment raw) with (LoginReq_Data req). by rewrite Hatt.
  - rewrite WriteRawPDU_layout by apply Hu. change (default_order None) with LittleEndian. by rewrite <- Hw.
  - change (raw_DataSegment raw) with (LoginReq_Data req) in Hturn. rewrite Hatt in Hturn.
    exists raw, req', r'. done.
Qed.

(** The counters after a request that is not immediate *)
Definition after_login (sn : Z) (cmdSN : Z) (st : TargetState) : TargetState :=
  set_statSN (uint32 (sn + 1)) (Target.set_session (Update cmdSN false (tg_session st)).2 st).

Lemma session_Update_Done cmdSN imm st : session_Update cmdSN imm st
  = Done ((Update cmdSN imm (tg_session st)).1, Target.set_session (Update cmdSN imm (tg_session st)).2 st).
Proof. unfold session_Update. by destruct (Update cmdSN imm (tg_session st)) as [[e x] ss]. Qed.

(** The security stage: of the keys, only AuthMethod is answered. *)
Lemma login_security raw req req' st sn kvs : login_arrived req req' -> LoginReq_CSG req = 0 ->
  LoginReq_Transit req = true -> LoginReq_NSG req = 1 ->
  DecodeTextKV (LoginReq_Data req) = kvs -> (exists pre post v, kvs = pre ++ KV "AuthMethod" v :: post /\
    Forall (fun kv => kv_Key kv <> "AuthMethod") (pre ++ post)) ->
  writable st -> tc_statSN (tg_conn st) = sn -> u32 sn ->
  let data := EncodeTextKV [KV "AuthMethod" "None"] in
  let p := login_reply req (len32 data) true 0 1 0 sn data in
  Login.resp_ok p ->
  handleLogin raw (PLoginReq req') st = Done (Ok (), wrote (Login.resp_wire p) (after_login sn (LoginReq_CmdSN req) st)).
Proof.
  intros Harr Hcsg Ht Hnsg Hkvs (pre & post & v & -> & Hone) Hw Hst Hsn data p Hp.
  pose proof Harr as (_ & E2 & E3 & E4 & E5 & _ & E7). unfold handleLogin, as_LoginReq.
  rewrite (SM_bind_Done _ _ st req' st) by done. cbv beta iota zeta.
  rewrite (SM_bind_Done _ _ _ _ _ (session_Update_Done _ _ st)), E2, E3, E4, E5, E7, Hcsg, Ht, Hnsg, Hkvs.
  cbn [Z.eqb andb].
  assert (Hans : omap (fun kv => if String.eqb (kv_Key kv) "AuthMethod" then Some (KV "AuthMethod" "None") else None)
    (pre ++ KV "AuthMethod" v :: post) = [KV "AuthMethod" "None"]).
  { apply Forall_app in Hone as [H1 H2]. rewrite omap_app. cbn.
    assert (Hnone : forall l, Forall (fun kv => kv_Key kv <> "AuthMethod") l ->
      omap (fun kv => if String.eqb (kv_Key kv) "AuthMethod" then Some (KV "AuthMethod" "None") else None) l = []).
    { induction 1 as [|kv l Hk _ IH]; [done|]. cbn. by rewrite (proj2 (String.eqb_neq _ _) Hk). }
    rewrite !Hnone by done. done. }
  rewrite Hans. fold data. set (st1 := Target.set_session _ st).
  rewrite (SM_bind_Done _ _ st1 sn (set_statSN (uint32 (sn + 1)) st1)) by by apply NextStatSN_Done.
  cbn [Z.eqb Pos.eqb andb].
  rewrite (arrived_reply req req') by done. fold p.
  rewrite SendPDU_Done by (done || by apply resp_sendable). by rewrite resp_written.
Qed.

(** The operational stage: every key is answered. *)
Lemma login_operational raw req req' st sn kvs : login_arrived req req' -> LoginReq_CSG req = 1 ->
  DecodeTextKV (LoginReq_Data req) = kvs ->
  writable st -> tc_statSN (tg_conn st) = sn -> u32 sn ->
  let data := EncodeTextKV (map (answerKey (tg_negotiationConfig st)) kvs) in
  let p := login_reply req (len32 data) true 1 3 1 sn data in
  Login.resp_ok p ->
  handleLogin raw (PLoginReq req') st = Done (Ok (), wrote (Login.resp_wire p) (after_login sn (LoginReq_CmdSN req) st)).
Proof.
  intros Harr Hcsg Hkvs Hw Hst Hsn data p Hp.
  pose proof Harr as (_ & E2 & E3 & _ & _ & _ & E7). unfold handleLogin, as_LoginReq.
  rewrite (SM_bind_Done _ _ st req' st) by done. cbv beta iota zeta.
  rewrite (SM_bind_Done _ _ _ _ _ (session_Update_Done _ _ st)), E2, E3, E7, Hcsg, Hkvs.
  set (st1 := Target.set_session _ st). cbn [Z.eqb Pos.eqb].
  rewrite (SM_bind_Done _ _ st1 (tg_negotiationConfig st) st1) by done. fold data.
  rewrite (SM_bind_Done _ _ st1 sn (set_statSN (uint32 (sn + 1)) st1)) by by apply NextStatSN_Done.
  rewrite (arrived_reply req req') by done. fold p.
  rewrite SendPDU_Done by (done || by apply resp_sendable). by rewrite resp_written.
Qed.

(** ** What the two sides agree on *)

(** The keys of an initiator without overrides *)
Definition offered : list KeyValue := Login.buildInitiatorKeys Login.defaultConfig.

(** Settings of the target that are 32-bit numbers *)
Definition opt_u32 (v : option Z) : Prop := match v with Some v => u32 v | None => True end.
Definition neg_ok (neg : NegotiationConfig) : Prop :=
  opt_u32 (nc_FirstBurstLength neg) /\ opt_u32 (nc_MaxBurstLength neg) /\
  opt_u32 (nc_MaxRecvDataSegmentLength neg) /\ opt_u32 (nc_ErrorRecoveryLevel neg).

(** The smaller of the initiator's [iv] and the target's value, in the range of the key *)
Definition agreed_min (name : string) (iv : Z) (tv : option Z) : Z :=
  match findKeyDef name with Some def => clampValue (Z.min iv (default iv tv)) def | None => 0 end.

Lemma resolveAll_cons im k v kvs rs def r : findKeyDef k = Some def ->
  resolveKey def (default "" (im !! k)) v = Ok r -> Login.resolveAll im kvs = Ok rs ->
  Login.resolveAll im (KV k v :: kvs) = Ok (KV k r :: rs).
Proof. intros Hf Hr Hrs. cbn [Login.resolveAll kv_Key kv_Value]. by rewrite Hf, Hr, Hrs. Qed.

(** A numeric answer *)
Definition answered (tv : option Z) (iv : Z) : string :=
  match tv with Some v => FormatUint v | None => FormatUint iv end.

Lemma answered_parses tv iv : u32 iv -> opt_u32 tv -> ParseUint (answered tv iv) 32 = Ok (default iv tv).
Proof.
  intros Hi Hv. unfold answered. destruct tv as [v|]; cbn in Hv;
    cbn [default from_option id]; apply ParseUint_FormatUint; unfold in_width in *; lia.
Qed.

Lemma resolve_min name def iv tv : findKeyDef name = Some def -> kd_Type def = NumericalMin -> u32 iv ->
  opt_u32 tv ->
  resolveKey def (FormatUint iv) (answered tv iv) = Ok (FormatUint (agreed_min name iv tv)).
Proof.
  intros Hf Hk Hi Hv. unfold resolveKey, parseValue, agreed_min. rewrite Hk, Hf, answered_parses by done.
  rewrite ParseUint_FormatUint by (unfold in_width in *; lia). cbn [mbind result_bind].
  assert (E : (if default iv tv <? iv then default iv tv else iv) = Z.min iv (default iv tv)); [|cbv zeta; by rewrite E].
  destruct (Z.ltb_spec (default iv tv) iv); lia.
Qed.


(** The answers to the keys offered, and what the initiator makes of them, with
    [r], [i], [m], [b], [f] and [l] the texts that depend on the target *)
Definition answers (r i m b f l : string) : list KeyValue :=
  [ KV "HeaderDigest" "None"; KV "DataDigest" "None"; KV "MaxConnections" "1"; KV "InitialR2T" r;
    KV "ImmediateData" i; KV "MaxRecvDataSegmentLength" m; KV "MaxBurstLength" b; KV "FirstBurstLength" f;
    KV "DefaultTime2Wait" "2"; KV "DefaultTime2Retain" "20"; KV "MaxOutstandingR2T" "1";
    KV "DataPDUInOrder" "Yes"; KV "DataSequenceInOrder" "Yes"; KV "ErrorRecoveryLevel" l ].

Lemma answers_safe r i m b f l : Forall (fun s => 0 ∉ to_bytes s) [r; i; m; b; f; l] ->
  DecodeTextKV (EncodeTextKV (answers r i m b f l)) = answers r i m b f l.
Proof.
  intros H. repeat (apply Forall_cons in H as [? H]).
  rewrite <- (app_nil_r (EncodeTextKV _)), DecodeTextKV_app; [by rewrite app_nil_r|].
  unfold answers, text_safe. repeat (apply Forall_cons; split); [..|by constructor];
    (split; [by apply (bool_decide_unpack _); vm_compute|split; [by apply (bool_decide_unpack _); vm_compute|]]);
    cbn [kv_Value]; first [done|by apply (bool_decide_unpack _); vm_compute].
Qed.

Definition key_at (name : string) : KeyDef := default (mkKeyDef "" ListSelect "" 0 0) (findKeyDef name).

Lemma answers_resolved r i m b f l i' b' f' l' mv : Forall (fun s => 0 ∉ to_bytes s) [r; i; m; b; f; l] ->
  ParseUint m 32 = Ok mv -> resolveKey (key_at "ImmediateData") "Yes" i = Ok i' ->
  resolveKey (key_at "MaxBurstLength") "262144" b = Ok b' ->
  resolveKey (key_at "FirstBurstLength") "65536" f = Ok f' -> resolveKey (key_at "ErrorRecoveryLevel") "0" l = Ok l' ->
  Login.resolveResponse offered (EncodeTextKV (answers r i m b f l)) = Ok (answers "Yes" i' m b' f' l').
Proof.
  intros Hsafe Hm Hi Hb Hf Hl. unfold Login.resolveResponse. rewrite answers_safe by done. cbv zeta.
  assert (Hmap : kvToMap (answers r i m b f l) !! "MaxRecvDataSegmentLength" = Some m) by reflexivity.
  assert (Hall : Login.resolveAll (kvToMap offered) (answers r i m b f l)
    = Ok (answers "Yes" i' (FormatUint (clampValue mv (key_at "MaxRecvDataSegmentLength"))) b' f' l')).
  { unfold answers. repeat (eapply resolveAll_cons; [reflexivity| |]); [..|reflexivity].
    all: first [reflexivity|exact Hi|exact Hb|exact Hf|exact Hl|unfold resolveKey, parseValue; cbn [kd_Type]; rewrite Hm; reflexivity]. }
  rewrite Hall, Hmap. reflexivity.
Qed.

(** ** The parameters *)

Definition agreed_params (neg : NegotiationConfig) : NegotiatedParams :=
  let maxBurst := agreed_min "MaxBurstLength" 262144 (nc_MaxBurstLength neg) in
  let firstBurst := agreed_min "FirstBurstLength" 65536 (nc_FirstBurstLength neg) in
  set_ImmediateData (default true (nc_ImmediateData neg))
    (set_MaxRecvDataSegmentLength (default 8192 (nc_MaxRecvDataSegmentLength neg))
      (set_MaxBurstLength maxBurst (set_FirstBurstLength (Z.min firstBurst maxBurst) Defaults))).

Definition target_answers (neg : NegotiationConfig) : list KeyValue := map (answerKey neg) offered.

Lemma target_answers_spec neg : target_answers neg =
  answers (match nc_InitialR2T neg with Some b => boolToYesNo b | None => "Yes" end)
    (boolToYesNo (default true (nc_ImmediateData neg))) (answered (nc_MaxRecvDataSegmentLength neg) 8192)
    (answered (nc_MaxBurstLength neg) 262144) (answered (nc_FirstBurstLength neg) 65536)
    (answered (nc_ErrorRecoveryLevel neg) 0).
Proof. destruct neg as [[|] ? [|] [|] [|] [|]]; reflexivity. Qed.

Lemma answered_plain tv iv : (0 ∉ to_bytes (answered tv iv)) /\ (length (to_bytes (answered tv iv)) <= 20)%nat.
Proof. unfold answered. destruct tv; apply FormatUint_plain. Qed.

Lemma boolToYesNo_plain b : (0 ∉ to_bytes (boolToYesNo b)) /\ (length (to_bytes (boolToYesNo b)) <= 20)%nat.
Proof. destruct b; (split; [by apply (bool_decide_unpack _); vm_compute|cbn; lia]). Qed.

Lemma InitialR2T_plain (o : option bool) (s := match o with Some b => boolToYesNo b | None => "Yes" end) :
  (0 ∉ to_bytes s) /\ (length (to_bytes s) <= 20)%nat.
Proof. destruct o; [apply boolToYesNo_plain|exact (boolToYesNo_plain true)]. Qed.

Lemma agreed_min_width name def iv tv : findKeyDef name = Some def -> 0 <= kd_Min def <= kd_Max def -> 0 < kd_Max def < 2 ^ 32 ->
  u32 (agreed_min name iv tv).
Proof.
  intros Hf Hd Hm. unfold agreed_min. rewrite Hf. pose proof (clampValue_range (Z.min iv (default iv tv)) def). unfold in_width. lia.
Qed.

Lemma applied_answers i m b f l : fold_left applyKey (answers "Yes" i m b f l) Defaults
  = mkParams false false 1 true (String.eqb i "Yes") (parseUint32 m) (parseUint32 b) (parseUint32 f) 2 20 1 true true
      (parseUint32 l) "" 0 (zeros 6) 1 0.
Proof. reflexivity. Qed.

Lemma parseUint32_FormatUint v : u32 v -> parseUint32 (FormatUint v) = v.
Proof. intros H. unfold parseUint32. by rewrite ParseUint_FormatUint by (unfold in_width in *; lia). Qed.

Lemma negotiated neg : neg_ok neg -> exists kvs,
  Login.resolveResponse offered (EncodeTextKV (target_answers neg)) = Ok kvs /\
  applyNegotiatedKeys Defaults kvs = agreed_params neg.
Proof.
  intros (H1 & H2 & H3 & H4). rewrite target_answers_spec. eexists. split.
  - apply answers_resolved with (mv := default 8192 (nc_MaxRecvDataSegmentLength neg)).
    + repeat (apply Forall_cons; split); [..|constructor];
        first [apply InitialR2T_plain|apply boolToYesNo_plain|apply answered_plain].
    + by apply answered_parses.
    + instantiate (1 := boolToYesNo (default true (nc_ImmediateData neg))).
      by destruct (nc_ImmediateData neg) as [[|]|].
    + exact (resolve_min "MaxBurstLength" _ 262144 _ eq_refl eq_refl ltac:(by vm_compute) H2).
    + exact (resolve_min "FirstBurstLength" _ 65536 _ eq_refl eq_refl ltac:(by vm_compute) H1).
    + exact (resolve_min "ErrorRecoveryLevel" _ 0 _ eq_refl eq_refl ltac:(by vm_compute) H4).
  - unfold applyNegotiatedKeys. rewrite applied_answers.
    rewrite (parseUint32_FormatUint (agreed_min "MaxBurstLength" _ _)) by by apply (agreed_min_width _ (key_at "MaxBurstLength")).
    rewrite (parseUint32_FormatUint (agreed_min "FirstBurstLength" _ _)) by by apply (agreed_min_width _ (key_at "FirstBurstLength")).
    assert (Hl : agreed_min "ErrorRecoveryLevel" 0 (nc_ErrorRecoveryLevel neg) = 0).
    { unfold agreed_min. replace (Z.min 0 _) with 0; [reflexivity|].
      unfold opt_u32, in_width in H4. destruct (nc_ErrorRecoveryLevel neg); cbn in *; lia. }
    assert (Hm : parseUint32 (answered (nc_MaxRecvDataSegmentLength neg) 8192) = default 8192 (nc_MaxRecvDataSegmentLength neg)).
    { unfold parseUint32. by rewrite answered_parses. }
    rewrite Hl, Hm, parseUint32_FormatUint by done.
    assert (Hi : String.eqb (boolToYesNo (default true (nc_ImmediateData neg))) "Yes" = default true (nc_ImmediateData neg))
      by by destruct (nc_ImmediateData neg) as [[|]|].
    rewrite Hi. unfold agreed_params. cbn [np_FirstBurstLength np_MaxBurstLength].
    set (M := agreed_min "MaxBurstLength" _ _). set (F := agreed_min "FirstBurstLength" _ _).
    destruct (Z.gtb_spec F M); [rewrite Z.min_r by lia|rewrite Z.min_l by lia]; reflexivity.
Qed.

(** ** The login *)

(** An initiator without CHAP, digests or overrides *)
Record plain_login (cfg : Login.loginConfig) (rnd : Login.Randomness) (isid : bytes) : Prop := mkPlainLogin {
  pl_chap : Login.lc_chapUser cfg = "";
  pl_digests : Login.lc_headerDigest cfg = ["None"] /\ Login.lc_dataDigest cfg = ["None"];
  pl_overrides : Login.lc_operationalOverrides cfg = None;
  pl_isid : Login.chooseISID cfg rnd = Ok isid /\ length isid = 6%nat /\ bytes_ok isid;
  pl_tsih : u16 (Login.lc_tsih cfg);
  pl_keys : Forall text_safe (Login.firstKeys cfg "None") /\
    Z.of_nat (length (EncodeTextKV (Login.firstKeys cfg "None"))) <= 0xFFFFFF;
}.

Lemma plain_offers cfg rnd isid : plain_login cfg rnd isid -> Login.buildInitiatorKeys cfg = offered.
Proof. intros [_ [Hh Hd] Ho _ _ _]. unfold Login.buildInitiatorKeys. by rewrite Hh, Hd, Ho. Qed.

Lemma answers_length r i m b f l : Forall (fun s => (length (to_bytes s) <= 20)%nat) [r; i; m; b; f; l] ->
  (length (EncodeTextKV (answers r i m b f l)) <= 1000)%nat.
Proof.
  intros H. repeat (apply Forall_cons in H as [? H]). unfold EncodeTextKV, answers. cbn [map concat kv_Key kv_Value].
  rewrite !length_app.
  repeat match goal with |- context [length (to_bytes (String ?c ?s))] =>
    let n := eval vm_compute in (length (to_bytes (String c s))) in
    change (length (to_bytes (String c s))) with n end.
  cbn [length]. lia.
Qed.

Lemma target_answers_length neg : Z.of_nat (length (EncodeTextKV (target_answers neg))) <= 0xFFFFFF.
Proof.
  rewrite target_answers_spec.
  match goal with |- context [answers ?r ?i ?m ?b ?f ?l] => pose proof (answers_length r i m b f l) as H end.
  assert (Hle : (length (EncodeTextKV (target_answers neg)) <= 1000)%nat); [|rewrite target_answers_spec in Hle; lia].
  rewrite target_answers_spec. apply H. repeat (apply Forall_cons; split); [..|constructor];
    first [apply InitialR2T_plain|apply boolToYesNo_plain|apply answered_plain].
Qed.

Section login.
#[local] Set Default Proof Using "All".
Context (cfg : Login.loginConfig) (rnd : Login.Randomness) (isid : bytes) (neg : NegotiationConfig) (sn : Z).
Hypothesis Hcfg : plain_login cfg rnd isid.
Hypothesis Hneg : neg_ok neg.
Hypothesis Hsn : u32 sn.

Definition keys1 : list KeyValue := Login.firstKeys cfg "None".
Definition request1 : LoginReq := Login.login_request cfg isid 0 keys1 0 1.
Definition response1 : LoginResp :=
  let data := EncodeTextKV [KV "AuthMethod" "None"] in login_reply request1 (len32 data) true 0 1 0 sn data.
Definition request2 : LoginReq := Login.login_request cfg isid (uint32 (sn + 1)) offered 1 3.
Definition response2 : LoginResp :=
  let data := EncodeTextKV (target_answers neg) in
  login_reply request2 (len32 data) true 1 3 1 (uint32 (sn + 1)) data.

Lemma login_request_ok e keys csg nsg : u32 e -> in_width 2 csg -> in_width 2 nsg ->
  Z.of_nat (length (EncodeTextKV keys)) <= 0xFFFFFF ->
  let req := Login.login_request cfg isid e keys csg nsg in
  LoginReq_ok req /\ TotalAHSLength (LoginReq_Hdr req) = 0 /\
  DataSegmentLen (LoginReq_Hdr req) = Z.of_nat (length (LoginReq_Data req)) /\
  Z.of_nat (length (LoginReq_Data req)) <= 0xFFFFFF.
Proof.
  intros He Hc Hn Hl req. destruct Hcfg as [_ _ _ (_ & Hi1 & Hi2) Ht _].
  split; [apply Login.loginReq_ok; try done; by repeat (split; [done|])|].
  split; [done|]. split; [cbn; apply wrap_id; unfold in_width; lia|done].
Qed.

Lemma offered_length : Z.of_nat (length (EncodeTextKV offered)) <= 0xFFFFFF.
Proof. by apply (bool_decide_unpack _); vm_compute. Qed.

Lemma reply_ok e keys csg nsg csg' nsg' tsih s data (req := Login.login_request cfg isid e keys csg nsg) :
  u32 e -> in_width 2 csg -> in_width 2 nsg -> Z.of_nat (length (EncodeTextKV keys)) <= 0xFFFFFF ->
  in_width 2 csg' -> in_width 2 nsg' -> u16 tsih -> u32 s -> Z.of_nat (length data) <= 0xFFFFFF ->
  Login.resp_ok (login_reply req (len32 data) true csg' nsg' tsih s data).
Proof.
  intros He Hc Hn Hl Hc' Hn' Ht Hs Hd. apply login_reply_ok. split; [|done].
  destruct (login_request_ok e keys csg nsg He Hc Hn Hl) as ((Hh & H2 & H3 & H4 & H5 & H6 & H7 & H8 & H9 & H10 & H11) & _).
  split; [apply reply_header_ok; [by destruct Hh as (_ & _ & _ & _ & ?)|apply wrap_range; lia]|].
  repeat (split; [first [done|apply wrap_range; lia]|]). done.
Qed.

Lemma keys1_answered : exists pre post v, keys1 = pre ++ KV "AuthMethod" v :: post /\
  Forall (fun kv => kv_Key kv <> "AuthMethod") (pre ++ post).
Proof.
  unfold keys1, Login.firstKeys.
  exists [KV "InitiatorName" (Login.lc_initiatorName cfg); KV "SessionType" (Login.lc_sessionType cfg)].
  destruct (String.eqb (Login.lc_targetName cfg) "").
  - exists [], "None". split; [done|]. by repeat constructor.
  - exists [KV "TargetName" (Login.lc_targetName cfg)], "None". split; [done|]. by repeat constructor.
Qed.

Lemma response1_ok : Login.resp_ok response1.
Proof.
  apply reply_ok; [by vm_compute..|apply Hcfg|by vm_compute|by vm_compute|by vm_compute|exact Hsn|].
  by apply (bool_decide_unpack _); vm_compute.
Qed.

Lemma response2_ok : Login.resp_ok response2.
Proof.
  apply reply_ok; [apply wrap_range; lia|by vm_compute|by vm_compute|exact offered_length|by vm_compute|by vm_compute
    |by vm_compute|apply wrap_range; lia|apply target_answers_length].
Qed.

(** The target answers the two requests with the two responses. *)
Lemma target_serves_login mt st : mt_handlers mt !! OpLoginReq = Some handleLogin ->
  tg_negotiationConfig st = neg -> tc_statSN (tg_conn st) = sn -> u32 (st_expCmdSN (tg_session st)) ->
  exists st', serveConn 2 mt (receiving (Login.req_wire request1 ++ Login.req_wire request2) st) = Done (Ok (), st') /\
    w_out (tc_w (tg_conn st')) = Login.resp_wire response1 ++ Login.resp_wire response2 /\
    rd_bytes (tc_r (tg_conn st')) = [] /\ answered_ok st st' /\ tc_statSN (tg_conn st') = uint32 (uint32 (sn + 1) + 1).
Proof.
  intros Hh Hn Hst He. set (st0 := receiving _ st).
  destruct (login_request_ok 0 keys1 0 1) as (Q1 & Q2 & Q3 & Q4); [by vm_compute..|apply Hcfg|].
  destruct (login_request_ok (uint32 (sn + 1)) offered 1 3) as (R1 & R2 & R3 & R4);
    [apply wrap_range; lia|by vm_compute..|exact offered_length|].
  destruct (login_turn mt request1 (Login.req_wire request2 ++ []) st0 Q1 Q2 Q3 Q4 Hh) as (raw1 & q1 & r1 & A1 & B1 & T1).
  { split; [|done]. cbn. by rewrite !app_nil_r. }
  assert (S1 := login_security raw1 request1 q1 (set_tc_r r1 st0) sn keys1 A1 eq_refl eq_refl eq_refl
    ltac:(cbn [request1 Login.login_request Login.loginReq LoginReq_Data]; rewrite <- (app_nil_r (EncodeTextKV _)),
      DecodeTextKV_app, app_nil_r by apply Hcfg; reflexivity) keys1_answered eq_refl Hst Hsn response1_ok).
  fold response1 in S1. rewrite S1 in T1. set (st1 := wrote _ _) in T1.
  destruct (login_turn mt request2 [] st1 R1 R2 R3 R4 Hh) as (raw2 & q2 & r2 & A2 & B2 & T2).
  { exact B1. }
  assert (Hsafe : DecodeTextKV (EncodeTextKV offered) = offered) by by vm_compute.
  assert (S2 := login_operational raw2 request2 q2 (set_tc_r r2 st1) (uint32 (sn + 1)) offered A2 eq_refl Hsafe
    eq_refl eq_refl ltac:(apply wrap_range; lia)).
  change (tg_negotiationConfig (set_tc_r r2 st1)) with (tg_negotiationConfig st) in S2. rewrite Hn in S2.
  specialize (S2 response2_ok). fold (target_answers neg) in S2. fold response2 in S2.
  rewrite S2 in T2. eexists. split; [|split; [|split; [|split]]].
  - cbn [serveConn]. rewrite (try_Done _ _ _ () _ T1). by rewrite (try_Done _ _ _ () _ T2).
  - cbn. reflexivity.
  - by destruct B2.
  - split; [split; [|apply wrap_range; lia]|by apply eq_trans with (1 := Update_delta _ _ _), Update_delta]. cbn [wrote after_login set_statSN set_conn Target.set_session tg_session].
    rewrite <- Update_expCmdSN. apply Update_width; [|by vm_compute].
    change (tg_session (set_tc_r r2 st1)) with (Update 1 false (tg_session st)).2. rewrite <- Update_expCmdSN.
    by apply Update_width; [|by vm_compute].
  - reflexivity.
Qed.

End login.


(** ** From the dial to the results *)

Section dialled.
#[local] Set Default Proof Using "All".
Context (stale : bytes) (range : gmap string string -> list (string * string)) (rnd : Login.Randomness).
Context (cfg : Login.loginConfig) (isid : bytes) (neg : NegotiationConfig) (sn : Z).
Hypothesis Hcfg : plain_login cfg rnd isid.
Hypothesis Hneg : neg_ok neg.
Hypothesis Hsn : u32 sn.

(** The session parameters both sides have *)
Definition logged_in_params : NegotiatedParams :=
  set_ISID isid (set_ExpStatSN (uint32 (uint32 (sn + 1) + 1)) (set_CmdSN 1
    (set_TargetName (Login.lc_targetName cfg) (set_TSIH 1 (agreed_params neg))))).

Lemma logged_in_fields (np := logged_in_params) :
  np_MaxRecvDataSegmentLength np = default 8192 (nc_MaxRecvDataSegmentLength neg) /\
  np_MaxBurstLength np = agreed_min "MaxBurstLength" 262144 (nc_MaxBurstLength neg) /\
  np_FirstBurstLength np = Z.min (agreed_min "FirstBurstLength" 65536 (nc_FirstBurstLength neg)) (np_MaxBurstLength np) /\
  np_ImmediateData np = default true (nc_ImmediateData neg) /\
  np_MaxRecvDataSegmentLength np = default 8192 (nc_MaxRecvDataSegmentLength neg) /\
  np_CmdSN np = 1 /\ np_ISID np = isid /\ np_TSIH np = 1 /\
  np_ExpStatSN np = uint32 (uint32 (sn + 1) + 1).
Proof using. repeat split. Qed.

(** ... and the ones the login settles whatever the target is configured to answer *)
Lemma logged_in_fixed (np := logged_in_params) :
  np_HeaderDigest np = false /\ np_DataDigest np = false /\ np_MaxConnections np = 1 /\ np_InitialR2T np = true /\
  np_DefaultTime2Wait np = 2 /\ np_DefaultTime2Retain np = 20 /\ np_MaxOutstandingR2T np = 1 /\
  np_DataPDUInOrder np = true /\ np_DataSequenceInOrder np = true /\ np_ErrorRecoveryLevel np = 0.
Proof using. repeat split. Qed.

(** What the initiator writes during the login *)
Definition login_requests : bytes := Login.req_wire (request1 cfg isid) ++ Login.req_wire (request2 cfg isid sn).

(** What the target sends during the login *)
Definition login_stream : bytes :=
  Login.resp_wire (response1 cfg isid sn) ++ Login.resp_wire (response2 cfg isid neg sn).

(** The login of the initiator on what the target answers *)
Lemma login_with_target opts : Login.applyOptions opts = cfg ->
  exists r', rd_bytes r' = [] /\
    Login.Login stale range rnd (net_reader login_stream) (mkWriter [] []) opts
    = (Ok (logged_in_params, Login.mkConnConfig false false (default 8192 (nc_MaxRecvDataSegmentLength neg))), r',
       mkWriter (Login.req_wire (request1 cfg isid) ++ Login.req_wire (request2 cfg isid sn)) []).
Proof.
  intros Hopts.
  pose proof (plain_offers _ _ _ Hcfg) as Hoff.
  destruct (negotiated neg Hneg) as (kvs & Hkvs & Hagreed).
  pose proof (Login.Login_None stale range rnd (net_reader login_stream) (mkWriter [] []) opts isid
    (response1 cfg isid sn) (response2 cfg isid neg sn) []) as Hrun0. rewrite Hopts in Hrun0. cbv zeta in Hrun0.
  pose proof Hcfg as Hp. destruct Hp as [Hchap _ _ (Hi1 & Hi2 & Hi3) Ht [Hk1 Hk2]]. rewrite Hoff in Hrun0.
  destruct Hrun0 as [_ Hrun0]; [exact Hchap|exact Hi1|exact Hi2|exact Hi3|exact Ht|reflexivity|exact Hk2| | | | |].
  - exact (offered_length cfg rnd isid neg sn Hcfg Hneg Hsn).
  - exact (response1_ok cfg rnd isid neg sn Hcfg Hneg Hsn).
  - exact (response2_ok cfg rnd isid neg sn Hcfg Hneg Hsn).
  - unfold rd_bytes, net_reader, login_stream. cbn [rd_chunks concat]. by rewrite !app_nil_r.
  - destruct (Hrun0 eq_refl) as (r' & Hr' & _ & Hrun). exists r'. split; [done|]. rewrite Hrun.
    change (LoginResp_Data (response2 cfg isid neg sn)) with (EncodeTextKV (target_answers neg)).
    rewrite Hkvs. cbn [mbind result_bind negb Z.eqb LoginResp_StatusClass response1 response2 login_reply].
    cbv zeta. rewrite Hagreed. reflexivity.
Qed.

(** Both sides together *)
Lemma login_both opts mt st : Login.applyOptions opts = cfg -> tc_statSN (tg_conn st) = sn ->
  mt_handlers mt !! OpLoginReq = Some handleLogin -> tg_negotiationConfig st = neg -> counters_ok st ->
  exists st' r',
    serveConn 2 mt (receiving login_requests st) = Done (Ok (), st') /\ rd_bytes (tc_r (tg_conn st')) = [] /\
    w_out (tc_w (tg_conn st')) = login_stream /\ answered_ok st st' /\
    Login.Login stale range rnd (net_reader login_stream) (mkWriter [] []) opts
    = (Ok (logged_in_params, Login.mkConnConfig false false (np_MaxRecvDataSegmentLength logged_in_params)), r',
       mkWriter login_requests []) /\
    rd_bytes r' = [] /\ np_ExpStatSN logged_in_params = tc_statSN (tg_conn st').
Proof.
  intros Hopts Hst Hh Hn [He _].
  destruct (target_serves_login cfg rnd isid neg sn Hcfg Hneg Hsn mt st Hh Hn Hst He)
    as (st' & Hserve & Hout & Hin & Hcnt & Hsn').
  destruct (login_with_target opts Hopts) as (r' & Hr' & Hlogin).
  destruct logged_in_fields as (Hm & Hf). exists st', r'. rewrite Hm, Hsn'.
  split; [exact Hserve|]. split; [exact Hin|]. split; [exact Hout|]. split; [exact Hcnt|].
  split; [exact Hlogin|]. split; [exact Hr'|]. apply Hf.
Qed.

(** The dial, over a network that delivers what the target sends *)
Lemma dialled dialContext addr settings : Options.dial_login settings = cfg ->
  (forall t, dialContext t (normalizePortal addr) = Ok (net_reader login_stream, mkWriter [] [])) ->
  Dial.Dial dialContext stale range rnd addr (map Options.option_of settings)
  = Ok (NewSession logged_in_params false false (Options.dial_session (of_bytes (normalizePortal addr)) settings)).
Proof.
  intros Hopts Hnet. destruct (login_with_target _ Hopts) as (r' & _ & Hlogin).
  unfold Dial.Dial, Dial.transport_Dial. rewrite Hnet, Hlogin. reflexivity.
Qed.

End dialled.

(** A session just made, connected to a target, is at rest. *)
Lemma start_idle params scfg st : counters_ok st -> idle (start (NewSession params false false scfg) st).
Proof.
  intros Hst. split; try done.
  - split; [done|]. split; [done|]. cbn. lia.
  - cbn. intros i Hi. lia.
  - intros i _. apply not_elem_of_nil.
Qed.

Lemma start_steady params scfg st : np_CmdSN params = 1 -> u32 (np_ExpStatSN params) ->
  spare (st_maxCmdSNDelta (tg_session st)) -> steady (start (NewSession params false false scfg) st).
Proof.
  intros Hc He Hd. destruct (Dial.NewSession_ready params false false scfg Hc He) as (H1 & H2 & _ & _ & _ & H3 & H4).
  split; [|by split|done|by split|done]. exists 1, 0. cbn. rewrite Hc. by split_and!; vm_compute.
Qed.

(** The handlers of a target that accepts logins and answers reads *)
Lemma handles_login data m mt0 :
  mt_handlers (HandleSCSIReadMultiPDU data m (HandleLogin mt0)) !! OpLoginReq = Some handleLogin.
Proof. unfold HandleSCSIReadMultiPDU, HandleLogin, Handle. cbn [mt_handlers]. by rewrite lookup_insert_ne, lookup_insert_eq. Qed.

(** ** Properties *)


(** An initiator with the default settings, and a target with its own *)
Definition test_rnd : Login.Randomness := Login.mkRandomness (Ok [1; 2; 3; 4; 5]) (Ok 0) (Ok []).
Definition test_isid : bytes := [0x40; 1; 2; 3; 4; 5].
Definition test_neg : NegotiationConfig := mkNegotiationConfig (Some false) (Some true) None (Some 4096) (Some 2048) (Some 2).
Definition connected (neg : NegotiationConfig) : TargetState :=
  mkTargetState (newTargetConn (net_reader [])) NewSessionState 0 neg false.

Lemma test_plain : plain_login (Options.dial_login [Options.Target "iqn.x"]) test_rnd test_isid.
Proof.
  split; [reflexivity|by split|reflexivity| |by vm_compute|split].
  - split; [reflexivity|]. split; [reflexivity|]. apply (bool_decide_unpack _). by vm_compute.
  - apply (bool_decide_unpack _). by vm_compute.
  - apply (bool_decide_unpack _). by vm_compute.
Qed.


(** From the dial to the results, for every target that serves commands *)
Lemma dial_serves dialContext stale range rnd addr settings isid mt neg st accepts answer needed
    (works : list Work) :
  let cfg := Options.dial_login settings in
  let requests := login_requests cfg isid (tc_statSN (tg_conn st)) in
  plain_login cfg rnd isid -> neg_ok neg -> tg_negotiationConfig st = neg -> counters_ok st ->
  spare (st_maxCmdSNDelta (tg_session st)) ->
  mt_handlers mt !! OpLoginReq = Some handleLogin -> Serves mt accepts answer needed ->
  (forall t, dialContext t (normalizePortal addr) = Ok (net_reader (match serveConn 2 mt (receiving requests st) with
     Done (_, st') => w_out (tc_w (tg_conn st')) | _ => [] end), mkWriter [] [])) ->
  Forall (fun w => Command_ok (wk_cmd w) /\
    accepts (logged_in_params cfg isid neg (tc_statSN (tg_conn st))) (wk_cmd w)) works ->
  works_ok needed 0 works ->
  exists s st' sy',
    Dial.Dial dialContext stale range rnd addr (map Options.option_of settings) = Ok s /\
    serveConn 2 mt (receiving requests st) = Done (Ok (), st') /\
    all_run mt works (start s st') = Done (map Ok (seq 0 (length works)), sy') /\
    (forall k w, works !! k = Some w -> exists t, ss_objs (sy_session sy') !! k = Some t /\
       ch_buf (tk_resultCh t) = [answer (wk_cmd w)]) /\
    idle sy' /\ steady sy'.
Proof.
  intros cfg requests Hcfg Hneg Hn Hst Hd Hh Hserves Hnet Hacc Hworks.
  destruct (login_both stale range rnd cfg isid neg (tc_statSN (tg_conn st)) Hcfg Hneg (proj2 Hst)
    (Options.dc_loginOpts (Options.dialOptions (map Options.option_of settings))) mt st eq_refl eq_refl
    Hh Hn Hst) as (st' & r' & Hserve & _ & Hout & [Hcnt Hdelta] & _).
  fold requests in Hserve. rewrite Hserve, Hout in Hnet.
  pose proof (dialled stale range rnd cfg isid neg _ Hcfg Hneg (proj2 Hst) dialContext addr settings eq_refl Hnet) as Hdial.
  set (s := NewSession _ _ _ _) in Hdial.
  destruct (all_served mt accepts answer needed works (start s st')) as (sy' & Hrun & Hanswers & _ & Hid' & Hst'); try done.
  - by apply start_idle.
  - apply start_steady; [done|by apply wrap_range|by rewrite Hdelta].
  - by exists s, st', sy'.
Qed.

(** The rounds a read of [len] bytes may take, of a target that has [have] bytes and
    sends at most [m] in one Data-In *)
Definition read_rounds (have m : nat) (cmd : Command) : nat :=
  2 * ((Nat.min (Z.to_nat (cmd_ExpectedDataTransferLen cmd)) have + m - 1) / m) + 2.

(** C1.  From the dial to the data.  A caller dials, without CHAP, digests or overrides,
    a target whose handlers are [HandleLogin] and [HandleSCSIReadMultiPDU], however it
    is configured, over a network that delivers what each side writes: the dial
    succeeds, and on the session it returns every one of a list of reads, submitted
    one after the other, completes with GOOD and exactly the first bytes of the
    target's data, as many as it asked for and there are, in every fair schedule of
    the session's goroutines and the target.  The results of the reads stay with
    their callers, and the session remains at rest and ready for more. *)
Theorem dial_then_commands dialContext stale range rnd addr settings isid neg st (data : bytes) (m : nat)
    (mt0 : MockTarget) (works : list Work) :
  let cfg := Options.dial_login settings in
  let requests := login_requests cfg isid (tc_statSN (tg_conn st)) in
  let mt := HandleSCSIReadMultiPDU data (Z.of_nat m) (HandleLogin mt0) in
  plain_login cfg rnd isid -> neg_ok neg -> tg_negotiationConfig st = neg -> counters_ok st ->
  spare (st_maxCmdSNDelta (tg_session st)) ->
  (0 < m)%nat -> Z.of_nat m < 2 ^ 24 -> data <> [] ->
  (forall t, dialContext t (normalizePortal addr) = Ok (net_reader (match serveConn 2 mt (receiving requests st) with
     Done (_, st') => w_out (tc_w (tg_conn st')) | _ => [] end), mkWriter [] [])) ->
  Forall (fun w => Command_ok (wk_cmd w) /\ cmd_Data (wk_cmd w) = None /\ cmd_Read (wk_cmd w) = true /\
    0 < cmd_ExpectedDataTransferLen (wk_cmd w)) works ->
  works_ok (read_rounds (length data) m) 0 works ->
  exists s st' sy',
    Dial.Dial dialContext stale range rnd addr (map Options.option_of settings) = Ok s /\
    serveConn 2 mt (receiving requests st) = Done (Ok (), st') /\
    all_run mt works (start s st') = Done (map Ok (seq 0 (length works)), sy') /\
    (forall k w, works !! k = Some w -> exists t, ss_objs (sy_session sy') !! k = Some t /\
       ch_buf (tk_resultCh t) = [mkResult 0 []
         (Some (NewReader (take (Z.to_nat (cmd_ExpectedDataTransferLen (wk_cmd w))) data))) false false 0 None]) /\
    idle sy' /\ (exists sn w', ready sn w' (sy_session sy')).
Proof.
  intros cfg requests mt Hcfg Hneg Hn Hst Hd Hm Hm24 Hdata Hnet Hreads Hworks.
  pose proof (HandleSCSIReadMultiPDU_serves data m (HandleLogin mt0) Hm Hm24 Hdata) as Hserves.
  destruct (dial_serves dialContext stale range rnd addr settings isid mt neg st _ _ _ works Hcfg Hneg Hn Hst Hd
    (handles_login data (Z.of_nat m) mt0) Hserves Hnet Hreads Hworks) as (s & st' & sy' & H1 & H2 & H3 & H4 & H5 & H6).
  exists s, st', sy'. split; [exact H1|]. split; [exact H2|]. split; [exact H3|]. split; [exact H4|].
  split; [exact H5|]. exact (steady_ready sy' H6).
Qed.

(** Two reads, of five bytes and of all seven, from a target that sends two at a time *)
Definition test_read (n : Z) (i : nat) : Work :=
  mkWork (mkCommand (0x28 :: zeros 15) true false n 3 0 None) (mkCtxSched false false) (mkCtxSched false false)
    (replicate 10 (TaskTurn TakePDU i :: test_round)).

Lemma test_read_ok n i k : (k <= 10)%nat -> work_ok i k (test_read n i).
Proof.
  intros Hk. split; [done|..|done]; apply Forall_replicate.
  - split; [exists [1; 2]|split; [|split]]; apply list_elem_of_In; simpl; tauto.
  - by repeat constructor.
Qed.

Lemma dial_then_commands_witness :
  let settings := [Options.Target "iqn.x"] in
  let mt := HandleSCSIReadMultiPDU [1; 2; 3; 4; 5; 6; 7] 2 (HandleLogin NewMockTarget) in
  let requests := login_requests (Options.dial_login settings) test_isid 1 in
  let network := fun (_ : Z) (_ : bytes) => Ok (net_reader (match serveConn 2 mt (receiving requests (connected test_neg)) with
     Done (_, st') => w_out (tc_w (tg_conn st')) | _ => [] end), mkWriter [] []) in
  exists s st' sy' t1 t2,
    Dial.Dial network [] map_to_list test_rnd (to_bytes "10.0.0.7") (map Options.option_of settings) = Ok s /\
    all_run mt [test_read 5 0; test_read 7 1] (start s st') = Done ([Ok 0; Ok 1], sy')%nat /\
    ss_objs (sy_session sy') !! 0%nat = Some t1 /\ ss_objs (sy_session sy') !! 1%nat = Some t2 /\
    ch_buf (tk_resultCh t1) = [mkResult 0 [] (Some (NewReader [1; 2; 3; 4; 5])) false false 0 None] /\
    ch_buf (tk_resultCh t2) = [mkResult 0 [] (Some (NewReader [1; 2; 3; 4; 5; 6; 7])) false false 0 None].
Proof.
  intros settings mt requests network.
  destruct (dial_then_commands network [] map_to_list test_rnd (to_bytes "10.0.0.7") settings test_isid
    test_neg (connected test_neg) [1; 2; 3; 4; 5; 6; 7] 2 NewMockTarget [test_read 5 0; test_read 7 1])
    as (s & st' & sy' & H1 & _ & H2 & H3 & _).
  - exact test_plain.
  - by vm_compute.
  - reflexivity.
  - by vm_compute.
  - by vm_compute.
  - exact Nat.lt_0_2.
  - reflexivity.
  - done.
  - reflexivity.
  - repeat (constructor; [split; [unfold Command_ok; repeat (split; [vm_compute; done|]);
      apply (bool_decide_unpack _); by vm_compute|done]|]). constructor.
  - intros [|[|k]] w Hk; [injection Hk as <-..|done]; apply test_read_ok; apply Nat.leb_le; reflexivity.
  - destruct (H3 0%nat _ eq_refl) as (t1 & E1 & R1). destruct (H3 1%nat _ eq_refl) as (t2 & E2 & R2).
    exists s, st', sy', t1, t2. split; [exact H1|]. split; [exact H2|]. split; [exact E1|]. split; [exact E2|].
    split; [exact R1|exact R2].
Defined.
