(* ===== verification/ServedStatus.v ===== *)
(** Commands that the target answers with a SCSI Response: commands without data,
    writes whose data needs no R2T, and commands that fail
    ([src/internal/session/session.go], [src/test/target.go]). *)
From S2P Require Import Prelude Errors Bhs PduTactics PduInitiator PduTarget Pdu GoIO Digest Framer.
From S2P Require Import Chan Serial Router Pump Text Negotiation CmdWindow Config Types Task Reassembly.
From S2P Require Import DataOut Session Unsolicited Lifecycle TaskLoop Write Loops Target Serving Fair System Exchange Served.
From S2P Require Import Parse Sense Cdb Responses ApiTypes Api.
#[local] Open Scope string_scope.
#[local] Open Scope list_scope.
#[local] Open Scope Z_scope.

(** ** Handlers that answer with one response *)

Record plain_response (r : SCSIResponse) (cmd : SCSICommand) (status : Z) (seg : bytes) : Prop := mkPlainResponse {
  pr_sendable : sendable (PSCSIResponse r);
  pr_itt : InitiatorTaskTag (SCSIResponse_Hdr r) = InitiatorTaskTag (SCSICommand_Hdr cmd);
  pr_status : SCSIResponse_Status r = status;
  pr_data : SCSIResponse_Data r = seg;
  pr_residual : SCSIResponse_Overflow r = false /\ SCSIResponse_Underflow r = false /\ SCSIResponse_ResidualCount r = 0;
}.

(** The response opens the command window behind the command. *)
Definition opens (r : SCSIResponse) (cmd : SCSICommand) (d : Z) : Prop :=
  SCSIResponse_ExpCmdSN r = uint32 (SCSICommand_CmdSN cmd + 1) /\
  SCSIResponse_MaxCmdSN r = uint32 (uint32 (SCSICommand_CmdSN cmd + 1) + d).

(** The target [mt] answers every command with status [status] and data segment
    [seg]; [resp] is the response to a command, of the target's command sequencing
    and StatSN. *)
Class Responds (mt : MockTarget) (resp : SCSICommand -> SessionState -> Z -> SCSIResponse) (status : Z) (seg : bytes) : Prop :=
  responds : exists h : PDUHandler, mt_handlers mt !! OpSCSICommand = Some h /\
    forall cmd raw st (r := resp cmd (tg_session st) (tc_statSN (tg_conn st))),
      SCSICommand_ok cmd -> counters_ok st -> writable st -> plain_response r cmd status seg /\
      exists st', h raw (PSCSICommand cmd) st = Done (Ok (), wrote (WriteRawPDU None (raw_of (PSCSIResponse r)) []) st') /\
        tc_r (tg_conn st') = tc_r (tg_conn st) /\ tc_w (tg_conn st') = tc_w (tg_conn st) /\ answered_ok st st' /\
        (Immediate (SCSICommand_Hdr cmd) = false -> spare (st_maxCmdSNDelta (tg_session st)) -> exists d, opens r cmd d /\ spare d).

(** The fixed window of most handlers *)
Lemma after10_opens cmd status sn dsl seg :
  opens (scsi_reply cmd dsl status sn (after1 (SCSICommand_CmdSN cmd)) (after10 (SCSICommand_CmdSN cmd)) seg) cmd 9 /\ spare 9.
Proof.
  split; [|done]. split; [done|]. cbn. unfold after10, wrap. rewrite Zplus_mod_idemp_l. f_equal. lia.
Qed.

Lemma scsi_reply_plain cmd status sn e x seg : SCSICommand_ok cmd -> u8 status -> u32 sn -> u32 e -> u32 x ->
  Z.of_nat (length seg) < 2 ^ 24 -> plain_response (scsi_reply cmd (len32 seg) status sn e x seg) cmd status seg.
Proof.
  intros ((_ & _ & _ & _ & Hi) & _) Hs Hsn He Hx Hl.
  assert (Hlen : len32 seg = Z.of_nat (length seg)) by (apply wrap_id; unfold in_width; lia).
  split; try done. split; [|split; [done|split; [exact Hlen|cbn; rewrite Hlen; lia]]].
  split; [apply reply_header_ok; [done|apply wrap_range; lia]|].
  repeat (split; [first [done|by vm_compute]|]). by vm_compute.
Qed.

#[export] Instance HandleSCSIWrite_responds mt0 : Responds (HandleSCSIWrite mt0)
  (fun cmd _ sn => scsi_reply cmd 0 0 sn (after1 (SCSICommand_CmdSN cmd)) (after10 (SCSICommand_CmdSN cmd)) []) 0 [].
Proof.
  eexists. split; [apply lookup_insert_eq|]. intros cmd raw st r Hc [He Hs] Hw.
  assert (Hp : plain_response r cmd 0 []).
  { refine (scsi_reply_plain cmd 0 _ _ _ [] Hc _ Hs _ _ _); [by vm_compute|apply wrap_range; lia..|cbn; lia]. }
  split; [done|]. unfold as_SCSICommand. rewrite (SM_bind_Done _ _ st cmd st) by done.
  rewrite (SM_bind_Done _ _ _ _ _ (NextStatSN_Done _ Hs st eq_refl)). unfold sendGood.
  eexists. split; [by apply SendPDU_Done; [apply Hp|]|]. split; [done|]. split; [done|].
  split; [|intros _ _; eexists; apply after10_opens]. split; [|done]. split; [done|]. apply wrap_range. lia.
Qed.

(** The sense data is framed so that the session finds it. *)
Lemma responseSense_segment sense : Z.of_nat (length sense) < 2 ^ 16 -> responseSense (sense_segment sense) = sense.
Proof.
  intros Hl. assert (Hn : (u16 (Z.of_nat (length sense)))) by (unfold in_width; lia).
  unfold responseSense, sense_segment. rewrite wrap_id by done.
  pose proof (length_be_bytes 2 (Z.of_nat (length sense))) as Hb.
  set (b := be_bytes 2 _) in *. rewrite length_app, Hb.
  destruct (Nat.leb_spec 2 (2 + length sense)); [|lia].
  assert (Hg : get_be 2 0 (b ++ sense) = Z.of_nat (length sense)).
  { apply get_be_eq; [|done]. unfold sub. rewrite drop_0. by apply take_app_length'. }
  rewrite Hg, Nat2Z.id. destruct (Nat.leb_spec (length sense) (2 + length sense - 2)); [|lia].
  unfold sub. rewrite drop_app_length' by done. by apply take_ge.
Qed.

Lemma length_sense_segment sense : length (sense_segment sense) = (2 + length sense)%nat.
Proof. unfold sense_segment. by rewrite length_app, length_be_bytes. Qed.

#[export] Instance HandleSCSIError_responds mt0 status sense :
  u8 status -> Z.of_nat (length sense) < 2 ^ 16 -> Responds (HandleSCSIError status sense mt0)
  (fun cmd _ sn => scsi_reply cmd (len32 (sense_segment sense)) status sn (after1 (SCSICommand_CmdSN cmd))
    (after10 (SCSICommand_CmdSN cmd)) (sense_segment sense)) status (sense_segment sense).
Proof.
  intros Hst Hl. eexists. split; [apply lookup_insert_eq|]. intros cmd raw st r Hc [He Hs] Hw.
  assert (Hp : plain_response r cmd status (sense_segment sense)).
  { apply scsi_reply_plain; [done|done|done|apply wrap_range; lia..|rewrite length_sense_segment; lia]. }
  split; [done|]. unfold as_SCSICommand. rewrite (SM_bind_Done _ _ st cmd st) by done.
  rewrite (SM_bind_Done _ _ _ _ _ (NextStatSN_Done _ Hs st eq_refl)).
  eexists. split; [by apply SendPDU_Done; [apply Hp|]|]. split; [done|]. split; [done|].
  split; [|intros _ _; eexists; apply after10_opens]. split; [|done]. split; [done|]. apply wrap_range. lia.
Qed.

(** The data segment of [HandleSCSIWithStatus] *)
Definition status_segment (sense : bytes) : bytes := if Nat.ltb 0 (length sense) then sense_segment sense else [].

#[export] Instance HandleSCSIWithStatus_responds mt0 status sense :
  u8 status -> Z.of_nat (length sense) < 2 ^ 16 -> Responds (HandleSCSIWithStatus status sense mt0)
  (fun cmd ss sn => let '(e, x, _) := Update (SCSICommand_CmdSN cmd) (Immediate (SCSICommand_Hdr cmd)) ss in
    scsi_reply cmd (len32 (status_segment sense)) status sn e x (status_segment sense)) status (status_segment sense).
Proof.
  intros Hst Hl. eexists. split; [apply lookup_insert_eq|]. intros cmd raw st r Hc [He Hs] Hw.
  assert (Hcs : u32 (SCSICommand_CmdSN cmd)) by (unfold SCSICommand_ok in Hc; tauto).
  destruct (Update_width (SCSICommand_CmdSN cmd) (Immediate (SCSICommand_Hdr cmd)) (tg_session st) He Hcs) as [Hwe Hwx].
  pose proof (Update_expCmdSN (SCSICommand_CmdSN cmd) (Immediate (SCSICommand_Hdr cmd)) (tg_session st)) as Hss.
  pose proof (Update_delta (SCSICommand_CmdSN cmd) (Immediate (SCSICommand_Hdr cmd)) (tg_session st)) as Hde.
  assert (Hnx : Immediate (SCSICommand_Hdr cmd) = false -> (Update (SCSICommand_CmdSN cmd) (Immediate (SCSICommand_Hdr cmd)) (tg_session st)).1
    = (uint32 (SCSICommand_CmdSN cmd + 1), uint32 (uint32 (SCSICommand_CmdSN cmd + 1) + st_maxCmdSNDelta (tg_session st))))
    by (intros ->; apply Update_next).
  unfold as_SCSICommand. rewrite (SM_bind_Done _ _ st cmd st) by done.
  rewrite (SM_bind_Done _ _ _ _ _ (NextStatSN_Done _ Hs st eq_refl)). unfold session_Update, mbind, SM_bind.
  change (tg_session (set_statSN _ st)) with (tg_session st). subst r.
  destruct (Update _ _ _) as [[e x] ss]. cbn [fst snd] in Hwe, Hwx, Hss, Hde, Hnx. cbv zeta.
  set (r := scsi_reply cmd _ _ _ _ _ _). assert (Hp : plain_response r cmd status (status_segment sense)).
  { apply scsi_reply_plain; [done|done|done|done|done|]. unfold status_segment.
    destruct (Nat.ltb _ _); [rewrite length_sense_segment; lia|cbn; lia]. }
  split; [done|]. eexists. split; [apply SendPDU_Done; [apply Hp|done]|]. split; [done|]. split; [done|].
  split; [split; [split; cbn; [by rewrite <- Hss|apply wrap_range; lia]|exact Hde]|].
  intros Him Hd. injection (Hnx Him) as -> ->. by exists (st_maxCmdSNDelta (tg_session st)).
Qed.

(** ** The exchange *)

Lemma attach_command p imm : exists cmd, attachDataSegment (PSCSICommand p) imm = PSCSICommand cmd /\
  SCSICommand_Hdr cmd = SCSICommand_Hdr p /\ SCSICommand_CmdSN cmd = SCSICommand_CmdSN p /\
  (SCSICommand_ok p -> SCSICommand_ok cmd).
Proof. unfold attachDataSegment. destruct (Nat.eqb _ _); eexists; by split_and!. Qed.

Section status.
#[local] Set Default Proof Using "All".
Context (mt : MockTarget) (resp : SCSICommand -> SessionState -> Z -> SCSIResponse) (status : Z) (seg : bytes).
Context `{Hmt : !Responds mt resp status seg}.
Context (p cmd : SCSICommand) (imm : bytes) (raw0 : RawPDU) (ss : SessionState) (sn : Z).

#[local] Abbreviation itt := (InitiatorTaskTag (SCSICommand_Hdr p)).

Hypothesis Hraw0 : unstamped raw0 /\ DecodeBHS (raw_BHS raw0) = Ok (PSCSICommand p) /\ raw_DataSegment raw0 = imm.
Hypothesis Hcmd : attachDataSegment (PSCSICommand p) imm = PSCSICommand cmd.
Hypothesis Hhdr : SCSICommand_Hdr cmd = SCSICommand_Hdr p.
Hypothesis Hok : SCSICommand_ok cmd.
Hypothesis Hitt : itt <> reservedITT.
Hypothesis Hss : u32 (st_expCmdSN ss) /\ u32 sn.

(** A target in the state that the answer is of *)
Definition status_target : TargetState :=
  mkTargetState (mkTargetConn (net_reader []) (mkWriter [] []) sn) ss 0
    (mkNegotiationConfig None None None None None None) false.

Definition answer : SCSIResponse := resp cmd ss sn.
Definition status_result : Result := mkResult status (responseSense seg) None false false 0 None.

(** A task that waits for its status *)
Definition awaiting (t : task) : Prop :=
  tk_itt t = itt /\ (tk_isRead t = false \/ default [] (tk_buf t) = []) /\ tk_streaming t = false /\
  tk_resultCh t = make_chan 1 /\ tk_done t = false.

Definition task_state (i : nat) (t : task) : Prop :=
  match i with O => awaiting t | _ => ch_buf (tk_resultCh t) = [status_result] end.

Lemma answer_plain : plain_response answer cmd status seg.
Proof.
  destruct Hmt as (h & _ & H). destruct Hss as [He Hsn].
  by destruct (H cmd raw0 status_target).
Qed.

Lemma answer_opens : Immediate (SCSICommand_Hdr cmd) = false -> spare (st_maxCmdSNDelta ss) ->
  exists d, opens answer cmd d /\ spare d.
Proof. destruct Hmt as (h & _ & H). destruct (H cmd raw0 status_target) as (_ & st' & _ & _ & _ & _ & Ho); done. Qed.

Lemma status_answer i : (i < 1)%nat -> unstamped (raw_of (PSCSIResponse answer)) /\ raw_itt (raw_of (PSCSIResponse answer)) = itt.
Proof.
  intros _. destruct answer_plain as [Hs Hi _ _ _]. destruct (raw_of_decodes _ Hs) as (Hu & _). split; [done|].
  rewrite <- (raw_of_itt _ Hs), <- Hhdr, <- Hi. done.
Qed.

Lemma status_answers st : counters_ok st -> tg_session st = ss /\ tc_statSN (tg_conn st) = sn ->
  exists st', serveConn_turn mt (receiving (WriteRawPDU None raw0 []) st) = Done (Ok (), st') /\
    rd_bytes (tc_r (tg_conn st')) = [] /\
    w_out (tc_w (tg_conn st')) = wires None (map (fun _ => raw_of (PSCSIResponse answer)) (seq 0 1)) /\ answered_ok st st'.
Proof.
  intros Hcnt [E1 E2]. destruct Hraw0 as (Hu & Hd & Hdata), Hmt as (h & Hh & Hrun). set (st0 := receiving _ st).
  destruct (serveConn_turn_handles mt raw0 (PSCSICommand p) [] st0 h Hu Hd) as (r' & [Hrest _] & Hturn);
    [by rewrite Hdata, Hcmd|by split|]. rewrite Hdata, Hcmd in Hturn.
  destruct (Hrun cmd raw0 (set_tc_r r' st0) Hok Hcnt eq_refl) as (_ & st' & Hans & Er & Ew & Hcnt' & _).
  rewrite Hturn, Hans. eexists. split; [reflexivity|].
  change (tg_session (set_tc_r r' st0)) with (tg_session st). change (tc_statSN (tg_conn (set_tc_r r' st0))) with (tc_statSN (tg_conn st)).
  rewrite E1, E2. cbn. rewrite Er, Ew, app_nil_r. done.
Qed.

Lemma status_consume id i s t : ss_objs s !! id = Some t -> task_state i t -> (i < 1)%nat -> ch_closed (ss_writeCh s) = false ->
  exists s' t', taskLoop_PDU id (raw_of (PSCSIResponse answer)) s = Done (bool_decide (S i <> 1%nat), s') /\
    ss_objs s' = <[id := t']> (ss_objs s) /\ task_state (S i) t' /\ ss_writeCh s' = ss_writeCh s /\
    ss_router s' = (if decide (S i = 1%nat) then Unregister itt (ss_router s) else ss_router s) /\
    ss_tasks s' = (if decide (S i = 1%nat) then delete itt (ss_tasks s) else ss_tasks s) /\
    answered_by (SCSIResponse_ExpCmdSN answer) (SCSIResponse_MaxCmdSN answer) s s'.
Proof.
  intros Ho Ht Hi _. assert (i = O) as -> by lia. destruct Ht as (Ti & Tr & Ts & Tc & _).
  destruct answer_plain as [Hs _ Pst Pd (Po & Pu & Pr)]. destruct (raw_of_decodes _ Hs) as (_ & Hd & Hseg).
  destruct (response_turn id s t _ _ Ho Hd Tr Ts Tc) as (s' & t' & Hrun & E1 & E2 & E3 & E4 & E5 & E6).
  exists s', t'. rewrite !decide_True, <- Ti by done. split; [exact Hrun|]. split; [exact E1|]. split; [|done].
  cbn. rewrite E2, Hseg. unfold status_result. cbn. rewrite Pst, Pd, Po, Pu, Pr. done.
Qed.

Lemma status_running i t : (i < 1)%nat -> task_state i t -> tk_done t = false.
Proof. intros Hi H. assert (i = O) as -> by lia. apply H. Qed.

Definition status_conversation : Conversation mt := {|
  cv_itt := itt; cv_raw0 := raw0; cv_n := 1; cv_raw := fun _ => raw_of (PSCSIResponse answer);
  cv_state := task_state; cv_exp := SCSIResponse_ExpCmdSN answer; cv_max := SCSIResponse_MaxCmdSN answer;
  cv_target := fun st => tg_session st = ss /\ tc_statSN (tg_conn st) = sn;
  cv_itt_ok := Hitt; cv_some := Nat.lt_0_1; cv_command := proj1 Hraw0; cv_answer := status_answer;
  cv_running := status_running;
  cv_answers := status_answers; cv_consume := status_consume |}.
End status.

(** ** Properties *)

(** The data of a write, if there is any: some bytes, of which the session sends
    what it may without an R2T *)
Definition data_ok (params : NegotiatedParams) (data : option Reader) : Prop :=
  match data with
  | None => True
  | Some r => rd_bytes r <> [] /\ rd_err r = EOF /\ np_InitialR2T params = true /\
      (np_ImmediateData params = true -> (0 < immLen params)%nat /\ Z.of_nat (immLen params) < 2 ^ 24)
  end.

Lemma submit_task_awaits cmd sn s : awaiting (SCSICommand_wire (command_request (submitted_command cmd) (next_itt s) sn (ss_expStatSN s) []))
  (submit_task 0 cmd sn s).
Proof.
  unfold awaiting, submit_task, newTask. cbn. split; [done|]. split; [|by rewrite andb_false_r].
  rewrite andb_false_r. right. by destruct (_ && _).
Qed.

Lemma awaiting_immediate n r t p : awaiting p t -> awaiting p (with_immediate n r t).
Proof. by destruct t. Qed.

(** The immediate data of a command, and the task that has read it *)
Lemma immediate_of cmd sn w' s : data_ok (ss_params s) (cmd_Data cmd) -> exists imm t1,
  (if bool_decide (is_Some (cmd_Data cmd)) && np_ImmediateData (ss_params s)
   then readImmediate (ss_params s) (length (ss_objs s)) else mret (Ok []))
    (registered (submit_task 0 cmd sn s) w' s) = Done (Ok imm, registered t1 w' s) /\
  Z.of_nat (length imm) < 2 ^ 24 /\ (forall p, awaiting p (submit_task 0 cmd sn s) -> awaiting p t1).
Proof.
  intros Hd. destruct (cmd_Data cmd) as [r|] eqn:E.
  - destruct Hd as (Hne & Herr & _ & Himm). rewrite bool_decide_true by done. cbn [andb].
    destruct (np_ImmediateData (ss_params s)) eqn:Ei.
    + destruct (Himm eq_refl) as [Hpos Hl].
      destruct (readImmediate_ok (submit_task 0 cmd sn s) w' s r Hpos Hne Herr) as (r' & _ & _ & Hrun).
      { unfold submit_task. cbn. by rewrite E. }
      eexists _, _. split; [exact Hrun|]. split; [rewrite length_take; lia|].
      intros p. apply awaiting_immediate.
    + by exists [], (submit_task 0 cmd sn s).
  - by exists [], (submit_task 0 cmd sn s).
Qed.

(** The whole of the exchange *)
Lemma served_status (sy : System) (mt : MockTarget) (resp : SCSICommand -> SessionState -> Z -> SCSIResponse)
    (status : Z) (seg : bytes) (cmd : Command) (cx cx' : CtxSched) (sn : Z) (w' : cmdWindow)
    (rounds : list (list actor)) : let s := sy_session sy in
  Responds mt resp status seg ->
  idle sy -> ready sn w' s -> Command_ok cmd -> data_ok (ss_params s) (cmd_Data cmd) ->
  (cx_done cx' && cx_pick cx') = false ->
  Forall (fair_round (length (ss_loops s))) rounds -> Forall (Forall undisturbed) rounds -> (4 <= length rounds)%nat ->
  exists sy1 sy' t, on_session (Submit cx cx' cmd) sy = Done (Ok (length (ss_objs s)), sy1) /\
    run (turn mt) (concat rounds) sy1 = Done sy' /\
    ss_objs (sy_session sy') !! length (ss_objs s) = Some t /\
    ch_buf (tk_resultCh t) = [status_result status seg] /\
    ss_tasks (sy_session sy') = delete (next_itt s) (ss_tasks s) /\
    rt_pending (ss_router (sy_session sy')) !! next_itt s = None /\ idle sy' /\
    one_more s (sy_session sy') /\ (steady sy -> steady sy').
Proof.
  intros s Hmt Hidle Hready Hok Hdata Hcx Hr Hu Hlen.
  destruct (immediate_of cmd sn w' s Hdata) as (imm & t1 & Himm & Hl & Ht1).
  destruct (submit_queued sy cmd cx cx' sn w' imm t1 Hidle Hready Hok Hcx Hl)
    as (raw0 & Hsub & Hpok & Hitt & Hun & Hdec & Hseg & Hdig & Ho & Hch); [|exact Himm|].
  { intros Hd. by destruct (cmd_Data cmd); [apply Hdata|]. }
  fold s in Hsub, Hpok, Hitt, Hdec, Hdig, Ho, Hch. set (p := SCSICommand_wire _) in *.
  destruct (attach_command p imm) as (cmd' & Hatt & Hhdr & Hsn & Hok').
  pose (cv := status_conversation mt resp status seg p cmd' imm raw0 (tg_session (sy_target sy))
    (tc_statSN (tg_conn (sy_target sy))) (conj Hun (conj Hdec Hseg)) Hatt Hhdr (Hok' Hpok) Hitt (id_target sy Hidle)).
  destruct (exchange_completes _ (cv := cv) sy (length (ss_objs s)) (next_ch s) t1
    (submitted t1 w' [raw0] s) rounds Hidle (conj eq_refl eq_refl) eq_refl eq_refl Hdig Ho)
    as (sy' & t & Hrun & Ho' & Hst & Htasks & Hpend & Hid' & Hsince & Hdelta); [|exact Hch|exact Hr|exact Hu|exact Hlen|].
  { apply Ht1. exact (submit_task_awaits cmd sn s). }
  eexists _, sy', t. split; [exact Hsub|]. split; [exact Hrun|]. split; [exact Ho'|]. split; [exact Hst|].
  split; [rewrite Htasks; apply delete_insert_eq|]. split; [done|]. split; [done|].
  split; [by eapply (exchange_tables _ (cv := cv))|]. intros Hsteady.
  destruct (answer_opens mt resp status seg p cmd' imm raw0 (tg_session (sy_target sy)) (tc_statSN (tg_conn (sy_target sy)))
    (conj Hun (conj Hdec Hseg)) Hatt Hhdr (Hok' Hpok) Hitt (id_target sy Hidle)) as (d & [He Hx] & Hd).
  - by rewrite Hhdr.
  - apply (sd_target sy Hsteady).
  - rewrite Hsn in He, Hx. exact (exchange_steady _ (cv := cv) sy sy' _ _ _ sn w' _ Hsteady Hready He Hx Hd Hsince Hdelta).
Qed.

(** The target serves the commands it responds to, one after the other. *)
#[export] Instance Responds_serves mt resp status seg : Responds mt resp status seg ->
  Serves mt (fun params cmd => data_ok params (cmd_Data cmd)) (fun _ => status_result status seg) (fun _ => 4%nat).
Proof.
  intros Hmt sy w s Hid Hst Hcmd Hdata [Hcx Hr Hu Henough]. destruct (steady_ready sy Hst) as (sn & w' & Hready).
  destruct (served_status sy mt resp status seg (wk_cmd w) (wk_cx w) (wk_cx' w) sn w' (wk_rounds w))
    as (sy1 & sy' & t & H1 & H2 & H3 & H4 & _ & _ & H5 & H6 & H7); try done.
  exists sy1, sy', t. split_and!; try done; [apply H6..|by apply H7].
Qed.

(** What a typed operation makes of the result *)
Lemma status_checked status seg (result := status_result status seg) :
  if status =? 0 then check_result result = Some (Ok [])
  else exists se, status_SCSIError status (responseSense seg) = Some (Ok se) /\ check_result result = Some (Err (ESCSI se)).
Proof.
  unfold check_result. cbn [result status_result rs_Err rs_Status rs_SenseData rs_Overflow rs_Data].
  destruct (Z.eqb_spec status 0) as [->|Hne]; [done|].
  destruct (checkResult_error status (responseSense seg) Hne result eq_refl eq_refl eq_refl) as (se & m & Hse & _).
  exists se. rewrite Hse. done.
Qed.

(** The three handlers of the target's package that answer a command with a SCSI
    Response, with the status and the sense data they are given *)
Inductive status_handler : MockTarget -> Z -> bytes -> Prop :=
  | WritesGood mt0 : status_handler (HandleSCSIWrite mt0) 0 []
  | AnswersError mt0 status sense : u8 status -> Z.of_nat (length sense) < 2 ^ 16 ->
      status_handler (HandleSCSIError status sense mt0) status sense
  | AnswersStatus mt0 status sense : u8 status -> Z.of_nat (length sense) < 2 ^ 16 ->
      status_handler (HandleSCSIWithStatus status sense mt0) status sense.

(** The session reads from their responses the sense data they were given. *)
Lemma status_handler_responds mt status sense : status_handler mt status sense ->
  exists resp seg, Responds mt resp status seg /\ responseSense seg = sense.
Proof.
  intros [mt0|mt0 st sn Hst Hl|mt0 st sn Hst Hl]; eexists _, _.
  - split; [apply HandleSCSIWrite_responds|reflexivity].
  - split; [by apply HandleSCSIError_responds|by apply responseSense_segment].
  - split; [by apply HandleSCSIWithStatus_responds|]. unfold status_segment.
    destruct (Nat.ltb_spec 0 (length sn)) as [_|Hz]; [by apply responseSense_segment|]. by destruct sn; [|simpl in Hz; lia].
Qed.

(** C4.  A command that the target answers with a SCSI Response completes with that
    status, in every fair schedule: for each of the handlers [HandleSCSIWrite],
    [HandleSCSIError] and [HandleSCSIWithStatus], with any status and any sense data
    shorter than 64 KiB, and every
    command, of a read, of a write (whose data is sent without R2Ts or not at all)
    or of neither, the caller's one Result has the status and exactly the bytes of
    sense data the handler was given, no data and no residual; so a typed operation
    on it fails with the SCSI error of that status and sense, and succeeds when the
    status is good.  Afterwards the connection is at rest. *)
Theorem served_status_completes (sy : System) (mt : MockTarget) (status : Z) (sense : bytes) (cmd : Command)
    (cx cx' : CtxSched) (sn : Z) (w' : cmdWindow) (rounds : list (list actor)) :
  let s := sy_session sy in
  let result := mkResult status sense None false false 0 None in
  status_handler mt status sense ->
  idle sy -> ready sn w' s -> Command_ok cmd -> data_ok (ss_params s) (cmd_Data cmd) ->
  (cx_done cx' && cx_pick cx') = false ->
  Forall (fair_round (length (ss_loops s))) rounds -> Forall (Forall undisturbed) rounds -> (4 <= length rounds)%nat ->
  exists sy1 sy' t, on_session (Submit cx cx' cmd) sy = Done (Ok (length (ss_objs s)), sy1) /\
    run (turn mt) (concat rounds) sy1 = Done sy' /\
    ss_objs (sy_session sy') !! length (ss_objs s) = Some t /\ ch_buf (tk_resultCh t) = [result] /\
    (if status =? 0 then check_result result = Some (Ok [])
     else exists se, status_SCSIError status sense = Some (Ok se) /\ check_result result = Some (Err (ESCSI se))) /\
    ss_tasks (sy_session sy') = delete (next_itt s) (ss_tasks s) /\
    rt_pending (ss_router (sy_session sy')) !! next_itt s = None /\ idle sy'.
Proof.
  intros s result Hmt Hidle Hready Hok Hdata Hcx Hr Hu Hlen.
  destruct (status_handler_responds mt status sense Hmt) as (resp & seg & Hresp & Hsense).
  destruct (served_status sy mt resp status seg cmd cx cx' sn w' rounds) as (sy1 & sy' & t & H); try done.
  pose proof (status_checked status seg) as Hc. cbv zeta in Hc. unfold status_result in H, Hc. rewrite Hsense in H, Hc.
  exists sy1, sy', t. destruct_and!. by split_and!.
Qed.

(** A disk that is not ready, and a session that writes to it *)
Definition test_sense : bytes := [0x70; 0; 2; 0; 0; 0; 0; 10; 0; 0; 0; 0; 4; 1; 0; 0; 0; 0].

Lemma served_status_completes_witness :
  let cmd := mkCommand (0x2a :: zeros 15) false true 3 3 0 (Some (NewReader [7; 8; 9])) in
  exists sy1 sy' t, on_session (Submit (mkCtxSched false false) (mkCtxSched false false) cmd) test_system = Done (Ok 0%nat, sy1) /\
    run (turn (HandleSCSIWithStatus 2 test_sense NewMockTarget)) (concat (replicate 4 test_round)) sy1 = Done sy' /\
    ss_objs (sy_session sy') !! 0%nat = Some t /\
    ch_buf (tk_resultCh t) = [mkResult 2 test_sense None false false 0 None].
Proof.
  intros cmd.
  destruct (served_status_completes test_system (HandleSCSIWithStatus 2 test_sense NewMockTarget) 2 test_sense cmd
    (mkCtxSched false false) (mkCtxSched false false) 1 (mkCmdWindow 2 1 1 false) (replicate 4 test_round))
    as (sy1 & sy' & t & H1 & H2 & H3 & H4 & _).
  - apply AnswersStatus; by vm_compute.
  - exact test_system_idle.
  - exact test_system_ready.
  - unfold Command_ok. repeat (split; [vm_compute; done|]). apply (bool_decide_unpack _). by vm_compute.
  - split; [done|]. split; [done|]. split; [done|]. intros _.
    change (immLen _) with (Z.to_nat 8192). rewrite Z2Nat.id by done. split; [|done].
    apply Nat2Z.inj_lt. by rewrite Z2Nat.id by done.
  - done.
  - apply test_rounds.
  - apply test_rounds.
  - apply Nat.leb_le. reflexivity.
  - exists sy1, sy', t. by repeat (split; [done|]).
Defined.
